(* ===== verification/_CoqProject ===== *)
-Q . S2P
Prelude.v
GoLib.v
Naming.v
ApiTypes.v
Errors.v
NetUrl.v
WebhookReplay.v
WebhookHub.v
WebhookCR.v
Components.v
Parsers.v
Registry.v
K8sObjects.v
Manifests.v
Mutate.v
IngressManifest.v
Builders.v
ConfigBlock.v
CollectorConfig.v
Effects.v
Reconcile.v
EventTransformer.v
HubCalls.v
HubVariables.v
HubAdapter.v
HubController.v
ControllerCalls.v
Cache.v
IngressController.v
CollectorAdapter.v
ObserverConfig.v
ObserverAdapter.v
ReplayConfig.v
ReplayAdapter.v
DalAdapter.v
Visibility.v
ObjectNames.v
DeepCopy.v
ApiDeepCopy.v
InformerFactory.v
Triggers.v
Setup.v
Startup.v
LogMirror.v
