(* ===== verification/Prelude.v ===== *)
(** * Verification of the MDAI operator (mydecisive/mdai-operator)

    The operator is a Kubernetes controller manager written in Go.  Users
    describe data pipelines with six custom resources (MdaiHub, MdaiCollector,
    MdaiObserver, MdaiReplay, MdaiDal, MdaiIngress; api/v1).  Validating and
    defaulting webhooks (internal/webhook/v1) decide what the API server
    stores; controllers (internal/controller) reconcile each resource into
    config maps, deployments, Prometheus rules and restarts; the parsers of
    internal/components read collector configurations for the ports, probes
    and permissions they need; internal/naming builds the names of everything.

    ** How the parts correspond to the code

    - [Prelude], [GoLib]: outcomes of Go code ([go]: a value or a panic),
      shared tactics, and the parts of Go's standard library that the source
      uses (strings as bytes, UTF-8 ranges, regular expressions by
      derivatives, [strings], [fmt.Sprintf] on the verbs used).
    - [ApiTypes], [Errors]: api/v1/*_types.go as records, one field per field;
      error values with wrapping and API status reasons.
    - [Naming]: internal/naming (dns.go, triming.go, port.go, main.go).
    - [NetUrl]: the part of net/url that decides whether a URL is absolute.
    - [WebhookReplay], [WebhookHub], [WebhookCR]: internal/webhook/v1, one
      Section or Module per webhook; the last one has the collector, observer
      and ingress webhooks, and the admission of ingresses as a transition
      system.
    - [Components], [Parsers], [Registry]: internal/components: ports and
      builders, the single-endpoint and multi-port parsers with the port table
      they share and mutate, and the registries filled at start-up.
    - [Manifests], [Mutate], [IngressManifest]: internal/manifests: labels, the
      services and the ingress of a collector on AWS with the ports that the
      parsers infer, and the update of an existing object to a desired one.
    - [K8sObjects], [Builders], [ConfigBlock]: the Kubernetes objects the
      adapters create, and internal/builder (container.go, deployment.go,
      service.go, otelconfig.go), and what a collector requires of the
      pipelines of its configuration ([ConfigBlock.valid_pipelines]).
    - [CollectorConfig]: the part of mdaicollector_adapter.go that renders a
      collector's configuration from its log streams.
    - [Effects]: programs over calls ([prog]), their executions as traces
      ([runs]), weakest preconditions and the two predicates the controller
      theorems use ([only]: which calls, [safe]: no panic).
    - [Reconcile]: internal/controller/reconcile_operation.go, the loop of
      [ReconcileHandler], and the life cycle (deletion, status, finalizer,
      final status) that the adapters repeat, over a [Resource] and its calls.
    - [EventTransformer]: event_config_transformer.go.
    - [HubCalls], [HubVariables], [HubAdapter], [HubController]:
      hub_adapter.go and mdaihub_controller.go: the calls to the API server and
      Valkey as one event type, the synchronisation of variables, the adapter's
      operations with the handler and [Reconcile], and what triggers it.
    - [ControllerCalls]: [CreateOrUpdate] with its closures and the calls of
      the other controllers, for any resource; sequences of creations
      ([synchronises_ok]) and closures that repeat themselves ([settled]).
    - [IngressController], [Triggers]: mdaiingress_controller.go and the part of
      common.go that applies and prunes the objects of an ingress; what makes it
      reconcile.
    - [CollectorAdapter]: mdaicollector_adapter.go, mdaicollector_controller.go.
    - [ObserverConfig], [ObserverAdapter]: observer.go, mdaiobserver_adapter.go
      and mdaiobserver_controller.go.
    - [ReplayConfig], [ReplayAdapter]: mdaireplay_adapter.go and
      mdaireplay_controller.go.
    - [DalAdapter]: mdaidal_adapter.go and mdaidal_controller.go.
    - [Setup], [Startup], [LogMirror]: how the process comes up: the
      [SetupWithManager] methods of the controllers and webhooks, then
      cmd/main.go and cmd/otel.go, where a step of the process gives an exit
      code or a value to continue with.
    - [Cache], [Visibility]: the cache of main.go, through which the controllers
      read, and what every controller's writes look like through it.
    - [ObjectNames]: the kinds, namespaces and names of the objects that the
      controllers write, and where two controllers or two resources meet.
    - [DeepCopy], [ApiDeepCopy]: zz_generated.deepcopy.go, over a heap of
      variables, arrays and maps: the forms of its statements as functions, then
      one definition per method.
    - [InformerFactory]: the shared informer factory of pkg/generated/informers
      (factory.go, generic.go), whose concurrent callers and goroutines are a step
      relation.

    The controllers meet the webhooks in the predicates of [WebhookHub]
    ([variables_ok], [when_ok], [rule_ok], [hub_ok]): the webhook theorems show
    that exactly these are admitted, the controller theorems start from them.
    [ReplayConfig] and [IngressManifest] start from the admission itself.

    ** What the theorems show

    - Admission: each webhook admits exactly the resources of its
      specification, in creation and in update; serial admission keeps the
      collector references of ingresses unique.
    - Reconciliation: a reconcile executes one phase of the life cycle, a live
      resource reaches its work in at most two, a deleted one loses its
      finalizer in one; a hub's finalizer goes only after its Prometheus rule.
    - Functional behaviour of the hub: the environment computed from Valkey is
      the one the variables specify; the automation config map, the event
      commands, the Prometheus rule on every branch; collectors are restarted
      exactly where a config map changed; a changed Valkey key reconciles
      exactly its hub; no call's answer makes a well-formed hub panic.
    - Collectors: the rendered configuration has exactly the pipelines,
      exporters and routes of its log streams; synchronisation creates its
      seven objects in order or says why not; writing again changes nothing.
    - Observers, replays and DALs: what their configurations contain, and that
      the collector can load them; a synchronisation that goes through has
      rolled out a deployment that mounts the stored configuration, finds its
      own pods and is reached by its service.  A replay's finalizer goes only
      after its collector reported an empty sending queue.
    - Ingresses: the services of a collector split its ports by protocol, the
      ingress has exactly the rules of the gRPC endpoints, ports stay unique,
      and pruning deletes exactly what is no longer wanted.
    - The whole operator: when the manager starts, everything is registered; the
      process ends with the code that says how, after its clean-ups; what the
      controllers write they can read back; an ingress is reconciled whichever
      of it and its collector comes second.  Controllers do not write each
      other's objects, except where [ObjectNames] says that they do.
    - Generated code: every deep copy is deep (no memory is shared between the
      copy and the original); an informer factory starts each informer once, and
      a finished shutdown is final.
    - Parsers: registration and lookup are total, port answers do not depend
      on earlier calls, addresses round-trip through their defaults.
    - Names are DNS labels within their length.
    - Where the code loses work or contradicts its comments, a theorem says so
      (a failed clean-up, a lost restart, a dropped requeue, a join without
      configuration, an empty alert name, multi-byte names, a routing table in
      random order, a config map that no container reads, observers with one
      name, a replay without a source or an endpoint, settings of a DAL that do
      not reach its pods, a status that never comes to rest,
      services that the cache does not show, a service of a DAL that an ingress
      deletes, a cluster role binding that two collectors take from each other, a
      replay that overwrites another one's configuration).

    ** Bounds and fuel

    The definitions are structural recursions, except the walk over the runes
    of a string ([GoLib.runes_from]), whose fuel is the number of bytes: every
    rune consumes at least one.  Port numbers are integers with the width of
    the code where it parses or truncates them.  A program is a finite tree,
    so that every execution ends, with a value or a panic; where a theorem is
    about executions that return, another part says when none panics.

    ** Parameters

    Code outside the repository is a parameter with its documented laws as
    named hypotheses: the PromQL parser, [json.Marshal], mapstructure decoding,
    label selectors, [SetControllerReference] ([K8sObjects.Owning], [K8sObjects.OwningLaws]),
    [controllerutil] finalizers and [meta.SetStatusCondition]
    ([Reconcile.K8sUtil], [Reconcile.K8sLaws]), the YAML encoder, SHA-256, the
    parser of Prometheus metrics, mergo, [regexp.Compile], the configuration
    type of the OpenTelemetry operator, [sort.Slice], the order in which Go
    ranges over a map, the deep copies of other packages' types
    ([ApiDeepCopy.ExternalLaws]), and client-go's informers.  The
    API server and Valkey are the environment: they may answer anything, and a
    theorem that needs more says which answers it allows.  Each has a witness
    with a concrete instance.

    ** What is not modelled

    What is logged, and the encoder of the logs; the generated clients of
    pkg/generated (clientset, fakes, listers and list-watch closures), which
    forward to client-go and which the operator does not use.  The manager is
    told what to watch ([Setup]), but how controller-runtime turns events into
    requests is its own; the filters and mappings it calls are definitions
    ([HubController], [IngressController]).
    Concurrency is that of the API server's answers (controllers run one
    reconcile at a time per resource), and that of the callers of an informer
    factory. *)

From stdpp Require Export base list gmap strings.
From Stdlib Require Export ZArith Lia Ascii.

(** ** Outcomes of Go code

    A Go function returns, or panics (nil dereference, index out of range, a
    failed type assertion behind a [Must...] accessor).  [Panics] carries no
    value: no later statement of the function runs. *)
Inductive go (A : Type) : Type :=
| Done (a : A)
| Panics (why : string).
Arguments Done {A} a.
Arguments Panics {A} why.

Definition go_bind {A B} (x : go A) (f : A -> go B) : go B :=
  match x with
  | Done a => f a
  | Panics why => Panics why
  end.

Definition go_map {A B} (f : A -> B) (x : go A) : go B :=
  go_bind x (fun a => Done (f a)).

Declare Scope go_scope.
Delimit Scope go_scope with go.
Notation "'let!' x ':=' m 'in' k" := (go_bind m (fun x => k))
  (at level 10, x pattern, m at level 100, k at level 200) : go_scope.
Open Scope go_scope.

Lemma go_bind_assoc {A B C} (x : go A) (f : A -> go B) (g : B -> go C) :
  go_bind (go_bind x f) g = go_bind x (fun a => go_bind (f a) g).
Proof. by destruct x. Qed.

Lemma go_bind_Done_r {A} (x : go A) : go_bind x Done = x.
Proof. by destruct x. Qed.

Lemma go_bind_inv {A B} (x : go A) (f : A -> go B) b :
  go_bind x f = Done b -> exists a, x = Done a /\ f a = Done b.
Proof. destruct x; simpl; [eauto | discriminate]. Qed.

(** [for] loops over a slice whose body may panic. *)
Fixpoint go_fold {A S} (f : S -> A -> go S) (s : S) (l : list A) : go S :=
  match l with
  | [] => Done s
  | x :: l' => let! s' := f s x in go_fold f s' l'
  end.

(** ** Tactics *)

(** Case analysis on the scrutinee of the first [match] or [if] of the goal. *)
Ltac case_match_goal :=
  match goal with
  | |- context [match ?x with _ => _ end] => destruct x eqn:?
  end.

(** Splits the conjunctions of a boolean guard found in the context. *)
Ltac split_bools :=
  repeat match goal with
  | H : _ && _ = true |- _ => apply andb_true_iff in H; destruct H
  | H : _ || _ = false |- _ => apply orb_false_iff in H; destruct H
  | H : negb _ = true |- _ => apply negb_true_iff in H
  | H : negb _ = false |- _ => apply negb_false_iff in H
  | |- _ && _ = true => apply andb_true_iff; split
  end.

(** Reflects the integer comparisons of the context and closes with [lia]. *)
Ltac reflect_lia :=
  repeat match goal with
  | H : (_ <=? _)%Z = true |- _ => apply Z.leb_le in H
  | H : (_ <=? _)%Z = false |- _ => apply Z.leb_gt in H
  | H : (_ <? _)%Z = true |- _ => apply Z.ltb_lt in H
  | H : (_ <? _)%Z = false |- _ => apply Z.ltb_ge in H
  | H : (_ =? _)%Z = true |- _ => apply Z.eqb_eq in H
  | H : (_ =? _)%Z = false |- _ => apply Z.eqb_neq in H
  | H : (_ <=? _)%nat = true |- _ => apply Nat.leb_le in H
  | H : (_ <=? _)%nat = false |- _ => apply Nat.leb_gt in H
  | H : (_ <? _)%nat = true |- _ => apply Nat.ltb_lt in H
  | H : (_ <? _)%nat = false |- _ => apply Nat.ltb_ge in H
  | H : (_ =? _)%nat = true |- _ => apply Nat.eqb_eq in H
  | H : (_ =? _)%nat = false |- _ => apply Nat.eqb_neq in H
  end; lia.

(** ** Strings as byte lists *)

Abbreviation bytes := String.list_ascii_of_string.
Abbreviation of_bytes := String.string_of_list_ascii.

Create HintDb gostr.
Create Rewrite HintDb gostr.

Lemma bytes_of_bytes l : bytes (of_bytes l) = l.
Proof. apply String.list_ascii_of_string_of_list_ascii. Qed.

Lemma of_bytes_bytes s : of_bytes (bytes s) = s.
Proof. apply String.string_of_list_ascii_of_string. Qed.

Lemma bytes_app s t : bytes (s +:+ t) = bytes s ++ bytes t.
Proof. induction s as [|c s IH]; simpl; [done | by rewrite IH]. Qed.

Lemma bytes_length s : length (bytes s) = String.length s.
Proof. induction s as [|c s IH]; simpl; [done | by rewrite IH]. Qed.

Lemma of_bytes_length l : String.length (of_bytes l) = length l.
Proof. by rewrite <- bytes_length, bytes_of_bytes. Qed.

Lemma string_length_app s t :
  String.length (s +:+ t) = String.length s + String.length t.
Proof. by rewrite <- !bytes_length, bytes_app, length_app. Qed.

#[export] Hint Rewrite bytes_of_bytes of_bytes_bytes bytes_app bytes_length
  of_bytes_length string_length_app : gostr.

Lemma bytes_inj s t : bytes s = bytes t -> s = t.
Proof. intros H. by rewrite <- (of_bytes_bytes s), H, of_bytes_bytes. Qed.

Lemma append_nil_r s : s +:+ "" = s.
Proof. induction s as [|c s IH]; [done | exact (f_equal (String c) IH)]. Qed.

Lemma append_assoc s t u : s +:+ (t +:+ u) = (s +:+ t) +:+ u.
Proof. apply bytes_inj. by rewrite !bytes_app, app_assoc. Qed.

Lemma append_inj_l s t u : s +:+ t = s +:+ u -> t = u.
Proof. induction s as [|c s IH]; simpl; [done | intros [= H]; auto]. Qed.

(** ** Lists *)

Lemma last_snoc_inv {A} (l : list A) x : last l = Some x -> exists l', l = l' ++ [x].
Proof.
  destruct l as [|y l'] using rev_ind; simpl; [discriminate |].
  rewrite last_snoc. intros [= ->]. eauto.
Qed.

Lemma forallb_filter_id {A} (f : A -> bool) l :
  forallb f l = true -> List.filter f l = l.
Proof.
  induction l as [|x l IH]; simpl; [done |].
  intros H; split_bools. by rewrite H, IH.
Qed.

(** Guards that collect errors: the list is empty exactly when no guard fires. *)
Lemma if_nil_then {A} (b : bool) (x : A) l : (if b then x :: l else []) = [] <-> b = false.
Proof. by destruct b. Qed.

Lemma if_nil_else {A} (b : bool) (x : A) l : (if b then [] else x :: l) = [] <-> b = true.
Proof. by destruct b. Qed.

Lemma concat_nil_iff {A} (ls : list (list A)) : concat ls = [] <-> Forall (fun l => l = []) ls.
Proof.
  induction ls as [|l ls IH]; simpl; [by split; constructor |].
  by rewrite app_nil, IH, Forall_cons.
Qed.

Lemma concat_map_nil {A B} (f : A -> list B) l :
  concat (map f l) = [] <-> Forall (fun x => f x = []) l.
Proof. by rewrite concat_nil_iff, Forall_map. Qed.

Lemma concat_imap_nil {A B} (f : nat -> A -> list B) (P : A -> Prop) l :
  (forall i x, f i x = [] <-> P x) -> concat (imap f l) = [] <-> Forall P l.
Proof.
  revert f. induction l as [|x l IH]; intros f H; simpl; [by split; constructor |].
  rewrite app_nil, Forall_cons, H. rewrite (IH (fun i => f (S i))); [done |].
  intros i y. apply H.
Qed.

(** [l[i]]: a slice index, out of range panics. *)
Definition at_index {A} (l : list A) (i : nat) : go A :=
  match nth_error l i with
  | Some x => Done x
  | None => Panics "index out of range"
  end.

Lemma at_index_lookup {A} (l : list A) (i : nat) :
  at_index l i = match l !! i with Some x => Done x | None => Panics "index out of range" end.
Proof. unfold at_index. revert i. induction l as [|x l IH]; intros [|i]; simpl; [done.. | apply IH]. Qed.

(** Decides a proposition everywhere in the goal, whatever the instances. *)
Ltac decide_on P :=
  let H := fresh "Hd" in
  destruct (decide P) as [H|H];
  [rewrite ?(bool_decide_eq_true_2 P H) | rewrite ?(bool_decide_eq_false_2 P H)].

(** A list of predicates on every value, one value at a time. *)
Lemma Forall_each {A B} (Q : A -> B -> Prop) (l : list A) :
  (forall b, Forall (fun a => Q a b) l) -> Forall (fun a => forall b, Q a b) l.
Proof. intros Hl. apply Forall_forall. intros a Ha b. by eapply Forall_forall in Hl. Qed.
