(* ===== verification/GoLib.v ===== *)
(** * The parts of the Go language and standard library the operator uses

    Byte strings, [regexp] (as regular expressions with a derivative matcher
    proved equal to their language), [strings], [unicode/utf8], [fmt.Sprintf]
    for the plain verbs [%s], [%d], [%v], and [strconv].  A Go [string] is a
    byte sequence, so it is a Rocq [string] of 8-bit characters.  The one
    table that is not written out is [unicode.ToLower] beyond ASCII: it is an
    argument ([lower]) of the functions that use it. *)

From S2P Require Import Prelude.
From stdpp Require Import pretty.

(** ** Character classes *)

Definition code (c : ascii) : nat := nat_of_ascii c.

Definition in_range (lo hi : ascii) (c : ascii) : bool :=
  (code lo <=? code c) && (code c <=? code hi).

Definition is_lower := in_range "a" "z".
Definition is_upper := in_range "A" "Z".
Definition is_digit := in_range "0" "9".
Definition is_alnum (c : ascii) : bool := is_lower c || is_upper c || is_digit c.
Definition is_ascii (c : ascii) : bool := code c <? 128.

Definition all_bytes (p : ascii -> bool) (s : string) : bool := forallb p (bytes s).

(** ** Regular expressions ([regexp.MustCompile] patterns)

    A Go pattern anchored with [^...$] is the regular expression of its body
    matched against the whole text. *)
Inductive regex : Type :=
| RNone
| REps
| RCls (p : ascii -> bool)
| RSeq (r1 r2 : regex)
| RAlt (r1 r2 : regex)
| RStar (r : regex).

Definition ROpt (r : regex) : regex := RAlt r REps.

Fixpoint nullable (r : regex) : bool :=
  match r with
  | RNone | RCls _ => false
  | REps | RStar _ => true
  | RSeq r1 r2 => nullable r1 && nullable r2
  | RAlt r1 r2 => nullable r1 || nullable r2
  end.

Fixpoint deriv (c : ascii) (r : regex) : regex :=
  match r with
  | RNone | REps => RNone
  | RCls p => if p c then REps else RNone
  | RSeq r1 r2 =>
      if nullable r1 then RAlt (RSeq (deriv c r1) r2) (deriv c r2)
      else RSeq (deriv c r1) r2
  | RAlt r1 r2 => RAlt (deriv c r1) (deriv c r2)
  | RStar r => RSeq (deriv c r) (RStar r)
  end.

Fixpoint matches (r : regex) (s : list ascii) : bool :=
  match s with
  | [] => nullable r
  | c :: s' => matches (deriv c r) s'
  end.

(** The language of a regular expression. *)
Inductive lang : regex -> list ascii -> Prop :=
| LEps : lang REps []
| LCls p c : p c = true -> lang (RCls p) [c]
| LSeq r1 r2 s1 s2 : lang r1 s1 -> lang r2 s2 -> lang (RSeq r1 r2) (s1 ++ s2)
| LAltL r1 r2 s : lang r1 s -> lang (RAlt r1 r2) s
| LAltR r1 r2 s : lang r2 s -> lang (RAlt r1 r2) s
| LStar0 r : lang (RStar r) []
| LStar1 r s1 s2 : lang r s1 -> lang (RStar r) s2 -> lang (RStar r) (s1 ++ s2).

#[export] Hint Constructors lang : gostr.

Lemma lang_RSeq_inv r1 r2 s :
  lang (RSeq r1 r2) s -> exists s1 s2, s = s1 ++ s2 /\ lang r1 s1 /\ lang r2 s2.
Proof. inversion 1; subst; eauto. Qed.

Lemma nullable_lang r : nullable r = true <-> lang r [].
Proof.
  induction r as [| |p|r1 IH1 r2 IH2|r1 IH1 r2 IH2|r IH]; simpl; split; intros H.
  - discriminate.
  - inversion H.
  - constructor.
  - done.
  - discriminate.
  - inversion H.
  - split_bools. change (@nil ascii) with (@nil ascii ++ []).
    constructor; tauto.
  - apply lang_RSeq_inv in H as (s1 & s2 & E & ? & ?).
    symmetry in E; apply app_eq_nil in E as [-> ->].
    split_bools; tauto.
  - apply orb_true_iff in H as [H|H]; [apply LAltL|apply LAltR]; tauto.
  - apply orb_true_iff. inversion H; subst; tauto.
  - constructor.
  - done.
Qed.

Lemma lang_star_cons r c s :
  lang (RStar r) (c :: s) ->
  exists s1 s2, s = s1 ++ s2 /\ lang r (c :: s1) /\ lang (RStar r) s2.
Proof.
  remember (RStar r) as q eqn:Eq. remember (c :: s) as t eqn:Et. intros H.
  revert c s Et. induction H; intros c' s' Et; try discriminate.
  injection Eq as ->. destruct s1 as [|x s1]; simpl in Et.
  - eauto.
  - injection Et as -> <-. eauto 6.
Qed.

Lemma deriv_lang c r s : lang (deriv c r) s <-> lang r (c :: s).
Proof.
  revert s. induction r as [| |p|r1 IH1 r2 IH2|r1 IH1 r2 IH2|r IH]; intros s; simpl.
  - split; inversion 1.
  - split; inversion 1.
  - destruct (p c) eqn:E; split; inversion 1; subst; try congruence; by constructor.
  - assert (Hl : lang (RSeq (deriv c r1) r2) s <->
      exists s1 s2, s = s1 ++ s2 /\ lang r1 (c :: s1) /\ lang r2 s2).
    { split.
      - intros H; apply lang_RSeq_inv in H as (s1 & s2 & -> & H1 & H2).
        apply IH1 in H1. eauto.
      - intros (s1 & s2 & -> & H1 & H2). apply IH1 in H1. by constructor. }
    assert (Hr : lang (RSeq r1 r2) (c :: s) <->
      (exists s1 s2, s = s1 ++ s2 /\ lang r1 (c :: s1) /\ lang r2 s2) \/
      (lang r1 [] /\ lang r2 (c :: s))).
    { split.
      - intros H; apply lang_RSeq_inv in H as ([|x s1] & s2 & E & H1 & H2); simpl in E.
        + subst. eauto.
        + injection E as -> ->. eauto 6.
      - intros [(s1 & s2 & -> & H1 & H2)|[H1 H2]].
        + change (c :: s1 ++ s2) with ((c :: s1) ++ s2). by constructor.
        + change (c :: s) with ([] ++ c :: s). by constructor. }
    destruct (nullable r1) eqn:N.
    + apply nullable_lang in N. rewrite Hr, <- Hl, <- IH2. split.
      * inversion 1; subst; tauto.
      * intros [?|[_ ?]]; [by apply LAltL | by apply LAltR].
    + rewrite Hr, <- Hl. split; [tauto |].
      intros [?|[H _]]; [done |]. apply nullable_lang in H. congruence.
  - split; inversion 1; subst.
    + apply LAltL. by apply IH1.
    + apply LAltR. by apply IH2.
    + apply LAltL. by apply IH1.
    + apply LAltR. by apply IH2.
  - split.
    + intros H; apply lang_RSeq_inv in H as (s1 & s2 & -> & H1 & H2).
      change (c :: s1 ++ s2) with ((c :: s1) ++ s2). constructor; [by apply IH | done].
    + intros (s1 & s2 & -> & H1 & H2)%lang_star_cons. constructor; [by apply IH | done].
Qed.

Theorem matches_lang r s : matches r s = true <-> lang r s.
Proof.
  revert r. induction s as [|c s IH]; intros r; simpl.
  - apply nullable_lang.
  - by rewrite IH, deriv_lang.
Qed.

Lemma lang_star_cls p s : lang (RStar (RCls p)) s <-> forallb p s = true.
Proof.
  split.
  - induction s as [|c s IH]; [done |].
    intros (s1 & s2 & -> & H1 & H2)%lang_star_cons. inversion H1; subst.
    simpl in *. rewrite H3. auto.
  - induction s as [|c s IH]; simpl; [constructor |].
    intros H. split_bools. change (c :: s) with ([c] ++ s). eauto using lang.
Qed.

(** The shape [E([M]*E)?] that the operator's name patterns share: first and
    last byte in [e], the bytes between them in [m]. *)
Definition RBracket (e m : ascii -> bool) : regex :=
  RSeq (RCls e) (ROpt (RSeq (RStar (RCls m)) (RCls e))).

Lemma lang_bracket e m s :
  lang (RBracket e m) s <->
  (exists c, s = [c] /\ e c = true) \/
  (exists c l d, s = c :: l ++ [d] /\ e c = true /\ e d = true /\ forallb m l = true).
Proof.
  unfold RBracket, ROpt. split.
  - intros (s1 & s2 & -> & H1 & H2)%lang_RSeq_inv.
    inversion H1; subst; clear H1.
    inversion H2; subst; clear H2.
    + apply lang_RSeq_inv in H4 as (l & t & -> & Hl & Ht).
      inversion Ht; subst. right. do 3 eexists. repeat split; eauto.
      by apply lang_star_cls.
    + inversion H4; subst. left. eauto.
  - intros [(c & -> & H)|(c & l & d & -> & Hc & Hd & Hl)].
    + change [c] with ([c] ++ []). repeat (constructor || apply LAltR); done.
    + change (c :: l ++ [d]) with ([c] ++ (l ++ [d])).
      constructor; [by constructor |]. apply LAltL. constructor.
      * by apply lang_star_cls.
      * by constructor.
Qed.

(** ** [strings] *)

(** [strings.IndexByte] as an option: the position of the first [c]. *)
Fixpoint IndexByte (l : list ascii) (c : ascii) : option nat :=
  match l with
  | [] => None
  | x :: l' => if Ascii.eqb x c then Some O else S <$> IndexByte l' c
  end.

(** [strings.Split] on a one-byte separator. *)
Fixpoint split_bytes (l : list ascii) (sep : ascii) : list (list ascii) :=
  match l with
  | [] => [[]]
  | x :: l' =>
      if Ascii.eqb x sep then [] :: split_bytes l' sep
      else match split_bytes l' sep with
           | [] => [[x]]
           | w :: ws => (x :: w) :: ws
           end
  end.

Definition Split (s : string) (sep : ascii) : list string :=
  map of_bytes (split_bytes (bytes s) sep).

(** [strings.SplitN(s, sep, n)] for [n > 0]: at most [n] pieces, the last one
    the unsplit remainder. *)
Fixpoint splitN_bytes (l : list ascii) (sep : ascii) (n : nat) : list (list ascii) :=
  match n with
  | O => []
  | S O => [l]
  | S n' =>
      match IndexByte l sep with
      | None => [l]
      | Some i => take i l :: splitN_bytes (drop (S i) l) sep n'
      end
  end.

Definition SplitN (s : string) (sep : ascii) (n : nat) : list string :=
  map of_bytes (splitN_bytes (bytes s) sep n).

Fixpoint Join (elems : list string) (sep : string) : string :=
  match elems with
  | [] => ""
  | [x] => x
  | x :: rest => x +:+ sep +:+ Join rest sep
  end.

(** [strings.ReplaceAll] of a one-byte string by a one-byte string. *)
Definition ReplaceByte (s : string) (old new : ascii) : string :=
  of_bytes (map (fun c => if Ascii.eqb c old then new else c) (bytes s)).

Fixpoint has_prefix (l p : list ascii) : bool :=
  match p, l with
  | [], _ => true
  | x :: p', y :: l' => Ascii.eqb x y && has_prefix l' p'
  | _ :: _, [] => false
  end.

Definition HasPrefix (s p : string) : bool := has_prefix (bytes s) (bytes p).
Definition HasSuffix (s p : string) : bool := has_prefix (rev (bytes s)) (rev (bytes p)).

Definition TrimPrefix (s p : string) : string :=
  if HasPrefix s p then of_bytes (drop (String.length p) (bytes s)) else s.
Definition TrimSuffix (s p : string) : string :=
  if HasSuffix s p then of_bytes (take (String.length s - String.length p) (bytes s)) else s.

(** [s[:n]] on a Go string: panics when [n] is past the end. *)
Definition slice_to (s : string) (n : nat) : go string :=
  if n <=? String.length s then Done (of_bytes (take n (bytes s)))
  else Panics "slice bounds out of range".

(** ** [unicode/utf8] *)

Definition RuneError : Z := 65533.

Definition cont (lo hi : Z) (b : Z) : bool := ((lo <=? b) && (b <=? hi))%Z.

(** One step of [utf8.DecodeRune]: the rune and the number of bytes it takes;
    an ill-formed byte is [RuneError] of width one. *)
Definition decode_rune (l : list Z) : option (Z * nat) :=
  match l with
  | [] => None
  | b0 :: t =>
      if (b0 <? 128)%Z then Some (b0, 1)
      else if cont 194 223 b0 then
        match t with
        | b1 :: _ => if cont 128 191 b1 then Some (((b0 - 192) * 64 + (b1 - 128))%Z, 2)
                     else Some (RuneError, 1)
        | _ => Some (RuneError, 1)
        end
      else if cont 224 239 b0 then
        match t with
        | b1 :: b2 :: _ =>
            let lo := if (b0 =? 224)%Z then 160%Z else 128%Z in
            let hi := if (b0 =? 237)%Z then 159%Z else 191%Z in
            if cont lo hi b1 && cont 128 191 b2
            then Some (((b0 - 224) * 4096 + (b1 - 128) * 64 + (b2 - 128))%Z, 3)
            else Some (RuneError, 1)
        | _ => Some (RuneError, 1)
        end
      else if cont 240 244 b0 then
        match t with
        | b1 :: b2 :: b3 :: _ =>
            let lo := if (b0 =? 240)%Z then 144%Z else 128%Z in
            let hi := if (b0 =? 244)%Z then 143%Z else 191%Z in
            if cont lo hi b1 && cont 128 191 b2 && cont 128 191 b3
            then Some (((b0 - 240) * 262144 + (b1 - 128) * 4096 + (b2 - 128) * 64 + (b3 - 128))%Z, 4)
            else Some (RuneError, 1)
        | _ => Some (RuneError, 1)
        end
      else Some (RuneError, 1)
  end.

Definition zbytes (s : string) : list Z := map (fun c => Z.of_nat (code c)) (bytes s).

(** [for i, r := range s]: the runes with the byte index each starts at.  Each
    step consumes at least one byte, so the byte count is enough fuel. *)
Fixpoint runes_from (fuel : nat) (i : nat) (l : list Z) : list (nat * Z) :=
  match fuel with
  | O => []
  | S fuel' =>
      match decode_rune l with
      | None => []
      | Some (r, w) => (i, r) :: runes_from fuel' (i + w) (drop w l)
      end
  end.

Definition range_string (s : string) : list (nat * Z) :=
  runes_from (String.length s) 0 (zbytes s).

Definition RuneCountInString (s : string) : nat := length (range_string s).

Definition byte_of (z : Z) : ascii := ascii_of_nat (Z.to_nat z).

(** [utf8.EncodeRune]. *)
Definition encode_rune (r : Z) : list ascii :=
  map byte_of
    (if ((0 <=? r) && (r <? 128))%Z then [r]
     else if ((128 <=? r) && (r <? 2048))%Z then [192 + r / 64; 128 + r mod 64]%Z
     else if ((2048 <=? r) && (r <? 65536))%Z && negb (cont 55296 57343 r) then
       [224 + r / 4096; 128 + (r / 64) mod 64; 128 + r mod 64]%Z
     else if ((65536 <=? r) && (r <? 1114112))%Z then
       [240 + r / 262144; 128 + (r / 4096) mod 64; 128 + (r / 64) mod 64; 128 + r mod 64]%Z
     else [239; 191; 189]%Z).

(** [string(runes)]. *)
Definition string_of_runes (rs : list Z) : string := of_bytes (concat (map encode_rune rs)).

Definition lower_ascii (c : ascii) : ascii :=
  if is_upper c then ascii_of_nat (code c + 32) else c.

(** [strings.ToLower]: bytewise on an ASCII string, otherwise
    [strings.Map(unicode.ToLower, s)], where [lower] is [unicode.ToLower]
    beyond ASCII. *)
Definition lower_rune (lower : Z -> Z) (r : Z) : Z :=
  if (r <? 128)%Z then (if cont 65 90 r then r + 32 else r)%Z else lower r.

Definition ToLower (lower : Z -> Z) (s : string) : string :=
  if all_bytes is_ascii s then of_bytes (map lower_ascii (bytes s))
  else string_of_runes (map (fun p => lower_rune lower p.2) (range_string s)).

(** [unicode.IsSpace]: the White_Space property. *)
Definition IsSpace (r : Z) : bool :=
  (cont 9 13 r || (r =? 32) || (r =? 133) || (r =? 160) || (r =? 5760) || cont 8192 8202 r
   || (r =? 8232) || (r =? 8233) || (r =? 8239) || (r =? 8287) || (r =? 12288))%Z.

(** [strings.TrimSpace]: [trim_left] drops leading white-space runes;
    [trim_end] is the byte length up to the end of the last non-space rune. *)
Fixpoint trim_left (rs : list (nat * Z)) : list (nat * Z) :=
  match rs with
  | [] => []
  | (i, r) :: rs' => if IsSpace r then trim_left rs' else rs
  end.

Fixpoint trim_end (total : nat) (rs : list (nat * Z)) : nat :=
  match rs with
  | [] => 0
  | (_, r) :: rs' =>
      let next := match rs' with [] => total | (j, _) :: _ => j end in
      if IsSpace r then trim_end total rs' else Nat.max next (trim_end total rs')
  end.

Definition TrimSpace (s : string) : string :=
  match trim_left (range_string s) with
  | [] => ""
  | ((i, _) :: _) as rs =>
      of_bytes (drop i (take (trim_end (String.length s) rs) (bytes s)))
  end.

(** ** [fmt.Sprintf] with the verbs [%s], [%d], [%v] *)

Inductive any_value :=
| VString (s : string)
| VInt (z : Z).

Definition type_and_value (v : any_value) : string :=
  match v with
  | VString s => "string=" +:+ s
  | VInt z => "int=" +:+ pretty z
  end.

Definition format_verb (c : ascii) (v : any_value) : string :=
  match v with
  | VString s => if Ascii.eqb c "s" || Ascii.eqb c "v" then s
                 else "%!" +:+ of_bytes [c] +:+ "(" +:+ type_and_value v +:+ ")"
  | VInt z => if Ascii.eqb c "d" || Ascii.eqb c "v" then pretty z
              else "%!" +:+ of_bytes [c] +:+ "(" +:+ type_and_value v +:+ ")"
  end.

(** Values left over when the format is exhausted. *)
Definition extra_values (values : list any_value) : string :=
  match values with
  | [] => ""
  | _ => "%!(EXTRA " +:+ Join (map type_and_value values) ", " +:+ ")"
  end.

Fixpoint sprintf_bytes (format : list ascii) (values : list any_value) : string :=
  match format with
  | [] => extra_values values
  | x :: format' =>
      if Ascii.eqb x "%" then
        match format' with
        | [] => "%!(NOVERB)" +:+ extra_values values
        | c :: format'' =>
            if Ascii.eqb c "%" then "%" +:+ sprintf_bytes format'' values
            else match values with
                 | [] => "%!" +:+ of_bytes [c] +:+ "(MISSING)" +:+ sprintf_bytes format'' []
                 | v :: values' => format_verb c v +:+ sprintf_bytes format'' values'
                 end
        end
      else String x (sprintf_bytes format' values)
  end.

Definition Sprintf (format : string) (values : list any_value) : string :=
  sprintf_bytes (bytes format) values.

(** [%q] on a string of printable ASCII without quotes or backslashes. *)
Definition quote (s : string) : string := String "034" (s +:+ String "034" "").

(** ** [strconv] *)

Definition digit_val (c : ascii) : Z := Z.of_nat (code c) - 48.

Definition digits_val (l : list ascii) : Z :=
  fold_left (fun acc c => acc * 10 + digit_val c)%Z l 0%Z.

(** Signed 32-bit values. *)
Definition int32_max : Z := 2147483647.
Definition int32_min : Z := -2147483648.
Definition is_int32 (z : Z) : Prop := (int32_min <= z <= int32_max)%Z.

(** [strconv.ParseInt(s, 10, 32)] on a string of decimal digits. *)
Definition ParseDigits32 (l : list ascii) : option Z :=
  if (digits_val l <=? int32_max)%Z then Some (digits_val l) else None.

Definition FormatBool (b : bool) : string := if b then "true" else "false".

(** ** ASCII strings: runes are bytes *)

Lemma code_lt c : code c < 256.
Proof. apply nat_ascii_bounded. Qed.

Lemma byte_of_code c : byte_of (Z.of_nat (code c)) = c.
Proof. unfold byte_of, code. by rewrite Nat2Z.id, ascii_nat_embedding. Qed.

Lemma code_byte_of z : (0 <= z < 256)%Z -> Z.of_nat (code (byte_of z)) = z.
Proof. intros H. unfold byte_of, code. rewrite nat_ascii_embedding; lia. Qed.

Lemma decode_rune_ascii b t : (0 <= b < 128)%Z -> decode_rune (b :: t) = Some (b, 1).
Proof. intros H. simpl. by destruct (Z.ltb_spec b 128); [| lia]. Qed.

Lemma encode_rune_ascii r : (0 <= r < 128)%Z -> encode_rune r = [byte_of r].
Proof.
  intros H. unfold encode_rune.
  by destruct (Z.leb_spec 0 r), (Z.ltb_spec r 128); try lia.
Qed.

Lemma runes_from_ascii l i fuel :
  length l <= fuel -> Forall (fun b => 0 <= b < 128)%Z l ->
  runes_from fuel i l = imap (fun k b => (i + k, b)) l.
Proof.
  revert l i. induction fuel as [|fuel IH]; intros l i Hf Hl.
  - by destruct l; simpl in *; [| lia].
  - destruct l as [|b t]; [done |]. inversion Hl; subst.
    cbn [runes_from]. rewrite decode_rune_ascii by done.
    change (drop 1 (b :: t)) with t. cbn [imap]. rewrite IH; [| simpl in Hf; lia | assumption].
    f_equal; [by rewrite Nat.add_0_r |].
    apply imap_ext. intros k x _. simpl. f_equal. lia.
Qed.

Lemma zbytes_ascii s :
  all_bytes is_ascii s = true -> Forall (fun b => 0 <= b < 128)%Z (zbytes s).
Proof.
  unfold all_bytes, zbytes. induction (bytes s) as [|c l IH]; simpl; [done |].
  intros H; split_bools. constructor; [| auto].
  unfold is_ascii in *. reflect_lia.
Qed.

Lemma range_string_ascii s :
  all_bytes is_ascii s = true ->
  range_string s = imap (fun k c => (k, Z.of_nat (code c))) (bytes s).
Proof.
  intros H. unfold range_string. rewrite runes_from_ascii; [| | by apply zbytes_ascii].
  - unfold zbytes. by rewrite imap_fmap.
  - unfold zbytes. by rewrite length_map, bytes_length.
Qed.

Lemma RuneCount_ascii s :
  all_bytes is_ascii s = true -> RuneCountInString s = String.length s.
Proof.
  intros H. unfold RuneCountInString.
  by rewrite range_string_ascii, length_imap, bytes_length.
Qed.

Lemma lower_ascii_is_ascii c : is_ascii c = true -> is_ascii (lower_ascii c) = true.
Proof.
  unfold is_ascii, lower_ascii, is_upper, in_range, code.
  destruct (_ && _) eqn:E; [| done]. intros H. split_bools.
  change (nat_of_ascii "A") with 65 in *. change (nat_of_ascii "Z") with 90 in *.
  apply Nat.ltb_lt. apply Nat.leb_le in H0, H1. rewrite nat_ascii_embedding; lia.
Qed.

Lemma all_bytes_of_bytes p l : all_bytes p (of_bytes l) = forallb p l.
Proof. unfold all_bytes. by rewrite bytes_of_bytes. Qed.

Lemma all_bytes_app p s t : all_bytes p (s +:+ t) = all_bytes p s && all_bytes p t.
Proof. unfold all_bytes. by rewrite bytes_app, forallb_app. Qed.

#[export] Hint Rewrite all_bytes_of_bytes all_bytes_app : gostr.

Lemma forallb_impl {A} (p q : A -> bool) l :
  (forall x, p x = true -> q x = true) -> forallb p l = true -> forallb q l = true.
Proof.
  intros H. induction l; simpl; [done |]. intros Hl; split_bools; auto.
Qed.

Lemma forallb_take {A} (p : A -> bool) n l :
  forallb p l = true -> forallb p (take n l) = true.
Proof.
  revert n. induction l as [|x l IH]; intros [|n]; simpl; try done.
  intros H; split_bools; auto.
Qed.
