(* ===== verification/Naming.v ===== *)
(** * internal/naming: names of Kubernetes objects and ports

    [Truncate], [DNSName], [PortName] and the per-object builders of
    main.go.  The theorems say that every builder with a fixed part yields a
    DNS-1123 label of at most 63 bytes for any ASCII instance name. *)

From S2P Require Import Prelude GoLib.
From stdpp Require Import pretty.

(** ** triming.go *)

Fixpoint drop_while {A} (p : A -> bool) (l : list A) : list A :=
  match l with
  | [] => []
  | x :: l' => if p x then drop_while p l' else l
  end.

(** [regexpEndReplace] then [regexpBeginReplace]: strip the trailing, then the
    leading run of bytes outside [A-Za-z0-9]. *)
Definition trimNonAlphaNumeric (text : string) : string :=
  let other c := negb (is_alnum c) in
  let newText := rev (drop_while other (rev (bytes text))) in
  of_bytes (drop_while other newText).

(** The loop of [Truncate]: shorten the string values in order until
    [excess] bytes are gone. *)
Fixpoint truncate_values (excess : nat) (values : list any_value) : list any_value :=
  match values with
  | [] => []
  | value :: rest =>
      if excess =? 0 then value :: truncate_values excess rest
      else match value with
           | VString s =>
               if excess <? String.length s
               then VString (of_bytes (take (String.length s - excess) (bytes s)))
                      :: truncate_values 0 rest
               else VString "" :: truncate_values (excess - String.length s) rest
           | VInt _ => value :: truncate_values excess rest
           end
  end.

Definition Truncate (format : string) (maxLen : nat) (values : list any_value) : string :=
  let result := Sprintf format values in
  let excess := String.length result - maxLen in
  let result := if 0 <? excess then Sprintf format (truncate_values excess values)
                else result in
  if maxLen <? String.length result then of_bytes (take maxLen (bytes result))
  else trimNonAlphaNumeric result.

(** ** dns.go *)

(** [regex.MatchString(string(x))] for the pattern [[a-z0-9]]. *)
Definition is_dns_rune (r : Z) : bool := cont 97 122 r || cont 48 57 r.

Section DNS.
(** [unicode.ToLower] beyond ASCII. *)
Context (lower : Z -> Z).

(** The replacement of one rune, [i] its byte index, [n] the rune count. *)
Definition dns_rune (n i : nat) (x : Z) : Z :=
  if is_dns_rune x then x
  else if (i =? 0) || (Z.of_nat i =? Z.of_nat n - 1)%Z then 97%Z else 45%Z.

Definition DNSName (name : string) : string :=
  let n := RuneCountInString name in
  string_of_runes (map (fun p => dns_rune n p.1 p.2) (range_string (ToLower lower name))).

(** ** main.go *)

(** [configHash[:8]] panics on a shorter hash. *)
Definition ConfigMap (otelcol configHash : string) : go string :=
  let! h := slice_to configHash 8 in
  Done (DNSName (Truncate "%s-collector-%s" 63 [VString otelcol; VString h])).

Definition ConfigMapVolume : string := "otc-internal".

Definition ConfigMapExtra (extraConfigMapName : string) : string :=
  DNSName (Truncate "configmap-%s" 63 [VString extraConfigMapName]).

Definition OpenTelemetryCollectorName (otelcolName : string) : string :=
  DNSName (Truncate "%s" 63 [VString otelcolName]).

Definition Service (otelcol : string) : string :=
  DNSName (Truncate "%s-collector" 63 [VString otelcol]).

Definition HeadlessService (otelcol : string) : string :=
  DNSName (Truncate "%s-headless" 63 [VString (Service otelcol)]).

Definition MonitoringService (otelcol : string) : string :=
  DNSName (Truncate "%s-monitoring" 63 [VString (Service otelcol)]).

Definition ExtensionService (otelcol : string) : string :=
  DNSName (Truncate "%s-extension" 63 [VString (Service otelcol)]).

Definition GrpcService (otelcol : string) : string :=
  DNSName (Truncate "%s-grpc" 63 [VString (Service otelcol)]).

Definition NonGrpcService (otelcol : string) : string :=
  DNSName (Truncate "%s-non-grpc" 63 [VString (Service otelcol)]).

Definition Ingress (otelcol : string) : string :=
  DNSName (Truncate "%s-ingress" 63 [VString otelcol]).
End DNS.

(** ** port.go *)

(** The anchored pattern of port.go: optionally, an alphanumeric byte followed by
    any bytes of [-A-Za-z0-9_.], then an alphanumeric byte; or nothing. *)
Definition dnsLabelValidation : regex :=
  let mid c := is_alnum c || Ascii.eqb c "-" || Ascii.eqb c "_" || Ascii.eqb c "." in
  ROpt (RSeq (ROpt (RSeq (RCls is_alnum) (RStar (RCls mid)))) (RCls is_alnum)).

Definition PortName (receiverName : string) (port : Z) : string :=
  if 15 <? String.length receiverName then Sprintf "port-%d" [VInt port]
  else
    let candidate := ReplaceByte receiverName "/" "-" in
    let candidate := ReplaceByte candidate "_" "-" in
    if negb (matches dnsLabelValidation (bytes candidate)) then Sprintf "port-%d" [VInt port]
    else candidate.

(** ** Lemmas: trimming and truncation *)

Lemma drop_while_length {A} (p : A -> bool) l : length (drop_while p l) <= length l.
Proof. induction l as [|x l IH]; simpl; [done |]. destruct (p x); simpl; lia. Qed.

Lemma drop_while_forallb {A} (p q : A -> bool) l :
  forallb q l = true -> forallb q (drop_while p l) = true.
Proof.
  induction l as [|x l IH]; simpl; [done |].
  intros H; split_bools. destruct (p x); simpl; split_bools; auto.
Qed.

Lemma drop_while_nonempty {A} (p : A -> bool) l :
  existsb (fun x => negb (p x)) l = true ->
  exists x l', drop_while p l = x :: l' /\ p x = false.
Proof.
  induction l as [|x l IH]; simpl; [done |].
  intros H. destruct (p x) eqn:E; simpl in *; eauto.
Qed.

Lemma existsb_rev {A} (p : A -> bool) l : existsb p (rev l) = existsb p l.
Proof.
  induction l as [|x l IH]; simpl; [done |].
  rewrite existsb_app, IH. simpl. rewrite orb_false_r. apply orb_comm.
Qed.

Lemma forallb_rev {A} (p : A -> bool) l : forallb p (rev l) = forallb p l.
Proof.
  induction l as [|x l IH]; simpl; [done |].
  rewrite forallb_app, IH. simpl. rewrite andb_true_r. apply andb_comm.
Qed.

Lemma drop_while_existsb {A} (p q : A -> bool) l :
  (forall x, q x = true -> p x = false) ->
  existsb q l = true -> existsb q (drop_while p l) = true.
Proof.
  intros Hq. induction l as [|x l IH]; simpl; [done |].
  intros [H|H]%orb_true_iff.
  - rewrite (Hq _ H). simpl. by rewrite H.
  - destruct (p x); [auto |]. simpl. rewrite H. apply orb_true_r.
Qed.

Lemma trim_length text : String.length (trimNonAlphaNumeric text) <= String.length text.
Proof.
  unfold trimNonAlphaNumeric. rewrite of_bytes_length, <- bytes_length.
  etransitivity; [apply drop_while_length |].
  rewrite length_rev. etransitivity; [apply drop_while_length |].
  by rewrite length_rev.
Qed.

Lemma trim_forallb p text :
  all_bytes p text = true -> all_bytes p (trimNonAlphaNumeric text) = true.
Proof.
  intros H. unfold trimNonAlphaNumeric. rewrite all_bytes_of_bytes.
  apply drop_while_forallb. rewrite forallb_rev. apply drop_while_forallb.
  by rewrite forallb_rev.
Qed.

Definition has_alnum (s : string) : bool := existsb is_alnum (bytes s).

Lemma trim_has_alnum text :
  has_alnum text = true -> has_alnum (trimNonAlphaNumeric text) = true.
Proof.
  unfold has_alnum, trimNonAlphaNumeric. intros H. rewrite bytes_of_bytes.
  apply drop_while_existsb; [by intros x -> |]. rewrite existsb_rev.
  apply drop_while_existsb; [by intros x -> |]. by rewrite existsb_rev.
Qed.

Lemma has_alnum_nonempty s : has_alnum s = true -> bytes s <> [].
Proof. unfold has_alnum. by destruct (bytes s). Qed.

Lemma has_alnum_app s t : has_alnum (s +:+ t) = has_alnum s || has_alnum t.
Proof. unfold has_alnum. by rewrite bytes_app, existsb_app. Qed.

(** A format with one string value between two fixed parts that fit: the
    value alone is shortened, and nothing else is cut. *)
Lemma Truncate_one format pre suf maxLen s :
  (forall x, Sprintf format [VString x] = pre +:+ x +:+ suf) ->
  String.length pre + String.length suf < maxLen ->
  exists s', Truncate format maxLen [VString s] = trimNonAlphaNumeric (pre +:+ s' +:+ suf) /\
             (exists n, s' = of_bytes (take n (bytes s))) /\
             String.length (pre +:+ s' +:+ suf) <= maxLen.
Proof.
  intros Hf Hlen. unfold Truncate. rewrite Hf, !string_length_app.
  destruct (Nat.ltb_spec 0 (String.length pre + (String.length s + String.length suf) - maxLen)).
  - cbn [truncate_values].
    destruct (Nat.eqb_spec (String.length pre + (String.length s + String.length suf) - maxLen) 0);
      [lia |].
    destruct (Nat.ltb_spec (String.length pre + (String.length s + String.length suf) - maxLen)
                (String.length s)); [| lia].
    rewrite Hf, !string_length_app, of_bytes_length, length_take, bytes_length.
    match goal with |- context [maxLen <? ?k] => destruct (Nat.ltb_spec maxLen k); [lia |] end.
    eexists. split; [done |]. split; [eauto |].
    rewrite !string_length_app, of_bytes_length, length_take, bytes_length. lia.
  - rewrite !string_length_app.
    match goal with |- context [maxLen <? ?k] => destruct (Nat.ltb_spec maxLen k); [lia |] end.
    exists s. split; [done |]. split.
    + exists (length (bytes s)). by rewrite take_ge, of_bytes_bytes.
    + rewrite !string_length_app. lia.
Qed.

(** ** Lemmas: DNSName on ASCII names *)

Definition is_label_end (c : ascii) : bool := is_lower c || is_digit c.
Definition is_label_mid (c : ascii) : bool := Ascii.eqb c "-" || is_label_end c.

(** A DNS-1123 label: [a-z0-9]([-a-z0-9] run [a-z0-9])?, at most 63 bytes. *)
Definition dns_label (s : string) : Prop :=
  matches (RBracket is_label_end is_label_mid) (bytes s) = true /\ String.length s <= 63.

(** [DNSName] seen bytewise: byte [i] of [n] of a lowered ASCII name. *)
Definition dns_byte (n i : nat) (c : ascii) : ascii :=
  byte_of (dns_rune n i (Z.of_nat (code (lower_ascii c)))).

Lemma dns_rune_range n i x : (0 <= dns_rune n i x < 128)%Z.
Proof.
  unfold dns_rune. destruct (is_dns_rune x) eqn:E; [| destruct (_ || _)%bool; lia].
  unfold is_dns_rune, cont in E. apply orb_true_iff in E as [E|E]; split_bools; reflect_lia.
Qed.

Lemma string_of_small_runes rs :
  Forall (fun r => 0 <= r < 128)%Z rs -> string_of_runes rs = of_bytes (map byte_of rs).
Proof.
  intros H. unfold string_of_runes. f_equal.
  induction H as [|r rs Hr _ IH]; simpl; [done |].
  by rewrite encode_rune_ascii, IH.
Qed.

Lemma DNSName_bytes lower name :
  bytes (DNSName lower name) =
  map (fun p => byte_of (dns_rune (RuneCountInString name) p.1 p.2))
      (range_string (ToLower lower name)).
Proof.
  unfold DNSName. rewrite string_of_small_runes.
  - by rewrite bytes_of_bytes, map_map.
  - apply Forall_forall. intros r (p & <- & _)%list_elem_of_In%in_map_iff.
    apply dns_rune_range.
Qed.

Lemma ToLower_ascii lower name :
  all_bytes is_ascii name = true -> ToLower lower name = of_bytes (map lower_ascii (bytes name)).
Proof. intros H. unfold ToLower. by rewrite H. Qed.

Lemma forallb_map_lower l :
  forallb is_ascii l = true -> forallb is_ascii (map lower_ascii l) = true.
Proof.
  induction l; simpl; [done |]. intros H; split_bools; auto using lower_ascii_is_ascii.
Qed.

Lemma DNSName_ascii lower name :
  all_bytes is_ascii name = true ->
  bytes (DNSName lower name) = imap (dns_byte (String.length name)) (bytes name).
Proof.
  intros H. rewrite DNSName_bytes, RuneCount_ascii by done.
  rewrite ToLower_ascii by done. rewrite range_string_ascii.
  - rewrite bytes_of_bytes. change (map ?f ?l) with (f <$> l).
    rewrite fmap_imap, imap_fmap. by apply imap_ext.
  - rewrite all_bytes_of_bytes. by apply forallb_map_lower.
Qed.

Lemma dns_byte_mid n i c : is_label_mid (dns_byte n i c) = true.
Proof.
  unfold dns_byte, dns_rune. generalize (Z.of_nat (code (lower_ascii c))). intros x.
  destruct (is_dns_rune x) eqn:E; [| by destruct (_ || _)%bool].
  unfold is_dns_rune, cont in E. unfold is_label_mid, is_label_end, is_lower, is_digit, in_range.
  assert (Hx : (48 <= x <= 57 \/ 97 <= x <= 122)%Z)
    by (apply orb_true_iff in E as [E|E]; split_bools; reflect_lia).
  assert (Hc : Z.of_nat (code (byte_of x)) = x) by (apply code_byte_of; lia).
  change (code "a") with 97. change (code "z") with 122.
  change (code "0") with 48. change (code "9") with 57.
  apply orb_true_iff. right. apply orb_true_iff.
  destruct Hx; [right|left]; apply andb_true_iff; split; apply Nat.leb_le; lia.
Qed.

Lemma dns_byte_end n i c :
  i = 0 \/ S i = n -> is_label_end (dns_byte n i c) = true.
Proof.
  intros Hi. pose proof (dns_byte_mid n i c) as H. unfold is_label_mid in H.
  apply orb_true_iff in H as [H|H]; [| done]. exfalso.
  apply Ascii.eqb_eq in H. unfold dns_byte, dns_rune in H.
  destruct (is_dns_rune _) eqn:E.
  - unfold is_dns_rune, cont in E.
    remember (Z.of_nat (code (lower_ascii c))) as x.
    assert (Hx : (48 <= x <= 57 \/ 97 <= x <= 122)%Z)
      by (apply orb_true_iff in E as [E|E]; split_bools; reflect_lia).
    assert (Hc : Z.of_nat (code (byte_of x)) = x) by (apply code_byte_of; lia).
    rewrite H in Hc. change (code "-") with 45 in Hc. lia.
  - replace ((i =? 0) || (Z.of_nat i =? Z.of_nat n - 1)%Z) with true in H; [discriminate |].
    symmetry. apply orb_true_iff. rewrite Nat.eqb_eq, Z.eqb_eq. lia.
Qed.

Lemma forallb_imap {A B} (p : B -> bool) (f : nat -> A -> B) l :
  (forall i x, p (f i x) = true) -> forallb p (imap f l) = true.
Proof.
  intros H. revert f H. induction l as [|x l IH]; intros f H; simpl; [done |].
  rewrite H. apply IH. intros. apply H.
Qed.

Lemma DNSName_label lower name :
  all_bytes is_ascii name = true -> name <> "" ->
  matches (RBracket is_label_end is_label_mid) (bytes (DNSName lower name)) = true.
Proof.
  intros Ha Hne. rewrite matches_lang, lang_bracket, DNSName_ascii by done.
  rewrite <- bytes_length. assert (Hb : bytes name <> []) by (by destruct name).
  destruct (bytes name) as [|c l] eqn:E; [done |].
  destruct l as [|d l' _] using rev_ind.
  - left. eexists. split; [done |]. apply dns_byte_end. auto.
  - right. simpl. rewrite imap_app. simpl. do 3 eexists. split; [done |].
    split_and!.
    + apply dns_byte_end. auto.
    + apply dns_byte_end. right. rewrite length_app. simpl. lia.
    + apply forallb_imap. intros. apply dns_byte_mid.
Qed.

Lemma DNSName_length lower name :
  all_bytes is_ascii name = true -> String.length (DNSName lower name) = String.length name.
Proof. intros H. by rewrite <- bytes_length, DNSName_ascii, length_imap, bytes_length. Qed.

Lemma DNSName_is_ascii lower name : all_bytes is_ascii (DNSName lower name) = true.
Proof.
  unfold all_bytes. rewrite DNSName_bytes. apply forallb_forall.
  intros c (p & <- & _)%in_map_iff.
  pose proof (dns_rune_range (RuneCountInString name) p.1 p.2).
  unfold is_ascii. apply Nat.ltb_lt.
  pose proof (code_byte_of (dns_rune (RuneCountInString name) p.1 p.2)). lia.
Qed.

Lemma take_forallb_ascii n s :
  all_bytes is_ascii s = true -> all_bytes is_ascii (of_bytes (take n (bytes s))) = true.
Proof. intros H. rewrite all_bytes_of_bytes. by apply forallb_take. Qed.

(** A builder whose fixed parts hold an alphanumeric byte and fit in 63. *)
Lemma builder_label lower format pre suf s :
  (forall x, Sprintf format [VString x] = pre +:+ x +:+ suf) ->
  String.length pre + String.length suf < 63 ->
  has_alnum pre || has_alnum suf = true ->
  all_bytes is_ascii pre && all_bytes is_ascii suf = true ->
  all_bytes is_ascii s = true ->
  dns_label (DNSName lower (Truncate format 63 [VString s])).
Proof.
  intros Hf Hlen Hal Hps Hs.
  destruct (Truncate_one format pre suf 63 s Hf Hlen) as (s' & -> & [n ->] & Hle).
  set (t := pre +:+ _ +:+ suf) in *.
  assert (Ht : all_bytes is_ascii t = true).
  { unfold t. rewrite !all_bytes_app. split_bools; auto using take_forallb_ascii. }
  assert (Hn : has_alnum t = true).
  { unfold t. rewrite !has_alnum_app.
    apply orb_true_iff in Hal as [->| ->]; by rewrite ?orb_true_r. }
  apply (trim_forallb is_ascii) in Ht. split.
  - apply DNSName_label; [done |]. apply trim_has_alnum in Hn.
    intros E. rewrite E in Hn. discriminate.
  - rewrite DNSName_length by done. pose proof (trim_length t). lia.
Qed.

Definition name_builders (lower : Z -> Z) : list (string -> string) :=
  [ConfigMapExtra lower; Service lower; HeadlessService lower; MonitoringService lower;
   ExtensionService lower; GrpcService lower; NonGrpcService lower; Ingress lower].

(** Applies [builder_label] with the fixed parts of a format. *)
Ltac solve_builder pre suf :=
  apply (builder_label _ _ pre suf);
  [reflexivity | simpl; lia | reflexivity | reflexivity | first [assumption | apply DNSName_is_ascii]].

Lemma builder_fixed_part lower :
  Forall (fun b => forall s, all_bytes is_ascii s = true -> dns_label (b s))
         (name_builders lower).
Proof.
  unfold name_builders. rewrite !Forall_cons, Forall_nil.
  split_and!; try done; intros s Hs; unfold HeadlessService, MonitoringService,
    ExtensionService, GrpcService, NonGrpcService, Ingress, ConfigMapExtra.
  - solve_builder "configmap-" "".
  - solve_builder "" "-collector".
  - solve_builder "" "-headless".
  - solve_builder "" "-monitoring".
  - solve_builder "" "-extension".
  - solve_builder "" "-grpc".
  - solve_builder "" "-non-grpc".
  - solve_builder "" "-ingress".
Qed.

(** ** Lemmas: decimal numerals *)

Lemma pretty_N_go_length k x s :
  (x < 10 ^ N.of_nat k)%N -> String.length (pretty_N_go x s) <= k + String.length s.
Proof.
  revert x s. induction k as [|k IH]; intros x s Hx.
  - replace x with 0%N by (simpl in Hx; lia). by rewrite pretty_N_go_0.
  - destruct (N.eq_dec x 0%N) as [->|Hx0]; [rewrite pretty_N_go_0; lia |].
    rewrite pretty_N_go_step by lia. etransitivity; [apply IH |].
    + apply N.Div0.div_lt_upper_bound. rewrite Nat2N.inj_succ, N.pow_succ_r in Hx by lia. lia.
    + simpl. lia.
Qed.

Lemma pretty_port_length z : (0 <= z < 100000)%Z -> String.length (pretty z) <= 5.
Proof.
  intros H. destruct z as [|p|p]; [simpl; lia | | lia].
  change (pretty (Z.pos p)) with (pretty_N_go (N.pos p) "").
  etransitivity; [apply (pretty_N_go_length 5); simpl; lia | simpl; lia].
Qed.

Lemma ReplaceByte_length s o n : String.length (ReplaceByte s o n) = String.length s.
Proof. unfold ReplaceByte. by rewrite of_bytes_length, length_map, bytes_length. Qed.

Lemma Sprintf_port port : Sprintf "port-%d" [VInt port] = "port-" +:+ pretty port.
Proof.
  change (Sprintf "port-%d" [VInt port]) with ("port-" +:+ (pretty port +:+ "")).
  by rewrite append_nil_r.
Qed.

(** ** Properties *)

(** C30. Every name builder with a fixed part (services, ingress, extra config
    maps) maps any ASCII instance name, however long or malformed, to a
    DNS-1123 label of at most 63 bytes; the whole chain of truncation, trimming
    and character replacement is covered. *)
Theorem name_builders_dns_label (lower : Z -> Z) (b : string -> string) (s : string) :
  b ∈ name_builders lower -> all_bytes is_ascii s = true -> dns_label (b s).
Proof.
  intros Hb Hs. pose proof (builder_fixed_part lower) as H.
  rewrite Forall_forall in H. by apply (H b Hb s).
Qed.

Lemma name_builders_dns_label_witness :
  dns_label (GrpcService (fun r => r) "My_Collector..with.a.name.that.is.far.too.long.for.a.kubernetes.label").
Proof.
  apply (name_builders_dns_label (fun r => r)); [| reflexivity].
  unfold name_builders. rewrite !elem_of_cons. tauto.
Defined.

(** [Truncate] never returns more than [maxLen] bytes, for any format and
    any values. *)
Theorem Truncate_length (format : string) (maxLen : nat) (values : list any_value) :
  String.length (Truncate format maxLen values) <= maxLen.
Proof.
  unfold Truncate. cbv zeta.
  match goal with |- context [maxLen <? String.length ?r] => generalize r end. intros r.
  destruct (Nat.ltb_spec maxLen (String.length r)).
  - rewrite of_bytes_length, length_take. lia.
  - etransitivity; [apply trim_length | done].
Qed.

(** [PortName] stays within the 15 bytes Kubernetes allows for a port name,
    for every receiver name and every valid port number. *)
Lemma PortName_length (receiverName : string) (port : Z) :
  (0 <= port <= 65535)%Z -> String.length (PortName receiverName port) <= 15.
Proof.
  intros Hp. assert (Hf : String.length (Sprintf "port-%d" [VInt port]) <= 15).
  { rewrite Sprintf_port, string_length_app. pose proof (pretty_port_length port). simpl. lia. }
  unfold PortName. destruct (Nat.ltb_spec 15 (String.length receiverName)); [done |].
  destruct (negb _); [done |]. by rewrite !ReplaceByte_length.
Qed.

Lemma PortName_length_witness :
  PortName "otlp/http_2" 4318 = "otlp-http-2" /\ String.length (PortName "otlp&&http" 65535) <= 15.
Proof. split; [reflexivity | apply PortName_length; lia]. Defined.

(** The comment of [DNSName] says the result starts and ends with [a-z0-9]
    and keeps its length; on a name with a multi-byte rune neither holds,
    because the byte index of a rune is compared with the rune count. *)
Theorem DNSName_multibyte (lower : Z -> Z) :
  lower 233%Z = 233%Z ->
  DNSName lower "éa-" = "aa-" /\ ~ dns_label (DNSName lower "éa-").
Proof.
  intros H. assert (E : DNSName lower "éa-" = "aa-").
  { unfold DNSName. replace (ToLower lower "éa-") with "éa-"; [reflexivity |].
    change (ToLower lower "éa-") with (string_of_runes [lower 233; 97; 45]%Z).
    by rewrite H. }
  split; [done |]. rewrite E. intros [Hm _]. vm_compute in Hm. discriminate.
Qed.

Lemma DNSName_multibyte_witness : DNSName (fun r => r) "éa-" = "aa-".
Proof. apply (DNSName_multibyte (fun r => r)). reflexivity. Defined.
