(* ===== verification/ApiTypes.v ===== *)
(** * api/v1: the custom resources, and the Kubernetes data they embed

    One record per Go struct, one field per struct field.  A pointer or a map
    or slice that the code compares with [nil] is an [option]; [slice] reads
    such a slice the way [len] and [range] do.  Go string enumerations keep
    their strings, because the code has default branches for unknown values.
    The [k8s] records at the top hold the fields of third-party structs the
    operator reads or writes. *)

From S2P Require Import Prelude GoLib.

Definition slice {A} (s : option (list A)) : list A := default [] s.
Definition gomap {A} (m : option (gmap string A)) : gmap string A := default ∅ m.

(** [ptr.Deref(p, d)]. *)
Definition deref {A} (p : option A) (d : A) : A := default d p.

(** ** k8s.io data *)

Record OwnerReference := {
  or_Name : string;
  or_UID : string;
  or_Controller : bool
}.

Record ObjectMeta := {
  om_Name : string;
  om_Namespace : string;
  om_UID : string;
  om_Generation : Z;
  om_Labels : option (gmap string string);
  om_Annotations : option (gmap string string);
  om_Finalizers : list string;
  om_OwnerReferences : list OwnerReference;
  om_DeletionTimestamp : option Z;
  om_CreationTimestamp : option Z
}.

Definition named (name namespace : string) : ObjectMeta :=
  {| om_Name := name; om_Namespace := namespace; om_UID := ""; om_Generation := 0;
     om_Labels := None; om_Annotations := None; om_Finalizers := [];
     om_OwnerReferences := []; om_DeletionTimestamp := None; om_CreationTimestamp := None |}.

Definition with_labels (m : ObjectMeta) (l : option (gmap string string)) : ObjectMeta :=
  {| om_Name := om_Name m; om_Namespace := om_Namespace m; om_UID := om_UID m;
     om_Generation := om_Generation m; om_Labels := l; om_Annotations := om_Annotations m;
     om_Finalizers := om_Finalizers m; om_OwnerReferences := om_OwnerReferences m;
     om_DeletionTimestamp := om_DeletionTimestamp m;
     om_CreationTimestamp := om_CreationTimestamp m |}.

Definition with_annotations (m : ObjectMeta) (a : option (gmap string string)) : ObjectMeta :=
  {| om_Name := om_Name m; om_Namespace := om_Namespace m; om_UID := om_UID m;
     om_Generation := om_Generation m; om_Labels := om_Labels m; om_Annotations := a;
     om_Finalizers := om_Finalizers m; om_OwnerReferences := om_OwnerReferences m;
     om_DeletionTimestamp := om_DeletionTimestamp m;
     om_CreationTimestamp := om_CreationTimestamp m |}.

Definition with_finalizers (m : ObjectMeta) (fs : list string) : ObjectMeta :=
  {| om_Name := om_Name m; om_Namespace := om_Namespace m; om_UID := om_UID m;
     om_Generation := om_Generation m; om_Labels := om_Labels m;
     om_Annotations := om_Annotations m; om_Finalizers := fs;
     om_OwnerReferences := om_OwnerReferences m;
     om_DeletionTimestamp := om_DeletionTimestamp m;
     om_CreationTimestamp := om_CreationTimestamp m |}.

Definition with_owners (m : ObjectMeta) (os : list OwnerReference) : ObjectMeta :=
  {| om_Name := om_Name m; om_Namespace := om_Namespace m; om_UID := om_UID m;
     om_Generation := om_Generation m; om_Labels := om_Labels m;
     om_Annotations := om_Annotations m; om_Finalizers := om_Finalizers m;
     om_OwnerReferences := os; om_DeletionTimestamp := om_DeletionTimestamp m;
     om_CreationTimestamp := om_CreationTimestamp m |}.

Record Condition := {
  cond_Type : string;
  cond_Status : string;
  cond_Reason : string;
  cond_Message : string
}.

(** [intstr.IntOrString]. *)
Inductive IntOrString :=
| FromInt32 (i : Z)
| FromString (s : string).

(** The [StrVal] field, empty in an integer value. *)
Definition StrVal (v : IntOrString) : string :=
  match v with FromInt32 _ => "" | FromString s => s end.

Record SecretKeySelector := { sks_Name : string; sks_Key : string }.
Record ConfigMapKeySelector := { cmks_Name : string; cmks_Key : string }.

Record Toleration := {
  tol_Key : string;
  tol_Operator : string;
  tol_Value : string;
  tol_Effect : string;
  tol_Seconds : option Z
}.

Record ResourceRequirements := {
  rr_Limits : gmap string string;
  rr_Requests : gmap string string
}.

(** ** mdaireplay_types.go *)

Definition MdaiReplayTelemetryType := string.
Definition MdaiReplayS3Partition := string.

Definition LogsReplayTelemetryType : MdaiReplayTelemetryType := "logs".
Definition MetricsReplayTelemetryType : MdaiReplayTelemetryType := "metrics".
Definition TracesReplayTelemetryType : MdaiReplayTelemetryType := "traces".
Definition S3ReplayMinutePartition : MdaiReplayS3Partition := "minute".
Definition S3ReplayHourPartition : MdaiReplayS3Partition := "hour".

Record MdaiReplayAwsConfig := { raws_AWSAccessKeySecret : option string }.

Record MdaiReplayS3Configuration := {
  rs3_S3Region : string;
  rs3_S3Bucket : string;
  rs3_FilePrefix : string;
  rs3_S3Path : string;
  rs3_S3Partition : MdaiReplayS3Partition
}.

Record MdaiReplaySourceConfiguration := {
  rsrc_AWSConfig : option MdaiReplayAwsConfig;
  rsrc_S3 : option MdaiReplayS3Configuration
}.

Record MdaiReplayOtlpHttpDestinationConfiguration := { rotlp_Endpoint : string }.

Record MdaiReplayDestinationConfiguration := {
  rdst_OtlpHttp : option MdaiReplayOtlpHttpDestinationConfiguration
}.

Record MdaiReplayResourceConfiguration := { rres_Image : string }.

Record MdaiReplaySpec := {
  rep_StartTime : string;
  rep_EndTime : string;
  rep_TelemetryType : MdaiReplayTelemetryType;
  rep_HubName : string;
  rep_StatusVariableRef : string;
  rep_OpAMPEndpoint : string;
  rep_IgnoreSendingQueue : bool;
  rep_Source : MdaiReplaySourceConfiguration;
  rep_Destination : MdaiReplayDestinationConfiguration;
  rep_Resource : MdaiReplayResourceConfiguration
}.

Record MdaiReplayStatus := {
  reps_LastUpdatedTime : option Z;
  reps_Conditions : list Condition
}.

Record MdaiReplay := {
  mr_ObjectMeta : ObjectMeta;
  mr_Spec : MdaiReplaySpec;
  mr_Status : MdaiReplayStatus
}.

(** ** mdaihub_types.go *)

Definition VariableStorageType := string.
Definition VariableType := string.
Definition VariableDataType := string.
Definition TransformerType := string.

Definition VariableSourceTypeBuiltInValkey : VariableStorageType := "mdai-valkey".
Definition VariableTypeManual : VariableType := "manual".
Definition VariableTypeComputed : VariableType := "computed".
Definition VariableTypeMeta : VariableType := "meta".
Definition VariableDataTypeInt : VariableDataType := "int".
Definition VariableDataTypeFloat : VariableDataType := "float".
Definition VariableDataTypeBoolean : VariableDataType := "boolean".
Definition VariableDataTypeString : VariableDataType := "string".
Definition VariableDataTypeSet : VariableDataType := "set".
Definition VariableDataTypeMap : VariableDataType := "map".
Definition MetaVariableDataTypeHashSet : VariableDataType := "metaHashSet".
Definition MetaVariableDataTypePriorityList : VariableDataType := "metaPriorityList".
Definition TransformerTypeJoin : TransformerType := "join".
Definition TemplateRefSlack : string := "slackAlertTemplate".
Definition TemplateRefJSON : string := "jsonTemplate".

Record JoinTransformer := { jt_Delimiter : string }.

Record VariableTransformer := {
  vt_Type : TransformerType;
  vt_Join : option JoinTransformer
}.

Record Serializer := {
  ser_Name : string;
  ser_Transformers : list VariableTransformer
}.

Record Variable_ := {
  var_Key : string;
  var_Type : VariableType;
  var_DataType : VariableDataType;
  var_StorageType : VariableStorageType;
  var_VariableRefs : option (list string);
  var_SerializeAs : option (list Serializer)
}.

Record PrometheusAlert := {
  pa_Name : string;
  pa_Expr : IntOrString;
  pa_For : option string;
  pa_KeepFiringFor : option string;
  pa_Severity : string
}.

Record Config := { cfg_EvaluationInterval : option string }.

Record SetAction := { sa_Set : string; sa_Value : string }.
Record ScalarAction := { sca_Scalar : string; sca_Value : string }.
Record MapAction := { ma_Map : string; ma_Key : string; ma_Value : option string }.

Record ValueFromSource := {
  vfs_SecretKeyRef : option SecretKeySelector;
  vfs_ConfigMapKeyRef : option ConfigMapKeySelector
}.

Record StringOrFrom := {
  sof_Value : option string;
  sof_ValueFrom : option ValueFromSource
}.

Record CallWebhookAction := {
  cw_URL : StringOrFrom;
  cw_Method : string;
  cw_TemplateRef : string;
  cw_PayloadTemplate : option StringOrFrom;
  cw_TemplateValues : gmap string string;
  cw_TemplateValuesFrom : gmap string ValueFromSource;
  cw_Headers : gmap string string;
  cw_HeadersFrom : gmap string ValueFromSource;
  cw_Timeout : option Z
}.

Record DeployReplayAction := { dr_ReplaySpec : MdaiReplaySpec }.

Inductive CleanUpReplayAction := CleanUpReplay.

Record Action := {
  act_AddToSet : option SetAction;
  act_RemoveFromSet : option SetAction;
  act_SetVariable : option ScalarAction;
  act_AddToMap : option MapAction;
  act_RemoveFromMap : option MapAction;
  act_CallWebhook : option CallWebhookAction;
  act_DeployReplay : option DeployReplayAction;
  act_CleanUpReplay : option CleanUpReplayAction
}.

Record When := {
  when_AlertName : option string;
  when_Status : option string;
  when_VariableUpdated : option string;
  when_UpdateType : option string
}.

Record AutomationRule := {
  ar_Name : string;
  ar_When : When;
  ar_Then : list Action
}.

Record MdaiHubSpec := {
  hub_Config : option Config;
  hub_Variables : list Variable_;
  hub_PrometheusAlerts : option (list PrometheusAlert);
  hub_Rules : option (list AutomationRule)
}.

Record MdaiHubStatus := {
  hubs_HubStatus : string;
  hubs_LastUpdatedTime : option Z;
  hubs_Conditions : list Condition
}.

Record MdaiHub := {
  mh_ObjectMeta : ObjectMeta;
  mh_Spec : MdaiHubSpec;
  mh_Status : MdaiHubStatus
}.

(** ** mdaicollector_types.go *)

Definition MDAILogStream := string.
Definition SeverityLevel := string.

Definition AuditLogstream : MDAILogStream := "audit".
Definition CollectorLogstream : MDAILogStream := "collector".
Definition HubLogstream : MDAILogStream := "hub".
Definition OtherLogstream : MDAILogStream := "other".
Definition DebugSeverityLevel : SeverityLevel := "debug".
Definition InfoSeverityLevel : SeverityLevel := "info".
Definition WarnSeverityLevel : SeverityLevel := "warn".
Definition ErrorSeverityLevel : SeverityLevel := "error".

Record AWSConfig := { aws_AWSAccessKeySecret : option string }.
Record AuditLogstreamConfig := { als_Disabled : bool }.

Record LogstreamConfig := {
  ls_MinSeverity : option SeverityLevel;
  ls_Disabled : bool
}.

Record S3LogsConfig := {
  s3_AuditLogs : option AuditLogstreamConfig;
  s3_CollectorLogs : option LogstreamConfig;
  s3_HubLogs : option LogstreamConfig;
  s3_OtherLogs : option LogstreamConfig;
  s3_S3Region : string;
  s3_S3Bucket : string
}.

Record OtlpLogsConfig := {
  otlp_AuditLogs : option AuditLogstreamConfig;
  otlp_CollectorLogs : option LogstreamConfig;
  otlp_HubLogs : option LogstreamConfig;
  otlp_OtherLogs : option LogstreamConfig;
  otlp_Endpoint : string
}.

Record LogsConfig := {
  logs_S3 : option S3LogsConfig;
  logs_Otlp : option OtlpLogsConfig
}.

Record MdaiCollectorSpec := {
  col_AWSConfig : option AWSConfig;
  col_Logs : option LogsConfig;
  col_Image : string;
  col_Replicas : Z;
  col_Tolerations : list Toleration
}.

Record MdaiCollectorStatus := {
  cols_LastUpdatedTime : option Z;
  cols_Conditions : list Condition
}.

Record MdaiCollector := {
  mc_ObjectMeta : ObjectMeta;
  mc_Spec : MdaiCollectorSpec;
  mc_Status : MdaiCollectorStatus
}.

(** ** mdaidal_types.go *)

Definition ImagePullPolicy := string.

Record MdaiDalS3Config := { ds3_Bucket : string; ds3_Prefix : string }.

Record MdaiDalAWSCredentials := {
  dcr_SecretName : string;
  dcr_AccessKeyField : string;
  dcr_SecretKeyField : string
}.

Record MdaiDalAWSConfig := {
  daws_Region : string;
  daws_Credentials : MdaiDalAWSCredentials
}.

Record MdaiDalImageSpec := {
  dimg_Repository : string;
  dimg_Tag : string;
  dimg_PullPolicy : ImagePullPolicy
}.

Record MdaiDalSpec := {
  dal_Granularity : string;
  dal_UsePayloadTS : bool;
  dal_Marshaler : string;
  dal_S3 : MdaiDalS3Config;
  dal_AWS : MdaiDalAWSConfig;
  dal_ImageSpec : option MdaiDalImageSpec
}.

Record MdaiDalStatus := {
  dals_Conditions : list Condition;
  dals_ObservedGeneration : Z;
  dals_Replicas : Z;
  dals_ReadyReplicas : Z;
  dals_Endpoint : string;
  dals_LastSyncedTime : Z
}.

Record MdaiDal := {
  md_ObjectMeta : ObjectMeta;
  md_Spec : MdaiDalSpec;
  md_Status : MdaiDalStatus
}.

(** [corev1.PullIfNotPresent] is the string ["IfNotPresent"]. *)
Definition ToK8s (p : ImagePullPolicy) : string :=
  if bool_decide (p = "") then "IfNotPresent" else p.

(** ** mdaiobserver_types.go *)

Record ObserverLogsFilter := { olf_LogRecord : list string }.

Record ObserverFilter := {
  of_ErrorMode : option string;
  of_Logs : option ObserverLogsFilter
}.

Record Observer := {
  obs_Name : string;
  obs_LabelResourceAttributes : list string;
  obs_CountMetricName : option string;
  obs_BytesMetricName : option string;
  obs_Filter : option ObserverFilter
}.

Record ObserverResource := {
  ores_Image : string;
  ores_Replicas : Z;
  ores_Resources : option ResourceRequirements;
  ores_GrpcReceiverMaxMsgSize : option Z;
  ores_OwnLogsOtlpEndpoint : option string;
  ores_Tolerations : list Toleration
}.

Record MdaiObserverSpec := {
  obss_Observers : list Observer;
  obss_ObserverResource : ObserverResource
}.

Record MdaiObserverStatus := {
  obst_ObserverStatus : string;
  obst_LastUpdatedTime : option Z;
  obst_Conditions : list Condition
}.

Record MdaiObserver := {
  mo_ObjectMeta : ObjectMeta;
  mo_Spec : MdaiObserverSpec;
  mo_Status : MdaiObserverStatus
}.

(** ** mdaiingress_types.go *)

Definition CloudProvider := string.
Definition CloudProviderAws : CloudProvider := "aws".

Record OtelColRef := { ocr_Name : string }.

(** [corev1.ServiceType] is a string. *)
Record IngressService := {
  is_Type : string;
  is_Annotations : option (gmap string string)
}.

Record MdaiIngressSpec := {
  ing_OtelCollector : OtelColRef;
  ing_CloudType : CloudProvider;
  ing_Annotations : option (gmap string string);
  ing_IngressClassName : option string;
  ing_GrpcService : option IngressService;
  ing_NonGrpcService : option IngressService;
  ing_CollectorEndpoints : option (gmap string string)
}.

#[export] Instance MdaiIngressSpec_eq_dec : EqDecision MdaiIngressSpec.
Proof.
  pose proof (ltac:(solve_decision) : EqDecision OtelColRef).
  pose proof (ltac:(solve_decision) : EqDecision IngressService).
  solve_decision.
Defined.

Record MdaiIngress := {
  mi_ObjectMeta : ObjectMeta;
  mi_Spec : MdaiIngressSpec
}.
