(* ===== verification/Errors.v ===== *)
(** * Go error values

    The errors the operator builds: [errors.New] and [fmt.Errorf], wrapping with
    [%w], [errors.Join], the API status errors with their reason (what
    [apierrors.IsNotFound], [IsConflict] and [ReasonForError] inspect), and the
    field errors of the validating webhooks. *)

From S2P Require Import Prelude GoLib ApiTypes.
From stdpp Require Import pretty.

(** [field.Path]: rendered the way [Path.String] does. *)
Inductive path_elem :=
| PChild (name : string)
| PIndex (i : nat)
| PKey (k : string).

(** The root element comes first. *)
Definition path := list path_elem.

Definition NewPath (names : list string) : path := map PChild names.
Definition Child (p : path) (name : string) : path := p ++ [PChild name].
Definition Index (p : path) (i : nat) : path := p ++ [PIndex i].
Definition Key (p : path) (k : string) : path := p ++ [PKey k].

Fixpoint path_tail (p : path) : string :=
  match p with
  | [] => ""
  | PChild n :: p' => "." +:+ n +:+ path_tail p'
  | PIndex i :: p' => "[" +:+ pretty i +:+ "]" +:+ path_tail p'
  | PKey k :: p' => "[" +:+ k +:+ "]" +:+ path_tail p'
  end.

(** [Path.String]. *)
Definition path_string (p : path) : string :=
  match p with
  | PChild n :: p' => n +:+ path_tail p'
  | _ => path_tail p
  end.

(** The offending value of a field error. *)
Inductive bad_value :=
| BVNone
| BVString (s : string)
| BVStrings (l : list string)
| BVReplaySpec (s : MdaiReplaySpec).

(** [field.ErrorType] with the data of each constructor function. *)
Inductive field_error :=
| FieldRequired (p : path) (detail : string)
| FieldInvalid (p : path) (v : bad_value) (detail : string)
| FieldDuplicate (p : path) (v : bad_value)
| FieldForbidden (p : path) (detail : string)
| FieldNotSupported (p : path) (v : bad_value) (valid : list string).

(** [metav1.StatusReason] of an API error. *)
Inductive status_reason :=
| ReasonNotFound
| ReasonAlreadyExists
| ReasonConflict
| ReasonOther.

Inductive error :=
| Err (msg : string)
| ErrWrap (msg : string) (inner : error)
| ErrJoin (es : list error)
| ErrStatus (reason : status_reason) (msg : string)
| ErrInvalid (group kind name : string) (errs : list field_error)
| ErrInternal (inner : error)
| ErrImmutableFieldChange (field : string).

#[export] Instance status_reason_eq_dec : EqDecision status_reason.
Proof. solve_decision. Defined.

(** [apierrors.ReasonForError]: the first status error in the tree of wrapped
    errors, in the order of [errors.As]. *)
Fixpoint ReasonForError (e : error) : option status_reason :=
  match e with
  | Err _ | ErrImmutableFieldChange _ => None
  | ErrStatus r _ => Some r
  | ErrInvalid _ _ _ _ | ErrInternal _ => Some ReasonOther
  | ErrWrap _ e => ReasonForError e
  | ErrJoin es =>
      (fix first (l : list error) : option status_reason :=
         match l with
         | [] => None
         | e :: l' => match ReasonForError e with Some r => Some r | None => first l' end
         end) es
  end.

Definition IsNotFound (e : error) : bool :=
  bool_decide (ReasonForError e = Some ReasonNotFound).
Definition IsConflict (e : error) : bool :=
  bool_decide (ReasonForError e = Some ReasonConflict).
Definition IsAlreadyExists (e : error) : bool :=
  bool_decide (ReasonForError e = Some ReasonAlreadyExists).

(** [errors.As] for the operator's own error of a changed immutable field. *)
Fixpoint IsImmutableFieldChange (e : error) : bool :=
  match e with
  | ErrImmutableFieldChange _ => true
  | ErrWrap _ e => IsImmutableFieldChange e
  | ErrJoin es => existsb IsImmutableFieldChange es
  | _ => false
  end.

(** [client.IgnoreNotFound]. *)
Definition IgnoreNotFound (e : error) : option error :=
  if IsNotFound e then None else Some e.

(** A Go [(value, error)] pair; the value is meaningful also beside an error. *)
Abbreviation with_error A := (A * option error)%type.
