(* ===== verification/NetUrl.v ===== *)
(** * The standard-library parsers behind the webhooks

    [net/url.ParseRequestURI] (the scheme and host of the result),
    [net/textproto.CanonicalMIMEHeaderKey], and [time.Parse] for the three
    layouts the replay webhook accepts.  Each follows the Go implementation
    step by step; what is left out is named at each definition. *)

From S2P Require Import Prelude GoLib.

(** ** net/url *)

Record URL := { url_Scheme : string; url_Host : string }.

Definition is_ctl (c : ascii) : bool := (code c <? 32) || (code c =? 127).
Definition is_hex (c : ascii) : bool :=
  is_digit c || in_range "a" "f" c || in_range "A" "F" c.
Definition is_letter (c : ascii) : bool := is_lower c || is_upper c.
Definition one_of (cs : string) (c : ascii) : bool := existsb (Ascii.eqb c) (bytes cs).

(** [getScheme]: scheme and rest; [None] is the missing-scheme error. *)
Fixpoint getScheme_from (acc l : list ascii) : option (list ascii * list ascii) :=
  match l with
  | [] => Some ([], acc)
  | c :: l' =>
      if is_letter c then getScheme_from (acc ++ [c]) l'
      else if is_digit c || one_of "+-." c then
        match acc with
        | [] => Some ([], acc ++ l)
        | _ => getScheme_from (acc ++ [c]) l'
        end
      else if Ascii.eqb c ":" then
        match acc with
        | [] => None
        | _ => Some (acc, l')
        end
      else Some ([], acc ++ l)
  end.

(** The last position of [c], as [strings.LastIndex]. *)
Fixpoint LastIndexByte (l : list ascii) (c : ascii) : option nat :=
  match l with
  | [] => None
  | x :: l' =>
      match LastIndexByte l' c with
      | Some i => Some (S i)
      | None => if Ascii.eqb x c then Some 0 else None
      end
  end.

(** [validOptionalPort]: empty, or a colon and digits. *)
Definition validOptionalPort (l : list ascii) : bool :=
  match l with
  | [] => true
  | c :: l' => Ascii.eqb c ":" && forallb is_digit l'
  end.

(** [shouldEscape(c, encodeHost)] is false. *)
Definition host_char (c : ascii) : bool :=
  is_alnum c || one_of "-_.~!$&'()*+,;=:[]<>" c || (code c =? 34).

Inductive esc_mode := EncodeHost | EncodeZone | EncodePath | EncodeUser.

Definition hex_val (c : ascii) : nat :=
  if is_digit c then code c - 48
  else if in_range "a" "f" c then code c - 87 else code c - 55.

(** [unescape(s, mode)] succeeds.  A [%] needs two hex digits; in a host it may
    only encode a non-ASCII byte or be [%25]; in a zone it may also encode a
    space, a [%], or a byte that need not be escaped. *)
Fixpoint unescape_ok (mode : esc_mode) (l : list ascii) : bool :=
  match l with
  | [] => true
  | c :: l' =>
      if Ascii.eqb c "%" then
        match l' with
        | h1 :: h2 :: l'' =>
            is_hex h1 && is_hex h2 &&
            (match mode with
             | EncodeHost =>
                 negb (in_range "0" "7" h1) || (Ascii.eqb h1 "2" && Ascii.eqb h2 "5")
             | EncodeZone =>
                 let v := ascii_of_nat (16 * hex_val h1 + hex_val h2) in
                 (Ascii.eqb h1 "2" && Ascii.eqb h2 "5") || Ascii.eqb v " " || host_char v
             | _ => true
             end) && unescape_ok mode l''
        | _ => false
        end
      else
        match mode with
        | EncodeHost | EncodeZone => (negb (is_ascii c) || host_char c) && unescape_ok mode l'
        | _ => unescape_ok mode l'
        end
  end.

(** [parseHost]: whether it succeeds.  The decoded host is not built; it is
    empty exactly when the text is.  A bracketed host with a zone is checked
    with [EncodeZone] for the part from the zone to the bracket. *)
Fixpoint index_zone (l : list ascii) : option nat :=
  match l with
  | [] => None
  | c :: l' => if has_prefix l (bytes "%25") then Some 0 else S <$> index_zone l'
  end.

Definition parseHost_ok (host : list ascii) : bool :=
  if has_prefix host (bytes "[") then
    match LastIndexByte host "]" with
    | None => false
    | Some i =>
        validOptionalPort (drop (S i) host) &&
        match index_zone (take i host) with
        | Some z => unescape_ok EncodeHost (take z host)
                    && unescape_ok EncodeZone (drop z (take i host))
                    && unescape_ok EncodeHost (drop i host)
        | None => unescape_ok EncodeHost host
        end
    end
  else
    match LastIndexByte host ":" with
    | Some i => validOptionalPort (drop i host) && unescape_ok EncodeHost host
    | None => unescape_ok EncodeHost host
    end.

(** [validUserinfo]. *)
Definition validUserinfo (l : list ascii) : bool :=
  forallb (fun c => is_alnum c || one_of "-._:~!$&'()*+,;=%@" c) l.

(** [parseAuthority]: the host text when it succeeds. *)
Definition parseAuthority (authority : list ascii) : option (list ascii) :=
  match LastIndexByte authority "@" with
  | None => if parseHost_ok authority then Some authority else None
  | Some i =>
      let host := drop (S i) authority in
      let userinfo := take i authority in
      if parseHost_ok host && validUserinfo userinfo && unescape_ok EncodeUser userinfo
      then Some host else None
  end.

Definition cut_at (l : list ascii) (c : ascii) : list ascii :=
  match IndexByte l c with Some i => take i l | None => l end.

Definition ParseRequestURI (rawURL : string) : option URL :=
  let raw := bytes rawURL in
  if existsb is_ctl raw then None
  else if bool_decide (rawURL = "") then None
  else if bool_decide (rawURL = "*") then Some {| url_Scheme := ""; url_Host := "" |}
  else
    match getScheme_from [] raw with
    | None => None
    | Some (scheme, rest) =>
        let scheme := of_bytes (map lower_ascii scheme) in
        let rest := cut_at rest "?" in
        if negb (has_prefix rest (bytes "/")) then
          if bool_decide (scheme = "") then None
          else Some {| url_Scheme := scheme; url_Host := "" |}
        else if negb (bool_decide (scheme = "")) && has_prefix rest (bytes "//") then
          let authority := drop 2 rest in
          let path := match IndexByte authority "/" with
                      | Some i => drop i authority | None => [] end in
          match parseAuthority (cut_at authority "/") with
          | None => None
          | Some host =>
              if unescape_ok EncodePath path
              then Some {| url_Scheme := scheme; url_Host := of_bytes host |} else None
          end
        else if unescape_ok EncodePath rest
        then Some {| url_Scheme := scheme; url_Host := "" |} else None
    end.

(** ** net/textproto *)

(** [validHeaderFieldByte]: an HTTP token byte. *)
Definition validHeaderFieldByte (c : ascii) : bool :=
  is_alnum c || one_of "!#$%&'*+-.^_`|~" c.

Definition upper_ascii (c : ascii) : ascii :=
  if is_lower c then ascii_of_nat (code c - 32) else c.

Fixpoint canonical_bytes (upper : bool) (l : list ascii) : list ascii :=
  match l with
  | [] => []
  | c :: l' =>
      (if upper then upper_ascii c else lower_ascii c) :: canonical_bytes (Ascii.eqb c "-") l'
  end.

Definition CanonicalMIMEHeaderKey (s : string) : string :=
  if all_bytes validHeaderFieldByte s then of_bytes (canonical_bytes true (bytes s)) else s.

(** ** time.Parse on the replay layouts *)

Definition num (l : list ascii) : Z := digits_val l.

(** Exactly two digits, and one or two digits ([getnum] fixed or not). *)
Definition getnum2 (l : list ascii) : option (Z * list ascii) :=
  match l with
  | a :: b :: l' => if is_digit a && is_digit b then Some (num [a; b], l') else None
  | _ => None
  end.

Definition getnum (l : list ascii) : option (Z * list ascii) :=
  match l with
  | a :: ((b :: l') as t) =>
      if is_digit a then if is_digit b then Some (num [a; b], l') else Some (num [a], t)
      else None
  | [a] => if is_digit a then Some (num [a], []) else None
  | [] => None
  end.

Definition getyear (l : list ascii) : option (Z * list ascii) :=
  match l with
  | a :: b :: c :: d :: l' =>
      if forallb is_digit [a; b; c; d] then Some (num [a; b; c; d], l') else None
  | _ => None
  end.

Definition expect (c : ascii) (l : list ascii) : option (list ascii) :=
  match l with
  | x :: l' => if Ascii.eqb x c then Some l' else None
  | [] => None
  end.

Definition is_leap (y : Z) : bool :=
  ((y mod 4 =? 0) && (negb (y mod 100 =? 0) || (y mod 400 =? 0)))%Z.

Definition days_in (m y : Z) : Z :=
  if (m =? 2)%Z then (if is_leap y then 29 else 28)%Z
  else if (m =? 4)%Z || (m =? 6)%Z || (m =? 9)%Z || (m =? 11)%Z then 30%Z else 31%Z.

(** [2006-01-02], the day checked against the month at the end by [time.Parse];
    the rest of the text is returned. *)
Definition parse_date (l : list ascii) : option (list ascii) :=
  '(y, l) ← getyear l; l ← expect "-" l;
  '(m, l) ← getnum2 l; l ← expect "-" l;
  '(d, l) ← getnum2 l;
  if (1 <=? m)%Z && (m <=? 12)%Z && (1 <=? d)%Z && (d <=? days_in m y)%Z
  then Some l else None.

Definition parse_hm (l : list ascii) : option (list ascii) :=
  '(h, l) ← getnum l; l ← expect ":" l;
  '(mi, l) ← getnum2 l;
  if (h <? 24)%Z && (mi <? 60)%Z then Some l else None.

(** A fraction after the seconds: a dot or comma and at least one digit; a
    separator with no digit is left for the next element of the layout. *)
Fixpoint skip_digits (l : list ascii) : list ascii :=
  match l with
  | c :: l' => if is_digit c then skip_digits l' else l
  | [] => []
  end.

Definition parse_seconds (l : list ascii) : option (list ascii) :=
  '(s, l) ← getnum2 l;
  if (s <? 60)%Z then
    match l with
    | p :: ((d :: _) as t) => if one_of ".," p && is_digit d then Some (skip_digits t) else Some l
    | _ => Some l
    end
  else None.

(** [Z07:00]. *)
Definition parse_zone (l : list ascii) : option (list ascii) :=
  match l with
  | c :: l' =>
      if Ascii.eqb c "Z" then Some l'
      else if one_of "+-" c then
        '(h, l') ← getnum2 l'; l' ← expect ":" l'; '(m, l') ← getnum2 l';
        if (h <=? 24)%Z && (m <=? 60)%Z then Some l' else None
      else None
  | [] => None
  end.

Definition at_end (r : option (list ascii)) : bool :=
  match r with Some [] => true | _ => false end.

(** [time.Parse(layout, s)] succeeds, for [time.RFC3339], for
    ["2006-01-02 15:04"] and for [time.DateOnly]. *)
Definition parses_RFC3339 (s : string) : bool :=
  at_end (l ← parse_date (bytes s); l ← expect "T" l; l ← parse_hm l;
          l ← expect ":" l; l ← parse_seconds l; parse_zone l).

Definition parses_DateTime (s : string) : bool :=
  at_end (l ← parse_date (bytes s); l ← expect " " l; parse_hm l).

Definition parses_DateOnly (s : string) : bool := at_end (parse_date (bytes s)).
