(* ===== verification/WebhookReplay.v ===== *)
(** * internal/webhook/v1: the MdaiReplay webhook

    [validateReplaySpec] in its two modes and the validator's entry points.
    The hub webhook calls [validateReplaySpec] for deploy-replay actions. *)

From S2P Require Import Prelude GoLib NetUrl ApiTypes Errors.

(** The objects the API server hands to a webhook: [runtime.Object] behind a
    type assertion. *)
Inductive RuntimeObject :=
| ObjMdaiHub (h : MdaiHub)
| ObjMdaiReplay (r : MdaiReplay)
| ObjMdaiObserver (o : MdaiObserver)
| ObjMdaiIngress (i : MdaiIngress)
| ObjMdaiCollector (c : MdaiCollector)
| ObjOther (type_name : string).

(** The name [%T] prints. *)
Definition type_name (o : RuntimeObject) : string :=
  match o with
  | ObjMdaiHub _ => "*v1.MdaiHub"
  | ObjMdaiReplay _ => "*v1.MdaiReplay"
  | ObjMdaiObserver _ => "*v1.MdaiObserver"
  | ObjMdaiIngress _ => "*v1.MdaiIngress"
  | ObjMdaiCollector _ => "*v1.MdaiCollector"
  | ObjOther n => n
  end.

Abbreviation Warnings := (list string).

(** How [%s] prints a slice of strings. *)
Definition show_strings (l : list string) : string := "[" +:+ Join l " " +:+ "]".

Definition contains (l : list string) (x : string) : bool := existsb (String.eqb x) l.

Definition timeStrLayouts : list string :=
  ["2006-01-02T15:04:05Z07:00"; "2006-01-02 15:04"; "2006-01-02"].

Definition validTelemetryTypes : list MdaiReplayTelemetryType :=
  [LogsReplayTelemetryType; MetricsReplayTelemetryType; TracesReplayTelemetryType].

Definition validPartitions : list MdaiReplayS3Partition :=
  [S3ReplayMinutePartition; S3ReplayHourPartition].

Definition ValidatorMode := string.
Definition ReplayCustomResourceValidatorMode : ValidatorMode := "ValidateForReplayCR".
Definition HubAutomationValidatorMode : ValidatorMode := "ValidateForHubAutomation".
Definition validValidatorModes : list ValidatorMode :=
  [ReplayCustomResourceValidatorMode; HubAutomationValidatorMode].

Section Replay.
(** The text of a [time.Parse] error. *)
Context (time_error : string -> string -> string).

(** [time.Parse(layout, s)], as the error it returns. *)
Definition time_parse (layout s : string) : option error :=
  let ok := if bool_decide (layout = "2006-01-02T15:04:05Z07:00") then parses_RFC3339 s
            else if bool_decide (layout = "2006-01-02 15:04") then parses_DateTime s
            else parses_DateOnly s in
  if ok then None else Some (Err (time_error layout s)).

(** [errors.Join(err, parseErrs)]. *)
Definition join_errors (err : error) (prev : option error) : error :=
  ErrJoin (err :: match prev with Some e => [e] | None => [] end).

Fixpoint try_layouts (layouts : list string) (timeStr : string) (parseErrs : option error)
  : option (option error) :=
  match layouts with
  | [] => Some parseErrs
  | layout :: rest =>
      match time_parse layout timeStr with
      | None => None
      | Some err => try_layouts rest timeStr (Some (join_errors err parseErrs))
      end
  end.

Definition validateTimeStr (timeStr : string) : option error :=
  match try_layouts timeStrLayouts timeStr None with
  | None => None
  | Some parseErrs =>
      let msg := "invalid time format: " +:+ timeStr +:+ ", expected one of "
                 +:+ show_strings timeStrLayouts +:+ ". Parser errors: " in
      match parseErrs with
      | Some e => Some (ErrWrap msg e)
      | None => Some (Err msg)
      end
  end.

Definition validateReplaySpec (spec : MdaiReplaySpec) (validatorMode : ValidatorMode)
  : with_error Warnings :=
  let warnings := [] in
  if negb (contains validValidatorModes validatorMode) then
    (warnings, Some (Err "tried to call validator with invalid validator mode (why/how are you calling this anyway?)"))
  else
  let cr_checks :=
    if bool_decide (validatorMode = HubAutomationValidatorMode) then None
    else if bool_decide (rep_HubName spec = "") then Some (Err "hubName cannot be empty")
    else match validateTimeStr (rep_StartTime spec) with
    | Some err => Some (ErrWrap "startTime is not in a supported format. Error: " err)
    | None =>
    match validateTimeStr (rep_EndTime spec) with
    | Some err => Some (ErrWrap "endTime is not in a supported format. Error: " err)
    | None =>
    if bool_decide (rep_TelemetryType spec = "")
       || negb (contains validTelemetryTypes (rep_TelemetryType spec))
    then Some (Err ("invalid telemetry type " +:+ rep_TelemetryType spec
                    +:+ ", expected one of " +:+ show_strings validTelemetryTypes))
    else None
    end end in
  match cr_checks with
  | Some e => (warnings, Some e)
  | None =>
  if bool_decide (rep_StatusVariableRef spec = "") then
    (warnings, Some (Err "status variable ref cannot be empty"))
  else if bool_decide (rep_OpAMPEndpoint spec = "") then
    (warnings, Some (Err "opampEndpoint cannot be empty"))
  else
  match rsrc_S3 (rep_Source spec) with
  | None => (warnings, None)
  | Some s3Config =>
      match rsrc_AWSConfig (rep_Source spec) with
      | None => (warnings, Some (Err "source.awsConfig is not set, but is required for the s3 source"))
      | Some aws =>
          match raws_AWSAccessKeySecret aws with
          | None => (warnings, Some (Err "source.awsConfig.awsAccessKeySecret is not set, but is required for the s3 source"))
          | Some _ =>
              if bool_decide (rs3_S3Partition s3Config = "")
                 || negb (contains validPartitions (rs3_S3Partition s3Config))
              then (warnings, Some (Err ("invalid s3 partition " +:+ rs3_S3Partition s3Config
                      +:+ ", expected one of " +:+ show_strings validPartitions)))
              else (warnings, None)
          end
      end
  end
  end.

Definition Replay_ValidateCreate (obj : RuntimeObject) : with_error Warnings :=
  match obj with
  | ObjMdaiReplay mdaireplay =>
      let '(replaySpecWarnings, err) :=
        validateReplaySpec (mr_Spec mdaireplay) ReplayCustomResourceValidatorMode in
      match err with
      | Some e => (replaySpecWarnings, Some e)
      | None => ([], None)
      end
  | _ => ([], Some (Err ("expected a MdaiReplay object but got " +:+ type_name obj)))
  end.

Definition Replay_ValidateUpdate (oldObj newObj : RuntimeObject) : with_error Warnings :=
  match newObj with
  | ObjMdaiReplay mdaireplay =>
      let '(replaySpecWarnings, err) :=
        validateReplaySpec (mr_Spec mdaireplay) ReplayCustomResourceValidatorMode in
      match err with
      | Some e => (replaySpecWarnings, Some e)
      | None => (replaySpecWarnings, None)
      end
  | _ => ([], Some (Err ("expected a MdaiReplay object for the newObj but got " +:+ type_name newObj)))
  end.

Definition Replay_ValidateDelete (obj : RuntimeObject) : with_error Warnings := ([], None).

(** ** Specification *)

Definition time_str_ok (s : string) : bool :=
  parses_RFC3339 s || parses_DateTime s || parses_DateOnly s.

(** What a replay needs whoever creates it. *)
Record replay_common_ok (s : MdaiReplaySpec) : Prop := {
  rc_status : rep_StatusVariableRef s <> "";
  rc_opamp : rep_OpAMPEndpoint s <> "";
  rc_s3 : forall c, rsrc_S3 (rep_Source s) = Some c ->
            (exists aws k, rsrc_AWSConfig (rep_Source s) = Some aws
                           /\ raws_AWSAccessKeySecret aws = Some k)
            /\ rs3_S3Partition c ∈ validPartitions
}.

(** What a stored replay resource needs in addition. *)
Record replay_cr_ok (s : MdaiReplaySpec) : Prop := {
  rr_hub : rep_HubName s <> "";
  rr_start : time_str_ok (rep_StartTime s) = true;
  rr_end : time_str_ok (rep_EndTime s) = true;
  rr_telemetry : rep_TelemetryType s ∈ validTelemetryTypes
}.

(** ** Lemmas *)

Lemma contains_elem l x : contains l x = true <-> x ∈ l.
Proof.
  unfold contains. rewrite existsb_exists. split.
  - intros (y & Hy & ->%String.eqb_eq). by apply list_elem_of_In.
  - intros H. exists x. split; [by apply list_elem_of_In | apply String.eqb_refl].
Qed.

Lemma validateTimeStr_ok s : validateTimeStr s = None <-> time_str_ok s = true.
Proof.
  unfold validateTimeStr, time_str_ok, timeStrLayouts. simpl. unfold time_parse. simpl.
  destruct (parses_RFC3339 s), (parses_DateTime s), (parses_DateOnly s); simpl; done.
Qed.

(** The checks both modes share. *)
Lemma common_checks spec mode :
  mode = HubAutomationValidatorMode \/
  (mode = ReplayCustomResourceValidatorMode /\ replay_cr_ok spec) ->
  (validateReplaySpec spec mode).2 = None <-> replay_common_ok spec.
Proof.
  intros Hm. unfold validateReplaySpec.
  assert (Hmode : contains validValidatorModes mode = true)
    by (destruct Hm as [->|[-> _]]; reflexivity).
  rewrite Hmode. cbv zeta. cbn [negb].
  match goal with |- context [match ?c with Some e => ([], Some e) | None => _ end] =>
    replace c with (@None error)
  end.
  2:{ destruct Hm as [->|[-> [Hh Hs He Ht]]]; [done |].
      rewrite bool_decide_eq_false_2 by done.
      rewrite bool_decide_eq_false_2 by done.
      apply validateTimeStr_ok in Hs, He. rewrite Hs, He.
      pose proof (proj2 (contains_elem _ _) Ht) as ->. rewrite orb_false_r.
      rewrite bool_decide_eq_false_2; [done |].
      intros E. rewrite E in Ht. apply contains_elem in Ht. discriminate. }
  split.
  - repeat case_match; simpl; try discriminate; intros _;
      repeat match goal with H : bool_decide _ = false |- _ => apply bool_decide_eq_false_1 in H end;
      split; try done; intros c' Hc; simplify_eq.
    split; [eauto |]. split_bools. by apply contains_elem.
  - intros [Hs Ho H3]. rewrite !bool_decide_eq_false_2 by done.
    destruct (rsrc_S3 _) as [c|] eqn:E3; [| done].
    destruct (H3 c eq_refl) as [(aws & k & -> & ->) Hp].
    pose proof (proj2 (contains_elem _ _) Hp) as ->. rewrite orb_false_r.
    rewrite bool_decide_eq_false_2; [done |].
    intros E. rewrite E in Hp. apply contains_elem in Hp. discriminate.
Qed.

(** The checks only the resource mode makes. *)
Lemma cr_checks_necessary spec :
  (validateReplaySpec spec ReplayCustomResourceValidatorMode).2 = None -> replay_cr_ok spec.
Proof.
  unfold validateReplaySpec. change (contains validValidatorModes _) with true. cbv zeta. cbn [negb].
  rewrite (bool_decide_eq_false_2 (ReplayCustomResourceValidatorMode = _)) by done.
  destruct (bool_decide (rep_HubName spec = "")) eqn:Eh; [done |].
  destruct (validateTimeStr (rep_StartTime spec)) eqn:Es; [done |].
  destruct (validateTimeStr (rep_EndTime spec)) eqn:Ee; [done |].
  destruct (bool_decide (rep_TelemetryType spec = "") || _) eqn:Et; [done |].
  intros _. split.
  - by apply bool_decide_eq_false_1 in Eh.
  - by apply validateTimeStr_ok.
  - by apply validateTimeStr_ok.
  - split_bools. by apply contains_elem.
Qed.
End Replay.

(** ** Properties *)

(** A MdaiReplay resource passes the webhook exactly when it names its hub,
    its start and end parse in one of the three accepted layouts, its telemetry
    type is known, it has a status variable and an OpAMP endpoint, and an S3
    source comes with an access-key secret and a known partition. *)
Theorem validateReplaySpec_resource (time_error : string -> string -> string) (spec : MdaiReplaySpec) :
  (validateReplaySpec time_error spec ReplayCustomResourceValidatorMode).2 = None
  <-> replay_cr_ok spec /\ replay_common_ok spec.
Proof.
  split.
  - intros H. pose proof (cr_checks_necessary time_error spec H) as Hc. split; [done |].
    apply (common_checks time_error spec ReplayCustomResourceValidatorMode); auto.
  - intros [Hc Ho]. apply (common_checks time_error spec ReplayCustomResourceValidatorMode); auto.
Qed.

(** For an automation the webhook asks only for what the two modes share:
    hub, times and telemetry type are filled in later. *)
Theorem validateReplaySpec_automation (time_error : string -> string -> string) (spec : MdaiReplaySpec) :
  (validateReplaySpec time_error spec HubAutomationValidatorMode).2 = None
  <-> replay_common_ok spec.
Proof. apply common_checks. auto. Qed.
