(* ===== verification/WebhookHub.v ===== *)
(** * internal/webhook/v1: the MdaiHub webhook

    [Validate] and everything it calls: variables, automations, actions, and
    the immutability check of [ValidateUpdate].  The specification predicates
    say what an accepted hub looks like; the controller's theorems use them as
    the contract of the webhook. *)

From S2P Require Import Prelude GoLib NetUrl ApiTypes Errors WebhookReplay.

Definition allowedHTTP : list string := ["GET"; "POST"; "PUT"; "PATCH"; "DELETE"].
Definition forbiddenHeaders : list string := ["Host"; "Content-Length"; "Transfer-Encoding"].
Definition GroupVersion_Group : string := "hub.mydecisive.ai".

Section Hub.
(** [parser.ParseExpr] of the Prometheus library, and the text of errors. *)
Context (ParseExpr : string -> option error).
Context (time_error : string -> string -> string) (error_text : error -> string).

(** ** Variables *)

Definition set_datatype (t : VariableDataType) : bool :=
  contains [VariableDataTypeSet; MetaVariableDataTypePriorityList] t.

Definition scalar_datatype (t : VariableDataType) : bool :=
  contains [VariableDataTypeString; VariableDataTypeFloat; VariableDataTypeInt;
            VariableDataTypeBoolean; VariableDataTypeMap; MetaVariableDataTypeHashSet] t.

(** The inner loop over [SerializeAs]: the names exported so far are shared by
    all variables of the hub. *)
Fixpoint validateSerializers (varIndex : path) (dataType : VariableDataType) (j : nat)
    (ws : list Serializer) (exported : gset string) : list field_error * gset string :=
  match ws with
  | [] => ([], exported)
  | with_ :: ws' =>
      let serializeIndex := Index (Child varIndex "serializeAs") j in
      let '(dup, exported) :=
        if bool_decide (ser_Name with_ ∈ exported)
        then ([FieldDuplicate (Child serializeIndex "name") (BVString (ser_Name with_))], exported)
        else ([], {[ser_Name with_]} ∪ exported) in
      let typ :=
        if set_datatype dataType then []
        else if scalar_datatype dataType then
          if 0 <? length (ser_Transformers with_)
          then [FieldForbidden (Child serializeIndex "transformers")
                  ("transformers are not supported for variable type " +:+ dataType)]
          else []
        else [FieldInvalid (Child varIndex "dataType") (BVString dataType)
                "unsupported variable type"] in
      let '(errs, exported) := validateSerializers varIndex dataType (S j) ws' exported in
      (dup ++ typ ++ errs, exported)
  end.

(** One iteration of the loop over the variables. *)
Definition validateVariable (varIndex : path) (variable : Variable_)
    (keys exported : gset string) : list field_error * (gset string * gset string) :=
  let storage :=
    if bool_decide (var_StorageType variable = VariableSourceTypeBuiltInValkey) then []
    else [FieldNotSupported (Child varIndex "storageType") (BVString (var_StorageType variable))
            [VariableSourceTypeBuiltInValkey]] in
  let '(dup, keys) :=
    if bool_decide (var_Key variable ∈ keys)
    then ([FieldDuplicate (Child varIndex "key") (BVString (var_Key variable))], keys)
    else ([], {[var_Key variable]} ∪ keys) in
  let refs := slice (var_VariableRefs variable) in
  let refErrs :=
    if bool_decide (var_Type variable = VariableTypeMeta) then
      (if length refs =? 0
       then [FieldRequired (Child varIndex "variableRefs") "required for meta variable"] else [])
      ++ (if bool_decide (var_DataType variable = MetaVariableDataTypeHashSet)
             && negb (length refs =? 2)
          then [FieldInvalid (Child varIndex "variableRefs") (BVStrings refs)
                  "Meta HashSet must have exactly 2 elements"] else [])
    else if 0 <? length refs
    then [FieldForbidden (Child varIndex "variableRefs") "not supported for non-meta variables"]
    else [] in
  let '(serErrs, exported) :=
    match var_SerializeAs variable with
    | None => ([], exported)
    | Some ws => validateSerializers varIndex (var_DataType variable) 0 ws exported
    end in
  (storage ++ dup ++ refErrs ++ serErrs, (keys, exported)).

Fixpoint validateVariables_from (vPath : path) (i : nat) (variables : list Variable_)
    (keys exported : gset string) : list field_error :=
  match variables with
  | [] => []
  | v :: vs =>
      let '(errs, (keys, exported)) := validateVariable (Index vPath i) v keys exported in
      errs ++ validateVariables_from vPath (S i) vs keys exported
  end.

Definition validateVariables (mdaihub : MdaiHub) : Warnings * list field_error :=
  let variables := hub_Variables (mh_Spec mdaihub) in
  if length variables =? 0 then (["variables are not specified"], [])
  else ([], validateVariables_from (NewPath ["spec"; "variables"]) 0 variables ∅ ∅).

(** ** Automations *)

Definition hasKey (knownVarKeys : gset string) (key : string) : bool :=
  bool_decide (key ∈ knownVarKeys).

(** [strings.TrimSpace(ptr.Deref(p, "")) != ""]. *)
Definition present (p : option string) : bool :=
  negb (bool_decide (TrimSpace (deref p "") = "")).

Definition validateWhen (p : path) (w : When) (knownVarKeys knownAlertNames : gset string)
  : list field_error :=
  let hasAlertName := present (when_AlertName w) in
  let hasStatus := present (when_Status w) in
  let hasVariableUpdated := present (when_VariableUpdated w) in
  let hasUpdateType := present (when_UpdateType w) in
  (if hasStatus && negb hasAlertName
   then [FieldInvalid p (BVString "<alert>") "alertName and status must be set together"] else [])
  ++ (if hasUpdateType && negb hasVariableUpdated
      then [FieldInvalid (Child p "updateType") (BVString (deref (when_UpdateType w) ""))
              "can only be set when variableUpdated is set"] else [])
  ++ (if hasVariableUpdated && negb (hasKey knownVarKeys (deref (when_VariableUpdated w) ""))
      then [FieldInvalid (Child p "variableUpdated") (BVString (deref (when_VariableUpdated w) ""))
              "not defined in spec.variables"] else [])
  ++ (if hasAlertName && negb (hasKey knownAlertNames (deref (when_AlertName w) ""))
      then [FieldInvalid (Child p "alertName") (BVString (deref (when_AlertName w) ""))
              "not defined in spec.prometheusAlerts"] else []).

Definition validateVariableAction (p : path) (variableKey : string)
    (knownVarKeys : gset string) (childPath : string) : list field_error :=
  if negb (hasKey knownVarKeys variableKey)
  then [FieldInvalid (Child p childPath) (BVString variableKey) "not defined in spec.variables"]
  else [].

Definition validateMapAction (p : path) (a : MapAction) (knownVarKeys : gset string)
  : list field_error :=
  (if negb (hasKey knownVarKeys (ma_Map a))
   then [FieldInvalid (Child p "map") (BVString (ma_Map a)) "not defined in spec.variables"]
   else [])
  ++ (let isAdd := HasSuffix (path_string p) ".addToMap" in
      if isAdd then
        if bool_decide (ma_Value a = None)
           || bool_decide (TrimSpace (deref (ma_Value a) "") = "")
        then [FieldRequired (Child p "value") "required for addToMap"] else []
      else []).

Definition validateDeployReplayAction (p : path) (a : DeployReplayAction)
    (knownVarKeys : gset string) : list field_error :=
  (if negb (hasKey knownVarKeys (rep_StatusVariableRef (dr_ReplaySpec a)))
   then [FieldInvalid (Child p "replaySpec.statusVariableRef")
           (BVString (rep_StatusVariableRef (dr_ReplaySpec a)))
           "does not reference a known variable"] else [])
  ++ (match (validateReplaySpec time_error (dr_ReplaySpec a) HubAutomationValidatorMode).2 with
      | Some replaySpecErrs =>
          [FieldInvalid (Child p "replaySpec") (BVReplaySpec (dr_ReplaySpec a))
             ("invalid replay spec with errors: " +:+ error_text replaySpecErrs)]
      | None => []
      end).

Definition validateCleanUpReplayAction (p : path) (a : CleanUpReplayAction)
    (knownVarKeys : gset string) : list field_error := [].

Definition isValidURL (s : string) : bool :=
  match ParseRequestURI s with
  | None => false
  | Some u =>
      if negb (bool_decide (url_Scheme u = "http")) && negb (bool_decide (url_Scheme u = "https"))
      then false
      else negb (bool_decide (url_Host u = ""))
  end.

(** The headers are visited in an order Go leaves open; the model visits them
    in the order of [map_to_list]. *)
Definition validateWebhookCall (callPath : path) (call : CallWebhookAction) : list field_error :=
  (match sof_Value (cw_URL call) with
   | Some v =>
       let endpoint := TrimSpace v in
       if bool_decide (endpoint = "") then [FieldRequired (Child callPath "url") "required"]
       else if negb (isValidURL endpoint)
       then [FieldInvalid (Child callPath "url") (BVString endpoint) "must be an absolute http(s) URL"]
       else []
   | None => []
   end)
  ++ (let m := cw_Method call in
      if negb (bool_decide (m = "")) && negb (contains allowedHTTP m)
      then [FieldNotSupported (Child callPath "method") (BVString m) allowedHTTP] else [])
  ++ (let ref := cw_TemplateRef call in
      (if bool_decide (is_Some (cw_PayloadTemplate call)) then
         (if bool_decide (ref = TemplateRefSlack)
          then [FieldForbidden (Child callPath "payloadTemplate")
                  "must be empty when templateRef=slackAlertTemplate"] else [])
         ++ (if negb (bool_decide (cw_Method call = ""))
                && negb (bool_decide (cw_Method call = "POST"))
             then [FieldInvalid (Child callPath "method") (BVString (cw_Method call))
                     "payloadTemplate requires POST"] else [])
       else [])
      ++ (if bool_decide (ref = "jsonTemplate") && bool_decide (cw_PayloadTemplate call = None)
          then [FieldRequired (Child callPath "payloadTemplate")
                  "required when templateRef=jsonTemplate"] else []))
  ++ concat (map (fun h : string * string =>
       let key := CanonicalMIMEHeaderKey h.1 in
       if contains forbiddenHeaders key
       then [FieldForbidden (Key (Child callPath "headers") h.1)
               ("header " +:+ quote key +:+ " is managed by the client and cannot be set")]
       else []) (map_to_list (cw_Headers call))).

(** The table of the eight action kinds: whether it is present, and its
    validation, which runs only when it is. *)
Definition run_if {A} (a : option A) (validate : A -> list field_error)
  : bool * list field_error :=
  match a with
  | Some x => (true, validate x)
  | None => (false, [])
  end.

Definition action_table (actionPath : path) (action : Action) (knownVarKeys : gset string)
  : list (bool * list field_error) :=
  [run_if (act_AddToSet action) (fun a =>
     validateVariableAction (Child actionPath "addToSet") (sa_Set a) knownVarKeys "set");
   run_if (act_RemoveFromSet action) (fun a =>
     validateVariableAction (Child actionPath "removeFromSet") (sa_Set a) knownVarKeys "set");
   run_if (act_SetVariable action) (fun a =>
     validateVariableAction (Child actionPath "setVariable") (sca_Scalar a) knownVarKeys "scalar");
   run_if (act_AddToMap action) (fun a =>
     validateMapAction (Child actionPath "addToMap") a knownVarKeys);
   run_if (act_RemoveFromMap action) (fun a =>
     validateMapAction (Child actionPath "removeFromMap") a knownVarKeys);
   run_if (act_CallWebhook action) (fun a =>
     validateWebhookCall (Child actionPath "callWebhook") a);
   run_if (act_DeployReplay action) (fun a =>
     validateDeployReplayAction (Child actionPath "deployReplay") a knownVarKeys);
   run_if (act_CleanUpReplay action) (fun a =>
     validateCleanUpReplayAction (Child actionPath "cleanUpReplay") a knownVarKeys)].

(** The search for the one present entry: [inr] the index found so far,
    [inl tt] as soon as a second one is met. *)
Fixpoint find_present (i : nat) (presentIdx : option nat)
    (actions : list (bool * list field_error)) : unit + option nat :=
  match actions with
  | [] => inr presentIdx
  | (p, _) :: rest =>
      if p then match presentIdx with
                | Some _ => inl tt
                | None => find_present (S i) (Some i) rest
                end
      else find_present (S i) presentIdx rest
  end.

Definition validateAction (actionPath : path) (action : Action) (knownVarKeys : gset string)
  : list field_error :=
  let actions := action_table actionPath action knownVarKeys in
  match find_present 0 None actions with
  | inl _ => [FieldInvalid actionPath (BVString "<action>") "only one action may be specified"]
  | inr None =>
      [FieldInvalid actionPath (BVString "<action>") "at least one action must be specified"]
  | inr (Some i) => match actions !! i with Some (_, errs) => errs | None => [] end
  end.

Definition nonempty_names (l : list string) : gset string :=
  list_to_set (filter (fun k => k <> "") l).

Definition validateRule (rulePath : path) (rule : AutomationRule)
    (varKeys alertNames : gset string) : list field_error :=
  validateWhen (Child rulePath "when") (ar_When rule) varKeys alertNames
  ++ (if length (ar_Then rule) =? 0
      then [FieldRequired (Child rulePath "then") "at least 1 action is required"]
      else concat (imap (fun j act => validateAction (Index (Child rulePath "then") j) act varKeys)
                        (ar_Then rule))).

Definition validateAutomations (mdaihub : MdaiHub) : Warnings * list field_error :=
  let rules := slice (hub_Rules (mh_Spec mdaihub)) in
  if length rules =? 0 then (["no `Rules` provided; MdaiHub will perform no actions"], [])
  else
    let varKeys := nonempty_names (map var_Key (hub_Variables (mh_Spec mdaihub))) in
    let alertNames := nonempty_names (map pa_Name (slice (hub_PrometheusAlerts (mh_Spec mdaihub)))) in
    ([], concat (imap (fun i rule =>
           validateRule (Index (Child (NewPath ["spec"]) "rules") i) rule varKeys alertNames) rules)).

(** ** The validator *)

(** The first expression that does not parse, in the order of the alerts. *)
Fixpoint parse_alerts (evaluations : list PrometheusAlert) : option error :=
  match evaluations with
  | [] => None
  | evaluation :: rest =>
      match ParseExpr (StrVal (pa_Expr evaluation)) with
      | Some err => Some err
      | None => parse_alerts rest
      end
  end.

Definition Validate (mdaihub : MdaiHub) : with_error Warnings :=
  let '(allWarnings, allErrs) := validateVariables mdaihub in
  let evaluations := slice (hub_PrometheusAlerts (mh_Spec mdaihub)) in
  let allWarnings :=
    if length evaluations =? 0
    then allWarnings ++ ["no `PrometheusAlerts` provided; MdaiHub will not setup alerts"]
    else allWarnings in
  match parse_alerts evaluations with
  | Some err => (allWarnings, Some err)
  | None =>
      let '(warnings, errs) := validateAutomations mdaihub in
      let allWarnings := allWarnings ++ warnings in
      let allErrs := allErrs ++ errs in
      if length allErrs =? 0 then (allWarnings, None)
      else (allWarnings,
            Some (ErrInvalid GroupVersion_Group "MdaiHub" (om_Name (mh_ObjectMeta mdaihub)) allErrs))
  end.

(** [validateMetaVarRefs]: the last old variable with a key wins the map. *)
Definition oldVariablesMap (oldVars : list Variable_) : gmap string Variable_ :=
  fold_left (fun m v =>
    if bool_decide (var_Type v = VariableTypeMeta) then <[var_Key v := v]> m else m) oldVars ∅.

Fixpoint metaRefErrors (index : nat) (old : gmap string Variable_) (newVars : list Variable_)
  : list field_error :=
  match newVars with
  | [] => []
  | v :: vs =>
      (if bool_decide (var_Type v = VariableTypeMeta) then
         match old !! var_Key v with
         | Some o =>
             if bool_decide (var_VariableRefs o = var_VariableRefs v) then []
             else [FieldForbidden (Child (Index (NewPath ["spec"; "variables"]) index) "variableRefs")
                     "meta variable references must not change; delete and recreate the variable to update references"]
         | None => []
         end
       else [])
      ++ metaRefErrors (S index) old vs
  end.

Definition validateMetaVarRefs (oldVars newVars : list Variable_) : list field_error :=
  if (length oldVars =? 0) || (length newVars =? 0) then []
  else metaRefErrors 0 (oldVariablesMap oldVars) newVars.

Definition ValidateCreate (obj : RuntimeObject) : with_error Warnings :=
  match obj with
  | ObjMdaiHub mdaihub => Validate mdaihub
  | _ => ([], Some (Err ("expected a MdaiHub object but got " +:+ type_name obj)))
  end.

(** The message for a wrong [oldObj] prints the type of the nil [oldHub]. *)
Definition ValidateUpdate (oldObj newObj : RuntimeObject) : with_error Warnings :=
  match newObj with
  | ObjMdaiHub newHub =>
      match oldObj with
      | ObjMdaiHub oldHub =>
          let errorList := validateMetaVarRefs (hub_Variables (mh_Spec oldHub))
                             (hub_Variables (mh_Spec newHub)) in
          if 0 <? length errorList
          then ([], Some (ErrInvalid GroupVersion_Group "MdaiHub"
                            (om_Name (mh_ObjectMeta newHub)) errorList))
          else Validate newHub
      | _ => ([], Some (Err "expected a MdaiHub object for the oldObj but got *v1.MdaiHub"))
      end
  | _ => ([], Some (Err ("expected a MdaiHub object for the newObj but got " +:+ type_name newObj)))
  end.

Definition ValidateDelete (obj : RuntimeObject) : with_error Warnings :=
  match obj with
  | ObjMdaiHub _ => ([], None)
  | _ => ([], Some (Err ("expected a MdaiHub object but got " +:+ type_name obj)))
  end.

(** [MdaiHubCustomDefaulter.Default]: a type check, no defaulting yet. *)
Definition Default (obj : RuntimeObject) : RuntimeObject * option error :=
  match obj with
  | ObjMdaiHub _ => (obj, None)
  | _ => (obj, Some (Err ("expected an MdaiHub object but got " +:+ type_name obj)))
  end.
End Hub.

(** ** What an accepted hub looks like *)

Definition serializer_ok (dataType : VariableDataType) (w : Serializer) : Prop :=
  if set_datatype dataType then True
  else scalar_datatype dataType = true /\ ser_Transformers w = [].

Definition serializers (v : Variable_) : list Serializer := slice (var_SerializeAs v).

Definition refs_ok (v : Variable_) : Prop :=
  if bool_decide (var_Type v = VariableTypeMeta)
  then slice (var_VariableRefs v) <> []
       /\ (var_DataType v = MetaVariableDataTypeHashSet -> length (slice (var_VariableRefs v)) = 2)
  else slice (var_VariableRefs v) = [].

Definition variable_ok (v : Variable_) : Prop :=
  var_StorageType v = VariableSourceTypeBuiltInValkey
  /\ refs_ok v
  /\ Forall (serializer_ok (var_DataType v)) (serializers v).

(** Keys and exported names are unique over the whole hub. *)
Definition exported_names (vs : list Variable_) : list string :=
  concat (map (fun v => map ser_Name (serializers v)) vs).

Definition variables_ok (vs : list Variable_) : Prop :=
  Forall variable_ok vs /\ NoDup (map var_Key vs) /\ NoDup (exported_names vs).

Definition when_ok (vars alerts : gset string) (w : When) : Prop :=
  (present (when_Status w) = true -> present (when_AlertName w) = true)
  /\ (present (when_UpdateType w) = true -> present (when_VariableUpdated w) = true)
  /\ (present (when_VariableUpdated w) = true -> deref (when_VariableUpdated w) "" ∈ vars)
  /\ (present (when_AlertName w) = true -> deref (when_AlertName w) "" ∈ alerts).

Definition add_value_ok (a : MapAction) : Prop :=
  exists v, ma_Value a = Some v /\ TrimSpace v <> "".

Definition webhook_call_ok (call : CallWebhookAction) : Prop :=
  match sof_Value (cw_URL call) with Some v => isValidURL (TrimSpace v) = true | None => True end
  /\ (cw_Method call = "" \/ cw_Method call ∈ allowedHTTP)
  /\ (is_Some (cw_PayloadTemplate call) ->
        cw_TemplateRef call <> TemplateRefSlack /\ (cw_Method call = "" \/ cw_Method call = "POST"))
  /\ (cw_TemplateRef call = "jsonTemplate" -> is_Some (cw_PayloadTemplate call))
  /\ map_Forall (fun h _ => CanonicalMIMEHeaderKey h ∉ forbiddenHeaders) (cw_Headers call).

(** The number of action kinds a rule's action names. *)
Definition count_some {A} (o : option A) : nat := match o with Some _ => 1 | None => 0 end.

Definition action_kinds (a : Action) : nat :=
  count_some (act_AddToSet a) + count_some (act_RemoveFromSet a)
  + count_some (act_SetVariable a) + count_some (act_AddToMap a)
  + count_some (act_RemoveFromMap a) + count_some (act_CallWebhook a)
  + count_some (act_DeployReplay a) + count_some (act_CleanUpReplay a).

Definition opt_ok {A} (P : A -> Prop) (o : option A) : Prop :=
  match o with Some x => P x | None => True end.

Definition action_contents_ok (vars : gset string) (a : Action) : Prop :=
  opt_ok (fun x => sa_Set x ∈ vars) (act_AddToSet a)
  /\ opt_ok (fun x => sa_Set x ∈ vars) (act_RemoveFromSet a)
  /\ opt_ok (fun x => sca_Scalar x ∈ vars) (act_SetVariable a)
  /\ opt_ok (fun x => ma_Map x ∈ vars /\ add_value_ok x) (act_AddToMap a)
  /\ opt_ok (fun x => ma_Map x ∈ vars) (act_RemoveFromMap a)
  /\ opt_ok webhook_call_ok (act_CallWebhook a)
  /\ opt_ok (fun x => rep_StatusVariableRef (dr_ReplaySpec x) ∈ vars
                      /\ replay_common_ok (dr_ReplaySpec x)) (act_DeployReplay a).

Definition action_ok (vars : gset string) (a : Action) : Prop :=
  action_kinds a = 1 /\ action_contents_ok vars a.

Definition rule_ok (vars alerts : gset string) (r : AutomationRule) : Prop :=
  when_ok vars alerts (ar_When r) /\ ar_Then r <> [] /\ Forall (action_ok vars) (ar_Then r).

Definition hub_vars (h : MdaiHub) : gset string :=
  nonempty_names (map var_Key (hub_Variables (mh_Spec h))).
Definition hub_alerts (h : MdaiHub) : gset string :=
  nonempty_names (map pa_Name (slice (hub_PrometheusAlerts (mh_Spec h)))).

Definition rules_ok (h : MdaiHub) : Prop :=
  Forall (rule_ok (hub_vars h) (hub_alerts h)) (slice (hub_Rules (mh_Spec h))).

Definition hub_ok (ParseExpr : string -> option error) (h : MdaiHub) : Prop :=
  variables_ok (hub_Variables (mh_Spec h))
  /\ Forall (fun a => ParseExpr (StrVal (pa_Expr a)) = None) (slice (hub_PrometheusAlerts (mh_Spec h)))
  /\ rules_ok h.

(** ** Lemmas *)

(** Turns an equation between an error list and [[]] into the guards' values. *)
Ltac no_errors :=
  rewrite ?app_nil, ?if_nil_then, ?if_nil_else, ?andb_false_iff, ?negb_true_iff, ?negb_false_iff,
    ?bool_decide_eq_true, ?bool_decide_eq_false.

(** The names exported before, and the names of this variable. *)
Lemma validateSerializers_ok p t j ws E :
  (validateSerializers p t j ws E).1 = [] <->
  Forall (serializer_ok t) ws /\ NoDup (map ser_Name ws) /\ (forall n, n ∈ map ser_Name ws -> n ∉ E).
Proof.
  revert j E. induction ws as [|w ws IH]; intros j E; simpl.
  - split; [intros _ | done]. split; [done |]. split; [constructor |].
    intros n Hn. by apply elem_of_nil in Hn.
  - destruct (bool_decide (ser_Name w ∈ E)) eqn:B.
    + destruct (validateSerializers p t (S j) ws E). simpl. split; [done |].
      intros (_ & _ & H). apply bool_decide_eq_true in B. exfalso.
      apply (H (ser_Name w)); [constructor | done].
    + destruct (validateSerializers p t (S j) ws _) as [errs X] eqn:V. simpl.
      apply bool_decide_eq_false in B.
      specialize (IH (S j) ({[ser_Name w]} ∪ E)). rewrite V in IH. simpl in IH.
      rewrite app_nil, IH, Forall_cons, NoDup_cons.
      assert (HS : (if set_datatype t then []
                    else if scalar_datatype t
                         then if 0 <? length (ser_Transformers w)
                              then [FieldForbidden (Child (Index (Child p "serializeAs") j) "transformers")
                                      ("transformers are not supported for variable type " +:+ t)] else []
                         else [FieldInvalid (Child p "dataType") (BVString t) "unsupported variable type"]) = []
                   <-> serializer_ok t w).
      { unfold serializer_ok. destruct (set_datatype t); [done |].
        destruct (scalar_datatype t); [| split; [done | intros [? _]; done]].
        destruct (ser_Transformers w); simpl; [done | split; [done | intros [_ ?]; done]]. }
      rewrite HS. clear HS V IH. split.
      * intros (Hw & Hws & Hnd & Hnew). split_and!; try done.
        { intros Hin. specialize (Hnew _ Hin). set_solver. }
        { intros n [->|Hn]%elem_of_cons; [done |]. specialize (Hnew _ Hn). set_solver. }
      * intros ((Hw & Hws) & (Hnin & Hnd) & Hnew). split_and!; try done.
        intros n Hn. specialize (Hnew n). rewrite elem_of_cons in Hnew. set_solver.
Qed.

Lemma validateSerializers_exported p t j ws E :
  (validateSerializers p t j ws E).2 = list_to_set (map ser_Name ws) ∪ E.
Proof.
  revert j E. induction ws as [|w ws IH]; intros j E; simpl; [set_solver |].
  destruct (bool_decide (ser_Name w ∈ E)) eqn:B.
  - destruct (validateSerializers p t (S j) ws E) as [errs X] eqn:V.
    specialize (IH (S j) E). rewrite V in IH. simpl in *.
    apply bool_decide_eq_true in B. subst X. set_solver.
  - destruct (validateSerializers p t (S j) ws _) as [errs X] eqn:V.
    specialize (IH (S j) ({[ser_Name w]} ∪ E)). rewrite V in IH. simpl in *. subst X. set_solver.
Qed.

Lemma refs_ok_iff p v :
  (if bool_decide (var_Type v = VariableTypeMeta) then
     (if length (slice (var_VariableRefs v)) =? 0
      then [FieldRequired p "required for meta variable"] else [])
     ++ (if bool_decide (var_DataType v = MetaVariableDataTypeHashSet)
            && negb (length (slice (var_VariableRefs v)) =? 2)
         then [FieldInvalid p (BVStrings (slice (var_VariableRefs v)))
                 "Meta HashSet must have exactly 2 elements"] else [])
   else if 0 <? length (slice (var_VariableRefs v))
   then [FieldForbidden p "not supported for non-meta variables"] else []) = []
  <-> refs_ok v.
Proof.
  unfold refs_ok. destruct (bool_decide _).
  - no_errors. rewrite Nat.eqb_neq, Nat.eqb_eq, length_zero_iff_nil.
    destruct (decide (var_DataType v = MetaVariableDataTypeHashSet)); naive_solver.
  - no_errors. by destruct (slice _).
Qed.

Lemma validateVariable_ok p v K E :
  let '(errs, (K', E')) := validateVariable p v K E in
  (errs = [] <-> variable_ok v /\ var_Key v ∉ K /\ NoDup (map ser_Name (serializers v))
                 /\ (forall n, n ∈ map ser_Name (serializers v) -> n ∉ E))
  /\ K' = {[var_Key v]} ∪ K /\ E' = list_to_set (map ser_Name (serializers v)) ∪ E.
Proof.
  unfold validateVariable. cbv zeta.
  destruct (if bool_decide (var_Key v ∈ K) then _ else _) as [dup K'] eqn:HK.
  assert (Hd : (dup = [] <-> var_Key v ∉ K) /\ K' = {[var_Key v]} ∪ K).
  { destruct (bool_decide (var_Key v ∈ K)) eqn:B; injection HK as <- <-.
    - apply bool_decide_eq_true in B. split; [naive_solver | set_solver].
    - by apply bool_decide_eq_false in B. }
  clear HK. destruct Hd as [Hd ->].
  destruct (match var_SerializeAs v with Some ws => _ | None => _ end) as [serErrs E'] eqn:HE.
  assert (Hs : (serErrs = [] <-> Forall (serializer_ok (var_DataType v)) (serializers v)
       /\ NoDup (map ser_Name (serializers v))
       /\ (forall n, n ∈ map ser_Name (serializers v) -> n ∉ E))
     /\ E' = list_to_set (map ser_Name (serializers v)) ∪ E).
  { unfold serializers. destruct (var_SerializeAs v) as [ws|]; simpl.
    - pose proof (validateSerializers_ok p (var_DataType v) 0 ws E) as H1.
      pose proof (validateSerializers_exported p (var_DataType v) 0 ws E) as H2.
      rewrite HE in H1, H2. done.
    - injection HE as <- <-. split; [| set_solver]. split; [intros _ | done].
      split; [constructor |]. split; [constructor |]. intros n Hn. by apply elem_of_nil in Hn. }
  clear HE. destruct Hs as [Hs ->]. split; [| done].
  rewrite !app_nil, refs_ok_iff, Hd, Hs. no_errors. unfold variable_ok. naive_solver.
Qed.

Lemma validateVariables_from_ok p i vs K E :
  validateVariables_from p i vs K E = [] <->
  Forall variable_ok vs /\ (NoDup (map var_Key vs) /\ (forall k, k ∈ map var_Key vs -> k ∉ K))
  /\ (NoDup (exported_names vs) /\ (forall n, n ∈ exported_names vs -> n ∉ E)).
Proof.
  revert i K E. induction vs as [|v vs IH]; intros i K E.
  - unfold exported_names; simpl. split; [intros _ | done].
    repeat (split || constructor); intros n Hn; by apply elem_of_nil in Hn.
  - cbn [validateVariables_from]. pose proof (validateVariable_ok (Index p i) v K E) as H.
    destruct (validateVariable (Index p i) v K E) as [errs [K' E']].
    destruct H as (He & -> & ->). rewrite app_nil, He, IH. clear He IH.
    change (exported_names (v :: vs)) with (map ser_Name (serializers v) ++ exported_names vs).
    change (map var_Key (v :: vs)) with (var_Key v :: map var_Key vs).
    rewrite Forall_cons, NoDup_cons, NoDup_app. setoid_rewrite elem_of_app.
    setoid_rewrite elem_of_union. setoid_rewrite elem_of_list_to_set. setoid_rewrite elem_of_singleton.
    setoid_rewrite elem_of_cons. naive_solver.
Qed.

Lemma validateVariables_ok h :
  (validateVariables h).2 = [] <-> variables_ok (hub_Variables (mh_Spec h)).
Proof.
  unfold validateVariables, variables_ok. destruct (hub_Variables (mh_Spec h)) as [|v vs].
  - split; [intros _ | done]. repeat split; constructor.
  - cbn [length Nat.eqb snd]. rewrite validateVariables_from_ok. set_solver.
Qed.

Lemma validateWhen_ok p w vars alerts :
  validateWhen p w vars alerts = [] <-> when_ok vars alerts w.
Proof.
  unfold validateWhen, when_ok, hasKey. no_errors.
  destruct (present (when_Status w)), (present (when_AlertName w)),
    (present (when_UpdateType w)), (present (when_VariableUpdated w));
    destruct (decide (deref (when_VariableUpdated w) "" ∈ vars));
    destruct (decide (deref (when_AlertName w) "" ∈ alerts)); naive_solver.
Qed.

Lemma validateVariableAction_ok p k vars c :
  validateVariableAction p k vars c = [] <-> k ∈ vars.
Proof. unfold validateVariableAction, hasKey. by no_errors. Qed.

(** *** Paths: where [validateMapAction] finds out which action it validates *)

Lemma HasSuffix_app a b : HasSuffix (a +:+ b) b = true.
Proof.
  unfold HasSuffix. rewrite bytes_app, rev_app_distr.
  induction (rev (bytes b)) as [|c l IH]; simpl; [by destruct (rev _) |].
  by rewrite Ascii.eqb_refl.
Qed.

Lemma path_tail_snoc p n : path_tail (p ++ [PChild n]) = path_tail p +:+ "." +:+ n.
Proof.
  induction p as [|[c|j|k] p IH]; simpl.
  - by rewrite append_nil_r.
  - by rewrite IH, !append_assoc.
  - by rewrite IH, !append_assoc.
  - by rewrite IH, !append_assoc.
Qed.

Lemma path_string_snoc p n :
  p <> [] -> path_string (p ++ [PChild n]) = path_string p +:+ "." +:+ n.
Proof.
  destruct p as [|[c|j|k] p]; intros H; [done | | |];
    unfold path_string; simpl; by rewrite path_tail_snoc, ?append_assoc.
Qed.

Lemma validateMapAction_add_ok p a vars :
  p <> [] ->
  validateMapAction (Child p "addToMap") a vars = [] <-> ma_Map a ∈ vars /\ add_value_ok a.
Proof.
  intros Hp. unfold validateMapAction, hasKey, Child, add_value_ok. cbv zeta.
  rewrite path_string_snoc by done.
  change (path_string p +:+ "." +:+ "addToMap") with (path_string p +:+ ".addToMap").
  rewrite HasSuffix_app. no_errors. rewrite orb_false_iff, !bool_decide_eq_false.
  destruct (ma_Value a); simpl; naive_solver.
Qed.

Lemma path_remove_suffix p :
  p <> [] -> HasSuffix (path_string (Child p "removeFromMap")) ".addToMap" = false.
Proof.
  intros Hp. unfold Child. rewrite path_string_snoc by done.
  unfold HasSuffix. rewrite !bytes_app, !rev_app_distr. reflexivity.
Qed.

Lemma validateMapAction_remove_ok p a vars :
  p <> [] -> validateMapAction (Child p "removeFromMap") a vars = [] <-> ma_Map a ∈ vars.
Proof.
  intros Hp. unfold validateMapAction, hasKey. cbv zeta. rewrite path_remove_suffix by done.
  no_errors. naive_solver.
Qed.

Lemma contains_false l x : contains l x = false <-> x ∉ l.
Proof. rewrite <- contains_elem. by destruct (contains l x). Qed.

Lemma url_ok p (o : option string) :
  match o with
  | Some v =>
      let endpoint := TrimSpace v in
      if bool_decide (endpoint = "") then [FieldRequired p "required"]
      else if negb (isValidURL endpoint)
      then [FieldInvalid p (BVString endpoint) "must be an absolute http(s) URL"] else []
  | None => []
  end = [] <-> match o with Some v => isValidURL (TrimSpace v) = true | None => True end.
Proof.
  destruct o as [v|]; [cbv zeta | done]. destruct (bool_decide _) eqn:E.
  - apply bool_decide_eq_true in E. rewrite E.
    split; [done |]. intros H. exfalso. revert H. vm_compute. done.
  - no_errors. done.
Qed.

Lemma headers_ok p (m : gmap string string) :
  concat (map (fun h : string * string =>
    let key := CanonicalMIMEHeaderKey h.1 in
    if contains forbiddenHeaders key
    then [FieldForbidden (Key p h.1)
            ("header " +:+ quote key +:+ " is managed by the client and cannot be set")]
    else []) (map_to_list m)) = []
  <-> map_Forall (fun h _ => CanonicalMIMEHeaderKey h ∉ forbiddenHeaders) m.
Proof.
  rewrite concat_map_nil, map_Forall_to_list. apply Forall_proper; [| done].
  intros [k v]. cbv zeta. rewrite if_nil_then. apply (contains_false forbiddenHeaders).
Qed.

Lemma validateWebhookCall_ok p c : validateWebhookCall p c = [] <-> webhook_call_ok c.
Proof.
  unfold validateWebhookCall, webhook_call_ok. rewrite !app_nil, url_ok, headers_ok. no_errors.
  rewrite contains_elem.
  destruct (cw_PayloadTemplate c) as [t|].
  - rewrite bool_decide_eq_true_2 by eauto. no_errors. naive_solver.
  - rewrite bool_decide_eq_false_2 by (by intros [? ?]). 
    assert (Hn : ~ is_Some (@None StringOrFrom)) by (by intros [? ?]). naive_solver.
Qed.

Lemma validateDeployReplayAction_ok te et p a vars :
  validateDeployReplayAction te et p a vars = [] <->
  rep_StatusVariableRef (dr_ReplaySpec a) ∈ vars /\ replay_common_ok (dr_ReplaySpec a).
Proof.
  unfold validateDeployReplayAction, hasKey. rewrite app_nil, if_nil_then.
  rewrite negb_false_iff, bool_decide_eq_true.
  rewrite <- (common_checks te (dr_ReplaySpec a) HubAutomationValidatorMode) by auto.
  destruct (validateReplaySpec _ _ _) as [w [e|]]; simpl; naive_solver.
Qed.

(** *** The table of actions *)

Definition present_count (tbl : list (bool * list field_error)) : nat :=
  length (List.filter fst tbl).

Lemma find_present_Some tbl i j :
  match find_present i (Some j) tbl with
  | inl _ => 0 < present_count tbl
  | inr r => present_count tbl = 0 /\ r = Some j
  end.
Proof.
  revert i. induction tbl as [|[[] e] tbl IH]; intros i; simpl; [done | |].
  - unfold present_count; simpl; lia.
  - apply IH.
Qed.

Lemma find_present_None tbl i :
  match find_present i None tbl with
  | inl _ => 1 < present_count tbl
  | inr None => present_count tbl = 0
  | inr (Some j) => present_count tbl = 1 /\ i <= j /\ exists e, tbl !! (j - i) = Some (true, e)
  end.
Proof.
  revert i. induction tbl as [|[[] e] tbl IH]; intros i; simpl; [done | |].
  - pose proof (find_present_Some tbl (S i) i) as H. unfold present_count in *; simpl.
    destruct (find_present (S i) (Some i) tbl) as [|r]; [lia |]. destruct H as [H ->].
    rewrite H, Nat.sub_diag. simpl. eauto.
  - specialize (IH (S i)). unfold present_count in *; simpl.
    destruct (find_present (S i) None tbl) as [|[j|]]; [done | | done].
    destruct IH as (? & ? & e' & He). split; [done |]. split; [lia |].
    exists e'. by replace (j - i) with (S (j - S i)) by lia.
Qed.

(** An absent entry has no errors, so when one entry is present its errors are
    all the errors of the table. *)
Lemma single_present_errors tbl i e :
  Forall (fun p => p.1 = false -> p.2 = []) tbl ->
  present_count tbl = 1 -> tbl !! i = Some (true, e) ->
  concat (map snd tbl) = e.
Proof.
  revert i. induction tbl as [|[b e'] tbl IH]; intros i Ha Hc Hi; [done |].
  apply Forall_cons in Ha as [Hb Ha]. destruct i as [|i]; simpl in *.
  - injection Hi as -> ->. unfold present_count in Hc; simpl in Hc.
    replace (concat (map snd tbl)) with (@nil field_error); [by rewrite app_nil_r |].
    symmetry. apply concat_map_nil.
    assert (Hz : length (List.filter fst tbl) = 0) by lia. clear -Ha Hz.
    induction tbl as [|[[] x] tbl IH]; simpl in *; [constructor | lia |].
    apply Forall_cons in Ha as [Hx Ha]. constructor; [by apply Hx | auto].
  - destruct b.
    + exfalso. unfold present_count in Hc; simpl in Hc.
      assert (Hz : length (List.filter fst tbl) = 0) by lia. clear -Hz Hi.
      revert i Hi. induction tbl as [|[[] x] tbl IH]; intros [|i] Hi; simpl in *; try lia; try done; eauto.
    + unfold present_count in Hc; simpl in Hc. rewrite Hb by done. simpl. by apply (IH i).
Qed.

Lemma run_if_absent {A} (o : option A) f : (run_if o f).1 = false -> (run_if o f).2 = [].
Proof. by destruct o. Qed.

Lemma run_if_ok {A} (o : option A) f (P : A -> Prop) :
  (forall x, f x = [] <-> P x) -> (run_if o f).2 = [] <-> opt_ok P o.
Proof. destruct o; simpl; [auto | done]. Qed.

Lemma run_if_count {A} (o : option A) f (l : list (bool * list field_error)) :
  present_count (run_if o f :: l) = count_some o + present_count l.
Proof. by destruct o. Qed.

Lemma validateAction_ok te et p a vars :
  p <> [] -> validateAction te et p a vars = [] <-> action_ok vars a.
Proof.
  intros Hp. unfold validateAction, action_ok.
  set (tbl := action_table te et p a vars).
  assert (Hn : present_count tbl = action_kinds a).
  { unfold tbl, action_table, action_kinds. rewrite !run_if_count. unfold present_count. simpl. lia. }
  assert (Ha : Forall (fun q => q.1 = false -> q.2 = []) tbl)
    by (unfold tbl, action_table; repeat (constructor; [apply run_if_absent |]); constructor).
  assert (He : concat (map snd tbl) = [] <-> action_contents_ok vars a).
  { rewrite concat_map_nil. unfold tbl, action_table, action_contents_ok.
    rewrite !Forall_cons.
    rewrite (run_if_ok (act_AddToSet a) _ (fun x => sa_Set x ∈ vars)) by (intros; apply validateVariableAction_ok).
    rewrite (run_if_ok (act_RemoveFromSet a) _ (fun x => sa_Set x ∈ vars)) by (intros; apply validateVariableAction_ok).
    rewrite (run_if_ok (act_SetVariable a) _ (fun x => sca_Scalar x ∈ vars)) by (intros; apply validateVariableAction_ok).
    rewrite (run_if_ok (act_AddToMap a) _ _ (fun x => validateMapAction_add_ok p x vars Hp)).
    rewrite (run_if_ok (act_RemoveFromMap a) _ _ (fun x => validateMapAction_remove_ok p x vars Hp)).
    rewrite (run_if_ok (act_CallWebhook a) _ _ (validateWebhookCall_ok _)).
    rewrite (run_if_ok (act_DeployReplay a) _ _ (fun x => validateDeployReplayAction_ok te et _ x vars)).
    rewrite (run_if_ok (act_CleanUpReplay a) _ (fun _ => True)) by done.
    assert (opt_ok (fun _ : CleanUpReplayAction => True) (act_CleanUpReplay a))
      by (by destruct (act_CleanUpReplay a)).
    rewrite Forall_nil. tauto. }
  pose proof (find_present_None tbl 0) as Hf. rewrite <- Hn, <- He.
  destruct (find_present 0 None tbl) as [|[j|]].
  - split; [done | lia].
  - destruct Hf as (H1 & _ & e & Hj). rewrite Nat.sub_0_r in Hj. rewrite Hj.
    rewrite (single_present_errors tbl j e Ha H1 Hj). tauto.
  - split; [done | lia].
Qed.

Lemma validateRule_ok te et p r vars alerts :
  p <> [] -> validateRule te et p r vars alerts = [] <-> rule_ok vars alerts r.
Proof.
  intros Hp. unfold validateRule, rule_ok. rewrite app_nil, validateWhen_ok.
  destruct (ar_Then r) as [|a l]; [naive_solver |].
  cbn [length Nat.eqb].
  rewrite (concat_imap_nil _ (action_ok vars)); [naive_solver |].
  intros i x. apply validateAction_ok. unfold Index, Child. by destruct p.
Qed.

Lemma validateAutomations_ok te et h :
  (validateAutomations te et h).2 = [] <-> rules_ok h.
Proof.
  unfold validateAutomations, rules_ok. destruct (slice (hub_Rules (mh_Spec h))) as [|r l]; [done |].
  cbn [length Nat.eqb snd]. apply concat_imap_nil. intros i x. by apply validateRule_ok.
Qed.

Lemma parse_alerts_ok parse l :
  parse_alerts parse l = None <-> Forall (fun a => parse (StrVal (pa_Expr a)) = None) l.
Proof.
  induction l as [|a l IH]; simpl; [done |]. rewrite Forall_cons.
  destruct (parse _); naive_solver.
Qed.

Lemma Validate_ok parse te et h : (Validate parse te et h).2 = None <-> hub_ok parse h.
Proof.
  unfold Validate, hub_ok. rewrite <- validateVariables_ok, <- parse_alerts_ok, <- (validateAutomations_ok te et).
  destruct (validateVariables h) as [w e], (validateAutomations te et h) as [w' e'].
  destruct (parse_alerts parse _); [naive_solver |].
  simpl. rewrite length_app. destruct e, e'; simpl; naive_solver.
Qed.

(** *** Meta variables keep their references *)

Lemma oldVariablesMap_snoc vs v :
  oldVariablesMap (vs ++ [v]) =
  if bool_decide (var_Type v = VariableTypeMeta) then <[var_Key v := v]> (oldVariablesMap vs)
  else oldVariablesMap vs.
Proof. unfold oldVariablesMap. by rewrite fold_left_app. Qed.

(** With unique keys the map holds exactly the meta variables. *)
Lemma oldVariablesMap_lookup vs k o :
  NoDup (map var_Key vs) ->
  oldVariablesMap vs !! k = Some o <->
  o ∈ vs /\ var_Type o = VariableTypeMeta /\ var_Key o = k.
Proof.
  induction vs as [|v vs IH] using rev_ind; intros Hnd.
  - unfold oldVariablesMap; simpl. split; [done |]. intros [H _]. by apply elem_of_nil in H.
  - rewrite map_app, NoDup_app in Hnd. destruct Hnd as (Hnd & Hdis & _).
    rewrite oldVariablesMap_snoc, elem_of_app, list_elem_of_singleton.
    assert (Hfresh : forall u, u ∈ vs -> var_Key u <> var_Key v).
    { intros u Hu E. apply (Hdis (var_Key u)); [by apply list_elem_of_fmap_2 |].
      rewrite E. simpl. constructor. }
    case_bool_decide as Ht.
    + rewrite lookup_insert_Some, IH by done. naive_solver.
    + rewrite IH by done. naive_solver.
Qed.

Lemma metaRefErrors_ok i m vs :
  metaRefErrors i m vs = [] <->
  (forall v o, v ∈ vs -> var_Type v = VariableTypeMeta -> m !! var_Key v = Some o ->
     var_VariableRefs o = var_VariableRefs v).
Proof.
  revert i. induction vs as [|v vs IH]; intros i; simpl.
  - split; [intros _ v o H; by apply elem_of_nil in H | done].
  - rewrite app_nil, IH. setoid_rewrite elem_of_cons.
    case_bool_decide as Ht; [| naive_solver].
    destruct (m !! var_Key v) as [o|] eqn:E; [case_bool_decide as Hr |]; naive_solver.
Qed.

(** The meta variables the two versions share refer to the same variables. *)
Definition same_meta_refs (old new : MdaiHub) : Prop :=
  forall v o, v ∈ hub_Variables (mh_Spec new) -> o ∈ hub_Variables (mh_Spec old) ->
    var_Type v = VariableTypeMeta -> var_Type o = VariableTypeMeta -> var_Key o = var_Key v ->
    var_VariableRefs o = var_VariableRefs v.

Lemma validateMetaVarRefs_ok old new :
  NoDup (map var_Key (hub_Variables (mh_Spec old))) ->
  validateMetaVarRefs (hub_Variables (mh_Spec old)) (hub_Variables (mh_Spec new)) = []
  <-> same_meta_refs old new.
Proof.
  intros Hnd. unfold validateMetaVarRefs, same_meta_refs.
  destruct ((length (hub_Variables (mh_Spec old)) =? 0)
            || (length (hub_Variables (mh_Spec new)) =? 0)) eqn:E.
  - apply orb_true_iff in E. rewrite !Nat.eqb_eq, !length_zero_iff_nil in E.
    split; [intros _ v o Hv Ho | done].
    destruct E as [E|E]; rewrite E in *; by eapply elem_of_nil in Ho || eapply elem_of_nil in Hv.
  - rewrite metaRefErrors_ok. setoid_rewrite oldVariablesMap_lookup; [| done..]. naive_solver.
Qed.

(** ** Properties *)

(** C1. The webhook admits a new object exactly when it is a hub whose variables
    are stored in valkey, have unique keys, unique exported names, references as
    their type asks and transformers only where they are supported, whose alert
    expressions parse, and whose rules have a coherent trigger over known
    variables and alerts and name exactly one well-formed action per step. *)
Theorem ValidateCreate_accepts (ParseExpr : string -> option error)
    (time_error : string -> string -> string) (error_text : error -> string) (obj : RuntimeObject) :
  (ValidateCreate ParseExpr time_error error_text obj).2 = None
  <-> exists h, obj = ObjMdaiHub h /\ hub_ok ParseExpr h.
Proof.
  destruct obj; simpl; try (split; [done | intros (h' & [=] & _)]).
  rewrite Validate_ok. naive_solver.
Qed.

(** C8. An update of an accepted hub is admitted exactly when the new hub is
    well-formed and every meta variable that both versions define keeps its
    references. *)
Theorem ValidateUpdate_accepts (ParseExpr : string -> option error)
    (time_error : string -> string -> string) (error_text : error -> string)
    (old : MdaiHub) (new : RuntimeObject) :
  hub_ok ParseExpr old ->
  (ValidateUpdate ParseExpr time_error error_text (ObjMdaiHub old) new).2 = None
  <-> exists h, new = ObjMdaiHub h /\ hub_ok ParseExpr h /\ same_meta_refs old h.
Proof.
  intros [(_ & Hnd & _) _].
  destruct new as [h| | | | |]; simpl; try (split; [done | intros (h' & [=] & _)]).
  pose proof (validateMetaVarRefs_ok old h Hnd) as Hm.
  destruct (validateMetaVarRefs _ _) as [|e l]; simpl.
  - rewrite Validate_ok. naive_solver.
  - split; [done |]. intros (h' & [= <-] & _ & H). apply Hm in H. done.
Qed.

Definition sample_variable (key typ datatype : string) (refs : option (list string)) : Variable_ :=
  {| var_Key := key; var_Type := typ; var_DataType := datatype;
     var_StorageType := VariableSourceTypeBuiltInValkey; var_VariableRefs := refs;
     var_SerializeAs := None |}.

Definition sample_hub (variables : list Variable_) : MdaiHub :=
  {| mh_ObjectMeta := named "hub" "mdai";
     mh_Spec := {| hub_Config := None; hub_Variables := variables;
                   hub_PrometheusAlerts := None; hub_Rules := None |};
     mh_Status := {| hubs_HubStatus := ""; hubs_LastUpdatedTime := None; hubs_Conditions := [] |} |}.

Lemma sample_hub_ok variables :
  variables_ok variables -> hub_ok (fun _ => None) (sample_hub variables).
Proof. intros H. repeat split; try apply H; constructor. Qed.

Lemma ValidateUpdate_accepts_witness :
  let old := sample_hub [sample_variable "a" "meta" "metaPriorityList" (Some ["x"; "y"])] in
  let new := sample_hub [sample_variable "a" "meta" "metaPriorityList" (Some ["y"; "x"])] in
  hub_ok (fun _ => None) old /\
  ((ValidateUpdate (fun _ => None) (fun _ _ => "") (fun _ => "") (ObjMdaiHub old) (ObjMdaiHub new)).2 = None
   <-> exists h, ObjMdaiHub new = ObjMdaiHub h /\ hub_ok (fun _ => None) h /\ same_meta_refs old h).
Proof.
  assert (H : hub_ok (fun _ => None)
    (sample_hub [sample_variable "a" "meta" "metaPriorityList" (Some ["x"; "y"])])).
  { apply sample_hub_ok. split; [| split].
    - constructor; [| constructor]. split; [reflexivity |]. split; [by split | constructor].
    - apply NoDup_singleton.
    - constructor. }
  split; [exact H | apply (ValidateUpdate_accepts _ _ _ _ _ H)].
Defined.
