(* ===== verification/WebhookCR.v ===== *)
(** * internal/webhook/v1: the MdaiObserver, MdaiIngress and MdaiCollector webhooks

    Three Sections, one per file.  The ingress webhook reads the cluster
    through its client: the client's [List] is a parameter, and the laws it is
    documented to satisfy are hypotheses of the theorems that need them. *)

From S2P Require Import Prelude GoLib ApiTypes Errors WebhookReplay.

(** ** mdaiobserver_webhook.go *)

Module ObserverWebhook.

(** The loop over the observers: it stops at the first one without a metric. *)
Fixpoint validateObservers (observers : list Observer) (newWarnings : Warnings)
  : with_error Warnings :=
  match observers with
  | [] => (newWarnings, None)
  | observer :: rest =>
      if bool_decide (obs_BytesMetricName observer = None)
         && bool_decide (obs_CountMetricName observer = None)
      then (newWarnings, Some (Err ("observer " +:+ obs_Name observer
              +:+ " must have either a bytesMetricName or countMetricName")))
      else validateObservers rest
             (if length (obs_LabelResourceAttributes observer) =? 0
              then newWarnings ++ ["observer " +:+ obs_Name observer
                     +:+ " does not define any labels to apply to counts"]
              else newWarnings)
  end.

Definition validateObserversAndObserverResources (mdaiobserver : MdaiObserver)
  : with_error Warnings :=
  let newWarnings :=
    match ores_Resources (obss_ObserverResource (mo_Spec mdaiobserver)) with
    | None => ["ObserverResource " +:+ om_Name (mo_ObjectMeta mdaiobserver)
               +:+ " does not define resource requests/limits"]
    | Some _ => []
    end in
  let observers := obss_Observers (mo_Spec mdaiobserver) in
  if length observers =? 0 then (newWarnings ++ ["Observers are not specified"], None)
  else validateObservers observers newWarnings.

Definition observer_ValidateCreate (obj : RuntimeObject) : with_error Warnings :=
  match obj with
  | ObjMdaiObserver mdaiobserver => validateObserversAndObserverResources mdaiobserver
  | _ => ([], Some (Err ("expected a MdaiObserver object but got " +:+ type_name obj)))
  end.

Definition observer_ValidateUpdate (oldObj newObj : RuntimeObject) : with_error Warnings :=
  match newObj with
  | ObjMdaiObserver mdaiobserver => validateObserversAndObserverResources mdaiobserver
  | _ => ([], Some (Err ("expected a MdaiObserver object for the newObj but got " +:+ type_name newObj)))
  end.

Definition observer_ValidateDelete (obj : RuntimeObject) : with_error Warnings :=
  match obj with
  | ObjMdaiObserver _ => ([], None)
  | _ => ([], Some (Err ("expected a MdaiObserver object but got " +:+ type_name obj)))
  end.

(** An observer counts something. *)
Definition observer_ok (o : Observer) : Prop :=
  is_Some (obs_BytesMetricName o) \/ is_Some (obs_CountMetricName o).

Lemma validateObservers_ok l w : (validateObservers l w).2 = None <-> Forall observer_ok l.
Proof.
  revert w. induction l as [|o l IH]; intros w; simpl; [by split |].
  rewrite Forall_cons. unfold observer_ok at 1.
  destruct (obs_BytesMetricName o), (obs_CountMetricName o); simpl;
    rewrite ?IH; try (split; [intros H; split; [eauto | done] | tauto]).
  split; [done |]. intros [[[? ?]|[? ?]] _]; done.
Qed.

(** The warnings name, in order, the observers without labels. *)
Lemma validateObservers_warnings l w :
  Forall observer_ok l ->
  (validateObservers l w).1 =
  w ++ map (fun o => "observer " +:+ obs_Name o +:+ " does not define any labels to apply to counts")
         (List.filter (fun o => length (obs_LabelResourceAttributes o) =? 0) l).
Proof.
  revert w. induction l as [|o l IH]; intros w H; simpl; [by rewrite app_nil_r |].
  apply Forall_cons in H as [Ho H].
  replace (bool_decide _ && bool_decide _) with false.
  - rewrite IH by done. destruct (_ =? 0); [| done]. by rewrite <- app_assoc.
  - symmetry. apply andb_false_iff. rewrite !bool_decide_eq_false.
    destruct Ho as [[? ->]|[? ->]]; [by left | by right].
Qed.

End ObserverWebhook.

(** ** mdaiingress_webhook.go *)

Module IngressWebhook.

Definition ServiceTypeNodePort : string := "NodePort".
Definition ServiceTypeLoadBalancer : string := "LoadBalancer".

(** A service section with its type defaulted to [t]. *)
Definition default_service (t : string) (s : option IngressService) : option IngressService :=
  match s with
  | None => Some {| is_Type := t; is_Annotations := None |}
  | Some svc =>
      Some (if bool_decide (is_Type svc = "")
            then {| is_Type := t; is_Annotations := is_Annotations svc |} else svc)
  end.

Definition default_ingress (i : MdaiIngress) : MdaiIngress :=
  let s := mi_Spec i in
  {| mi_ObjectMeta := mi_ObjectMeta i;
     mi_Spec :=
       {| ing_OtelCollector := ing_OtelCollector s;
          ing_CloudType := if bool_decide (ing_CloudType s = "") then CloudProviderAws
                           else ing_CloudType s;
          ing_Annotations := ing_Annotations s;
          ing_IngressClassName := ing_IngressClassName s;
          ing_GrpcService := default_service ServiceTypeNodePort (ing_GrpcService s);
          ing_NonGrpcService := default_service ServiceTypeLoadBalancer (ing_NonGrpcService s);
          ing_CollectorEndpoints := ing_CollectorEndpoints s |} |}.

(** [Default] writes through the object's pointer: the object it leaves, and
    the error. *)
Definition ingress_Default (obj : RuntimeObject) : RuntimeObject * option error :=
  match obj with
  | ObjMdaiIngress i => (ObjMdaiIngress (default_ingress i), None)
  | _ => (obj, Some (Err ("expected an MdaiIngress object but got " +:+ type_name obj)))
  end.

(** [client.List] in a namespace for a value of the collector-name index. *)
Abbreviation list_ingresses := (string -> string -> error + list MdaiIngress).

Definition same_object (a b : MdaiIngress) : bool :=
  bool_decide (om_Name (mi_ObjectMeta a) = om_Name (mi_ObjectMeta b))
  && bool_decide (om_Namespace (mi_ObjectMeta a) = om_Namespace (mi_ObjectMeta b)).

Definition otelcol_ref (i : MdaiIngress) : string * string :=
  (om_Namespace (mi_ObjectMeta i), ocr_Name (ing_OtelCollector (mi_Spec i))).

(** The loop over the listed objects: the first one that is not the object
    itself is a conflict. *)
Fixpoint conflict (mdaiIngress : MdaiIngress) (items : list MdaiIngress) : option error :=
  match items with
  | [] => None
  | other :: rest =>
      if same_object other mdaiIngress then conflict mdaiIngress rest
      else Some (Err ("OtelCol reference is already used by MdaiIngress "
             +:+ om_Namespace (mi_ObjectMeta other) +:+ "/" +:+ om_Name (mi_ObjectMeta other)))
  end.

(** The client is nil in a validator that was not set up by the manager. *)
Definition ingress_Validate (client : option list_ingresses) (mdaiIngress : MdaiIngress)
  : with_error Warnings :=
  match client with
  | None => ([], Some (Err "webhook client not initialized"))
  | Some List =>
      match List (otelcol_ref mdaiIngress).1 (otelcol_ref mdaiIngress).2 with
      | inl err => ([], Some (ErrInternal err))
      | inr items => ([], conflict mdaiIngress items)
      end
  end.

Definition ingress_ValidateCreate (client : option list_ingresses) (obj : RuntimeObject)
  : with_error Warnings :=
  match obj with
  | ObjMdaiIngress mdaiIngress => ingress_Validate client mdaiIngress
  | _ => ([], Some (Err ("expected an MdaiIngress, received " +:+ type_name obj)))
  end.

Definition ingress_ValidateUpdate (client : option list_ingresses) (oldObj newObj : RuntimeObject)
  : with_error Warnings :=
  match newObj with
  | ObjMdaiIngress mdaiIngress => ingress_Validate client mdaiIngress
  | _ => ([], Some (Err ("expected an MdaiIngress, received " +:+ type_name newObj)))
  end.

Definition ingress_ValidateDelete (obj : RuntimeObject) : with_error Warnings := ([], None).

(** *** Admission over time *)

(** The stored ingresses after an admitted create or update. *)
Definition store_ingress (i : MdaiIngress) (stored : list MdaiIngress) : list MdaiIngress :=
  i :: List.filter (fun j => negb (same_object j i)) stored.

Lemma conflict_ok i items :
  conflict i items = None <-> Forall (fun j => same_object j i = true) items.
Proof.
  induction items as [|j items IH]; simpl; [done |]. rewrite Forall_cons.
  destruct (same_object j i); naive_solver.
Qed.

Section Admission.
(** The client answers from the stored ingresses, through the field index. *)
Context (List : list MdaiIngress -> list_ingresses).

Definition list_law : Prop := forall stored ns name,
  exists items, List stored ns name = inr items
    /\ forall i, i ∈ items <-> i ∈ stored /\ otelcol_ref i = (ns, name).

(** One request at a time: the webhook defaults and validates an object
    against the stored ones, and the API server stores it or removes one. *)
Inductive admitted : list MdaiIngress -> Prop :=
| AdmitNone : admitted []
| AdmitStore stored obj i warnings :
    admitted stored ->
    ingress_Default obj = (ObjMdaiIngress i, None) ->
    (ingress_ValidateCreate (Some (List stored)) (ObjMdaiIngress i) = (warnings, None)
     \/ exists old, ingress_ValidateUpdate (Some (List stored)) old (ObjMdaiIngress i)
                    = (warnings, None)) ->
    admitted (store_ingress i stored)
| AdmitDelete stored i :
    admitted stored ->
    admitted (List.filter (fun j => negb (same_object j i)) stored).

(** No two ingresses of a namespace expose the same collector. *)
Definition unique_refs (stored : list MdaiIngress) : Prop :=
  forall i j, i ∈ stored -> j ∈ stored -> otelcol_ref i = otelcol_ref j ->
    same_object i j = true.

(** Both services have a type and the cloud is named. *)
Definition defaulted (i : MdaiIngress) : Prop :=
  ing_CloudType (mi_Spec i) <> ""
  /\ (exists g, ing_GrpcService (mi_Spec i) = Some g /\ is_Type g <> "")
  /\ (exists n, ing_NonGrpcService (mi_Spec i) = Some n /\ is_Type n <> "").

Lemma same_object_sym i j : same_object i j = same_object j i.
Proof. unfold same_object. f_equal; apply bool_decide_ext; naive_solver. Qed.

Lemma same_object_refl i : same_object i i = true.
Proof. unfold same_object. by rewrite !bool_decide_eq_true_2. Qed.

Lemma elem_of_filtered (f : MdaiIngress -> bool) l i :
  i ∈ List.filter f l <-> i ∈ l /\ f i = true.
Proof. rewrite !list_elem_of_In, filter_In. done. Qed.

Lemma default_service_typed t s :
  t <> "" -> exists g, default_service t s = Some g /\ is_Type g <> "".
Proof.
  intros Ht. destruct s as [g|]; simpl; [| eauto].
  case_bool_decide; eexists; split; done.
Qed.

Lemma default_ingress_defaulted i : defaulted (default_ingress i).
Proof.
  split; [| split; by apply default_service_typed].
  simpl. by case_bool_decide.
Qed.

Lemma filter_unique f stored : unique_refs stored -> unique_refs (List.filter f stored).
Proof. intros H i j [Hi _]%elem_of_filtered [Hj _]%elem_of_filtered. by apply H. Qed.

Lemma store_unique i stored w :
  list_law -> unique_refs stored ->
  ingress_Validate (Some (List stored)) i = (w, None) ->
  unique_refs (store_ingress i stored).
Proof.
  intros HL Hu Hv. unfold ingress_Validate in Hv.
  destruct (HL stored (otelcol_ref i).1 (otelcol_ref i).2) as (items & HE & Hitems).
  rewrite HE in Hv. injection Hv as _ Hc. apply conflict_ok in Hc. rewrite Forall_forall in Hc.
  assert (Hnew : forall j, j ∈ stored -> otelcol_ref j = otelcol_ref i -> same_object j i = true).
  { intros j Hj Hr. apply Hc, Hitems. split; [done |]. by rewrite Hr, <- surjective_pairing. }
  intros j k Hj Hk Hr. unfold store_ingress in *.
  apply elem_of_cons in Hj as [->|[Hj _]%elem_of_filtered];
    apply elem_of_cons in Hk as [->|[Hk _]%elem_of_filtered].
  - apply same_object_refl.
  - rewrite same_object_sym. by apply Hnew.
  - by apply Hnew.
  - by apply Hu.
Qed.

Lemma admitted_invariant stored :
  list_law -> admitted stored -> unique_refs stored /\ Forall defaulted stored.
Proof.
  intros HL. induction 1 as [|stored obj i w _ [IHu IHd] HD HV|stored i _ [IHu IHd]].
  - split; [intros i j Hi; by apply elem_of_nil in Hi | constructor].
  - split; [destruct HV as [HV|[old HV]]; by eapply store_unique |].
    destruct obj; simpl in HD; try discriminate. injection HD as <-.
    constructor; [apply default_ingress_defaulted |].
    apply Forall_forall. intros j [Hj _]%elem_of_filtered. by eapply Forall_forall in IHd.
  - split; [by apply filter_unique |].
    apply Forall_forall. intros j [Hj _]%elem_of_filtered. by eapply Forall_forall in IHd.
Qed.
End Admission.
End IngressWebhook.

(** ** mdaicollector_webhook.go *)

Module CollectorWebhook.

(** The anchored name pattern: a byte of [a-z0-9], optionally followed by bytes
    of [a-z0-9-] and a byte of [a-z0-9]. *)
Definition validNameRegex : regex :=
  let e c := is_lower c || is_digit c in
  RBracket e (fun c => e c || Ascii.eqb c "-").

Definition validSeverityLevels : list SeverityLevel :=
  [DebugSeverityLevel; InfoSeverityLevel; WarnSeverityLevel; ErrorSeverityLevel].

Definition ValidateName (name : string) : bool :=
  if (String.length name <? 1) || (32 <? String.length name) then false
  else matches validNameRegex (bytes name).

Definition invalidSeverityError (logstream : string) (severity : SeverityLevel) : error :=
  Err ("s3 logs configuration for " +:+ logstream +:+ " logstream has an invalid minSeverity: "
       +:+ severity +:+ ". Valid options are: " +:+ show_strings validSeverityLevels).

(** [c != nil && c.MinSeverity != nil && !Contains(validSeverityLevels, ...)]. *)
Definition bad_severity (c : option LogstreamConfig) : option SeverityLevel :=
  match c with
  | Some c' =>
      match ls_MinSeverity c' with
      | Some s => if contains validSeverityLevels s then None else Some s
      | None => None
      end
  | None => None
  end.

(** The three severity checks, in order. *)
Definition check_severities (collector hub other : option LogstreamConfig) : option error :=
  match bad_severity collector with
  | Some s => Some (invalidSeverityError "collector logs" s)
  | None =>
  match bad_severity hub with
  | Some s => Some (invalidSeverityError "hub logs" s)
  | None =>
  match bad_severity other with
  | Some s => Some (invalidSeverityError "other logs" s)
  | None => None
  end end end.

Definition audit_disabled (a : option AuditLogstreamConfig) : bool :=
  match a with Some a' => als_Disabled a' | None => false end.

Definition validateS3LogsConfig (s3LogsConfig : option S3LogsConfig) (awsConfig : option AWSConfig)
  : with_error Warnings :=
  match s3LogsConfig with
  | None => ([], None)
  | Some s3 =>
      match awsConfig with
      | None => ([], Some (Err "got s3 logs configuration, but AWSConfig not specified; cannot write logs to s3 without access secret"))
      | Some aws =>
          if bool_decide (s3_S3Bucket s3 = "")
          then ([], Some (Err "s3 logs configuration given but s3Bucket not specified; cannot write logs to s3"))
          else if bool_decide (s3_S3Region s3 = "")
          then ([], Some (Err "s3 logs configuration given but s3Region not specified; cannot write logs to s3"))
          else
            let warnings :=
              if audit_disabled (s3_AuditLogs s3)
              then ["s3 audit logs disabled, hub audit events will not be recorded to s3!"] else [] in
            match check_severities (s3_CollectorLogs s3) (s3_HubLogs s3) (s3_OtherLogs s3) with
            | Some err => (warnings, Some err)
            | None =>
                match aws_AWSAccessKeySecret aws with
                | None => (warnings, Some (Err "got s3 logs configuration, but awsConfig.accessKeySecret not specified; cannot write logs to s3 without access secret"))
                | Some _ => (warnings, None)
                end
            end
      end
  end.

Definition validateOtlpLogsConfig (logsConfig : LogsConfig) : with_error Warnings :=
  match logs_Otlp logsConfig with
  | None => ([], None)
  | Some otlpConfig =>
      if bool_decide (otlp_Endpoint otlpConfig = "")
      then ([], Some (Err "OTLP logs configuration present but endpoint field is empty. Cannot send logs over OTLP"))
      else
        let warnings :=
          if audit_disabled (otlp_AuditLogs otlpConfig)
          then ["OTLP audit logs disabled, hub audit events will not be recorded to OTLP!"] else [] in
        match check_severities (otlp_CollectorLogs otlpConfig) (otlp_HubLogs otlpConfig)
                (otlp_OtherLogs otlpConfig) with
        | Some err => (warnings, Some err)
        | None => (warnings, None)
        end
  end.

(** A nil collector is reported before its name is read. *)
Definition collector_Validate (mdaiCollector : option MdaiCollector) : with_error Warnings :=
  match mdaiCollector with
  | None => ([], Some (Err "expected a MdaiCollector object but got nil"))
  | Some c =>
      if negb (ValidateName (om_Name (mc_ObjectMeta c)))
      then ([], Some (Err ("MdaiCollector name " +:+ quote (om_Name (mc_ObjectMeta c))
               +:+ " is not valid. Use a lowercase alphanumeric name no longer than 32 characters with dash separators")))
      else
        match col_Logs (mc_Spec c) with
        | None => (["logs configuration not present in MDAI Collector spec"], None)
        | Some logs =>
            let '(s3Warnings, err) := validateS3LogsConfig (logs_S3 logs) (col_AWSConfig (mc_Spec c)) in
            match err with
            | Some e => (s3Warnings, Some e)
            | None =>
                let '(otlpWarnings, err) := validateOtlpLogsConfig logs in
                (s3Warnings ++ otlpWarnings, err)
            end
        end
  end.

Definition collector_ValidateCreate (obj : RuntimeObject) : with_error Warnings :=
  match obj with
  | ObjMdaiCollector c => collector_Validate (Some c)
  | _ => ([], Some (Err ("expected a MdaiCollector object but got " +:+ type_name obj)))
  end.

Definition collector_ValidateUpdate (oldObj newObj : RuntimeObject) : with_error Warnings :=
  match newObj with
  | ObjMdaiCollector c => collector_Validate (Some c)
  | _ => ([], Some (Err ("expected a MdaiCollector object for the newObj but got " +:+ type_name newObj)))
  end.

Definition collector_ValidateDelete (obj : RuntimeObject) : with_error Warnings :=
  match obj with
  | ObjMdaiCollector c => collector_Validate (Some c)
  | _ => ([], Some (Err ("expected a MdaiCollector object but got " +:+ type_name obj)))
  end.

(** *** Specification *)

Definition name_end (c : ascii) : bool := is_lower c || is_digit c.
Definition name_mid (c : ascii) : bool := name_end c || Ascii.eqb c "-".

(** At most 32 bytes of [a-z0-9-] that start and end with [a-z0-9]. *)
Definition collector_name_ok (name : string) : Prop :=
  String.length name <= 32
  /\ forallb name_mid (bytes name) = true
  /\ (exists c, head (bytes name) = Some c /\ name_end c = true)
  /\ (exists c, last (bytes name) = Some c /\ name_end c = true).

Definition severity_ok (c : option LogstreamConfig) : Prop :=
  forall c' s, c = Some c' -> ls_MinSeverity c' = Some s -> s ∈ validSeverityLevels.

Definition s3_ok (aws : option AWSConfig) (s3 : S3LogsConfig) : Prop :=
  (exists a k, aws = Some a /\ aws_AWSAccessKeySecret a = Some k)
  /\ s3_S3Bucket s3 <> "" /\ s3_S3Region s3 <> ""
  /\ severity_ok (s3_CollectorLogs s3) /\ severity_ok (s3_HubLogs s3) /\ severity_ok (s3_OtherLogs s3).

Definition otlp_ok (o : OtlpLogsConfig) : Prop :=
  otlp_Endpoint o <> ""
  /\ severity_ok (otlp_CollectorLogs o) /\ severity_ok (otlp_HubLogs o) /\ severity_ok (otlp_OtherLogs o).

Definition collector_ok (c : MdaiCollector) : Prop :=
  collector_name_ok (om_Name (mc_ObjectMeta c))
  /\ forall logs, col_Logs (mc_Spec c) = Some logs ->
       (forall s3, logs_S3 logs = Some s3 -> s3_ok (col_AWSConfig (mc_Spec c)) s3)
       /\ (forall o, logs_Otlp logs = Some o -> otlp_ok o).

(** *** Lemmas *)

Lemma validNameRegex_ok l :
  matches validNameRegex l = true <->
  forallb name_mid l = true
  /\ (exists c, head l = Some c /\ name_end c = true)
  /\ (exists c, last l = Some c /\ name_end c = true).
Proof.
  change validNameRegex with (RBracket name_end name_mid). rewrite matches_lang, lang_bracket. split.
  - intros [(c & -> & Hc)|(c & m & d & -> & Hc & Hd & Hm)].
    + simpl. unfold name_mid. rewrite Hc. split_and!; eauto.
    + rewrite last_cons, last_snoc. simpl. rewrite forallb_app. simpl.
      unfold name_mid at 1 3. rewrite Hc, Hd. simpl. change (forallb name_mid m = true) in Hm.
      rewrite Hm. split_and!; eauto.
  - intros (Hm & (c & Hh & Hc) & (d & Hl & Hd)). destruct l as [|x l]; [done |].
    injection Hh as ->. destruct l as [|y l] using rev_ind; [left; eauto |]. right.
    rewrite app_comm_cons, last_snoc in Hl. injection Hl as ->.
    exists c, l, d. simpl in Hm. rewrite forallb_app in Hm. split_bools. done.
Qed.

Lemma ValidateName_ok name : ValidateName name = true <-> collector_name_ok name.
Proof.
  unfold ValidateName, collector_name_ok. rewrite <- validNameRegex_ok.
  destruct (Nat.ltb_spec (String.length name) 1) as [H|H];
    destruct (Nat.ltb_spec 32 (String.length name)) as [H'|H']; simpl.
  - split; [done | lia].
  - split; [done |]. intros [_ Hm]. destruct name; [| simpl in H; lia]. by vm_compute in Hm.
  - split; [done | lia].
  - split; [done | tauto].
Qed.

Lemma bad_severity_ok c : bad_severity c = None <-> severity_ok c.
Proof.
  unfold bad_severity, severity_ok. destruct c as [c|]; [| naive_solver].
  destruct (ls_MinSeverity c) as [s|] eqn:E; [| naive_solver].
  destruct (contains _ s) eqn:C.
  - apply contains_elem in C. naive_solver.
  - split; [done |]. intros H. specialize (H c s eq_refl E). apply contains_elem in H. congruence.
Qed.

Lemma check_severities_ok a b c :
  check_severities a b c = None <-> severity_ok a /\ severity_ok b /\ severity_ok c.
Proof.
  unfold check_severities. rewrite <- !bad_severity_ok.
  destruct (bad_severity a), (bad_severity b), (bad_severity c); naive_solver.
Qed.

Lemma validateS3LogsConfig_ok s3 aws :
  (validateS3LogsConfig s3 aws).2 = None <-> (forall c, s3 = Some c -> s3_ok aws c).
Proof.
  unfold validateS3LogsConfig, s3_ok. destruct s3 as [s3|]; [| naive_solver].
  setoid_rewrite <- check_severities_ok.
  destruct aws as [aws|]; [| naive_solver].
  destruct (check_severities _ _ _) eqn:E; repeat case_bool_decide;
    destruct (aws_AWSAccessKeySecret aws) eqn:Ea; simpl; naive_solver.
Qed.

Lemma validateOtlpLogsConfig_ok l :
  (validateOtlpLogsConfig l).2 = None <-> (forall o, logs_Otlp l = Some o -> otlp_ok o).
Proof.
  unfold validateOtlpLogsConfig, otlp_ok. destruct (logs_Otlp l) as [o|]; [| naive_solver].
  setoid_rewrite <- check_severities_ok.
  destruct (check_severities _ _ _) eqn:E; case_bool_decide; simpl; naive_solver.
Qed.

Lemma collector_Validate_ok c : (collector_Validate (Some c)).2 = None <-> collector_ok c.
Proof.
  unfold collector_Validate, collector_ok. rewrite <- ValidateName_ok.
  destruct (ValidateName _); [| naive_solver]. simpl.
  destruct (col_Logs (mc_Spec c)) as [logs|]; [| naive_solver].
  pose proof (validateS3LogsConfig_ok (logs_S3 logs) (col_AWSConfig (mc_Spec c))) as H3.
  pose proof (validateOtlpLogsConfig_ok logs) as Ho.
  destruct (validateS3LogsConfig _ _) as [w [e|]], (validateOtlpLogsConfig logs) as [w' e'];
    simpl in *; naive_solver.
Qed.
End CollectorWebhook.

(** ** Properties *)

(** The collector webhook admits exactly the collectors whose name is a short
    lower-case label and whose log destinations are complete: a region, a bucket
    and an access-key secret for S3, an endpoint for OTLP, and known minimum
    severities everywhere. *)
Theorem collector_ValidateCreate_accepts (obj : RuntimeObject) :
  (CollectorWebhook.collector_ValidateCreate obj).2 = None
  <-> exists c, obj = ObjMdaiCollector c /\ CollectorWebhook.collector_ok c.
Proof.
  destruct obj; simpl; try (split; [done | intros (c' & [=] & _)]).
  pose proof (CollectorWebhook.collector_Validate_ok c). naive_solver.
Qed.

(** The observer webhook admits exactly the objects whose observers all name
    a count or a bytes metric; on those it warns about missing resources, about
    an empty list of observers, and, in order, about each observer without
    labels. *)
Theorem observer_ValidateUpdate_accepts (oldObj : RuntimeObject) (o : MdaiObserver) :
  let observers := obss_Observers (mo_Spec o) in
  let '(warnings, err) := ObserverWebhook.observer_ValidateUpdate oldObj (ObjMdaiObserver o) in
  (err = None <-> Forall ObserverWebhook.observer_ok observers)
  /\ (err = None -> warnings =
        (match ores_Resources (obss_ObserverResource (mo_Spec o)) with
         | None => ["ObserverResource " +:+ om_Name (mo_ObjectMeta o)
                    +:+ " does not define resource requests/limits"]
         | Some _ => []
         end)
        ++ match observers with
           | [] => ["Observers are not specified"]
           | _ => map (fun x => "observer " +:+ obs_Name x
                        +:+ " does not define any labels to apply to counts")
                    (List.filter (fun x => length (obs_LabelResourceAttributes x) =? 0) observers)
           end).
Proof.
  cbv zeta. unfold ObserverWebhook.observer_ValidateUpdate,
    ObserverWebhook.validateObserversAndObserverResources.
  destruct (obss_Observers (mo_Spec o)) as [|x l]; [by split |]. cbn [length Nat.eqb].
  set (w := match ores_Resources _ with Some _ => _ | None => _ end).
  pose proof (ObserverWebhook.validateObservers_ok (x :: l) w) as H.
  pose proof (ObserverWebhook.validateObservers_warnings (x :: l) w) as Hw.
  destruct (ObserverWebhook.validateObservers (x :: l) w) as [ws e]. simpl in H, Hw.
  split; [done |]. intros ->. apply Hw. by apply H.
Qed.


(** A client that scans the stored objects. *)
Definition scan_ingresses (stored : list MdaiIngress) (ns name : string)
  : error + list MdaiIngress :=
  inr (List.filter (fun i => bool_decide (IngressWebhook.otelcol_ref i = (ns, name))) stored).

Lemma scan_ingresses_law : IngressWebhook.list_law scan_ingresses.
Proof.
  intros stored ns name. eexists. split; [reflexivity |].
  intros i. by rewrite IngressWebhook.elem_of_filtered, bool_decide_eq_true.
Qed.

Definition sample_ingress (name otelcol : string) : MdaiIngress :=
  {| mi_ObjectMeta := named name "mdai";
     mi_Spec := {| ing_OtelCollector := {| ocr_Name := otelcol |}; ing_CloudType := "";
                   ing_Annotations := None; ing_IngressClassName := None;
                   ing_GrpcService := None; ing_NonGrpcService := None;
                   ing_CollectorEndpoints := None |} |}.


(** Defaulting is idempotent and leaves what the user set: a second
    admission of a defaulted ingress changes nothing, and a service's type and
    annotations survive when the type is set. *)
Theorem default_ingress_idempotent (i : MdaiIngress) :
  IngressWebhook.default_ingress (IngressWebhook.default_ingress i)
  = IngressWebhook.default_ingress i
  /\ (forall g, ing_GrpcService (mi_Spec i) = Some g -> is_Type g <> "" ->
        ing_GrpcService (mi_Spec (IngressWebhook.default_ingress i)) = Some g)
  /\ (forall g, ing_NonGrpcService (mi_Spec i) = Some g -> is_Type g <> "" ->
        ing_NonGrpcService (mi_Spec (IngressWebhook.default_ingress i)) = Some g)
  /\ (ing_CloudType (mi_Spec i) <> "" ->
        ing_CloudType (mi_Spec (IngressWebhook.default_ingress i)) = ing_CloudType (mi_Spec i)).
Proof.
  assert (Hd : forall t s, t <> "" ->
    IngressWebhook.default_service t (IngressWebhook.default_service t s)
    = IngressWebhook.default_service t s).
  { intros t [g|] Ht; simpl; [| by rewrite bool_decide_eq_false_2].
    destruct (decide (is_Type g = "")) as [E|E].
    - by rewrite (bool_decide_eq_true_2 _ E), bool_decide_eq_false_2.
    - by rewrite !(bool_decide_eq_false_2 _ E). }
  split_and!.
  - unfold IngressWebhook.default_ingress; simpl. rewrite !Hd by done.
    f_equal. f_equal. destruct (decide (ing_CloudType (mi_Spec i) = "")) as [E|E].
    + by rewrite (bool_decide_eq_true_2 _ E).
    + by rewrite !(bool_decide_eq_false_2 _ E).
  - intros g Hg Ht. simpl. rewrite Hg. simpl. by rewrite bool_decide_eq_false_2.
  - intros g Hg Ht. simpl. rewrite Hg. simpl. by rewrite bool_decide_eq_false_2.
  - intros Ht. simpl. by rewrite bool_decide_eq_false_2.
Qed.
