(* ===== verification/Components.v ===== *)
(** * internal/components: parsers of collector components

    From a component's configuration to service ports, RBAC rules, probes and
    environment variables.  [GenericParser] and [MultiPortReceiver] implement
    the [Parser] interface, here a type class; a parser is a Go pointer whose
    object some operations write to, so the class threads the object.
    [mapstructure] is a third-party library: its [Decode] is a type class, one
    instance per configuration type.  Loggers are left out. *)

From S2P Require Import Prelude GoLib ApiTypes Errors Naming.
From stdpp Require Import pretty.

(** ** k8s.io data *)

Record ServicePort := {
  sp_Name : string;
  sp_Protocol : string;
  sp_AppProtocol : option string;
  sp_Port : Z;
  sp_TargetPort : IntOrString;
  sp_NodePort : Z
}.

Record PolicyRule := {
  pr_APIGroups : list string;
  pr_Resources : list string;
  pr_Verbs : list string
}.

(** An HTTP probe. *)
Record Probe := { probe_Path : string; probe_Port : IntOrString }.

(** An environment variable taken from a field of the pod. *)
Record EnvVar := { env_Name : string; env_FieldPath : string }.

Definition with_port_name (p : ServicePort) (n : string) : ServicePort :=
  {| sp_Name := n; sp_Protocol := sp_Protocol p; sp_AppProtocol := sp_AppProtocol p;
     sp_Port := sp_Port p; sp_TargetPort := sp_TargetPort p; sp_NodePort := sp_NodePort p |}.

(** ** component.go *)

Definition GrpcProtocol : string := "grpc".
Definition HttpProtocol : string := "http".
Definition UnsetPort : Z := 0.
Definition ErrPortNotFound : error := Err "port should not be empty".

Record PortUrlPaths := {
  pup_Port : ServicePort;
  pup_UrlPaths : list string
}.

Definition ComponentsPortsUrlPaths := gmap string (list PortUrlPaths).

(** [name[:strings.Index(name, "/")]] when there is a slash. *)
Definition ComponentType (name : string) : string :=
  match IndexByte (bytes name) "/" with
  | Some i => of_bytes (take i (bytes name))
  | None => name
  end.

Fixpoint take_while {A} (p : A -> bool) (l : list A) : list A :=
  match l with
  | [] => []
  | x :: l' => if p x then x :: take_while p l' else []
  end.

(** The leftmost match of the pattern of a colon and digits: the digits. *)
Fixpoint find_colon_digits (l : list ascii) : option (list ascii) :=
  match l with
  | [] => None
  | c :: l' =>
      if Ascii.eqb c ":" then
        match take_while is_digit l' with
        | [] => find_colon_digits l'
        | ds => Some ds
        end
      else find_colon_digits l'
  end.

Definition PortFromEndpoint (endpoint : string) : with_error Z :=
  let parsed :=
    match find_colon_digits (bytes endpoint) with
    | Some cleanedPortStr =>
        match ParseDigits32 cleanedPortStr with
        | Some port => inr port
        | None => inl (Err ("strconv.ParseInt: parsing " +:+ quote (of_bytes cleanedPortStr)
                            +:+ ": value out of range"))
        end
    | None => inr 0%Z
    end in
  match parsed with
  | inl err => (UnsetPort, Some err)
  | inr port => if (port =? 0)%Z then (UnsetPort, Some ErrPortNotFound) else (port, None)
  end.

(** ** mapstructure, and ranging over maps *)

(** [mapstructure.Decode] from untyped configuration to [T], and back to a map. *)
Class Mapstructure (Any T : Type) := {
  Decode : Any -> error + T;
  Encode : T -> with_error (gmap string Any)
}.

(** A [map[string]any] is itself an untyped value. *)
Class AnyValue (Any : Type) := any_map : gmap string Any -> Any.

(** The order in which [range] visits a map is not specified. *)
Class GoRange := {
  range_map {A} : gmap string A -> list (string * A);
  range_map_perm {A} (m : gmap string A) : range_map m ≡ₚ map_to_list m
}.

(** A visit of a map finds each key once, with its value. *)
Lemma range_map_NoDup `{GoRange} {A} (m : gmap string A) : NoDup (map fst (range_map m)).
Proof. rewrite (range_map_perm m). apply NoDup_fst_map_to_list. Qed.

Lemma range_map_empty `{GoRange} {A} : range_map (∅ : gmap string A) = [].
Proof.
  apply Permutation_nil_r. pose proof (range_map_perm (∅ : gmap string A)) as Hp.
  by rewrite map_to_list_empty in Hp.
Qed.

Lemma range_map_lookup `{GoRange} {A} (m : gmap string A) k :
  (list_to_map (range_map m) : gmap string A) !! k = m !! k.
Proof.
  rewrite (list_to_map_proper (range_map m) (map_to_list m)).
  - by rewrite list_to_map_to_list.
  - apply range_map_NoDup.
  - apply range_map_perm.
Qed.

Section Builder.
Context {Any T : Type}.
(** [intstr.IntOrString.IntValue]. *)
Context (IntValue : IntOrString -> Z).

Definition PortParser := string -> ServicePort -> T -> with_error (list ServicePort).
Definition RBACRuleGenerator := T -> with_error (list PolicyRule).
Definition ProbeGenerator := T -> with_error (option Probe).
Definition EnvVarGenerator := T -> with_error (list EnvVar).
Definition Defaulter := string -> Z -> T -> with_error (gmap string Any).

Definition ConstructServicePort (current : ServicePort) (port : Z) : ServicePort :=
  {| sp_Name := sp_Name current;
     sp_Protocol := sp_Protocol current;
     sp_AppProtocol := sp_AppProtocol current;
     sp_Port := port;
     sp_TargetPort :=
       if (0 <? port)%Z && (0 <? IntValue (sp_TargetPort current))%Z
       then FromInt32 port else FromInt32 0;
     sp_NodePort := sp_NodePort current |}.

(** ** builder.go *)

Record Settings := {
  set_protocol : string;
  set_appProtocol : option string;
  set_targetPort : IntOrString;
  set_nodePort : Z;
  set_name : string;
  set_port : Z;
  set_urlPaths : list string;
  set_defaultRecAddr : string;
  set_portParser : option (PortParser);
  set_rbacGen : option (RBACRuleGenerator);
  set_livenessGen : option (ProbeGenerator);
  set_readinessGen : option (ProbeGenerator);
  set_defaultsApplier : option (Defaulter);
  set_envVarGen : option (EnvVarGenerator)
}.

Definition NewEmptySettings : Settings :=
  {| set_protocol := ""; set_appProtocol := None; set_targetPort := FromInt32 0;
     set_nodePort := 0; set_name := ""; set_port := 0; set_urlPaths := [];
     set_defaultRecAddr := ""; set_portParser := None; set_rbacGen := None;
     set_livenessGen := None; set_readinessGen := None; set_defaultsApplier := None;
     set_envVarGen := None |}.

(** An option is a function on the settings; a builder is a list of them. *)
Definition ParserOption := Settings -> Settings.
Definition Builder := list ParserOption.

Definition Apply (o : Settings) (opts : list ParserOption) : Settings :=
  fold_left (fun o opt => opt o) opts o.

Definition GetServicePort (o : Settings) : ServicePort :=
  {| sp_Name := PortName (set_name o) (set_port o);
     sp_Protocol := set_protocol o;
     sp_AppProtocol := set_appProtocol o;
     sp_Port := set_port o;
     sp_TargetPort := set_targetPort o;
     sp_NodePort := set_nodePort o |}.

Definition NewBuilder : Builder := [].

Definition WithProtocol (b : Builder) (x : string) : Builder :=
  b ++ [fun o =>
    {| set_protocol := x; set_appProtocol := set_appProtocol o;
       set_targetPort := set_targetPort o; set_nodePort := set_nodePort o;
       set_name := set_name o; set_port := set_port o; set_urlPaths := set_urlPaths o;
       set_defaultRecAddr := set_defaultRecAddr o; set_portParser := set_portParser o;
       set_rbacGen := set_rbacGen o; set_livenessGen := set_livenessGen o;
       set_readinessGen := set_readinessGen o; set_defaultsApplier := set_defaultsApplier o;
       set_envVarGen := set_envVarGen o |}].

Definition WithAppProtocol (b : Builder) (x : option string) : Builder :=
  b ++ [fun o =>
    {| set_protocol := set_protocol o; set_appProtocol := x; set_targetPort := set_targetPort o;
       set_nodePort := set_nodePort o; set_name := set_name o; set_port := set_port o;
       set_urlPaths := set_urlPaths o; set_defaultRecAddr := set_defaultRecAddr o;
       set_portParser := set_portParser o; set_rbacGen := set_rbacGen o;
       set_livenessGen := set_livenessGen o; set_readinessGen := set_readinessGen o;
       set_defaultsApplier := set_defaultsApplier o; set_envVarGen := set_envVarGen o |}].

Definition WithDefaultRecAddress (b : Builder) (x : string) : Builder :=
  b ++ [fun o =>
    {| set_protocol := set_protocol o; set_appProtocol := set_appProtocol o;
       set_targetPort := set_targetPort o; set_nodePort := set_nodePort o;
       set_name := set_name o; set_port := set_port o; set_urlPaths := set_urlPaths o;
       set_defaultRecAddr := x; set_portParser := set_portParser o;
       set_rbacGen := set_rbacGen o; set_livenessGen := set_livenessGen o;
       set_readinessGen := set_readinessGen o; set_defaultsApplier := set_defaultsApplier o;
       set_envVarGen := set_envVarGen o |}].

Definition WithTargetPort (b : Builder) (x : Z) : Builder :=
  b ++ [fun o =>
    {| set_protocol := set_protocol o; set_appProtocol := set_appProtocol o;
       set_targetPort := FromInt32 x; set_nodePort := set_nodePort o; set_name := set_name o;
       set_port := set_port o; set_urlPaths := set_urlPaths o;
       set_defaultRecAddr := set_defaultRecAddr o; set_portParser := set_portParser o;
       set_rbacGen := set_rbacGen o; set_livenessGen := set_livenessGen o;
       set_readinessGen := set_readinessGen o; set_defaultsApplier := set_defaultsApplier o;
       set_envVarGen := set_envVarGen o |}].

Definition WithNodePort (b : Builder) (x : Z) : Builder :=
  b ++ [fun o =>
    {| set_protocol := set_protocol o; set_appProtocol := set_appProtocol o;
       set_targetPort := set_targetPort o; set_nodePort := x; set_name := set_name o;
       set_port := set_port o; set_urlPaths := set_urlPaths o;
       set_defaultRecAddr := set_defaultRecAddr o; set_portParser := set_portParser o;
       set_rbacGen := set_rbacGen o; set_livenessGen := set_livenessGen o;
       set_readinessGen := set_readinessGen o; set_defaultsApplier := set_defaultsApplier o;
       set_envVarGen := set_envVarGen o |}].

Definition WithName (b : Builder) (x : string) : Builder :=
  b ++ [fun o =>
    {| set_protocol := set_protocol o; set_appProtocol := set_appProtocol o;
       set_targetPort := set_targetPort o; set_nodePort := set_nodePort o; set_name := x;
       set_port := set_port o; set_urlPaths := set_urlPaths o;
       set_defaultRecAddr := set_defaultRecAddr o; set_portParser := set_portParser o;
       set_rbacGen := set_rbacGen o; set_livenessGen := set_livenessGen o;
       set_readinessGen := set_readinessGen o; set_defaultsApplier := set_defaultsApplier o;
       set_envVarGen := set_envVarGen o |}].

Definition WithPort (b : Builder) (x : Z) : Builder :=
  b ++ [fun o =>
    {| set_protocol := set_protocol o; set_appProtocol := set_appProtocol o;
       set_targetPort := set_targetPort o; set_nodePort := set_nodePort o;
       set_name := set_name o; set_port := x; set_urlPaths := set_urlPaths o;
       set_defaultRecAddr := set_defaultRecAddr o; set_portParser := set_portParser o;
       set_rbacGen := set_rbacGen o; set_livenessGen := set_livenessGen o;
       set_readinessGen := set_readinessGen o; set_defaultsApplier := set_defaultsApplier o;
       set_envVarGen := set_envVarGen o |}].

Definition WithPortParser (b : Builder) (x : PortParser) : Builder :=
  b ++ [fun o =>
    {| set_protocol := set_protocol o; set_appProtocol := set_appProtocol o;
       set_targetPort := set_targetPort o; set_nodePort := set_nodePort o;
       set_name := set_name o; set_port := set_port o; set_urlPaths := set_urlPaths o;
       set_defaultRecAddr := set_defaultRecAddr o; set_portParser := Some x;
       set_rbacGen := set_rbacGen o; set_livenessGen := set_livenessGen o;
       set_readinessGen := set_readinessGen o; set_defaultsApplier := set_defaultsApplier o;
       set_envVarGen := set_envVarGen o |}].

Definition WithRbacGen (b : Builder) (x : RBACRuleGenerator) : Builder :=
  b ++ [fun o =>
    {| set_protocol := set_protocol o; set_appProtocol := set_appProtocol o;
       set_targetPort := set_targetPort o; set_nodePort := set_nodePort o;
       set_name := set_name o; set_port := set_port o; set_urlPaths := set_urlPaths o;
       set_defaultRecAddr := set_defaultRecAddr o; set_portParser := set_portParser o;
       set_rbacGen := Some x; set_livenessGen := set_livenessGen o;
       set_readinessGen := set_readinessGen o; set_defaultsApplier := set_defaultsApplier o;
       set_envVarGen := set_envVarGen o |}].

Definition WithLivenessGen (b : Builder) (x : ProbeGenerator) : Builder :=
  b ++ [fun o =>
    {| set_protocol := set_protocol o; set_appProtocol := set_appProtocol o;
       set_targetPort := set_targetPort o; set_nodePort := set_nodePort o;
       set_name := set_name o; set_port := set_port o; set_urlPaths := set_urlPaths o;
       set_defaultRecAddr := set_defaultRecAddr o; set_portParser := set_portParser o;
       set_rbacGen := set_rbacGen o; set_livenessGen := Some x;
       set_readinessGen := set_readinessGen o; set_defaultsApplier := set_defaultsApplier o;
       set_envVarGen := set_envVarGen o |}].

Definition WithReadinessGen (b : Builder) (x : ProbeGenerator) : Builder :=
  b ++ [fun o =>
    {| set_protocol := set_protocol o; set_appProtocol := set_appProtocol o;
       set_targetPort := set_targetPort o; set_nodePort := set_nodePort o;
       set_name := set_name o; set_port := set_port o; set_urlPaths := set_urlPaths o;
       set_defaultRecAddr := set_defaultRecAddr o; set_portParser := set_portParser o;
       set_rbacGen := set_rbacGen o; set_livenessGen := set_livenessGen o;
       set_readinessGen := Some x; set_defaultsApplier := set_defaultsApplier o;
       set_envVarGen := set_envVarGen o |}].

Definition WithEnvVarGen (b : Builder) (x : EnvVarGenerator) : Builder :=
  b ++ [fun o =>
    {| set_protocol := set_protocol o; set_appProtocol := set_appProtocol o;
       set_targetPort := set_targetPort o; set_nodePort := set_nodePort o;
       set_name := set_name o; set_port := set_port o; set_urlPaths := set_urlPaths o;
       set_defaultRecAddr := set_defaultRecAddr o; set_portParser := set_portParser o;
       set_rbacGen := set_rbacGen o; set_livenessGen := set_livenessGen o;
       set_readinessGen := set_readinessGen o; set_defaultsApplier := set_defaultsApplier o;
       set_envVarGen := Some x |}].

Definition WithDefaultsApplier (b : Builder) (x : Defaulter) : Builder :=
  b ++ [fun o =>
    {| set_protocol := set_protocol o; set_appProtocol := set_appProtocol o;
       set_targetPort := set_targetPort o; set_nodePort := set_nodePort o;
       set_name := set_name o; set_port := set_port o; set_urlPaths := set_urlPaths o;
       set_defaultRecAddr := set_defaultRecAddr o; set_portParser := set_portParser o;
       set_rbacGen := set_rbacGen o; set_livenessGen := set_livenessGen o;
       set_readinessGen := set_readinessGen o; set_defaultsApplier := Some x;
       set_envVarGen := set_envVarGen o |}].

Definition WithUrlPaths (b : Builder) (x : list string) : Builder :=
  b ++ [fun o =>
    {| set_protocol := set_protocol o; set_appProtocol := set_appProtocol o;
       set_targetPort := set_targetPort o; set_nodePort := set_nodePort o;
       set_name := set_name o; set_port := set_port o; set_urlPaths := x;
       set_defaultRecAddr := set_defaultRecAddr o; set_portParser := set_portParser o;
       set_rbacGen := set_rbacGen o; set_livenessGen := set_livenessGen o;
       set_readinessGen := set_readinessGen o; set_defaultsApplier := set_defaultsApplier o;
       set_envVarGen := set_envVarGen o |}].

(** ** generic_parser.go *)

(** [settings] is a pointer. *)
Record GenericParser := {
  gp_name : string;
  gp_settings : option Settings;
  gp_portParser : option PortParser;
  gp_rbacGen : option RBACRuleGenerator;
  gp_envVarGen : option EnvVarGenerator;
  gp_livenessGen : option ProbeGenerator;
  gp_readinessGen : option ProbeGenerator;
  gp_defaultsApplier : option Defaulter
}.

Definition Build (b : Builder) : error + GenericParser :=
  let o := Apply NewEmptySettings b in
  if bool_decide (set_name o = "")
  then inl (Err "invalid settings struct, no name specified")
  else inr {| gp_name := set_name o;
              gp_settings := Some o;
              gp_portParser := set_portParser o;
              gp_rbacGen := set_rbacGen o;
              gp_envVarGen := set_envVarGen o;
              gp_livenessGen := set_livenessGen o;
              gp_readinessGen := set_readinessGen o;
              gp_defaultsApplier := set_defaultsApplier o |}.

Definition MustBuild (b : Builder) : go GenericParser :=
  match Build b with
  | inl _ => Panics "invalid settings struct, no name specified"
  | inr p => Done p
  end.
End Builder.

Arguments Settings : clear implicits.
Arguments Builder : clear implicits.
Arguments GenericParser : clear implicits.
Arguments PortParser : clear implicits.
Arguments Defaulter : clear implicits.

(** ** Properties *)

(** The port of an endpoint is what follows the first colon that a digit
    follows, so a bracketed IPv6 host hides the port behind one of its groups:
    "[::1]:4317" is read as port 1. *)
Lemma PortFromEndpoint_ipv6 (rest : string) :
  PortFromEndpoint ("[::1]" +:+ rest) = (1%Z, None).
Proof. unfold PortFromEndpoint. rewrite bytes_app. reflexivity. Qed.
