(* ===== verification/Parsers.v ===== *)
(** * internal/components: the two kinds of parsers

    The [Parser] interface, its implementation [GenericParser] with the
    single-endpoint configuration, and [MultiPortReceiver], which shares one
    table of service ports between all its calls and renames its entries as it
    goes.  The law class [StableParser] is what the registry promises its
    clients: an answer does not depend on the calls made before. *)

From S2P Require Import Prelude GoLib ApiTypes Errors Naming Components.
From stdpp Require Import pretty.

(** ** The interface *)

(** [R] is the object behind the pointer; [Ports] and [PortsWithUrlPaths]
    return it as they leave it. *)
Class Parser (Any R : Type) := {
  GetDefaultConfig : R -> Any -> with_error (option Any);
  Ports : string -> Any -> R -> R * go (with_error (list ServicePort));
  GetRBACRules : R -> Any -> with_error (list PolicyRule);
  GetLivenessProbe : R -> Any -> with_error (option Probe);
  GetEnvironmentVariables : R -> Any -> with_error (list EnvVar);
  GetReadinessProbe : R -> Any -> with_error (option Probe);
  ParserType : R -> string;
  ParserName : R -> string;
  PortsWithUrlPaths : string -> Any -> R -> R * go (with_error (list PortUrlPaths))
}.

(** ** generic_parser.go *)

Section Generic.
Context {Any T : Type} `{Mapstructure Any T} `{AnyValue Any}.

(** The methods that call a generator on the decoded configuration. *)
Definition generate {A} (gen : option (T -> with_error A)) (nothing : A) (config : Any)
  : with_error A :=
  match gen with
  | None => (nothing, None)
  | Some g =>
      match Decode config with
      | inl err => (nothing, Some err)
      | inr parsed => g parsed
      end
  end.

Definition generic_GetDefaultConfig (g : GenericParser Any T) (config : Any)
  : with_error (option Any) :=
  match gp_settings g, gp_defaultsApplier g with
  | Some settings, Some defaultsApplier =>
      if bool_decide (set_defaultRecAddr settings = "") || (set_port settings =? 0)%Z
      then (Some config, None)
      else
        match Decode config with
        | inl err => (None, Some err)
        | inr parsed =>
            let '(m, err) := defaultsApplier (set_defaultRecAddr settings) (set_port settings) parsed in
            (Some (any_map m), err)
        end
  | _, _ => (Some config, None)
  end.

(** A parser literal without settings panics when it has a port parser. *)
Definition generic_Ports (name : string) (config : Any) (g : GenericParser Any T)
  : GenericParser Any T * go (with_error (list ServicePort)) :=
  (g,
   match gp_portParser g with
   | None => Done ([], None)
   | Some portParser =>
       match Decode config with
       | inl err => Done ([], Some err)
       | inr parsed =>
           match gp_settings g with
           | None => Panics "nil pointer dereference"
           | Some settings => Done (portParser name (GetServicePort settings) parsed)
           end
       end
   end).

Definition generic_PortsWithUrlPaths (name : string) (config : Any) (g : GenericParser Any T)
  : GenericParser Any T * go (with_error (list PortUrlPaths)) := (g, Done ([], None)).

Definition generic_ParserType (g : GenericParser Any T) : string := ComponentType (gp_name g).
Definition generic_ParserName (g : GenericParser Any T) : string := "__" +:+ gp_name g.

#[export] Instance GenericParser_Parser : Parser Any (GenericParser Any T) := {
  GetDefaultConfig := generic_GetDefaultConfig;
  Ports := generic_Ports;
  GetRBACRules g := generate (gp_rbacGen g) [];
  GetLivenessProbe g := generate (gp_livenessGen g) None;
  GetEnvironmentVariables g := generate (gp_envVarGen g) [];
  GetReadinessProbe g := generate (gp_readinessGen g) None;
  ParserType := generic_ParserType;
  ParserName := generic_ParserName;
  PortsWithUrlPaths := generic_PortsWithUrlPaths
}.
End Generic.

(** ** single_endpoint.go *)

Definition DefaultRecAddress : string := "0.0.0.0".

Record SingleEndpointConfig := {
  sec_Endpoint : string;
  sec_ListenAddress : string
}.

Definition empty_endpoint : SingleEndpointConfig := {| sec_Endpoint := ""; sec_ListenAddress := "" |}.

Definition GetPortNum (g : SingleEndpointConfig) : with_error Z :=
  if negb (bool_decide (sec_Endpoint g = "")) then PortFromEndpoint (sec_Endpoint g)
  else if negb (bool_decide (sec_ListenAddress g = "")) then PortFromEndpoint (sec_ListenAddress g)
  else (UnsetPort, Some ErrPortNotFound).

Definition GetPortNumOrDefault (g : SingleEndpointConfig) (p : Z) : Z :=
  match GetPortNum g with
  | (_, Some _) => p
  | (num, None) => num
  end.

(** The endpoint rule [AddressDefaulter] and [endpointDefaulter] share:
    [strings.Split] never returns an empty list. *)
Definition default_address (defaultRecAddr : string) (port : Z) (endpoint : string) : string :=
  if bool_decide (endpoint = "") then Sprintf "%s:%d" [VString defaultRecAddr; VInt port]
  else
    let v := Split endpoint ":" in
    if (length v <? 2) || bool_decide (default "" (v !! 0) = "")
    then Sprintf "%s:%s" [VString defaultRecAddr; VString (default "" (last v))]
    else endpoint.

Section Single.
Context {Any : Type} `{Mapstructure Any (option SingleEndpointConfig)}.
Context (IntValue : IntOrString -> Z).

(** The configuration is a pointer, nil when the component has none. *)
Definition internalParseSingleEndpoint (name : string) (failSilently : bool)
    (defaultPort : ServicePort) (singleEndpointConfig : option SingleEndpointConfig)
  : with_error (list ServicePort) :=
  match singleEndpointConfig with
  | None => ([], None)
  | Some cfg =>
      match (GetPortNum cfg).2, (sp_Port defaultPort =? UnsetPort)%Z with
      | Some err, true => ([], if failSilently then None else Some err)
      | _, _ =>
          let port := GetPortNumOrDefault cfg (sp_Port defaultPort) in
          let svcPort := with_port_name defaultPort (PortName name port) in
          ([ConstructServicePort IntValue svcPort port], None)
      end
  end.

Definition ParseSingleEndpointSilent (name : string) (defaultPort : ServicePort)
    (cfg : option SingleEndpointConfig) : with_error (list ServicePort) :=
  internalParseSingleEndpoint name true defaultPort cfg.

Definition ParseSingleEndpoint (name : string) (defaultPort : ServicePort)
    (cfg : option SingleEndpointConfig) : with_error (list ServicePort) :=
  internalParseSingleEndpoint name false defaultPort cfg.

(** The configuration it leaves, before it is encoded. *)
Definition defaulted_endpoint (defaultRecAddr : string) (port : Z)
    (config : option SingleEndpointConfig) : SingleEndpointConfig :=
  let config := default empty_endpoint config in
  {| sec_Endpoint := default_address defaultRecAddr port (sec_Endpoint config);
     sec_ListenAddress := sec_ListenAddress config |}.

Definition AddressDefaulter (defaultRecAddr : string) (port : Z)
    (config : option SingleEndpointConfig) : with_error (gmap string Any) :=
  Encode (Some (defaulted_endpoint defaultRecAddr port config)).

Definition NewSinglePortParserBuilder (name : string) (port : Z)
  : Builder Any (option SingleEndpointConfig) :=
  WithDefaultRecAddress (WithDefaultsApplier (WithPortParser (WithName (WithPort NewBuilder port)
    name) ParseSingleEndpoint) AddressDefaulter) DefaultRecAddress.

Definition NewSilentSinglePortParserBuilder (name : string) (port : Z)
  : Builder Any (option SingleEndpointConfig) :=
  WithDefaultRecAddress (WithDefaultsApplier (WithPortParser (WithName (WithPort NewBuilder port)
    name) ParseSingleEndpointSilent) AddressDefaulter) DefaultRecAddress.
End Single.

(** ** multi_endpoint.go *)

(** A protocol may be present with a nil configuration. *)
Record MultiProtocolEndpointConfig := {
  mpc_Protocols : gmap string (option SingleEndpointConfig)
}.

Record MultiPortReceiver := {
  mpr_name : string;
  mpr_defaultRecAddr : string;
  mpr_addrMappings : gmap string string;
  mpr_portMappings : gmap string ServicePort;
  mpr_urlPathsMapping : gmap string (list string)
}.

Definition with_portMappings (m : MultiPortReceiver) (pm : gmap string ServicePort)
  : MultiPortReceiver :=
  {| mpr_name := mpr_name m; mpr_defaultRecAddr := mpr_defaultRecAddr m;
     mpr_addrMappings := mpr_addrMappings m; mpr_portMappings := pm;
     mpr_urlPathsMapping := mpr_urlPathsMapping m |}.

Definition port_or_default (ec : option SingleEndpointConfig) (port : Z) : Z :=
  match ec with
  | Some c => GetPortNumOrDefault c port
  | None => port
  end.

Definition unknown_protocol (protocol : string) : error :=
  Err ("unknown protocol set: " +:+ protocol).

Section Multi.
Context {Any : Type} `{Mapstructure Any MultiProtocolEndpointConfig}
  `{Mapstructure Any (option SingleEndpointConfig)} `{AnyValue Any} `{GoRange}.
Context (IntValue : IntOrString -> Z).

(** The loop that [Ports] and [PortsWithUrlPaths] share, [emit] what they
    append: it writes the name into the shared entry of the protocol. *)
Fixpoint multi_loop {A} (emit : string -> ServicePort -> go A) (name : string)
    (pm : gmap string ServicePort) (protocols : list (string * option SingleEndpointConfig))
    (acc : list A) : gmap string ServicePort * go (with_error (list A)) :=
  match protocols with
  | [] => (pm, Done (acc, None))
  | (protocol, ec) :: rest =>
      match pm !! protocol with
      | None => (pm, Done ([], Some (unknown_protocol protocol)))
      | Some defaultSvc =>
          let port := port_or_default ec (sp_Port defaultSvc) in
          let defaultSvc := with_port_name defaultSvc
            (PortName (Sprintf "%s-%s" [VString name; VString protocol]) port) in
          let pm := <[protocol := defaultSvc]> pm in
          match emit protocol (ConstructServicePort IntValue defaultSvc port) with
          | Panics why => (pm, Panics why)
          | Done a => multi_loop emit name pm rest (acc ++ [a])
          end
      end
  end.

Definition multi_Ports (name : string) (config : Any) (m : MultiPortReceiver)
  : MultiPortReceiver * go (with_error (list ServicePort)) :=
  match Decode config with
  | inl err => (m, Done ([], Some err))
  | inr cfg =>
      let '(pm, r) := multi_loop (fun _ p => Done p) name (mpr_portMappings m)
                        (range_map (mpc_Protocols cfg)) [] in
      (with_portMappings m pm, r)
  end.

(** [*m.urlPathsMapping[protocol]]. *)
Definition emit_url_paths (m : MultiPortReceiver) (protocol : string) (p : ServicePort)
  : go PortUrlPaths :=
  match mpr_urlPathsMapping m !! protocol with
  | Some paths => Done {| pup_Port := p; pup_UrlPaths := paths |}
  | None => Panics "nil pointer dereference"
  end.

Definition multi_PortsWithUrlPaths (name : string) (config : Any) (m : MultiPortReceiver)
  : MultiPortReceiver * go (with_error (list PortUrlPaths)) :=
  match Decode config with
  | inl err => (m, Done ([], Some err))
  | inr cfg =>
      let '(pm, r) := multi_loop (emit_url_paths m) name (mpr_portMappings m)
                        (range_map (mpc_Protocols cfg)) [] in
      (with_portMappings m pm, r)
  end.

Fixpoint multi_defaults (m : MultiPortReceiver)
    (protocols : list (string * option SingleEndpointConfig)) (acc : gmap string Any)
  : error + gmap string Any :=
  match protocols with
  | [] => inr acc
  | (protocol, ec) :: rest =>
      match mpr_portMappings m !! protocol with
      | None => inl (unknown_protocol protocol)
      | Some defaultSvc =>
          let port := port_or_default ec (sp_Port defaultSvc) in
          let addr := default (mpr_defaultRecAddr m) (mpr_addrMappings m !! protocol) in
          match AddressDefaulter addr port ec with
          | (_, Some err) => inl err
          | (conf, None) => multi_defaults m rest (<[protocol := any_map conf]> acc)
          end
      end
  end.

Definition multi_GetDefaultConfig (m : MultiPortReceiver) (config : Any) : with_error (option Any) :=
  match Decode config with
  | inl err => (None, Some err)
  | inr cfg =>
      match multi_defaults m (range_map (mpc_Protocols cfg)) ∅ with
      | inl err => (None, Some err)
      | inr defaultedConfig => (Some (any_map {[ "protocols" := any_map defaultedConfig ]}), None)
      end
  end.

#[export] Instance MultiPortReceiver_Parser : Parser Any MultiPortReceiver := {
  GetDefaultConfig := multi_GetDefaultConfig;
  Ports := multi_Ports;
  GetRBACRules _ _ := ([], None);
  GetLivenessProbe _ _ := (None, None);
  GetEnvironmentVariables _ _ := ([], None);
  GetReadinessProbe _ _ := (None, None);
  ParserType m := ComponentType (mpr_name m);
  ParserName m := "__" +:+ mpr_name m;
  PortsWithUrlPaths := multi_PortsWithUrlPaths
}.
End Multi.

(** *** Builders of multi-port receivers *)

Section MultiBuilder.
Context {Any : Type}.

Definition MultiPortBuilder := list (Builder Any MultiProtocolEndpointConfig).

Definition NewMultiPortReceiverBuilder (name : string) : MultiPortBuilder :=
  [WithDefaultRecAddress (WithName NewBuilder name) DefaultRecAddress].

Definition NewProtocolBuilder (name : string) (port : Z) : Builder Any MultiProtocolEndpointConfig :=
  WithDefaultRecAddress (WithPort (WithName NewBuilder name) port) DefaultRecAddress.

Definition AddPortMapping (mp : MultiPortBuilder) (builder : Builder Any MultiProtocolEndpointConfig)
  : MultiPortBuilder := mp ++ [builder].

(** One protocol added to the receiver. *)
Definition add_protocol (m : MultiPortReceiver)
    (built : GenericParser Any MultiProtocolEndpointConfig) : MultiPortReceiver :=
  match gp_settings built with
  | None => m
  | Some s =>
      {| mpr_name := mpr_name m; mpr_defaultRecAddr := mpr_defaultRecAddr m;
         mpr_addrMappings := <[gp_name built := set_defaultRecAddr s]> (mpr_addrMappings m);
         mpr_portMappings := <[gp_name built := GetServicePort s]> (mpr_portMappings m);
         mpr_urlPathsMapping := <[gp_name built := set_urlPaths s]> (mpr_urlPathsMapping m) |}
  end.

Fixpoint add_protocols (m : MultiPortReceiver) (bs : MultiPortBuilder)
  : error + MultiPortReceiver :=
  match bs with
  | [] => inr m
  | bu :: rest =>
      match Build bu with
      | inl err => inl err
      | inr built => add_protocols (add_protocol m built) rest
      end
  end.

(** [mp[0].MustBuild()] may panic; a built parser always has settings. *)
Definition multi_Build (mp : MultiPortBuilder) : go (error + MultiPortReceiver) :=
  match mp with
  | [] => Done (inl (Err "must provide at least one port mapping"))
  | b0 :: rest =>
      let! mb := MustBuild b0 in
      match gp_settings mb with
      | None => Panics "nil pointer dereference"
      | Some s =>
          Done (add_protocols
            {| mpr_name := gp_name mb; mpr_defaultRecAddr := set_defaultRecAddr s;
               mpr_addrMappings := ∅; mpr_portMappings := ∅; mpr_urlPathsMapping := ∅ |} rest)
      end
  end.

Definition multi_MustBuild (mp : MultiPortBuilder) : go MultiPortReceiver :=
  let! r := multi_Build mp in
  match r with
  | inl _ => Panics "multi port receiver"
  | inr m => Done m
  end.
End MultiBuilder.

Arguments MultiPortBuilder : clear implicits.

(** ** Ports and endpoints *)

Lemma take_while_all {A} (p : A -> bool) l : forallb p l = true -> take_while p l = l.
Proof. induction l as [|x l IH]; simpl; [done |]. intros H; split_bools. by rewrite H, IH. Qed.

Lemma digits_val_snoc l c : digits_val (l ++ [c]) = (digits_val l * 10 + digit_val c)%Z.
Proof. unfold digits_val. by rewrite fold_left_app. Qed.

Lemma pretty_N_char_digit d :
  (d < 10)%N -> is_digit (pretty_N_char d) = true /\ digit_val (pretty_N_char d) = Z.of_N d.
Proof.
  intros H. assert (Hd : d ∈ [0; 1; 2; 3; 4; 5; 6; 7; 8; 9]%N).
  { rewrite list_elem_of_In. simpl. lia. }
  revert Hd. rewrite !elem_of_cons, elem_of_nil.
  intros [->|[->|[->|[->|[->|[->|[->|[->|[->|[->|[]]]]]]]]]]]; by split.
Qed.

Lemma pretty_N_go_digits x s :
  exists ds, bytes (pretty_N_go x s) = ds ++ bytes s
    /\ forallb is_digit ds = true /\ digits_val ds = Z.of_N x.
Proof.
  revert s. induction (N.lt_wf_0 x) as [x _ IH]. intros s.
  destruct (N.eq_dec x 0%N) as [->|Hx].
  - exists []. by rewrite pretty_N_go_0.
  - rewrite pretty_N_go_step by lia.
    destruct (IH (x `div` 10)%N ltac:(apply N.div_lt; lia)
                (String (pretty_N_char (x `mod` 10)) s)) as (ds & E & Hd & Hv).
    exists (ds ++ [pretty_N_char (x `mod` 10)]).
    destruct (pretty_N_char_digit (x `mod` 10)%N) as [Hc Hcv]; [by apply N.mod_lt |].
    rewrite E, <- app_assoc. split; [done |]. rewrite forallb_app, Hd. simpl. rewrite Hc.
    split; [done |]. rewrite digits_val_snoc, Hv, Hcv.
    pose proof (N.div_mod x 10 ltac:(lia)). lia.
Qed.

Lemma pretty_pos_digits z :
  (0 < z)%Z -> forallb is_digit (bytes (pretty z)) = true /\ digits_val (bytes (pretty z)) = z
    /\ bytes (pretty z) <> [].
Proof.
  intros H. destruct z as [|p|p]; try lia.
  change (pretty (Z.pos p)) with (pretty_N_go (N.pos p) "").
  destruct (pretty_N_go_digits (N.pos p) "") as (ds & E & Hd & Hv).
  rewrite app_nil_r in E. rewrite E. split; [done |]. split; [by rewrite Hv |].
  intros ->. discriminate.
Qed.

Definition no_colon (s : string) : bool := all_bytes (fun c => negb (Ascii.eqb c ":")) s.

Lemma find_colon_skip l r :
  forallb (fun c => negb (Ascii.eqb c ":")) l = true ->
  find_colon_digits (l ++ r) = find_colon_digits r.
Proof.
  induction l as [|c l IH]; simpl; [done |]. intros H. split_bools. rewrite H. by apply IH.
Qed.

(** An endpoint whose host has no colon gives its port. *)
Lemma PortFromEndpoint_host_port host port :
  no_colon host = true -> (0 < port <= int32_max)%Z ->
  PortFromEndpoint (host +:+ ":" +:+ pretty port) = (port, None).
Proof.
  intros Hh [Hp Hm]. destruct (pretty_pos_digits port Hp) as (Hd & Hv & Hn).
  unfold PortFromEndpoint. rewrite bytes_app, find_colon_skip by done.
  change (bytes (":" +:+ pretty port)) with (":"%char :: bytes (pretty port)).
  cbn [find_colon_digits Ascii.eqb Bool.eqb]. rewrite take_while_all by done.
  destruct (bytes (pretty port)) eqn:E; [done |]. unfold ParseDigits32. rewrite Hv.
  rewrite (proj2 (Z.leb_le _ _) Hm). by rewrite (proj2 (Z.eqb_neq _ _)) by lia.
Qed.

Lemma Sprintf_addr_port addr port :
  Sprintf "%s:%d" [VString addr; VInt port] = addr +:+ ":" +:+ pretty port.
Proof.
  change (Sprintf "%s:%d" [VString addr; VInt port])
    with (addr +:+ String ":" (pretty port +:+ "")). by rewrite append_nil_r.
Qed.

Lemma Sprintf_addr_last addr s :
  Sprintf "%s:%s" [VString addr; VString s] = addr +:+ ":" +:+ s.
Proof.
  change (Sprintf "%s:%s" [VString addr; VString s]) with (addr +:+ String ":" (s +:+ "")).
  by rewrite append_nil_r.
Qed.

Lemma split_bytes_nonempty l sep : split_bytes l sep <> [].
Proof. destruct l as [|c l]; simpl; [done |]. destruct (Ascii.eqb c sep); [done |].
  by destruct (split_bytes l sep). Qed.

(** Splitting is one piece exactly when there is no separator, and the pieces
    have none. *)
Lemma split_bytes_no_sep l sep :
  forallb (fun c => negb (Ascii.eqb c sep)) l = true -> split_bytes l sep = [l].
Proof.
  induction l as [|c l IH]; simpl; [done |]. intros H. split_bools. by rewrite H, IH.
Qed.

Lemma split_bytes_pieces l sep w :
  w ∈ split_bytes l sep -> forallb (fun c => negb (Ascii.eqb c sep)) w = true.
Proof.
  revert w. induction l as [|c l IH]; intros w; simpl.
  - by intros ->%list_elem_of_singleton.
  - destruct (Ascii.eqb c sep) eqn:E.
    + intros [->|Hw]%elem_of_cons; [done | by apply IH].
    + destruct (split_bytes l sep) as [|x xs] eqn:S; [by apply split_bytes_nonempty in S |].
      intros [->|Hw]%elem_of_cons; [| apply IH; by constructor].
      simpl. rewrite E. simpl. apply IH. constructor.
Qed.

Lemma split_bytes_app l r sep :
  forallb (fun c => negb (Ascii.eqb c sep)) l = true ->
  split_bytes (l ++ sep :: r) sep = l :: split_bytes r sep.
Proof.
  induction l as [|c l IH]; simpl; [by rewrite Ascii.eqb_refl |].
  intros H. split_bools. by rewrite H, IH.
Qed.

Lemma Split_addr_rest addr s :
  no_colon addr = true -> no_colon s = true -> Split (addr +:+ ":" +:+ s) ":" = [addr; s].
Proof.
  intros Ha Hs. unfold Split. rewrite bytes_app.
  change (bytes (":" +:+ s)) with (":"%char :: bytes s).
  rewrite split_bytes_app by done. rewrite split_bytes_no_sep by done.
  simpl. by rewrite !of_bytes_bytes.
Qed.

Lemma Split_last_no_colon e : no_colon (default "" (last (Split e ":"))) = true.
Proof.
  unfold Split. change (map of_bytes (split_bytes (bytes e) ":")) with (of_bytes <$> split_bytes (bytes e) ":").
  rewrite fmap_last.
  destruct (last (split_bytes (bytes e) ":")) as [w|] eqn:L; [| done].
  simpl. unfold no_colon, all_bytes. rewrite bytes_of_bytes.
  apply (split_bytes_pieces (bytes e) ":"). by apply last_Some_elem_of.
Qed.

Lemma digits_no_colon l :
  forallb is_digit l = true -> forallb (fun c => negb (Ascii.eqb c ":")) l = true.
Proof.
  apply forallb_impl. intros c H. apply negb_true_iff, Ascii.eqb_neq. by intros ->.
Qed.

(** What [default_address] returns has a host and keeps it when defaulted again. *)
Lemma default_address_kept (addr addr' : string) (port' : Z) (s : string) :
  addr <> "" -> no_colon addr = true -> no_colon s = true ->
  default_address addr' port' (addr +:+ ":" +:+ s) = addr +:+ ":" +:+ s.
Proof.
  intros Hne Ha Hs. unfold default_address. rewrite bool_decide_eq_false_2 by (by destruct addr).
  rewrite Split_addr_rest by done. simpl. by rewrite bool_decide_eq_false_2.
Qed.

Lemma take_while_forallb {A} (p : A -> bool) l : forallb p (take_while p l) = true.
Proof. induction l as [|x l IH]; simpl; [done |]. destruct (p x) eqn:E; simpl; [by rewrite E |done]. Qed.

Lemma digits_val_nonneg l : forallb is_digit l = true -> (0 <= digits_val l)%Z.
Proof.
  induction l as [|c l IH] using rev_ind; [done |].
  rewrite forallb_app, digits_val_snoc. intros [Hl Hc]%andb_true_iff. specialize (IH Hl).
  simpl in Hc. rewrite andb_true_r in Hc. unfold is_digit, in_range in Hc. split_bools.
  change (code "0") with 48 in *. unfold digit_val. reflect_lia.
Qed.

Lemma PortFromEndpoint_range e :
  match PortFromEndpoint e with
  | (p, None) => (0 < p <= int32_max)%Z
  | (p, Some _) => p = UnsetPort
  end.
Proof.
  unfold PortFromEndpoint. destruct (find_colon_digits (bytes e)) as [ds|] eqn:F; [| done].
  assert (Hd : forallb is_digit ds = true).
  { revert F. generalize (bytes e) as l. induction l as [|c l IH]; simpl; [done |].
    destruct (Ascii.eqb c ":"); [| done].
    pose proof (take_while_forallb is_digit l) as Ht.
    destruct (take_while is_digit l); [done |]. by intros [= <-]. }
  apply digits_val_nonneg in Hd. unfold ParseDigits32.
  destruct (Z.leb_spec (digits_val ds) int32_max); [| done].
  destruct (Z.eqb_spec (digits_val ds) 0); [done | lia].
Qed.

(** ** The shared table of a [MultiPortReceiver] *)

(** What a call may not change: everything but the names. *)
Definition unnamed (p : ServicePort) : ServicePort := with_port_name p "".

Definition same_ports (pm pm' : gmap string ServicePort) : Prop := unnamed <$> pm = unnamed <$> pm'.

Lemma same_ports_lookup pm pm' k :
  same_ports pm pm' ->
  (exists p p', pm !! k = Some p /\ pm' !! k = Some p' /\ unnamed p = unnamed p')
  \/ (pm !! k = None /\ pm' !! k = None).
Proof.
  intros H. apply (f_equal (fun m => m !! k)) in H. rewrite !lookup_fmap in H.
  destruct (pm !! k) as [p|], (pm' !! k) as [p'|]; try discriminate H; [left | by right].
  exists p, p'. split_and!; [done | done |].
  change (Some (unnamed p) = Some (unnamed p')) in H. by apply (inj Some) in H.
Qed.

Lemma same_ports_rename pm pm' k p n :
  same_ports pm pm' -> pm !! k = Some p -> same_ports (<[k := with_port_name p n]> pm) pm'.
Proof.
  intros H Hp. unfold same_ports in *. rewrite <- H, fmap_insert.
  apply insert_id. by rewrite lookup_fmap, Hp.
Qed.

Lemma with_port_name_unnamed p p' n : unnamed p = unnamed p' -> with_port_name p n = with_port_name p' n.
Proof. destruct p, p'. unfold unnamed, with_port_name; simpl. congruence. Qed.

(** The service port of one protocol, from the table as it was built. *)
Definition protocol_port (IntValue : IntOrString -> Z) (name : string) (pm : gmap string ServicePort)
    (e : string * option SingleEndpointConfig) : option ServicePort :=
  defaultSvc ← pm !! e.1;
  let port := port_or_default e.2 (sp_Port defaultSvc) in
  Some (ConstructServicePort IntValue
          (with_port_name defaultSvc (PortName (Sprintf "%s-%s" [VString name; VString e.1]) port)) port).

Lemma protocol_port_eq IntValue name pm k ec :
  protocol_port IntValue name pm (k, ec) =
  match pm !! k with
  | Some p =>
      let port := port_or_default ec (sp_Port p) in
      Some (ConstructServicePort IntValue
              (with_port_name p (PortName (Sprintf "%s-%s" [VString name; VString k]) port)) port)
  | None => None
  end.
Proof. unfold protocol_port. simpl. by destruct (pm !! k). Qed.

Lemma multi_loop_spec {A} IntValue (emit : string -> ServicePort -> go A) f name pm0 pm es acc :
  same_ports pm pm0 ->
  (forall k p, is_Some (pm0 !! k) -> emit k p = Done (f k p)) ->
  let '(pm', r) := multi_loop IntValue emit name pm es acc in
  same_ports pm' pm0 /\
  match mapM (fun e => p ← protocol_port IntValue name pm0 e; Some (f e.1 p)) es with
  | Some l => r = Done (acc ++ l, None)
  | None => exists k, k ∈ es.*1 /\ pm0 !! k = None /\ r = Done ([], Some (unknown_protocol k))
  end.
Proof.
  intros Hpm He. revert pm acc Hpm.
  induction es as [|[k ec] es IH]; intros pm acc Hpm; simpl; [by rewrite app_nil_r |].
  rewrite protocol_port_eq. cbv zeta.
  destruct (same_ports_lookup pm pm0 k Hpm) as [(p & p' & -> & Hp' & Hu)|[-> Hn]].
  - rewrite Hp'. simpl. rewrite He by eauto.
    assert (Hport : sp_Port p = sp_Port p') by (by apply (f_equal sp_Port) in Hu).
    rewrite Hport, (with_port_name_unnamed p p' _ Hu).
    set (svc := with_port_name p' _).
    specialize (IH (<[k := svc]> pm) (acc ++ [f k (ConstructServicePort IntValue svc
                      (port_or_default ec (sp_Port p')))])).
    destruct (multi_loop _ _ _ _ es _) as [pm' r].
    destruct IH as [Hs Hr].
    { destruct (same_ports_lookup pm pm0 k Hpm) as [(q & q' & Hq & Hq' & Hqu)|[_ ?]]; [| congruence].
      assert (q' = p') as -> by congruence.
      unfold svc. rewrite <- (with_port_name_unnamed q p' _ Hqu). by apply same_ports_rename. }
    split; [done |]. destruct (mapM _ es) as [l|]; simpl.
    + by rewrite Hr, <- app_assoc.
    + destruct Hr as (k' & Hin & Hn & ->). exists k'. split; [by constructor |]. done.
  - rewrite Hn. simpl. split; [done |]. exists k. split; [constructor |]. done.
Qed.

Lemma multi_loop_same {A} IntValue (emit : string -> ServicePort -> go A) name pm pm0 es acc :
  same_ports pm pm0 ->
  (multi_loop IntValue emit name pm es acc).2 = (multi_loop IntValue emit name pm0 es acc).2
  /\ same_ports (multi_loop IntValue emit name pm es acc).1 pm0.
Proof.
  assert (G : forall pm pm' acc, same_ports pm pm0 -> same_ports pm' pm0 ->
    (multi_loop IntValue emit name pm es acc).2 = (multi_loop IntValue emit name pm' es acc).2
    /\ same_ports (multi_loop IntValue emit name pm es acc).1 pm0).
  { induction es as [|[k ec] es IH]; intros qm qm' acc' Hq Hq'; simpl; [done |].
    destruct (same_ports_lookup qm pm0 k Hq) as [(p & p0 & -> & Hp0 & Hu)|[-> Hn]];
      destruct (same_ports_lookup qm' pm0 k Hq') as [(p' & p0' & -> & Hp0' & Hu')|[-> Hn']];
      try congruence; [| done].
    assert (p0' = p0) as -> by congruence. clear Hp0'.
    assert (Hp : sp_Port p = sp_Port p0) by (by apply (f_equal sp_Port) in Hu).
    assert (Hp' : sp_Port p' = sp_Port p0) by (by apply (f_equal sp_Port) in Hu').
    rewrite Hp, Hp', (with_port_name_unnamed p p0 _ Hu), (with_port_name_unnamed p' p0 _ Hu').
    set (svc := with_port_name p0 _).
    assert (Hsvc : forall rm, same_ports rm pm0 -> same_ports (<[k := svc]> rm) pm0).
    { intros rm Hr.
      destruct (same_ports_lookup rm pm0 k Hr) as [(q & q' & Hq1 & Hq2 & Hqu)|[_ ?]]; [| congruence].
      assert (q' = p0) as -> by congruence.
      unfold svc. rewrite <- (with_port_name_unnamed q p0 _ Hqu). by apply same_ports_rename. }
    destruct (emit k _) as [a|why]; [| split; [done | by apply Hsvc]].
    by apply IH; apply Hsvc. }
  intros H. apply G; [done | reflexivity].
Qed.

(** ** What parsers promise to the registry *)

(** Calls may leave their mark on the object, but never on later answers:
    equivalence of objects is preserved by the calls and respected by them. *)
Class StableParser (Any R : Type) `{Parser Any R} `{Equiv R} := {
  stable_equivalence :: Equivalence (≡@{R});
  ports_state name config (r : R) : (Ports name config r).1 ≡ r;
  ports_proper name config :: Proper ((≡@{R}) ==> (=)) (fun r => (Ports name config r).2);
  paths_state name config (r : R) : (PortsWithUrlPaths name config r).1 ≡ r;
  paths_proper name config :: Proper ((≡@{R}) ==> (=)) (fun r => (PortsWithUrlPaths name config r).2)
}.

#[export] Instance GenericParser_equiv {Any T} : Equiv (GenericParser Any T) := (=).

#[export] Instance GenericParser_stable {Any T} `{Mapstructure Any T} `{AnyValue Any} :
  StableParser Any (GenericParser Any T).
Proof.
  split; first [done | apply _ | by intros name config r r' ->].
Qed.

(** Two receivers that differ at most in the names they gave to their ports. *)
#[export] Instance MultiPortReceiver_equiv : Equiv MultiPortReceiver := fun m m' =>
  mpr_name m = mpr_name m' /\ mpr_defaultRecAddr m = mpr_defaultRecAddr m'
  /\ mpr_addrMappings m = mpr_addrMappings m'
  /\ mpr_urlPathsMapping m = mpr_urlPathsMapping m'
  /\ same_ports (mpr_portMappings m) (mpr_portMappings m').

#[export] Instance MultiPortReceiver_equivalence : Equivalence (≡@{MultiPortReceiver}).
Proof.
  split.
  - intros m. by repeat split.
  - intros m m' (? & ? & ? & ? & ?). by repeat split.
  - intros m m' m'' (? & ? & ? & ? & ?) (? & ? & ? & ? & ?). repeat split; congruence.
Qed.

Section MultiStable.
Context {Any : Type} `{Mapstructure Any MultiProtocolEndpointConfig}
  `{Mapstructure Any (option SingleEndpointConfig)} `{AnyValue Any} `{GoRange}.
Context (IntValue : IntOrString -> Z).

Lemma multi_loop_state {A} (emit : string -> ServicePort -> go A) name m es acc pm r :
  multi_loop IntValue emit name (mpr_portMappings m) es acc = (pm, r) ->
  with_portMappings m pm ≡ m.
Proof.
  intros E. destruct (multi_loop_same IntValue emit name _ (mpr_portMappings m) es acc
    ltac:(reflexivity)) as [_ Hs]. rewrite E in Hs. by repeat split.
Qed.

#[export] Instance MultiPortReceiver_stable : @StableParser Any MultiPortReceiver
  (MultiPortReceiver_Parser IntValue) _.
Proof.
  split.
  - apply _.
  - intros name config m. unfold Ports; simpl. unfold multi_Ports.
    destruct (Decode config); [done |].
    destruct (multi_loop _ _ _ _ _ _) eqn:E. by eapply multi_loop_state.
  - intros name config m m' (_ & _ & _ & _ & Hs). unfold Ports; simpl. unfold multi_Ports.
    destruct (Decode config) as [|cfg]; [done |].
    pose proof (proj1 (multi_loop_same IntValue (fun _ p => Done p) name _ _
      (range_map (mpc_Protocols cfg)) [] Hs)) as Heq.
    by destruct (multi_loop _ _ _ (mpr_portMappings m) _ _), (multi_loop _ _ _ _ _ _).
  - intros name config m. unfold PortsWithUrlPaths; simpl. unfold multi_PortsWithUrlPaths.
    destruct (Decode config); [done |].
    destruct (multi_loop _ _ _ _ _ _) eqn:E. by eapply multi_loop_state.
  - intros name config m m' (_ & _ & _ & Hu & Hs). unfold PortsWithUrlPaths; simpl.
    unfold multi_PortsWithUrlPaths. destruct (Decode config) as [|cfg]; [done |].
    assert (Hem : emit_url_paths m = emit_url_paths m') by (unfold emit_url_paths; by rewrite Hu).
    rewrite Hem.
    pose proof (proj1 (multi_loop_same IntValue (emit_url_paths m') name _ _
      (range_map (mpc_Protocols cfg)) [] Hs)) as Heq.
    by destruct (multi_loop _ _ _ (mpr_portMappings m) _ _), (multi_loop _ _ _ _ _ _).
Qed.
End MultiStable.

(** ** Receivers in use *)

(** A receiver after any number of calls, each with its own order of visiting
    the protocols. *)
Section Called.
Context {Any : Type} `{Mapstructure Any MultiProtocolEndpointConfig}
  `{Mapstructure Any (option SingleEndpointConfig)} `{AnyValue Any}.
Context (IntValue : IntOrString -> Z).

Inductive called (m0 : MultiPortReceiver) : MultiPortReceiver -> Prop :=
| CalledNone : called m0 m0
| CalledPorts (O : GoRange) name config m :
    called m0 m -> called m0 (multi_Ports IntValue name config m).1
| CalledPaths (O : GoRange) name config m :
    called m0 m -> called m0 (multi_PortsWithUrlPaths IntValue name config m).1.

Lemma called_equiv m0 m : called m0 m -> m ≡ m0.
Proof.
  induction 1 as [|O name config m _ IH|O name config m _ IH].
  - reflexivity.
  - etransitivity; [| exact IH].
    apply (@ports_state _ _ _ _ (MultiPortReceiver_stable IntValue)).
  - etransitivity; [| exact IH].
    apply (@paths_state _ _ _ _ (MultiPortReceiver_stable IntValue)).
Qed.
End Called.

(** Every protocol of a built receiver has URL paths, possibly none. *)
Lemma add_protocols_dom {Any} (bs : MultiPortBuilder Any) m m' :
  dom (mpr_urlPathsMapping m) = dom (mpr_portMappings m) ->
  add_protocols m bs = inr m' ->
  dom (mpr_urlPathsMapping m') = dom (mpr_portMappings m').
Proof.
  revert m. induction bs as [|b bs IH]; intros m Hd; simpl; [by intros [= <-] |].
  destruct (Build b) as [|g]; [done |]. apply IH. unfold add_protocol.
  destruct (gp_settings g); [| done]. simpl. rewrite !dom_insert_L. by rewrite Hd.
Qed.

Lemma multi_MustBuild_dom {Any} (mp : MultiPortBuilder Any) m :
  multi_MustBuild mp = Done m -> dom (mpr_urlPathsMapping m) = dom (mpr_portMappings m).
Proof.
  unfold multi_MustBuild, multi_Build. destruct mp as [|b bs]; [done |].
  destruct (MustBuild b) as [g|]; [| done]. simpl. destruct (gp_settings g) as [s|]; [| done].
  simpl. destruct (add_protocols _ bs) eqn:E; [done |]. simpl. intros [= <-].
  eapply add_protocols_dom; [| exact E]. simpl. set_solver.
Qed.

Lemma mapM_perm {A B} (f : A -> option B) l l' :
  l ≡ₚ l' ->
  match mapM f l, mapM f l' with
  | Some r, Some r' => r ≡ₚ r'
  | None, None => True
  | _, _ => False
  end.
Proof.
  induction 1 as [|x l l' _ IH|x y l|l l' l'' _ IH _ IH']; simpl.
  - done.
  - destruct (f x); simpl; [| done]. destruct (mapM f l), (mapM f l'); simpl; try done. by f_equiv.
  - destruct (f x), (f y), (mapM f l); simpl; try done. by apply Permutation_swap.
  - destruct (mapM f l), (mapM f l'), (mapM f l''); try done. by etransitivity.
Qed.

(** ** Properties *)

(** The service port and the URL paths of one protocol, from the receiver as it
    was built. *)
Definition protocol_paths (IntValue : IntOrString -> Z) (name : string) (m : MultiPortReceiver)
    (e : string * option SingleEndpointConfig) : option PortUrlPaths :=
  p ← protocol_port IntValue name (mpr_portMappings m) e;
  Some {| pup_Port := p; pup_UrlPaths := default [] (mpr_urlPathsMapping m !! e.1) |}.

(** C13. A multi-port receiver answers from the table it was built with, whatever
    was asked before and in whatever order Go visits the protocols: it never
    dereferences a missing entry, it returns one port with its URL paths per
    configured protocol, and it fails exactly when some protocol is unknown. *)
Theorem multi_PortsWithUrlPaths_answer {Any : Type}
    `{Mapstructure Any MultiProtocolEndpointConfig} `{Mapstructure Any (option SingleEndpointConfig)}
    `{AnyValue Any} (IntValue : IntOrString -> Z) (mp : MultiPortBuilder Any)
    (m0 m : MultiPortReceiver) (O : GoRange) (name : string) (config : Any)
    (cfg : MultiProtocolEndpointConfig) :
  multi_MustBuild mp = Done m0 -> called (Any:=Any) IntValue m0 m -> Decode config = inr cfg ->
  match mapM (protocol_paths IntValue name m0) (map_to_list (mpc_Protocols cfg)) with
  | Some l => exists l', (multi_PortsWithUrlPaths IntValue name config m).2 = Done (l', None) /\ l' ≡ₚ l
  | None => exists k, is_Some (mpc_Protocols cfg !! k) /\ mpr_portMappings m0 !! k = None
      /\ (multi_PortsWithUrlPaths IntValue name config m).2 = Done ([], Some (unknown_protocol k))
  end.
Proof.
  intros Hb (_ & _ & _ & Hu & Hs)%called_equiv Hc. unfold multi_PortsWithUrlPaths. rewrite Hc.
  apply multi_MustBuild_dom in Hb.
  pose proof (multi_loop_spec IntValue (emit_url_paths m)
    (fun k p => {| pup_Port := p; pup_UrlPaths := default [] (mpr_urlPathsMapping m0 !! k) |})
    name (mpr_portMappings m0) (mpr_portMappings m) (range_map (mpc_Protocols cfg)) [] Hs) as L.
  pose proof (mapM_perm (protocol_paths IntValue name m0) _ _ (range_map_perm (mpc_Protocols cfg))) as P.
  destruct (multi_loop _ _ _ _ _ _) as [pm r]. simpl.
  destruct L as [_ L].
  { intros k p Hk. unfold emit_url_paths. rewrite Hu.
    assert (Hd : k ∈ dom (mpr_urlPathsMapping m0)) by (rewrite Hb; by apply elem_of_dom).
    apply elem_of_dom in Hd as [paths ->]. done. }
  unfold protocol_paths in P at 1. destruct (mapM _ (range_map _)) as [l|];
    destruct (mapM _ (map_to_list _)) as [l0|]; try done.
  - exists l. by rewrite L.
  - destruct L as (k & Hin & Hn & ->). exists k. split; [| done].
    apply list_elem_of_fmap in Hin as ([k' v] & -> & Hkv). rewrite range_map_perm in Hkv.
    apply elem_of_map_to_list in Hkv. simpl. eauto.
Qed.

(** A configuration language with nothing but multi-protocol configurations. *)
Section Sample.
#[local] Instance sample_multi : Mapstructure MultiProtocolEndpointConfig MultiProtocolEndpointConfig :=
  {| Decode := inr; Encode _ := (∅, None) |}.
#[local] Instance sample_single : Mapstructure MultiProtocolEndpointConfig (option SingleEndpointConfig) :=
  {| Decode _ := inr None; Encode _ := (∅, None) |}.
#[local] Instance sample_any : AnyValue MultiProtocolEndpointConfig :=
  fun _ => {| mpc_Protocols := ∅ |}.
#[local] Instance sample_range : GoRange := {| range_map A := map_to_list; range_map_perm A m := reflexivity _ |}.

Definition sample_int (v : IntOrString) : Z := match v with FromInt32 i => i | FromString _ => 0 end.

Definition sample_receiver : MultiPortBuilder MultiProtocolEndpointConfig :=
  AddPortMapping (NewMultiPortReceiverBuilder "otlp")
    (WithUrlPaths (WithTargetPort (NewProtocolBuilder "grpc" 4317) 4317) ["/p"]).

Definition sample_config : MultiProtocolEndpointConfig :=
  {| mpc_Protocols := {[ "grpc" := Some {| sec_Endpoint := "0.0.0.0:55"; sec_ListenAddress := "" |} ]} |}.

Definition sample_built : MultiPortReceiver :=
  match multi_MustBuild sample_receiver with
  | Done m => m
  | Panics _ => {| mpr_name := ""; mpr_defaultRecAddr := ""; mpr_addrMappings := ∅;
                   mpr_portMappings := ∅; mpr_urlPathsMapping := ∅ |}
  end.

Lemma multi_PortsWithUrlPaths_answer_witness :
  let m := (multi_Ports sample_int "otlp/1" sample_config sample_built).1 in
  multi_MustBuild sample_receiver = Done sample_built /\
  called (Any:=MultiProtocolEndpointConfig) sample_int sample_built m /\
  exists l', (multi_PortsWithUrlPaths sample_int "otlp/2" sample_config m).2 = Done (l', None)
    /\ l' ≡ₚ [{| pup_Port := {| sp_Name := "otlp-2-grpc"; sp_Protocol := ""; sp_AppProtocol := None;
                   sp_Port := 55; sp_TargetPort := FromInt32 55; sp_NodePort := 0 |};
                 pup_UrlPaths := ["/p"] |}].
Proof.
  assert (Hb : multi_MustBuild sample_receiver = Done sample_built) by (vm_compute; reflexivity).
  assert (Hc : called (Any:=MultiProtocolEndpointConfig) sample_int sample_built
                 (multi_Ports sample_int "otlp/1" sample_config sample_built).1)
    by (apply CalledPorts; constructor).
  split; [exact Hb | split; [exact Hc |]].
  exact (multi_PortsWithUrlPaths_answer sample_int sample_receiver sample_built _ sample_range
           "otlp/2" sample_config sample_config Hb Hc eq_refl).
Defined.
End Sample.



(** A parser built for one port answers with one service port: it carries the
    sanitised component name, the port of the endpoint when one can be read and
    the default otherwise (always a positive 32-bit number), and, whatever
    target port the builder was given, that same port as target. *)
Theorem single_port_parser_ports {Any : Type} `{Mapstructure Any (option SingleEndpointConfig)}
    `{AnyValue Any} (IntValue : IntOrString -> Z) (n : string) (port tp : Z) (name : string)
    (config : Any) (cfg : SingleEndpointConfig) (p : GenericParser Any (option SingleEndpointConfig)) :
  (forall i, IntValue (FromInt32 i) = i) ->
  (0 < port <= int32_max)%Z -> (0 < tp)%Z ->
  MustBuild (WithTargetPort (NewSinglePortParserBuilder IntValue n port) tp) = Done p ->
  Decode config = inr (Some cfg) ->
  let actual := GetPortNumOrDefault cfg port in
  (0 < actual <= int32_max)%Z
  /\ (Ports name config p).2 =
     Done ([{| sp_Name := PortName name actual; sp_Protocol := ""; sp_AppProtocol := None;
               sp_Port := actual; sp_TargetPort := FromInt32 actual; sp_NodePort := 0 |}], None).
Proof.
  intros Hi Hport Htp Hb Hd actual.
  assert (Hr : (0 < actual <= int32_max)%Z).
  { unfold actual, GetPortNumOrDefault, GetPortNum.
    pose proof (PortFromEndpoint_range (sec_Endpoint cfg)) as R1.
    pose proof (PortFromEndpoint_range (sec_ListenAddress cfg)) as R2.
    destruct (bool_decide (sec_Endpoint cfg = "")), (bool_decide (sec_ListenAddress cfg = "")); simpl;
      destruct (PortFromEndpoint (sec_Endpoint cfg)) as [? [?|]];
      destruct (PortFromEndpoint (sec_ListenAddress cfg)) as [? [?|]]; done. }
  split; [done |].
  unfold MustBuild, Build in Hb. simpl in Hb. destruct (bool_decide (n = "")); [done |].
  injection Hb as <-. unfold Ports; simpl. unfold generic_Ports; simpl. rewrite Hd.
  unfold ParseSingleEndpoint, internalParseSingleEndpoint; simpl.
  destruct (Z.eqb_spec port UnsetPort) as [E|_]; [unfold UnsetPort in E; lia |].
  fold actual. unfold ConstructServicePort; simpl. rewrite Hi.
  rewrite (proj2 (Z.ltb_lt 0 actual)) by lia. rewrite (proj2 (Z.ltb_lt 0 tp)) by lia.
  by destruct (GetPortNum cfg) as [? [?|]].
Qed.

