(* ===== verification/Registry.v ===== *)
(** * internal/components/{receivers,extensions,exporters}: the registries

    The table of receiver parsers with every entry of helpers.go, the RBAC and
    environment generators of the Kubernetes receivers, and the two extension
    parsers.  An entry is one of the program's instantiations of the two parser
    types; [AnyParser] implements [Parser] by dynamic dispatch and inherits the
    [StableParser] promise, so clients need not know which kind it is. *)

From S2P Require Import Prelude GoLib NetUrl ApiTypes Errors Naming Components Parsers.
From stdpp Require Import pretty.

(** ** receivers/kubeletstats.go *)

Record metricConfig := { Enabled : bool }.

Record metrics := {
  K8sContainerCPULimitUtilization : metricConfig;
  K8sContainerCPURequestUtilization : metricConfig;
  K8sContainerMemoryLimitUtilization : metricConfig;
  K8sContainerMemoryRequestUtilization : metricConfig;
  K8sPodCPULimitUtilization : metricConfig;
  K8sPodCPURequestUtilization : metricConfig;
  K8sPodMemoryLimitUtilization : metricConfig;
  K8sPodMemoryRequestUtilization : metricConfig
}.

Record kubeletStatsConfig := {
  ksc_ExtraMetadataLabels : list string;
  ksc_Metrics : metrics;
  ksc_AuthType : string
}.

Definition generateKubeletStatsEnvVars (config : kubeletStatsConfig) : with_error (list EnvVar) :=
  ([{| env_Name := "K8S_NODE_NAME"; env_FieldPath := "spec.nodeName" |}], None).

Definition nodesStatsPr : PolicyRule :=
  {| pr_APIGroups := [""]; pr_Resources := ["nodes/stats"]; pr_Verbs := ["get"] |}.
Definition nodesProxyPr : PolicyRule :=
  {| pr_APIGroups := [""]; pr_Resources := ["nodes/proxy"]; pr_Verbs := ["get"] |}.

Definition utilization_metrics (m : metrics) : list bool :=
  [Enabled (K8sContainerCPULimitUtilization m);
   Enabled (K8sContainerCPURequestUtilization m);
   Enabled (K8sContainerMemoryLimitUtilization m);
   Enabled (K8sContainerMemoryRequestUtilization m);
   Enabled (K8sPodCPULimitUtilization m);
   Enabled (K8sPodCPURequestUtilization m);
   Enabled (K8sPodMemoryLimitUtilization m);
   Enabled (K8sPodMemoryRequestUtilization m)].

(** The loop returns at the first enabled metric. *)
Fixpoint add_proxy_rule (prs : list PolicyRule) (ms : list bool) : list PolicyRule :=
  match ms with
  | [] => prs
  | metric :: rest => if metric then prs ++ [nodesProxyPr] else add_proxy_rule prs rest
  end.

Definition generateKubeletStatsRbacRules (config : kubeletStatsConfig) : with_error (list PolicyRule) :=
  let prs := [nodesStatsPr] in
  if 0 <? length (ksc_ExtraMetadataLabels config) then (prs ++ [nodesProxyPr], None)
  else (add_proxy_rule prs (utilization_metrics (ksc_Metrics config)), None).

(** ** receivers/k8sevents.go and receivers/k8scluster.go *)

Inductive k8seventsConfig := K8sEventsConfig.

Definition watch_verbs : list string := ["get"; "list"; "watch"].

Definition generatek8seventsRbacRules (_ : k8seventsConfig) : with_error (list PolicyRule) :=
  ([{| pr_APIGroups := [""];
       pr_Resources := ["events"; "namespaces"; "namespaces/status"; "nodes"; "nodes/spec"; "pods";
         "pods/status"; "replicationcontrollers"; "replicationcontrollers/status";
         "resourcequotas"; "services"];
       pr_Verbs := watch_verbs |};
    {| pr_APIGroups := ["apps"];
       pr_Resources := ["daemonsets"; "deployments"; "replicasets"; "statefulsets"];
       pr_Verbs := watch_verbs |};
    {| pr_APIGroups := ["extensions"];
       pr_Resources := ["daemonsets"; "deployments"; "replicasets"];
       pr_Verbs := watch_verbs |};
    {| pr_APIGroups := ["batch"]; pr_Resources := ["jobs"; "cronjobs"]; pr_Verbs := watch_verbs |};
    {| pr_APIGroups := ["autoscaling"]; pr_Resources := ["horizontalpodautoscalers"];
       pr_Verbs := watch_verbs |}], None).

Record k8sclusterConfig := { kcc_Distribution : string }.

Definition generatek8sclusterRbacRules (cfg : k8sclusterConfig) : with_error (list PolicyRule) :=
  let policyRules :=
    [{| pr_APIGroups := [""];
        pr_Resources := ["events"; "namespaces"; "namespaces/status"; "nodes"; "nodes/spec"; "pods";
          "pods/status"; "replicationcontrollers"; "replicationcontrollers/status";
          "resourcequotas"; "services"];
        pr_Verbs := watch_verbs |};
     {| pr_APIGroups := ["apps"];
        pr_Resources := ["daemonsets"; "deployments"; "replicasets"; "statefulsets"];
        pr_Verbs := watch_verbs |};
     {| pr_APIGroups := ["extensions"];
        pr_Resources := ["daemonsets"; "deployments"; "replicasets"];
        pr_Verbs := watch_verbs |};
     {| pr_APIGroups := ["batch"]; pr_Resources := ["jobs"; "cronjobs"]; pr_Verbs := watch_verbs |};
     {| pr_APIGroups := ["autoscaling"]; pr_Resources := ["horizontalpodautoscalers"];
        pr_Verbs := watch_verbs |}] in
  if bool_decide (kcc_Distribution cfg = "openshift")
  then (policyRules ++ [{| pr_APIGroups := ["quota.openshift.io"];
                           pr_Resources := ["clusterresourcequotas"];
                           pr_Verbs := watch_verbs |}], None)
  else (policyRules, None).

(** ** receivers/k8sobjects.go *)

Record k8sObject := { ko_Name : string; ko_Mode : string; ko_Group : string }.
Record k8sobjectsConfig := { koc_Objects : list k8sObject }.

Definition object_rule (obj : k8sObject) : PolicyRule :=
  let permissions := ["list"] in
  let permissions :=
    if bool_decide (ko_Mode obj = "pull")
       && (negb (bool_decide (ko_Name obj = "events"))
           && negb (bool_decide (ko_Name obj = "events.k8s.io")))
    then permissions ++ ["get"]
    else if bool_decide (ko_Mode obj = "watch") then permissions ++ ["watch"]
    else permissions in
  {| pr_APIGroups := [ko_Group obj]; pr_Resources := [ko_Name obj]; pr_Verbs := permissions |}.

Definition generatek8sobjectsRbacRules (config : k8sobjectsConfig) : with_error (list PolicyRule) :=
  (map object_rule (koc_Objects config), None).

(** ** extensions/healthcheckv1.go *)

Definition defaultHealthcheckV1Path : string := "/".
Definition defaultHealthcheckV1Port : Z := 13133.

Record healthcheckV1Config := {
  hc_SingleEndpointConfig : SingleEndpointConfig;
  hc_Path : string
}.

(** [net.SplitHostPort], as the host and port when there is no error. *)
Definition SplitHostPort (hostport : string) : option (string * string) :=
  let l := bytes hostport in
  match LastIndexByte l ":" with
  | None => None
  | Some i =>
      let finish (host : list ascii) (j k : nat) :=
        match IndexByte (drop j l) "[", IndexByte (drop k l) "]" with
        | None, None => Some (of_bytes host, of_bytes (drop (S i) l))
        | _, _ => None
        end in
      match l with
      | "["%char :: _ =>
          match IndexByte l "]" with
          | None => None
          | Some e => if S e =? i then finish (drop 1 (take e l)) 1 (S e) else None
          end
      | _ =>
          match IndexByte (take i l) ":" with
          | Some _ => None
          | None => finish (take i l) 0 0
          end
      end
  end.

(** The endpoint it leaves: only an endpoint with a port and an empty host gets
    the default host. *)
Definition healthcheck_endpoint (defaultRecAddr : string) (port : Z) (endpoint : string) : string :=
  if bool_decide (endpoint = "") then Sprintf "%s:%d" [VString defaultRecAddr; VInt port]
  else
    match SplitHostPort endpoint with
    | Some (h, p) =>
        if bool_decide (h = "") && negb (bool_decide (p = ""))
        then Sprintf "%s:%s" [VString defaultRecAddr; VString p] else endpoint
    | None => endpoint
    end.

Definition defaulted_healthcheck (defaultRecAddr : string) (port : Z) (config : healthcheckV1Config)
  : healthcheckV1Config :=
  {| hc_SingleEndpointConfig :=
       {| sec_Endpoint :=
            healthcheck_endpoint defaultRecAddr port (sec_Endpoint (hc_SingleEndpointConfig config));
          sec_ListenAddress := sec_ListenAddress (hc_SingleEndpointConfig config) |};
     hc_Path := if bool_decide (hc_Path config = "") then defaultHealthcheckV1Path else hc_Path config |}.

Definition healthCheckV1AddressDefaulter {Any} `{Mapstructure Any healthcheckV1Config}
    (defaultRecAddr : string) (port : Z) (config : healthcheckV1Config)
  : with_error (gmap string Any) :=
  Encode (defaulted_healthcheck defaultRecAddr port config).

Definition healthCheckV1Probe (config : healthcheckV1Config) : with_error (option Probe) :=
  let path := if bool_decide (hc_Path config = "") then defaultHealthcheckV1Path else hc_Path config in
  (Some {| probe_Path := path;
           probe_Port := FromInt32 (GetPortNumOrDefault (hc_SingleEndpointConfig config)
                                      defaultHealthcheckV1Port) |}, None).

(** ** extensions/jaeger_query_extension.go *)

Definition jaeger_name : string := "jaeger_query".
Definition jaeger_port : Z := 16686.

Record jaegerHTTPAddress := { jha_Endpoint : string }.
Record JaegerQueryExtensionConfig := { jq_HTTP : jaegerHTTPAddress }.

Definition jaeger_GetPortNum (g : JaegerQueryExtensionConfig) : with_error Z :=
  if negb (bool_decide (jha_Endpoint (jq_HTTP g) = ""))
  then PortFromEndpoint (jha_Endpoint (jq_HTTP g))
  else (UnsetPort, Some ErrPortNotFound).

Definition jaeger_GetPortNumOrDefault (g : JaegerQueryExtensionConfig) (p : Z) : Z :=
  match jaeger_GetPortNum g with
  | (_, Some _) => p
  | (num, None) => num
  end.

Definition ParseJaegerQueryExtensionConfig (IntValue : IntOrString -> Z) (name : string)
    (defaultPort : ServicePort) (cfg : option JaegerQueryExtensionConfig)
  : with_error (list ServicePort) :=
  match cfg with
  | None => ([], None)
  | Some cfg =>
      match (jaeger_GetPortNum cfg).2, (sp_Port defaultPort =? UnsetPort)%Z with
      | Some err, true => ([], Some err)
      | _, _ =>
          let port := jaeger_GetPortNumOrDefault cfg (sp_Port defaultPort) in
          let svcPort := with_port_name defaultPort (PortName name port) in
          ([ConstructServicePort IntValue svcPort port], None)
      end
  end.

Definition endpointDefaulter {Any} `{Mapstructure Any (option JaegerQueryExtensionConfig)}
    (defaultRecAddr : string) (port : Z) (config : option JaegerQueryExtensionConfig)
  : with_error (gmap string Any) :=
  let config := default {| jq_HTTP := {| jha_Endpoint := "" |} |} config in
  Encode (Some {| jq_HTTP := {| jha_Endpoint :=
                    default_address defaultRecAddr port (jha_Endpoint (jq_HTTP config)) |} |}).

Definition NewJaegerQueryExtensionParserBuilder {Any}
    `{Mapstructure Any (option JaegerQueryExtensionConfig)} (IntValue : IntOrString -> Z)
  : Builder Any (option JaegerQueryExtensionConfig) :=
  WithTargetPort (WithDefaultRecAddress (WithDefaultsApplier (WithPortParser
    (WithName (WithPort NewBuilder jaeger_port) jaeger_name)
    (ParseJaegerQueryExtensionConfig IntValue)) endpointDefaulter) DefaultRecAddress) jaeger_port.

(** ** The entries of a registry *)

(** A [Parser] interface value: its dynamic type is one of the instantiations
    the program makes. *)
Inductive AnyParser (Any : Type) : Type :=
| PSingle (g : GenericParser Any (option SingleEndpointConfig))
| PMulti (m : MultiPortReceiver)
| PKubeletStats (g : GenericParser Any kubeletStatsConfig)
| PK8sEvents (g : GenericParser Any k8seventsConfig)
| PK8sCluster (g : GenericParser Any k8sclusterConfig)
| PK8sObjects (g : GenericParser Any k8sobjectsConfig)
| PHealthCheck (g : GenericParser Any healthcheckV1Config)
| PJaegerQuery (g : GenericParser Any (option JaegerQueryExtensionConfig))
| PAny (g : GenericParser Any Any).
Arguments PSingle {Any} g.
Arguments PMulti {Any} m.
Arguments PKubeletStats {Any} g.
Arguments PK8sEvents {Any} g.
Arguments PK8sCluster {Any} g.
Arguments PK8sObjects {Any} g.
Arguments PHealthCheck {Any} g.
Arguments PJaegerQuery {Any} g.
Arguments PAny {Any} g.

(** Every configuration type the registries decode. *)
Class Configs (Any : Type) := {
  config_any :: AnyValue Any;
  config_multi :: Mapstructure Any MultiProtocolEndpointConfig;
  config_single :: Mapstructure Any (option SingleEndpointConfig);
  config_kubelet :: Mapstructure Any kubeletStatsConfig;
  config_events :: Mapstructure Any k8seventsConfig;
  config_cluster :: Mapstructure Any k8sclusterConfig;
  config_objects :: Mapstructure Any k8sobjectsConfig;
  config_health :: Mapstructure Any healthcheckV1Config;
  config_jaeger :: Mapstructure Any (option JaegerQueryExtensionConfig);
  config_untyped :: Mapstructure Any Any
}.

Section Registry.
Context {Any : Type} `{Configs Any} `{GoRange}.
Context (IntValue : IntOrString -> Z).

(** Dynamic dispatch: the methods of the dynamic type, on its object. *)
Definition dispatch {X} (k : forall R, Parser Any R -> (R -> AnyParser Any) -> R -> X)
    (p : AnyParser Any) : X :=
  match p with
  | PSingle g => k _ _ PSingle g
  | PMulti m => k _ (MultiPortReceiver_Parser IntValue) PMulti m
  | PKubeletStats g => k _ _ PKubeletStats g
  | PK8sEvents g => k _ _ PK8sEvents g
  | PK8sCluster g => k _ _ PK8sCluster g
  | PK8sObjects g => k _ _ PK8sObjects g
  | PHealthCheck g => k _ _ PHealthCheck g
  | PJaegerQuery g => k _ _ PJaegerQuery g
  | PAny g => k _ _ PAny g
  end.

#[export] Instance AnyParser_Parser : Parser Any (AnyParser Any) := {
  GetDefaultConfig p config := dispatch (fun _ _ _ r => GetDefaultConfig r config) p;
  Ports name config := dispatch (fun _ _ inj r => let '(r', a) := Ports name config r in (inj r', a));
  GetRBACRules p config := dispatch (fun _ _ _ r => GetRBACRules r config) p;
  GetLivenessProbe p config := dispatch (fun _ _ _ r => GetLivenessProbe r config) p;
  GetEnvironmentVariables p config := dispatch (fun _ _ _ r => GetEnvironmentVariables r config) p;
  GetReadinessProbe p config := dispatch (fun _ _ _ r => GetReadinessProbe r config) p;
  ParserType := dispatch (fun _ _ _ r => ParserType (Any:=Any) r);
  ParserName := dispatch (fun _ _ _ r => ParserName (Any:=Any) r);
  PortsWithUrlPaths name config :=
    dispatch (fun _ _ inj r => let '(r', a) := PortsWithUrlPaths name config r in (inj r', a))
}.

Abbreviation registry := (gmap string (AnyParser Any)).

Definition Register (reg : registry) (name : string) (p : AnyParser Any) : registry :=
  <[name := p]> reg.

Definition built {T} (inj : GenericParser Any T -> AnyParser Any) (b : Builder Any T)
  : go (AnyParser Any) :=
  let! p := MustBuild b in Done (inj p).

Definition multi_built (b : MultiPortBuilder Any) : go (AnyParser Any) :=
  let! p := multi_MustBuild b in Done (PMulti p).

Definition NewScraperParser (name : string) : go (GenericParser Any Any) :=
  MustBuild (WithPort (WithName NewBuilder name) UnsetPort).

Definition scraper (name : string) : go (AnyParser Any) :=
  let! p := NewScraperParser name in Done (PAny p).

Abbreviation single := (NewSinglePortParserBuilder IntValue).

(** ** receivers/helpers.go *)

Definition otlp_receiver : MultiPortBuilder Any :=
  AddPortMapping (AddPortMapping (NewMultiPortReceiverBuilder "otlp")
    (WithUrlPaths (WithTargetPort (WithAppProtocol (NewProtocolBuilder "grpc" 4317)
       (Some GrpcProtocol)) 4317)
       ["/opentelemetry.proto.collector.logs.v1.LogsService";
        "/opentelemetry.proto.collector.traces.v1.TracesService";
        "/opentelemetry.proto.collector.metrics.v1.MetricsService"]))
    (WithTargetPort (WithAppProtocol (NewProtocolBuilder "http" 4318) (Some HttpProtocol)) 4318).

Definition skywalking_receiver : MultiPortBuilder Any :=
  AddPortMapping (AddPortMapping (NewMultiPortReceiverBuilder "skywalking")
    (WithUrlPaths (WithAppProtocol (WithTargetPort (NewProtocolBuilder GrpcProtocol 11800) 11800)
       (Some GrpcProtocol))
       ["/skywalking.v3/ManagementService"; "/skywalking.v3/TraceSegmentReportService";
        "/skywalking.v3/JVMMetricReportService"]))
    (WithAppProtocol (WithTargetPort (NewProtocolBuilder HttpProtocol 12800) 12800)
       (Some HttpProtocol)).

Definition jaeger_receiver : MultiPortBuilder Any :=
  AddPortMapping (AddPortMapping (AddPortMapping (AddPortMapping
    (NewMultiPortReceiverBuilder "jaeger")
    (WithUrlPaths (WithAppProtocol (WithProtocol (WithTargetPort
       (NewProtocolBuilder GrpcProtocol 14250) 14250) "TCP") (Some GrpcProtocol))
       ["/jaeger.api_v2/CollectorService"; "/jaeger.api_v3/QueryService"]))
    (WithAppProtocol (WithProtocol (WithTargetPort
       (NewProtocolBuilder "thrift_http" 14268) 14268) "TCP") (Some HttpProtocol)))
    (WithProtocol (WithTargetPort (NewProtocolBuilder "thrift_compact" 6831) 6831) "UDP"))
    (WithProtocol (WithTargetPort (NewProtocolBuilder "thrift_binary" 6832) 6832) "UDP").

Definition loki_receiver : MultiPortBuilder Any :=
  AddPortMapping (AddPortMapping (NewMultiPortReceiverBuilder "loki")
    (WithUrlPaths (WithAppProtocol (WithTargetPort (NewProtocolBuilder GrpcProtocol 9095) 9095)
       (Some GrpcProtocol)) ["/logproto.Pusher"]))
    (WithAppProtocol (WithTargetPort (NewProtocolBuilder HttpProtocol 3100) 3100)
       (Some HttpProtocol)).

Definition single_receivers : list (go (AnyParser Any)) :=
  [built PSingle (WithProtocol (WithTargetPort (single "awsxray" 2000) 2000) "UDP");
   built PSingle (WithTargetPort (single "carbon" 2003) 2003);
   built PSingle (WithTargetPort (single "collectd" 8081) 8081);
   built PSingle (WithTargetPort (single "fluentforward" 8006) 8006);
   built PSingle (WithTargetPort (single "influxdb" 8086) 8086);
   built PSingle (WithTargetPort (WithAppProtocol (single "opencensus" 55678) None) 55678);
   built PSingle (WithTargetPort (single "sapm" 7276) 7276);
   built PSingle (WithTargetPort (single "signalfx" 9943) 9943);
   built PSingle (WithTargetPort (single "splunk_hec" 8088) 8088);
   built PSingle (WithTargetPort (WithProtocol (single "statsd" 8125) "UDP") 8125);
   built PSingle (WithProtocol (single "tcplog" UnsetPort) "TCP");
   built PSingle (WithProtocol (single "udplog" UnsetPort) "UDP");
   built PSingle (WithTargetPort (single "wavefront" 2003) 2003);
   built PSingle (WithTargetPort (WithProtocol (WithAppProtocol (single "zipkin" 9411)
     (Some HttpProtocol)) "TCP") 3100)].

Definition k8s_receivers : list (go (AnyParser Any)) :=
  [built PKubeletStats (WithEnvVarGen (WithRbacGen (WithName NewBuilder "kubeletstats")
     generateKubeletStatsRbacRules) generateKubeletStatsEnvVars);
   built PK8sEvents (WithRbacGen (WithName NewBuilder "k8s_events") generatek8seventsRbacRules);
   built PK8sCluster (WithRbacGen (WithName NewBuilder "k8s_cluster") generatek8sclusterRbacRules);
   built PK8sObjects (WithRbacGen (WithName NewBuilder "k8sobjects") generatek8sobjectsRbacRules)].

Definition scraper_names : list string :=
  ["prometheus"; "sshcheck"; "cloudfoundry"; "vcenter"; "oracledb"; "snmp"; "googlecloudpubsub";
   "chrony"; "jmx"; "podman_stats"; "pulsar"; "docker_stats"; "aerospike"; "zookeeper";
   "prometheus_simple"; "saphana"; "riak"; "redis"; "rabbitmq"; "purefb"; "postgresql"; "nsxt";
   "nginx"; "mysql"; "memcached"; "httpcheck"; "haproxy"; "flinkmetrics"; "couchdb"; "filelog"].

(** Package initialisation evaluates the entries in order: a [MustBuild] that
    panics aborts the program. *)
Definition componentParsers : list (go (AnyParser Any)) :=
  [multi_built otlp_receiver; multi_built skywalking_receiver; multi_built jaeger_receiver;
   multi_built loki_receiver]
  ++ single_receivers ++ k8s_receivers ++ map scraper scraper_names.

Definition init_receivers : go registry :=
  go_fold (fun reg parser => let! p := parser in Done (Register reg (ParserType (Any:=Any) p) p))
    ∅ componentParsers.

Definition IsRegistered (reg : registry) (name : string) : bool :=
  bool_decide (is_Some (reg !! ComponentType name)).

Definition ReceiverFor (reg : registry) (name : string) : go (AnyParser Any) :=
  match reg !! ComponentType name with
  | Some parser => Done parser
  | None => built PSingle (NewSilentSinglePortParserBuilder IntValue (ComponentType name) UnsetPort)
  end.

(** ** extensions/helpers.go and exporters/helpers.go *)

Definition health_check_builder : Builder Any healthcheckV1Config :=
  WithPortParser (WithLivenessGen (WithReadinessGen (WithDefaultRecAddress (WithDefaultsApplier
    (WithPort (WithName NewBuilder "health_check") defaultHealthcheckV1Port)
    healthCheckV1AddressDefaulter) DefaultRecAddress) healthCheckV1Probe) healthCheckV1Probe)
    (fun name defaultPort config =>
       ParseSingleEndpointSilent IntValue name defaultPort (Some (hc_SingleEndpointConfig config))).

Definition init_extensions : go registry :=
  let! health_check := built PHealthCheck health_check_builder in
  let! jaeger_query := built PJaegerQuery (NewJaegerQueryExtensionParserBuilder IntValue) in
  Done (<["health_check" := health_check]> {[ "jaeger_query" := jaeger_query ]}).

Definition init_exporters : go registry :=
  let! prometheus := built PSingle (single "prometheus" 8888) in
  Done {[ "prometheus" := prometheus ]}.

(** The two [ParserFor] functions differ only in their registry. *)
Definition ParserFor (reg : registry) (name : string) : go (AnyParser Any) :=
  match reg !! ComponentType name with
  | Some parser => Done parser
  | None => built PAny (WithName NewBuilder name)
  end.
End Registry.

(** ** The promise of the entries *)

Section Stable.
Context {Any : Type} `{Configs Any} `{GoRange}.
Context (IntValue : IntOrString -> Z).

#[export] Instance AnyParser_equiv : Equiv (AnyParser Any) := fun p q =>
  match p, q with
  | PMulti m, PMulti m' => m ≡ m'
  | PMulti _, _ | _, PMulti _ => False
  | _, _ => p = q
  end.

#[export] Instance AnyParser_equivalence : Equivalence (≡@{AnyParser Any}).
Proof.
  split.
  - intros p. by destruct p.
  - intros [|m| | | | | | |] [|m'| | | | | | |]; try done. unfold equiv, AnyParser_equiv. by symmetry.
  - intros [|m| | | | | | |] [|m'| | | | | | |] [|m''| | | | | | |];
      unfold equiv, AnyParser_equiv; try done; try congruence.
    intros. by etransitivity.
Qed.

Lemma AnyParser_equiv_cases (p q : AnyParser Any) :
  p ≡ q -> p = q \/ exists m m', p = PMulti m /\ q = PMulti m' /\ m ≡ m'.
Proof. destruct p, q; unfold equiv, AnyParser_equiv; try done; eauto 10. Qed.

#[export] Instance AnyParser_stable : @StableParser Any (AnyParser Any) (AnyParser_Parser IntValue) _.
Proof.
  split.
  - apply _.
  - intros name config [g|m|g|g|g|g|g|g|g]; try done.
    pose proof (@ports_state _ _ _ _ (MultiPortReceiver_stable IntValue) name config m) as Hs.
    unfold Ports in *; simpl in *. by destruct (multi_Ports _ _ _ m).
  - intros name config p q [->|(m & m' & -> & -> & Hm)]%AnyParser_equiv_cases; [done |].
    pose proof (@ports_proper _ _ _ _ (MultiPortReceiver_stable IntValue) name config m m' Hm) as Hs.
    unfold Ports in *; simpl in *.
    by destruct (multi_Ports _ _ _ m), (multi_Ports _ _ _ m').
  - intros name config [g|m|g|g|g|g|g|g|g]; try done.
    pose proof (@paths_state _ _ _ _ (MultiPortReceiver_stable IntValue) name config m) as Hs.
    unfold PortsWithUrlPaths in *; simpl in *. by destruct (multi_PortsWithUrlPaths _ _ _ m).
  - intros name config p q [->|(m & m' & -> & -> & Hm)]%AnyParser_equiv_cases; [done |].
    pose proof (@paths_proper _ _ _ _ (MultiPortReceiver_stable IntValue) name config m m' Hm) as Hs.
    unfold PortsWithUrlPaths in *; simpl in *.
    by destruct (multi_PortsWithUrlPaths _ _ _ m), (multi_PortsWithUrlPaths _ _ _ m').
Qed.

(** ** What the receiver registry holds *)

Definition receiver_names : list string :=
  ["otlp"; "skywalking"; "jaeger"; "loki"; "awsxray"; "carbon"; "collectd"; "fluentforward";
   "influxdb"; "opencensus"; "sapm"; "signalfx"; "splunk_hec"; "statsd"; "tcplog"; "udplog";
   "wavefront"; "zipkin"; "kubeletstats"; "k8s_events"; "k8s_cluster"; "k8sobjects"]
  ++ scraper_names.

Definition entry_type (p : go (AnyParser Any)) : option string :=
  match p with
  | Done p => Some (@ParserType Any _ (AnyParser_Parser IntValue) p)
  | Panics _ => None
  end.

Lemma componentParsers_types :
  map entry_type (componentParsers IntValue) = map Some receiver_names.
Proof. reflexivity. Qed.

Definition well_typed (reg : gmap string (AnyParser Any)) : Prop :=
  forall name p, reg !! name = Some p -> @ParserType Any _ (AnyParser_Parser IntValue) p = name.

Lemma go_fold_register l names reg :
  map entry_type l = map Some names -> well_typed reg ->
  exists reg', go_fold (fun reg parser => let! p := parser in
      Done (Register reg (@ParserType Any _ (AnyParser_Parser IntValue) p) p)) reg l = Done reg'
    /\ well_typed reg' /\ dom reg' = dom reg ∪ list_to_set names.
Proof.
  revert names reg. induction l as [|[p|why] l IH]; intros [|n names] reg Hm Hw; try done.
  - exists reg. simpl. split; [done |]. split; [done | set_solver].
  - simpl in *. injection Hm as Hn Hm.
    destruct (IH names (Register reg n p) Hm) as (reg' & E & Hw' & Hd).
    { intros k q. unfold Register. rewrite lookup_insert_Some. intros [[<- <-]|[_ Hq]]; eauto. }
    exists reg'. unfold Register in *. rewrite Hn. split; [done |]. split; [done |].
    rewrite Hd, dom_insert_L. set_solver.
Qed.

Lemma init_receivers_ok :
  exists reg, init_receivers IntValue = Done reg /\ well_typed reg
    /\ dom reg = list_to_set receiver_names.
Proof.
  assert (H0' : well_typed ∅) by (intros name p Hp; by rewrite lookup_empty in Hp).
  destruct (go_fold_register (componentParsers IntValue) receiver_names ∅
    componentParsers_types H0') as (reg & E & Hw & Hd).
  exists reg. split; [exact E |]. split; [done |].
  rewrite Hd, dom_empty_L. apply (left_id_L ∅ (∪)).
Qed.

(** *** Component types *)

Lemma IndexByte_take l c i : IndexByte l c = Some i -> IndexByte (take i l) c = None.
Proof.
  revert i. induction l as [|x l IH]; intros i; simpl; [done |].
  destruct (Ascii.eqb x c) eqn:E; [by intros [= <-] |].
  destruct (IndexByte l c) as [j|]; simpl; [| done]. intros [= <-]. simpl.
  rewrite E. by rewrite (IH j).
Qed.

Lemma ComponentType_idempotent name : ComponentType (ComponentType name) = ComponentType name.
Proof.
  unfold ComponentType at 2 3. destruct (IndexByte (bytes name) "/") as [i|] eqn:E.
  - unfold ComponentType. by rewrite bytes_of_bytes, (IndexByte_take _ _ _ E).
  - unfold ComponentType. by rewrite E.
Qed.

Lemma ReceiverFor_ok reg name :
  well_typed reg -> "" ∉ dom reg ->
  match ReceiverFor IntValue reg name with
  | Done p => ComponentType name <> ""
              /\ @ParserType Any _ (AnyParser_Parser IntValue) p = ComponentType name
  | Panics _ => ComponentType name = ""
  end.
Proof.
  intros Hw Hd. unfold ReceiverFor. destruct (reg !! ComponentType name) as [p|] eqn:E.
  - split; [| by apply Hw]. intros Hn. apply Hd. rewrite <- Hn. by apply elem_of_dom_2 in E.
  - unfold built, MustBuild, Build. simpl. destruct (bool_decide _) eqn:B; simpl.
    + by apply bool_decide_eq_true in B.
    + apply bool_decide_eq_false in B. split; [done |].
      unfold ParserType; simpl. unfold generic_ParserType; simpl. apply ComponentType_idempotent.
Qed.
End Stable.

(** ** Health checks *)

Lemma LastIndexByte_split l c i :
  LastIndexByte l c = Some i -> l = take i l ++ c :: drop (S i) l.
Proof.
  revert i. induction l as [|x l IH]; intros i; simpl; [done |].
  destruct (LastIndexByte l c) as [j|].
  - intros [= <-]. simpl. f_equal. by apply IH.
  - destruct (Ascii.eqb x c) eqn:E; [| done]. intros [= <-].
    apply Ascii.eqb_eq in E. subst x. done.
Qed.

(** An endpoint without a host is a colon and a port, maybe after an empty
    pair of brackets. *)
Lemma SplitHostPort_no_host s p :
  SplitHostPort s = Some ("", p) ->
  exists pre, bytes s = pre ++ ":"%char :: bytes p
    /\ forallb (fun c => negb (Ascii.eqb c ":")) pre = true.
Proof.
  unfold SplitHostPort. destruct (LastIndexByte (bytes s) ":") as [i|] eqn:L; [| done].
  apply LastIndexByte_split in L. revert L. generalize (bytes s) as l. intros l L.
  assert (Hb : forall host, of_bytes host = "" -> host = [])
    by (intros host Hh; by rewrite <- (bytes_of_bytes host), Hh).
  assert (Hplain : (match IndexByte (take i l) ":" with
     | Some _ => None
     | None => match IndexByte (drop 0 l) "[", IndexByte (drop 0 l) "]" with
               | None, None => Some (of_bytes (take i l), of_bytes (drop (S i) l))
               | _, _ => None
               end
     end) = Some ("", p) ->
     exists pre, l = pre ++ ":"%char :: bytes p
       /\ forallb (fun c => negb (Ascii.eqb c ":")) pre = true).
  { destruct (IndexByte _ ":"); [done |].
    destruct (IndexByte _ "["); [done |]. destruct (IndexByte _ "]"); [done |].
    intros [= Hh <-]. exists []. rewrite bytes_of_bytes. split; [| done].
    rewrite (Hb _ Hh) in L. exact L. }
  destruct l as [|c l']; [by destruct i |].
  destruct (Ascii.eqb c "[") eqn:Ec.
  - apply Ascii.eqb_eq in Ec. subst c. clear Hplain.
    destruct l' as [|d l'']; [intros Hs; by vm_compute in Hs |]. simpl.
    destruct (Ascii.eqb d "]") eqn:Ed; simpl.
    + destruct i as [|[|[|i]]]; try done.
      apply Ascii.eqb_eq in Ed. subst d. simpl in L.
      repeat case_match; try done. intros [= <-].
      exists ["["%char; "]"%char]. by rewrite bytes_of_bytes.
    + destruct (IndexByte l'' "]") as [e|]; [| done]. simpl.
      repeat case_match; try done.
  - assert (Hc : c <> "["%char) by (by apply Ascii.eqb_neq).
    intros Hs. apply Hplain. revert Hs. clear -Hc.
    destruct c as [[] [] [] [] [] [] [] []]; try exact id. exfalso; by apply Hc.
Qed.

Lemma PortFromEndpoint_suffix s t pre pre' r :
  bytes s = pre ++ r -> bytes t = pre' ++ r ->
  forallb (fun c => negb (Ascii.eqb c ":")) pre = true ->
  forallb (fun c => negb (Ascii.eqb c ":")) pre' = true ->
  PortFromEndpoint s = PortFromEndpoint t.
Proof. intros Hs Ht Hp Hp'. unfold PortFromEndpoint. by rewrite Hs, Ht, !find_colon_skip. Qed.

Lemma healthcheck_endpoint_port addr e :
  no_colon addr = true -> e <> "" ->
  healthcheck_endpoint addr defaultHealthcheckV1Port e <> ""
  /\ PortFromEndpoint (healthcheck_endpoint addr defaultHealthcheckV1Port e) = PortFromEndpoint e.
Proof.
  intros Ha He. unfold healthcheck_endpoint. rewrite bool_decide_eq_false_2 by done.
  destruct (SplitHostPort e) as [[h p]|] eqn:S; [| done].
  destruct (bool_decide (h = "") && _) eqn:B; [| done]. split_bools.
  apply bool_decide_eq_true in H. subst h.
  destruct (SplitHostPort_no_host e p S) as (pre & E & Hpre).
  rewrite Sprintf_addr_last. split; [by destruct addr |].
  apply (PortFromEndpoint_suffix _ _ (bytes addr) pre (":"%char :: bytes p)); try done.
  by rewrite bytes_app.
Qed.

(** ** Properties *)

(** Initialisation of the receiver package never panics and registers each
    parser under its own type; [ReceiverFor] then finds or makes a parser of
    the component's type for every name, and panics exactly for names whose
    type is empty. *)
Theorem ReceiverFor_total {Any : Type} `{Configs Any} `{GoRange} (IntValue : IntOrString -> Z)
    (name : string) :
  exists reg, init_receivers IntValue = Done reg
    /\ dom reg = list_to_set receiver_names
    /\ match ReceiverFor IntValue reg name with
       | Done p => ComponentType name <> ""
                   /\ @ParserType Any _ (AnyParser_Parser IntValue) p = ComponentType name
       | Panics _ => ComponentType name = ""
       end.
Proof.
  destruct (init_receivers_ok IntValue) as (reg & E & Hw & Hd).
  exists reg. split; [done |]. split; [done |]. apply ReceiverFor_ok; [done |].
  rewrite Hd, elem_of_list_to_set. by apply (bool_decide_eq_false_1 _).
Qed.

(** The kubeletstats receiver gets the permission on nodes/proxy exactly when
    it asks for extra metadata labels or enables a utilisation metric, once,
    after the permission on nodes/stats it always has. *)
Lemma kubeletstats_rbac (config : kubeletStatsConfig) :
  generateKubeletStatsRbacRules config =
  (nodesStatsPr :: (if negb (bool_decide (ksc_ExtraMetadataLabels config = []))
                       || existsb (fun m => m) (utilization_metrics (ksc_Metrics config))
                    then [nodesProxyPr] else []), None).
Proof.
  assert (G : forall ms prs, add_proxy_rule prs ms
    = prs ++ (if existsb (fun m => m) ms then [nodesProxyPr] else [])).
  { induction ms as [|[] ms IH]; intros prs; simpl; [by rewrite app_nil_r | done | apply IH]. }
  unfold generateKubeletStatsRbacRules. rewrite G.
  by destruct (ksc_ExtraMetadataLabels config).
Qed.

(** The probe of the health-check extension is the same before and after its
    configuration is defaulted, when the port comes from the endpoint: the
    run-time defaults of the probe and the address defaulter agree. *)
Theorem healthcheck_probe_default (addr : string) (config : healthcheckV1Config) :
  no_colon addr = true -> sec_ListenAddress (hc_SingleEndpointConfig config) = "" ->
  healthCheckV1Probe (defaulted_healthcheck addr defaultHealthcheckV1Port config)
  = healthCheckV1Probe config.
Proof.
  intros Ha Hl. unfold healthCheckV1Probe, defaulted_healthcheck. simpl. do 4 f_equal.
  - destruct (decide (hc_Path config = "")) as [E|E].
    + by rewrite (bool_decide_eq_true_2 _ E).
    + by rewrite !(bool_decide_eq_false_2 _ E).
  - unfold GetPortNumOrDefault, GetPortNum. simpl. rewrite Hl.
    destruct (decide (sec_Endpoint (hc_SingleEndpointConfig config) = "")) as [E|E].
    + rewrite E. simpl. rewrite bool_decide_eq_false_2.
      * simpl. unfold healthcheck_endpoint. simpl. rewrite Sprintf_addr_port.
        by rewrite PortFromEndpoint_host_port.
      * unfold healthcheck_endpoint. simpl. rewrite Sprintf_addr_port. by destruct addr.
    + destruct (healthcheck_endpoint_port addr _ Ha E) as [Hne Hp].
      rewrite (bool_decide_eq_false_2 _ Hne), (bool_decide_eq_false_2 _ E). simpl. by rewrite Hp.
Qed.

Lemma healthcheck_probe_default_witness :
  healthCheckV1Probe (defaulted_healthcheck "0.0.0.0" defaultHealthcheckV1Port
    {| hc_SingleEndpointConfig := {| sec_Endpoint := ":8081"; sec_ListenAddress := "" |}; hc_Path := "" |})
  = healthCheckV1Probe
    {| hc_SingleEndpointConfig := {| sec_Endpoint := ":8081"; sec_ListenAddress := "" |}; hc_Path := "" |}.
Proof. apply (healthcheck_probe_default "0.0.0.0"); reflexivity. Defined.
