(* ===== verification/K8sObjects.v ===== *)
(** * k8s.io data of the controllers

    The Kubernetes objects the adapters create, with the fields they read or
    write.  A pointer, map or slice that the code tests for [nil] is an
    option. *)

From S2P Require Import Prelude GoLib ApiTypes Errors Components.

Record ConfigMap := { cm_ObjectMeta : ObjectMeta; cm_Data : option (gmap string string) }.

(** [controllerutil.OperationResult]. *)
Inductive CreateOrUpdateResult :=
| OperationResultNone
| OperationResultCreated
| OperationResultUpdated
| OperationResultUpdatedStatus
| OperationResultUpdatedStatusOnly.

#[export] Instance CreateOrUpdateResult_eq_dec : EqDecision CreateOrUpdateResult.
Proof. solve_decision. Defined.

(** ** Containers *)

Record ContainerPort := { ctp_Port : Z; ctp_Name : string; ctp_Protocol : string }.

Record VolumeMount := { vm_Name : string; vm_MountPath : string; vm_SubPath : string }.

Inductive EnvFromSource :=
| EnvFromConfigMap (name : string)
| EnvFromSecret (name : string).

(** An environment variable taken from a key of a secret. *)
Record SecretEnv := { se_Name : string; se_SecretName : string; se_Key : string }.

Record SecurityContext := {
  sc_SeccompProfile : string;
  sc_AllowPrivilegeEscalation : bool;
  sc_Drop : list string;
  sc_RunAsNonRoot : bool
}.

Record ContainerProbe := {
  cp_Path : string;
  cp_Port : IntOrString;
  cp_InitialDelaySeconds : Z;
  cp_PeriodSeconds : Z
}.

Record Container_ := {
  ct_Name : string;
  ct_Image : string;
  ct_Command : list string;
  ct_Ports : list ContainerPort;
  ct_VolumeMounts : list VolumeMount;
  ct_Env : list SecretEnv;
  ct_EnvFrom : list EnvFromSource;
  ct_SecurityContext : option SecurityContext;
  ct_LivenessProbe : option ContainerProbe;
  ct_ReadinessProbe : option ContainerProbe;
  ct_ImagePullPolicy : string;
  ct_Resources : option ResourceRequirements
}.

(** A volume with the contents of a config map. *)
Record Volume := { vol_Name : string; vol_ConfigMap : string }.

(** ** Deployments and services *)

Record Deployment_ := {
  dep_ObjectMeta : ObjectMeta;
  dep_Replicas : option Z;
  dep_Selector : option (option (gmap string string));
  dep_TemplateLabels : option (gmap string string);
  dep_TemplateAnnotations : option (gmap string string);
  dep_ServiceAccountName : string;
  dep_Containers : list Container_;
  dep_Volumes : list Volume;
  dep_Tolerations : list Toleration
}.

Record Service_ := {
  svc_ObjectMeta : ObjectMeta;
  svc_Selector : option (gmap string string);
  svc_Ports : list ServicePort;
  svc_Type : string;
  svc_InternalTrafficPolicy : option string
}.

Definition new_deployment (m : ObjectMeta) : Deployment_ :=
  {| dep_ObjectMeta := m; dep_Replicas := None; dep_Selector := None; dep_TemplateLabels := None;
     dep_TemplateAnnotations := None; dep_ServiceAccountName := ""; dep_Containers := [];
     dep_Volumes := []; dep_Tolerations := [] |}.

Definition new_service (m : ObjectMeta) : Service_ :=
  {| svc_ObjectMeta := m; svc_Selector := None; svc_Ports := []; svc_Type := "";
     svc_InternalTrafficPolicy := None |}.

(** ** Ingresses *)

Record IngressServiceBackend := { isb_Name : string; isb_PortName : string }.

Record HTTPIngressPath := {
  hip_Path : string;
  hip_PathType : string;
  hip_Backend : IngressServiceBackend
}.

Record IngressRule := { ir_Host : string; ir_Paths : list HTTPIngressPath }.

Record IngressTLS := { tls_Hosts : list string; tls_SecretName : string }.

Record Ingress_ := {
  ig_ObjectMeta : ObjectMeta;
  ig_IngressClassName : option string;
  ig_DefaultBackend : option IngressServiceBackend;
  ig_TLS : list IngressTLS;
  ig_Rules : list IngressRule
}.

(** ** Access control *)

Record ServiceAccount := { sacc_ObjectMeta : ObjectMeta }.

Record ClusterRole := { cr_ObjectMeta : ObjectMeta; cr_Rules : list PolicyRule }.

Record RoleRef := { rref_APIGroup : string; rref_Kind : string; rref_Name : string }.
Record Subject := { sub_Kind : string; sub_Name : string; sub_Namespace : string }.

Record ClusterRoleBinding := {
  crb_ObjectMeta : ObjectMeta;
  crb_RoleRef : option RoleRef;
  crb_Subjects : list Subject
}.

(** ** Marks of the operator *)

Definition LabelManagedByMdaiKey : string := "app.kubernetes.io/managed-by".
Definition LabelManagedByMdaiValue : string := "mdai-operator".

(** [controllerutil.SetControllerReference], on the metadata of the owner and
    of the object. *)
Class Owning := SetControllerReference : ObjectMeta -> ObjectMeta -> error + ObjectMeta.

(** Setting the reference again changes nothing; it does not look at labels, and
    writes nothing but the references. *)
Class OwningLaws `{Owning} := {
  owner_twice owner m m' : SetControllerReference owner m = inr m' -> SetControllerReference owner m' = inr m';
  owner_labels owner m m' l :
    SetControllerReference owner m = inr m' ->
    SetControllerReference owner (with_labels m l) = inr (with_labels m' l);
  owner_only owner m m' :
    SetControllerReference owner m = inr m' -> m' = with_owners m (om_OwnerReferences m');
  owner_first owner m m' :
    om_OwnerReferences m = [] -> SetControllerReference owner m = inr m' ->
    exists ref, om_OwnerReferences m' = [ref] /\ or_Name ref = om_Name owner /\ or_UID ref = om_UID owner
}.
