(* ===== verification/Manifests.v ===== *)
(** * internal/manifests: labels, ports and services of a collector

    manifestutils/labels.go, collector/service.go, collector/service_aws.go
    and the port part of collector/ingress.go.  The collector is the
    OpenTelemetry operator's: its record holds the fields that are read, and
    its configuration, with what that operator computes from it, is a
    parameter ([OtelConfig]). *)

From S2P Require Import Prelude GoLib ApiTypes Errors Naming Components K8sObjects.

(** ** The collector *)

Record PortsSpec := { ps_ServicePort : ServicePort; ps_HostPort : Z }.

Record OtelIngress := {
  oi_Type : string;
  oi_RuleType : string;
  oi_TLS : list IngressTLS;
  oi_IngressClassName : option string
}.

Record OtelCollector (Cfg : Type) := {
  oc_ObjectMeta : ObjectMeta;
  oc_Image : string;
  oc_Mode : string;
  oc_Ingress : OtelIngress;
  oc_Ports : list PortsSpec;
  oc_Config : Cfg
}.
Arguments oc_ObjectMeta {Cfg} o.
Arguments oc_Image {Cfg} o.
Arguments oc_Mode {Cfg} o.
Arguments oc_Ingress {Cfg} o.
Arguments oc_Ports {Cfg} o.
Arguments oc_Config {Cfg} o.

(** [v1beta1.ComponentKind], an integer. *)
Inductive ComponentKind :=
| KindReceiver
| KindExporter
| KindProcessor
| KindExtension
| KindOther (n : Z).

(** What the OpenTelemetry operator computes from a configuration; the two
    component sections are read by key, a missing one is the zero value. *)
Class OtelConfig (Cfg Any : Type) := {
  GetEnabledComponents : Cfg -> ComponentKind -> gmap string unit;
  Receivers : Cfg -> string -> Any;
  Exporters : Cfg -> string -> Any;
  GetReceiverPorts : Cfg -> with_error (list ServicePort);
  GetAllPorts : Cfg -> with_error (list ServicePort)
}.

Definition IngressRuleTypePath : string := "path".
Definition IngressRuleTypeSubdomain : string := "subdomain".
Definition ModeDaemonSet : string := "daemonset".

(** ** manifestutils/labels.go *)

(** [regexp.Compile]: a pattern that does not compile leaves a [nil] regexp,
    whose methods panic. *)
Section Labels.
Context (Compile : string -> option (string -> bool)) `{GoRange}.

Fixpoint IsFilteredSet (sourceSet : string) (filterSet : list string) : go bool :=
  match filterSet with
  | [] => Done false
  | basePattern :: filterSet =>
      match Compile basePattern with
      | None => Panics "nil pointer dereference"
      | Some MatchString =>
          if MatchString sourceSet then Done true else IsFilteredSet sourceSet filterSet
      end
  end.

(** The loop over the parts of an image: the last digest algorithm wins. *)
Definition version_label (version : list string) : string :=
  fold_left (fun versionLabel v =>
    if HasSuffix v "@sha256" then TrimSuffix v "@sha256" else versionLabel) version "".

Definition image_version (image : string) : string :=
  let version := Split image ":" in
  match version with
  | [_; _; _] => version_label version
  | [_; tag] => Truncate "%s" 63 [VString tag]
  | _ => "latest"
  end.

Definition Labels (instance : ObjectMeta) (name image : string) (filterLabels : list string)
  : go (gmap string string) :=
  let base := {["app.kubernetes.io/managed-by" := "mdai-operator"]} in
  let! base := go_fold (fun base '(k, v) =>
      let! filtered := IsFilteredSet k filterLabels in
      Done (if (filtered : bool) then base else <[k := v]> base))
    base (range_map (gomap (om_Labels instance))) in
  let base := <["app.kubernetes.io/version" := image_version image]> base in
  Done (match base !! "app.kubernetes.io/name" with
        | Some _ => base
        | None => <["app.kubernetes.io/name" := name]> base
        end).
End Labels.

Definition SelectorLabels (instance : ObjectMeta) (component : string) : gmap string string :=
  {["app.kubernetes.io/managed-by" := "opentelemetry-operator";
    "app.kubernetes.io/instance" :=
      Truncate "%s.%s" 63 [VString (om_Namespace instance); VString (om_Name instance)];
    "app.kubernetes.io/component" := component]}.

(** ** collector/service.go *)

Definition ProtocolTCP : string := "TCP".

Record PortNumberKey := { pnk_Port : Z; pnk_Protocol : string }.

#[export] Instance PortNumberKey_eq_dec : EqDecision PortNumberKey.
Proof. solve_decision. Defined.

#[export] Instance PortNumberKey_countable : Countable PortNumberKey.
Proof.
  apply (inj_countable' (fun k => (pnk_Port k, pnk_Protocol k))
           (fun p => {| pnk_Port := p.1; pnk_Protocol := p.2 |})).
  by intros [].
Defined.

Definition newPortNumberKeyByPort (port : Z) : PortNumberKey :=
  {| pnk_Port := port; pnk_Protocol := ProtocolTCP |}.

Definition newPortNumberKey (port : Z) (protocol : string) : PortNumberKey :=
  let protocol := if bool_decide (protocol = "") then ProtocolTCP else protocol in
  {| pnk_Port := port; pnk_Protocol := protocol |}.

Definition port_key (p : ServicePort) : PortNumberKey := newPortNumberKey (sp_Port p) (sp_Protocol p).

Definition fallback_name (port : Z) : string := Sprintf "port-%d" [VInt port].

(** The two maps hold only [true]: they are sets. *)
Definition filterPort (candidate : ServicePort) (portNumbers : gset PortNumberKey)
    (portNames : gset string) : option ServicePort :=
  if bool_decide (port_key candidate ∈ portNumbers) then None
  else if bool_decide (sp_Name candidate ∈ portNames) then
    let fallbackName := fallback_name (sp_Port candidate) in
    if bool_decide (fallbackName ∈ portNames) then None
    else Some (with_port_name candidate fallbackName)
  else Some candidate.

Definition extractPortNumbersAndNames (ports : list PortsSpec) : gset PortNumberKey * gset string :=
  fold_left (fun '(numbers, names) port =>
    ({[port_key (ps_ServicePort port)]} ∪ numbers, {[sp_Name (ps_ServicePort port)]} ∪ names))
    ports (∅, ∅).

(** ** collector/ingress.go *)

Definition toServicePorts (spec : list PortsSpec) : list ServicePort := map ps_ServicePort spec.

(** The ports of the custom resource, then the inferred ones that do not clash
    with them. *)
Definition with_spec_ports (spec : list PortsSpec) (ports : list ServicePort) : list ServicePort :=
  if 0 <? length spec then
    let '(portNumbers, portNames) := extractPortNumbersAndNames spec in
    let resultingInferredPorts :=
      omap (fun inferred => filterPort inferred portNumbers portNames) ports in
    toServicePorts spec ++ resultingInferredPorts
  else ports.

(** The loop that deletes, from the last index down, what is not kept:
    [ports = append(ports[:i], ports[i+1:]...)]. *)
Fixpoint delete_down {A} (keep : A -> bool) (i : nat) (ports : list A) : go (list A) :=
  match i with
  | 0 => Done ports
  | S i =>
      let! p := at_index ports i in
      delete_down keep i (if keep p then ports else take i ports ++ drop (S i) ports)
  end.

Definition is_grpc (p : ServicePort) : bool :=
  match sp_AppProtocol p with
  | None => false
  | Some appProtocol => bool_decide (appProtocol = "grpc")
  end.

Section Services.
Context {Cfg Any : Type} `{OtelConfig Cfg Any}.
Context (lower : Z -> Z) (Compile : string -> option (string -> bool)) `{GoRange}.

Definition servicePortsFromCfg (otelcol : OtelCollector Cfg) : with_error (list ServicePort) :=
  let '(ports, err) := GetReceiverPorts (oc_Config otelcol) in
  match err with
  | Some err => ([], Some err)
  | None => (with_spec_ports (oc_Ports otelcol) ports, None)
  end.

(** ** collector/service_aws.go *)

Definition ComponentOpenTelemetryCollector : string := "opentelemetry-collector".

(** [maps.Copy] of the collector's annotations and then of the section's. *)
Definition merged_annotations (otelcol section : option (gmap string string)) : gmap string string :=
  gomap section ∪ gomap otelcol.

(** [params.OtelMdaiIngressComb]. *)
Record OtelMdaiIngressComb := { comb_Otelcol : OtelCollector Cfg; comb_MdaiIngress : MdaiIngress }.

Definition NewOtelIngressConfig (otelcolConfig : OtelCollector Cfg) (ingressConfig : MdaiIngress)
  : OtelMdaiIngressComb :=
  {| comb_Otelcol := otelcolConfig; comb_MdaiIngress := ingressConfig |}.

(** Only for AWS, and when the collector has no ingress of its own. *)
Definition for_aws (params : OtelMdaiIngressComb) : bool :=
  bool_decide (oi_Type (oc_Ingress (comb_Otelcol params)) = "")
  && bool_decide (ing_CloudType (mi_Spec (comb_MdaiIngress params)) = CloudProviderAws).

Definition traffic_policy (otelcol : OtelCollector Cfg) : string :=
  if bool_decide (oc_Mode otelcol = ModeDaemonSet) then "Local" else "Cluster".

Definition service_type (section : option IngressService) : string :=
  match section with
  | Some svc => if bool_decide (is_Type svc = "") then "ClusterIP" else is_Type svc
  | None => "ClusterIP"
  end.

(** A service of the collector; [None] is the [nil] pointer.  [section] is
    dereferenced for its annotations before it is tested for [nil]. *)
Definition aws_service (params : OtelMdaiIngressComb) (name : string) (section : option IngressService)
    (ports : with_error (list ServicePort)) (keep : ServicePort -> bool)
  : go (error + option Service_) :=
  let otelcol := comb_Otelcol params in
  let! labels := Labels Compile (oc_ObjectMeta otelcol) name (oc_Image otelcol) [] in
  match section with
  | None => Panics "nil pointer dereference"
  | Some svc =>
      let annotations := merged_annotations (om_Annotations (oc_ObjectMeta otelcol)) (is_Annotations svc) in
      let '(ports, err) := ports in
      match err with
      | Some err => Done (inl err)
      | None =>
          let! ports := delete_down keep (length ports) ports in
          if length ports =? 0 then Done (inr None)
          else
            Done (inr (Some
              {| svc_ObjectMeta :=
                   with_annotations
                     (with_labels (named name (om_Namespace (oc_ObjectMeta otelcol))) (Some labels))
                     (Some annotations);
                 svc_Selector := Some (SelectorLabels (oc_ObjectMeta otelcol) ComponentOpenTelemetryCollector);
                 svc_Ports := ports;
                 svc_Type := service_type section;
                 svc_InternalTrafficPolicy := Some (traffic_policy otelcol) |}))
      end
  end.

Definition GrpcService (params : OtelMdaiIngressComb) : go (error + option Service_) :=
  if negb (for_aws params) then Done (inr None)
  else
    let otelcol := comb_Otelcol params in
    aws_service params (Naming.GrpcService lower (om_Name (oc_ObjectMeta otelcol)))
      (ing_GrpcService (mi_Spec (comb_MdaiIngress params))) (servicePortsFromCfg otelcol) is_grpc.

Definition NonGrpcService (params : OtelMdaiIngressComb) : go (error + option Service_) :=
  if negb (for_aws params) then Done (inr None)
  else
    let otelcol := comb_Otelcol params in
    let '(ports, err) := GetAllPorts (oc_Config otelcol) in
    let ports := match err with
                 | Some err => ([], Some err)
                 | None => (with_spec_ports (oc_Ports otelcol) ports, None)
                 end in
    aws_service params (Naming.NonGrpcService lower (om_Name (oc_ObjectMeta otelcol)))
      (ing_NonGrpcService (mi_Spec (comb_MdaiIngress params))) ports (fun p => negb (is_grpc p)).
End Services.
Arguments OtelMdaiIngressComb : clear implicits.

(** ** Lemmas *)

Lemma delete_down_take {A} (keep : A -> bool) i (l : list A) :
  i <= length l -> delete_down keep i l = Done (List.filter keep (take i l) ++ drop i l).
Proof.
  revert l. induction i as [|i IH]; intros l Hi; simpl; [by rewrite drop_0 |].
  destruct (lookup_lt_is_Some_2 l i ltac:(lia)) as [x Hx].
  rewrite at_index_lookup, Hx. simpl.
  rewrite (take_S_r _ _ _ Hx), List.filter_app. simpl.
  destruct (keep x) eqn:Ek.
  - rewrite IH by lia. by rewrite (drop_S _ _ _ Hx), <- app_assoc.
  - rewrite IH by (rewrite length_app, length_take, length_drop; lia).
    rewrite take_app_le by (rewrite length_take; lia). rewrite take_take, Nat.min_id.
    rewrite app_nil_r, drop_app_ge by (rewrite length_take; lia).
    rewrite length_take, Nat.min_l by lia. by rewrite Nat.sub_diag, drop_0.
Qed.

(** The deleting loop is a filter. *)
Lemma delete_down_filter {A} (keep : A -> bool) (l : list A) :
  delete_down keep (length l) l = Done (List.filter keep l).
Proof. by rewrite delete_down_take, firstn_all, drop_all, app_nil_r by lia. Qed.

Lemma extract_elem ports :
  extractPortNumbersAndNames ports
  = (list_to_set (map port_key (toServicePorts ports)), list_to_set (map sp_Name (toServicePorts ports))).
Proof.
  unfold extractPortNumbersAndNames.
  assert (G : forall (numbers : gset PortNumberKey) (names : gset string), fold_left (fun '(numbers, names) port =>
      ({[port_key (ps_ServicePort port)]} ∪ numbers, {[sp_Name (ps_ServicePort port)]} ∪ names))
      ports (numbers, names)
    = (list_to_set (map port_key (toServicePorts ports)) ∪ numbers,
       list_to_set (map sp_Name (toServicePorts ports)) ∪ names)).
  { induction ports as [|p ports IH]; intros numbers names; simpl.
    - by rewrite !(left_id_L ∅ (∪)).
    - rewrite IH. f_equal; set_solver. }
  rewrite G. f_equal; apply (right_id_L ∅ (∪)).
Qed.

Lemma filterPort_Some p numbers names q :
  filterPort p numbers names = Some q ->
  port_key q = port_key p /\ port_key p ∉ numbers /\ sp_Name q ∉ names.
Proof.
  unfold filterPort. case_bool_decide as Hk; [done |]. case_bool_decide as Hn.
  - case_bool_decide as Hf; [done |]. by intros [= <-].
  - by intros [= <-].
Qed.

Lemma filterPort_None p numbers names :
  filterPort p numbers names = None ->
  port_key p ∈ numbers \/ (sp_Name p ∈ names /\ fallback_name (sp_Port p) ∈ names).
Proof.
  unfold filterPort. case_bool_decide as Hk; [by left |]. case_bool_decide as Hn; [| done].
  case_bool_decide as Hf; [by right | done].
Qed.

Lemma omap_filterPort_keys numbers names ports :
  NoDup (map port_key ports) ->
  NoDup (map port_key (omap (fun p => filterPort p numbers names) ports)).
Proof.
  induction ports as [|p ports IH]; simpl; [done |]. intros [Hp Hd]%NoDup_cons.
  destruct (filterPort p numbers names) as [q|] eqn:E; simpl; [| by apply IH].
  apply filterPort_Some in E as (Eq & _ & _). apply NoDup_cons. split; [| by apply IH].
  rewrite Eq. intros (r & Er & Hr)%list_elem_of_fmap. apply Hp.
  apply list_elem_of_omap in Hr as (r' & Hr' & (E' & _ & _)%filterPort_Some).
  rewrite Er, E'. by apply list_elem_of_fmap_2.
Qed.

(** Nothing is filtered from the labels of a service. *)
Lemma Labels_done Compile `{GoRange} instance name image :
  exists labels, Labels Compile instance name image [] = Done labels.
Proof.
  unfold Labels.
  assert (G : forall l (base : gmap string string), exists base', go_fold (fun base '(k, v) =>
      let! filtered := IsFilteredSet Compile k [] in
      Done (if (filtered : bool) then base else <[k := v]> base)) base l = Done base').
  { induction l as [|[k v] l IH]; intros base; simpl; [by eexists | apply IH]. }
  destruct (G (range_map (gomap (om_Labels instance)))
    {["app.kubernetes.io/managed-by" := "mdai-operator"]}) as [base' ->].
  by eexists.
Qed.

Lemma filter_negb_permutation {A} (f : A -> bool) l :
  List.filter f l ++ List.filter (fun x => negb (f x)) l ≡ₚ l.
Proof.
  induction l as [|x l IH]; simpl; [done |]. destruct (f x); simpl; [by rewrite IH |].
  by rewrite <- Permutation_middle, IH.
Qed.

(** The ports that a service, if there is one, exposes. *)
Definition exposed (svc : option Service_) : list ServicePort :=
  match svc with Some svc => svc_Ports svc | None => [] end.

Section ServiceLemmas.
Context {Cfg Any : Type} `{OtelConfig Cfg Any}.
Context (lower : Z -> Z) (Compile : string -> option (string -> bool)) `{GoRange}.

Lemma aws_service_done (params : OtelMdaiIngressComb Cfg) name svc ports keep :
  exists r, aws_service Compile params name (Some svc) (ports, None) keep = Done (inr r)
    /\ exposed r = List.filter keep ports
    /\ forall s, r = Some s -> om_Name (svc_ObjectMeta s) = name
         /\ om_Namespace (svc_ObjectMeta s) = om_Namespace (oc_ObjectMeta (comb_Otelcol params)).
Proof.
  unfold aws_service.
  destruct (Labels_done Compile (oc_ObjectMeta (comb_Otelcol params)) name
              (oc_Image (comb_Otelcol params))) as [labels ->].
  cbn [go_bind]. rewrite delete_down_filter. cbn [go_bind].
  destruct (List.filter keep ports) as [|p ps]; simpl; eexists; (split; [done |]); (split; [done |]).
  - done.
  - by intros s [= <-].
Qed.
Lemma aws_service_nonempty (params : OtelMdaiIngressComb Cfg) name section ports keep s :
  aws_service Compile params name section ports keep = Done (inr (Some s)) -> svc_Ports s <> [].
Proof.
  unfold aws_service. destruct (Labels _ _ _ _ _) as [labels|]; [| done]. cbn [go_bind].
  destruct section as [svc|]; [| done]. destruct ports as [ports [err|]]; [done |].
  destruct (delete_down _ _ _) as [ps|]; [| done]. cbn [go_bind].
  destruct ps as [|p ps]; simpl; [done |]. by intros [= <-].
Qed.
End ServiceLemmas.

(** ** Properties *)

(** The ports of a service start with those of the custom resource.  The
    inferred ports after them have other numbers and names; an inferred port
    is missing only if its number is taken or both its name and the fallback
    name are.  When neither list repeats a number and protocol, neither does
    the service, which the API server would refuse. *)
Theorem service_ports_unique spec inferred :
  exists rest, with_spec_ports spec inferred = toServicePorts spec ++ rest
    /\ (forall q, spec <> [] -> q ∈ rest ->
          port_key q ∉ map port_key (toServicePorts spec) /\ sp_Name q ∉ map sp_Name (toServicePorts spec))
    /\ (forall p, p ∈ inferred ->
          (exists q, q ∈ rest /\ port_key q = port_key p)
          \/ port_key p ∈ map port_key (toServicePorts spec)
          \/ (sp_Name p ∈ map sp_Name (toServicePorts spec)
              /\ fallback_name (sp_Port p) ∈ map sp_Name (toServicePorts spec)))
    /\ (NoDup (map port_key (toServicePorts spec)) -> NoDup (map port_key inferred) ->
          NoDup (map port_key (with_spec_ports spec inferred))).
Proof.
  unfold with_spec_ports. rewrite extract_elem. destruct spec as [|s spec'] eqn:Es.
  { exists inferred. simpl. split_and!; [done | done | | done]. intros p Hp. left. by exists p. }
  rewrite <- Es. replace (0 <? length spec) with true by by rewrite Es.
  eexists. split; [done |]. split_and!.
  - intros q _ (p & Hp & (Ek & Hk & Hn)%filterPort_Some)%list_elem_of_omap.
    rewrite elem_of_list_to_set in Hk. rewrite elem_of_list_to_set in Hn. by rewrite Ek.
  - intros p Hp. destruct (filterPort p (list_to_set (map port_key (toServicePorts spec)))
      (list_to_set (map sp_Name (toServicePorts spec)))) as [q|] eqn:E.
    + left. exists q. split; [apply list_elem_of_omap; eauto | by apply filterPort_Some in E as [-> _]].
    + right. apply filterPort_None in E. by rewrite !elem_of_list_to_set in E.
  - intros Hs Hi. rewrite map_app. apply NoDup_app. split; [done |]. split.
    + intros k Hk (q & -> & Hq)%list_elem_of_fmap.
      apply list_elem_of_omap in Hq as (p & _ & (Ek & Hnk & _)%filterPort_Some).
      rewrite elem_of_list_to_set in Hnk. by rewrite Ek in Hk.
    + by apply omap_filterPort_keys.
Qed.

