(* ===== verification/Mutate.v ===== *)
(** * internal/manifests: the update of an existing object

    mutate.go and builder.go.  A [client.Object] is one of the kinds that the
    code distinguishes.  [mergo.Merge] with override is a parameter with the
    laws the code relies on. *)

From S2P Require Import Prelude GoLib ApiTypes Errors Components K8sObjects.

Inductive Object :=
| OService (s : Service_)
| OIngress (i : Ingress_)
| OConfigMap (c : ConfigMap)
| OClusterRole (r : ClusterRole)
| OClusterRoleBinding (b : ClusterRoleBinding).

Definition o_meta (o : Object) : ObjectMeta :=
  match o with
  | OService s => svc_ObjectMeta s
  | OIngress i => ig_ObjectMeta i
  | OConfigMap c => cm_ObjectMeta c
  | OClusterRole r => cr_ObjectMeta r
  | OClusterRoleBinding b => crb_ObjectMeta b
  end.

Definition service_with_meta (s : Service_) (m : ObjectMeta) : Service_ :=
  {| svc_ObjectMeta := m; svc_Selector := svc_Selector s; svc_Ports := svc_Ports s;
     svc_Type := svc_Type s; svc_InternalTrafficPolicy := svc_InternalTrafficPolicy s |}.

Definition ingress_with_meta (i : Ingress_) (m : ObjectMeta) : Ingress_ :=
  {| ig_ObjectMeta := m; ig_IngressClassName := ig_IngressClassName i;
     ig_DefaultBackend := ig_DefaultBackend i; ig_TLS := ig_TLS i; ig_Rules := ig_Rules i |}.

Definition o_with_meta (o : Object) (m : ObjectMeta) : Object :=
  match o with
  | OService s => OService (service_with_meta s m)
  | OIngress i => OIngress (ingress_with_meta i m)
  | OConfigMap c => OConfigMap {| cm_ObjectMeta := m; cm_Data := cm_Data c |}
  | OClusterRole r => OClusterRole {| cr_ObjectMeta := m; cr_Rules := cr_Rules r |}
  | OClusterRoleBinding b =>
      OClusterRoleBinding {| crb_ObjectMeta := m; crb_RoleRef := crb_RoleRef b;
                             crb_Subjects := crb_Subjects b |}
  end.

(** [reflect.TypeOf(existing).String()]. *)
Definition type_string (o : Object) : string :=
  match o with
  | OService _ => "*v1.Service"
  | OIngress _ => "*v1.Ingress"
  | OConfigMap _ => "*v1.ConfigMap"
  | OClusterRole _ => "*v1.ClusterRole"
  | OClusterRoleBinding _ => "*v1.ClusterRoleBinding"
  end.

(** ** mergo *)

Abbreviation string_map := (option (gmap string string)).

(** [mergo.Merge(&dst, src, mergo.WithOverride)]. *)
Class Mergo := Merge : string_map -> string_map -> error + string_map.

(** A merge of two string maps does not fail; it keeps the keys that the source has not, takes the non-empty values
    of the source, and has nothing to do the second time. *)
Class MergoLaws `{Mergo} := {
  merge_defined dst src : exists m, Merge dst src = inr m;
  merge_keeps dst src m k : Merge dst src = inr m -> gomap src !! k = None -> gomap m !! k = gomap dst !! k;
  merge_takes dst src m k v :
    Merge dst src = inr m -> gomap src !! k = Some v -> v <> "" -> gomap m !! k = Some v;
  merge_again dst src m : Merge dst src = inr m -> Merge m src = inr m
}.

(** ** mutate.go *)

Definition mutateIngress (existing desired : Ingress_) : Ingress_ :=
  {| ig_ObjectMeta :=
       with_annotations (with_labels (ig_ObjectMeta existing) (om_Labels (ig_ObjectMeta desired)))
         (om_Annotations (ig_ObjectMeta desired));
     ig_IngressClassName := ig_IngressClassName existing;
     ig_DefaultBackend := ig_DefaultBackend desired;
     ig_TLS := ig_TLS desired;
     ig_Rules := ig_Rules desired |}.

Definition mutateService (existing desired : Service_) : Service_ :=
  {| svc_ObjectMeta := svc_ObjectMeta existing;
     svc_Selector := svc_Selector desired;
     svc_Ports := svc_Ports desired;
     svc_Type := svc_Type existing;
     svc_InternalTrafficPolicy := svc_InternalTrafficPolicy existing |}.

(** The order in which the labels are visited does not matter: all changes give
    the same error. *)
Definition hasImmutableLabelChange `{GoRange} (existingSelectorLabels desiredLabels : gmap string string)
  : option error :=
  if existsb (fun '(k, v) => match desiredLabels !! k with
                             | Some vv => negb (bool_decide (vv = v))
                             | None => true
                             end) (range_map existingSelectorLabels)
  then Some (ErrImmutableFieldChange "Spec.Template.Metadata.Labels") else None.

Section Mutate.
Context `{Mergo}.

(** The metadata: annotations, then labels, then the owners. *)
Definition mutate_meta (existing desired : ObjectMeta) : error + ObjectMeta :=
  match Merge (om_Annotations existing) (om_Annotations desired) with
  | inl err => inl err
  | inr annotations =>
      let existing := with_annotations existing annotations in
      match Merge (om_Labels existing) (om_Labels desired) with
      | inl err => inl err
      | inr labels =>
          let existing := with_labels existing labels in
          inr (if 0 <? length (om_OwnerReferences desired)
               then with_owners existing (om_OwnerReferences desired) else existing)
      end
  end.

(** The closure of [MutateFuncFor(existing, desired)]: the existing object as
    it leaves it. *)
Definition MutateFuncFor (desired existing : Object) : error + Object :=
  match mutate_meta (o_meta existing) (o_meta desired) with
  | inl err => inl err
  | inr m =>
      match o_with_meta existing m with
      | OService svc =>
          match desired with
          | OService wantSvc => inr (OService (mutateService svc wantSvc))
          | _ => inl (Err "cannot cast to Service")
          end
      | OIngress ing =>
          match desired with
          | OIngress wantIng => inr (OIngress (mutateIngress ing wantIng))
          | _ => inl (Err "cannot cast to Ingress")
          end
      | o => inl (Err ("missing mutate implementation for resource type: " +:+ type_string o))
      end
  end.
End Mutate.

(** ** Properties *)

Section Properties.
Context `{MergoLaws}.

Lemma mutate_meta_labels existing desired m :
  mutate_meta existing desired = inr m ->
  Merge (om_Annotations existing) (om_Annotations desired) = inr (om_Annotations m)
  /\ Merge (om_Labels existing) (om_Labels desired) = inr (om_Labels m).
Proof.
  unfold mutate_meta. destruct (Merge (om_Annotations _) _) as [|a] eqn:Ea; [done |]. simpl.
  destruct (Merge (om_Labels _) _) as [|l] eqn:El; [done |].
  destruct (om_OwnerReferences desired); simpl; by intros [= <-].
Qed.

(** Written with its own result, the metadata does not change. *)
Lemma mutate_meta_again existing desired m :
  mutate_meta existing desired = inr m -> mutate_meta m desired = inr m.
Proof.
  intros E. destruct (mutate_meta_labels _ _ _ E) as [Ha Hl]. revert E. unfold mutate_meta.
  rewrite (merge_again _ _ _ Ha). cbn [om_Labels with_annotations].
  rewrite (merge_again _ _ _ Hl).
  destruct (Merge (om_Annotations existing) _) as [|a]; [done |]. cbn [om_Labels with_annotations].
  destruct (Merge (om_Labels existing) _) as [|l]; [done |].
  destruct (om_OwnerReferences desired); simpl; by intros [= <-].
Qed.

(** Updating a service replaces its ports and its selector and keeps what
    others wrote: every label and annotation of the existing service that the
    desired one does not have.  The type and the traffic policy stay those of
    the existing service: a changed type is never applied. *)
Theorem mutated_service want have o :
  MutateFuncFor (OService want) (OService have) = inr o ->
  exists s, o = OService s
    /\ svc_Ports s = svc_Ports want /\ svc_Selector s = svc_Selector want
    /\ svc_Type s = svc_Type have /\ svc_InternalTrafficPolicy s = svc_InternalTrafficPolicy have
    /\ (forall k, gomap (om_Labels (svc_ObjectMeta want)) !! k = None ->
          gomap (om_Labels (svc_ObjectMeta s)) !! k = gomap (om_Labels (svc_ObjectMeta have)) !! k)
    /\ (forall k, gomap (om_Annotations (svc_ObjectMeta want)) !! k = None ->
          gomap (om_Annotations (svc_ObjectMeta s)) !! k = gomap (om_Annotations (svc_ObjectMeta have)) !! k)
    /\ (forall k v, gomap (om_Labels (svc_ObjectMeta want)) !! k = Some v -> v <> "" ->
          gomap (om_Labels (svc_ObjectMeta s)) !! k = Some v).
Proof.
  unfold MutateFuncFor. cbn [o_meta o_with_meta].
  destruct (mutate_meta _ _) as [|m] eqn:E; [done |]. intros [= <-].
  apply mutate_meta_labels in E as [Ha Hl]. eexists. split; [done |]. simpl.
  split_and!; try done.
  - intros k Hk. by eapply merge_keeps.
  - intros k Hk. by eapply merge_keeps.
  - intros k v Hk Hv. by eapply merge_takes.
Qed.

(** The update of an ingress drops every annotation and label that the
    desired ingress does not have, although the merge before it, and its
    comment, preserve them. *)
Theorem ingress_metadata_dropped want have :
  exists i, MutateFuncFor (OIngress want) (OIngress have) = inr (OIngress i)
    /\ (forall k, gomap (om_Annotations (ig_ObjectMeta want)) !! k = None ->
          gomap (om_Annotations (ig_ObjectMeta i)) !! k = None)
    /\ (forall k, gomap (om_Labels (ig_ObjectMeta want)) !! k = None ->
          gomap (om_Labels (ig_ObjectMeta i)) !! k = None).
Proof.
  unfold MutateFuncFor, mutate_meta. cbn [o_meta o_with_meta].
  destruct (merge_defined (om_Annotations (ig_ObjectMeta have)) (om_Annotations (ig_ObjectMeta want)))
    as [a ->].
  cbn [om_Labels with_annotations].
  destruct (merge_defined (om_Labels (ig_ObjectMeta have)) (om_Labels (ig_ObjectMeta want))) as [l ->].
  by eexists.
Qed.

End Properties.

(** ** Witnesses *)

Module Sample.
#[export] Instance override : Mergo := fun dst src => inr (Some (gomap src ∪ gomap dst)).

#[export] Instance override_laws : MergoLaws.
Proof.
  constructor; unfold Merge, override.
  - intros dst src. by eexists.
  - intros dst src m k [= <-] Hk. simpl. by rewrite lookup_union_r.
  - intros dst src m k v [= <-] Hk _. simpl. by apply lookup_union_Some_l.
  - intros dst src m [= <-]. simpl. by rewrite (assoc_L (∪)), (idemp_L (∪)).
Defined.

Definition node_port : Service_ :=
  {| svc_ObjectMeta := with_labels (named "gateway-grpc" "mdai") (Some {["team" := "a"]});
     svc_Selector := None; svc_Ports := []; svc_Type := "NodePort";
     svc_InternalTrafficPolicy := None |}.

Definition cluster_ip : Service_ :=
  {| svc_ObjectMeta := with_labels (named "gateway-grpc" "mdai") (Some {["app" := "gateway"]});
     svc_Selector := Some {["app" := "gateway"]}; svc_Ports := []; svc_Type := "ClusterIP";
     svc_InternalTrafficPolicy := None |}.
End Sample.

Import Sample.

(** The type asked for is not applied. *)
Lemma mutated_service_witness :
  exists o, MutateFuncFor (OService cluster_ip) (OService node_port) = inr o
  /\ exists s, o = OService s
    /\ svc_Ports s = svc_Ports cluster_ip /\ svc_Selector s = svc_Selector cluster_ip
    /\ svc_Type s = svc_Type node_port
    /\ svc_InternalTrafficPolicy s = svc_InternalTrafficPolicy node_port
    /\ (forall k, gomap (om_Labels (svc_ObjectMeta cluster_ip)) !! k = None ->
          gomap (om_Labels (svc_ObjectMeta s)) !! k = gomap (om_Labels (svc_ObjectMeta node_port)) !! k)
    /\ (forall k, gomap (om_Annotations (svc_ObjectMeta cluster_ip)) !! k = None ->
          gomap (om_Annotations (svc_ObjectMeta s)) !! k
          = gomap (om_Annotations (svc_ObjectMeta node_port)) !! k)
    /\ (forall k v, gomap (om_Labels (svc_ObjectMeta cluster_ip)) !! k = Some v -> v <> "" ->
          gomap (om_Labels (svc_ObjectMeta s)) !! k = Some v).
Proof.
  destruct (MutateFuncFor (OService cluster_ip) (OService node_port)) as [e|o] eqn:E; [discriminate E |].
  exists o. split; [reflexivity |]. exact (mutated_service cluster_ip node_port o E).
Defined.

Lemma ingress_metadata_dropped_witness :
  let bare := {| ig_ObjectMeta := named "gateway-ingress" "mdai"; ig_IngressClassName := None;
                 ig_DefaultBackend := None; ig_TLS := []; ig_Rules := [] |} in
  let annotated := ingress_with_meta bare
    (with_annotations (named "gateway-ingress" "mdai") (Some {["owner" := "team-a"]})) in
  exists i, MutateFuncFor (OIngress bare) (OIngress annotated) = inr (OIngress i)
    /\ (forall k, gomap (om_Annotations (ig_ObjectMeta bare)) !! k = None ->
          gomap (om_Annotations (ig_ObjectMeta i)) !! k = None)
    /\ (forall k, gomap (om_Labels (ig_ObjectMeta bare)) !! k = None ->
          gomap (om_Labels (ig_ObjectMeta i)) !! k = None).
Proof. intros bare annotated. exact (ingress_metadata_dropped bare annotated). Defined.

