(* ===== verification/IngressManifest.v ===== *)
(** * internal/manifests: the ingress of a collector and its manifests

    api/v1/mdaiingress_config.go (the ports of the receivers, through the
    parser registries), collector/ingress.go and collector/ingress_aws.go, and
    collector/collector.go, which puts the ingress and the two services
    together.  The parsers write to their objects, so the registries are
    threaded. *)

From S2P Require Import Prelude GoLib ApiTypes Errors Naming Components Parsers Registry.
From S2P Require Import WebhookCR K8sObjects Manifests Mutate.
From stdpp Require Import sorting.

(** [sort.Slice]: the order of equal elements is not specified. *)
Definition strict_weak {A} (less : A -> A -> bool) : Prop :=
  (forall a, less a a = false)
  /\ (forall a b c, less a b = true -> less b c = true -> less a c = true)
  /\ (forall a b c, less a b = false -> less b c = false -> less a c = false).

Class GoSort := {
  sort_slice {A} (less : A -> A -> bool) (l : list A) : list A;
  sort_slice_perm {A} (less : A -> A -> bool) (l : list A) : sort_slice less l ≡ₚ l;
  sort_slice_sorted {A} (less : A -> A -> bool) (l : list A) :
    strict_weak less -> StronglySorted (fun a b => less b a = false) (sort_slice less l)
}.

(** A write [l[i] = x]. *)
Definition set_index {A} (l : list A) (i : nat) (x : A) : go (list A) :=
  if i <? length l then Done (<[i := x]> l) else Panics "index out of range".

Section Ingress.
Context {Cfg Any : Type} `{OtelConfig Cfg Any} `{Configs Any} `{GoRange} `{GoSort}.
Context (IntValue : IntOrString -> Z) (lower : Z -> Z) (Compile : string -> option (string -> bool)).

#[local] Existing Instance AnyParser_Parser.

(** The registries of internal/components, as the calls leave them. *)
Record registries := {
  reg_receivers : gmap string (AnyParser Any);
  reg_exporters : gmap string (AnyParser Any)
}.

(** ** mdaiingress_config.go *)

(** A parser of a registry is shared: what a call leaves of it stays there.  One
    made for the call is gone. *)
Definition put_parser (reg : gmap string (AnyParser Any)) (componentName : string)
    (parser : AnyParser Any) : gmap string (AnyParser Any) :=
  match reg !! ComponentType componentName with
  | Some _ => <[ComponentType componentName := parser]> reg
  | None => reg
  end.

Definition component_ports (retriever : gmap string (AnyParser Any) -> string -> go (AnyParser Any))
    (reg : gmap string (AnyParser Any)) (componentName : string) (config : Any)
  : gmap string (AnyParser Any) * go (with_error (list PortUrlPaths)) :=
  match retriever reg componentName with
  | Panics why => (reg, Panics why)
  | Done parser =>
      let '(parser, answer) := @PortsWithUrlPaths _ _ (AnyParser_Parser IntValue) componentName config parser in
      (put_parser reg componentName parser, answer)
  end.

(** The loop over the enabled components of a kind. *)
Fixpoint kind_ports (retriever : gmap string (AnyParser Any) -> string -> go (AnyParser Any))
    (cfg : string -> Any) (enabled : list (string * unit)) (reg : gmap string (AnyParser Any))
    (acc : ComponentsPortsUrlPaths)
  : gmap string (AnyParser Any) * go (error + ComponentsPortsUrlPaths) :=
  match enabled with
  | [] => (reg, Done (inr acc))
  | (componentName, _) :: enabled =>
      let '(reg, answer) := component_ports retriever reg componentName (cfg componentName) in
      match answer with
      | Panics why => (reg, Panics why)
      | Done (_, Some err) => (reg, Done (inl err))
      | Done (parsedPorts, None) =>
          kind_ports retriever cfg enabled reg (<[componentName := parsedPorts]> acc)
      end
  end.

Fixpoint kinds_ports (otelcol : OtelCollector Cfg) (componentKinds : list ComponentKind)
    (regs : registries) (acc : ComponentsPortsUrlPaths)
  : registries * go (error + ComponentsPortsUrlPaths) :=
  match componentKinds with
  | [] => (regs, Done (inr acc))
  | componentKind :: rest =>
      let enabled := range_map (GetEnabledComponents (oc_Config otelcol) componentKind) in
      match componentKind with
      | KindReceiver =>
          let '(reg, answer) := kind_ports (ReceiverFor IntValue) (Receivers (oc_Config otelcol))
                                  enabled (reg_receivers regs) acc in
          let regs := {| reg_receivers := reg; reg_exporters := reg_exporters regs |} in
          match answer with
          | Done (inr acc) => kinds_ports otelcol rest regs acc
          | _ => (regs, answer)
          end
      | KindExporter =>
          let '(reg, answer) := kind_ports ParserFor (Exporters (oc_Config otelcol))
                                  enabled (reg_exporters regs) acc in
          let regs := {| reg_receivers := reg_receivers regs; reg_exporters := reg |} in
          match answer with
          | Done (inr acc) => kinds_ports otelcol rest regs acc
          | _ => (regs, answer)
          end
      | _ => kinds_ports otelcol rest regs acc
      end
  end.

Definition getPortsWithUrlPathsForComponentKinds (c : OtelMdaiIngressComb Cfg)
    (componentKinds : list ComponentKind) (regs : registries)
  : registries * go (error + ComponentsPortsUrlPaths) :=
  kinds_ports (comb_Otelcol c) componentKinds regs ∅.

Definition GetReceiverPortsWithUrlPaths (c : OtelMdaiIngressComb Cfg) (regs : registries)
  : registries * go (error + ComponentsPortsUrlPaths) :=
  getPortsWithUrlPathsForComponentKinds c [KindReceiver] regs.

(** ** collector/ingress_aws.go *)

Definition PathTypePrefix : string := "Prefix".

Definition zero_path : HTTPIngressPath :=
  {| hip_Path := ""; hip_PathType := ""; hip_Backend := {| isb_Name := ""; isb_PortName := "" |} |}.

Definition ingress_path (otelcol : string) (p : ServicePort) (endpoint : string) : HTTPIngressPath :=
  {| hip_Path := endpoint; hip_PathType := PathTypePrefix;
     hip_Backend := {| isb_Name := Naming.GrpcService lower otelcol;
                       isb_PortName := PortName (sp_Name p) (sp_Port p) |} |}.

(** The loop over the paths of a port. *)
Definition fill_port (otelcol : string) (p : PortUrlPaths) (st : list HTTPIngressPath * nat)
  : go (list HTTPIngressPath * nat) :=
  go_fold (fun '(paths, i) endpoint =>
    let! paths := set_index paths i (ingress_path otelcol (pup_Port p) endpoint) in
    Done (paths, S i)) st (pup_UrlPaths p).

(** The loop over the ports of a component.  Every rule holds the same slice of
    paths, allocated before and filled on the way, so that in the end each of
    them has the paths of all ports; [hosts] has one entry per rule. *)
Definition component_rules (otelcol : string) (colEndpoints : string_map) (comp : string)
    (portsUrlPaths : list PortUrlPaths) : go (list IngressRule) :=
  let totalPaths := fold_left (fun n p => n + length (pup_UrlPaths p)) portsUrlPaths 0 in
  let paths := repeat zero_path totalPaths in
  let! (paths, _, hosts) := go_fold (fun '(paths, i, hosts) p =>
      let! (paths, i) := fill_port otelcol p (paths, i) in
      match gomap colEndpoints !! comp with
      | None => Done (paths, i, hosts)
      | Some host => Done (paths, i, hosts ++ [host])
      end) (paths, 0, []) portsUrlPaths in
  Done (map (fun host => {| ir_Host := host; ir_Paths := paths |}) hosts).

Definition createPathIngressRulesUrlPaths (otelcol : string) (colEndpoints : string_map)
    (compPortsUrlPaths : ComponentsPortsUrlPaths) : go (list IngressRule) :=
  go_fold (fun ingressRules '(comp, portsUrlPaths) =>
    let! rules := component_rules otelcol colEndpoints comp portsUrlPaths in
    Done (ingressRules ++ rules)) [] (range_map compPortsUrlPaths).

(** Ranging over a map while its own keys are written or deleted. *)
Definition grpc_components (compPortsEndpoints : ComponentsPortsUrlPaths) : go ComponentsPortsUrlPaths :=
  go_fold (fun (m : ComponentsPortsUrlPaths) '(comp, portsEndpoints) =>
    let! portsEndpoints :=
      delete_down (fun p => is_grpc (pup_Port p)) (length portsEndpoints) portsEndpoints in
    Done (if 0 <? length portsEndpoints then <[comp := portsEndpoints]> m else delete comp m))
    compPortsEndpoints (range_map compPortsEndpoints).

Definition host_less (a b : IngressRule) : bool := String.ltb (ir_Host a) (ir_Host b).

(** What [IngressAws] does with the ports of the receivers. *)
Definition ingress_of_ports (params : OtelMdaiIngressComb Cfg) (compPortsEndpoints : ComponentsPortsUrlPaths)
  : go (error + option Ingress_) :=
  let otelcol := comb_Otelcol params in
  let ingress := comb_MdaiIngress params in
  let name := om_Name (oc_ObjectMeta otelcol) in
  if bool_decide (compPortsEndpoints = ∅) then Done (inr None)
  else
    let! compPortsEndpoints := grpc_components compPortsEndpoints in
    if bool_decide (compPortsEndpoints = ∅) then Done (inr None)
    else
      let ruleType := oi_RuleType (oc_Ingress otelcol) in
      if bool_decide (ruleType = IngressRuleTypePath) || bool_decide (ruleType = "") then
        let colEndpoints := ing_CollectorEndpoints (mi_Spec ingress) in
        if bool_decide (gomap colEndpoints = ∅)
        then Done (inl (Err "empty components to hostnames mapping"))
        else
          let! rules := createPathIngressRulesUrlPaths name colEndpoints compPortsEndpoints in
          if length rules =? 0 then Done (inr None)
          else
            Done (inr (Some
              {| ig_ObjectMeta :=
                   with_annotations
                     (with_labels
                        (named (Naming.Ingress lower name) (om_Namespace (oc_ObjectMeta otelcol)))
                        (om_Labels (mi_ObjectMeta ingress)))
                     (Some (merged_annotations (om_Annotations (oc_ObjectMeta otelcol))
                              (ing_Annotations (mi_Spec ingress))));
                 ig_IngressClassName := oi_IngressClassName (oc_Ingress otelcol);
                 ig_DefaultBackend := None;
                 ig_TLS := oi_TLS (oc_Ingress otelcol);
                 ig_Rules := sort_slice host_less rules |}))
      else Done (inr None).

Definition IngressAws (params : OtelMdaiIngressComb Cfg) (regs : registries)
  : registries * go (error + option Ingress_) :=
  let '(regs, answer) := GetReceiverPortsWithUrlPaths params regs in
  (regs, match answer with
         | Panics why => Panics why
         | Done (inl err) => Done (inl err)
         | Done (inr compPortsEndpoints) => ingress_of_ports params compPortsEndpoints
         end).

(** ** collector/ingress.go and collector/collector.go *)

Definition Ingress (params : OtelMdaiIngressComb Cfg) (regs : registries)
  : registries * go (error + option Ingress_) :=
  if for_aws params then IngressAws params regs else (regs, Done (inr None)).

(** [manifests.ObjectIsNotNil]: a [nil] pointer in an interface is left out. *)
Definition object_if {A} (inj : A -> Object) (o : option A) : list Object :=
  match o with Some a => [inj a] | None => [] end.

Definition Build (params : OtelMdaiIngressComb Cfg) (regs : registries)
  : registries * go (error + list Object) :=
  let '(regs, ingress) := Ingress params regs in
  (regs,
   let! ingress := ingress in
   match ingress with
   | inl err => Done (inl err)
   | inr ingress =>
       let! grpc := GrpcService lower Compile params in
       match grpc with
       | inl err => Done (inl err)
       | inr grpc =>
           let! other := NonGrpcService lower Compile params in
           match other with
           | inl err => Done (inl err)
           | inr other =>
               Done (inr (object_if OIngress ingress ++ object_if OService grpc ++ object_if OService other))
           end
       end
   end).
End Ingress.

(** ** Lemmas *)

(** *** The order of hosts *)

Lemma ltb_leb s t : String.ltb s t = negb (String.leb t s).
Proof.
  unfold String.ltb, String.leb. rewrite (String.compare_antisym t s).
  by destruct (String.compare s t).
Qed.

Lemma leb_le s t : String.leb s t = true <-> String.le s t.
Proof. unfold String.le. by rewrite Is_true_true. Qed.

Lemma host_less_le a b : host_less b a = false <-> String.le (ir_Host a) (ir_Host b).
Proof. unfold host_less. by rewrite ltb_leb, negb_false_iff, leb_le. Qed.

Lemma host_less_strict_weak : strict_weak host_less.
Proof.
  split_and!.
  - intros a. apply host_less_le. reflexivity.
  - intros a b c Hab Hbc. apply not_false_iff_true. rewrite host_less_le. intros Hca.
    assert (Hle : String.le (ir_Host a) (ir_Host b)).
    { apply host_less_le. apply not_true_iff_false. rewrite <- (not_false_iff_true (host_less b a)).
      rewrite host_less_le. intros Hn. apply Hn.
      destruct (total String.le (ir_Host a) (ir_Host b)) as [?|Hba]; [done |].
      exfalso. rewrite <- not_false_iff_true, host_less_le in Hab. done. }
    rewrite <- not_false_iff_true, host_less_le in Hbc. apply Hbc. by transitivity (ir_Host a).
  - intros a b c. rewrite !host_less_le. intros H1 H2. by transitivity (ir_Host b).
Qed.

Lemma StronglySorted_impl {A} (R R' : A -> A -> Prop) l :
  (forall a b, R a b -> R' a b) -> StronglySorted R l -> StronglySorted R' l.
Proof.
  intros Hi. induction 1 as [|a l _ IH Ha]; constructor; [done |].
  eapply Forall_impl; [exact Ha | apply Hi].
Qed.

(** *** Paths and rules of a component *)

Section Rules.
Context (lower : Z -> Z) (otelcol : string).

Definition port_paths (p : PortUrlPaths) : list HTTPIngressPath :=
  map (ingress_path lower otelcol (pup_Port p)) (pup_UrlPaths p).

Definition all_paths (ps : list PortUrlPaths) : list HTTPIngressPath := concat (map port_paths ps).

Lemma set_index_app {A} (l r : list A) x y :
  set_index (l ++ x :: r) (length l) y = Done (l ++ y :: r).
Proof.
  unfold set_index. rewrite length_app. cbn [length].
  destruct (Nat.ltb_spec (length l) (length l + S (length r))); [| lia].
  by rewrite insert_app_r_alt, Nat.sub_diag by lia.
Qed.

Lemma fill_port_done p done k :
  fill_port lower otelcol p (done ++ repeat zero_path (length (pup_UrlPaths p) + k), length done)
  = Done (done ++ port_paths p ++ repeat zero_path k, length done + length (port_paths p)).
Proof.
  unfold fill_port, port_paths. rewrite length_map. revert done.
  induction (pup_UrlPaths p) as [|u us IH]; intros done; simpl.
  - by rewrite Nat.add_0_r.
  - rewrite set_index_app. cbn [go_bind].
    specialize (IH (done ++ [ingress_path lower otelcol (pup_Port p) u])).
    rewrite length_app in IH. simpl in IH. rewrite <- !app_assoc in IH. simpl in IH.
    replace (S (length done)) with (length done + 1) by lia. rewrite IH.
    do 2 f_equal. lia.
Qed.

Lemma fold_total (ps : list PortUrlPaths) n :
  fold_left (fun n p => n + length (pup_UrlPaths p)) ps n = n + length (all_paths ps).
Proof.
  revert n. unfold all_paths. induction ps as [|p ps IH]; intros n; simpl; [lia |].
  rewrite IH, length_app. unfold port_paths at 2. rewrite length_map. lia.
Qed.

(** The rules of a component: one per port, each with the paths of all ports. *)
Definition rules_of (colEndpoints : string_map) (comp : string) (ps : list PortUrlPaths)
  : list IngressRule :=
  match gomap colEndpoints !! comp with
  | None => []
  | Some host => repeat {| ir_Host := host; ir_Paths := all_paths ps |} (length ps)
  end.

(** The writes stay within the slice, and fill it. *)
Lemma component_rules_done colEndpoints comp ps :
  component_rules lower otelcol colEndpoints comp ps = Done (rules_of colEndpoints comp ps).
Proof.
  unfold component_rules. rewrite fold_total. cbn zeta. rewrite Nat.add_0_l.
  assert (G : forall ps done hosts, go_fold (fun '(paths, i, hosts) p =>
      let! (paths, i) := fill_port lower otelcol p (paths, i) in
      match gomap colEndpoints !! comp with
      | None => Done (paths, i, hosts)
      | Some host => Done (paths, i, hosts ++ [host])
      end) (done ++ repeat zero_path (length (all_paths ps)), length done, hosts) ps
    = Done (done ++ all_paths ps, length done + length (all_paths ps),
            hosts ++ match gomap colEndpoints !! comp with
                     | None => [] | Some host => repeat host (length ps) end)).
  { clear ps. induction ps as [|p ps IH]; intros done hosts; cbn [go_fold all_paths map concat].
    - simpl. rewrite Nat.add_0_r, !app_nil_r. by destruct (gomap colEndpoints !! comp); rewrite app_nil_r.
    - fold (all_paths ps). rewrite length_app. unfold port_paths at 1. rewrite length_map.
      rewrite fill_port_done. cbn [go_bind]. rewrite app_assoc, <- length_app.
      destruct (gomap colEndpoints !! comp) as [host|]; cbn [go_bind]; rewrite IH;
        rewrite <- !app_assoc, length_app; do 2 f_equal; [f_equal; lia | f_equal; lia]. }
  specialize (G ps [] []). simpl in G. rewrite G. cbn [go_bind]. unfold rules_of.
  destruct (gomap colEndpoints !! comp) as [host|]; [| done]. by rewrite map_repeat.
Qed.

Lemma create_rules_done `{GoRange} colEndpoints m :
  createPathIngressRulesUrlPaths lower otelcol colEndpoints m
  = Done (concat (map (fun '(comp, ps) => rules_of colEndpoints comp ps) (range_map m))).
Proof.
  unfold createPathIngressRulesUrlPaths.
  assert (G : forall l acc, go_fold (fun ingressRules '(comp, portsUrlPaths) =>
      let! rules := component_rules lower otelcol colEndpoints comp portsUrlPaths in
      Done (ingressRules ++ rules)) acc l
    = Done (acc ++ concat (map (fun '(comp, ps) => rules_of colEndpoints comp ps) l))).
  { induction l as [|[comp ps] l IH]; intros acc; simpl; [by rewrite app_nil_r |].
    rewrite component_rules_done. cbn [go_bind]. by rewrite IH, <- app_assoc. }
  apply G.
Qed.
End Rules.

(** Every path of a rule leads to the collector's gRPC service. *)
Lemma rules_backend lower otelcol colEndpoints comps rule path :
  rule ∈ concat (map (fun '(comp, ps) => rules_of lower otelcol colEndpoints comp ps) comps) ->
  path ∈ ir_Paths rule -> isb_Name (hip_Backend path) = Naming.GrpcService lower otelcol.
Proof.
  rewrite list_elem_of_In, in_concat. intros (rs & Hrs & Hin) Hp.
  apply in_map_iff in Hrs as ([comp ps] & <- & _). unfold rules_of in Hin.
  destruct (gomap colEndpoints !! comp); [| done]. apply repeat_spec in Hin as ->.
  cbn [ir_Paths] in Hp. unfold all_paths in Hp.
  apply list_elem_of_In, in_concat in Hp as (us & Hus & Hp).
  apply in_map_iff in Hus as (p & <- & _). unfold port_paths in Hp.
  by apply in_map_iff in Hp as (u & <- & _).
Qed.

(** *** Components with gRPC ports *)

Definition grpc_ports (ps : list PortUrlPaths) : list PortUrlPaths :=
  List.filter (fun p => is_grpc (pup_Port p)) ps.

Definition some_grpc (ps : list PortUrlPaths) : option (list PortUrlPaths) :=
  match grpc_ports ps with [] => None | gs => Some gs end.

Lemma grpc_components_done `{GoRange} m : grpc_components m = Done (omap some_grpc m).
Proof.
  unfold grpc_components.
  assert (G : forall l (m0 : ComponentsPortsUrlPaths), NoDup (map fst l) ->
    exists m1, go_fold (fun (m : ComponentsPortsUrlPaths) '(comp, portsEndpoints) =>
      let! portsEndpoints :=
        delete_down (fun p => is_grpc (pup_Port p)) (length portsEndpoints) portsEndpoints in
      Done (if 0 <? length portsEndpoints then <[comp := portsEndpoints]> m else delete comp m)) m0 l
      = Done m1
    /\ forall k, m1 !! k = match (list_to_map l : gmap string (list PortUrlPaths)) !! k with
                           | Some ps => some_grpc ps | None => m0 !! k end).
  { induction l as [|[comp ps] l IH]; intros m0 Hd.
    - exists m0. split; [done |]. intros k. simpl. by rewrite lookup_empty.
    - apply NoDup_cons in Hd as [Hc Hd]. cbn [go_fold]. rewrite delete_down_filter. cbn [go_bind].
      fold (grpc_ports ps).
      edestruct IH as (m1 & -> & Hm); [done |]. eexists. split; [done |]. intros k. rewrite Hm.
      cbn [list_to_map fst snd foldr]. destruct (decide (k = comp)) as [->|Hk].
      + rewrite lookup_insert_eq, (not_elem_of_list_to_map_1 l comp Hc). unfold some_grpc.
        destruct (grpc_ports ps); cbn [length Nat.ltb Nat.leb];
          [apply (lookup_delete_eq (M:=gmap string)) | apply (lookup_insert_eq (M:=gmap string))].
      + rewrite lookup_insert_ne by done. destruct (_ !! k); [done |].
        destruct (0 <? _); [by apply (lookup_insert_ne (M:=gmap string))
                           | by apply (lookup_delete_ne (M:=gmap string))]. }
  destruct (G (range_map m) m) as (m1 & E & Hm).
  { apply range_map_NoDup. }
  rewrite E. f_equal. apply map_eq. intros k. rewrite Hm, lookup_omap.
  rewrite (range_map_lookup (A:=list PortUrlPaths) m k).
  destruct ((m : gmap string (list PortUrlPaths)) !! k) as [ps|] eqn:Ek; simpl; [done | exact Ek].
Qed.

(** *** The registries after a call *)

Section Stable.
Context {Cfg Any : Type} `{OtelConfig Cfg Any} `{Configs Any} `{GoRange}.
Context (IntValue : IntOrString -> Z).

#[local] Existing Instances AnyParser_equiv AnyParser_equivalence.

Lemma parser_type_proper (p q : AnyParser Any) :
  p ≡ q -> @ParserType Any _ (AnyParser_Parser IntValue) p = @ParserType Any _ (AnyParser_Parser IntValue) q.
Proof.
  intros [->|(m & m' & -> & -> & Hn & _)]%AnyParser_equiv_cases; [done |].
  unfold ParserType; simpl. unfold ParserType; simpl. by rewrite Hn.
Qed.

Lemma well_typed_proper (reg reg' : gmap string (AnyParser Any)) : reg ≡ reg' -> well_typed IntValue reg -> well_typed IntValue reg'.
Proof.
  intros He Hw name q Hq. specialize (He name). rewrite Hq in He.
  destruct (reg !! name) as [p|] eqn:Ep; [| by inversion He].
  apply Some_equiv_inj in He. rewrite <- (parser_type_proper _ _ He). by apply Hw.
Qed.

Lemma put_parser_same (reg : gmap string (AnyParser Any)) name p q :
  reg !! ComponentType name = Some p -> q ≡ p -> put_parser reg name q ≡ reg.
Proof.
  intros Hp Hq k. unfold put_parser. rewrite Hp.
  destruct (decide (k = ComponentType name)) as [->|Hk].
  - rewrite lookup_insert_eq, Hp. by constructor.
  - by rewrite lookup_insert_ne.
Qed.

(** A call leaves the registry equivalent, and answers the same on equivalent
    registries. *)
Lemma component_ports_stable (reg reg' : gmap string (AnyParser Any)) name config :
  reg ≡ reg' ->
  (component_ports IntValue (ReceiverFor IntValue) reg name config).1 ≡ reg
  /\ (component_ports IntValue (ReceiverFor IntValue) reg name config).2
     = (component_ports IntValue (ReceiverFor IntValue) reg' name config).2.
Proof.
  intros He. unfold component_ports, ReceiverFor. pose proof (He (ComponentType name)) as Hn.
  destruct (reg !! ComponentType name) as [p|] eqn:Ep, (reg' !! ComponentType name) as [p'|] eqn:Ep';
    try by inversion Hn.
  - apply Some_equiv_inj in Hn.
    pose proof (@paths_state _ _ _ _ (AnyParser_stable IntValue) name config p) as Hs.
    pose proof (@paths_proper _ _ _ _ (AnyParser_stable IntValue) name config p p' Hn) as Ha.
    cbn beta in Ha. destruct (PortsWithUrlPaths name config p) as [q a].
    destruct (PortsWithUrlPaths name config p') as [q' a'].
    split; [by eapply put_parser_same | done].
  - destruct (built _ _) as [p|why]; [| done].
    destruct (PortsWithUrlPaths name config p) as [q a]. unfold put_parser. by rewrite Ep.
Qed.

Lemma kind_ports_stable cfg enabled (reg reg' : gmap string (AnyParser Any)) acc :
  reg ≡ reg' ->
  (kind_ports IntValue (ReceiverFor IntValue) cfg enabled reg acc).1 ≡ reg
  /\ (kind_ports IntValue (ReceiverFor IntValue) cfg enabled reg acc).2
     = (kind_ports IntValue (ReceiverFor IntValue) cfg enabled reg' acc).2.
Proof.
  revert reg reg' acc. induction enabled as [|[name u] enabled IH]; intros reg reg' acc He; [done |].
  simpl. destruct (component_ports_stable reg reg' name (cfg name) He) as [Hs Ha].
  destruct (component_ports_stable reg' reg' name (cfg name) ltac:(reflexivity)) as [Hs' _].
  destruct (component_ports _ _ reg _ _) as [r a], (component_ports _ _ reg' _ _) as [r' a'].
  cbn [fst snd] in Hs, Ha, Hs'. subst a'.
  destruct a as [[ports [err|]]|why]; [done | | done].
  destruct (IH r r' (<[name := ports]> acc)) as [Hk Hv].
  { rewrite Hs, Hs'. done. }
  split; [by rewrite Hk | done].
Qed.

End Stable.

(** ** Properties *)

(** The rules that an ingress, if there is one, has. *)
Definition ingress_rules (i : option Ingress_) : list IngressRule :=
  match i with Some i => ig_Rules i | None => [] end.

Section Properties.
Context {Cfg Any : Type} `{OtelConfig Cfg Any} `{Configs Any} `{GoRange} `{GoSort}.
Context (IntValue : IntOrString -> Z) (lower : Z -> Z) (Compile : string -> option (string -> bool)).

(** The components with gRPC ports, each once. *)
Lemma grpc_component_elem (m : gmap string (list PortUrlPaths)) :
  NoDup (range_map (omap some_grpc m))
  /\ forall comp ps, (comp, ps) ∈ range_map (omap some_grpc m) <->
       exists all, m !! comp = Some all /\ ps = grpc_ports all /\ ps <> [].
Proof.
  split; [eapply NoDup_fmap_1; apply range_map_NoDup |]. intros comp ps.
  rewrite (range_map_perm (omap some_grpc m)), elem_of_map_to_list, lookup_omap. split.
  - intros (all & Ha & Hs)%bind_Some. exists all. unfold some_grpc in Hs.
    destruct (grpc_ports all); [done |]. injection Hs as <-. done.
  - intros (all & Ha & -> & Hne). apply bind_Some. exists all. split; [done |].
    unfold some_grpc. by destruct (grpc_ports all).
Qed.

(** C23. For a collector on AWS with path rules and with endpoints, the ingress
    has exactly the rules of the components that have both gRPC ports and an
    endpoint: one per gRPC port, for the component's host, with the URL paths
    of all its gRPC ports, each leading to the collector's gRPC service.  The
    rules are sorted by host, and without rules there is no ingress. *)
Theorem ingress_rules_complete (params : OtelMdaiIngressComb Cfg) regs regs'
    (m : gmap string (list PortUrlPaths)) :
  let otelcol := comb_Otelcol params in
  let endpoints := ing_CollectorEndpoints (mi_Spec (comb_MdaiIngress params)) in
  let name := om_Name (oc_ObjectMeta otelcol) in
  GetReceiverPortsWithUrlPaths IntValue params regs = (regs', Done (inr m)) ->
  oi_RuleType (oc_Ingress otelcol) ∈ [IngressRuleTypePath; ""] ->
  gomap endpoints <> ∅ ->
  exists r comps, IngressAws IntValue lower params regs = (regs', Done (inr r))
    /\ NoDup comps
    /\ (forall comp ps, (comp, ps) ∈ comps <->
          exists all, m !! comp = Some all /\ ps = grpc_ports all /\ ps <> [])
    /\ ingress_rules r ≡ₚ concat (map (fun '(comp, ps) => rules_of lower name endpoints comp ps) comps)
    /\ StronglySorted (fun a b => String.le (ir_Host a) (ir_Host b)) (ingress_rules r)
    /\ forall rule path, rule ∈ ingress_rules r -> path ∈ ir_Paths rule ->
         isb_Name (hip_Backend path) = Naming.GrpcService lower name.
Proof.
  intros otelcol endpoints name Hp Hr He. unfold IngressAws. rewrite Hp.
  unfold ingress_of_ports. fold otelcol endpoints name.
  rewrite grpc_components_done. cbn [go_bind].
  destruct (grpc_component_elem m) as [Hd Hcomps].
  set (rules := concat (map (fun '(comp, ps) => rules_of lower name endpoints comp ps)
                          (range_map (omap some_grpc m)))).
  assert (Hpaths : forall rule path, rule ∈ rules -> path ∈ ir_Paths rule ->
    isb_Name (hip_Backend path) = Naming.GrpcService lower name).
  { intros rule path Hrule Hpath. by eapply rules_backend. }
  assert (Hnone : rules = [] -> exists r comps, (regs', Done (inr (A:=error) None)) = (regs', Done (inr r))
    /\ NoDup comps
    /\ (forall comp ps, (comp, ps) ∈ comps <->
          exists all, m !! comp = Some all /\ ps = grpc_ports all /\ ps <> [])
    /\ ingress_rules r ≡ₚ concat (map (fun '(comp, ps) => rules_of lower name endpoints comp ps) comps)
    /\ StronglySorted (fun a b => String.le (ir_Host a) (ir_Host b)) (ingress_rules r)
    /\ forall rule path, rule ∈ ingress_rules r -> path ∈ ir_Paths rule ->
         isb_Name (hip_Backend path) = Naming.GrpcService lower name).
  { intros E. exists None, (range_map (omap some_grpc m)). split_and!; try done.
    - simpl. by rewrite <- E.
    - constructor.
    - intros rule path Hrule. by apply elem_of_nil in Hrule. }
  case_bool_decide as Hm.
  { apply Hnone. unfold rules.
    assert (E : omap some_grpc m = ∅) by (rewrite Hm; exact (omap_empty (M:=gmap string) some_grpc)).
    by rewrite E, range_map_empty. }
  case_bool_decide as Hg.
  { apply Hnone. unfold rules.
    assert (E : range_map (omap some_grpc m) = []) by (rewrite Hg; exact range_map_empty).
    by rewrite E. }
  replace (bool_decide (oi_RuleType (oc_Ingress otelcol) = IngressRuleTypePath)
           || bool_decide (oi_RuleType (oc_Ingress otelcol) = "")) with true.
  2: { apply elem_of_cons in Hr as [Hr|Hr%list_elem_of_singleton]; by rewrite Hr. }
  rewrite (bool_decide_eq_false_2 _ He), create_rules_done. cbn [go_bind]. fold rules.
  destruct (length rules =? 0) eqn:El.
  { apply Nat.eqb_eq in El. apply Hnone. by apply nil_length_inv. }
  eexists _, (range_map (omap some_grpc m)). split; [done |]. split; [done |]. split; [done |].
  cbn [ingress_rules ig_Rules]. split_and!.
  - apply sort_slice_perm.
  - eapply StronglySorted_impl; [| apply sort_slice_sorted, host_less_strict_weak].
    intros a b. by apply host_less_le.
  - intros rule path Hrule. rewrite (sort_slice_perm host_less rules) in Hrule. by apply Hpaths.
Qed.

(** The object is one of the collector's: its namespace and one of its names. *)
Definition manifest_of (otelcol : OtelCollector Cfg) (o : Object) : Prop :=
  let name := om_Name (oc_ObjectMeta otelcol) in
  om_Namespace (o_meta o) = om_Namespace (oc_ObjectMeta otelcol)
  /\ match o with
     | OIngress _ => om_Name (o_meta o) = Naming.Ingress lower name
     | OService _ => om_Name (o_meta o) ∈ [Naming.GrpcService lower name; Naming.NonGrpcService lower name]
     | _ => False
     end.

Lemma ingress_done (params : OtelMdaiIngressComb Cfg) m :
  exists r, ingress_of_ports lower params m = Done r
    /\ forall i, r = inr (Some i) -> manifest_of (comb_Otelcol params) (OIngress i).
Proof.
  unfold ingress_of_ports. case_bool_decide; [by eexists |].
  rewrite grpc_components_done. cbn [go_bind]. case_bool_decide; [by eexists |].
  destruct (_ || _); [| by eexists]. case_bool_decide; [by eexists |].
  rewrite create_rules_done. cbn [go_bind]. destruct (_ =? 0); [by eexists |].
  eexists. split; [done |]. by intros i [= <-].
Qed.

Lemma service_done (params : OtelMdaiIngressComb Cfg) name svc ports keep :
  name ∈ [Naming.GrpcService lower (om_Name (oc_ObjectMeta (comb_Otelcol params)));
          Naming.NonGrpcService lower (om_Name (oc_ObjectMeta (comb_Otelcol params)))] ->
  exists r, aws_service Compile params name (Some svc) ports keep = Done r
    /\ forall s, r = inr (Some s) -> manifest_of (comb_Otelcol params) (OService s).
Proof.
  intros Hn. destruct ports as [ports [err|]].
  - unfold aws_service.
    destruct (Labels_done Compile (oc_ObjectMeta (comb_Otelcol params)) name
                (oc_Image (comb_Otelcol params))) as [labels ->].
    by eexists.
  - destruct (aws_service_done Compile params name svc ports keep) as (r & -> & _ & Hr).
    eexists. split; [done |]. intros s [= ->]. destruct (Hr s eq_refl) as [E1 E2].
    unfold manifest_of; simpl. by rewrite E1.
Qed.

End Properties.

(** ** Witnesses *)

Module Sample.
(** A configuration language with nothing but multi-protocol configurations. *)
Record value := { v_protocols : MultiProtocolEndpointConfig }.

Definition other_type {T} : Mapstructure value T :=
  {| Decode _ := inl (Err "unexpected type"); Encode _ := (∅, None) |}.

#[export] Instance value_configs : Configs value := {|
  config_any := fun _ => {| v_protocols := {| mpc_Protocols := ∅ |} |};
  config_multi := {| Decode v := inr (v_protocols v); Encode _ := (∅, None) |};
  config_single := other_type; config_kubelet := other_type; config_events := other_type;
  config_cluster := other_type; config_objects := other_type; config_health := other_type;
  config_jaeger := other_type; config_untyped := other_type
|}.

#[export] Instance value_range : GoRange :=
  {| range_map A := map_to_list; range_map_perm A m := reflexivity _ |}.

Definition by_less {A} (less : A -> A -> bool) : relation A := fun a b => less b a = false.

#[export] Instance by_less_dec {A} (less : A -> A -> bool) : RelDecision (by_less less).
Proof. intros a b. unfold by_less. apply _. Defined.

#[export] Program Instance value_sort : GoSort := {|
  sort_slice A less := merge_sort (by_less less);
  sort_slice_perm A less := merge_sort_Permutation (by_less less)
|}.
Next Obligation.
  intros A less l (Hirr & Htr & Hneg). apply StronglySorted_merge_sort.
  - intros a b c Hab Hbc. by apply (Hneg c b a).
  - intros a b. unfold by_less. destruct (less b a) eqn:E; [right | by left].
    destruct (less a b) eqn:E'; [| done]. by rewrite <- (Hirr a), (Htr a b a).
Defined.

(** One receiver, otlp, with gRPC and HTTP. *)
Definition otlp_config : value :=
  {| v_protocols := {| mpc_Protocols := {["grpc" := None; "http" := None]} |} |}.

Definition otlp_ports : list ServicePort :=
  [{| sp_Name := "otlp-grpc"; sp_Protocol := ""; sp_AppProtocol := Some "grpc"; sp_Port := 4317;
      sp_TargetPort := FromInt32 4317; sp_NodePort := 0 |};
   {| sp_Name := "otlp-http"; sp_Protocol := ""; sp_AppProtocol := Some "http"; sp_Port := 4318;
      sp_TargetPort := FromInt32 4318; sp_NodePort := 0 |}].

#[export] Instance otlp_only : OtelConfig unit value := {|
  GetEnabledComponents _ kind := match kind with KindReceiver => {["otlp" := tt]} | _ => ∅ end;
  Receivers _ _ := otlp_config;
  Exporters _ _ := otlp_config;
  GetReceiverPorts _ := (otlp_ports, None);
  GetAllPorts _ := (otlp_ports, None)
|}.

Definition gateway : OtelCollector unit :=
  {| oc_ObjectMeta := named "gateway" "mdai"; oc_Image := "otel/collector:0.131";
     oc_Mode := "deployment";
     oc_Ingress := {| oi_Type := ""; oi_RuleType := ""; oi_TLS := []; oi_IngressClassName := None |};
     oc_Ports := []; oc_Config := tt |}.

Definition gateway_ingress : MdaiIngress :=
  IngressWebhook.default_ingress
    {| mi_ObjectMeta := named "gateway" "mdai";
       mi_Spec := {| ing_OtelCollector := {| ocr_Name := "gateway" |}; ing_CloudType := "";
                     ing_Annotations := None; ing_IngressClassName := Some "alb";
                     ing_GrpcService := None; ing_NonGrpcService := None;
                     ing_CollectorEndpoints := Some {["otlp" := "otlp.grpc.some.domain"]} |} |}.

Definition gateway_params : OtelMdaiIngressComb unit :=
  {| comb_Otelcol := gateway; comb_MdaiIngress := gateway_ingress |}.

Definition int_value (v : IntOrString) : Z := match v with FromInt32 i => i | FromString _ => 0 end.

Definition gateway_registries : registries (Any:=value) :=
  {| reg_receivers := match init_receivers int_value with Done reg => reg | Panics _ => ∅ end;
     reg_exporters := ∅ |}.
End Sample.

Import Sample.



Definition gateway_ports : gmap string (list PortUrlPaths) :=
  match (GetReceiverPortsWithUrlPaths int_value gateway_params gateway_registries).2 with
  | Done (inr m) => m
  | _ => ∅
  end.

Lemma gateway_ports_ok :
  exists regs', GetReceiverPortsWithUrlPaths int_value gateway_params gateway_registries
                = (regs', Done (inr gateway_ports)).
Proof.
  exists (GetReceiverPortsWithUrlPaths int_value gateway_params gateway_registries).1.
  assert (E : (GetReceiverPortsWithUrlPaths int_value gateway_params gateway_registries).2
              = Done (inr gateway_ports)) by (vm_compute; reflexivity).
  rewrite <- E. apply surjective_pairing.
Qed.

(** The ingress of the sample has a rule for its host. *)
Lemma ingress_rules_complete_witness :
  exists regs' r comps,
    IngressAws int_value id gateway_params gateway_registries = (regs', Done (inr r))
    /\ ingress_rules r ≡ₚ concat (map (fun '(comp, ps) =>
         rules_of id "gateway" (Some {["otlp" := "otlp.grpc.some.domain"]}) comp ps) comps)
    /\ StronglySorted (fun a b => String.le (ir_Host a) (ir_Host b)) (ingress_rules r).
Proof.
  destruct gateway_ports_ok as [regs' E]. exists regs'.
  destruct (ingress_rules_complete int_value id gateway_params gateway_registries regs' gateway_ports E)
    as (r & comps & Hr & _ & _ & Hp & Hs & _).
  - right. left.
  - discriminate.
  - exists r, comps. split; [exact Hr | split; [exact Hp | exact Hs]].
Defined.


(** The sample's ingress: one rule, with the three gRPC services of otlp. *)
Example gateway_manifests :
  match (Build int_value id (fun _ => None) gateway_params gateway_registries).2 with
  | Done (inr [OIngress i; OService g; OService n]) =>
      map ir_Host (ig_Rules i) = ["otlp.grpc.some.domain"]
      /\ map sp_Name (svc_Ports g) = ["otlp-grpc"] /\ map sp_Name (svc_Ports n) = ["otlp-http"]
      /\ ig_IngressClassName i = None
  | _ => False
  end.
Proof. vm_compute. by repeat split. Qed.
