(* ===== verification/Builders.v ===== *)
(** * internal/builder: containers, deployments and services

    container.go, deployment.go and service.go.  A builder is a Go pointer
    whose methods write one field and return it; here each method maps the
    object to the object.  The last part shows that two keys written again
    change nothing, which the adapters' closures rely on. *)

From S2P Require Import Prelude GoLib ApiTypes Errors Components K8sObjects.

(** ** container.go *)

Definition Container (name image : string) : Container_ :=
  {| ct_Name := name; ct_Image := image; ct_Command := []; ct_Ports := []; ct_VolumeMounts := [];
     ct_Env := []; ct_EnvFrom := []; ct_SecurityContext := None; ct_LivenessProbe := None;
     ct_ReadinessProbe := None; ct_ImagePullPolicy := ""; ct_Resources := None |}.

Definition WithCommand (cmd : list string) (b : Container_) : Container_ :=
  {| ct_Name := ct_Name b; ct_Image := ct_Image b; ct_Command := cmd; ct_Ports := ct_Ports b;
     ct_VolumeMounts := ct_VolumeMounts b; ct_Env := ct_Env b; ct_EnvFrom := ct_EnvFrom b;
     ct_SecurityContext := ct_SecurityContext b; ct_LivenessProbe := ct_LivenessProbe b;
     ct_ReadinessProbe := ct_ReadinessProbe b; ct_ImagePullPolicy := ct_ImagePullPolicy b;
     ct_Resources := ct_Resources b |}.

Definition WithPorts (ports : list ContainerPort) (b : Container_) : Container_ :=
  {| ct_Name := ct_Name b; ct_Image := ct_Image b; ct_Command := ct_Command b; ct_Ports := ports;
     ct_VolumeMounts := ct_VolumeMounts b; ct_Env := ct_Env b; ct_EnvFrom := ct_EnvFrom b;
     ct_SecurityContext := ct_SecurityContext b; ct_LivenessProbe := ct_LivenessProbe b;
     ct_ReadinessProbe := ct_ReadinessProbe b; ct_ImagePullPolicy := ct_ImagePullPolicy b;
     ct_Resources := ct_Resources b |}.

Definition WithVolumeMounts (mounts : list VolumeMount) (b : Container_) : Container_ :=
  {| ct_Name := ct_Name b; ct_Image := ct_Image b; ct_Command := ct_Command b;
     ct_Ports := ct_Ports b; ct_VolumeMounts := ct_VolumeMounts b ++ mounts; ct_Env := ct_Env b;
     ct_EnvFrom := ct_EnvFrom b; ct_SecurityContext := ct_SecurityContext b;
     ct_LivenessProbe := ct_LivenessProbe b; ct_ReadinessProbe := ct_ReadinessProbe b;
     ct_ImagePullPolicy := ct_ImagePullPolicy b; ct_Resources := ct_Resources b |}.

Definition WithEnv (env : list SecretEnv) (b : Container_) : Container_ :=
  {| ct_Name := ct_Name b; ct_Image := ct_Image b; ct_Command := ct_Command b;
     ct_Ports := ct_Ports b; ct_VolumeMounts := ct_VolumeMounts b; ct_Env := ct_Env b ++ env;
     ct_EnvFrom := ct_EnvFrom b; ct_SecurityContext := ct_SecurityContext b;
     ct_LivenessProbe := ct_LivenessProbe b; ct_ReadinessProbe := ct_ReadinessProbe b;
     ct_ImagePullPolicy := ct_ImagePullPolicy b; ct_Resources := ct_Resources b |}.

Definition WithEnvFrom (envFrom : list EnvFromSource) (b : Container_) : Container_ :=
  {| ct_Name := ct_Name b; ct_Image := ct_Image b; ct_Command := ct_Command b;
     ct_Ports := ct_Ports b; ct_VolumeMounts := ct_VolumeMounts b; ct_Env := ct_Env b;
     ct_EnvFrom := ct_EnvFrom b ++ envFrom; ct_SecurityContext := ct_SecurityContext b;
     ct_LivenessProbe := ct_LivenessProbe b; ct_ReadinessProbe := ct_ReadinessProbe b;
     ct_ImagePullPolicy := ct_ImagePullPolicy b; ct_Resources := ct_Resources b |}.

Definition WithSecurityContext (sc : SecurityContext) (b : Container_) : Container_ :=
  {| ct_Name := ct_Name b; ct_Image := ct_Image b; ct_Command := ct_Command b;
     ct_Ports := ct_Ports b; ct_VolumeMounts := ct_VolumeMounts b; ct_Env := ct_Env b;
     ct_EnvFrom := ct_EnvFrom b; ct_SecurityContext := Some sc;
     ct_LivenessProbe := ct_LivenessProbe b; ct_ReadinessProbe := ct_ReadinessProbe b;
     ct_ImagePullPolicy := ct_ImagePullPolicy b; ct_Resources := ct_Resources b |}.

Definition WithEnvFromConfigMap (configMapName : string) (b : Container_) : Container_ :=
  WithEnvFrom [EnvFromConfigMap configMapName] b.

Definition WithEnvFromSecret (secretName : string) (b : Container_) : Container_ :=
  WithEnvFrom [EnvFromSecret secretName] b.

Definition WithAWSSecret (secretName : option string) (b : Container_) : Container_ :=
  match secretName with
  | Some secretName => WithEnvFrom [EnvFromSecret secretName] b
  | None => b
  end.

Definition WithEnvFromSecretKey (envVarName secretName key : string) (b : Container_) : Container_ :=
  if bool_decide (secretName = "") || bool_decide (key = "") || bool_decide (envVarName = "") then b
  else WithEnv [{| se_Name := envVarName; se_SecretName := secretName; se_Key := key |}] b.

Definition WithLivenessProbe (livenessProbe : ContainerProbe) (b : Container_) : Container_ :=
  {| ct_Name := ct_Name b; ct_Image := ct_Image b; ct_Command := ct_Command b;
     ct_Ports := ct_Ports b; ct_VolumeMounts := ct_VolumeMounts b; ct_Env := ct_Env b;
     ct_EnvFrom := ct_EnvFrom b; ct_SecurityContext := ct_SecurityContext b;
     ct_LivenessProbe := Some livenessProbe; ct_ReadinessProbe := ct_ReadinessProbe b;
     ct_ImagePullPolicy := ct_ImagePullPolicy b; ct_Resources := ct_Resources b |}.

Definition WithReadinessProbe (readinessProbe : ContainerProbe) (b : Container_) : Container_ :=
  {| ct_Name := ct_Name b; ct_Image := ct_Image b; ct_Command := ct_Command b;
     ct_Ports := ct_Ports b; ct_VolumeMounts := ct_VolumeMounts b; ct_Env := ct_Env b;
     ct_EnvFrom := ct_EnvFrom b; ct_SecurityContext := ct_SecurityContext b;
     ct_LivenessProbe := ct_LivenessProbe b; ct_ReadinessProbe := Some readinessProbe;
     ct_ImagePullPolicy := ct_ImagePullPolicy b; ct_Resources := ct_Resources b |}.

Definition WithImagePullPolicy (pullPolicy : string) (b : Container_) : Container_ :=
  {| ct_Name := ct_Name b; ct_Image := ct_Image b; ct_Command := ct_Command b;
     ct_Ports := ct_Ports b; ct_VolumeMounts := ct_VolumeMounts b; ct_Env := ct_Env b;
     ct_EnvFrom := ct_EnvFrom b; ct_SecurityContext := ct_SecurityContext b;
     ct_LivenessProbe := ct_LivenessProbe b; ct_ReadinessProbe := ct_ReadinessProbe b;
     ct_ImagePullPolicy := pullPolicy; ct_Resources := ct_Resources b |}.

(** ** deployment.go *)

(** A write to a map that is made when it is [nil]. *)
Definition set_key (m : option (gmap string string)) (key value : string)
  : option (gmap string string) := Some (<[key := value]> (gomap m)).

Definition label_meta (m : ObjectMeta) (key value : string) : ObjectMeta :=
  with_labels m (set_key (om_Labels m) key value).

Module Deployment.
Definition WithLabel (key value : string) (b : Deployment_) : Deployment_ :=
  {| dep_ObjectMeta := label_meta (dep_ObjectMeta b) key value; dep_Replicas := dep_Replicas b;
     dep_Selector := dep_Selector b; dep_TemplateLabels := dep_TemplateLabels b;
     dep_TemplateAnnotations := dep_TemplateAnnotations b;
     dep_ServiceAccountName := dep_ServiceAccountName b; dep_Containers := dep_Containers b;
     dep_Volumes := dep_Volumes b; dep_Tolerations := dep_Tolerations b |}.

Definition WithSelectorLabel (key value : string) (b : Deployment_) : Deployment_ :=
  {| dep_ObjectMeta := dep_ObjectMeta b; dep_Replicas := dep_Replicas b;
     dep_Selector := Some (set_key (default None (dep_Selector b)) key value);
     dep_TemplateLabels := dep_TemplateLabels b;
     dep_TemplateAnnotations := dep_TemplateAnnotations b;
     dep_ServiceAccountName := dep_ServiceAccountName b; dep_Containers := dep_Containers b;
     dep_Volumes := dep_Volumes b; dep_Tolerations := dep_Tolerations b |}.

Definition WithTemplateLabel (key value : string) (b : Deployment_) : Deployment_ :=
  {| dep_ObjectMeta := dep_ObjectMeta b; dep_Replicas := dep_Replicas b;
     dep_Selector := dep_Selector b;
     dep_TemplateLabels := set_key (dep_TemplateLabels b) key value;
     dep_TemplateAnnotations := dep_TemplateAnnotations b;
     dep_ServiceAccountName := dep_ServiceAccountName b; dep_Containers := dep_Containers b;
     dep_Volumes := dep_Volumes b; dep_Tolerations := dep_Tolerations b |}.

Definition WithTemplateAnnotation (key value : string) (b : Deployment_) : Deployment_ :=
  {| dep_ObjectMeta := dep_ObjectMeta b; dep_Replicas := dep_Replicas b;
     dep_Selector := dep_Selector b; dep_TemplateLabels := dep_TemplateLabels b;
     dep_TemplateAnnotations := set_key (dep_TemplateAnnotations b) key value;
     dep_ServiceAccountName := dep_ServiceAccountName b; dep_Containers := dep_Containers b;
     dep_Volumes := dep_Volumes b; dep_Tolerations := dep_Tolerations b |}.

Definition WithReplicas (n : Z) (b : Deployment_) : Deployment_ :=
  {| dep_ObjectMeta := dep_ObjectMeta b; dep_Replicas := Some n; dep_Selector := dep_Selector b;
     dep_TemplateLabels := dep_TemplateLabels b;
     dep_TemplateAnnotations := dep_TemplateAnnotations b;
     dep_ServiceAccountName := dep_ServiceAccountName b; dep_Containers := dep_Containers b;
     dep_Volumes := dep_Volumes b; dep_Tolerations := dep_Tolerations b |}.

Definition WithServiceAccount (name : string) (b : Deployment_) : Deployment_ :=
  {| dep_ObjectMeta := dep_ObjectMeta b; dep_Replicas := dep_Replicas b;
     dep_Selector := dep_Selector b; dep_TemplateLabels := dep_TemplateLabels b;
     dep_TemplateAnnotations := dep_TemplateAnnotations b; dep_ServiceAccountName := name;
     dep_Containers := dep_Containers b; dep_Volumes := dep_Volumes b;
     dep_Tolerations := dep_Tolerations b |}.

Definition WithContainers (containers : list Container_) (b : Deployment_) : Deployment_ :=
  {| dep_ObjectMeta := dep_ObjectMeta b; dep_Replicas := dep_Replicas b;
     dep_Selector := dep_Selector b; dep_TemplateLabels := dep_TemplateLabels b;
     dep_TemplateAnnotations := dep_TemplateAnnotations b;
     dep_ServiceAccountName := dep_ServiceAccountName b; dep_Containers := containers;
     dep_Volumes := dep_Volumes b; dep_Tolerations := dep_Tolerations b |}.

Definition WithVolumes (volumes : list Volume) (b : Deployment_) : Deployment_ :=
  {| dep_ObjectMeta := dep_ObjectMeta b; dep_Replicas := dep_Replicas b;
     dep_Selector := dep_Selector b; dep_TemplateLabels := dep_TemplateLabels b;
     dep_TemplateAnnotations := dep_TemplateAnnotations b;
     dep_ServiceAccountName := dep_ServiceAccountName b; dep_Containers := dep_Containers b;
     dep_Volumes := volumes; dep_Tolerations := dep_Tolerations b |}.

Definition TolerationOpExists : string := "Exists".

(** The loop: an empty toleration is dropped, one without a key tolerates
    every key. *)
Fixpoint valid_tolerations (tolerations : list Toleration) : list Toleration :=
  match tolerations with
  | [] => []
  | t :: tolerations =>
      if bool_decide (tol_Key t = "") && bool_decide (tol_Operator t = "")
      then valid_tolerations tolerations
      else
        let t := if bool_decide (tol_Key t = "") && negb (bool_decide (tol_Operator t = TolerationOpExists))
                 then {| tol_Key := tol_Key t; tol_Operator := TolerationOpExists;
                         tol_Value := tol_Value t; tol_Effect := tol_Effect t;
                         tol_Seconds := tol_Seconds t |}
                 else t in
        t :: valid_tolerations tolerations
  end.

(** The empty slice is [nil]. *)
Definition WithTolerations (tolerations : list Toleration) (b : Deployment_) : Deployment_ :=
  {| dep_ObjectMeta := dep_ObjectMeta b; dep_Replicas := dep_Replicas b;
     dep_Selector := dep_Selector b; dep_TemplateLabels := dep_TemplateLabels b;
     dep_TemplateAnnotations := dep_TemplateAnnotations b;
     dep_ServiceAccountName := dep_ServiceAccountName b; dep_Containers := dep_Containers b;
     dep_Volumes := dep_Volumes b; dep_Tolerations := valid_tolerations tolerations |}.

End Deployment.

(** ** service.go *)

Module Service.
Definition WithLabel (key value : string) (b : Service_) : Service_ :=
  {| svc_ObjectMeta := label_meta (svc_ObjectMeta b) key value; svc_Selector := svc_Selector b;
     svc_Ports := svc_Ports b; svc_Type := svc_Type b;
     svc_InternalTrafficPolicy := svc_InternalTrafficPolicy b |}.

Definition WithSelectorLabel (key value : string) (b : Service_) : Service_ :=
  {| svc_ObjectMeta := svc_ObjectMeta b; svc_Selector := set_key (svc_Selector b) key value;
     svc_Ports := svc_Ports b; svc_Type := svc_Type b;
     svc_InternalTrafficPolicy := svc_InternalTrafficPolicy b |}.

Definition WithPorts (ports : list ServicePort) (b : Service_) : Service_ :=
  {| svc_ObjectMeta := svc_ObjectMeta b; svc_Selector := svc_Selector b; svc_Ports := ports;
     svc_Type := svc_Type b;
     svc_InternalTrafficPolicy := svc_InternalTrafficPolicy b |}.

Definition WithType (svcType : string) (b : Service_) : Service_ :=
  {| svc_ObjectMeta := svc_ObjectMeta b; svc_Selector := svc_Selector b;
     svc_Ports := svc_Ports b; svc_Type := svcType;
     svc_InternalTrafficPolicy := svc_InternalTrafficPolicy b |}.

End Service.

(** ** Lemmas *)

Lemma set_key_again m k v : set_key (set_key m k v) k v = set_key m k v.
Proof. unfold set_key. simpl. by rewrite insert_insert_eq. Qed.

Lemma set_key_again_two m k v k' v' :
  set_key (set_key (set_key (set_key m k v) k' v') k v) k' v' = set_key (set_key m k v) k' v'.
Proof.
  unfold set_key. simpl. f_equal. apply map_eq. intros i.
  destruct (decide (i = k')) as [->|?]; [by rewrite !lookup_insert_eq |].
  rewrite !(lookup_insert_ne _ k' i) by done.
  destruct (decide (i = k)) as [->|?]; [by rewrite !lookup_insert_eq |].
  by rewrite !lookup_insert_ne.
Qed.

Lemma label_meta_again_two m k v k' v' :
  label_meta (label_meta (label_meta (label_meta m k v) k' v') k v) k' v'
  = label_meta (label_meta m k v) k' v'.
Proof.
  unfold label_meta, with_labels. cbn [om_Labels om_Name om_Namespace om_UID om_Generation
    om_Annotations om_Finalizers om_OwnerReferences om_DeletionTimestamp om_CreationTimestamp].
  by rewrite set_key_again_two.
Qed.

(** Several keys written one after the other. *)
Definition set_keys (m : option (gmap string string)) (l : list (string * string))
  : option (gmap string string) := fold_left (fun m '(k, v) => set_key m k v) l m.

Lemma set_keys_lookup l m k :
  NoDup (map fst l) ->
  gomap (set_keys m l) !! k
  = match list_to_map (M:=gmap string string) l !! k with Some v => Some v | None => gomap m !! k end.
Proof.
  unfold set_keys. revert m. induction l as [|[k' v] l IH]; intros m Hn; simpl; [by rewrite lookup_empty |].
  apply NoDup_cons in Hn as [Hk Hn]. rewrite IH by done.
  destruct (decide (k' = k)) as [->|Hne].
  - rewrite lookup_insert_eq. rewrite not_elem_of_list_to_map_1 by done. apply lookup_insert_eq.
  - rewrite lookup_insert_ne by done. destruct (list_to_map l !! k); [done |]. by apply lookup_insert_ne.
Qed.

Lemma set_keys_elem l m k v :
  NoDup (map fst l) -> (k, v) ∈ l -> gomap (set_keys m l) !! k = Some v.
Proof. intros Hn Hin. rewrite set_keys_lookup by done. by rewrite (elem_of_list_to_map_1 l k v). Qed.

Lemma set_keys_Some l m : l <> [] -> is_Some (set_keys m l).
Proof.
  unfold set_keys. revert m. induction l as [|[k v] l IH]; intros m Hl; [done |]. simpl.
  destruct l; [by eexists | by apply IH].
Qed.

Lemma set_keys_again m l : NoDup (map fst l) -> set_keys (set_keys m l) l = set_keys m l.
Proof.
  intros Hn. destruct (decide (l = [])) as [->|Hl]; [done |].
  destruct (set_keys_Some l m Hl) as [g Eg]. destruct (set_keys_Some l (set_keys m l) Hl) as [g' Eg'].
  rewrite Eg'. rewrite Eg. f_equal. apply map_eq. intros k.
  pose proof (set_keys_lookup l (set_keys m l) k Hn) as H1. pose proof (set_keys_lookup l m k Hn) as H2.
  rewrite Eg', Eg in H1. rewrite Eg in H2. simpl in H1, H2. rewrite H1, H2. by destruct (list_to_map l !! k).
Qed.

(** Nothing but the keys that are written. *)
Lemma set_keys_subseteq l m (m' : gmap string string) :
  NoDup (map fst l) -> gomap m ⊆ list_to_map l -> (forall k v, (k, v) ∈ l -> m' !! k = Some v) ->
  gomap (set_keys m l) ⊆ m'.
Proof.
  intros Hn Hm Hl. apply map_subseteq_spec. intros k v. rewrite set_keys_lookup by done.
  destruct (list_to_map l !! k) as [v'|] eqn:E.
  - intros [= <-]. apply Hl. by apply elem_of_list_to_map_2.
  - intros Hk. eapply lookup_weaken in Hk; [| exact Hm]. congruence.
Qed.

Definition label_keys (m : ObjectMeta) (l : list (string * string)) : ObjectMeta :=
  fold_left (fun m '(k, v) => label_meta m k v) l m.

Lemma label_keys_labels m l : om_Labels (label_keys m l) = set_keys (om_Labels m) l.
Proof. unfold label_keys, set_keys. revert m. induction l as [|[k v] l IH]; intros m; [done | apply IH]. Qed.

Lemma label_keys_meta m l : l <> [] -> label_keys m l = with_labels m (set_keys (om_Labels m) l).
Proof.
  unfold label_keys, set_keys. revert m. induction l as [|[k v] l IH]; intros m Hl; [done |].
  destruct l as [|p l]; [done |]. simpl in *. by rewrite IH.
Qed.

Lemma label_keys_again m l : NoDup (map fst l) -> label_keys (label_keys m l) l = label_keys m l.
Proof.
  intros Hn. destruct (decide (l = [])) as [->|Hl]; [done |].
  rewrite (label_keys_meta m l), (label_keys_meta _ l) by done.
  unfold with_labels. cbn [om_Labels om_Name om_Namespace om_UID om_Generation
    om_Annotations om_Finalizers om_OwnerReferences om_DeletionTimestamp om_CreationTimestamp].
  by rewrite set_keys_again.
Qed.
