(* ===== verification/ConfigBlock.v ===== *)
(** * internal/builder/otelconfig.go: blocks of a collector configuration

    A [ConfigBlock] is a tree of Go values under string keys.  The typed
    getters return the value when it is there and has the type; the [Must...]
    ones panic otherwise.  [MustMap] returns a map that shares its storage with
    the block it comes from: [within] gives that view, an update of the part
    being an update of the whole. *)

From S2P Require Import Prelude GoLib ApiTypes Errors.

(** An entry of a routing connector's table. *)
Record routingConnectorTableEntry := {
  rt_Context : string;
  rt_Condition : string;
  rt_Pipelines : list string
}.

(** The values the controllers put into a configuration: with [ABlock] for a
    [ConfigBlock] and [ANamed] for a string of a named type, which no getter
    takes for a map or a string. *)
Inductive any :=
| AString (s : string)
| AInt (i : Z)
| AFloat (text : string)
| ABool (b : bool)
| ASlice (l : list any)
| AMap (m : gmap string any)
| ABlock (m : gmap string any)
| AStrings (l : list string)
| AStringMap (m : gmap string string)
| AStringPtr (s : string)
| ANamed (s : string)
| AOtlpExporter (endpoint : string) (insecure : bool)
| AS3Exporter (region bucket prefix partition file_prefix : string) (disable_ssl : bool)
| ARoutingTable (entries : list routingConnectorTableEntry).

Abbreviation ConfigBlock := (gmap string any).

(** ** Getters *)

(** Type assertions. *)
Definition as_map (v : any) : option ConfigBlock := match v with AMap m => Some m | _ => None end.
Definition as_slice (v : any) : option (list any) := match v with ASlice l => Some l | _ => None end.
Definition as_string (v : any) : option string := match v with AString s => Some s | _ => None end.
Definition as_int (v : any) : option Z := match v with AInt i => Some i | _ => None end.
Definition as_float (v : any) : option string := match v with AFloat f => Some f | _ => None end.

Definition getAs {T} (as_ : any -> option T) (m : ConfigBlock) (key : string) : option T :=
  match m !! key with
  | None => None
  | Some v => as_ v
  end.

Definition mustGetAs {T} (as_ : any -> option T) (m : ConfigBlock) (key : string) : go T :=
  match getAs as_ m key with
  | None => Panics ("unexpected type at key " +:+ quote key)
  | Some v => Done v
  end.

Definition GetMap (c : ConfigBlock) (key : string) : option ConfigBlock := getAs as_map c key.
Definition MustMap (c : ConfigBlock) (key : string) : go ConfigBlock := mustGetAs as_map c key.
Definition GetSlice (c : ConfigBlock) (key : string) : option (list any) := getAs as_slice c key.
Definition MustSlice (c : ConfigBlock) (key : string) : go (list any) := mustGetAs as_slice c key.
Definition GetString (c : ConfigBlock) (key : string) : option string := getAs as_string c key.
Definition MustString (c : ConfigBlock) (key : string) : go string := mustGetAs as_string c key.
Definition GetInt (c : ConfigBlock) (key : string) : option Z := getAs as_int c key.
Definition MustInt (c : ConfigBlock) (key : string) : go Z := mustGetAs as_int c key.
Definition GetFloat (c : ConfigBlock) (key : string) : option string := getAs as_float c key.
Definition MustFloat (c : ConfigBlock) (key : string) : go string := mustGetAs as_float c key.

(** A write to the shared map. *)
Definition Set_ (c : ConfigBlock) (key : string) (value : any) : ConfigBlock := <[key := value]> c.

(** [yaml.Marshal] is a parameter. *)
Definition YAML (Marshal : ConfigBlock -> error + string) (c : ConfigBlock) : error + string :=
  match Marshal c with
  | inl err => inl err
  | inr b => inr b
  end.

(** ** Sharing *)

(** What [c.MustMap(k1)...MustMap(kn)] followed by writes does to [c]. *)
Fixpoint within (path : list string) (f : ConfigBlock -> go ConfigBlock) (c : ConfigBlock)
  : go ConfigBlock :=
  match path with
  | [] => f c
  | key :: path =>
      let! m := MustMap c key in
      let! m := within path f m in
      Done (Set_ c key (AMap m))
  end.

(** The block at a path. *)
Fixpoint block_at (path : list string) (c : ConfigBlock) : option ConfigBlock :=
  match path with
  | [] => Some c
  | key :: path => match GetMap c key with Some m => block_at path m | None => None end
  end.

(** ** Lemmas *)

Lemma MustMap_Done c key m : MustMap c key = Done m <-> c !! key = Some (AMap m).
Proof.
  unfold MustMap, mustGetAs, getAs. destruct (c !! key) as [v|]; [| done].
  destruct v; simpl; split; by intros [=]; subst.
Qed.

Lemma GetMap_Some c key m : GetMap c key = Some m <-> c !! key = Some (AMap m).
Proof.
  unfold GetMap, getAs. destruct (c !! key) as [v|]; [| done].
  destruct v; simpl; split; by intros [=]; subst.
Qed.

Lemma GetMap_Set_eq c key m : GetMap (Set_ c key (AMap m)) key = Some m.
Proof. apply GetMap_Some, lookup_insert_eq. Qed.

Lemma GetMap_Set_ne c key key' v : key <> key' -> GetMap (Set_ c key v) key' = GetMap c key'.
Proof. intros Hne. unfold GetMap, getAs, Set_. by rewrite lookup_insert_ne. Qed.

Lemma within_Done path f c m m' :
  block_at path c = Some m -> f m = Done m' ->
  exists c', within path f c = Done c' /\ block_at path c' = Some m'.
Proof.
  revert c. induction path as [|key path IH]; intros c; simpl.
  - intros [= ->] ->. by exists m'.
  - destruct (GetMap c key) as [n|] eqn:E; [| done]. intros Hb Hf.
    destruct (IH n Hb Hf) as (n' & Hw & Hb').
    rewrite (proj2 (MustMap_Done c key n)) by by apply GetMap_Some. simpl. rewrite Hw. simpl.
    eexists. split; [done |]. unfold Set_. by rewrite (proj2 (GetMap_Some _ key n')) by apply lookup_insert_eq.
Qed.

(** Two paths that part ways. *)
Fixpoint apart (p q : list string) : Prop :=
  match p, q with
  | k :: p, l :: q => k <> l \/ (k = l /\ apart p q)
  | _, _ => False
  end.

Lemma within_other path f c c' q :
  within path f c = Done c' -> apart path q -> block_at q c' = block_at q c.
Proof.
  revert c c' q. induction path as [|key path IH]; intros c c' [|l q]; simpl; try done.
  intros Hw Ha. destruct (MustMap c key) as [m|] eqn:E; [| done]. simpl in Hw.
  destruct (within path f m) as [m'|] eqn:Ew; [| done]. simpl in Hw. injection Hw as <-.
  apply MustMap_Done in E. unfold Set_. destruct (decide (key = l)) as [->|Hne].
  - destruct Ha as [?|[_ Ha]]; [done |].
    rewrite (proj2 (GetMap_Some _ l m')) by apply lookup_insert_eq.
    rewrite (proj2 (GetMap_Some c l m)) by done. by eapply IH.
  - unfold GetMap, getAs. by rewrite lookup_insert_ne.
Qed.

Lemma MustMap_GetMap c key m : GetMap c key = Some m -> MustMap c key = Done m.
Proof. intros E. by apply MustMap_Done, GetMap_Some. Qed.

(** A write below a key that is there leaves the other keys alone. *)
Lemma within_lookup key path f c c' :
  within (key :: path) f c = Done c' ->
  (forall k, k <> key -> c' !! k = c !! k)
  /\ exists m m', GetMap c key = Some m /\ within path f m = Done m' /\ GetMap c' key = Some m'.
Proof.
  simpl. destruct (MustMap c key) as [m|] eqn:Em; [| done]. simpl.
  destruct (within path f m) as [m'|] eqn:Ew; [| done]. simpl. intros [= <-]. split.
  - intros k Hk. unfold Set_. by rewrite lookup_insert_ne.
  - exists m, m'. rewrite GetMap_Set_eq. by apply MustMap_Done, GetMap_Some in Em.
Qed.

Lemma within_defined key path f c c' k :
  within (key :: path) f c = Done c' -> is_Some (c !! k) -> is_Some (c' !! k).
Proof.
  intros Hw. destruct (decide (k = key)) as [->|Hk].
  - apply within_lookup in Hw as [_ (m & m' & _ & _ & E)]. apply GetMap_Some in E. eauto.
  - apply within_lookup in Hw as [E _]. by rewrite E.
Qed.

(** ** Pipelines

    What the collector requires of the pipelines of its configuration: each
    has receivers and exporters, and what it names is defined in a section of
    the configuration; a connector stands on both sides. *)

Definition names_in (p : ConfigBlock) (kind : string) : list string :=
  match p !! kind with
  | Some (AStrings l) => l
  | Some (ASlice l) => omap as_string l
  | _ => []
  end.

(** A section of the document that is written. *)
Definition section (config : ConfigBlock) (key : string) : option ConfigBlock :=
  match config !! key with
  | Some (AMap m) | Some (ABlock m) => Some m
  | _ => None
  end.

Lemma section_map config key m : GetMap config key = Some m -> section config key = Some m.
Proof. intros E%GetMap_Some. unfold section. by rewrite E. Qed.

Lemma section_Set_ne c key key' v : key <> key' -> section (Set_ c key v) key' = section c key'.
Proof. intros Hne. unfold section, Set_. by rewrite lookup_insert_ne. Qed.

Definition defines (config : ConfigBlock) (sections : list string) (name : string) : Prop :=
  exists s m, s ∈ sections /\ section config s = Some m /\ is_Some (m !! name).

Lemma defines_in config sections sections' name :
  defines config sections name -> sections ⊆ sections' -> defines config sections' name.
Proof. intros (s & m & Hs & Hm) Hsub. exists s, m. split; [by apply Hsub | done]. Qed.

Record valid_pipeline (config p : ConfigBlock) : Prop := {
  vp_receivers : names_in p "receivers" <> []
                 /\ Forall (defines config ["receivers"; "connectors"]) (names_in p "receivers");
  vp_processors : Forall (defines config ["processors"]) (names_in p "processors");
  vp_exporters : names_in p "exporters" <> []
                 /\ Forall (defines config ["exporters"; "connectors"]) (names_in p "exporters")
}.

Definition valid_pipelines (config : ConfigBlock) : Prop :=
  exists pipelines, block_at ["service"; "pipelines"] config = Some pipelines
    /\ pipelines <> ∅
    /\ (forall k v, pipelines !! k = Some v -> exists p, v = AMap p /\ valid_pipeline config p)
    /\ (forall connectors c, section config "connectors" = Some connectors -> is_Some (connectors !! c) ->
          exists k k' p p', pipelines !! k = Some (AMap p) /\ pipelines !! k' = Some (AMap p')
            /\ c ∈ names_in p "exporters" /\ c ∈ names_in p' "receivers").

(** ** internal/manifests/collector/adapters/config_from.go *)

Definition ErrInvalidYAML : error := Err "couldn't parse the opentelemetry-collector configuration".

(** The YAML decoder is a parameter; its own message is lost. *)
Definition ConfigFromString {Map : Type} (Unmarshal : string -> error + Map) (configStr : string) : error + Map :=
  match Unmarshal configStr with
  | inl _ => inl ErrInvalidYAML
  | inr config => inr config
  end.
