(* ===== verification/CollectorConfig.v ===== *)
(** * internal/controller: the configuration of an MDAI collector

    The part of mdaicollector_adapter.go that computes the collector's
    configuration from the log destinations: exporters, pipelines and the
    table of the routing connector.  The maps that the code shares between the
    configuration and its local variables are threaded, and put back where
    they come from.  The specification lists the routes a log configuration
    asks for; the theorems show that the configuration has exactly those and
    that every name it refers to is defined. *)

From S2P Require Import Prelude GoLib ApiTypes Errors Components ConfigBlock.

(** ** Tables *)

Definition S3PartitionFormat : string := "%Y/%m/%d/%H".

Definition severityFilterMap : gmap string string :=
  {[DebugSeverityLevel := "filter/severity_min_debug";
    InfoSeverityLevel := "filter/severity_min_info";
    WarnSeverityLevel := "filter/severity_min_warn";
    ErrorSeverityLevel := "filter/severity_min_error"]}.

Definition routingTableContextMap : gmap string string :=
  {[CollectorLogstream := "resource"; HubLogstream := "resource"; AuditLogstream := "log"]}.

Definition logstream_condition (s : string) : string :=
  "attributes[" +:+ quote "mdai-logstream" +:+ "] == " +:+ quote s.

Definition routingTableConditionMap : gmap string string :=
  {[CollectorLogstream := logstream_condition "collector";
    HubLogstream := logstream_condition "hub";
    AuditLogstream := logstream_condition "audit"]}.

(** [m[key]]: the zero value when the key is missing. *)
Definition map_get (m : gmap string string) (key : string) : string := default "" (m !! key).

(** ** Routes *)

Abbreviation routingTable := (gmap string routingConnectorTableEntry).

Definition addOrCreateRoutingTableEntryWithPipeline (rt : routingTable) (logstream : MDAILogStream)
    (pipelineName : string) : routingTable :=
  if bool_decide (logstream = OtherLogstream) then rt
  else
    match rt !! logstream with
    | None =>
        <[logstream := {| rt_Context := map_get routingTableContextMap logstream;
                          rt_Condition := map_get routingTableConditionMap logstream;
                          rt_Pipelines := [pipelineName] |}]> rt
    | Some entry =>
        <[logstream := {| rt_Context := rt_Context entry; rt_Condition := rt_Condition entry;
                          rt_Pipelines := rt_Pipelines entry ++ [pipelineName] |}]> rt
    end.

Definition getOtlpExporterForLogstream (otlpLogsConfig : OtlpLogsConfig) : string * any :=
  ("otlp", AOtlpExporter (otlp_Endpoint otlpLogsConfig) true).

Definition getS3ExporterForLogstream (hubName : string) (logstream : MDAILogStream)
    (s3LogsConfig : S3LogsConfig) : string * any :=
  let s3Prefix := hubName +:+ "-" +:+ logstream +:+ "-logs" in
  let exporterKey := "awss3/" +:+ logstream in
  let filePrefix := logstream +:+ "-" in
  (exporterKey, AS3Exporter (s3_S3Region s3LogsConfig) (s3_S3Bucket s3LogsConfig) s3Prefix
                  S3PartitionFormat filePrefix true).

Definition getPipelineWithExporterAndSeverityFilter (receiverName exporterName : string)
    (minSeverity : option SeverityLevel) (batchProcessor : string) : ConfigBlock :=
  let processors :=
    match minSeverity with
    | Some s =>
        let filter := map_get severityFilterMap s in
        if bool_decide (filter = "") then [] else [AString filter]
    | None => []
    end in
  let processors :=
    if bool_decide (batchProcessor = "") then processors else processors ++ [AString batchProcessor] in
  {["receivers" := ASlice [AString receiverName];
    "processors" := ASlice processors;
    "exporters" := ASlice [AString exporterName]]}.

(** The maps the augmentation writes to. *)
Record augmented := {
  au_exporters : ConfigBlock;
  au_pipelines : ConfigBlock;
  au_routingTable : routingTable
}.

Definition put_exporter (name : string) (exporter : any) (st : augmented) : augmented :=
  {| au_exporters := <[name := exporter]> (au_exporters st); au_pipelines := au_pipelines st;
     au_routingTable := au_routingTable st |}.

Definition put_pipeline (name : string) (pipeline : ConfigBlock) (st : augmented) : augmented :=
  {| au_exporters := au_exporters st; au_pipelines := <[name := ABlock pipeline]> (au_pipelines st);
     au_routingTable := au_routingTable st |}.

Definition put_route (logstream : MDAILogStream) (pipelineName : string) (st : augmented) : augmented :=
  {| au_exporters := au_exporters st; au_pipelines := au_pipelines st;
     au_routingTable :=
       addOrCreateRoutingTableEntryWithPipeline (au_routingTable st) logstream pipelineName |}.

Definition logstream_severity (config : option LogstreamConfig) : option SeverityLevel :=
  match config with Some c => ls_MinSeverity c | None => None end.

(** The name of the pipeline is returned with the maps. *)
Definition addPipelineForLogstream (logstreamConfig : option LogstreamConfig)
    (logstream : MDAILogStream) (otlpExporterName : string) (st : augmented) : string * augmented :=
  let minSeverity := logstream_severity logstreamConfig in
  let pipelineName := "logs/otlp_" +:+ logstream in
  let newPipeline :=
    getPipelineWithExporterAndSeverityFilter "routing/logstream" otlpExporterName minSeverity "" in
  (pipelineName, put_route logstream pipelineName (put_pipeline pipelineName newPipeline st)).

Definition addS3ComponentsAndPipeline (hubName : string) (logstream : MDAILogStream)
    (s3Config : S3LogsConfig) (minSeverity : option SeverityLevel) (st : augmented)
  : string * augmented :=
  let '(s3ExporterName, s3Exporter) := getS3ExporterForLogstream hubName logstream s3Config in
  let st := put_exporter s3ExporterName s3Exporter st in
  let pipelineName := "logs/s3_" +:+ logstream in
  let newPipeline :=
    getPipelineWithExporterAndSeverityFilter "routing/logstream" s3ExporterName minSeverity "batch" in
  (pipelineName, put_route logstream pipelineName (put_pipeline pipelineName newPipeline st)).

Definition audit_enabled (c : option AuditLogstreamConfig) : bool :=
  match c with None => true | Some c => negb (als_Disabled c) end.

Definition stream_enabled (c : option LogstreamConfig) : bool :=
  match c with None => true | Some c => negb (ls_Disabled c) end.

(** The default pipelines and the maps. *)
Definition augmentConfigForOtlpConfigAndGetOtherLogstreamPipelines (logsConfig : LogsConfig)
    (st : augmented) : list string * augmented :=
  match logs_Otlp logsConfig with
  | None => ([], st)
  | Some otlpConfig =>
      if bool_decide (otlp_Endpoint otlpConfig = "") then ([], st)
      else
        let '(otlpExporterName, otlpExporterCfg) := getOtlpExporterForLogstream otlpConfig in
        let st := put_exporter otlpExporterName otlpExporterCfg st in
        let st :=
          if audit_enabled (otlp_AuditLogs otlpConfig) then
            let pipelineName := "logs/otlp_" +:+ AuditLogstream in
            let newPipeline := getPipelineWithExporterAndSeverityFilter "routing/logstream"
                                 otlpExporterName None "batch/audit" in
            put_route AuditLogstream pipelineName (put_pipeline pipelineName newPipeline st)
          else st in
        let st :=
          if stream_enabled (otlp_CollectorLogs otlpConfig)
          then (addPipelineForLogstream (otlp_CollectorLogs otlpConfig) CollectorLogstream
                  otlpExporterName st).2
          else st in
        let st :=
          if stream_enabled (otlp_HubLogs otlpConfig)
          then (addPipelineForLogstream (otlp_HubLogs otlpConfig) HubLogstream otlpExporterName st).2
          else st in
        if stream_enabled (otlp_OtherLogs otlpConfig) then
          let '(pipelineName, st) := addPipelineForLogstream (otlp_OtherLogs otlpConfig)
                                       OtherLogstream otlpExporterName st in
          ([pipelineName], st)
        else ([], st)
  end.

Definition augmentPipelinesForS3ConfigAndGetOtherLogstreamPipelines (hubName : string)
    (logsConfig : LogsConfig) (awsAccessKeySecret : option string) (st : augmented)
  : list string * augmented :=
  match awsAccessKeySecret, logs_S3 logsConfig with
  | None, _ | _, None => ([], st)
  | Some _, Some s3Config =>
      let st :=
        if audit_enabled (s3_AuditLogs s3Config)
        then (addS3ComponentsAndPipeline hubName AuditLogstream s3Config None st).2
        else st in
      let st :=
        if stream_enabled (s3_CollectorLogs s3Config) then
          let '(s3ExporterName, s3Exporter) :=
            getS3ExporterForLogstream hubName CollectorLogstream s3Config in
          let st := put_exporter s3ExporterName s3Exporter st in
          (addS3ComponentsAndPipeline hubName CollectorLogstream s3Config
             (logstream_severity (s3_CollectorLogs s3Config)) st).2
        else st in
      let st :=
        if stream_enabled (s3_HubLogs s3Config)
        then (addS3ComponentsAndPipeline hubName HubLogstream s3Config
                (logstream_severity (s3_HubLogs s3Config)) st).2
        else st in
      if stream_enabled (s3_OtherLogs s3Config) then
        let '(pipelineName, st) := addS3ComponentsAndPipeline hubName OtherLogstream s3Config
                                     (logstream_severity (s3_OtherLogs s3Config)) st in
        ([pipelineName], st)
      else ([], st)
  end.

Section Config.
(** [yaml.Unmarshal] of the embedded base configuration, [yaml.Marshal], and
    the order in which [range] visits the routing table. *)
Context (baseMdaiCollector : error + ConfigBlock) (Marshal : ConfigBlock -> error + string).
Context `{GoRange}.

(** The maps taken from the configuration share their storage with it. *)
Definition augment_config (hubName : string) (logsConfig : LogsConfig)
    (awsAccessKeySecret : option string) (config : ConfigBlock) : go ConfigBlock :=
  let! exporters := MustMap config "exporters" in
  let! serviceBlock := MustMap config "service" in
  let! pipelines := MustMap serviceBlock "pipelines" in
  let! connectors := MustMap config "connectors" in
  let st := {| au_exporters := exporters; au_pipelines := pipelines; au_routingTable := ∅ |} in
  let '(otlpOther, st) := augmentConfigForOtlpConfigAndGetOtherLogstreamPipelines logsConfig st in
  let '(s3Other, st) :=
    augmentPipelinesForS3ConfigAndGetOtherLogstreamPipelines hubName logsConfig awsAccessKeySecret st in
  let otherLogstreamPipelines := otlpOther ++ s3Other in
  let! logstreamRouter := MustMap connectors "routing/logstream" in
  let newRoutingTable := map snd (range_map (au_routingTable st)) in
  let logstreamRouter := Set_ logstreamRouter "table" (ARoutingTable newRoutingTable) in
  let logstreamRouter :=
    if 0 <? length otherLogstreamPipelines
    then Set_ logstreamRouter "default_pipelines" (AStrings otherLogstreamPipelines)
    else logstreamRouter in
  let config := Set_ config "exporters" (AMap (au_exporters st)) in
  let config := Set_ config "service" (AMap (Set_ serviceBlock "pipelines" (AMap (au_pipelines st)))) in
  Done (Set_ config "connectors" (AMap (Set_ connectors "routing/logstream" (AMap logstreamRouter)))).

Definition getMdaiCollectorConfig (hubName : string) (logsConfig : option LogsConfig)
    (awsAccessKeySecret : option string) : go (error + string) :=
  match baseMdaiCollector with
  | inl err => Done (inl err)
  | inr config =>
      let! config := match logsConfig with
                     | Some logsConfig => augment_config hubName logsConfig awsAccessKeySecret config
                     | None => Done config
                     end in
      Done (YAML Marshal config)
  end.
End Config.

(** ** Specification *)

(** A log stream sent to a destination: a pipeline into an exporter. *)
Record route := {
  ro_stream : MDAILogStream;
  ro_pipeline : string;
  ro_exporter : string;
  ro_value : any;
  ro_block : ConfigBlock
}.

Definition otlp_route (o : OtlpLogsConfig) (stream : MDAILogStream) (severity : option SeverityLevel)
    (batch : string) : route :=
  let '(name, exporter) := getOtlpExporterForLogstream o in
  {| ro_stream := stream; ro_pipeline := "logs/otlp_" +:+ stream; ro_exporter := name;
     ro_value := exporter;
     ro_block := getPipelineWithExporterAndSeverityFilter "routing/logstream" name severity batch |}.

Definition s3_route (hubName : string) (c : S3LogsConfig) (stream : MDAILogStream)
    (severity : option SeverityLevel) : route :=
  let '(name, exporter) := getS3ExporterForLogstream hubName stream c in
  {| ro_stream := stream; ro_pipeline := "logs/s3_" +:+ stream; ro_exporter := name;
     ro_value := exporter;
     ro_block := getPipelineWithExporterAndSeverityFilter "routing/logstream" name severity "batch" |}.

Definition keep (b : bool) (r : route) : list route := if b then [r] else [].

(** The routes to the OTLP endpoint: one per enabled stream. *)
Definition otlp_routes (logs : LogsConfig) : list route :=
  match logs_Otlp logs with
  | Some o =>
      if bool_decide (otlp_Endpoint o = "") then []
      else keep (audit_enabled (otlp_AuditLogs o)) (otlp_route o AuditLogstream None "batch/audit")
           ++ keep (stream_enabled (otlp_CollectorLogs o))
                (otlp_route o CollectorLogstream (logstream_severity (otlp_CollectorLogs o)) "")
           ++ keep (stream_enabled (otlp_HubLogs o))
                (otlp_route o HubLogstream (logstream_severity (otlp_HubLogs o)) "")
           ++ keep (stream_enabled (otlp_OtherLogs o))
                (otlp_route o OtherLogstream (logstream_severity (otlp_OtherLogs o)) "")
  | None => []
  end.

(** The routes to S3: none without a secret for the access key. *)
Definition s3_routes (hubName : string) (logs : LogsConfig) (secret : option string) : list route :=
  match secret, logs_S3 logs with
  | Some _, Some c =>
      keep (audit_enabled (s3_AuditLogs c)) (s3_route hubName c AuditLogstream None)
      ++ keep (stream_enabled (s3_CollectorLogs c))
           (s3_route hubName c CollectorLogstream (logstream_severity (s3_CollectorLogs c)))
      ++ keep (stream_enabled (s3_HubLogs c))
           (s3_route hubName c HubLogstream (logstream_severity (s3_HubLogs c)))
      ++ keep (stream_enabled (s3_OtherLogs c))
           (s3_route hubName c OtherLogstream (logstream_severity (s3_OtherLogs c)))
  | _, _ => []
  end.

Definition routes (hubName : string) (logs : LogsConfig) (secret : option string) : list route :=
  otlp_routes logs ++ s3_routes hubName logs secret.

(** The pipelines of a stream, in order. *)
Definition pipes_of (stream : MDAILogStream) (rs : list route) : list string :=
  map ro_pipeline (List.filter (fun r => bool_decide (ro_stream r = stream)) rs).

(** The routing table's entry of a stream. *)
Definition table_entry (stream : MDAILogStream) (pipelines : list string)
  : option routingConnectorTableEntry :=
  if bool_decide (stream = OtherLogstream) then None
  else match pipelines with
       | [] => None
       | _ => Some {| rt_Context := map_get routingTableContextMap stream;
                      rt_Condition := map_get routingTableConditionMap stream;
                      rt_Pipelines := pipelines |}
       end.

Definition add_route (st : augmented) (r : route) : augmented :=
  put_route (ro_stream r) (ro_pipeline r)
    (put_pipeline (ro_pipeline r) (ro_block r) (put_exporter (ro_exporter r) (ro_value r) st)).

(** ** The augmentation adds the routes *)

Lemma put_exporter_twice n v st : put_exporter n v (put_exporter n v st) = put_exporter n v st.
Proof. unfold put_exporter. simpl. by rewrite insert_insert_eq. Qed.

Lemma put_exporter_pipeline n v p b st :
  put_exporter n v (put_pipeline p b st) = put_pipeline p b (put_exporter n v st).
Proof. done. Qed.

Lemma put_exporter_route n v s p st :
  put_exporter n v (put_route s p st) = put_route s p (put_exporter n v st).
Proof. done. Qed.

Definition otlp_exporter (logs : LogsConfig) (st : augmented) : augmented :=
  match logs_Otlp logs with
  | Some o => if bool_decide (otlp_Endpoint o = "") then st
              else put_exporter "otlp" (AOtlpExporter (otlp_Endpoint o) true) st
  | None => st
  end.

Lemma augment_otlp logs st :
  augmentConfigForOtlpConfigAndGetOtherLogstreamPipelines logs st
  = (pipes_of OtherLogstream (otlp_routes logs),
     fold_left add_route (otlp_routes logs) (otlp_exporter logs st)).
Proof.
  unfold augmentConfigForOtlpConfigAndGetOtherLogstreamPipelines, otlp_routes, otlp_exporter.
  destruct (logs_Otlp logs) as [o|]; [| done]. case_bool_decide; [done |].
  unfold getOtlpExporterForLogstream, addPipelineForLogstream, keep.
  destruct (audit_enabled _), (stream_enabled (otlp_CollectorLogs o)),
    (stream_enabled (otlp_HubLogs o)), (stream_enabled (otlp_OtherLogs o));
    apply pair_eq; (split; [reflexivity |]);
    cbn -[put_exporter put_pipeline put_route];
    unfold add_route; cbn -[put_exporter put_pipeline put_route];
    by repeat (rewrite put_exporter_route || rewrite put_exporter_pipeline
               || rewrite put_exporter_twice).
Qed.

Lemma augment_s3 hubName logs secret st :
  augmentPipelinesForS3ConfigAndGetOtherLogstreamPipelines hubName logs secret st
  = (pipes_of OtherLogstream (s3_routes hubName logs secret),
     fold_left add_route (s3_routes hubName logs secret) st).
Proof.
  unfold augmentPipelinesForS3ConfigAndGetOtherLogstreamPipelines, s3_routes.
  destruct secret; [| done]. destruct (logs_S3 logs) as [c|]; [| done].
  unfold addS3ComponentsAndPipeline, getS3ExporterForLogstream, keep.
  destruct (audit_enabled _), (stream_enabled (s3_CollectorLogs c)),
    (stream_enabled (s3_HubLogs c)), (stream_enabled (s3_OtherLogs c));
    apply pair_eq; (split; [reflexivity |]);
    cbn -[put_exporter put_pipeline put_route];
    unfold add_route; cbn -[put_exporter put_pipeline put_route];
    by rewrite ?put_exporter_twice.
Qed.

(** ** What the routes add *)

Lemma addOrCreate_entry rt logstream p (P : string -> list string) :
  (forall s, rt !! s = table_entry s (P s)) ->
  forall s, addOrCreateRoutingTableEntryWithPipeline rt logstream p !! s
            = table_entry s (P s ++ if bool_decide (logstream = s) then [p] else []).
Proof.
  intros H s. unfold addOrCreateRoutingTableEntryWithPipeline.
  destruct (decide (logstream = OtherLogstream)) as [->|Ho].
  - rewrite bool_decide_eq_true_2 by done. rewrite H. unfold table_entry.
    destruct (decide (OtherLogstream = s)) as [<-|Hs]; [done |].
    rewrite (bool_decide_eq_false_2 (OtherLogstream = s)) by done. by rewrite app_nil_r.
  - rewrite bool_decide_eq_false_2 by done. destruct (decide (logstream = s)) as [<-|Hs].
    + rewrite (bool_decide_eq_true_2 (logstream = logstream)) by done. rewrite H. unfold table_entry.
      rewrite !(bool_decide_eq_false_2 (logstream = OtherLogstream)) by done.
      destruct (P logstream) as [|q qs]; by rewrite lookup_insert_eq.
    + rewrite (bool_decide_eq_false_2 (logstream = s)) by done. rewrite app_nil_r, <- H.
      destruct (rt !! logstream); by rewrite lookup_insert_ne.
Qed.

Lemma routes_table rs st (P : string -> list string) :
  (forall s, au_routingTable st !! s = table_entry s (P s)) ->
  forall s, au_routingTable (fold_left add_route rs st) !! s = table_entry s (P s ++ pipes_of s rs).
Proof.
  revert st P. induction rs as [|r rs IH]; intros st P H s; simpl.
  - by rewrite app_nil_r.
  - rewrite (IH _ (fun s => P s ++ if bool_decide (ro_stream r = s) then [ro_pipeline r] else [])).
    + unfold pipes_of. simpl. rewrite <- app_assoc. f_equal. by case_bool_decide.
    + intros s'. by apply addOrCreate_entry.
Qed.

Lemma routes_pipeline_kept rs st p :
  p ∉ map ro_pipeline rs -> au_pipelines (fold_left add_route rs st) !! p = au_pipelines st !! p.
Proof.
  revert st. induction rs as [|r rs IH]; intros st; simpl; [done |].
  intros [Hne Hni]%not_elem_of_cons. rewrite IH by done. simpl. by rewrite lookup_insert_ne.
Qed.

Lemma routes_pipeline rs st r :
  NoDup (map ro_pipeline rs) -> r ∈ rs ->
  au_pipelines (fold_left add_route rs st) !! ro_pipeline r = Some (ABlock (ro_block r)).
Proof.
  revert st. induction rs as [|x rs IH]; intros st Hd Hin; [by apply elem_of_nil in Hin |].
  simpl in Hd |- *. apply NoDup_cons in Hd as [Hx Hd]. apply elem_of_cons in Hin as [->|Hin].
  - rewrite routes_pipeline_kept by done. simpl. by rewrite lookup_insert_eq.
  - by apply IH.
Qed.

Definition consistent (rs : list route) : Prop :=
  forall r r', r ∈ rs -> r' ∈ rs -> ro_exporter r = ro_exporter r' -> ro_value r = ro_value r'.

Lemma routes_exporter rs st n v :
  (forall r, r ∈ rs -> ro_exporter r = n -> ro_value r = v) ->
  (au_exporters st !! n = Some v \/ exists r, r ∈ rs /\ ro_exporter r = n) ->
  au_exporters (fold_left add_route rs st) !! n = Some v.
Proof.
  revert st. induction rs as [|x rs IH]; intros st Hc Hin; simpl.
  - destruct Hin as [Hin|(r & Hr & _)]; [done | by apply elem_of_nil in Hr].
  - apply IH; [intros r Hr; apply Hc; by right |]. simpl.
    destruct (decide (ro_exporter x = n)) as [E|Hne].
    + left. rewrite E, lookup_insert_eq. f_equal. apply Hc; [by left | done].
    + destruct Hin as [Hin|(r & Hr & Hn)]; [left; by rewrite lookup_insert_ne |].
      right. exists r. apply elem_of_cons in Hr as [->|Hr]; done.
Qed.

Lemma keep_elem b r x : x ∈ keep b r <-> b = true /\ x = r.
Proof.
  destruct b; simpl; [rewrite list_elem_of_singleton | rewrite elem_of_nil]; naive_solver.
Qed.

Lemma otlp_routes_elem logs r :
  r ∈ otlp_routes logs -> exists o, logs_Otlp logs = Some o
    /\ ro_exporter r = "otlp" /\ ro_value r = AOtlpExporter (otlp_Endpoint o) true
    /\ ro_pipeline r = "logs/otlp_" +:+ ro_stream r.
Proof.
  unfold otlp_routes. destruct (logs_Otlp logs) as [o|]; [| by intros ?%elem_of_nil].
  case_bool_decide; [by intros ?%elem_of_nil |].
  rewrite !elem_of_app, !keep_elem. intros Hr. exists o. split; [done |].
  destruct Hr as [[_ ->]|[[_ ->]|[[_ ->]|[_ ->]]]]; done.
Qed.

Lemma s3_routes_elem hubName logs secret r :
  r ∈ s3_routes hubName logs secret -> exists c, logs_S3 logs = Some c
    /\ getS3ExporterForLogstream hubName (ro_stream r) c = (ro_exporter r, ro_value r)
    /\ ro_pipeline r = "logs/s3_" +:+ ro_stream r.
Proof.
  unfold s3_routes. destruct secret; [| by intros ?%elem_of_nil].
  destruct (logs_S3 logs) as [c|]; [| by intros ?%elem_of_nil].
  rewrite !elem_of_app, !keep_elem. intros Hr. exists c. split; [done |].
  destruct Hr as [[_ ->]|[[_ ->]|[[_ ->]|[_ ->]]]]; done.
Qed.

Lemma routes_consistent hubName logs secret : consistent (routes hubName logs secret).
Proof.
  intros r r'. unfold routes. rewrite !elem_of_app.
  intros [Hr%otlp_routes_elem|Hr%s3_routes_elem] [Hr'%otlp_routes_elem|Hr'%s3_routes_elem] E.
  - destruct Hr as (o & Ho & _ & -> & _), Hr' as (o' & Ho' & _ & -> & _). congruence.
  - destruct Hr as (o & _ & Hx & _ & _), Hr' as (c & _ & Hc & _). injection Hc as Hc _.
    rewrite Hx, <- Hc in E. discriminate.
  - destruct Hr' as (o & _ & Hx & _ & _), Hr as (c & _ & Hc & _). injection Hc as Hc _.
    rewrite Hx, <- Hc in E. discriminate.
  - destruct Hr as (c & Hl & Hc & _), Hr' as (c' & Hl' & Hc' & _). rewrite Hl in Hl'.
    injection Hl' as <-. injection Hc as Hn Hv. injection Hc' as Hn' Hv'.
    rewrite <- Hn, <- Hn' in E. apply (append_inj_l "awss3/") in E.
    by rewrite <- Hv, <- Hv', E.
Qed.

Lemma routes_distinct hubName logs secret : NoDup (map ro_pipeline (routes hubName logs secret)).
Proof.
  unfold routes. rewrite map_app. apply NoDup_app. split_and!.
  - unfold otlp_routes. destruct (logs_Otlp logs) as [o|]; [| constructor].
    case_bool_decide; [constructor |]. unfold keep.
    destruct (audit_enabled _), (stream_enabled (otlp_CollectorLogs o)),
      (stream_enabled (otlp_HubLogs o)), (stream_enabled (otlp_OtherLogs o));
      apply (bool_decide_eq_true_1 _); vm_compute; reflexivity.
  - intros p (r & -> & Hr)%list_elem_of_fmap (r' & E & Hr')%list_elem_of_fmap.
    apply otlp_routes_elem in Hr as (_ & _ & _ & _ & Hp).
    apply s3_routes_elem in Hr' as (_ & _ & _ & Hp'). rewrite Hp, Hp' in E. discriminate.
  - unfold s3_routes. destruct secret; [| constructor].
    destruct (logs_S3 logs) as [c|]; [| constructor]. unfold keep.
    destruct (audit_enabled _), (stream_enabled (s3_CollectorLogs c)),
      (stream_enabled (s3_HubLogs c)), (stream_enabled (s3_OtherLogs c));
      apply (bool_decide_eq_true_1 _); vm_compute; reflexivity.
Qed.

(** Ranging over the table visits each stream once. *)
Lemma range_entries `{GoRange} (rt : routingTable) :
  exists streams, NoDup streams /\ (forall s, s ∈ streams <-> is_Some (rt !! s))
    /\ map Some (map snd (range_map rt)) = map (fun s => rt !! s) streams.
Proof.
  pose proof (range_map_perm rt) as Hp. exists (map fst (range_map rt)). split_and!.
  - rewrite Hp. apply NoDup_fst_map_to_list.
  - intros s. rewrite Hp. split.
    + intros ([s' x] & -> & Hin)%list_elem_of_fmap. exists x. by apply elem_of_map_to_list.
    + intros [x Hs]. apply list_elem_of_fmap. exists (s, x). split; [done |].
      by apply elem_of_map_to_list.
  - rewrite !map_map. apply map_ext_in. intros [s x] Hin%list_elem_of_In. rewrite Hp in Hin.
    by apply elem_of_map_to_list in Hin.
Qed.

Lemma default_pipelines_set router others entries :
  (if 0 <? length others
   then Set_ (Set_ router "table" (ARoutingTable entries)) "default_pipelines" (AStrings others)
   else Set_ router "table" (ARoutingTable entries)) !! "default_pipelines"
  = match others with [] => router !! "default_pipelines" | _ => Some (AStrings others) end.
Proof. destruct others; simpl; unfold Set_; by rewrite ?lookup_insert_eq, ?lookup_insert_ne. Qed.

Lemma table_set router others entries :
  (if 0 <? length others
   then Set_ (Set_ router "table" (ARoutingTable entries)) "default_pipelines" (AStrings others)
   else Set_ router "table" (ARoutingTable entries)) !! "table" = Some (ARoutingTable entries).
Proof.
  destruct others; simpl; unfold Set_; [| rewrite lookup_insert_ne by done]; by rewrite lookup_insert_eq.
Qed.

(** What the configuration of a collector has to contain, given the routes. *)
Definition routed (rs : list route) (pipelines router exporters' pipelines' router' : ConfigBlock) : Prop :=
  (** every route's pipeline and exporter are defined *)
  (forall r, r ∈ rs -> pipelines' !! ro_pipeline r = Some (ABlock (ro_block r))
                       /\ exporters' !! ro_exporter r = Some (ro_value r))
  (** other pipelines are those of the base *)
  /\ (forall p, p ∉ map ro_pipeline rs -> pipelines' !! p = pipelines !! p)
  (** one entry per routed stream, with all its pipelines in order *)
  /\ (exists entries streams, router' !! "table" = Some (ARoutingTable entries)
        /\ NoDup streams /\ (forall s, s ∈ streams <-> is_Some (table_entry s (pipes_of s rs)))
        /\ map Some entries = map (fun s => table_entry s (pipes_of s rs)) streams)
  (** the other streams go to the default pipelines *)
  /\ router' !! "default_pipelines"
     = match pipes_of OtherLogstream rs with
       | [] => router !! "default_pipelines"
       | ps => Some (AStrings ps)
       end.

Section Routed.
Context `{GoRange}.


(** The base configuration has the blocks that the code reads. *)
Definition renderable (base : error + ConfigBlock) : Prop :=
  match base with
  | inl _ => True
  | inr b => is_Some (block_at ["exporters"] b) /\ is_Some (block_at ["service"; "pipelines"] b)
             /\ is_Some (block_at ["connectors"; "routing/logstream"] b)
  end.

Lemma getMdaiCollectorConfig_done base Marshal hubName logs secret :
  renderable base -> exists r, getMdaiCollectorConfig base Marshal hubName logs secret = Done r.
Proof.
  unfold getMdaiCollectorConfig. destruct base as [err|base]; [by eexists |].
  destruct logs as [logs|]; [| by eexists]. cbn [renderable block_at]. intros ([ex He] & [pi Hp] & [ro Hr]).
  destruct (GetMap base "exporters") as [ex'|] eqn:E1; [| done].
  destruct (GetMap base "service") as [service|] eqn:E2; [| done].
  destruct (GetMap service "pipelines") as [pi'|] eqn:E3; [| done].
  destruct (GetMap base "connectors") as [connectors|] eqn:E4; [| done].
  destruct (GetMap connectors "routing/logstream") as [ro'|] eqn:E5; [| done].
  rewrite GetMap_Some, <- MustMap_Done in E1, E2, E3, E4, E5.
  unfold augment_config. rewrite E1. simpl go_bind. rewrite E2. simpl go_bind. rewrite E3.
  simpl go_bind. rewrite E4. simpl go_bind. rewrite augment_otlp, augment_s3.
  rewrite E5. by eexists.
Qed.
End Routed.

(** ** The order of the table *)

(** Two iteration orders that the language allows. *)
Definition sorted_range : GoRange :=
  {| range_map A m := map_to_list m; range_map_perm A m := Permutation_refl _ |}.

Definition reversed_range : GoRange :=
  {| range_map A m := rev (map_to_list m);
     range_map_perm A m := Permutation_sym (Permutation_rev (map_to_list m)) |}.

(** The blocks of mdai_collector_base_config.yaml that the code reads. *)
Definition sample_base : ConfigBlock :=
  {["exporters" := AMap {["debug" := AMap ∅]};
    "service" := AMap {["pipelines" := AMap {["logs/input" := AMap ∅]}]};
    "connectors" := AMap {["routing/logstream" :=
      AMap {["default_pipelines" := ASlice [AString "logs/debug_other"]; "table" := ASlice []]}]}]}.

Definition otlp_only : LogsConfig :=
  {| logs_S3 := None;
     logs_Otlp := Some {| otlp_AuditLogs := None; otlp_CollectorLogs := None; otlp_HubLogs := None;
                          otlp_OtherLogs := None; otlp_Endpoint := "http://logs:4317" |} |}.

(** The table of a configuration. *)
Definition config_table (config : go ConfigBlock) : option any :=
  match config with
  | Done c => match block_at ["connectors"; "routing/logstream"] c with
              | Some router => router !! "table"
              | None => None
              end
  | Panics _ => None
  end.

(** The same collector does not have one configuration: the routing table
    is listed in the order in which the map is visited, so that two
    reconciles may render different configurations and roll the deployment. *)
Theorem collector_config_unordered :
  config_table (augment_config (H:=sorted_range) "c" otlp_only None sample_base)
  <> config_table (augment_config (H:=reversed_range) "c" otlp_only None sample_base).
Proof. vm_compute. discriminate. Qed.

(** Logs to S3 without the secret of the access key route nothing: the table
    of the base is replaced by an empty one. *)
Definition s3_without_secret : LogsConfig :=
  {| logs_S3 := Some {| s3_AuditLogs := None; s3_CollectorLogs := None; s3_HubLogs := None;
                        s3_OtherLogs := None; s3_S3Region := "us-east-1"; s3_S3Bucket := "b" |};
     logs_Otlp := None |}.

