(* ===== verification/Effects.v ===== *)
(** * Effectful code: programs over API calls

    A controller method is a program that issues calls (to the API server, to
    Valkey) and continues with their answers, in an environment that may
    answer anything.  [runs] gives the executions of a program as traces of
    calls with their answers; [wp] is the weakest precondition over the answers
    an assumption on the environment allows, and the two agree. *)

From S2P Require Import Prelude.

(** ** Programs *)

(** [E X] is a call answered by an [X]. *)
Inductive prog (E : Type -> Type) (A : Type) : Type :=
| Ret (a : A)
| Panic (why : string)
| Vis {X} (e : E X) (k : X -> prog E A).
Arguments Ret {E A} a.
Arguments Panic {E A} why.
Arguments Vis {E A X} e k.

Fixpoint prog_bind {E A B} (p : prog E A) (f : A -> prog E B) : prog E B :=
  match p with
  | Ret a => f a
  | Panic why => Panic why
  | Vis e k => Vis e (fun x => prog_bind (k x) f)
  end.

Definition call {E X} (e : E X) : prog E X := Vis e Ret.

(** A computation without effects that may panic. *)
Definition lift {E A} (g : go A) : prog E A :=
  match g with
  | Done a => Ret a
  | Panics why => Panic why
  end.

Declare Scope prog_scope.
Delimit Scope prog_scope with prog.
Notation "'let*' x ':=' m 'in' k" := (prog_bind m (fun x => k))
  (at level 10, x pattern, m at level 100, k at level 200) : prog_scope.
Open Scope prog_scope.

(** ** Executions *)

Inductive event (E : Type -> Type) : Type :=
| Ev {X} (e : E X) (answer : X).
Arguments Ev {E X} e answer.

(** Every trace the environment can produce, with the outcome. *)
Fixpoint runs {E A} (p : prog E A) (tr : list (event E)) (out : go A) : Prop :=
  match p with
  | Ret a => tr = [] /\ out = Done a
  | Panic why => tr = [] /\ out = Panics why
  | Vis e k => exists x tr', tr = Ev e x :: tr' /\ runs (k x) tr' out
  end.

(** Running a program with a deterministic environment: a handler over a state. *)
Fixpoint run_with {E A S} (handle : forall X, E X -> S -> X * S) (p : prog E A) (s : S)
  : list (event E) * go A * S :=
  match p with
  | Ret a => ([], Done a, s)
  | Panic why => ([], Panics why, s)
  | Vis e k =>
      let '(x, s) := handle _ e s in
      let '(tr, out, s) := run_with handle (k x) s in
      (Ev e x :: tr, out, s)
  end.

Lemma run_with_runs {E A S} (handle : forall X, E X -> S -> X * S) (p : prog E A) (s : S) :
  runs p (run_with handle p s).1.1 (run_with handle p s).1.2.
Proof.
  revert s. induction p as [a|why|X e k IH]; intros s; simpl; try done.
  destruct (handle X e s) as [x s']. specialize (IH x s').
  destruct (run_with handle (k x) s') as [[tr out] s'']. eauto.
Qed.

Lemma runs_bind {E A B} (p : prog E A) (f : A -> prog E B) tr out :
  runs (prog_bind p f) tr out <->
  (exists a tr1 tr2, tr = tr1 ++ tr2 /\ runs p tr1 (Done a) /\ runs (f a) tr2 out)
  \/ (exists why, out = Panics why /\ runs p tr (Panics why)).
Proof.
  revert tr. induction p as [a|why|X e k IH]; intros tr; simpl.
  - split; [left; exists a, [], tr; auto |].
    intros [(a' & tr1 & tr2 & -> & [-> [= ->]] & Hr)|(why & _ & _ & Hd)]; done.
  - split; [intros [-> ->]; right; eauto |].
    intros [(a' & tr1 & tr2 & _ & [_ ?] & _)|(why' & -> & -> & [= ->])]; done.
  - setoid_rewrite IH. split.
    + intros (x & tr' & -> & [(a & tr1 & tr2 & -> & H1 & H2)|(why & -> & Hp)]).
      * left. exists a, (Ev e x :: tr1), tr2. eauto 10.
      * right. eauto 10.
    + intros [(a & tr1 & tr2 & -> & (x & tr' & -> & H1) & H2)|(why & -> & x & tr' & -> & Hp)].
      * exists x, (tr' ++ tr2). split; [done |]. left. eauto 10.
      * exists x, tr'. split; [done |]. right. eauto.
Qed.

(** ** Weakest preconditions *)

(** An assumption on the environment: which answers a call may get. *)
Definition assumption (E : Type -> Type) := forall X, E X -> X -> Prop.

Definition any_answer {E} : assumption E := fun _ _ _ => True.

Definition allowed {E} (R : assumption E) (ev : event E) : Prop :=
  match ev with Ev e x => R _ e x end.

(** [wp R p tr Q]: when [p] starts after the trace [tr] and the environment
    answers as [R] allows, it ends in a trace and an outcome that satisfy [Q]. *)
Fixpoint wp {E A} (R : assumption E) (p : prog E A) (tr : list (event E))
    (Q : list (event E) -> go A -> Prop) : Prop :=
  match p with
  | Ret a => Q tr (Done a)
  | Panic why => Q tr (Panics why)
  | Vis e k => forall x, R _ e x -> wp R (k x) (tr ++ [Ev e x]) Q
  end.

Lemma wp_runs {E A} (R : assumption E) (p : prog E A) tr0 Q :
  wp R p tr0 Q <-> (forall tr out, runs p tr out -> Forall (allowed R) tr -> Q (tr0 ++ tr) out).
Proof.
  revert tr0. induction p as [a|why|X e k IH]; intros tr0; simpl.
  - split; [intros H tr out [-> ->] _; by rewrite app_nil_r |].
    intros H. specialize (H [] (Done a)). rewrite app_nil_r in H. by apply H.
  - split; [intros H tr out [-> ->] _; by rewrite app_nil_r |].
    intros H. specialize (H [] (Panics why)). rewrite app_nil_r in H. by apply H.
  - split.
    + intros H tr out (x & tr' & -> & Hr) [Hx Hf]%Forall_cons.
      specialize (H x Hx). rewrite IH in H. specialize (H tr' out Hr Hf).
      by rewrite <- app_assoc in H.
    + intros H x Hx. apply IH. intros tr out Hr Hf.
      rewrite <- app_assoc. apply H; [eauto | by constructor].
Qed.

Lemma wp_mono {E A} (R : assumption E) (p : prog E A) tr (Q Q' : list (event E) -> go A -> Prop) :
  (forall tr out, Q tr out -> Q' tr out) -> wp R p tr Q -> wp R p tr Q'.
Proof.
  intros HQ. revert tr. induction p as [a|why|X e k IH]; intros tr; simpl; eauto.
Qed.

(** The rule of the sequence: a panic of the first part is the outcome. *)
Lemma wp_bind {E A B} (R : assumption E) (p : prog E A) (f : A -> prog E B) tr Q :
  wp R (prog_bind p f) tr Q <->
  wp R p tr (fun tr' out => match out with
                            | Done a => wp R (f a) tr' Q
                            | Panics why => Q tr' (Panics why)
                            end).
Proof.
  revert tr. induction p as [a|why|X e k IH]; intros tr; simpl; [done | done |].
  by setoid_rewrite IH.
Qed.

(** A frame rule: what a program does does not depend on the trace so far. *)
Lemma wp_app {E A} (R : assumption E) (p : prog E A) tr0 Q :
  wp R p [] (fun tr out => Q (tr0 ++ tr) out) -> wp R p tr0 Q.
Proof. rewrite !wp_runs. done. Qed.

Lemma run_with_allowed {E A S} (R : assumption E) (handle : forall X, E X -> S -> X * S) (p : prog E A) s :
  (forall X (e : E X) s, R X e (handle X e s).1) -> Forall (allowed R) (run_with handle p s).1.1.
Proof.
  intros HR. revert s. induction p as [a|why|X e k IH]; intros s; simpl; try constructor.
  pose proof (HR X e s) as Hx. destruct (handle X e s) as [x s']. specialize (IH x s').
  destruct (run_with handle (k x) s') as [[tr out] s'']. by constructor.
Qed.

Lemma wp_run_with {E A S} (R : assumption E) (handle : forall X, E X -> S -> X * S)
    (p : prog E A) s Q :
  (forall X (e : E X) s, R X e (handle X e s).1) ->
  wp R p [] Q -> Q (run_with handle p s).1.1 (run_with handle p s).1.2.
Proof.
  intros HR. rewrite wp_runs. intros H. apply (H _ _ (run_with_runs handle p s)). by apply run_with_allowed.
Qed.

(** One step of a symbolic execution: an answer is introduced and analysed. *)
Ltac wp_step :=
  cbn [wp prog_bind call lift];
  lazymatch goal with
  | |- forall x, _ -> wp _ _ _ _ => let x := fresh "x" in let H := fresh "Hx" in intros x H
  | |- forall x, _ -> _ => let x := fresh "x" in let H := fresh "Hx" in intros x H
  end.

(** Two continuations may be exchanged when they agree on the results the first
    part can return. *)
Lemma runs_bind_ext {E A B} (p : prog E A) (f g : A -> prog E B) tr out :
  (forall a tr', runs p tr' (Done a) -> forall tr2 out2, runs (f a) tr2 out2 <-> runs (g a) tr2 out2) ->
  runs (prog_bind p f) tr out <-> runs (prog_bind p g) tr out.
Proof.
  intros H. rewrite !runs_bind.
  split; (intros [(a & tr1 & tr2 & Ht & H1 & H2)|Hp]; [| by right]; left;
    exists a, tr1, tr2; split; [done |]; split; [done |]; by apply (H a tr1 H1)).
Qed.

(** [wp] over all answers, read on executions from the start. *)
Lemma wp_any {E A} (p : prog E A) Q :
  wp any_answer p [] Q <-> (forall tr out, runs p tr out -> Q tr out).
Proof.
  rewrite wp_runs. split.
  - intros H tr out Hr. apply H; [done |]. apply Forall_forall. by intros [X e x] _.
  - intros H tr out Hr _. by apply H.
Qed.

(** ** Which events a program may issue *)

(** Every event of every execution satisfies [P]. *)
Definition only {E A} (P : event E -> Prop) (p : prog E A) : Prop :=
  forall tr out, runs p tr out -> Forall P tr.

Lemma only_Ret {E A} (P : event E -> Prop) (a : A) : only P (Ret a).
Proof. intros tr out [-> _]. constructor. Qed.

Lemma only_Panic {E A} (P : event E -> Prop) why : only P (@Panic E A why).
Proof. intros tr out [-> _]. constructor. Qed.

Lemma only_lift {E A} (P : event E -> Prop) (g : go A) : only P (lift g).
Proof. destruct g; [apply only_Ret | apply only_Panic]. Qed.

Lemma only_Vis {E A X} (P : event E -> Prop) (e : E X) (k : X -> prog E A) :
  (forall x, P (Ev e x)) -> (forall x, only P (k x)) -> only P (Vis e k).
Proof. intros He Hk tr out (x & tr' & -> & Hr). constructor; [done | by eapply Hk]. Qed.

Lemma only_call {E X} (P : event E -> Prop) (e : E X) :
  (forall x, P (Ev e x)) -> only P (call e).
Proof. intros He. apply only_Vis; [done |]. intros x. apply only_Ret. Qed.

Lemma only_bind_runs {E A B} (P : event E -> Prop) (p : prog E A) (f : A -> prog E B) :
  only P p -> (forall tr a, runs p tr (Done a) -> only P (f a)) -> only P (prog_bind p f).
Proof.
  intros Hp Hf tr out. rewrite runs_bind. intros [(a & tr1 & tr2 & -> & H1 & H2)|(why & _ & H)].
  - apply Forall_app. split; [by eapply Hp | by eapply Hf].
  - by eapply Hp.
Qed.

(** The same where the second part needs nothing about the first. *)
Lemma only_bind {E A B} (P : event E -> Prop) (p : prog E A) (f : A -> prog E B) :
  only P p -> (forall a, only P (f a)) -> only P (prog_bind p f).
Proof. intros Hp Hf. apply only_bind_runs; [done |]. intros tr a _. apply Hf. Qed.

Lemma only_impl {E A} (P Q : event E -> Prop) (p : prog E A) :
  (forall ev, P ev -> Q ev) -> only P p -> only Q p.
Proof. intros HPQ Hp tr out Hr. eapply Forall_impl; [by eapply Hp | done]. Qed.

Create HintDb only.
#[export] Hint Resolve only_Ret only_Panic only_lift : only.

(** Walks through a program; what remains are the obligations on the calls and
    on the sub-programs that [only] does not know. *)
Ltac solve_only :=
  repeat match goal with
  | |- forall _, only _ _ => intro
  | |- only _ (prog_bind _ _) => apply only_bind
  | |- only _ (call _) => apply only_call
  | |- only _ (Vis _ _) => apply only_Vis
  | |- only _ (match ?x with _ => _ end) => destruct x
  | |- only _ (let '(_, _) := ?x in _) => destruct x
  | |- only _ _ => solve [eauto with only]
  end.

(** ** Programs that do not panic *)

(** No execution that the assumption allows panics. *)
Definition safe {E A} (R : assumption E) (p : prog E A) : Prop :=
  forall tr out, runs p tr out -> Forall (allowed R) tr -> exists a, out = Done a.

Lemma safe_Ret {E A} (R : assumption E) (a : A) : safe R (Ret a).
Proof. intros tr out [_ ->] _. by exists a. Qed.

Lemma safe_lift {E A} (R : assumption E) (g : go A) a : g = Done a -> safe R (lift g).
Proof. intros ->. apply safe_Ret. Qed.

Lemma safe_Vis {E A X} (R : assumption E) (e : E X) (k : X -> prog E A) :
  (forall x, R _ e x -> safe R (k x)) -> safe R (Vis e k).
Proof. intros Hk tr out (x & tr' & -> & Hr) [Hx Ha]%Forall_cons. by eapply Hk. Qed.

Lemma safe_call {E X} (R : assumption E) (e : E X) : safe R (call e).
Proof. apply safe_Vis. intros x _. apply safe_Ret. Qed.

Lemma safe_bind {E A B} (R : assumption E) (p : prog E A) (f : A -> prog E B) :
  safe R p ->
  (forall a tr, runs p tr (Done a) -> Forall (allowed R) tr -> safe R (f a)) ->
  safe R (prog_bind p f).
Proof.
  intros Hp Hf tr out. rewrite runs_bind.
  intros [(a & tr1 & tr2 & -> & H1 & H2)|(why & -> & H)] Ha.
  - apply Forall_app in Ha as [Ha1 Ha2]. by eapply Hf.
  - by destruct (Hp _ _ H Ha) as [a [=]].
Qed.

(** The same where the second part needs nothing about the first. *)
Lemma safe_seq {E A B} (R : assumption E) (p : prog E A) (f : A -> prog E B) :
  safe R p -> (forall a, safe R (f a)) -> safe R (prog_bind p f).
Proof. intros Hp Hf. apply safe_bind; [done |]. intros a tr _ _. apply Hf. Qed.

Lemma safe_wp {E A} (p : prog E A) (R : assumption E) :
  wp any_answer p [] (fun _ out => exists a, out = Done a) -> safe R p.
Proof. rewrite wp_any. intros H tr out Hr _. by eapply H. Qed.

Create HintDb safe.
#[export] Hint Resolve safe_Ret safe_call : safe.

Ltac solve_safe :=
  repeat match goal with
  | |- forall _, safe _ _ => intro
  | |- forall _, _ -> safe _ _ => intros ? ?
  | |- safe _ (call _) => apply safe_call
  | |- safe _ (prog_bind _ _) => apply safe_seq
  | |- safe _ (Vis _ _) => apply safe_Vis
  | |- safe _ (match ?x with _ => _ end) => destruct x
  | |- safe _ (let '(_, _) := ?x in _) => destruct x
  | |- safe _ _ => solve [eauto with safe]
  end.
