(* ===== verification/Reconcile.v ===== *)
(** * internal/controller: reconcile operations and the life cycle of a resource

    The result constructors of reconcile_operation.go, the loop every
    [ReconcileHandler] runs, and the operations the adapters share: status and
    finalizer initialisation, deletion, and the final status update.  The
    adapters repeat these methods with their own type and finalizer, so they
    are stated once, over a [Resource] type and the calls that move it to and
    from the API server; each controller's file instantiates them.  The object
    behind the adapter's pointer is the state the operations thread. *)

From S2P Require Import Prelude GoLib ApiTypes Errors Effects.

(** ** reconcile_operation.go *)

Record OperationResult := {
  RequeueDelay : Z;
  RequeueRequest : bool;
  CancelRequest : bool
}.

Definition RequeueOrCancel (r : OperationResult) : bool := RequeueRequest r || CancelRequest r.

Definition ContinueOperationResult : OperationResult :=
  {| RequeueDelay := 0; RequeueRequest := false; CancelRequest := false |}.

Definition StopOperationResult : OperationResult :=
  {| RequeueDelay := 0; RequeueRequest := false; CancelRequest := true |}.

Definition StopProcessing : with_error OperationResult := (StopOperationResult, None).

Definition Requeue : with_error OperationResult :=
  ({| RequeueDelay := 0; RequeueRequest := true; CancelRequest := false |}, None).

Definition RequeueWithError (errIn : option error) : with_error OperationResult :=
  ({| RequeueDelay := 0; RequeueRequest := true; CancelRequest := false |}, errIn).

Definition ContinueWithError (errIn : option error) : with_error OperationResult :=
  ({| RequeueDelay := 0; RequeueRequest := false; CancelRequest := false |}, errIn).

Definition RequeueOnErrorOrStop (errIn : option error) : with_error OperationResult :=
  ({| RequeueDelay := 0; RequeueRequest := false; CancelRequest := true |}, errIn).

Definition RequeueOnErrorOrContinue (errIn : option error) : with_error OperationResult :=
  ({| RequeueDelay := 0; RequeueRequest := false; CancelRequest := false |}, errIn).

Definition RequeueAfter (delay : Z) (errIn : option error) : with_error OperationResult :=
  ({| RequeueDelay := delay; RequeueRequest := true; CancelRequest := false |}, errIn).

Definition ContinueProcessing : with_error OperationResult := (ContinueOperationResult, None).

(** ** The loop of [ReconcileHandler] *)

(** [ctrl.Result]: what controller-runtime reads; with no delay and no error the
    request is done. *)
Record ctrl_Result := { res_RequeueAfter : Z }.

Definition done_Result : ctrl_Result := {| res_RequeueAfter := 0 |}.

(** A method of an adapter: a program over the object behind its pointer. *)
Abbreviation method E R A := (R -> prog E (R * A)).
Abbreviation ReconcileOperation E R := (method E R (with_error OperationResult)).

Fixpoint run_operations {E R} (operations : list (ReconcileOperation E R))
  : method E R (with_error ctrl_Result) := fun object =>
  match operations with
  | [] => Ret (object, (done_Result, None))
  | operation :: rest =>
      let* (object, (result, err)) := operation object in
      match err with
      | Some e => Ret (object, ({| res_RequeueAfter := RequeueDelay result |}, Some e))
      | None =>
          if RequeueRequest result
          then Ret (object, ({| res_RequeueAfter := RequeueDelay result |}, None))
          else if CancelRequest result then Ret (object, (done_Result, None))
          else run_operations rest object
      end
  end.

(** ** Resources and the calls on them *)

(** A custom resource with its metadata and status conditions. *)
Class Resource (R : Type) := {
  r_meta : R -> ObjectMeta;
  r_with_meta : R -> ObjectMeta -> R;
  r_conditions : R -> list Condition;
  r_with_conditions : R -> list Condition -> R
}.

(** The client's [Get], [Update] and [Status().Update] for the resource: a
    successful answer is the object as the server returns it, which the client
    writes back through the pointer. *)
Class ResourceCalls (E : Type -> Type) (R : Type) := {
  Get_ : string -> string -> E (error + R)%type;
  Update_ : R -> E (error + R)%type;
  UpdateStatus_ : R -> E (error + R)%type
}.

(** [controllerutil] and [meta] functions on metadata and conditions. *)
Class K8sUtil := {
  ContainsFinalizer : ObjectMeta -> string -> bool;
  AddFinalizer : ObjectMeta -> string -> ObjectMeta * bool;
  SetStatusCondition : list Condition -> Condition -> list Condition * bool
}.

(** What the code relies on. *)
Class K8sLaws `{K8sUtil} := {
  contains_finalizer m f : ContainsFinalizer m f = true <-> f ∈ om_Finalizers m;
  add_finalizer m f : f ∈ om_Finalizers (AddFinalizer m f).1;
  add_finalizer_ok m f : f ∉ om_Finalizers m -> (AddFinalizer m f).2 = true;
  add_finalizer_deletion m f :
    om_DeletionTimestamp (AddFinalizer m f).1 = om_DeletionTimestamp m;
  set_status_condition cs c : (SetStatusCondition cs c).1 <> []
}.

(** The laws of lenses for a resource. *)
Class ResourceLaws (R : Type) `{Resource R} := {
  meta_with_meta r m : r_meta (r_with_meta r m) = m;
  conditions_with_meta r m : r_conditions (r_with_meta r m) = r_conditions r;
  meta_with_conditions r cs : r_meta (r_with_conditions r cs) = r_meta r;
  conditions_with_conditions r cs : r_conditions (r_with_conditions r cs) = cs
}.

Definition typeAvailableHub : string := "Available".
Definition typeDegradedHub : string := "Degraded".
Definition hubFinalizer : string := "mydecisive.ai/finalizer".
Definition ConditionTrue : string := "True".
Definition ConditionUnknown : string := "Unknown".

(** [time.Second * 5], in nanoseconds. *)
Definition requeueTime : Z := 5000000000.

Inductive ObjectState := ObjectModified | ObjectUnchanged.

Section Lifecycle.
Context {E : Type -> Type} {R : Type} `{Resource R} `{ResourceCalls E R} `{K8sUtil}.

(** The object the pointer holds afterwards, and the error. *)
Definition write_back (object : R) (answer : error + R) : R * option error :=
  match answer with
  | inl err => (object, Some err)
  | inr object => (object, None)
  end.

Definition update : method E R (option error) := fun object =>
  let* answer := call (Update_ object) in Ret (write_back object answer).

Definition update_status : method E R (option error) := fun object =>
  let* answer := call (UpdateStatus_ object) in Ret (write_back object answer).

Definition refetch : method E R (option error) := fun object =>
  let* answer := call (Get_ (om_Namespace (r_meta object)) (om_Name (r_meta object))) in
  Ret (write_back object answer).

Definition ensureFinalizerInitialized (finalizer : string) : ReconcileOperation E R := fun object =>
  if ContainsFinalizer (r_meta object) finalizer then Ret (object, ContinueProcessing)
  else
    let '(m, ok) := AddFinalizer (r_meta object) finalizer in
    let object := r_with_meta object m in
    if negb ok
    then Ret (object, RequeueWithError (Some (Err ("failed to add finalizer " +:+ finalizer))))
    else
      let* (object, err) := update object in
      match err with
      | Some err => Ret (object, RequeueWithError (Some err))
      | None => Ret (object, StopProcessing)
      end.

Definition ensureStatusInitialized : ReconcileOperation E R := fun object =>
  if negb (length (r_conditions object) =? 0) then Ret (object, ContinueProcessing)
  else
    let object := r_with_conditions object
      (SetStatusCondition (r_conditions object)
         {| cond_Type := typeAvailableHub; cond_Status := ConditionUnknown;
            cond_Reason := "Reconciling"; cond_Message := "Starting reconciliation" |}).1 in
    let* (object, err) := update_status object in
    match err with
    | Some err => Ret (object, RequeueWithError (Some err))
    | None => Ret (object, StopProcessing)
    end.

(** [slices.Contains], and [slices.DeleteFunc] of the finalizer. *)
Definition deleteFinalizer (finalizer : string) : method E R (option error) := fun object =>
  let finalizers := om_Finalizers (r_meta object) in
  if bool_decide (finalizer ∈ finalizers)
  then update (r_with_meta object
         (with_finalizers (r_meta object) (filter (fun f => f <> finalizer) finalizers)))
  else Ret (object, None).

Definition ensureFinalizerDeleted (finalizer : string) : method E R (option error) :=
  deleteFinalizer finalizer.

Definition degraded_condition (name : string) : Condition :=
  {| cond_Type := typeDegradedHub; cond_Status := ConditionTrue; cond_Reason := "Finalizing";
     cond_Message := "Finalizer operations for custom resource " +:+ name
                     +:+ " name were successfully accomplished" |}.

(** The part of [finalize] from the re-fetch on; [after] runs once the finalizer
    is deleted. *)
Definition finalize_refetched (finalizer : string)
    (after : method E R (ObjectState * option error)) : method E R (ObjectState * option error) :=
  fun object =>
  let* (object, err) := refetch object in
  match err with
  | Some err =>
      if IsNotFound err then Ret (object, (ObjectModified, None))
      else Ret (object, (ObjectUnchanged, Some err))
  | None =>
      let '(conditions, changed) :=
        SetStatusCondition (r_conditions object) (degraded_condition (om_Name (r_meta object))) in
      let object := r_with_conditions object conditions in
      let* (object, err) := if (changed : bool) then update_status object else Ret (object, None) in
      match err with
      | Some err =>
          if IsNotFound err then Ret (object, (ObjectModified, None))
          else Ret (object, (ObjectUnchanged, Some err))
      | None =>
          let* (object, err) := ensureFinalizerDeleted finalizer object in
          match err with
          | Some err => Ret (object, (ObjectUnchanged, Some err))
          | None => after object
          end
      end
  end.

Definition finalize (finalizer : string) : method E R (ObjectState * option error) := fun object =>
  if negb (ContainsFinalizer (r_meta object) finalizer) then Ret (object, (ObjectModified, None))
  else finalize_refetched finalizer (fun object => Ret (object, (ObjectModified, None))) object.

Definition ensureDeletionProcessed (finalize : method E R (ObjectState * option error))
  : ReconcileOperation E R := fun object =>
  match om_DeletionTimestamp (r_meta object) with
  | None => Ret (object, ContinueProcessing)
  | Some _ =>
      let* (object, (crState, err)) := finalize object in
      match crState, err with
      | ObjectModified, None => Ret (object, StopProcessing)
      | _, _ => Ret (object, RequeueAfter requeueTime err)
      end
  end.

Definition available_condition : Condition :=
  {| cond_Type := typeAvailableHub; cond_Status := ConditionTrue; cond_Reason := "Reconciling";
     cond_Message := "reconciled successfully" |}.

(** A conflict is logged differently, but every error requeues. *)
Definition ensureStatusSetToDone : ReconcileOperation E R := fun object =>
  let* (object, err) := refetch object in
  match err with
  | Some _ => Ret (object, Requeue)
  | None =>
      let object := r_with_conditions object
        (SetStatusCondition (r_conditions object) available_condition).1 in
      let* (object, err) := update_status object in
      match err with
      | Some err => if IsConflict err then Ret (object, Requeue) else Ret (object, Requeue)
      | None => Ret (object, ContinueProcessing)
      end
  end.

(** [Reconcile] of a controller that drops the handler's result. *)
Definition reconcile (operations : list (ReconcileOperation E R)) (namespace name : string)
  : prog E (with_error ctrl_Result) :=
  let* answer := call (Get_ namespace name) in
  match answer with
  | inl err => Ret (done_Result, IgnoreNotFound err)
  | inr fetchedCR =>
      let* (_, (_, err)) := run_operations operations fetchedCR in
      match err with
      | Some err => Ret (done_Result, Some err)
      | None => Ret (done_Result, None)
      end
  end.

(** [Reconcile] of a controller that returns the handler's result. *)
Definition reconcile_result (operations : list (ReconcileOperation E R)) (namespace name : string)
  : prog E (with_error ctrl_Result) :=
  let* answer := call (Get_ namespace name) in
  match answer with
  | inl err => Ret (done_Result, IgnoreNotFound err)
  | inr fetchedCR =>
      let* (_, (result, err)) := run_operations operations fetchedCR in
      match err with
      | Some err => Ret (result, Some err)
      | None => Ret (result, None)
      end
  end.

(** The operations of a handler: the life cycle first, then the controller's own
    [work], which ends with the final status update. *)
Definition lifecycle (finalizer : string) (finalize : method E R (ObjectState * option error))
    (work : list (ReconcileOperation E R)) : list (ReconcileOperation E R) :=
  [ensureDeletionProcessed finalize; ensureStatusInitialized; ensureFinalizerInitialized finalizer]
  ++ work.
End Lifecycle.

(** ** Lemmas *)

Section Phases.
Context {E : Type -> Type} {R : Type} `{ResourceLaws R} `{ResourceCalls E R} `{K8sLaws}.

Definition stops (res : with_error OperationResult) : bool :=
  match res.2 with Some _ => true | None => RequeueOrCancel res.1 end.

(** What the handler returns for a result it stops at. *)
Definition stop_result (res : with_error OperationResult) : with_error ctrl_Result :=
  ({| res_RequeueAfter :=
        match res.2 with
        | Some _ => RequeueDelay res.1
        | None => if RequeueRequest res.1 then RequeueDelay res.1 else 0
        end |}, res.2).

Lemma run_operations_stop (op : ReconcileOperation E R) rest r :
  (forall tr r' res, runs (op r) tr (Done (r', res)) -> stops res = true) ->
  forall tr out, runs (run_operations (op :: rest) r) tr out <-> runs (run_operations [op] r) tr out.
Proof.
  intros Hs tr out. simpl. apply runs_bind_ext. intros [r' [res err]] tr' Hr tr2 out2.
  specialize (Hs _ _ _ Hr). unfold stops, RequeueOrCancel in Hs; simpl in Hs.
  destruct err; [done |]. destruct (RequeueRequest res); [done |]. simpl in Hs. by rewrite Hs.
Qed.

Definition deleting (r : R) : bool := bool_decide (is_Some (om_DeletionTimestamp (r_meta r))).

(** The operations that take effect on an object: one per reconcile until it is
    initialised. *)
Definition phase (finalizer : string) (fin : method E R (ObjectState * option error))
    (work : list (ReconcileOperation E R)) (r : R) : list (ReconcileOperation E R) :=
  if deleting r then [ensureDeletionProcessed fin]
  else if length (r_conditions r) =? 0 then [ensureStatusInitialized]
  else if bool_decide (finalizer ∈ om_Finalizers (r_meta r)) then work
  else [ensureFinalizerInitialized finalizer].

Lemma deletion_stops (fin : method E R (ObjectState * option error)) r tr r' res :
  deleting r = true -> runs (ensureDeletionProcessed fin r) tr (Done (r', res)) -> stops res = true.
Proof.
  unfold deleting, ensureDeletionProcessed. intros Hd%bool_decide_eq_true.
  destruct Hd as [t ->]. rewrite runs_bind.
  intros [([o [st err]] & tr1 & tr2 & _ & _ & Hr)|(why & [=] & _)].
  destruct st, err; destruct Hr as [_ Hr]; simplify_eq; done.
Qed.

Lemma status_init_stops r tr r' res :
  r_conditions r = [] -> runs (ensureStatusInitialized (E:=E) r) tr (Done (r', res)) -> stops res = true.
Proof.
  unfold ensureStatusInitialized. intros ->. simpl.
  intros (x & tr' & _ & Hr). destruct x; destruct Hr as [_ Hr]; simplify_eq; done.
Qed.

Lemma contains_finalizer_dec m f : ContainsFinalizer m f = bool_decide (f ∈ om_Finalizers m).
Proof.
  destruct (ContainsFinalizer m f) eqn:E1; symmetry.
  - apply bool_decide_eq_true. by apply contains_finalizer.
  - apply bool_decide_eq_false. intros Hin%contains_finalizer. congruence.
Qed.

Lemma finalizer_init_stops f r tr r' res :
  f ∉ om_Finalizers (r_meta r) ->
  runs (ensureFinalizerInitialized (E:=E) f r) tr (Done (r', res)) -> stops res = true.
Proof.
  intros Hf. unfold ensureFinalizerInitialized. rewrite contains_finalizer_dec.
  rewrite bool_decide_eq_false_2 by done. pose proof (add_finalizer_ok _ _ Hf) as Hok.
  destruct (AddFinalizer _ f) as [m ok]. simpl in Hok. subst ok. simpl.
  intros (x & tr' & _ & Hr). destruct x; destruct Hr as [_ Hr]; simplify_eq; done.
Qed.

Lemma lifecycle_phase f (fin : method E R (ObjectState * option error)) work r tr out :
  runs (run_operations (lifecycle f fin work) r) tr out
  <-> runs (run_operations (phase f fin work r) r) tr out.
Proof.
  unfold lifecycle, phase. cbn [app]. destruct (deleting r) eqn:D.
  { apply run_operations_stop. intros tr' r' res. by apply deletion_stops. }
  assert (Hd : forall rest, run_operations (ensureDeletionProcessed fin :: rest) r = run_operations rest r).
  { intros rest. simpl. unfold ensureDeletionProcessed. unfold deleting in D.
    apply bool_decide_eq_false in D. by destruct (om_DeletionTimestamp (r_meta r)); [exfalso; eauto |]. }
  rewrite Hd. destruct (length (r_conditions r) =? 0) eqn:C.
  { apply run_operations_stop. intros tr' r' res. apply status_init_stops.
    apply Nat.eqb_eq in C. by apply length_zero_iff_nil. }
  assert (Hc : forall rest, run_operations (ensureStatusInitialized :: rest) r = run_operations rest r).
  { intros rest. simpl. unfold ensureStatusInitialized. by rewrite C. }
  rewrite Hc. case_bool_decide as Hf.
  - assert (Hi : forall rest, run_operations (ensureFinalizerInitialized f :: rest) r = run_operations rest r).
    { intros rest. simpl. unfold ensureFinalizerInitialized.
      by rewrite contains_finalizer_dec, bool_decide_eq_true_2. }
    by rewrite Hi.
  - apply run_operations_stop. intros tr' r' res. by apply finalizer_init_stops.
Qed.

(** What the handler makes of a finalization. *)
Definition deletion_outcome (out : go (R * (ObjectState * option error)))
  : go (R * with_error ctrl_Result) :=
  match out with
  | Done (o, (ObjectModified, None)) => Done (o, (done_Result, None))
  | Done (o, (_, err)) => Done (o, ({| res_RequeueAfter := requeueTime |}, err))
  | Panics why => Panics why
  end.

Lemma deletion_runs (fin : method E R (ObjectState * option error)) r tr out :
  deleting r = true ->
  runs (run_operations [ensureDeletionProcessed fin] r) tr out
  <-> exists fout, runs (fin r) tr fout /\ out = deletion_outcome fout.
Proof.
  unfold deleting. intros [t Ht]%bool_decide_eq_true. cbn [run_operations].
  unfold ensureDeletionProcessed. rewrite Ht, runs_bind. split.
  - intros [(a & tr1 & tr2 & -> & Ha & Hb)|(why & -> & Hp)].
    + rewrite runs_bind in Ha.
      destruct Ha as [([o [st err]] & tr3 & tr4 & -> & Hc & Hd)|(why & [=] & _)].
      exists (Done (o, (st, err))). destruct st, err; destruct Hd as [-> [= ->]]; destruct Hb as [-> ->];
        by rewrite !app_nil_r.
    + rewrite runs_bind in Hp. destruct Hp as [([o [st err]] & tr3 & tr4 & -> & Hc & Hd)|(why' & [= ->] & Hp)].
      * destruct st, err; by destruct Hd as [_ [=]].
      * by exists (Panics why').
  - intros ([[o [st err]]|why] & Hf & ->).
    + left. set (res := match st, err with ObjectModified, None => StopProcessing
                        | _, _ => RequeueAfter requeueTime err end).
      exists (o, res), tr, []. rewrite app_nil_r. split; [done |]. split.
      * rewrite runs_bind. left. exists (o, (st, err)), tr, []. rewrite app_nil_r. by destruct st, err.
      * by destruct st, err.
    + right. exists why. split; [done |]. rewrite runs_bind. right. by exists why.
Qed.

(** [Reconcile] executes one phase, also when it returns the handler's result. *)
Lemma reconcile_result_phase f (fin : method E R (ObjectState * option error)) work ns name tr out :
  runs (reconcile_result (lifecycle f fin work) ns name) tr out <->
  exists answer tr', tr = Ev (Get_ ns name) answer :: tr' /\
    match answer with
    | inl err => tr' = [] /\ out = Done (done_Result, IgnoreNotFound err)
    | inr r => exists out', runs (run_operations (phase f fin work r) r) tr' out'
                            /\ out = go_map snd out'
    end.
Proof.
  unfold reconcile_result. cbn [prog_bind call runs]. split.
  - intros (answer & tr' & -> & Hr). exists answer, tr'. split; [done |].
    destruct answer as [err|r]; [done |]. rewrite runs_bind in Hr.
    destruct Hr as [([o [res err]] & tr1 & tr2 & -> & Ha & Hb)|(why & -> & Hp)].
    + exists (Done (o, (res, err))). rewrite lifecycle_phase in Ha.
      destruct err; destruct Hb as [-> ->]; rewrite app_nil_r; done.
    + exists (Panics why). by rewrite <- lifecycle_phase.
  - intros (answer & tr' & -> & Hr). exists answer, tr'. split; [done |].
    destruct answer as [err|r]; [done |]. destruct Hr as (out' & Hr & ->).
    rewrite <- lifecycle_phase in Hr. rewrite runs_bind. destruct out' as [[o [res err]]|why].
    + left. exists (o, (res, err)), tr', []. rewrite app_nil_r. by destruct err.
    + right. by exists why.
Qed.
End Phases.

(** ** Updates of the resource *)

(** Which calls update the resource itself. *)
Class UpdateView (E : Type -> Type) (R : Type) `{ResourceCalls E R} := {
  as_update : forall X, E X -> option R;
  as_update_update r : as_update _ (Update_ r) = Some r;
  as_update_get ns name : as_update _ (Get_ ns name) = None;
  as_update_status r : as_update _ (UpdateStatus_ r) = None
}.

Section Updates.
Context {E : Type -> Type} {R : Type} `{ResourceLaws R} `{UpdateView E R} `{K8sLaws}.

Definition updated (ev : event E) : option R := match ev with Ev e _ => as_update _ e end.

(** A program that leaves the resource alone. *)
Definition quiet {A} (p : prog E A) : Prop := only (fun ev => updated ev = None) p.

(** A live object is updated only to carry the finalizer, one under deletion
    only to drop it. *)
Definition update_ok (f : string) (del : bool) (ev : event E) : Prop :=
  forall o, updated ev = Some o -> (f ∈ om_Finalizers (r_meta o) <-> del = false).

Lemma update_ok_get f del ns name x : update_ok f del (Ev (Get_ ns name) x).
Proof. intros o. simpl. by rewrite as_update_get. Qed.

Lemma update_ok_status f del r x : update_ok f del (Ev (UpdateStatus_ r) x).
Proof. intros o. simpl. by rewrite as_update_status. Qed.

Lemma update_ok_drop f r x :
  update_ok f true (Ev (Update_ (r_with_meta r
    (with_finalizers (r_meta r) (filter (fun g => g <> f) (om_Finalizers (r_meta r)))))) x).
Proof.
  intros o. simpl. rewrite as_update_update. intros [= <-]. rewrite meta_with_meta.
  unfold with_finalizers; simpl. rewrite list_elem_of_filter. naive_solver.
Qed.

Lemma update_ok_add f r x :
  update_ok f false (Ev (Update_ (r_with_meta r (AddFinalizer (r_meta r) f).1)) x).
Proof.
  intros o. simpl. rewrite as_update_update. intros [= <-]. rewrite meta_with_meta.
  split; [done | intros _; apply add_finalizer].
Qed.

Lemma quiet_update_ok {A} (p : prog E A) f del tr out :
  quiet p -> runs p tr out -> Forall (update_ok f del) tr.
Proof.
  intros Hq Hr. eapply Forall_impl; [exact (Hq _ _ Hr) |]. intros ev Hn o. by rewrite Hn.
Qed.

Ltac close_trace :=
  simpl;
  repeat (apply Forall_nil_2 || apply Forall_cons_2);
  first [apply update_ok_get | apply update_ok_status | apply update_ok_drop | apply update_ok_add].

(** [finalize] of every adapter keeps to it, given that what runs beside it does. *)
Lemma finalize_refetched_updates f (after : method E R (ObjectState * option error)) r tr0 :
  Forall (update_ok f true) tr0 ->
  (forall r, quiet (after r)) ->
  wp any_answer (finalize_refetched f after r) tr0 (fun tr _ => Forall (update_ok f true) tr).
Proof.
  intros Hpre Hafter. apply wp_app.
  assert (Ha : forall r tr, Forall (update_ok f true) tr ->
    wp any_answer (after r) tr (fun tr _ => Forall (update_ok f true) (tr0 ++ tr))).
  { intros o tr Htr. apply wp_runs. intros tr' out Hr _. rewrite !Forall_app.
    split; [done | split; [done |]]. eapply quiet_update_ok; [apply Hafter | exact Hr]. }
  unfold finalize_refetched, refetch, update_status, ensureFinalizerDeleted, deleteFinalizer, update.
  simpl. intros [err|o] _; simpl.
  { destruct (IsNotFound err); apply Forall_app; (split; [done | close_trace]). }
  destruct (SetStatusCondition _ _) as [cs []]; simpl; [intros [err|o'] _; simpl |].
  - destruct (IsNotFound err); apply Forall_app; (split; [done | close_trace]).
  - destruct (bool_decide _); simpl; [intros [err|o''] _ |]; simpl;
      try (apply Ha; close_trace); apply Forall_app; (split; [done | close_trace]).
  - destruct (bool_decide _); simpl; [intros [err|o''] _ |]; simpl;
      try (apply Ha; close_trace); apply Forall_app; (split; [done | close_trace]).
Qed.

Lemma finalize_updates f r :
  wp any_answer (finalize f r) [] (fun tr _ => Forall (update_ok f true) tr).
Proof.
  unfold finalize. destruct (negb _); [constructor |].
  apply finalize_refetched_updates; [constructor |]. intros o tr out [-> _]. constructor.
Qed.

Lemma status_done_quiet : forall r, quiet (ensureStatusSetToDone (E:=E) (R:=R) r).
Proof.
  intros r. unfold quiet, ensureStatusSetToDone, refetch, update_status. solve_only; intros x.
  - apply as_update_get.
  - apply as_update_status.
Qed.

Lemma run_operations_quiet (ops : list (ReconcileOperation E R)) :
  Forall (fun op : ReconcileOperation E R => forall r, quiet (op r)) ops ->
  forall r, quiet (run_operations ops r).
Proof.
  unfold quiet. induction 1 as [|op ops Hop _ IH]; intros r; cbn [run_operations]; solve_only; auto.
Qed.

Lemma lifecycle_update_ok f (fin : method E R (ObjectState * option error)) work r tr out :
  (forall r, wp any_answer (fin r) [] (fun tr _ => Forall (update_ok f true) tr)) ->
  Forall (fun op : ReconcileOperation E R => forall r, quiet (op r)) work ->
  runs (run_operations (lifecycle f fin work) r) tr out ->
  Forall (update_ok f (deleting r)) tr.
Proof.
  intros Hfin Hq. rewrite lifecycle_phase. unfold phase. destruct (deleting r) eqn:D.
  - revert tr out. apply wp_any. simpl. unfold ensureDeletionProcessed.
    destruct (om_DeletionTimestamp _); [| close_trace].
    rewrite !wp_bind. eapply wp_mono; [| apply Hfin].
    intros tr [[o [st err]]|why] Ht; simpl; [| done]. by destruct st, err.
  - destruct (length _ =? 0) eqn:C; [| case_bool_decide].
    + revert tr out. apply wp_any. simpl. unfold ensureStatusInitialized, update_status. rewrite C.
      simpl. intros [err|o] _; close_trace.
    + intros Hr. eapply quiet_update_ok; [| exact Hr]. by apply run_operations_quiet.
    + revert tr out. apply wp_any. simpl. unfold ensureFinalizerInitialized, update.
      rewrite contains_finalizer_dec, bool_decide_eq_false_2 by done.
      pose proof (fun x => update_ok_add f r x) as Ha.
      destruct (AddFinalizer _ _) as [m []]; simpl in *; [| close_trace].
      intros [err|o] _; apply Forall_singleton, Ha.
Qed.
End Updates.

(** ** The life cycle does not panic *)

Section Safe.
Context {E : Type -> Type} {R : Type} `{Resource R} `{ResourceCalls E R} `{K8sUtil}.
Context (A : assumption E).

Lemma status_done_safe (r : R) : safe A (ensureStatusSetToDone (E:=E) r).
Proof. unfold ensureStatusSetToDone, refetch, update_status. solve_safe. Qed.

Lemma status_init_safe (r : R) : safe A (ensureStatusInitialized (E:=E) r).
Proof. unfold ensureStatusInitialized, update_status. solve_safe. Qed.

Lemma finalizer_init_safe f (r : R) : safe A (ensureFinalizerInitialized (E:=E) f r).
Proof. unfold ensureFinalizerInitialized, update. solve_safe. Qed.

Lemma finalize_refetched_safe f (after : method E R (ObjectState * option error)) (r : R) :
  (forall r, safe A (after r)) -> safe A (finalize_refetched f after r).
Proof.
  intros Ha. unfold finalize_refetched, refetch, update_status, ensureFinalizerDeleted,
    deleteFinalizer, update. solve_safe.
Qed.

Lemma deletion_safe (fin : method E R (ObjectState * option error)) (r : R) :
  (forall r, safe A (fin r)) -> safe A (ensureDeletionProcessed fin r).
Proof. intros Hf. unfold ensureDeletionProcessed. solve_safe. Qed.

(** One operation of the loop. *)
Lemma run_operations_safe (op : ReconcileOperation E R) rest (r : R) :
  safe A (op r) ->
  (forall tr r' res, runs (op r) tr (Done (r', res)) -> Forall (allowed A) tr ->
     safe A (run_operations rest r')) ->
  safe A (run_operations (op :: rest) r).
Proof.
  intros Hop Hrest. cbn [run_operations]. apply safe_bind; [done |].
  intros [r' [res err]] tr Hr Ha. specialize (Hrest _ _ _ Hr Ha).
  destruct err; [apply safe_Ret |]. destruct (RequeueRequest res); [apply safe_Ret |].
  destruct (CancelRequest res); [apply safe_Ret | done].
Qed.
End Safe.

(** ** The final status update *)

Section StatusDone.
Context {E : Type -> Type} {R : Type} `{Resource R} `{ResourceCalls E R} `{K8sUtil}.

Lemma status_done_quietly r tr out :
  runs (run_operations [ensureStatusSetToDone (E:=E) (R:=R)] r) tr out ->
  exists o, out = Done (o, (done_Result, None)).
Proof.
  simpl. intros (x & tr1 & -> & Hr). destruct x as [err|o]; simpl in Hr.
  - destruct Hr as [_ ->]. eauto.
  - destruct Hr as (y & tr2 & -> & Hr). destruct y as [err|o']; simpl in Hr.
    + destruct (IsConflict err); destruct Hr as [_ ->]; eauto.
    + destruct Hr as [_ ->]. eauto.
Qed.
End StatusDone.

(** ** A cooperative server *)

(** The object as the server stores it: [Get] returns it, [Update] replaces all
    but the status, the status endpoint replaces the status. *)
Class CooperativeServer {E : Type -> Type} {R : Type} `{Resource R} `{ResourceCalls E R}
    (server : forall X, E X -> R -> X * R) := {
  server_get ns name r : server _ (Get_ ns name) r = (inr r, r);
  server_update o r :
    server _ (Update_ o) r = (inr (r_with_conditions o (r_conditions r)),
                              r_with_conditions o (r_conditions r));
  server_update_status o r :
    server _ (UpdateStatus_ o) r = (inr (r_with_conditions r (r_conditions o)),
                                    r_with_conditions r (r_conditions o))
}.

Section Converge.
Context {E : Type -> Type} {R : Type} `{ResourceLaws R} `{ResourceCalls E R} `{K8sLaws}.
Context (server : forall X, E X -> R -> X * R) `{!CooperativeServer server}.
Context (ns name : string).

(** What the server stores after one reconcile, and after [n]. *)
Definition after_reconcile (operations : list (ReconcileOperation E R)) (stored : R) : R :=
  (run_with server (reconcile operations ns name) stored).2.

Fixpoint after_reconciles (n : nat) (operations : list (ReconcileOperation E R)) (stored : R) : R :=
  match n with
  | 0 => stored
  | S n => after_reconciles n operations (after_reconcile operations stored)
  end.

Lemma after_status_init f (fin : method E R (ObjectState * option error)) work r :
  deleting r = false -> r_conditions r = [] ->
  exists cs, cs <> [] /\ after_reconcile (lifecycle f fin work) r = r_with_conditions r cs.
Proof.
  intros D C. unfold after_reconcile, reconcile. simpl. rewrite server_get.
  unfold ensureDeletionProcessed. unfold deleting in D. apply bool_decide_eq_false in D.
  destruct (om_DeletionTimestamp (r_meta r)); [exfalso; eauto |]. simpl.
  unfold ensureStatusInitialized. rewrite C. simpl. rewrite server_update_status. simpl.
  rewrite conditions_with_conditions. eexists. split; [| done]. apply set_status_condition.
Qed.

Lemma after_finalizer_init f (fin : method E R (ObjectState * option error)) work r :
  deleting r = false -> r_conditions r <> [] -> f ∉ om_Finalizers (r_meta r) ->
  after_reconcile (lifecycle f fin work) r
  = r_with_conditions (r_with_meta r (AddFinalizer (r_meta r) f).1) (r_conditions r).
Proof.
  intros D C Hf. unfold after_reconcile, reconcile. simpl. rewrite server_get.
  unfold ensureDeletionProcessed. unfold deleting in D. apply bool_decide_eq_false in D.
  destruct (om_DeletionTimestamp (r_meta r)); [exfalso; eauto |]. simpl.
  unfold ensureStatusInitialized. destruct (r_conditions r) as [|c cs] eqn:E1; [done |]. simpl.
  unfold ensureFinalizerInitialized. rewrite contains_finalizer_dec, bool_decide_eq_false_2 by done.
  pose proof (add_finalizer_ok _ _ Hf) as Hok.
  destruct (AddFinalizer (r_meta r) f) as [m ok]. simpl in Hok. subst ok. simpl.
  by rewrite server_update, E1.
Qed.

Lemma initialised_phase f (fin : method E R (ObjectState * option error)) work r :
  deleting r = false -> r_conditions r <> [] -> f ∈ om_Finalizers (r_meta r) ->
  phase f fin work r = work.
Proof.
  intros D C F. unfold phase. rewrite D, bool_decide_eq_true_2 by done. by destruct (r_conditions r).
Qed.

Lemma finalizer_then_work f (fin : method E R (ObjectState * option error)) work r :
  deleting r = false -> r_conditions r <> [] -> f ∉ om_Finalizers (r_meta r) ->
  phase f fin work (after_reconcile (lifecycle f fin work) r) = work.
Proof.
  intros D C F. rewrite after_finalizer_init by done. apply initialised_phase.
  - unfold deleting in *. by rewrite meta_with_conditions, meta_with_meta, add_finalizer_deletion.
  - by rewrite conditions_with_conditions.
  - rewrite meta_with_conditions, meta_with_meta. apply add_finalizer.
Qed.

Lemma live_converges f (fin : method E R (ObjectState * option error)) work r :
  deleting r = false ->
  exists n, n <= 2 /\ phase f fin work (after_reconciles n (lifecycle f fin work) r) = work.
Proof.
  intros D. destruct (decide (r_conditions r = [])) as [C|C].
  - destruct (after_status_init f fin work r D C) as (cs & Hcs & E1).
    assert (D' : deleting (r_with_conditions r cs) = false).
    { unfold deleting in *. by rewrite meta_with_conditions. }
    destruct (decide (f ∈ om_Finalizers (r_meta r))) as [F|F].
    + exists 1. split; [lia |]. simpl. rewrite E1. apply initialised_phase; [done | |].
      * by rewrite conditions_with_conditions.
      * by rewrite meta_with_conditions.
    + exists 2. split; [lia |]. simpl. rewrite E1. apply finalizer_then_work; [done | |].
      * by rewrite conditions_with_conditions.
      * by rewrite meta_with_conditions.
  - destruct (decide (f ∈ om_Finalizers (r_meta r))) as [F|F].
    + exists 0. split; [lia |]. by apply initialised_phase.
    + exists 1. split; [lia |]. by apply finalizer_then_work.
Qed.

(** Deletion: one reconcile drops the finalizer. *)
Lemma after_finalize f work r :
  deleting r = true ->
  f ∉ om_Finalizers (r_meta (after_reconcile (lifecycle f (finalize f) work) r)).
Proof.
  intros D. unfold after_reconcile, reconcile. simpl. rewrite server_get.
  unfold ensureDeletionProcessed. unfold deleting in D. apply bool_decide_eq_true in D.
  destruct D as [t Ht]. rewrite Ht. unfold finalize. rewrite contains_finalizer_dec.
  case_bool_decide as F; simpl; [| done].
  rewrite server_get. simpl. destruct (SetStatusCondition _ _) as [cs changed].
  unfold ensureFinalizerDeleted, deleteFinalizer.
  destruct changed; simpl; rewrite ?server_update_status; simpl;
    rewrite ?meta_with_conditions; rewrite bool_decide_eq_true_2 by done; simpl;
    rewrite server_update; simpl; rewrite meta_with_conditions, meta_with_meta;
    unfold with_finalizers; simpl; rewrite list_elem_of_filter; tauto.
Qed.
End Converge.

(** ** Properties *)

(** What [Reconcile] makes of the handler's outcome: the delay is dropped. *)
Definition reconcile_outcome {R} (out : go (R * with_error ctrl_Result)) : go (with_error ctrl_Result) :=
  match out with
  | Done (_, (_, err)) => Done (done_Result, err)
  | Panics why => Panics why
  end.

Section Properties.
Context {E : Type -> Type} {R : Type} `{ResourceLaws R} `{ResourceCalls E R} `{K8sLaws}.

(** C5. A reconcile fetches the resource and then executes exactly one phase of
    its life cycle, chosen by the fetched object: deletion when it has a
    deletion timestamp, otherwise the status when it has no condition,
    otherwise the finalizer when it is missing, and only otherwise the
    controller's own work.  The result it returns carries the handler's error
    and never the handler's delay. *)
Theorem reconcile_one_phase f (fin : method E R (ObjectState * option error)) work ns name tr out :
  runs (reconcile (lifecycle f fin work) ns name) tr out <->
  exists answer tr', tr = Ev (Get_ ns name) answer :: tr' /\
    match answer with
    | inl err => tr' = [] /\ out = Done (done_Result, IgnoreNotFound err)
    | inr r => exists out', runs (run_operations (phase f fin work r) r) tr' out'
                            /\ out = reconcile_outcome out'
    end.
Proof.
  unfold reconcile. cbn [prog_bind call runs]. split.
  - intros (answer & tr' & -> & Hr). exists answer, tr'. split; [done |].
    destruct answer as [err|r]; [done |]. rewrite runs_bind in Hr.
    destruct Hr as [([o [res err]] & tr1 & tr2 & -> & Ha & Hb)|(why & -> & Hp)].
    + exists (Done (o, (res, err))). rewrite lifecycle_phase in Ha.
      destruct err; destruct Hb as [-> ->]; rewrite app_nil_r; done.
    + exists (Panics why). by rewrite <- lifecycle_phase.
  - intros (answer & tr' & -> & Hr). exists answer, tr'. split; [done |].
    destruct answer as [err|r]; [done |]. destruct Hr as (out' & Hr & ->).
    rewrite <- lifecycle_phase in Hr. rewrite runs_bind. destruct out' as [[o [res err]]|why].
    + left. exists (o, (res, err)), tr', []. rewrite app_nil_r. by destruct err.
    + right. by exists why.
Qed.

(** C12. Against a server that stores what it is sent, a live resource reaches
    the controller's own work after at most two reconciles, and a resource
    under deletion loses the finalizer in one. *)
Theorem lifecycle_converges (server : forall X, E X -> R -> X * R) `{!CooperativeServer server}
    ns name f work r :
  if deleting r
  then f ∉ om_Finalizers (r_meta (after_reconcile server ns name (lifecycle f (finalize f) work) r))
  else exists n, n <= 2 /\
    phase f (finalize f) work
      (after_reconciles server ns name n (lifecycle f (finalize f) work) r) = work.
Proof.
  destruct (deleting r) eqn:D.
  - by apply after_finalize.
  - by apply live_converges.
Qed.

(** A status update that fails, with a conflict or otherwise, ends the
    handler with neither an error nor a delay, so that nothing asks for the
    reconcile to be repeated. *)
Theorem status_failure_lost (op : ReconcileOperation E R) r tr1 o tr2 o' res :
  runs (op r) tr1 (Done (o, ContinueProcessing)) ->
  runs (ensureStatusSetToDone o) tr2 (Done (o', res)) ->
  runs (run_operations [op; ensureStatusSetToDone] r) (tr1 ++ tr2) (Done (o', (done_Result, None))).
Proof.
  intros Ha Hb. cbn [run_operations]. rewrite runs_bind. left.
  exists (o, ContinueProcessing), tr1, tr2. split_and!; [done | done |].
  change (runs (run_operations [ensureStatusSetToDone] o) tr2 (Done (o', (done_Result, None)))).
  cbn [run_operations]. rewrite runs_bind. left.
  exists (o', res), tr2, []. split_and!; [by rewrite app_nil_r | done |].
  destruct Hb as (x & tr1' & -> & Hr). destruct x as [err|o1]; simpl in Hr.
  - destruct Hr as [_ Hr]. by simplify_eq.
  - destruct Hr as (y & tr2' & -> & Hr). destruct y as [err|o2]; simpl in Hr.
    + destruct (IsConflict err); destruct Hr as [_ Hr]; by simplify_eq.
    + destruct Hr as [_ Hr]. by simplify_eq.
Qed.
End Properties.

(** ** Instances for the witnesses *)

Module Sample.
(** Metadata and conditions alone, with the three calls. *)
Definition thing : Type := ObjectMeta * list Condition.

Inductive thing_call : Type -> Type :=
| TGet (ns name : string) : thing_call (error + thing)%type
| TUpdate (r : thing) : thing_call (error + thing)%type
| TUpdateStatus (r : thing) : thing_call (error + thing)%type.

#[export] Instance thing_resource : Resource thing := {
  r_meta r := r.1;
  r_with_meta r m := (m, r.2);
  r_conditions r := r.2;
  r_with_conditions r cs := (r.1, cs)
}.

#[export] Instance thing_laws : ResourceLaws thing.
Proof. by constructor. Defined.

#[export] Instance thing_calls : ResourceCalls thing_call thing := {
  Get_ := TGet;
  Update_ := TUpdate;
  UpdateStatus_ := TUpdateStatus
}.

Definition thing_server X (e : thing_call X) : thing -> X * thing :=
  match e with
  | TGet _ _ => fun r => (inr r, r)
  | TUpdate o => fun r => (inr (o.1, r.2), (o.1, r.2))
  | TUpdateStatus o => fun r => (inr (r.1, o.2), (r.1, o.2))
  end.

#[export] Instance thing_server_ok : CooperativeServer thing_server.
Proof. by constructor. Defined.

Definition set_condition (cs : list Condition) (c : Condition) : list Condition * bool :=
  (filter (fun d => cond_Type d <> cond_Type c) cs ++ [c], true).

#[export] Instance sample_util : K8sUtil := {
  ContainsFinalizer m f := bool_decide (f ∈ om_Finalizers m);
  AddFinalizer m f :=
    if bool_decide (f ∈ om_Finalizers m) then (m, false)
    else (with_finalizers m (om_Finalizers m ++ [f]), true);
  SetStatusCondition := set_condition
}.

#[export] Instance sample_k8s_laws : K8sLaws.
Proof.
  constructor; simpl.
  - intros m f. apply bool_decide_eq_true.
  - intros m f. case_bool_decide; [done |]. simpl. apply elem_of_app. right. by left.
  - intros m f Hf. by rewrite bool_decide_eq_false_2.
  - intros m f. by case_bool_decide.
  - intros cs c. unfold set_condition. by destruct (filter _ cs).
Defined.

Definition new_thing : thing := (named "t" "ns", []).
Definition conflict_error : error := ErrStatus ReasonConflict "conflict".
End Sample.

Import Sample.

(** A new object answered to the fetch is only given its status. *)
Lemma reconcile_one_phase_witness :
  let work := [fun r : thing => Ret (r, ContinueProcessing)] in
  runs (reconcile (lifecycle hubFinalizer (finalize hubFinalizer) work) "ns" "t")
    [Ev (TGet "ns" "t") (inr new_thing);
     Ev (TUpdateStatus (named "t" "ns", [{| cond_Type := "Available"; cond_Status := "Unknown";
           cond_Reason := "Reconciling"; cond_Message := "Starting reconciliation" |}]))
       (inl conflict_error)]
    (Done (done_Result, Some conflict_error)).
Proof.
  intros work. apply reconcile_one_phase. eexists _, _. split; [reflexivity |].
  eexists (Done (_, (_, Some conflict_error))). split; [| reflexivity].
  simpl. eexists _, []. split; [reflexivity |]. split; reflexivity.
Defined.

Lemma lifecycle_converges_witness :
  exists n, n <= 2 /\
    phase hubFinalizer (finalize hubFinalizer) [fun r : thing => Ret (r, ContinueProcessing)]
      (after_reconciles thing_server "ns" "t" n
         (lifecycle hubFinalizer (finalize hubFinalizer) [fun r : thing => Ret (r, ContinueProcessing)])
         new_thing) = [fun r : thing => Ret (r, ContinueProcessing)].
Proof.
  exact (lifecycle_converges thing_server "ns" "t" hubFinalizer
           [fun r : thing => Ret (r, ContinueProcessing)] new_thing).
Defined.

Lemma status_failure_lost_witness :
  exists tr, last tr = Some (Ev (TUpdateStatus (named "t" "ns", [available_condition])) (inl conflict_error))
  /\ runs (run_operations [fun r : thing => Ret (r, ContinueProcessing); ensureStatusSetToDone] new_thing)
       tr (Done ((named "t" "ns", [available_condition]), (done_Result, None))).
Proof.
  exists ([] ++ [Ev (TGet "ns" "t") (inr new_thing);
            Ev (TUpdateStatus (named "t" "ns", [available_condition])) (inl conflict_error)]).
  split; [reflexivity |].
  eapply (status_failure_lost (fun r : thing => Ret (r, ContinueProcessing)) new_thing [] new_thing).
  - simpl. split; reflexivity.
  - simpl. eexists _, _. split; [reflexivity |]. simpl. eexists _, _. split; [reflexivity |].
    split; reflexivity.
Defined.
