(* ===== verification/EventTransformer.v ===== *)
(** * internal/controller: rules as events

    event_config_transformer.go turns the [when] and [then] of an automation
    rule into the trigger and the commands of the event engine.  The theorems
    give the result on every branch and relate it to what the hub webhook
    accepts. *)

From S2P Require Import Prelude GoLib ApiTypes Errors WebhookReplay WebhookHub.
From stdpp Require Import pretty.

(** ** The event engine's data *)

Inductive Trigger :=
| AlertTrigger (Name Status : string)
| VariableTrigger (Name UpdateType : string).

Inductive CommandType :=
| CmdVarSetAdd | CmdVarSetRemove | CmdVarScalarUpdate | CmdVarMapAdd | CmdVarMapRemove
| CmdWebhookCall | CmdDeployReplay | CmdCleanUpReplay.

Record Command := { cmd_Type : CommandType; cmd_Inputs : string }.

Record Rule := { rule_Name : string; rule_Trigger : Trigger; rule_Commands : list Command }.

(** What the controller passes to [json.Marshal]. *)
Record variableSchemaConfigMapEntry := {
  vse_Type : VariableType;
  vse_DataType : VariableDataType;
  vse_StorageType : VariableStorageType;
  vse_VariableRefs : list string;
  vse_SerializeAs : option (list Serializer)
}.

Inductive marshalled :=
| MSetAction (a : SetAction)
| MScalarAction (a : ScalarAction)
| MMapAction (a : MapAction)
| MCallWebhook (a : CallWebhookAction)
| MDeployReplay (a : DeployReplayAction)
| MCleanUpReplay (a : CleanUpReplayAction)
| MRule (r : Rule)
| MSchema (e : variableSchemaConfigMapEntry).

(** ** The transformations *)

Definition transformWhenToTrigger (when : option When) : error + Trigger :=
  match when with
  | None => inl (Err "when is required")
  | Some when =>
      let alertName := deref (when_AlertName when) "" in
      let status := deref (when_Status when) "" in
      let varUpdated := deref (when_VariableUpdated when) "" in
      let updateType := deref (when_UpdateType when) "" in
      let hasAlert := negb (bool_decide (alertName = "")) in
      let hasVar := negb (bool_decide (varUpdated = "")) in
      if hasAlert && hasVar
      then inl (Err "when: specify exactly one of alertName or variableUpdated")
      else if hasAlert then inr (AlertTrigger alertName status)
      else if hasVar then inr (VariableTrigger varUpdated updateType)
      else inl (Err "when: specify either alertName or variableUpdated")
  end.

Section Commands.
Context (Marshal : marshalled -> error + string) (type_text : CommandType -> string).

(** The closure [appendCmd]: a nil pointer appends nothing. *)
Definition appendCmd {A} (payload : option A) (as_json : A -> marshalled) (typ : CommandType)
    (cmds : list Command) : error + list Command :=
  match payload with
  | None => inr cmds
  | Some a =>
      match Marshal (as_json a) with
      | inl err => inl (ErrWrap ("encode " +:+ type_text typ +:+ ": ") err)
      | inr b => inr (cmds ++ [{| cmd_Type := typ; cmd_Inputs := b |}])
      end
  end.

Definition andThen {A B} (x : error + A) (f : A -> error + B) : error + B :=
  match x with inl err => inl err | inr a => f a end.

(** The body of the loop over the actions. *)
Definition append_action (action : Action) (cmds : list Command) : error + list Command :=
  andThen (appendCmd (act_AddToSet action) MSetAction CmdVarSetAdd cmds) (fun cmds =>
  andThen (appendCmd (act_RemoveFromSet action) MSetAction CmdVarSetRemove cmds) (fun cmds =>
  andThen (appendCmd (act_SetVariable action) MScalarAction CmdVarScalarUpdate cmds) (fun cmds =>
  andThen (appendCmd (act_AddToMap action) MMapAction CmdVarMapAdd cmds) (fun cmds =>
  andThen (appendCmd (act_RemoveFromMap action) MMapAction CmdVarMapRemove cmds) (fun cmds =>
  andThen (appendCmd (act_CallWebhook action) MCallWebhook CmdWebhookCall cmds) (fun cmds =>
  andThen (appendCmd (act_DeployReplay action) MDeployReplay CmdDeployReplay cmds) (fun cmds =>
  appendCmd (act_CleanUpReplay action) MCleanUpReplay CmdCleanUpReplay cmds))))))).

Fixpoint transformThen_from (i : nat) (actions : list Action) (cmds : list Command)
  : error + list Command :=
  match actions with
  | [] => inr cmds
  | action :: actions =>
      let start := length cmds in
      match append_action action cmds with
      | inl err => inl err
      | inr cmds =>
          if length cmds =? start
          then inl (Err ("then[" +:+ pretty i +:+ "]: at least one action must be specified"))
          else transformThen_from (S i) actions cmds
      end
  end.

Definition transformThenToCommands (actions : list Action) : error + list Command :=
  transformThen_from 0 actions [].

(** ** Specification *)

Definition payload_of {A} (payload : option A) (as_json : A -> marshalled) (typ : CommandType)
  : list (CommandType * marshalled) :=
  match payload with Some a => [(typ, as_json a)] | None => [] end.

(** The payloads of an action, in the order of the code. *)
Definition action_payloads (a : Action) : list (CommandType * marshalled) :=
  payload_of (act_AddToSet a) MSetAction CmdVarSetAdd
  ++ payload_of (act_RemoveFromSet a) MSetAction CmdVarSetRemove
  ++ payload_of (act_SetVariable a) MScalarAction CmdVarScalarUpdate
  ++ payload_of (act_AddToMap a) MMapAction CmdVarMapAdd
  ++ payload_of (act_RemoveFromMap a) MMapAction CmdVarMapRemove
  ++ payload_of (act_CallWebhook a) MCallWebhook CmdWebhookCall
  ++ payload_of (act_DeployReplay a) MDeployReplay CmdDeployReplay
  ++ payload_of (act_CleanUpReplay a) MCleanUpReplay CmdCleanUpReplay.

(** Marshalling a list of payloads, up to the first failure. *)
Fixpoint encode_all (ps : list (CommandType * marshalled)) : error + list Command :=
  match ps with
  | [] => inr []
  | (typ, p) :: ps =>
      match Marshal p with
      | inl err => inl (ErrWrap ("encode " +:+ type_text typ +:+ ": ") err)
      | inr b => andThen (encode_all ps) (fun cmds => inr ({| cmd_Type := typ; cmd_Inputs := b |} :: cmds))
      end
  end.

(** The first action that names no kind. *)
Fixpoint empty_action (i : nat) (actions : list Action) : option nat :=
  match actions with
  | [] => None
  | a :: actions => if action_kinds a =? 0 then Some i else empty_action (S i) actions
  end.

(** ** Lemmas *)

Lemma andThen_assoc {A B C} (x : error + A) (f : A -> error + B) (g : B -> error + C) :
  andThen (andThen x f) g = andThen x (fun a => andThen (f a) g).
Proof. by destruct x. Qed.

Lemma andThen_inr {A} (x : error + A) : andThen x inr = x.
Proof. by destruct x. Qed.

Lemma encode_all_app ps qs :
  encode_all (ps ++ qs)
  = andThen (encode_all ps) (fun xs => andThen (encode_all qs) (fun ys => inr (xs ++ ys))).
Proof.
  induction ps as [|[typ p] ps IH]; simpl.
  - by rewrite andThen_inr.
  - destruct (Marshal p); [done |]. rewrite IH. destruct (encode_all ps); simpl; [done |].
    by destruct (encode_all qs).
Qed.

Lemma appendCmd_encode {A} (payload : option A) as_json typ cmds :
  appendCmd payload as_json typ cmds
  = andThen (encode_all (payload_of payload as_json typ)) (fun xs => inr (cmds ++ xs)).
Proof.
  destruct payload as [a|]; simpl; [by destruct (Marshal _) | by rewrite app_nil_r].
Qed.

Lemma append_action_encode action cmds :
  append_action action cmds
  = andThen (encode_all (action_payloads action)) (fun xs => inr (cmds ++ xs)).
Proof.
  unfold append_action, action_payloads. rewrite appendCmd_encode.
  repeat (rewrite encode_all_app, !andThen_assoc; destruct (encode_all (payload_of _ _ _)); simpl;
          [done |]; rewrite ?appendCmd_encode).
  destruct (encode_all _); simpl; [done |]. by rewrite <- !app_assoc.
Qed.

Lemma encode_all_length ps cmds : encode_all ps = inr cmds -> length cmds = length ps.
Proof.
  revert cmds. induction ps as [|[typ p] ps IH]; intros cmds; simpl; [by intros [= <-] |].
  destruct (Marshal p); [done |]. destruct (encode_all ps); simpl; [done |].
  intros [= <-]. simpl. f_equal. by apply IH.
Qed.

Lemma action_payloads_length a : length (action_payloads a) = action_kinds a.
Proof.
  unfold action_payloads, action_kinds. rewrite !length_app.
  assert (H : forall B (o : option B) j t, length (payload_of o j t) = count_some o) by (by intros B []).
  rewrite !H. lia.
Qed.
End Commands.

Section Transform.
Context (Marshal : marshalled -> error + string) (type_text : CommandType -> string).

Lemma transformThen_from_ok i actions cmds0 cmds :
  transformThen_from Marshal type_text i actions cmds0 = inr cmds <->
  Forall (fun a => action_kinds a <> 0) actions
  /\ exists xs, encode_all Marshal type_text (concat (map action_payloads actions)) = inr xs
                /\ cmds = cmds0 ++ xs.
Proof.
  revert i cmds0. induction actions as [|a actions IH]; intros i cmds0; cbn [transformThen_from].
  - simpl. split; [intros [= <-]; split; [done |]; exists []; by rewrite app_nil_r |].
    intros (_ & xs & [= <-] & ->). by rewrite app_nil_r.
  - rewrite append_action_encode, Forall_cons. cbn [map concat]. rewrite encode_all_app.
    pose proof (encode_all_length Marshal type_text (action_payloads a)) as Hlen.
    rewrite action_payloads_length in Hlen.
    destruct (encode_all Marshal type_text (action_payloads a)) as [err|ys]; simpl; [naive_solver |].
    specialize (Hlen _ eq_refl). rewrite length_app.
    destruct (length cmds0 + length ys =? length cmds0) eqn:E.
    + apply Nat.eqb_eq in E. split; [done |]. intros [[H _] _]. lia.
    + apply Nat.eqb_neq in E. rewrite IH.
      destruct (encode_all Marshal type_text (concat _)) as [err|zs]; simpl; [naive_solver |].
      split.
      * intros (H1 & xs & [= <-] & ->). split; [split; [lia | done] |].
        exists (ys ++ zs). by rewrite app_assoc.
      * intros ([_ H1] & xs & [= <-] & ->). split; [done |]. exists zs. by rewrite app_assoc.
Qed.

(** The commands of a rule are the payloads of its actions, marshalled, in
    the order of the actions and, inside one, of the code; the transformation
    fails exactly when an action names no kind or a payload cannot be
    marshalled. *)
Theorem transformThenToCommands_spec actions cmds :
  transformThenToCommands Marshal type_text actions = inr cmds <->
  Forall (fun a => action_kinds a <> 0) actions
  /\ encode_all Marshal type_text (concat (map action_payloads actions)) = inr cmds.
Proof.
  unfold transformThenToCommands. rewrite transformThen_from_ok. simpl. naive_solver.
Qed.

Lemma action_ok_kinds vars actions :
  Forall (action_ok vars) actions -> Forall (fun a => action_kinds a <> 0) actions.
Proof. intros H. eapply Forall_impl; [exact H |]. intros a [Ha _]. lia. Qed.

Lemma accepted_payloads vars actions :
  Forall (action_ok vars) actions ->
  length (concat (map action_payloads actions)) = length actions.
Proof.
  induction 1 as [|a actions [Ha _] _ IH]; simpl; [done |].
  by rewrite length_app, action_payloads_length, Ha, IH.
Qed.

(** A rule that the webhook accepts becomes exactly one command per action
    when its payloads can be marshalled. *)
Theorem accepted_rule_commands vars alerts (r : AutomationRule) :
  rule_ok vars alerts r ->
  (forall p, exists b, Marshal p = inr b) ->
  exists cmds, transformThenToCommands Marshal type_text (ar_Then r) = inr cmds
               /\ length cmds = length (ar_Then r) /\ cmds <> [].
Proof.
  intros (_ & Hne & Ha) Hm.
  assert (He : forall ps, exists xs, encode_all Marshal type_text ps = inr xs).
  { induction ps as [|[typ p] ps [xs IH]]; simpl; [by eexists |].
    destruct (Hm p) as [b ->]. rewrite IH. by eexists. }
  destruct (He (concat (map action_payloads (ar_Then r)))) as [cmds Hc]. exists cmds.
  pose proof (encode_all_length _ _ _ _ Hc) as Hl. rewrite (accepted_payloads _ _ Ha) in Hl.
  split; [| split; [done |]].
  - apply transformThen_from_ok. split; [by apply (action_ok_kinds vars) |]. by exists cmds.
  - intros ->. by destruct (ar_Then r).
Qed.
End Transform.

(** The trigger of an accepted [when] names an alert or a variable of the
    hub unless the name is blank, which the webhook does not look up; it is
    refused exactly when both or none of the names are non-empty. *)
Theorem transformWhenToTrigger_accepted vars alerts w :
  when_ok vars alerts w ->
  match transformWhenToTrigger (Some w) with
  | inr (AlertTrigger name status) =>
      (TrimSpace name <> "" -> name ∈ alerts) /\ name = deref (when_AlertName w) "" /\ status = deref (when_Status w) ""
      /\ deref (when_VariableUpdated w) "" = ""
  | inr (VariableTrigger name updateType) =>
      (TrimSpace name <> "" -> name ∈ vars) /\ name = deref (when_VariableUpdated w) ""
      /\ updateType = deref (when_UpdateType w) "" /\ deref (when_AlertName w) "" = ""
  | inl _ => deref (when_AlertName w) "" = "" <-> deref (when_VariableUpdated w) "" = ""
  end.
Proof.
  unfold when_ok, transformWhenToTrigger. intros (_ & _ & Hv & Ha).
  destruct (decide (deref (when_AlertName w) "" = "")) as [Ea|Ea];
    destruct (decide (deref (when_VariableUpdated w) "" = "")) as [Ev|Ev]; simpl.
  - rewrite !bool_decide_eq_true_2 by done. done.
  - rewrite bool_decide_eq_true_2, bool_decide_eq_false_2 by done. simpl. split_and!; try done.
    intros Ht. apply Hv. unfold present. by rewrite bool_decide_eq_false_2.
  - rewrite bool_decide_eq_false_2, bool_decide_eq_true_2 by done. simpl. split_and!; try done.
    intros Ht. apply Ha. unfold present. by rewrite bool_decide_eq_false_2.
  - rewrite !bool_decide_eq_false_2 by done. done.
Qed.

(** ** Witnesses *)

Definition sample_action : Action :=
  {| act_AddToSet := Some {| sa_Set := "services"; sa_Value := "checkout" |};
     act_RemoveFromSet := None; act_SetVariable := None; act_AddToMap := None;
     act_RemoveFromMap := None; act_CallWebhook := None; act_DeployReplay := None;
     act_CleanUpReplay := None |}.

Definition sample_when : When :=
  {| when_AlertName := Some "HighRate"; when_Status := Some "firing";
     when_VariableUpdated := None; when_UpdateType := None |}.

Definition sample_rule : AutomationRule :=
  {| ar_Name := "limit"; ar_When := sample_when; ar_Then := [sample_action; sample_action] |}.

Lemma sample_when_ok : when_ok {["services"]} {["HighRate"]} sample_when.
Proof. vm_compute. split_and!; try done; intros _; set_solver. Qed.

Lemma sample_rule_ok : rule_ok {["services"]} {["HighRate"]} sample_rule.
Proof.
  split; [exact sample_when_ok | split; [done |]].
  repeat constructor; simpl; set_solver.
Qed.

Lemma accepted_rule_commands_witness :
  exists cmds, transformThenToCommands (fun _ => inr "{}") (fun _ => "") (ar_Then sample_rule) = inr cmds
               /\ length cmds = length (ar_Then sample_rule) /\ cmds <> [].
Proof.
  apply (accepted_rule_commands (fun _ => inr "{}") (fun _ => "") {["services"]} {["HighRate"]}).
  - exact sample_rule_ok.
  - intros p. exists "{}". reflexivity.
Defined.

Lemma transformWhenToTrigger_accepted_witness :
  transformWhenToTrigger (Some sample_when) = inr (AlertTrigger "HighRate" "firing")
  /\ ((TrimSpace "HighRate" <> "" -> "HighRate" ∈ ({["HighRate"]} : gset string))
      /\ "HighRate" = deref (when_AlertName sample_when) ""
      /\ "firing" = deref (when_Status sample_when) ""
      /\ deref (when_VariableUpdated sample_when) "" = "").
Proof.
  split; [reflexivity |].
  exact (transformWhenToTrigger_accepted {["services"]} {["HighRate"]} sample_when sample_when_ok).
Defined.
