(* ===== verification/HubCalls.v ===== *)
(** * internal/controller: what the hub adapter calls

    The objects the hub adapter reads and writes besides the hub, the calls it
    makes to the API server and to Valkey as one event type, the instances
    that let the shared life cycle run over a hub, and the shape of each
    answer.  A slice or map that the code tests for [nil] is an option. *)

From S2P Require Import Prelude GoLib ApiTypes Errors Effects Reconcile.
From S2P Require Import K8sObjects.

(** ** Objects *)

(** [prometheusv1.Rule], [RuleGroup] and [PrometheusRule]. *)
Record PromRule := {
  pr_Expr : IntOrString;
  pr_Alert : string;
  pr_For : option string;
  pr_Annotations : gmap string string;
  pr_Labels : gmap string string
}.

Record RuleGroup := {
  rg_Name : string;
  rg_Interval : option string;
  rg_Rules : list PromRule
}.

Record PrometheusRule := {
  promr_ObjectMeta : ObjectMeta;
  promr_Groups : list RuleGroup
}.

Record OpenTelemetryCollector := { otel_ObjectMeta : ObjectMeta }.

(** ** Calls *)

(** [CreateOrUpdateConfigMap desired mutate] is [controllerutil.CreateOrUpdate]:
    the answer carries what was done and the object afterwards. *)
Inductive HubE : Type -> Type :=
| GetHub (ns name : string) : HubE (error + MdaiHub)%type
| UpdateHub (h : MdaiHub) : HubE (error + MdaiHub)%type
| UpdateHubStatus (h : MdaiHub) : HubE (error + MdaiHub)%type
| ListHubs : HubE (error + list MdaiHub)%type
| GetRule (ns name : string) : HubE (error + PrometheusRule)%type
| CreateRule (r : PrometheusRule) : HubE (error + PrometheusRule)%type
| UpdateRule (r : PrometheusRule) : HubE (error + PrometheusRule)%type
| DeleteRule (ns name : string) : HubE (option error)
| DeleteConfigMap (ns name : string) : HubE (option error)
| CreateOrUpdateConfigMap (desired : ConfigMap) (mutate : ConfigMap -> error + ConfigMap)
    : HubE (error + CreateOrUpdateResult * ConfigMap)%type
| ListCollectors (selector : string) : HubE (error + list OpenTelemetryCollector)%type
| UpdateCollector (c : OpenTelemetryCollector) : HubE (error + OpenTelemetryCollector)%type
| GetSetAsStringSlice (key hub : string) : HubE (error + list string)%type
| GetString (key hub : string) : HubE (error + option string)%type
| GetMapAsString (key hub : string) : HubE (error + string)%type
| GetOrCreateMetaPriorityList (key hub : string) (refs : list string)
    : HubE (error + option (list string))%type
| GetOrCreateMetaHashSet (key hub ref0 ref1 : string) : HubE (error + option string)%type
| DeleteKeysWithPrefixUsingScan (keep : gset string) (hub : string) : HubE (option error)
| NowRFC3339 : HubE string
| CreateRestartEvent (hub : string) (env : gmap string string) : HubE (gmap string string)
| InsertAuditLogEventFromMap (ev : gmap string string) : HubE (option error).

(** ** The hub as a resource *)

Definition with_hub_meta (h : MdaiHub) (m : ObjectMeta) : MdaiHub :=
  {| mh_ObjectMeta := m; mh_Spec := mh_Spec h; mh_Status := mh_Status h |}.

Definition with_hub_conditions (h : MdaiHub) (cs : list Condition) : MdaiHub :=
  {| mh_ObjectMeta := mh_ObjectMeta h; mh_Spec := mh_Spec h;
     mh_Status := {| hubs_HubStatus := hubs_HubStatus (mh_Status h);
                     hubs_LastUpdatedTime := hubs_LastUpdatedTime (mh_Status h);
                     hubs_Conditions := cs |} |}.

#[export] Instance hub_resource : Resource MdaiHub := {
  r_meta := mh_ObjectMeta;
  r_with_meta := with_hub_meta;
  r_conditions h := hubs_Conditions (mh_Status h);
  r_with_conditions := with_hub_conditions
}.

#[export] Instance hub_resource_laws : ResourceLaws MdaiHub.
Proof. by constructor. Defined.

#[export] Instance hub_calls : ResourceCalls HubE MdaiHub := {
  Get_ := GetHub;
  Update_ := UpdateHub;
  UpdateStatus_ := UpdateHubStatus
}.

Definition hub_update X (e : HubE X) : option MdaiHub :=
  match e with UpdateHub h => Some h | _ => None end.

#[export] Instance hub_update_view : UpdateView HubE MdaiHub.
Proof. by exists hub_update. Defined.

Abbreviation hub_method A := (method HubE MdaiHub A).
Abbreviation HubOperation := (ReconcileOperation HubE MdaiHub).

(** A part of an operation that reads the hub and leaves it alone. *)
Definition on_hub {A} (f : MdaiHub -> prog HubE A) : hub_method A := fun h =>
  let* a := f h in Ret (h, a).
