(* ===== verification/HubVariables.v ===== *)
(** * internal/controller: the variables of a hub

    [syncValkeyVariables] of hub_adapter.go and what it calls: the value of
    each variable is read from Valkey and put, under its exported names, into
    the environment of the collectors; manual variables and the keys to keep
    are collected on the way.  The specification says which value each
    exported name has; for the hubs that the webhook accepts the loop computes
    exactly that. *)

From S2P Require Import Prelude GoLib ApiTypes Errors WebhookHub Effects Reconcile HubCalls.

(** ** Values and their exported names *)

(** Every serializer exports the value, overriding an earlier one. *)
Definition applySerializerToString (variable : Variable_) (envMap : gmap string string)
    (value : string) : gmap string string :=
  match var_SerializeAs variable with
  | None => envMap
  | Some ws => fold_left (fun envMap w => <[ser_Name w := value]> envMap) ws envMap
  end.

(** The loop over the transformers: an unknown type is logged. *)
Fixpoint applyTransformers (exportedVariableName : string) (valueAsSlice : list string)
    (transformers : list VariableTransformer) (envMap : gmap string string) : go (gmap string string) :=
  match transformers with
  | [] => Done envMap
  | transformer :: transformers =>
      if bool_decide (vt_Type transformer = TransformerTypeJoin)
      then match vt_Join transformer with
           | None => Panics "nil pointer dereference"
           | Some join =>
               applyTransformers exportedVariableName valueAsSlice transformers
                 (<[exportedVariableName := Join valueAsSlice (jt_Delimiter join)]> envMap)
           end
      else applyTransformers exportedVariableName valueAsSlice transformers envMap
  end.

(** A name that is already exported, or has no transformer, is skipped. *)
Definition applySetTransformation (variable : Variable_) (envMap : gmap string string)
    (valueAsSlice : list string) : go (gmap string string) :=
  match var_SerializeAs variable with
  | None => Done envMap
  | Some ws =>
      go_fold (fun envMap w =>
        match envMap !! ser_Name w with
        | Some _ => Done envMap
        | None =>
            if length (ser_Transformers w) =? 0 then Done envMap
            else applyTransformers (ser_Name w) valueAsSlice (ser_Transformers w) envMap
        end) envMap ws
  end.

(** ** Reading the values *)

Section Handle.
(** The name of the hub, under which Valkey keeps the variables. *)
Context (hub : string).

Definition handleComputedVariable (variable : Variable_) (envMap : gmap string string)
  : prog HubE (gmap string string * option error) :=
  if bool_decide (var_DataType variable = VariableDataTypeSet) then
    let* answer := call (GetSetAsStringSlice (var_Key variable) hub) in
    match answer with
    | inl err => Ret (envMap, Some err)
    | inr valueAsSlice =>
        let* envMap := lift (applySetTransformation variable envMap valueAsSlice) in
        Ret (envMap, None)
    end
  else if bool_decide (var_DataType variable = VariableDataTypeString)
          || bool_decide (var_DataType variable = VariableDataTypeInt)
          || bool_decide (var_DataType variable = VariableDataTypeBoolean)
          || bool_decide (var_DataType variable = VariableDataTypeFloat) then
    let* answer := call (GetString (var_Key variable) hub) in
    match answer with
    | inl err => Ret (envMap, Some err)
    | inr None => Ret (envMap, None)
    | inr (Some value) => Ret (applySerializerToString variable envMap value, None)
    end
  else if bool_decide (var_DataType variable = VariableDataTypeMap) then
    let* answer := call (GetMapAsString (var_Key variable) hub) in
    match answer with
    | inl err => Ret (envMap, Some err)
    | inr value => Ret (applySerializerToString variable envMap value, None)
    end
  else Ret (envMap, None).

Definition handleMetaVariable (variable : Variable_) (envMap : gmap string string)
  : prog HubE (gmap string string * option error) :=
  let refs := slice (var_VariableRefs variable) in
  if bool_decide (var_DataType variable = MetaVariableDataTypePriorityList) then
    let* answer := call (GetOrCreateMetaPriorityList (var_Key variable) hub refs) in
    match answer with
    | inl err => Ret (envMap, Some err)
    | inr None => Ret (envMap, None)
    | inr (Some valueAsSlice) =>
        let* envMap := lift (applySetTransformation variable envMap valueAsSlice) in
        Ret (envMap, None)
    end
  else if bool_decide (var_DataType variable = MetaVariableDataTypeHashSet) then
    let* ref0 := lift (at_index refs 0) in
    let* ref1 := lift (at_index refs 1) in
    let* answer := call (GetOrCreateMetaHashSet (var_Key variable) hub ref0 ref1) in
    match answer with
    | inl err => Ret (envMap, Some err)
    | inr None => Ret (envMap, None)
    | inr (Some value) => Ret (applySerializerToString variable envMap value, None)
    end
  else Ret (envMap, None).

(** The three maps the loop fills. *)
Record synced := {
  sy_envMap : gmap string string;
  sy_manualEnvMap : gmap string string;
  sy_valkeyKeysToKeep : gset string
}.

Definition no_synced : synced :=
  {| sy_envMap := ∅; sy_manualEnvMap := ∅; sy_valkeyKeysToKeep := ∅ |}.

(** One iteration: an unsupported storage or type is logged and skipped. *)
Definition syncVariable (variable : Variable_) (st : synced) : prog HubE (synced * option error) :=
  if negb (bool_decide (var_StorageType variable = VariableSourceTypeBuiltInValkey))
  then Ret (st, None)
  else
    let key := var_Key variable in
    let keep := {[key]} ∪ sy_valkeyKeysToKeep st in
    if bool_decide (var_Type variable = VariableTypeManual)
       || bool_decide (var_Type variable = VariableTypeComputed) then
      let manual := if bool_decide (var_Type variable = VariableTypeManual)
                    then <[key := var_DataType variable]> (sy_manualEnvMap st)
                    else sy_manualEnvMap st in
      let* (env, err) := handleComputedVariable variable (sy_envMap st) in
      Ret ({| sy_envMap := env; sy_manualEnvMap := manual; sy_valkeyKeysToKeep := keep |}, err)
    else if bool_decide (var_Type variable = VariableTypeMeta) then
      let* (env, err) := handleMetaVariable variable (sy_envMap st) in
      Ret ({| sy_envMap := env; sy_manualEnvMap := sy_manualEnvMap st;
              sy_valkeyKeysToKeep := keep |}, err)
    else Ret ({| sy_envMap := sy_envMap st; sy_manualEnvMap := sy_manualEnvMap st;
                 sy_valkeyKeysToKeep := keep |}, None).

Fixpoint syncValkeyVariables (variables : list Variable_) (st : synced)
  : prog HubE (synced * option error) :=
  match variables with
  | [] => Ret (st, None)
  | variable :: variables =>
      let* (st, err) := syncVariable variable st in
      match err with
      | Some err => Ret (st, Some err)
      | None => syncValkeyVariables variables st
      end
  end.
End Handle.

(** ** Specification *)

(** What Valkey holds for a hub. *)
Record store := {
  st_set : string -> list string;
  st_string : string -> option string;
  st_map : string -> string;
  st_priority : string -> list string -> option (list string);
  st_hash : string -> string -> string -> option string
}.

(** An environment whose reads answer from the store. *)
Definition reads (s : store) (hub : string) : assumption HubE := fun X e =>
  match e with
  | GetSetAsStringSlice k h => fun x => h = hub -> x = inr (st_set s k)
  | GetString k h => fun x => h = hub -> x = inr (st_string s k)
  | GetMapAsString k h => fun x => h = hub -> x = inr (st_map s k)
  | GetOrCreateMetaPriorityList k h refs => fun x => h = hub -> x = inr (st_priority s k refs)
  | GetOrCreateMetaHashSet k h r0 r1 => fun x => h = hub -> x = inr (st_hash s k r0 r1)
  | _ => fun _ => True
  end.

Inductive value := VSlice (l : list string) | VString (v : string).

(** The value of a variable, by its type and data type. *)
Definition variable_value (s : store) (v : Variable_) : option value :=
  let k := var_Key v in
  let t := var_DataType v in
  let refs := slice (var_VariableRefs v) in
  if bool_decide (var_Type v ∈ [VariableTypeManual; VariableTypeComputed]) then
    if bool_decide (t = VariableDataTypeSet) then Some (VSlice (st_set s k))
    else if bool_decide (t ∈ [VariableDataTypeString; VariableDataTypeInt;
                              VariableDataTypeBoolean; VariableDataTypeFloat])
    then VString <$> st_string s k
    else if bool_decide (t = VariableDataTypeMap) then Some (VString (st_map s k))
    else None
  else if bool_decide (var_Type v = VariableTypeMeta) then
    if bool_decide (t = MetaVariableDataTypePriorityList) then VSlice <$> st_priority s k refs
    else if bool_decide (t = MetaVariableDataTypeHashSet) then
      match refs with
      | r0 :: r1 :: _ => VString <$> st_hash s k r0 r1
      | _ => None
      end
    else None
  else None.

(** The delimiter that takes effect: that of the last join. *)
Fixpoint last_delimiter (ts : list VariableTransformer) : option string :=
  match ts with
  | [] => None
  | t :: ts =>
      match last_delimiter ts with
      | Some d => Some d
      | None => if bool_decide (vt_Type t = TransformerTypeJoin) then jt_Delimiter <$> vt_Join t
                else None
      end
  end.

(** The value a serializer exports: a slice only through a join. *)
Definition exported_value (s : store) (v : Variable_) (w : Serializer) : option string :=
  match variable_value s v with
  | Some (VString x) => Some x
  | Some (VSlice l) => Join l <$> last_delimiter (ser_Transformers w)
  | None => None
  end.

(** Every join carries its configuration. *)
Definition joins_ok (v : Variable_) : Prop :=
  Forall (fun w => Forall (fun t => vt_Type t = TransformerTypeJoin -> is_Some (vt_Join t))
                     (ser_Transformers w)) (serializers v).

Definition is_manual (v : Variable_) : bool := bool_decide (var_Type v = VariableTypeManual).

(** The exports of a variable and of a hub, in order. *)
Definition exports_of (s : store) (v : Variable_) : list (string * string) :=
  omap (fun w => (ser_Name w,.) <$> exported_value s v w) (serializers v).

Definition exports (s : store) (vs : list Variable_) : list (string * string) :=
  concat (map (exports_of s) vs).

Definition manuals (vs : list Variable_) : list (string * string) :=
  map (fun v => (var_Key v, var_DataType v)) (List.filter is_manual vs).

(** What the loop has to compute. *)
Definition synced_spec (s : store) (vs : list Variable_) : synced :=
  {| sy_envMap := list_to_map (exports s vs);
     sy_manualEnvMap := list_to_map (manuals vs);
     sy_valkeyKeysToKeep := list_to_set (map var_Key vs) |}.

(** ** Lemmas on the transformations *)

Section Transformations.
Implicit Types (env : gmap string string) (ws : list Serializer).

Lemma applyTransformers_last n vals ts env :
  Forall (fun t => vt_Type t = TransformerTypeJoin -> is_Some (vt_Join t)) ts ->
  applyTransformers n vals ts env
  = Done (match last_delimiter ts with Some d => <[n := Join vals d]> env | None => env end).
Proof.
  intros H. revert env. induction H as [|t ts Ht _ IH]; intros env; simpl; [done |].
  case_bool_decide as E.
  - destruct (Ht E) as [j ->]. rewrite IH. simpl. destruct (last_delimiter ts); [| done].
    by rewrite insert_insert_eq.
  - rewrite IH. by destruct (last_delimiter ts).
Qed.

(** Exporting the names [ws] by [f], with fresh and distinct names. *)
Definition named_values (f : Serializer -> option string) ws : list (string * string) :=
  omap (fun w => (ser_Name w,.) <$> f w) ws.

Lemma named_values_names f ws n :
  n ∉ map ser_Name ws -> (list_to_map (named_values f ws) : gmap string string) !! n = None.
Proof.
  intros H. apply not_elem_of_list_to_map_1. intros Hin. apply H.
  apply list_elem_of_fmap in Hin as ([m x] & -> & Hin).
  apply list_elem_of_omap in Hin as (w & Hw & Hx). destruct (f w); simplify_eq/=.
  apply list_elem_of_fmap. eauto.
Qed.

Lemma export_step f w ws env :
  ser_Name w ∉ map ser_Name ws ->
  list_to_map (named_values f (w :: ws)) ∪ env
  = list_to_map (named_values f ws)
    ∪ match f w with Some x => <[ser_Name w := x]> env | None => env end.
Proof.
  intros Hn. unfold named_values. simpl. destruct (f w) as [x|]; simpl; [| done].
  rewrite <- insert_union_l, insert_union_r; [done |]. by apply named_values_names.
Qed.

Lemma fresh_step w ws env x :
  NoDup (map ser_Name (w :: ws)) ->
  (forall n, n ∈ map ser_Name (w :: ws) -> env !! n = None) ->
  ser_Name w ∉ map ser_Name ws
  /\ NoDup (map ser_Name ws)
  /\ (forall n, n ∈ map ser_Name ws ->
        match x with Some y => <[ser_Name w := y]> env | None => env end !! n = None).
Proof.
  simpl. intros [Hn Hd]%NoDup_cons Hf. split_and!; [done | done |].
  intros n Hin. assert (n <> ser_Name w) by (by intros ->).
  destruct x; [rewrite lookup_insert_ne by done |]; apply Hf; by right.
Qed.

Lemma applySerializerToString_exports v env val :
  NoDup (map ser_Name (serializers v)) ->
  (forall n, n ∈ map ser_Name (serializers v) -> env !! n = None) ->
  applySerializerToString v env val
  = list_to_map (named_values (fun _ => Some val) (serializers v)) ∪ env.
Proof.
  unfold applySerializerToString, serializers, slice.
  destruct (var_SerializeAs v) as [ws|]; simpl; [| intros _ _; by rewrite map_empty_union].
  revert env. induction ws as [|w ws IH]; intros env Hd Hf; simpl.
  - by rewrite map_empty_union.
  - destruct (fresh_step w ws env (Some val) Hd Hf) as (H1 & H2 & H3).
    rewrite IH by done. symmetry. by apply (export_step (fun _ => Some val)).
Qed.

Lemma applySetTransformation_exports v env vals :
  joins_ok v ->
  NoDup (map ser_Name (serializers v)) ->
  (forall n, n ∈ map ser_Name (serializers v) -> env !! n = None) ->
  applySetTransformation v env vals
  = Done (list_to_map (named_values (fun w => Join vals <$> last_delimiter (ser_Transformers w))
                         (serializers v)) ∪ env).
Proof.
  unfold applySetTransformation, joins_ok, serializers, slice.
  destruct (var_SerializeAs v) as [ws|]; simpl; [| intros _ _ _; by rewrite map_empty_union].
  intros Hj. revert env. induction Hj as [|w ws Hw _ IH]; intros env Hd Hf.
  - simpl. by rewrite map_empty_union.
  - set (f := fun w => Join vals <$> last_delimiter (ser_Transformers w)) in *.
    destruct (fresh_step w ws env (f w) Hd Hf) as (H1 & H2 & H3).
    rewrite export_step by done. cbn [go_fold]. rewrite Hf by left.
    destruct (length (ser_Transformers w) =? 0) eqn:E.
    + apply Nat.eqb_eq, length_zero_iff_nil in E. unfold f in *. rewrite E in *. simpl in *.
      by apply IH.
    + rewrite applyTransformers_last by done. simpl. unfold f in *.
      destruct (last_delimiter (ser_Transformers w)); simpl in *; by apply IH.
Qed.
End Transformations.

(** ** Lemmas on the loop *)

Section Loop.
Context (s : store) (hub : string).

Definition fresh_names (v : Variable_) (env : gmap string string) : Prop :=
  forall n, n ∈ map ser_Name (serializers v) -> env !! n = None.

Lemma exports_of_value v x :
  variable_value s v = x ->
  exports_of s v = named_values (fun w =>
    match x with
    | Some (VString y) => Some y
    | Some (VSlice l) => Join l <$> last_delimiter (ser_Transformers w)
    | None => None
    end) (serializers v).
Proof. intros <-. done. Qed.

Lemma exports_of_None v (env : gmap string string) :
  variable_value s v = None -> list_to_map (exports_of s v) ∪ env = env.
Proof.
  intros Hx. rewrite (exports_of_value _ _ Hx). unfold named_values.
  replace (omap _ _) with (@nil (string * string)); [simpl; by rewrite map_empty_union |].
  by induction (serializers v).
Qed.

Lemma export_string v (env : gmap string string) y :
  NoDup (map ser_Name (serializers v)) -> fresh_names v env ->
  variable_value s v = Some (VString y) ->
  applySerializerToString v env y = list_to_map (exports_of s v) ∪ env.
Proof.
  intros Hd Hf Hx. rewrite (exports_of_value _ _ Hx). by apply applySerializerToString_exports.
Qed.

Lemma export_slice v (env : gmap string string) l :
  joins_ok v -> NoDup (map ser_Name (serializers v)) -> fresh_names v env ->
  variable_value s v = Some (VSlice l) ->
  applySetTransformation v env l = Done (list_to_map (exports_of s v) ∪ env).
Proof.
  intros Hj Hd Hf Hx. rewrite (exports_of_value _ _ Hx). by apply applySetTransformation_exports.
Qed.

Definition exports_added (v : Variable_) (env : gmap string string)
    (_ : list (event HubE)) (out : go (gmap string string * option error)) : Prop :=
  out = Done (list_to_map (exports_of s v) ∪ env, None).

Lemma scalar_type_dec (t : string) :
  bool_decide (t = VariableDataTypeString) || bool_decide (t = VariableDataTypeInt)
  || bool_decide (t = VariableDataTypeBoolean) || bool_decide (t = VariableDataTypeFloat)
  = bool_decide (t ∈ [VariableDataTypeString; VariableDataTypeInt;
                      VariableDataTypeBoolean; VariableDataTypeFloat]).
Proof.
  apply eq_true_iff_eq. rewrite !orb_true_iff, !bool_decide_eq_true, !elem_of_cons, elem_of_nil. tauto.
Qed.

Lemma handleComputedVariable_exports v env tr :
  joins_ok v -> NoDup (map ser_Name (serializers v)) -> fresh_names v env ->
  var_Type v ∈ [VariableTypeManual; VariableTypeComputed] ->
  wp (reads s hub) (handleComputedVariable hub v env) tr (exports_added v env).
Proof.
  intros Hj Hd Hf Ht. unfold handleComputedVariable, exports_added. rewrite scalar_type_dec.
  eassert (Hv : variable_value s v = _) by (unfold variable_value; rewrite bool_decide_eq_true_2 by done; reflexivity).
  cbv zeta in Hv. revert Hv.
  decide_on (var_DataType v = VariableDataTypeSet); [|
  decide_on (var_DataType v ∈ [VariableDataTypeString; VariableDataTypeInt;
                               VariableDataTypeBoolean; VariableDataTypeFloat]); [|
  decide_on (var_DataType v = VariableDataTypeMap)]]; simpl; intros Hv.
  - intros x Hx. rewrite Hx by done. by rewrite (export_slice _ _ _ Hj Hd Hf Hv).
  - intros x Hx. rewrite Hx by done. destruct (st_string s (var_Key v)) as [y|]; simpl in Hv |- *.
    + by rewrite (export_string _ _ _ Hd Hf Hv).
    + by rewrite (exports_of_None _ _ Hv).
  - intros x Hx. rewrite Hx by done. simpl. by rewrite (export_string _ _ _ Hd Hf Hv).
  - by rewrite (exports_of_None _ _ Hv).
Qed.

Lemma handleMetaVariable_exports v env tr :
  joins_ok v -> NoDup (map ser_Name (serializers v)) -> fresh_names v env ->
  refs_ok v -> var_Type v = VariableTypeMeta ->
  wp (reads s hub) (handleMetaVariable hub v env) tr (exports_added v env).
Proof.
  intros Hj Hd Hf Hr Ht. unfold handleMetaVariable, exports_added.
  unfold refs_ok in Hr. rewrite bool_decide_eq_true_2 in Hr by done. destruct Hr as [_ Hr].
  eassert (Hv : variable_value s v = _).
  { unfold variable_value. rewrite Ht.
    rewrite bool_decide_eq_false_2 by (intros H%elem_of_cons; set_solver).
    rewrite bool_decide_eq_true_2 by done. reflexivity. }
  cbv zeta in Hv. revert Hv.
  decide_on (var_DataType v = MetaVariableDataTypePriorityList); [|
  decide_on (var_DataType v = MetaVariableDataTypeHashSet)]; simpl; intros Hv.
  - intros x Hx. rewrite Hx by done.
    destruct (st_priority s (var_Key v) _) as [l|]; simpl in Hv |- *.
    + by rewrite (export_slice _ _ _ Hj Hd Hf Hv).
    + by rewrite (exports_of_None _ _ Hv).
  - specialize (Hr Hd1). destruct (slice (var_VariableRefs v)) as [|r0 [|r1 [|]]]; try done.
    simpl in Hv |- *. intros x Hx. rewrite Hx by done.
    destruct (st_hash s (var_Key v) r0 r1) as [y|]; simpl in Hv |- *.
    + by rewrite (export_string _ _ _ Hd Hf Hv).
    + by rewrite (exports_of_None _ _ Hv).
  - by rewrite (exports_of_None _ _ Hv).
Qed.

(** The state after a variable that the loop supports. *)
Definition stepped (v : Variable_) (st : synced) : synced :=
  {| sy_envMap := list_to_map (exports_of s v) ∪ sy_envMap st;
     sy_manualEnvMap := if is_manual v then <[var_Key v := var_DataType v]> (sy_manualEnvMap st)
                        else sy_manualEnvMap st;
     sy_valkeyKeysToKeep := {[var_Key v]} ∪ sy_valkeyKeysToKeep st |}.

Definition supported (v : Variable_) : Prop := variable_ok v /\ joins_ok v.

Lemma syncVariable_steps v st tr :
  supported v -> NoDup (map ser_Name (serializers v)) -> fresh_names v (sy_envMap st) ->
  wp (reads s hub) (syncVariable hub v st) tr (fun _ out => out = Done (stepped v st, None)).
Proof.
  intros [(Hs & Hr & _) Hj] Hd Hf. unfold syncVariable, stepped, is_manual.
  rewrite (bool_decide_eq_true_2 (var_StorageType v = _)) by done. cbn [negb].
  assert (Hc : var_Type v ∈ [VariableTypeManual; VariableTypeComputed]
    <-> bool_decide (var_Type v = VariableTypeManual)
        || bool_decide (var_Type v = VariableTypeComputed) = true).
  { rewrite orb_true_iff, !bool_decide_eq_true, !elem_of_cons, elem_of_nil. tauto. }
  destruct (bool_decide (var_Type v = VariableTypeManual) || _) eqn:Et.
  - rewrite wp_bind. eapply wp_mono; [| apply handleComputedVariable_exports; try done; by apply Hc].
    intros tr' out ->. simpl. by case_bool_decide.
  - rewrite orb_false_iff in Et. destruct Et as [Em _]. rewrite Em.
    decide_on (var_Type v = VariableTypeMeta).
    + rewrite wp_bind. eapply wp_mono; [| by apply handleMetaVariable_exports].
      intros tr' out ->. done.
    + simpl. rewrite exports_of_None; [done |]. unfold variable_value.
      rewrite bool_decide_eq_false_2 by (rewrite Hc; congruence).
      by rewrite bool_decide_eq_false_2.
Qed.

Lemma exports_of_names v n :
  n ∉ map ser_Name (serializers v) -> n ∉ map fst (exports_of s v).
Proof.
  intros Hn Hin. apply Hn. apply list_elem_of_fmap in Hin as ([m x] & -> & Hin).
  apply list_elem_of_omap in Hin as (w & Hw & Hx).
  destruct (exported_value s v w); simplify_eq/=. apply list_elem_of_fmap. eauto.
Qed.

Lemma exports_names vs n : n ∉ exported_names vs -> n ∉ map fst (exports s vs).
Proof.
  unfold exported_names, exports. induction vs as [|v vs IH]; simpl; [done |].
  rewrite not_elem_of_app, map_app, not_elem_of_app. intros [H1 H2].
  split; [by apply exports_of_names | by apply IH].
Qed.

Lemma exports_cons v vs env :
  NoDup (exported_names (v :: vs)) ->
  list_to_map (exports s vs) ∪ (list_to_map (exports_of s v) ∪ env)
  = (list_to_map (exports s (v :: vs)) ∪ env : gmap string string).
Proof.
  intros Hd. unfold exports. cbn [map concat]. rewrite list_to_map_app, assoc by apply _. f_equal.
  apply map_union_comm, map_disjoint_spec. intros n x y H1 H2.
  apply elem_of_list_to_map_2 in H1, H2.
  unfold exported_names in Hd. cbn [map concat] in Hd. apply NoDup_app in Hd as (_ & Hd & _).
  destruct (decide (n ∈ map ser_Name (serializers v))) as [Hn|Hn].
  - apply (exports_names vs n (Hd n Hn)). apply list_elem_of_fmap. by exists (n, x).
  - apply (exports_of_names v n Hn). apply list_elem_of_fmap. by exists (n, y).
Qed.

Lemma syncValkeyVariables_from vs st tr :
  Forall supported vs ->
  NoDup (exported_names vs) -> NoDup (map var_Key vs) ->
  (forall n, n ∈ exported_names vs -> sy_envMap st !! n = None) ->
  (forall k, k ∈ map var_Key vs -> sy_manualEnvMap st !! k = None) ->
  wp (reads s hub) (syncValkeyVariables hub vs st) tr (fun _ out => out = Done
    ({| sy_envMap := list_to_map (exports s vs) ∪ sy_envMap st;
        sy_manualEnvMap := list_to_map (manuals vs) ∪ sy_manualEnvMap st;
        sy_valkeyKeysToKeep := list_to_set (map var_Key vs) ∪ sy_valkeyKeysToKeep st |}, None)).
Proof.
  intros Hv. revert st tr. induction Hv as [|v vs Hv _ IH]; intros st tr Hd Hk Hf Hm.
  - simpl. destruct st. simpl. by rewrite !map_empty_union, (left_id_L ∅ (∪)).
  - cbn [syncValkeyVariables]. rewrite wp_bind.
    pose proof Hd as Hd'. unfold exported_names in Hd'. cbn [map concat] in Hd'.
    apply NoDup_app in Hd' as (Hdv & Hdis & Hdvs). cbn [map] in Hk.
    apply NoDup_cons in Hk as [Hkv Hkvs].
    eapply wp_mono; [| apply syncVariable_steps; [done | done |]].
    2: { intros n Hn. apply Hf. unfold exported_names. simpl. apply elem_of_app. by left. }
    intros tr' out ->. simpl. eapply wp_mono; [| apply IH; [done | done | |]].
    + intros tr'' out ->. f_equal. f_equal. f_equal.
      * simpl. by apply exports_cons.
      * simpl. unfold manuals. simpl. destruct (is_manual v); simpl; [| done].
        rewrite <- insert_union_l, insert_union_r; [done |].
        apply not_elem_of_list_to_map_1. intros Hin. apply Hkv.
        apply list_elem_of_fmap in Hin as (p & Hp & Hin). apply list_elem_of_fmap in Hin as (u & -> & Hu).
        apply list_elem_of_fmap. exists u. split; [exact Hp |].
        apply list_elem_of_In in Hu. apply filter_In in Hu as [Hu _]. by apply list_elem_of_In.
      * simpl. set_solver.
    + intros n Hn. simpl. apply lookup_union_None. split.
      * apply not_elem_of_list_to_map_1, exports_of_names. intros Hin. by apply (Hdis n).
      * apply Hf. unfold exported_names. simpl. apply elem_of_app. by right.
    + intros k Hkin. simpl. destruct (is_manual v); [rewrite lookup_insert_ne by (by intros <-) |];
        apply Hm; by right.
Qed.
End Loop.

Lemma applySetTransformation_Done v env vals :
  joins_ok v -> exists m, applySetTransformation v env vals = Done m.
Proof.
  unfold applySetTransformation, joins_ok, serializers, slice.
  destruct (var_SerializeAs v) as [ws|]; simpl; [| by eexists].
  intros Hj. revert env. induction Hj as [|w ws Hw _ IH]; intros env; simpl; [by eexists |].
  destruct (env !! ser_Name w); simpl; [apply IH |].
  destruct (length (ser_Transformers w) =? 0); simpl; [apply IH |].
  rewrite applyTransformers_last by done. apply IH.
Qed.

Definition returns {A} (_ : list (event HubE)) (out : go A) : Prop := exists a, out = Done a.

Lemma handleComputedVariable_returns hub v env tr :
  joins_ok v -> wp any_answer (handleComputedVariable hub v env) tr returns.
Proof.
  intros Hj. unfold handleComputedVariable, returns.
  destruct (bool_decide _); simpl.
  { intros [err|l] _; simpl; [by eexists |].
    destruct (applySetTransformation_Done v env l Hj) as [m ->]. simpl. by eexists. }
  destruct (_ || _); simpl; [intros [err|[y|]] _; by eexists |].
  destruct (bool_decide _); simpl; [intros [err|y] _ |]; by eexists.
Qed.

Lemma handleMetaVariable_returns hub v env tr :
  joins_ok v -> refs_ok v -> var_Type v = VariableTypeMeta ->
  wp any_answer (handleMetaVariable hub v env) tr returns.
Proof.
  intros Hj Hr Ht. unfold handleMetaVariable, returns. unfold refs_ok in Hr.
  rewrite bool_decide_eq_true_2 in Hr by done. destruct Hr as [_ Hr].
  destruct (bool_decide (_ = MetaVariableDataTypePriorityList)); simpl.
  { intros [err|[l|]] _; simpl; [by eexists | | by eexists].
    destruct (applySetTransformation_Done v env l Hj) as [m ->]. simpl. by eexists. }
  decide_on (var_DataType v = MetaVariableDataTypeHashSet); [| by eexists].
  specialize (Hr Hd). destruct (slice (var_VariableRefs v)) as [|r0 [|r1 [|]]]; try done. simpl.
  intros [err|[y|]] _; by eexists.
Qed.

Lemma syncValkeyVariables_returns hub vs st tr :
  Forall (fun v => refs_ok v /\ joins_ok v) vs ->
  wp any_answer (syncValkeyVariables hub vs st) tr returns.
Proof.
  intros Hv. revert st tr. induction Hv as [|v vs [Hr Hj] _ IH]; intros st tr; [by eexists |].
  cbn [syncValkeyVariables]. rewrite wp_bind.
  apply (wp_mono _ _ _ returns).
  { intros tr' out [[st' [err|]] ->]; [by eexists | apply IH]. }
  unfold syncVariable. destruct (negb _); [by eexists |].
  destruct (_ || _); [| decide_on (var_Type v = VariableTypeMeta); [| by eexists]];
    rewrite wp_bind; (apply (wp_mono _ _ _ returns);
      [intros tr' out [[env err] ->]; by eexists |]).
  - by apply handleComputedVariable_returns.
  - by apply handleMetaVariable_returns.
Qed.

(** ** Properties *)

Lemma exports_lookup s vs n x :
  NoDup (exported_names vs) ->
  (list_to_map (exports s vs) : gmap string string) !! n = Some x <->
  exists v w, v ∈ vs /\ w ∈ serializers v /\ ser_Name w = n /\ exported_value s v w = Some x.
Proof.
  intros Hd.
  assert (Hn : NoDup (map fst (exports s vs))).
  { unfold exported_names, exports in *. induction vs as [|v vs IH]; simpl in *; [constructor |].
    apply NoDup_app in Hd as (Hdv & Hdis & Hdvs). rewrite map_app. apply NoDup_app. split_and!.
    - unfold exports_of. clear -Hdv. induction (serializers v) as [|w ws IH]; simpl in *; [constructor |].
      apply NoDup_cons in Hdv as [Hw Hws]. destruct (exported_value s v w) as [y|]; simpl; [| by apply IH].
      apply NoDup_cons. split; [| by apply IH]. intros Hin. apply Hw.
      apply list_elem_of_fmap in Hin as ([m z] & -> & Hin).
      apply list_elem_of_omap in Hin as (u & Hu & Hx).
      destruct (exported_value s v u); simplify_eq/=. apply list_elem_of_fmap. eauto.
    - intros m Hm Hm'. apply (exports_names s vs m) in Hm'; [done |]. apply Hdis.
      destruct (decide (m ∈ map ser_Name (serializers v))) as [|Hc]; [done |].
      by apply (exports_of_names s) in Hc.
    - by apply IH. }
  rewrite <- elem_of_list_to_map by done. unfold exports. rewrite list_elem_of_In, in_concat.
  split.
  - intros (l & Hl & Hin). apply in_map_iff in Hl as (v & <- & Hv).
    apply list_elem_of_In in Hin, Hv. apply list_elem_of_omap in Hin as (w & Hw & Hx).
    destruct (exported_value s v w) eqn:E; simplify_eq/=. by exists v, w.
  - intros (v & w & Hv & Hw & <- & Hx). exists (exports_of s v). split.
    + apply in_map, list_elem_of_In, Hv.
    + apply list_elem_of_In, list_elem_of_omap. exists w. by rewrite Hx.
Qed.


(** Whatever Valkey answers, errors included, the synchronisation loop does
    not panic on variables whose references the webhook checked and whose
    joins are configured. *)
Theorem syncValkeyVariables_no_panic hub vs tr out :
  Forall (fun v => refs_ok v /\ joins_ok v) vs ->
  runs (syncValkeyVariables hub vs no_synced) tr out -> exists st err, out = Done (st, err).
Proof.
  intros Hv Hr. pose proof (syncValkeyVariables_returns hub vs no_synced [] Hv) as Hw.
  rewrite wp_any in Hw. destruct (Hw _ _ Hr) as [[st err] ->]. by exists st, err.
Qed.

Definition set_variable (key : string) (ws : list Serializer) : Variable_ :=
  {| var_Key := key; var_Type := VariableTypeComputed; var_DataType := VariableDataTypeSet;
     var_StorageType := VariableSourceTypeBuiltInValkey; var_VariableRefs := None;
     var_SerializeAs := Some ws |}.

(** C38. The configuration of a join is not checked by the webhook: it accepts a
    hub with a join that has none, and synchronising that hub panics as soon
    as the set can be read. *)
Theorem nil_join_accepted_then_panics :
  let w := {| ser_Name := "SERVICES";
              ser_Transformers := [{| vt_Type := TransformerTypeJoin; vt_Join := None |}] |} in
  let v := set_variable "services" [w] in
  hub_ok (fun _ => None) (sample_hub [v]) /\
  forall l, runs (syncValkeyVariables "hub" [v] no_synced)
    [Ev (GetSetAsStringSlice "services" "hub") (inr l)] (Panics "nil pointer dereference").
Proof.
  intros w v. split.
  - apply sample_hub_ok. split_and!.
    + repeat constructor.
    + apply NoDup_singleton.
    + apply NoDup_singleton.
  - intros l. cbn. eexists _, []. split; [reflexivity |]. split; reflexivity.
Qed.

(** ** Witnesses *)

Definition sample_store : store :=
  {| st_set := fun _ => ["a"; "b"]; st_string := fun _ => Some "7"; st_map := fun _ => "{}";
     st_priority := fun _ _ => None; st_hash := fun _ _ _ => None |}.

Definition sample_set_variable : Variable_ :=
  set_variable "services"
    [{| ser_Name := "SERVICES";
        ser_Transformers := [{| vt_Type := TransformerTypeJoin;
                                vt_Join := Some {| jt_Delimiter := "|" |} |}] |}].

Lemma sample_set_ok : variables_ok [sample_set_variable].
Proof. split_and!; [repeat constructor | apply NoDup_singleton | apply NoDup_singleton]. Qed.

Lemma sample_joins_ok : Forall joins_ok [sample_set_variable].
Proof. repeat constructor. by eexists. Qed.


Lemma syncValkeyVariables_no_panic_witness :
  exists st err,
    Done ({| sy_envMap := ∅; sy_manualEnvMap := ∅; sy_valkeyKeysToKeep := {["services"]} |},
          Some (Err "down")) = Done (st, err).
Proof.
  apply (syncValkeyVariables_no_panic "hub" [sample_set_variable]
           [Ev (GetSetAsStringSlice "services" "hub") (inl (Err "down"))]).
  - repeat constructor. by eexists.
  - cbn. eexists _, []. split; [reflexivity |]. split; reflexivity.
Defined.
