(* ===== verification/HubAdapter.v ===== *)
(** * internal/controller: the hub adapter

    hub_adapter.go: the operations of the hub's reconcile over the hub behind
    the adapter's pointer, and the handler of mdaihub_controller.go that runs
    them.  The API server and Valkey are the environment of [HubCalls];
    [json.Marshal], [labels.Parse] and [SetControllerReference] are
    parameters. *)

From S2P Require Import Prelude GoLib ApiTypes Errors WebhookHub Effects Reconcile.
From S2P Require Import K8sObjects HubCalls HubVariables EventTransformer.

Definition envConfigMapNamePostfix : string := "-variables".
Definition manualEnvConfigMapNamePostfix : string := "-manual-variables".
Definition variableSchemaConfigMapPostfix : string := "-variables-schema".
Definition automationConfigMapNamePostfix : string := "-automation".
Definition LabelMdaiHubName : string := "mydecisive.ai/hub-name".
Definition configMapTypeLabel : string := "mydecisive.ai/configmap-type".
Definition VariableKeyPrefix : string := "variable/".

Section HubAdapter.
(** [json.Marshal], the text of a command type, [labels.Parse],
    [controllerutil.SetControllerReference] and the [RELEASE_NAME]. *)
Context (Marshal : marshalled -> error + string) (type_text : CommandType -> string).
Context (labels_Parse : string -> option error).
Context (SetControllerReference : ObjectMeta -> ObjectMeta -> error + ObjectMeta).
Context (releaseName : string) `{K8sUtil}.

Definition hub_name (h : MdaiHub) : string := om_Name (mh_ObjectMeta h).
Definition hub_namespace (h : MdaiHub) : string := om_Namespace (mh_ObjectMeta h).

(** ** Prometheus rules *)

Definition prometheusRuleName (h : MdaiHub) : string := "mdai-" +:+ hub_name h +:+ "-alert-rules".

Definition deletePrometheusRule (h : MdaiHub) : prog HubE (option error) :=
  let* err := call (DeleteRule (hub_namespace h) (prometheusRuleName h)) in
  match err with
  | Some err => if IsNotFound err then Ret None else Ret (Some err)
  | None => Ret None
  end.

Definition composePrometheusRule (h : MdaiHub) (alertingRule : PrometheusAlert) : PromRule :=
  {| pr_Expr := pa_Expr alertingRule;
     pr_Alert := pa_Name alertingRule;
     pr_For := pa_For alertingRule;
     pr_Annotations := {["alert_name" := pa_Name alertingRule;
                         "hub_name" := hub_name h;
                         "current_value" := "{{ $value | printf " +:+ quote "%.2f" +:+ " }}";
                         "expression" := StrVal (pa_Expr alertingRule)]};
     pr_Labels := {["severity" := pa_Severity alertingRule]} |}.

Definition new_prometheus_rule (h : MdaiHub) : PrometheusRule :=
  {| promr_ObjectMeta :=
       with_labels (named (prometheusRuleName h) (hub_namespace h))
         (Some {[LabelManagedByMdaiKey := LabelManagedByMdaiValue;
                 "app.kubernetes.io/part-of" := "kube-prometheus-stack";
                 "app.kubernetes.io/instance" := releaseName]});
     promr_Groups := [{| rg_Name := "mdai"; rg_Interval := None; rg_Rules := [] |}] |}.

(** [prometheusRule.Spec.Groups[0] = f(prometheusRule.Spec.Groups[0])]. *)
Definition update_first_group (f : RuleGroup -> RuleGroup) (pr : PrometheusRule) : go PrometheusRule :=
  let! _ := at_index (promr_Groups pr) 0 in
  Done {| promr_ObjectMeta := promr_ObjectMeta pr;
          promr_Groups := match promr_Groups pr with g :: gs => f g :: gs | [] => [] end |}.

Definition set_interval (interval : option string) (g : RuleGroup) : RuleGroup :=
  {| rg_Name := rg_Name g; rg_Interval := interval; rg_Rules := rg_Rules g |}.

Definition set_rules (rules : list PromRule) (g : RuleGroup) : RuleGroup :=
  {| rg_Name := rg_Name g; rg_Interval := rg_Interval g; rg_Rules := rules |}.

Definition evaluation_interval (h : MdaiHub) : option string :=
  match hub_Config (mh_Spec h) with Some c => cfg_EvaluationInterval c | None => None end.

(** The part after the rule is fetched or created. *)
Definition update_prometheus_rule (h : MdaiHub) (evals : list PrometheusAlert) (pr : PrometheusRule)
  : prog HubE (with_error OperationResult) :=
  let* pr := lift (match evaluation_interval h with
                   | Some i => update_first_group (set_interval (Some i)) pr
                   | None => Done pr
                   end) in
  let* pr := lift (update_first_group (set_rules (map (composePrometheusRule h) evals)) pr) in
  let* _ := call (UpdateRule pr) in
  Ret ContinueProcessing.

Definition ensurePrometheusAlertsSynchronized : HubOperation := on_hub (fun h =>
  let* fetched := call (GetRule (hub_namespace h) (prometheusRuleName h)) in
  match hub_PrometheusAlerts (mh_Spec h) with
  | None =>
      match fetched with
      | inr _ => let* _ := deletePrometheusRule h in Ret ContinueProcessing
      | inl _ => Ret ContinueProcessing
      end
  | Some evals =>
      match fetched with
      | inl err =>
          if IsNotFound err then
            let* created := call (CreateRule (new_prometheus_rule h)) in
            match created with
            | inl _ => Ret (RequeueAfter requeueTime (Some err))
            | inr pr => update_prometheus_rule h evals pr
            end
          else Ret (RequeueAfter requeueTime (Some err))
      | inr pr => update_prometheus_rule h evals pr
      end
  end).

(** ** Finalization *)

Definition hub_after_finalizer : hub_method (ObjectState * option error) := fun h =>
  let* err := call (DeleteKeysWithPrefixUsingScan ∅ (hub_name h)) in
  match err with
  | Some err => Ret (h, (ObjectUnchanged, Some err))
  | None => Ret (h, (ObjectModified, None))
  end.

Definition hub_finalize : hub_method (ObjectState * option error) := fun h =>
  if negb (ContainsFinalizer (mh_ObjectMeta h) hubFinalizer) then Ret (h, (ObjectModified, None))
  else
    let* err := deletePrometheusRule h in
    match err with
    | Some err => Ret (h, (ObjectUnchanged, Some err))
    | None => finalize_refetched hubFinalizer hub_after_finalizer h
    end.
(** ** Config maps *)

Definition deleteEnvConfigMap (h : MdaiHub) (postfix namespace : string) : prog HubE (option error) :=
  let* err := call (DeleteConfigMap namespace (hub_name h +:+ postfix)) in
  match err with
  | Some err => if IsNotFound err then Ret None
                else Ret (Some (ErrWrap "failed to delete ConfigMap: " err))
  | None => Ret None
  end.

Abbreviation CMOption := (ConfigMap -> error + ConfigMap)%type.

Definition WithOwnerRef (owner : MdaiHub) : CMOption := fun cm =>
  match SetControllerReference (mh_ObjectMeta owner) (cm_ObjectMeta cm) with
  | inl err => inl err
  | inr m => inr {| cm_ObjectMeta := m; cm_Data := cm_Data cm |}
  end.

Fixpoint apply_options (opts : list CMOption) (cm : ConfigMap) : error + ConfigMap :=
  match opts with
  | [] => inr cm
  | opt :: opts => match opt cm with inl err => inl err | inr cm => apply_options opts cm end
  end.

(** The closure passed to [CreateOrUpdate]. *)
Definition env_mutate (envMap : gmap string string) (opts : list CMOption) : CMOption := fun cm =>
  apply_options opts {| cm_ObjectMeta := cm_ObjectMeta cm; cm_Data := Some envMap |}.

Definition env_config_map (h : MdaiHub) (postfix namespace : string) : ConfigMap :=
  {| cm_ObjectMeta :=
       with_labels (named (hub_name h +:+ postfix) namespace)
         (Some {[LabelManagedByMdaiKey := LabelManagedByMdaiValue;
                 LabelMdaiHubName := hub_name h;
                 configMapTypeLabel := "hub" +:+ postfix]});
     cm_Data := None |}.

Definition createOrUpdateEnvConfigMap (h : MdaiHub) (envMap : gmap string string)
    (postfix namespace : string) (opts : list CMOption)
  : prog HubE (error + CreateOrUpdateResult * ConfigMap) :=
  let* answer := call (CreateOrUpdateConfigMap (env_config_map h postfix namespace)
                         (env_mutate envMap opts)) in
  match answer with
  | inl err => Ret (inl (ErrWrap "failed to create or update ConfigMap: " err))
  | inr r => Ret (inr r)
  end.

(** ** Variables *)

Definition schema_entry (variable : Variable_) : variableSchemaConfigMapEntry :=
  {| vse_Type := var_Type variable;
     vse_DataType := var_DataType variable;
     vse_StorageType := var_StorageType variable;
     vse_VariableRefs := slice (var_VariableRefs variable);
     vse_SerializeAs := var_SerializeAs variable |}.

Fixpoint buildVariableSchemaEnvMap (variables : list Variable_) (schemaEnvMap : gmap string string)
  : error + gmap string string :=
  match variables with
  | [] => inr schemaEnvMap
  | variable :: variables =>
      match Marshal (MSchema (schema_entry variable)) with
      | inl err => inl (ErrWrap ("failed to marshal variable schema entry for key "
                                 +:+ quote (var_Key variable) +:+ ": ") err)
      | inr data => buildVariableSchemaEnvMap variables (<[var_Key variable := data]> schemaEnvMap)
      end
  end.

Definition listOtelCollectorsWithLabel (labelSelector : string)
  : prog HubE (error + list OpenTelemetryCollector) :=
  match labels_Parse labelSelector with
  | Some err => Ret (inl (ErrWrap "failed to parse label selector: " err))
  | None =>
      let* answer := call (ListCollectors labelSelector) in
      match answer with
      | inl err => Ret (inl (ErrWrap "failed to list OpenTelemetryCollectors: " err))
      | inr items => Ret (inr items)
      end
  end.

(** The collector with the restart annotation. *)
Definition restarted (now : string) (c : OpenTelemetryCollector) : OpenTelemetryCollector :=
  {| otel_ObjectMeta := with_annotations (otel_ObjectMeta c)
       (Some (<["kubectl.kubernetes.io/restartedAt" := now]>
                (gomap (om_Annotations (otel_ObjectMeta c))))) |}.

Definition restartCollectorAndAudit (h : MdaiHub) (collector : OpenTelemetryCollector)
    (envMap : gmap string string) : prog HubE (option error) :=
  let* now := call NowRFC3339 in
  let* answer := call (UpdateCollector (restarted now collector)) in
  match answer with
  | inl err => if IsConflict err then Ret None else Ret (Some err)
  | inr _ =>
      let* restartEvent := call (CreateRestartEvent (hub_name h) envMap) in
      call (InsertAuditLogEventFromMap restartEvent)
  end.

Definition changed_result (r : CreateOrUpdateResult) : bool :=
  bool_decide (r = OperationResultCreated) || bool_decide (r = OperationResultUpdated).

Definition collector_namespace (c : OpenTelemetryCollector) : string :=
  om_Namespace (otel_ObjectMeta c).

(** The first loop: one config map per collector's namespace. *)
Fixpoint syncNamespaces (h : MdaiHub) (envMap : gmap string string)
    (collectors : list OpenTelemetryCollector) (namespaceToRestart : gset string)
  : prog HubE (error + gset string) :=
  match collectors with
  | [] => Ret (inr namespaceToRestart)
  | collector :: collectors =>
      let ns := collector_namespace collector in
      let* answer := createOrUpdateEnvConfigMap h envMap envConfigMapNamePostfix ns [] in
      match answer with
      | inl err => Ret (inl err)
      | inr (result, _) =>
          syncNamespaces h envMap collectors
            (if changed_result result then {[ns]} ∪ namespaceToRestart else namespaceToRestart)
      end
  end.

(** The second loop: the restarts. *)
Fixpoint restartCollectors (h : MdaiHub) (envMap : gmap string string)
    (namespaceToRestart : gset string) (collectors : list OpenTelemetryCollector)
  : prog HubE (option error) :=
  match collectors with
  | [] => Ret None
  | collector :: collectors =>
      if bool_decide (collector_namespace collector ∈ namespaceToRestart) then
        let* err := restartCollectorAndAudit h collector envMap in
        match err with
        | Some err => Ret (Some err)
        | None => restartCollectors h envMap namespaceToRestart collectors
        end
      else restartCollectors h envMap namespaceToRestart collectors
  end.

Definition syncComputedConfigMapsAndRestart (h : MdaiHub) (envMap : gmap string string)
  : prog HubE (with_error OperationResult) :=
  let* listed := listOtelCollectorsWithLabel (LabelMdaiHubName +:+ "=" +:+ hub_name h) in
  match listed with
  | inl err => Ret (RequeueWithError (Some err))
  | inr collectors =>
      let* synced := syncNamespaces h envMap collectors ∅ in
      match synced with
      | inl err => Ret (RequeueWithError (Some err))
      | inr namespaceToRestart =>
          let* err := restartCollectors h envMap namespaceToRestart collectors in
          match err with
          | Some err => Ret (RequeueWithError (Some err))
          | None => Ret ContinueProcessing
          end
      end
  end.
(** A hub without variables: its schema and manual config maps go, the
    collectors keep theirs. *)
Definition remove_variable_config_maps (h : MdaiHub) : prog HubE (with_error OperationResult) :=
  let* err := deleteEnvConfigMap h variableSchemaConfigMapPostfix (hub_namespace h) in
  match err with
  | Some err => Ret (ContinueWithError (Some err))
  | None =>
      let* err := deleteEnvConfigMap h manualEnvConfigMapNamePostfix (hub_namespace h) in
      match err with
      | Some err => Ret (ContinueWithError (Some err))
      | None => Ret ContinueProcessing
      end
  end.

(** The manual variables have one config map, in the hub's namespace. *)
Definition sync_manual_config_map (h : MdaiHub) (manualEnvMap : gmap string string)
  : prog HubE (option error) :=
  if size manualEnvMap =? 0
  then deleteEnvConfigMap h manualEnvConfigMapNamePostfix (hub_namespace h)
  else
    let* answer := createOrUpdateEnvConfigMap h manualEnvMap manualEnvConfigMapNamePostfix
                     (hub_namespace h) [WithOwnerRef h] in
    match answer with
    | inl err => Ret (Some err)
    | inr _ => Ret None
    end.

Definition ensureVariableSynchronized : HubOperation := on_hub (fun h =>
  let variables := hub_Variables (mh_Spec h) in
  if length variables =? 0 then remove_variable_config_maps h
  else
    match buildVariableSchemaEnvMap variables ∅ with
    | inl err => Ret (ContinueWithError (Some err))
    | inr schemaEnvMap =>
        let* answer := createOrUpdateEnvConfigMap h schemaEnvMap variableSchemaConfigMapPostfix
                         (hub_namespace h) [WithOwnerRef h] in
        match answer with
        | inl err => Ret (ContinueWithError (Some err))
        | inr _ =>
            let* (st, err) := syncValkeyVariables (hub_name h) variables no_synced in
            match err with
            | Some err => Ret (RequeueWithError (Some err))
            | None =>
                let* err := call (DeleteKeysWithPrefixUsingScan (sy_valkeyKeysToKeep st) (hub_name h)) in
                match err with
                | Some err => Ret (RequeueOnErrorOrContinue (Some err))
                | None =>
                    let* err := sync_manual_config_map h (sy_manualEnvMap st) in
                    match err with
                    | Some err => Ret (ContinueWithError (Some err))
                    | None => syncComputedConfigMapsAndRestart h (sy_envMap st)
                    end
                end
            end
        end
    end).

(** ** Automations *)

(** The loop that fills [automationMap]. *)
Fixpoint buildAutomationMap (rules : list AutomationRule) (automationMap : gmap string string)
  : with_error OperationResult + gmap string string :=
  match rules with
  | [] => inr automationMap
  | automationRule :: rules =>
      match transformWhenToTrigger (Some (ar_When automationRule)) with
      | inl err => inl (ContinueWithError (Some (ErrWrap "failed to transform when to trigger: " err)))
      | inr trig =>
          match transformThenToCommands Marshal type_text (ar_Then automationRule) with
          | inl err => inl (ContinueWithError (Some (ErrWrap "failed to transform then to command: " err)))
          | inr cmds =>
              match Marshal (MRule {| rule_Name := ar_Name automationRule; rule_Trigger := trig;
                                      rule_Commands := cmds |}) with
              | inl err =>
                  inl ({| RequeueDelay := 0; RequeueRequest := false; CancelRequest := false |},
                       Some (ErrWrap "failed to marshal automationRule workflow: " err))
              | inr ruleJSON => buildAutomationMap rules (<[ar_Name automationRule := ruleJSON]> automationMap)
              end
          end
      end
  end.

Definition ensureAutomationsSynchronized : HubOperation := on_hub (fun h =>
  match hub_Rules (mh_Spec h) with
  | None =>
      let* err := deleteEnvConfigMap h automationConfigMapNamePostfix (hub_namespace h) in
      match err with
      | Some err => Ret (RequeueOnErrorOrContinue (Some err))
      | None => Ret ContinueProcessing
      end
  | Some rules =>
      match buildAutomationMap rules ∅ with
      | inl result => Ret result
      | inr automationMap =>
          let* answer := createOrUpdateEnvConfigMap h automationMap automationConfigMapNamePostfix
                           (hub_namespace h) [WithOwnerRef h] in
          match answer with
          | inl err => Ret (RequeueOnErrorOrContinue (Some err))
          | inr _ => Ret ContinueProcessing
          end
      end
  end).

(** [ensureSynchronized]: an alternative entry that the handler does not use. *)
Definition ensureSynchronized : HubOperation := fun h =>
  let* (h, (result, err)) := ensurePrometheusAlertsSynchronized h in
  match err with
  | Some err => Ret (h, (result, Some err))
  | None =>
      let* (h, (result, err)) := ensureAutomationsSynchronized h in
      match err with
      | Some err => Ret (h, (result, Some err))
      | None => ensureVariableSynchronized h
      end
  end.

(** ** mdaihub_controller.go: the handler and [Reconcile] *)

Definition hub_work : list HubOperation :=
  [ensurePrometheusAlertsSynchronized; ensureAutomationsSynchronized; ensureVariableSynchronized;
   ensureStatusSetToDone].

Definition hub_operations : list HubOperation := lifecycle hubFinalizer hub_finalize hub_work.

Definition ReconcileHandler : hub_method (with_error ctrl_Result) := run_operations hub_operations.

Definition Reconcile (namespace name : string) : prog HubE (with_error ctrl_Result) :=
  reconcile hub_operations namespace name.
End HubAdapter.

(** ** Lemmas: which calls an operation makes *)

Section Calls.
Context (Marshal : marshalled -> error + string) (type_text : CommandType -> string).
Context (labels_Parse : string -> option error).
Context (SetControllerReference : ObjectMeta -> ObjectMeta -> error + ObjectMeta).
Context (releaseName : string).
Context `{K8sUtil}.

Lemma only_on_hub {A} (P : event HubE -> Prop) (f : MdaiHub -> prog HubE A) h :
  only P (f h) -> only P (on_hub f h).
Proof. intros Hf. unfold on_hub. apply only_bind; [done |]. intros a. apply only_Ret. Qed.

(** A call of the work that touches no config map and not the hub itself. *)
Definition plain_call X (e : HubE X) : Prop :=
  match e with
  | GetHub _ _ | UpdateHub _ | UpdateHubStatus _ | CreateOrUpdateConfigMap _ _ | DeleteConfigMap _ _ => False
  | _ => True
  end.

(** The endings of the names of a hub's config maps. *)
Definition hub_postfixes : list string :=
  [envConfigMapNamePostfix; manualEnvConfigMapNamePostfix; variableSchemaConfigMapPostfix;
   automationConfigMapNamePostfix].

(** What holds of these calls and of the hub's config maps holds of its whole
    work. *)
Section Work.
Context (h : MdaiHub) (P : event HubE -> Prop).
Hypothesis Hplain : forall X (e : HubE X) x, plain_call X e -> P (Ev e x).
Hypothesis Hdelete : forall postfix ns x,
  postfix ∈ hub_postfixes -> P (Ev (DeleteConfigMap ns (hub_name h +:+ postfix)) x).
Hypothesis Hconfig : forall env postfix ns opts x,
  postfix ∈ hub_postfixes -> opts ∈ [[]; [WithOwnerRef SetControllerReference h]] ->
  P (Ev (CreateOrUpdateConfigMap (env_config_map h postfix ns) (env_mutate env opts)) x).

Lemma update_prometheus_rule_only evals pr : only P (update_prometheus_rule h evals pr).
Proof. unfold update_prometheus_rule. solve_only; intros; by apply Hplain. Qed.

Lemma deletePrometheusRule_only : only P (deletePrometheusRule h).
Proof. unfold deletePrometheusRule. solve_only; intros; by apply Hplain. Qed.

Lemma prometheus_only : only P (ensurePrometheusAlertsSynchronized releaseName h).
Proof.
  apply only_on_hub. pose proof update_prometheus_rule_only.
  pose proof deletePrometheusRule_only. solve_only; intros; by apply Hplain.
Qed.

Lemma deleteEnvConfigMap_only postfix ns :
  postfix ∈ hub_postfixes -> only P (deleteEnvConfigMap h postfix ns).
Proof. intros Hp. unfold deleteEnvConfigMap. solve_only. intros x. by apply Hdelete. Qed.

Lemma createOrUpdateEnvConfigMap_only env postfix ns opts :
  postfix ∈ hub_postfixes -> opts ∈ [[]; [WithOwnerRef SetControllerReference h]] ->
  only P (createOrUpdateEnvConfigMap h env postfix ns opts).
Proof. intros Hp Ho. unfold createOrUpdateEnvConfigMap. solve_only. intros x. by apply Hconfig. Qed.

#[local] Hint Extern 1 (only _ (deleteEnvConfigMap _ _ _)) =>
  apply deleteEnvConfigMap_only; unfold hub_postfixes; set_solver : only.
#[local] Hint Extern 1 (only _ (createOrUpdateEnvConfigMap _ _ _ _ _)) =>
  apply createOrUpdateEnvConfigMap_only; unfold hub_postfixes; set_solver : only.

Lemma automations_only :
  only P (ensureAutomationsSynchronized Marshal type_text SetControllerReference h).
Proof. apply only_on_hub. solve_only. Qed.

Lemma syncVariable_only hub v st : only P (syncVariable hub v st).
Proof.
  unfold syncVariable, handleComputedVariable, handleMetaVariable. solve_only; intros; by apply Hplain.
Qed.

Lemma syncValkeyVariables_only hub vs st : only P (syncValkeyVariables hub vs st).
Proof.
  revert st. induction vs as [|v vs IH]; intros st; cbn [syncValkeyVariables]; [apply only_Ret |].
  pose proof (syncVariable_only hub v). solve_only; auto.
Qed.

Lemma syncNamespaces_only env cs nss : only P (syncNamespaces h env cs nss).
Proof.
  revert nss. induction cs as [|c cs IH]; intros nss; cbn [syncNamespaces]; [apply only_Ret |].
  solve_only; auto.
Qed.

Lemma restartCollectors_only env nss cs : only P (restartCollectors h env nss cs).
Proof.
  induction cs as [|c cs IH]; cbn [restartCollectors]; [apply only_Ret |].
  unfold restartCollectorAndAudit. solve_only; auto; intros; by apply Hplain.
Qed.

#[local] Hint Resolve syncValkeyVariables_only syncNamespaces_only restartCollectors_only : only.

Lemma variables_only :
  only P (ensureVariableSynchronized Marshal labels_Parse SetControllerReference h).
Proof.
  apply only_on_hub. unfold remove_variable_config_maps, sync_manual_config_map,
    syncComputedConfigMapsAndRestart, listOtelCollectorsWithLabel. solve_only; intros; by apply Hplain.
Qed.

Lemma hub_work_only :
  only P (ensureStatusSetToDone (E:=HubE) h) ->
  Forall (fun op : HubOperation => only P (op h))
    (hub_work Marshal type_text labels_Parse SetControllerReference releaseName).
Proof.
  intros Hs. repeat constructor; [apply prometheus_only | apply automations_only
    | apply variables_only | apply Hs].
Qed.
End Work.

(** The work of a hub does not update the hub. *)
Abbreviation no_update := (only (fun ev => updated (E:=HubE) (R:=MdaiHub) ev = None)).

Lemma plain_no_update X (e : HubE X) x : plain_call X e -> updated (R:=MdaiHub) (Ev e x) = None.
Proof. by destruct e. Qed.

Lemma deletePrometheusRule_quiet h : no_update (deletePrometheusRule h).
Proof. apply deletePrometheusRule_only, plain_no_update. Qed.

Lemma hub_work_quiet :
  Forall (fun op : HubOperation => forall h, quiet (op h))
    (hub_work Marshal type_text labels_Parse SetControllerReference releaseName).
Proof.
  apply (Forall_each (fun (op : HubOperation) h => quiet (op h))). intros h.
  apply hub_work_only; [apply plain_no_update | done | done | apply status_done_quiet].
Qed.
End Calls.

(** ** Finalization *)

Section Finalize.
Context `{K8sLaws}.

(** The Prometheus rule of the hub is gone. *)
Definition rule_gone (err : option error) : Prop :=
  match err with None => True | Some e => IsNotFound e = true end.

Lemma hub_finalize_first h tr out :
  runs (hub_finalize h) tr out ->
  tr = [] \/ exists err tr', tr = Ev (DeleteRule (hub_namespace h) (prometheusRuleName h)) err :: tr'
                            /\ (tr' = [] \/ rule_gone err).
Proof.
  unfold hub_finalize, deletePrometheusRule. destruct (negb _); [intros [-> _]; by left |].
  cbn [prog_bind call runs]. intros (err & tr' & -> & Hr). right. exists err, tr'. split; [done |].
  destruct err as [e|]; [| by right]. unfold rule_gone.
  destruct (IsNotFound e); [by right |]. cbn in Hr. destruct Hr as [-> _]. by left.
Qed.

Lemma hub_finalize_updates h :
  wp any_answer (hub_finalize h) [] (fun tr _ => Forall (update_ok hubFinalizer true) tr).
Proof.
  unfold hub_finalize. destruct (negb _); [constructor |]. rewrite wp_bind.
  apply (wp_mono _ _ _ (fun tr _ => Forall (update_ok hubFinalizer true) tr)).
  - intros tr [[err|]|why] Htr; [done | | done]. apply finalize_refetched_updates; [done |].
    intros o. unfold hub_after_finalizer, quiet. solve_only; done.
  - apply wp_any. intros tr out Hr. eapply Forall_impl; [by eapply deletePrometheusRule_quiet |].
    intros ev Hn o. by rewrite Hn.
Qed.
End Finalize.

Section HubTheorems.
Context (Marshal : marshalled -> error + string) (type_text : CommandType -> string).
Context (labels_Parse : string -> option error).
Context (SetControllerReference : ObjectMeta -> ObjectMeta -> error + ObjectMeta).
Context (releaseName : string).
Context `{K8sLaws}.

Abbreviation Reconcile' :=
  (Reconcile Marshal type_text labels_Parse SetControllerReference releaseName).

(** C3. Whatever the API server and Valkey answer, a reconcile updates a live
    hub only with its finalizer, and drops the finalizer of a hub only under
    deletion and after the call that deletes its Prometheus rule succeeded or
    found no rule. *)
Theorem hub_finalizer_safety ns name tr out pre h' answer post :
  runs (Reconcile' ns name) tr out -> tr = pre ++ Ev (UpdateHub h') answer :: post ->
  exists h pre', pre = Ev (GetHub ns name) (inr h) :: pre'
    /\ (hubFinalizer ∈ om_Finalizers (mh_ObjectMeta h') <-> deleting h = false)
    /\ (deleting h = true ->
        exists err, Ev (DeleteRule (hub_namespace h) (prometheusRuleName h)) err ∈ pre' /\ rule_gone err).
Proof.
  unfold Reconcile, reconcile. cbn [prog_bind call runs]. intros (x & tr1 & -> & Hr) Htr.
  destruct x as [e|h]; [by destruct Hr as [-> _]; destruct pre as [|? [|]] |].
  assert (Hrun : exists out1, runs (run_operations (hub_operations Marshal type_text labels_Parse
    SetControllerReference releaseName) h) tr1 out1).
  { rewrite runs_bind in Hr. destruct Hr as [([o [res err]] & tr2 & tr3 & -> & Ha & Hb)|(why & _ & Hp)].
    - exists (Done (o, (res, err))). destruct err; destruct Hb as [-> _]; by rewrite app_nil_r.
    - by eexists. }
  clear Hr. destruct Hrun as [out1 Hr].
  destruct pre as [|ev pre]; [by injection Htr |]. cbn in Htr. injection Htr as <- ->.
  exists h, pre. split; [done |].
  pose proof (lifecycle_update_ok _ _ _ _ _ _ hub_finalize_updates
    (hub_work_quiet Marshal type_text labels_Parse SetControllerReference releaseName) Hr) as Hu.
  split.
  - rewrite Forall_app, Forall_cons in Hu. destruct Hu as (_ & Hu & _). exact (Hu h' eq_refl).
  - intros D. unfold hub_operations in Hr. rewrite lifecycle_phase in Hr. unfold phase in Hr. rewrite D in Hr.
    apply deletion_runs in Hr as (out2 & Hf & _); [| done].
    destruct (hub_finalize_first _ _ _ Hf) as [Hn|(err & tr' & Ht & Hok)]; [by destruct pre |].
    exists err. destruct pre as [|ev pre]; simplify_eq/=. split; [by left |].
    destruct Hok as [Hn|]; [by destruct pre | done].
Qed.
End HubTheorems.

(** ** Restarts *)

(** The collectors a trace updates. *)
Definition updated_collector (ev : event HubE) : option OpenTelemetryCollector :=
  match ev with Ev e _ => match e with UpdateCollector c => Some c | _ => None end end.

Definition updated_collectors (tr : list (event HubE)) : list OpenTelemetryCollector :=
  omap updated_collector tr.

(** The namespaces in which a config map was created or updated. *)
Definition changed_namespace (ev : event HubE) : option string :=
  match ev with
  | Ev e x =>
      match e in HubE X return X -> option string with
      | CreateOrUpdateConfigMap desired _ => fun answer =>
          match answer with
          | inr (result, _) =>
              if changed_result result then Some (om_Namespace (cm_ObjectMeta desired)) else None
          | inl _ => None
          end
      | _ => fun _ => None
      end x
  end.

Definition changed_namespaces (tr : list (event HubE)) : list string := omap changed_namespace tr.

(** The config maps a trace writes: the object and what the closure makes of it. *)
Definition written_config_map (ev : event HubE) : option (ConfigMap * (error + ConfigMap)) :=
  match ev with
  | Ev e _ =>
      match e with
      | CreateOrUpdateConfigMap desired mutate => Some (desired, mutate desired)
      | _ => None
      end
  end.

Definition written_config_maps (tr : list (event HubE)) : list (ConfigMap * (error + ConfigMap)) :=
  omap written_config_map tr.

(** The variables config map of a collector's namespace. *)
Definition variables_config_map (h : MdaiHub) (env : gmap string string) (c : OpenTelemetryCollector)
  : ConfigMap * (error + ConfigMap) :=
  let cm := env_config_map h envConfigMapNamePostfix (collector_namespace c) in
  (cm, inr {| cm_ObjectMeta := cm_ObjectMeta cm; cm_Data := Some env |}).

Section Restarts.
Lemma syncNamespaces_trace h env cs nss tr out :
  runs (syncNamespaces h env cs nss) tr out ->
  updated_collectors tr = []
  /\ forall nss', out = Done (inr nss') ->
       nss' = list_to_set (changed_namespaces tr) ∪ nss
       /\ written_config_maps tr = map (variables_config_map h env) cs.
Proof.
  revert nss tr. induction cs as [|c cs IH]; intros nss tr; cbn [syncNamespaces].
  - intros [-> ->]. split; [done |]. intros nss' [= <-]. simpl. by rewrite (left_id_L ∅ (∪)).
  - unfold createOrUpdateEnvConfigMap. cbn [prog_bind call runs].
    intros (x & tr' & -> & Hr). destruct x as [err|[result cm]].
    + destruct Hr as [-> ->]. done.
    + cbn in Hr. apply IH in Hr as [Hu Hr]. split; [done |]. intros nss' Ho.
      destruct (Hr nss' Ho) as [-> Hw].
      split; [| cbn [map]; rewrite <- Hw; done].
      unfold changed_namespaces. cbn [omap list_omap changed_namespace].
      destruct (changed_result result); [| done]. cbn. set_solver.
Qed.

Lemma restartCollectors_trace h env nss cs tr out :
  runs (restartCollectors h env nss cs) tr out ->
  changed_namespaces tr = [] /\ written_config_maps tr = []
  /\ (nss = ∅ -> updated_collectors tr = [])
  /\ (out = Done None ->
      Forall2 (fun c u => exists now, u = restarted now c)
        (filter (fun c => collector_namespace c ∈ nss) cs) (updated_collectors tr)).
Proof.
  revert tr. induction cs as [|c cs IH]; intros tr; cbn [restartCollectors].
  - intros [-> ->]. by split_and!.
  - rewrite filter_cons. decide_on (collector_namespace c ∈ nss).
    + unfold restartCollectorAndAudit. cbn [prog_bind call runs].
      intros (now & tr1 & -> & y & tr2 & -> & Hr).
      assert (Hcons : forall tr', updated_collectors (Ev NowRFC3339 now
          :: Ev (UpdateCollector (restarted now c)) y :: tr')
          = restarted now c :: updated_collectors tr') by done.
      assert (Hne : nss = ∅ -> False) by set_solver.
      destruct y as [err|c'].
      * destruct (IsConflict err); cbn [prog_bind runs] in Hr.
        -- apply IH in Hr as (H1 & H2 & _ & H4). split_and!; [done | done | by intros ?%Hne |]. intros Ho.
           rewrite Hcons. constructor; [by eexists | by apply H4].
        -- destruct Hr as [-> ->]. by split_and!; [| | intros ?%Hne |].
      * cbn [prog_bind call runs] in Hr. destruct Hr as (ev & tr3 & -> & z & tr4 & -> & Hr).
        destruct z as [err|]; cbn [prog_bind runs] in Hr; [destruct Hr as [-> ->]; by split_and!; [| | intros ?%Hne |] |].
        apply IH in Hr as (H1 & H2 & _ & H4). split_and!; [done | done | by intros ?%Hne |]. intros Ho.
        rewrite Hcons. constructor; [by eexists | by apply H4].
    + apply IH.
Qed.

Lemma app_events tr1 tr2 :
  updated_collectors (tr1 ++ tr2) = updated_collectors tr1 ++ updated_collectors tr2
  /\ changed_namespaces (tr1 ++ tr2) = changed_namespaces tr1 ++ changed_namespaces tr2
  /\ written_config_maps (tr1 ++ tr2) = written_config_maps tr1 ++ written_config_maps tr2.
Proof. split_and!; apply omap_app. Qed.

Context (labels_Parse : string -> option error).

End Restarts.

(** ** No panics *)

(** What the server may answer: a Prometheus rule has a group, and the fetched
    hub has variables that the webhook checked and whose joins are
    configured. *)
Definition hub_variables_ok (h : MdaiHub) : Prop :=
  Forall (fun v => refs_ok v /\ joins_ok v) (hub_Variables (mh_Spec h)).

Definition well_formed_objects : assumption HubE := fun X e =>
  match e in HubE X return X -> Prop with
  | GetRule _ _ => fun x => forall pr, x = inr pr -> promr_Groups pr <> []
  | CreateRule _ => fun x => forall pr, x = inr pr -> promr_Groups pr <> []
  | GetHub _ _ => fun x => forall h, x = inr h -> hub_variables_ok h
  | _ => fun _ => True
  end.

Section NoPanic.
Context (Marshal : marshalled -> error + string) (type_text : CommandType -> string).
Context (labels_Parse : string -> option error).
Context (SetControllerReference : ObjectMeta -> ObjectMeta -> error + ObjectMeta).
Context (releaseName : string).
Context `{K8sUtil}.

Abbreviation safe' := (safe well_formed_objects).

Lemma update_first_group_Done f m g gs :
  update_first_group f {| promr_ObjectMeta := m; promr_Groups := g :: gs |}
  = Done {| promr_ObjectMeta := m; promr_Groups := f g :: gs |}.
Proof. done. Qed.

Lemma update_prometheus_rule_safe h evals pr :
  promr_Groups pr <> [] -> safe' (update_prometheus_rule h evals pr).
Proof.
  destruct pr as [m [|g gs]]; [done |]. intros _. unfold update_prometheus_rule.
  destruct (evaluation_interval h); cbn; solve_safe.
Qed.

Lemma prometheus_safe h : safe' (ensurePrometheusAlertsSynchronized releaseName h).
Proof.
  unfold ensurePrometheusAlertsSynchronized, on_hub, deletePrometheusRule.
  apply safe_seq; [| solve_safe]. apply safe_Vis. intros x Hx. cbn in Hx |- *.
  destruct (hub_PrometheusAlerts _) as [evals|]; [| solve_safe].
  destruct x as [err|pr]; [| by apply update_prometheus_rule_safe, Hx].
  destruct (IsNotFound err); [| solve_safe]. apply safe_Vis. intros y Hy. cbn in Hy |- *.
  destruct y as [err'|pr]; [solve_safe |]. by apply update_prometheus_rule_safe, Hy.
Qed.

Lemma deleteEnvConfigMap_safe h postfix ns : safe' (deleteEnvConfigMap h postfix ns).
Proof. unfold deleteEnvConfigMap. solve_safe. Qed.

Lemma createOrUpdateEnvConfigMap_safe h env postfix ns opts :
  safe' (createOrUpdateEnvConfigMap h env postfix ns opts).
Proof. unfold createOrUpdateEnvConfigMap. solve_safe. Qed.

Lemma syncNamespaces_safe h env cs nss : safe' (syncNamespaces h env cs nss).
Proof.
  revert nss. induction cs as [|c cs IH]; intros nss; cbn [syncNamespaces]; [apply safe_Ret |].
  pose proof createOrUpdateEnvConfigMap_safe. solve_safe; auto.
Qed.

Lemma restartCollectors_safe h env nss cs : safe' (restartCollectors h env nss cs).
Proof.
  induction cs as [|c cs IH]; cbn [restartCollectors]; [apply safe_Ret |].
  unfold restartCollectorAndAudit. solve_safe; auto.
Qed.

Lemma syncValkeyVariables_safe hub vs :
  Forall (fun v => refs_ok v /\ joins_ok v) vs -> safe' (syncValkeyVariables hub vs no_synced).
Proof. intros Hv. apply safe_wp. by apply syncValkeyVariables_returns. Qed.

#[local] Hint Resolve deleteEnvConfigMap_safe createOrUpdateEnvConfigMap_safe syncNamespaces_safe
  restartCollectors_safe syncValkeyVariables_safe : safe.

Lemma automations_safe h :
  safe' (ensureAutomationsSynchronized Marshal type_text SetControllerReference h).
Proof. unfold ensureAutomationsSynchronized, on_hub. solve_safe. Qed.

Lemma variables_safe h :
  hub_variables_ok h ->
  safe' (ensureVariableSynchronized Marshal labels_Parse SetControllerReference h).
Proof.
  intros Hv. unfold ensureVariableSynchronized, on_hub, remove_variable_config_maps,
    sync_manual_config_map, syncComputedConfigMapsAndRestart, listOtelCollectorsWithLabel.
  solve_safe.
Qed.

Lemma on_hub_same {A} (f : MdaiHub -> prog HubE A) h tr h' a :
  runs (on_hub f h) tr (Done (h', a)) -> h' = h.
Proof.
  unfold on_hub. rewrite runs_bind. intros [(b & tr1 & tr2 & _ & _ & [_ Hb])|(why & [=] & _)].
  by injection Hb.
Qed.

Lemma hub_work_safe h :
  hub_variables_ok h ->
  safe' (run_operations (hub_work Marshal type_text labels_Parse SetControllerReference releaseName) h).
Proof.
  intros Hv. unfold hub_work.
  apply run_operations_safe; [apply prometheus_safe | intros tr h' res ->%on_hub_same _].
  apply run_operations_safe; [apply automations_safe | intros tr' h' res' ->%on_hub_same _].
  apply run_operations_safe; [by apply variables_safe | intros tr'' h' res'' _ _].
  apply run_operations_safe; [apply status_done_safe | intros; apply safe_Ret].
Qed.

Lemma hub_finalize_safe h : safe' (hub_finalize h).
Proof.
  unfold hub_finalize, deletePrometheusRule. destruct (negb _); [apply safe_Ret |].
  apply safe_seq; [solve_safe |]. intros [err|]; [apply safe_Ret |].
  apply finalize_refetched_safe. intros o. unfold hub_after_finalizer. solve_safe.
Qed.
End NoPanic.

Section NoPanicTheorem.
Context (Marshal : marshalled -> error + string) (type_text : CommandType -> string).
Context (labels_Parse : string -> option error).
Context (SetControllerReference : ObjectMeta -> ObjectMeta -> error + ObjectMeta).
Context (releaseName : string).
Context `{K8sLaws}.

End NoPanicTheorem.

(** ** Prometheus rules, automations, clean-up *)

(** The first group after the update. *)
Definition synced_group (h : MdaiHub) (evals : list PrometheusAlert) (g : RuleGroup) : RuleGroup :=
  {| rg_Name := rg_Name g;
     rg_Interval := match evaluation_interval h with Some i => Some i | None => rg_Interval g end;
     rg_Rules := map (composePrometheusRule h) evals |}.

Lemma update_prometheus_rule_trace h evals pr tr out :
  runs (update_prometheus_rule h evals pr) tr out ->
  match promr_Groups pr with
  | [] => tr = [] /\ out = Panics "index out of range"
  | g :: gs => exists answer,
      tr = [Ev (UpdateRule {| promr_ObjectMeta := promr_ObjectMeta pr;
                              promr_Groups := synced_group h evals g :: gs |}) answer]
      /\ out = Done ContinueProcessing
  end.
Proof.
  unfold update_prometheus_rule, synced_group. destruct pr as [m [|g gs]].
  - by destruct (evaluation_interval h).
  - destruct (evaluation_interval h); cbn; intros (x & tr' & -> & -> & ->); by exists x.
Qed.

Section MoreTheorems.
Context (Marshal : marshalled -> error + string) (type_text : CommandType -> string).
Context (SetControllerReference : ObjectMeta -> ObjectMeta -> error + ObjectMeta).
Context (releaseName : string).

(** With alerts in the hub, the operation either ends with the update of
    the fetched or newly created rule, whose first group has one rule per
    alert in order and the hub's evaluation interval, other groups untouched,
    or asks for a retry with the error of the fetch (also when it was the
    creation that failed), or panics on a rule without groups.  The outcome of
    the update itself is not looked at. *)
Theorem prometheus_alerts_synchronized h evals tr out :
  hub_PrometheusAlerts (mh_Spec h) = Some evals ->
  runs (ensurePrometheusAlertsSynchronized releaseName h) tr out ->
  (exists err tr', tr = Ev (GetRule (hub_namespace h) (prometheusRuleName h)) (inl err) :: tr'
     /\ out = Done (h, RequeueAfter requeueTime (Some err))
     /\ if IsNotFound err
        then exists err', tr' = [Ev (CreateRule (new_prometheus_rule releaseName h)) (inl err')]
        else tr' = [])
  \/ exists pr pre,
       (Ev (GetRule (hub_namespace h) (prometheusRuleName h)) (inr pr) ∈ pre
        \/ Ev (CreateRule (new_prometheus_rule releaseName h)) (inr pr) ∈ pre)
       /\ match promr_Groups pr with
          | [] => tr = pre /\ out = Panics "index out of range"
          | g :: gs => exists answer,
              tr = pre ++ [Ev (UpdateRule {| promr_ObjectMeta := promr_ObjectMeta pr;
                                             promr_Groups := synced_group h evals g :: gs |}) answer]
              /\ out = Done (h, ContinueProcessing)
          end.
Proof.
  intros He. unfold ensurePrometheusAlertsSynchronized, on_hub. rewrite He.
  cbn [prog_bind call runs]. intros (x & tr1 & -> & Hr).
  assert (Hupd : forall pr pre tr2,
    runs (let* a := update_prometheus_rule h evals pr in Ret (h, a)) tr2 out ->
    match promr_Groups pr with
    | [] => pre ++ tr2 = pre /\ out = Panics "index out of range"
    | g :: gs => exists answer,
        pre ++ tr2 = pre ++ [Ev (UpdateRule {| promr_ObjectMeta := promr_ObjectMeta pr;
                                       promr_Groups := synced_group h evals g :: gs |}) answer]
        /\ out = Done (h, ContinueProcessing)
    end).
  { intros pr pre tr2. rewrite runs_bind. intros [(a & tr3 & tr4 & -> & Ha & Hb)|(why & -> & Hp)].
    - destruct Hb as [-> ->]. apply update_prometheus_rule_trace in Ha.
      destruct (promr_Groups pr); [by destruct Ha |]. destruct Ha as (answer & -> & [= ->]).
      exists answer. by rewrite app_nil_r.
    - apply update_prometheus_rule_trace in Hp.
      destruct (promr_Groups pr); [destruct Hp as [-> [= ->]]; by rewrite app_nil_r |].
      by destruct Hp as (? & _ & [=]). }
  destruct x as [err|pr].
  - destruct (IsNotFound err) eqn:En.
    + cbn [prog_bind call runs] in Hr. destruct Hr as (y & tr2 & -> & Hr). destruct y as [err'|pr].
      * destruct Hr as [-> ->]. left. exists err. eexists. split; [done |]. split; [done |].
        rewrite En. by eexists.
      * right. exists pr. eexists [_; _]. split; [right; right; by left |].
        apply (Hupd pr [_; _] tr2 Hr).
    + destruct Hr as [-> ->]. left. exists err, []. by rewrite En.
  - right. exists pr. eexists [_]. split; [left; by left |]. apply (Hupd pr [_] tr1 Hr).
Qed.

Lemma buildAutomationMap_from rules m m' :
  buildAutomationMap Marshal type_text rules m = inr m' ->
  NoDup (map ar_Name rules) ->
  forall n x, m' !! n = Some x <->
    (exists r trig cmds, r ∈ rules /\ ar_Name r = n
       /\ transformWhenToTrigger (Some (ar_When r)) = inr trig
       /\ transformThenToCommands Marshal type_text (ar_Then r) = inr cmds
       /\ Marshal (MRule {| rule_Name := n; rule_Trigger := trig; rule_Commands := cmds |}) = inr x)
    \/ (n ∉ map ar_Name rules /\ m !! n = Some x).
Proof.
  revert m. induction rules as [|r rules IH]; intros m; cbn [buildAutomationMap map].
  - intros [= <-] _ n x. split; [right; split; [apply not_elem_of_nil | done] |].
    intros [(r & _ & _ & H & _)|[_ H]]; [by apply elem_of_nil in H | done].
  - destruct (transformWhenToTrigger _) as [|trig] eqn:Ew; [done |].
    destruct (transformThenToCommands _ _ _) as [|cmds] eqn:Et; [done |].
    destruct (Marshal _) as [|json] eqn:Em; [done |].
    intros Hb [Hn Hd]%NoDup_cons n x. rewrite (IH _ Hb Hd n x), not_elem_of_cons. split.
    + intros [(r' & t & c & Hr & H)|[Hni Hl]]; [left; exists r', t, c; split; [by right | done] |].
      destruct (decide (n = ar_Name r)) as [->|Hne].
      * rewrite lookup_insert_eq in Hl. injection Hl as ->. left. exists r, trig, cmds.
        split; [by left | done].
      * rewrite lookup_insert_ne in Hl by done. by right.
    + intros [(r' & t & c & Hr & Hname & Hw & Ht & Hm)|[[Hne Hni] Hl]].
      * apply elem_of_cons in Hr as [->|Hr]; [| left; by exists r', t, c].
        subst n. rewrite Ew in Hw. injection Hw as <-. rewrite Et in Ht. injection Ht as <-.
        rewrite Em in Hm. injection Hm as <-. right. split; [done |]. by rewrite lookup_insert_eq.
      * right. by rewrite lookup_insert_ne.
Qed.

(** C27. When the automations of a hub with distinct rule names are
    synchronised, exactly one config map is written, owned by the hub, whose
    data has under each rule's name the marshalled event rule: its trigger and
    the commands of its actions. *)
Theorem automations_config_map h rules tr h' :
  hub_Rules (mh_Spec h) = Some rules -> NoDup (map ar_Name rules) ->
  runs (ensureAutomationsSynchronized Marshal type_text SetControllerReference h) tr
    (Done (h', ContinueProcessing)) ->
  h' = h /\ exists data r,
    tr = [Ev (CreateOrUpdateConfigMap (env_config_map h automationConfigMapNamePostfix (hub_namespace h))
                (env_mutate data [WithOwnerRef SetControllerReference h])) (inr r)]
    /\ forall n x, data !! n = Some x <->
         exists rule trig cmds, rule ∈ rules /\ ar_Name rule = n
           /\ transformWhenToTrigger (Some (ar_When rule)) = inr trig
           /\ transformThenToCommands Marshal type_text (ar_Then rule) = inr cmds
           /\ Marshal (MRule {| rule_Name := n; rule_Trigger := trig; rule_Commands := cmds |}) = inr x.
Proof.
  intros Hrules Hd Hr. split; [by eapply on_hub_same |].
  unfold ensureAutomationsSynchronized, on_hub in Hr. rewrite Hrules in Hr.
  destruct (buildAutomationMap _ _ rules ∅) as [res|data] eqn:Eb.
  - destruct Hr as [_ Hr]. exfalso. clear -Eb Hr. injection Hr as _ Hr.
    revert Eb. generalize (∅ : gmap string string). subst res.
    induction rules as [|r rules IH]; intros m; cbn [buildAutomationMap]; [done |].
    destruct (transformWhenToTrigger _); [done |].
    destruct (transformThenToCommands _ _ _); [done |]. destruct (Marshal _); [done |]. apply IH.
  - unfold createOrUpdateEnvConfigMap in Hr. cbn [prog_bind call runs] in Hr.
    destruct Hr as (x & tr' & -> & Hr). destruct x as [err|r]; [by destruct Hr as [_ [=]] |].
    destruct Hr as [-> _]. exists data, r. split; [done |]. intros n x.
    rewrite (buildAutomationMap_from _ _ _ Eb Hd n x). rewrite lookup_empty.
    split; [intros [H|[_ [=]]]; exact H | by left].
Qed.
End MoreTheorems.

(** ** What is not retried *)

Definition sample_collector (name ns : string) : OpenTelemetryCollector :=
  {| otel_ObjectMeta := named name ns |}.

Lemma unchanged_no_restart labels_Parse h env tr out :
  runs (syncComputedConfigMapsAndRestart labels_Parse h env) tr out ->
  changed_namespaces tr = [] -> updated_collectors tr = [].
Proof.
  unfold syncComputedConfigMapsAndRestart, listOtelCollectorsWithLabel.
  destruct (labels_Parse _); [by intros [-> _] |]. cbn [prog_bind call runs].
  intros (x & tr1 & -> & Hr). destruct x as [err|cs]; cbn [prog_bind] in Hr; [by destruct Hr as [-> _] |].
  intros Hc. change (changed_namespaces tr1 = []) in Hc. change (updated_collectors tr1 = []).
  rewrite runs_bind in Hr. destruct Hr as [(r & tr2 & tr3 & -> & Ha & Hb)|(why & -> & Hp)];
    [| by apply syncNamespaces_trace in Hp as [Hp _]].
  rewrite !(proj1 (proj2 (app_events _ _))) in Hc. apply app_nil in Hc as [Hc _].
  rewrite !(proj1 (app_events _ _)). apply syncNamespaces_trace in Ha as [Hu Ha]. rewrite Hu.
  destruct r as [err|nss]; [by destruct Hb as [-> _] |].
  destruct (Ha nss eq_refl) as [-> _]. rewrite Hc in Hb. simpl in Hb.
  assert (Hn : forall tr out, runs (restartCollectors h env (∅ ∪ ∅) cs) tr out -> updated_collectors tr = []).
  { intros tr out0 Hx. apply restartCollectors_trace in Hx as (_ & _ & Hx & _). apply Hx. set_solver. }
  rewrite runs_bind in Hb. destruct Hb as [(r & tr4 & tr5 & -> & Hx & Hy)|(why & -> & Hp)];
    [| by eapply Hn].
  rewrite !(proj1 (app_events _ _)), (Hn _ _ Hx). by destruct r; destruct Hy as [-> _].
Qed.

(** A restart that loses the race for its collector is dropped: the
    operation continues after the conflict, and a later one, which finds the
    config maps unchanged, restarts no collector. *)
Theorem restart_conflict_lost h env c err :
  IsConflict err = true ->
  (exists tr, runs (syncComputedConfigMapsAndRestart (fun _ => None) h env) tr (Done ContinueProcessing)
     /\ exists now, Ev (UpdateCollector (restarted now c)) (inl err) ∈ tr)
  /\ forall tr out, runs (syncComputedConfigMapsAndRestart (fun _ => None) h env) tr out ->
       changed_namespaces tr = [] -> updated_collectors tr = [].
Proof.
  intros He. split; [| intros tr out; apply unchanged_no_restart].
  set (cm := env_config_map h envConfigMapNamePostfix (collector_namespace c)).
  exists [Ev (ListCollectors (LabelMdaiHubName +:+ "=" +:+ hub_name h)) (inr [c]);
     Ev (CreateOrUpdateConfigMap cm (env_mutate env [])) (inr (OperationResultUpdated, cm));
     Ev NowRFC3339 "now"; Ev (UpdateCollector (restarted "now" c)) (inl err)].
  split; [| exists "now"; right; right; right; by left].
  unfold syncComputedConfigMapsAndRestart, listOtelCollectorsWithLabel. cbn [prog_bind call runs].
  eexists _, _. split; [done |]. cbn [prog_bind runs syncNamespaces call createOrUpdateEnvConfigMap].
  eexists _, _. split; [done |]. cbn [prog_bind runs restartCollectors].
  rewrite bool_decide_eq_true_2 by (apply elem_of_union_l; by apply elem_of_singleton).
  unfold restartCollectorAndAudit. cbn [prog_bind call runs].
  eexists _, _. split; [done |]. eexists _, _. split; [done |]. cbn [prog_bind]. rewrite He. done.
Qed.

(** The webhook accepts a hub whose rule waits for an alert with an empty
    name; synchronising its automations then fails on every attempt, without
    any call. *)
Theorem accepted_hub_never_synchronised :
  let w := {| when_AlertName := Some ""; when_Status := None;
              when_VariableUpdated := None; when_UpdateType := None |} in
  let rule := {| ar_Name := "limit"; ar_When := w; ar_Then := [sample_action] |} in
  let hub := {| mh_ObjectMeta := named "hub" "mdai";
                mh_Spec := {| hub_Config := None; hub_Variables := [sample_set_variable];
                              hub_PrometheusAlerts := None; hub_Rules := Some [rule] |};
                mh_Status := {| hubs_HubStatus := ""; hubs_LastUpdatedTime := None;
                                hubs_Conditions := [] |} |} in
  hub_ok (fun _ => None) hub /\
  forall Marshal type_text SetControllerReference tr out,
    runs (ensureAutomationsSynchronized Marshal type_text SetControllerReference hub) tr out ->
    tr = [] /\ exists err, out = Done (hub, ContinueWithError (Some err)).
Proof.
  intros w rule hub. split.
  - split; [exact sample_set_ok |]. split; [constructor |].
    constructor; [| constructor]. split; [| split; [done |]].
    + vm_compute. by split_and!.
    + repeat constructor.
  - intros Marshal type_text SetC tr out. cbn. intros [-> ->]. split; [done |]. by eexists.
Qed.

Section CleanUp.
Context (Marshal : marshalled -> error + string) (type_text : CommandType -> string).
Context (labels_Parse : string -> option error).
Context (SetControllerReference : ObjectMeta -> ObjectMeta -> error + ObjectMeta).
Context (releaseName : string).
Context `{K8sLaws}.

(** C37. The hub's keys are removed from Valkey after the finalizer: when that
    fails, the hub the server returned without the finalizer is the one the
    next reconcile sees, and for a hub under deletion without the finalizer
    the handler makes no call at all. *)
Theorem valkey_cleanup_not_retried h :
  deleting h = true -> hubFinalizer ∉ om_Finalizers (mh_ObjectMeta h) ->
  (forall h0 err, hubFinalizer ∈ om_Finalizers (mh_ObjectMeta h0) ->
     exists tr, runs (hub_finalize h0) tr (Done (h, (ObjectUnchanged, Some err)))
       /\ exists u, last tr = Some (Ev (DeleteKeysWithPrefixUsingScan ∅ (hub_name h)) (Some err))
                    /\ Ev (UpdateHub u) (inr h) ∈ tr)
  /\ forall tr out,
       runs (ReconcileHandler Marshal type_text labels_Parse SetControllerReference releaseName h) tr out ->
       tr = [] /\ out = Done (h, (done_Result, None)).
Proof.
  intros D Hf. split.
  - intros h0 err Hin.
    assert (Hc : ContainsFinalizer (mh_ObjectMeta h0) hubFinalizer = true) by by apply contains_finalizer.
    unfold hub_finalize. rewrite Hc. cbn [negb]. unfold deletePrometheusRule. cbn [prog_bind call runs].
    unfold finalize_refetched, refetch, update_status, ensureFinalizerDeleted, deleteFinalizer, update.
    cbn [prog_bind call runs r_meta r_conditions r_with_conditions r_with_meta hub_resource write_back].
    destruct (SetStatusCondition (hubs_Conditions (mh_Status h0))
                (degraded_condition (om_Name (mh_ObjectMeta h0)))) as [cs changed] eqn:Es.
    set (h1 := with_hub_conditions h0 cs).
    set (u := with_hub_meta h1 (with_finalizers (mh_ObjectMeta h1)
                (filter (fun f => f <> hubFinalizer) (om_Finalizers (mh_ObjectMeta h1))))).
    set (d := Ev (DeleteRule (hub_namespace h0) (prometheusRuleName h0)) None).
    set (g := Ev (GetHub (om_Namespace (mh_ObjectMeta h0)) (om_Name (mh_ObjectMeta h0))) (inr h0)).
    set (k := Ev (DeleteKeysWithPrefixUsingScan ∅ (hub_name h)) (Some err)).
    destruct changed.
    + exists [d; g; Ev (UpdateHubStatus h1) (inr h1); Ev (UpdateHub u) (inr h); k]. split.
      * eexists _, _. split; [done |]. eexists _, _. split; [done |].
        cbn [prog_bind write_back]. rewrite Es. cbn [prog_bind runs].
        eexists _, _. split; [done |]. cbn [prog_bind write_back].
        rewrite bool_decide_eq_true_2 by done. cbn [prog_bind runs].
        eexists _, _. split; [done |]. cbn [prog_bind write_back hub_after_finalizer call runs].
        eexists _, _. split; [done |]. done.
      * exists u. split; [done |]. right; right; right; by left.
    + exists [d; g; Ev (UpdateHub u) (inr h); k]. split.
      * eexists _, _. split; [done |]. eexists _, _. split; [done |].
        cbn [prog_bind write_back]. rewrite Es. cbn [prog_bind runs].
        rewrite bool_decide_eq_true_2 by done. cbn [prog_bind runs].
        eexists _, _. split; [done |]. cbn [prog_bind write_back hub_after_finalizer call runs].
        eexists _, _. split; [done |]. done.
      * exists u. split; [done |]. right; right; by left.
  - intros tr out Hr. unfold ReconcileHandler, hub_operations in Hr. rewrite lifecycle_phase in Hr.
    unfold phase in Hr. rewrite D in Hr. cbn [run_operations] in Hr.
    unfold ensureDeletionProcessed in Hr. cbn [r_meta hub_resource] in Hr.
    unfold deleting in D. apply bool_decide_eq_true in D. destruct D as [t Ht].
    cbn [r_meta hub_resource] in Ht. rewrite Ht in Hr. unfold hub_finalize in Hr.
    rewrite contains_finalizer_dec, bool_decide_eq_false_2 in Hr by done. by cbn in Hr.
Qed.
End CleanUp.

(** ** Witnesses *)

Import Reconcile.Sample.

Definition live_hub (finalizers : list string) (conditions : list Condition)
    (deleted : option Z) (spec : MdaiHubSpec) : MdaiHub :=
  {| mh_ObjectMeta :=
       {| om_Name := "hub"; om_Namespace := "mdai"; om_UID := "1"; om_Generation := 1;
          om_Labels := None; om_Annotations := None; om_Finalizers := finalizers;
          om_OwnerReferences := []; om_DeletionTimestamp := deleted;
          om_CreationTimestamp := Some 0%Z |};
     mh_Spec := spec;
     mh_Status := {| hubs_HubStatus := ""; hubs_LastUpdatedTime := None;
                     hubs_Conditions := conditions |} |}.

Definition empty_spec : MdaiHubSpec :=
  {| hub_Config := None; hub_Variables := []; hub_PrometheusAlerts := None; hub_Rules := None |}.

Abbreviation sample_Reconcile :=
  (Reconcile (fun _ => inr "{}") (fun _ => "") (fun _ => None) (fun _ m => inr m) "mdai").

(** A new hub with its status set gets its finalizer. *)
Lemma hub_finalizer_safety_witness :
  let h := live_hub [] [available_condition] None empty_spec in
  let u := live_hub [hubFinalizer] [available_condition] None empty_spec in
  exists h0 pre', [Ev (GetHub "mdai" "hub") (inr h)] = Ev (GetHub "mdai" "hub") (inr h0) :: pre'
    /\ (hubFinalizer ∈ om_Finalizers (mh_ObjectMeta u) <-> deleting h0 = false)
    /\ (deleting h0 = true ->
        exists err, Ev (DeleteRule (hub_namespace h0) (prometheusRuleName h0)) err ∈ pre' /\ rule_gone err).
Proof.
  intros h u.
  apply (hub_finalizer_safety (fun _ => inr "{}") (fun _ => "") (fun _ => None) (fun _ m => inr m) "mdai"
    "mdai" "hub" [Ev (GetHub "mdai" "hub") (inr h); Ev (UpdateHub u) (inr u)] (Done (done_Result, None))
    [Ev (GetHub "mdai" "hub") (inr h)] u (inr u) []).
  - cbn. eexists _, _. split; [reflexivity |]. eexists _, _. split; [reflexivity |].
    split; reflexivity.
  - reflexivity.
Defined.


Definition alert_spec (alerts : option (list PrometheusAlert)) (rules : option (list AutomationRule))
  : MdaiHubSpec :=
  {| hub_Config := None; hub_Variables := []; hub_PrometheusAlerts := alerts; hub_Rules := rules |}.

Definition missing : error := ErrStatus ReasonNotFound "not found".

(** A creation that fails is reported with the error of the fetch. *)
Lemma prometheus_alerts_synchronized_witness :
  let h := live_hub [hubFinalizer] [available_condition] None (alert_spec (Some []) None) in
  let tr := [Ev (GetRule "mdai" "mdai-hub-alert-rules") (inl missing);
             Ev (CreateRule (new_prometheus_rule "mdai" h)) (inl (Err "quota"))] in
  let out := Done (h, RequeueAfter requeueTime (Some missing)) in
  (exists err tr', tr = Ev (GetRule (hub_namespace h) (prometheusRuleName h)) (inl err) :: tr'
     /\ out = Done (h, RequeueAfter requeueTime (Some err))
     /\ if IsNotFound err
        then exists err', tr' = [Ev (CreateRule (new_prometheus_rule "mdai" h)) (inl err')]
        else tr' = [])
  \/ exists pr pre,
       (Ev (GetRule (hub_namespace h) (prometheusRuleName h)) (inr pr) ∈ pre
        \/ Ev (CreateRule (new_prometheus_rule "mdai" h)) (inr pr) ∈ pre)
       /\ match promr_Groups pr with
          | [] => tr = pre /\ out = Panics "index out of range"
          | g :: gs => exists answer,
              tr = pre ++ [Ev (UpdateRule {| promr_ObjectMeta := promr_ObjectMeta pr;
                                             promr_Groups := synced_group h [] g :: gs |}) answer]
              /\ out = Done (h, ContinueProcessing)
          end.
Proof.
  intros h tr out. apply (prometheus_alerts_synchronized "mdai" h [] tr out).
  - reflexivity.
  - cbn. eexists _, _. split; [reflexivity |]. eexists _, _. split; [reflexivity |].
    split; reflexivity.
Defined.

Lemma automations_config_map_witness :
  let h := live_hub [hubFinalizer] [available_condition] None (alert_spec None (Some [sample_rule])) in
  let Marshal := fun p => match p with MRule _ => inr "rule" | _ => inr "{}" end in
  let cm := env_config_map h automationConfigMapNamePostfix "mdai" in
  h = h /\ exists data r,
    [Ev (CreateOrUpdateConfigMap cm
           (env_mutate {["limit" := "rule"]} [WithOwnerRef (fun _ m => inr m) h]))
       (inr (OperationResultCreated, cm))]
    = [Ev (CreateOrUpdateConfigMap (env_config_map h automationConfigMapNamePostfix (hub_namespace h))
             (env_mutate data [WithOwnerRef (fun _ m => inr m) h])) (inr r)]
    /\ forall n x, data !! n = Some x <->
         exists rule trig cmds, rule ∈ [sample_rule] /\ ar_Name rule = n
           /\ transformWhenToTrigger (Some (ar_When rule)) = inr trig
           /\ transformThenToCommands Marshal (fun _ => "") (ar_Then rule) = inr cmds
           /\ Marshal (MRule {| rule_Name := n; rule_Trigger := trig; rule_Commands := cmds |}) = inr x.
Proof.
  intros h Marshal cm.
  apply (automations_config_map Marshal (fun _ => "") (fun _ m => inr m) h [sample_rule]).
  - reflexivity.
  - apply NoDup_singleton.
  - unfold ensureAutomationsSynchronized, on_hub. cbn -[env_mutate].
    eexists _, _. split; [reflexivity |]. split; reflexivity.
Defined.


Lemma restart_conflict_lost_witness :
  let h := live_hub [hubFinalizer] [available_condition] None empty_spec in
  let c := sample_collector "gateway" "otel" in
  (exists tr, runs (syncComputedConfigMapsAndRestart (fun _ => None) h ∅) tr (Done ContinueProcessing)
     /\ exists now, Ev (UpdateCollector (restarted now c)) (inl conflict_error) ∈ tr)
  /\ forall tr out, runs (syncComputedConfigMapsAndRestart (fun _ => None) h ∅) tr out ->
       changed_namespaces tr = [] -> updated_collectors tr = [].
Proof. intros h c. apply (restart_conflict_lost h ∅ c conflict_error). reflexivity. Defined.

Lemma valkey_cleanup_not_retried_witness :
  let h := live_hub [] [available_condition] (Some 1%Z) empty_spec in
  let h0 := live_hub [hubFinalizer] [available_condition] (Some 1%Z) empty_spec in
  (exists tr, runs (hub_finalize h0) tr (Done (h, (ObjectUnchanged, Some (Err "valkey"))))
     /\ exists u, last tr = Some (Ev (DeleteKeysWithPrefixUsingScan ∅ (hub_name h)) (Some (Err "valkey")))
                  /\ Ev (UpdateHub u) (inr h) ∈ tr).
Proof.
  intros h h0.
  assert (Hd : hubFinalizer ∉ om_Finalizers (mh_ObjectMeta h)) by apply not_elem_of_nil.
  apply (valkey_cleanup_not_retried (fun _ => inr "{}") (fun _ => "") (fun _ => None)
           (fun _ m => inr m) "mdai" h); [reflexivity | exact Hd | by left].
Defined.
