(* ===== verification/HubController.v ===== *)
(** * internal/controller: what triggers a hub's reconcile

    mdaihub_controller.go besides [Reconcile]: the requests made for a new
    collector and for a changed Valkey key, the lookup of a hub by name, and
    the event filters of the watches. *)

From S2P Require Import Prelude GoLib ApiTypes Errors Effects Reconcile K8sObjects HubCalls HubAdapter.

(** ** Requests *)

(** [reconcile.Request]. *)
Record Request := { req_Namespace : string; req_Name : string }.

Fixpoint find_hub (hubs : list MdaiHub) (hubNameFromLabel : string) : option MdaiHub :=
  match hubs with
  | [] => None
  | hub :: hubs =>
      if bool_decide (hub_name hub = hubNameFromLabel) then Some hub else find_hub hubs hubNameFromLabel
  end.

(** The namespace, whether the hub was found, and the error. *)
Definition findHubNamespace (hubNameFromLabel : string) : prog HubE (string * bool * option error) :=
  let* answer := call ListHubs in
  match answer with
  | inl err => Ret ("", false, Some err)
  | inr hubs =>
      match find_hub hubs hubNameFromLabel with
      | None => Ret ("", false, None)
      | Some targetHub => Ret (hub_namespace targetHub, true, None)
      end
  end.

(** The object of a watch event: a collector, or something else. *)
Inductive WatchedObject :=
| WatchedCollector (c : OpenTelemetryCollector)
| WatchedOther.

Definition requeueByLabels (obj : WatchedObject) : prog HubE (list Request) :=
  match obj with
  | WatchedOther => Ret []
  | WatchedCollector otelCollector =>
      match gomap (om_Labels (otel_ObjectMeta otelCollector)) !! LabelMdaiHubName with
      | None => Ret []
      | Some hubNameFromLabel =>
          if bool_decide (hubNameFromLabel = "") then Ret []
          else
            let* (hubNamespace, found, err) := findHubNamespace hubNameFromLabel in
            match (found : bool), err with
            | true, None => Ret [{| req_Namespace := hubNamespace; req_Name := hubNameFromLabel |}]
            | _, _ => Ret []
            end
      end
  end.

Definition keyspace_prefix : string := "__keyspace@0__:".
Definition keyPartsExpected : nat := 3.

(** The callback of [startValkeySubscription]: the generic event it sends. *)
Definition on_key_event (channel : string) : prog HubE (option Request) :=
  let key := TrimPrefix channel keyspace_prefix in
  let parts := SplitN key "/" keyPartsExpected in
  if negb (length parts =? keyPartsExpected) then Ret None
  else
    let* hubName := lift (at_index parts 1) in
    let* (hubNamespace, found, err) := findHubNamespace hubName in
    if negb (found : bool) then Ret None
    else match err with
         | Some _ => Ret None
         | None => Ret (Some {| req_Namespace := hubNamespace; req_Name := hubName |})
         end.

(** ** Event filters *)

Inductive watch_event :=
| CreateEvent (o : ObjectMeta)
| UpdateEvent (old new : ObjectMeta)
| DeleteEvent (o : ObjectMeta)
| GenericEvent (o : ObjectMeta).

(** New collectors only. *)
Definition createPredicate (ev : watch_event) : bool :=
  match ev with
  | CreateEvent _ => true
  | UpdateEvent _ _ => false
  | DeleteEvent _ => false
  | GenericEvent _ => false
  end.

(** Owned resources: updates that [predicate.GenerationChangedPredicate] lets
    through. *)
Definition mdaiResourcesPredicate (GenerationChanged : ObjectMeta -> ObjectMeta -> bool)
    (ev : watch_event) : bool :=
  match ev with
  | CreateEvent _ => false
  | UpdateEvent old new => GenerationChanged old new
  | DeleteEvent _ => false
  | GenericEvent _ => false
  end.

(** ** Lemmas *)

Definition no_slash (s : string) : Prop := Forall (fun c => c <> "/"%char) (bytes s).

Lemma IndexByte_app l c rest :
  Forall (fun x => x <> c) l -> IndexByte (l ++ c :: rest) c = Some (length l).
Proof.
  induction 1 as [|x l Hx _ IH]; simpl; [by rewrite Ascii.eqb_refl |].
  rewrite (proj2 (Ascii.eqb_neq x c)) by done. by rewrite IH.
Qed.

Lemma splitN_app l c rest n :
  Forall (fun x => x <> c) l ->
  splitN_bytes (l ++ c :: rest) c (S (S n)) = l :: splitN_bytes rest c (S n).
Proof.
  intros Hl. cbn [splitN_bytes]. rewrite IndexByte_app by done.
  rewrite take_app_length. f_equal. f_equal.
  change (c :: rest) with ([c] ++ rest). rewrite app_assoc.
  replace (S (length l)) with (length (l ++ [c])) by (rewrite length_app; simpl; lia).
  by rewrite drop_app_length.
Qed.

Lemma SplitN_three a b c :
  no_slash a -> no_slash b ->
  SplitN (a +:+ "/" +:+ b +:+ "/" +:+ c) "/" 3 = [a; b; c].
Proof.
  unfold SplitN, no_slash. intros Ha Hb. rewrite !bytes_app. simpl (bytes "/").
  change ((["/"%char] ++ ?x)) with ("/"%char :: x). simpl app.
  rewrite splitN_app, splitN_app by done. simpl. by rewrite !of_bytes_bytes.
Qed.

Lemma has_prefix_app p l : has_prefix (p ++ l) p = true.
Proof. induction p as [|c p IH]; simpl; [by destruct l |]. by rewrite Ascii.eqb_refl. Qed.

Lemma TrimPrefix_app p s : TrimPrefix (p +:+ s) p = s.
Proof.
  unfold TrimPrefix, HasPrefix. rewrite bytes_app, has_prefix_app, <- bytes_length, drop_app_length.
  apply of_bytes_bytes.
Qed.

Lemma find_hub_Some hubs name h :
  find_hub hubs name = Some h -> h ∈ hubs /\ hub_name h = name.
Proof.
  induction hubs as [|g hubs IH]; simpl; [done |]. case_bool_decide as E.
  - intros [= <-]. split; [by left | done].
  - intros [H1 H2]%IH. split; [by right | done].
Qed.

Lemma find_hub_unique hubs h :
  NoDup (map hub_name hubs) -> h ∈ hubs -> find_hub hubs (hub_name h) = Some h.
Proof.
  induction hubs as [|g hubs IH]; intros Hd Hin; [by apply elem_of_nil in Hin |].
  simpl in Hd |- *. apply NoDup_cons in Hd as [Hg Hd]. apply elem_of_cons in Hin as [->|Hin].
  - by rewrite bool_decide_eq_true_2.
  - rewrite bool_decide_eq_false_2; [by apply IH |]. intros E. apply Hg. rewrite E.
    apply list_elem_of_fmap. eauto.
Qed.

(** ** Properties *)

(** A change of a key that Valkey keeps for a hub triggers a reconcile of
    exactly that hub when hub names are unique, whatever the variable's name
    contains; a failed listing triggers nothing. *)
Theorem key_event_requeues_hub h key tr out :
  no_slash (hub_name h) ->
  runs (on_key_event (keyspace_prefix +:+ VariableKeyPrefix +:+ hub_name h +:+ "/" +:+ key)) tr out ->
  exists answer, tr = [Ev ListHubs answer] /\
    match answer with
    | inl _ => out = Done None
    | inr hubs =>
        NoDup (map hub_name hubs) ->
        (h ∈ hubs -> out = Done (Some {| req_Namespace := hub_namespace h; req_Name := hub_name h |}))
        /\ (hub_name h ∉ map hub_name hubs -> out = Done None)
    end.
Proof.
  intros Hs. unfold on_key_event. rewrite TrimPrefix_app.
  change (VariableKeyPrefix +:+ hub_name h +:+ "/" +:+ key)
    with ("variable" +:+ "/" +:+ hub_name h +:+ "/" +:+ key).
  rewrite SplitN_three by (repeat constructor; done). cbn.
  intros (answer & tr' & -> & Hr). exists answer. destruct answer as [err|hubs]; cbn in Hr.
  - by destruct Hr as [-> ->].
  - destruct (find_hub hubs (hub_name h)) as [g|] eqn:E; cbn in Hr; destruct Hr as [-> ->];
      (split; [done |]; intros Hd; split; intros Hin).
    + rewrite find_hub_unique in E by done. by injection E as ->.
    + apply find_hub_Some in E as [Hg E]. exfalso. apply Hin. rewrite <- E.
      apply list_elem_of_fmap. eauto.
    + by rewrite find_hub_unique in E by done.
    + done.
Qed.

Lemma key_event_requeues_hub_witness :
  let h := live_hub [hubFinalizer] [] None empty_spec in
  exists answer, [Ev ListHubs (inr [h])] = [Ev ListHubs answer] /\
    match answer with
    | inl _ => Done (Some {| req_Namespace := "mdai"; req_Name := "hub" |}) = Done None
    | inr hubs =>
        NoDup (map hub_name hubs) ->
        (h ∈ hubs -> Done (Some {| req_Namespace := "mdai"; req_Name := "hub" |})
                     = Done (Some {| req_Namespace := hub_namespace h; req_Name := hub_name h |}))
        /\ (hub_name h ∉ map hub_name hubs
            -> Done (Some {| req_Namespace := "mdai"; req_Name := "hub" |}) = Done None)
    end.
Proof.
  intros h. apply (key_event_requeues_hub h "a/b").
  - repeat constructor; discriminate.
  - cbn. eexists _, _. split; [reflexivity |]. split; reflexivity.
Defined.

(** A collector asks for the reconcile of the hub its label names, and of
    nothing without the label: each request names a listed hub and its
    namespace. *)
Theorem requeueByLabels_requests c tr out :
  runs (requeueByLabels (WatchedCollector c)) tr out ->
  exists reqs, out = Done reqs /\ length reqs <= 1 /\
    forall r, r ∈ reqs ->
      gomap (om_Labels (otel_ObjectMeta c)) !! LabelMdaiHubName = Some (req_Name r)
      /\ exists hubs h, Ev ListHubs (inr hubs) ∈ tr /\ h ∈ hubs
           /\ req_Name r = hub_name h /\ req_Namespace r = hub_namespace h.
Proof.
  unfold requeueByLabels. destruct (_ !! LabelMdaiHubName) as [name|] eqn:El.
  2: { intros [-> ->]. exists []. split; [done |]. split; [simpl; lia |].
       intros r H. by apply elem_of_nil in H. }
  assert (Hnone : exists reqs : list Request, Done [] = Done reqs /\ length reqs <= 1 /\
    forall r, r ∈ reqs -> Some name = Some (req_Name r)
      /\ exists hubs h, Ev ListHubs (inr hubs) ∈ tr /\ h ∈ hubs
           /\ req_Name r = hub_name h /\ req_Namespace r = hub_namespace h).
  { exists []. split; [done |]. split; [simpl; lia |]. intros r H. by apply elem_of_nil in H. }
  case_bool_decide; [by intros [-> ->] |]. cbn.
  intros (answer & tr' & -> & Hr). destruct answer as [err|hubs]; cbn in Hr; [by destruct Hr as [-> ->] |].
  destruct (find_hub hubs name) as [h|] eqn:E; cbn in Hr; destruct Hr as [-> ->]; [| done].
  eexists. split; [done |]. split; [simpl; lia |]. intros r ->%list_elem_of_singleton.
  apply find_hub_Some in E as [Hin Hn]. split; [done |]. exists hubs, h. cbn. rewrite Hn.
  split_and!; try done. by left.
Qed.

Lemma requeueByLabels_requests_witness :
  let c := {| otel_ObjectMeta := with_labels (named "gateway" "otel")
                (Some {[LabelMdaiHubName := "hub"]}) |} in
  let h := live_hub [hubFinalizer] [] None empty_spec in
  exists reqs, Done [{| req_Namespace := "mdai"; req_Name := "hub" |}] = Done reqs /\ length reqs <= 1 /\
    forall r, r ∈ reqs ->
      gomap (om_Labels (otel_ObjectMeta c)) !! LabelMdaiHubName = Some (req_Name r)
      /\ exists hubs h', Ev ListHubs (inr hubs) ∈ [Ev ListHubs (inr [h])] /\ h' ∈ hubs
           /\ req_Name r = hub_name h' /\ req_Namespace r = hub_namespace h'.
Proof.
  intros c h. apply (requeueByLabels_requests c [Ev ListHubs (inr [h])]).
  cbn. eexists _, _. split; [reflexivity |]. split; reflexivity.
Defined.
