(* ===== verification/ControllerCalls.v ===== *)
(** * internal/controller: what the other adapters call

    One event type for the controllers of collectors, observers, replays and
    DALs, over the controller's own resource: the three calls of the life
    cycle, and [controllerutil.CreateOrUpdate] for each kind of object they
    create.  The closure passed to [CreateOrUpdate] maps the existing object to
    the desired one, and may fail or panic. *)

From S2P Require Import Prelude GoLib ApiTypes Errors Components Effects Reconcile K8sObjects Builders.

(** The closure, and the answer: what was done, with the object afterwards. *)
Definition mutate_fn (A : Type) : Type := A -> go (error + A).
Definition upserted (A : Type) : Type := go (error + CreateOrUpdateResult * A).

(** The part of a deployment's status that is read. *)
Record DeploymentStatus := { ds_Replicas : Z; ds_ReadyReplicas : Z }.

Inductive CtlE (R : Type) : Type -> Type :=
| CGet (ns name : string) : CtlE R (error + R)%type
| CUpdate (r : R) : CtlE R (error + R)%type
| CUpdateStatus (r : R) : CtlE R (error + R)%type
| CConfigMap (desired : ConfigMap) (mutate : mutate_fn ConfigMap) : CtlE R (upserted ConfigMap)
| CDeployment (desired : Deployment_) (mutate : mutate_fn Deployment_) : CtlE R (upserted Deployment_)
| CService (desired : Service_) (mutate : mutate_fn Service_) : CtlE R (upserted Service_)
| CServiceAccount (desired : ServiceAccount) (mutate : mutate_fn ServiceAccount)
    : CtlE R (upserted ServiceAccount)
| CClusterRole (desired : ClusterRole) (mutate : mutate_fn ClusterRole)
    : CtlE R (upserted ClusterRole)
| CClusterRoleBinding (desired : ClusterRoleBinding) (mutate : mutate_fn ClusterRoleBinding)
    : CtlE R (upserted ClusterRoleBinding)
| CGetDeploymentStatus (ns name : string) : CtlE R (error + DeploymentStatus)%type
| CGetService (ns name : string) : CtlE R (error + ObjectMeta)%type
| CNow : CtlE R Z
| CHTTPGet (url : string) : CtlE R (error + string)%type.
Arguments CGet {R} ns name.
Arguments CUpdate {R} r.
Arguments CUpdateStatus {R} r.
Arguments CConfigMap {R} desired mutate.
Arguments CDeployment {R} desired mutate.
Arguments CService {R} desired mutate.
Arguments CServiceAccount {R} desired mutate.
Arguments CClusterRole {R} desired mutate.
Arguments CClusterRoleBinding {R} desired mutate.
Arguments CGetDeploymentStatus {R} ns name.
Arguments CGetService {R} ns name.
Arguments CNow {R}.
Arguments CHTTPGet {R} url.

#[export] Instance ctl_calls {R} : ResourceCalls (CtlE R) R := {
  Get_ := CGet;
  Update_ := CUpdate;
  UpdateStatus_ := CUpdateStatus
}.

Definition ctl_update {R} X (e : CtlE R X) : option R :=
  match e with CUpdate r => Some r | _ => None end.

#[export] Instance ctl_update_view {R} : UpdateView (CtlE R) R.
Proof. by exists ctl_update. Defined.

(** The answer of a fetch. *)
Definition fetched {R} (ev : event (CtlE R)) : option (error + R) :=
  match ev with
  | Ev e x =>
      match e in CtlE _ X return X -> option (error + R) with
      | CGet _ _ => Some
      | _ => fun _ => None
      end x
  end.

(** The answer of the clock. *)
Definition clock {R} (ev : event (CtlE R)) : option Z :=
  match ev with
  | Ev e x => match e in CtlE _ X return X -> option Z with CNow => Some | _ => fun _ => None end x
  end.

Lemma fetched_inj {R} ns name (x y : error + R) tr tr' :
  Ev (CGet ns name) x :: tr = Ev (CGet ns name) y :: tr' -> x = y /\ tr = tr'.
Proof.
  intros E. split; [| by injection E].
  by apply (f_equal (fun tr => match tr with ev :: _ => fetched ev | [] => None end)) in E as [= ->].
Qed.

(** ** CreateOrUpdate *)

(** A call of [CreateOrUpdate]; a panic of the closure is one of the caller. *)
Definition upsert {R A} (e : CtlE R (upserted A)) : prog (CtlE R) (error + A) :=
  let* answer := call e in
  let* r := lift answer in
  match r with
  | inl err => Ret (inl err)
  | inr (_, object) => Ret (inr object)
  end.

(** The server creates and updates as asked: the closure ran on the desired
    object or on a stored one, which is [found]. *)
Definition upsert_answer {A} (found : A -> Prop) (desired : A) (mutate : mutate_fn A)
    (answer : upserted A) : Prop :=
  exists x, (x = desired \/ found x) /\
    match answer with
    | Panics why => mutate x = Panics why
    | Done (inl _) => True
    | Done (inr (_, object)) => mutate x = Done (inr object)
    end.

(** Stored config maps have data. *)
Definition upserting {R} : assumption (CtlE R) := fun X e =>
  match e in CtlE _ X return X -> Prop with
  | CConfigMap d m => upsert_answer (fun cm => is_Some (cm_Data cm)) d m
  | CDeployment d m => upsert_answer (fun _ => True) d m
  | CService d m => upsert_answer (fun _ => True) d m
  | CServiceAccount d m => upsert_answer (fun _ => True) d m
  | CClusterRole d m => upsert_answer (fun _ => True) d m
  | CClusterRoleBinding d m => upsert_answer (fun _ => True) d m
  | _ => fun _ => True
  end.

(** A closure that does not panic on what it may be given. *)
Definition returns {A} (mutate : mutate_fn A) (x : A) : Prop := exists r, mutate x = Done r.

Lemma upsert_answer_returns {A} found (desired : A) mutate answer :
  (forall x, x = desired \/ found x -> returns mutate x) ->
  upsert_answer found desired mutate answer -> exists r, answer = Done r.
Proof.
  intros Hm (x & Hx & Ha). destruct answer as [r|why]; [by exists r |].
  destruct (Hm x Hx) as [r Hr]. congruence.
Qed.

Lemma safe_upsert {R A} (e : CtlE R (upserted A)) :
  (forall answer, upserting _ e answer -> exists r, answer = Done r) -> safe upserting (upsert e).
Proof.
  intros He. unfold upsert. intros tr out (answer & tr' & -> & Hr) [Ha _]%Forall_cons.
  destruct (He answer Ha) as [[err|[result object]] ->]; destruct Hr as [_ ->]; eauto.
Qed.

(** ** What a creation asks for *)

Inductive object_kind :=
| KConfigMap | KDeployment | KService | KServiceAccount | KClusterRole | KClusterRoleBinding.

Definition kind_of {R} (ev : event (CtlE R)) : option object_kind :=
  match ev with
  | Ev e _ =>
      match e with
      | CConfigMap _ _ => Some KConfigMap
      | CDeployment _ _ => Some KDeployment
      | CService _ _ => Some KService
      | CServiceAccount _ _ => Some KServiceAccount
      | CClusterRole _ _ => Some KClusterRole
      | CClusterRoleBinding _ _ => Some KClusterRoleBinding
      | _ => None
      end
  end.

Definition upserted_error {A} (answer : upserted A) : option error :=
  match answer with Done (inl err) => Some err | _ => None end.

(** The error of a creation. *)
Definition creation_error {R} (ev : event (CtlE R)) : option error :=
  match ev with
  | Ev e x =>
      match e in CtlE _ X return X -> option error with
      | CConfigMap _ _ => upserted_error
      | CDeployment _ _ => upserted_error
      | CService _ _ => upserted_error
      | CServiceAccount _ _ => upserted_error
      | CClusterRole _ _ => upserted_error
      | CClusterRoleBinding _ _ => upserted_error
      | _ => fun _ => None
      end x
  end.

(** A closure that finds its own result changes nothing.  (The server may have
    filled in more than the closure wrote.) *)
Definition settled {A} (mutate : mutate_fn A) : Prop :=
  forall x y, mutate x = Done (inr y) -> mutate y = Done (inr y).

Definition settles {R} (ev : event (CtlE R)) : Prop :=
  match ev with
  | Ev e _ =>
      match e with
      | CConfigMap _ m => settled m
      | CDeployment _ m => settled m
      | CService _ m => settled m
      | CServiceAccount _ m => settled m
      | CClusterRole _ m => settled m
      | CClusterRoleBinding _ m => settled m
      | _ => True
      end
  end.

(** A closure that writes the same fields whatever it finds. *)
Lemma settled_overwrite {A} (f : A -> A) :
  (forall x, f (f x) = f x) -> settled (fun x => Done (inr (f x))).
Proof. intros H x y E. injection E as <-. by rewrite H. Qed.

Lemma settled_id {A} : settled (fun x : A => Done (inr x)).
Proof. by apply (settled_overwrite id). Qed.

Lemma only_upsert {R A} (P : event (CtlE R) -> Prop) (e : CtlE R (upserted A)) :
  (forall x, P (Ev e x)) -> only P (upsert e).
Proof.
  intros H. unfold upsert. apply only_bind; [by apply only_call |].
  intros answer. apply only_bind; [apply only_lift |]. intros [err|[r o]]; apply only_Ret.
Qed.

(** One creation, and what the caller learns from it. *)
Lemma runs_upsert {R A} (e : CtlE R (upserted A)) tr r :
  runs (upsert e) tr (Done r) ->
  exists answer, tr = [Ev e answer] /\
    match r with
    | inl err => answer = Done (inl err)
    | inr object => exists result, answer = Done (inr (result, object))
    end.
Proof.
  unfold upsert. cbn. intros (answer & tr' & -> & Hr).
  destruct answer as [[err|[result object]]|why]; cbn in Hr; destruct Hr as [-> Hr]; simplify_eq; eauto.
Qed.

(** ** A sequence of creations *)

(** An error is reported, or the last call met a conflict and the operation asks
    for a requeue. *)
Definition failed_outcome {R} (tr : list (event (CtlE R))) (res : with_error OperationResult) : Prop :=
  (exists err, res.2 = Some err)
  \/ (res = Requeue /\ exists tr' ev err,
        tr = tr' ++ [ev] /\ creation_error ev = Some err /\ IsConflict err = true).

Lemma failed_outcome_app {R} (tr tr' : list (event (CtlE R))) res :
  failed_outcome tr' res -> failed_outcome (tr ++ tr') res.
Proof.
  intros [H|(-> & tr1 & ev & err & -> & H)]; [by left | right]. split; [done |].
  exists (tr ++ tr1), ev, err. by rewrite app_assoc.
Qed.

(** [ok] says which answers count as a success. *)
Section Sequence.
Context {R : Type} (ok : event (CtlE R) -> Prop).

(** The calls are creations of these kinds in this order, and each one that is
    followed by another succeeded. *)
Fixpoint in_order_ok (kinds : list object_kind) (tr : list (event (CtlE R))) : Prop :=
  match kinds, tr with
  | _, [] => True
  | [], _ :: _ => False
  | k :: kinds, ev :: tr => kind_of ev = Some k /\ (tr <> [] -> ok ev) /\ in_order_ok kinds tr
  end.

(** The operation leaves the resource alone and goes on exactly when every object
    was created; otherwise it reports why not. *)
Definition synchronises_ok (kinds : list object_kind) (c : R)
    (p : prog (CtlE R) (R * with_error OperationResult)) : Prop :=
  forall tr c' res, runs p tr (Done (c', res)) ->
    c' = c /\ in_order_ok kinds tr
    /\ (res = ContinueProcessing <-> map kind_of tr = map Some kinds /\ Forall ok tr)
    /\ (res = ContinueProcessing \/ failed_outcome tr res).

(** One creation at most; without an error it was made and succeeded. *)
Definition creates_ok {A} (k : object_kind) (failed : A -> option error) (p : prog (CtlE R) A) : Prop :=
  forall tr a, runs p tr (Done a) ->
    (tr = [] /\ is_Some (failed a))
    \/ exists ev, tr = [ev] /\ kind_of ev = Some k /\ (failed a = None -> ok ev).

(** A creation whose error is that of the answer. *)
Definition refuses_ok {A} (failed : A -> option error) (p : prog (CtlE R) A) : Prop :=
  forall a ev, runs p [ev] (Done a) -> ok ev -> failed a = None.

(** A creation that always makes its call, and fails exactly with it. *)
Definition mirrors_ok {A} (k : object_kind) (failed : A -> option error) (p : prog (CtlE R) A) : Prop :=
  forall tr a, runs p tr (Done a) ->
    exists ev, tr = [ev] /\ kind_of ev = Some k /\ (failed a = None <-> ok ev).

(** The operation stops only at a call that failed. *)
Definition stops_ok (p : prog (CtlE R) (R * with_error OperationResult)) : Prop :=
  forall tr c' res, runs p tr (Done (c', res)) ->
    res = ContinueProcessing \/ exists tr' ev, tr = tr' ++ [ev] /\ ~ ok ev.

Lemma mirrors_creates {A} k failed (p : prog (CtlE R) A) : mirrors_ok k failed p -> creates_ok k failed p.
Proof. intros H tr a (ev & -> & Hk & Hf)%H. right. exists ev. by rewrite Hf. Qed.

Lemma mirrors_refuses {A} k failed (p : prog (CtlE R) A) : mirrors_ok k failed p -> refuses_ok failed p.
Proof. intros H a ev (ev' & [= <-] & _ & Hf)%H. by rewrite Hf. Qed.

Lemma stops_then {A} k (c : R) failed (p : prog (CtlE R) A) f :
  mirrors_ok k failed p -> (forall a, failed a = None -> stops_ok (f a)) ->
  (forall a, is_Some (failed a) -> exists res, f a = Ret (c, res)) ->
  stops_ok (prog_bind p f).
Proof.
  intros Hp Hok Hfail tr c' res. rewrite runs_bind.
  intros [(a & tr1 & tr2 & -> & H1 & H2)|(why & [=] & _)].
  destruct (Hp _ _ H1) as (ev & -> & _ & Hf). destruct (failed a) as [err|] eqn:Ef.
  - destruct (Hfail a) as [res' E]; [by rewrite Ef; eexists |]. rewrite E in H2. destruct H2 as [-> _].
    right. exists [], ev. split; [done |]. by intros Ho%Hf.
  - destruct (Hok a Ef _ _ _ H2) as [->|(tr' & ev' & -> & Hn)]; [by left |].
    right. by exists (ev :: tr'), ev'.
Qed.

Lemma stops_done (c : R) : stops_ok (Ret (c, ContinueProcessing)).
Proof. intros tr c' res [_ [= _ ->]]. by left. Qed.

Lemma synchronises_done (c : R) : synchronises_ok [] c (Ret (c, ContinueProcessing)).
Proof. intros tr c' res [-> [= -> ->]]. split_and!; [done | done | | by left]. by split. Qed.

Lemma failed_not_continue (tr : list (event (CtlE R))) res :
  failed_outcome tr res -> res <> ContinueProcessing.
Proof. intros [[err He]|[-> _]]; [by intros -> | discriminate]. Qed.

Lemma creates_then {A} k kinds (c : R) failed (p : prog (CtlE R) A) f :
  creates_ok k failed p ->
  (forall tr a err, runs p tr (Done a) -> failed a = Some err ->
     exists res, f a = Ret (c, res) /\ failed_outcome tr res) ->
  (forall a, failed a = None -> synchronises_ok kinds c (f a)) ->
  (kinds = [] -> refuses_ok failed p) ->
  synchronises_ok (k :: kinds) c (prog_bind p f).
Proof.
  intros Hp Hfail Hok Hlast tr c' res. rewrite runs_bind.
  intros [(a & tr1 & tr2 & -> & H1 & H2)|(why & [=] & _)].
  destruct (failed a) as [err|] eqn:Ef.
  - destruct (Hfail _ _ _ H1 Ef) as (res' & E & Ho). rewrite E in H2. destruct H2 as [-> [= -> ->]].
    rewrite app_nil_r. split; [done |]. split; [| split; [| by right]].
    + destruct (Hp _ _ H1) as [[-> _]|(ev & -> & Hk & _)]; [done |].
      simpl. split; [done |]. by destruct kinds.
    + split; [by intros ?%(failed_not_continue _ _ Ho) |]. intros [Hm Hf].
      destruct tr1 as [|ev [|? ?]]; [done | |].
      * destruct kinds; [| done]. apply Forall_cons in Hf as [Hf _].
        by rewrite (Hlast eq_refl a ev H1 Hf) in Ef.
      * destruct (Hp _ _ H1) as [[? _]|(? & [=] & _)]; done.
  - destruct (Hp _ _ H1) as [[_ [x Hx]]|(ev & -> & Hk & He)]; [congruence |].
    destruct (Hok _ Ef _ _ _ H2) as (-> & Ho & Hc & Hr). specialize (He Ef).
    split; [done |]. split; [by split |]. split.
    + rewrite Hc. simpl. rewrite Hk, Forall_cons. split; [by intros [-> ?] |]. by intros [[= ?] [_ ?]].
    + destruct Hr as [->|Hr]; [by left | right]. by apply failed_outcome_app.
Qed.

(** The usual case: the first error is reported. *)
Lemma creates_then_report {A} k kinds (c : R) failed (p : prog (CtlE R) A) f :
  creates_ok k failed p ->
  (forall a err, failed a = Some err -> exists result, f a = Ret (c, (result, Some err))) ->
  (forall a, failed a = None -> synchronises_ok kinds c (f a)) ->
  (kinds = [] -> refuses_ok failed p) ->
  synchronises_ok (k :: kinds) c (prog_bind p f).
Proof.
  intros Hp Hfail Hok Hlast. apply creates_then with failed; [done | | done | done].
  intros tr a err _ Ef. destruct (Hfail _ _ Ef) as [result E]. exists (result, Some err).
  split; [done |]. left. by exists err.
Qed.
End Sequence.

(** Mostly an answer without an error. *)
Definition succeeded {R} (ev : event (CtlE R)) : Prop := creation_error ev = None.

Abbreviation in_order := (in_order_ok succeeded).
Abbreviation synchronises := (synchronises_ok succeeded).
Abbreviation creates := (creates_ok succeeded).
Abbreviation refuses := (refuses_ok succeeded).

(** Executes a program of one creation. *)
Ltac solve_creates :=
  repeat match goal with
  | |- creates_ok _ _ _ (match ?x with _ => _ end) => destruct x
  end;
  intros tr a; cbn -[upsert];
  first
    [ intros [-> [= ->]]; left; by eauto
    | rewrite runs_bind;
      let x := fresh "x" in let Hr := fresh "Hr" in let Ha := fresh "Ha" in
      intros [(x & ? & ? & -> & (? & -> & Ha)%runs_upsert & Hr)|(? & [=] & _)];
      right; eexists; split; [by destruct x; destruct Hr as [-> _] |]; split; [done |];
      destruct x; destruct Hr as [_ [= ->]]; [done |]; intros _; destruct Ha as [? ->]; done ].

(** The same for [refuses]. *)
Ltac solve_refuses :=
  let a := fresh "a" in let ev := fresh "ev" in let Hr := fresh "Hr" in let Hok := fresh "Hok" in
  intros a ev Hr Hok; cbn -[upsert] in Hr;
  repeat match type of Hr with runs (match ?x with _ => _ end) _ _ => destruct x end;
  first
    [ by destruct Hr as [[=] _]
    | rewrite runs_bind in Hr;
      let x := fresh "x" in let Ha := fresh "Ha" in let E := fresh "E" in
      destruct Hr as [(x & ? & ? & E & (? & -> & Ha)%runs_upsert & Hr)|(? & [=] & _)];
      destruct x; [subst; injection E as -> _; discriminate Hok | by destruct Hr as [_ [= ->]]] ].

(** Walks through one creation: which calls it makes. *)
Ltac one_creation p :=
  unfold p; repeat match goal with
  | |- only _ (upsert _) => apply only_upsert; intros ?; unfold settles
  | |- forall _, only _ _ => intro
  | |- only _ (prog_bind _ _) => apply only_bind
  | |- only _ (match ?x with _ => _ end) => destruct x
  | |- only _ (let '(_, _) := ?x in _) => destruct x
  | |- only _ _ => solve [eauto with only]
  end.

(** The same for [safe], when the closure always returns. *)
Ltac safe_creation p :=
  unfold p; repeat match goal with
  | |- forall _, safe _ _ => intro
  | |- safe _ (upsert _) => apply safe_upsert; intros ?; apply upsert_answer_returns; intros ? _; by eexists
  | |- safe _ (prog_bind _ _) => apply safe_seq
  | |- safe _ (match ?x with _ => _ end) => destruct x
  | |- safe _ (let '(_, _) := ?x in _) => destruct x
  | |- safe _ (Ret _) => apply safe_Ret
  end.

(** ** Shared by the adapters *)

(** A write to [Data], which panics when it is [nil]. *)
Definition set_data (key value : string) (cm : ConfigMap) : go (error + ConfigMap) :=
  match cm_Data cm with
  | None => Panics "assignment to entry in nil map"
  | Some data => Done (inr {| cm_ObjectMeta := cm_ObjectMeta cm; cm_Data := Some (<[key := value]> data) |})
  end.

Lemma set_data_settled key value : settled (set_data key value).
Proof.
  intros x y. unfold set_data. destruct (cm_Data x) as [data|]; [| done].
  intros [= <-]. simpl. by rewrite insert_insert_eq.
Qed.

(** [getConfigMapSHA]: [json.Marshal] and the hexadecimal SHA-256 are
    parameters. *)
Definition getConfigMapSHA (MarshalConfigMap : ConfigMap -> error + string) (Sum256Hex : string -> string)
    (config : ConfigMap) : with_error string :=
  match MarshalConfigMap config with
  | inl err => ("", Some err)
  | inr data => (Sum256Hex data, None)
  end.

Lemma owned_label `{OwningLaws} owner m k v :
  SetControllerReference owner m = inr m ->
  SetControllerReference owner (label_meta m k v) = inr (label_meta m k v).
Proof. intros E. unfold label_meta. by apply owner_labels. Qed.

(** ** Closures that set the owner *)

Section Owned.
Context {A : Type} (get : A -> ObjectMeta) (put : A -> ObjectMeta -> A) `{Owning}.

(** Most closures set the owner's reference on what they find, fail when that
    fails, and then write their fields. *)
Definition owned_mutate (owner : ObjectMeta) (build : A -> A) : mutate_fn A := fun x =>
  match SetControllerReference owner (get x) with
  | inl err => Done (inl err)
  | inr m => Done (inr (build (put x m)))
  end.

Lemma owned_mutate_returns owner build x : returns (owned_mutate owner build) x.
Proof. unfold returns, owned_mutate. destruct (SetControllerReference _ _); by eexists. Qed.

Lemma owned_mutate_inv owner build x y :
  owned_mutate owner build x = Done (inr y) -> exists m, y = build (put x m).
Proof. unfold owned_mutate. destruct (SetControllerReference _ _) as [|m]; [done |]. intros [= <-]. eauto. Qed.

Lemma owned_mutate_settled `{!OwningLaws} owner build :
  (forall x m, get (put x m) = m) -> (forall x, put x (get x) = x) ->
  (forall x, build (build x) = build x) ->
  (forall x, SetControllerReference owner (get x) = inr (get x) ->
     SetControllerReference owner (get (build x)) = inr (get (build x))) ->
  settled (owned_mutate owner build).
Proof.
  intros Hgp Hpg Hb Ho x y. unfold owned_mutate.
  destruct (SetControllerReference _ (get x)) as [err|m] eqn:E; [done |]. intros [= <-].
  assert (Hm : SetControllerReference owner (get (put x m)) = inr (get (put x m))).
  { rewrite Hgp. by eapply owner_twice. }
  by rewrite (Ho _ Hm), Hpg, Hb.
Qed.
End Owned.

Definition with_dep_meta (d : Deployment_) (m : ObjectMeta) : Deployment_ :=
  {| dep_ObjectMeta := m; dep_Replicas := dep_Replicas d; dep_Selector := dep_Selector d;
     dep_TemplateLabels := dep_TemplateLabels d; dep_TemplateAnnotations := dep_TemplateAnnotations d;
     dep_ServiceAccountName := dep_ServiceAccountName d; dep_Containers := dep_Containers d;
     dep_Volumes := dep_Volumes d; dep_Tolerations := dep_Tolerations d |}.

Definition with_svc_meta (s : Service_) (m : ObjectMeta) : Service_ :=
  {| svc_ObjectMeta := m; svc_Selector := svc_Selector s; svc_Ports := svc_Ports s;
     svc_Type := svc_Type s; svc_InternalTrafficPolicy := svc_InternalTrafficPolicy s |}.

Lemma with_dep_meta_same d : with_dep_meta d (dep_ObjectMeta d) = d.
Proof. by destruct d. Qed.

Lemma with_svc_meta_same s : with_svc_meta s (svc_ObjectMeta s) = s.
Proof. by destruct s. Qed.

Abbreviation owned_deployment := (owned_mutate dep_ObjectMeta with_dep_meta).
Abbreviation owned_service := (owned_mutate svc_ObjectMeta with_svc_meta).

Definition service_port (name : string) (port : Z) (target : IntOrString) : ServicePort :=
  {| sp_Name := name; sp_Protocol := "TCP"; sp_AppProtocol := None; sp_Port := port;
     sp_TargetPort := target; sp_NodePort := 0 |}.

(** ** Objects that belong together *)

(** A deployment finds its pods, which the API server demands. *)
Definition selects_own_pods (d : Deployment_) : Prop :=
  gomap (default None (dep_Selector d)) ⊆ gomap (dep_TemplateLabels d).

Definition target_of (p : ServicePort) (cp : ContainerPort) : bool :=
  match sp_TargetPort p with
  | FromString name => bool_decide (ctp_Name cp = name)
  | FromInt32 port => Z.eqb (ctp_Port cp) port
  end.

Definition port_target (d : Deployment_) (p : ServicePort) : Prop :=
  exists ct, ct ∈ dep_Containers d /\ existsb (target_of p) (ct_Ports ct) = true.

(** A service reaches the pods of a deployment: its selector matches their
    labels, and its ports lead to ports of a container. *)
Definition serves (s : Service_) (d : Deployment_) : Prop :=
  gomap (svc_Selector s) ⊆ gomap (dep_TemplateLabels d) /\ Forall (port_target d) (svc_Ports s).

(** The container reads the config map as its configuration file. *)
Definition mounts_config (configMapName : string) (d : Deployment_) : Prop :=
  exists ct v, ct ∈ dep_Containers d /\ v ∈ dep_Volumes d /\ vol_ConfigMap v = configMapName
    /\ {| vm_Name := vol_Name v; vm_MountPath := "/conf/collector.yaml"; vm_SubPath := "collector.yaml" |}
       ∈ ct_VolumeMounts ct.

Lemma set_key_elem m k v k' v' :
  gomap (set_key m k v) !! k' = Some v' <-> (k = k' /\ v = v') \/ (k <> k' /\ gomap m !! k' = Some v').
Proof. apply lookup_insert_Some. Qed.

(** A selector that is empty, or was written before: it has the label [app]
    alone. *)
Definition own_selector (name : string) (selector : option (gmap string string)) : Prop :=
  gomap selector ⊆ {["app" := name]}.

Lemma own_selector_app name selector (labels : gmap string string) :
  own_selector name selector -> labels !! "app" = Some name ->
  gomap (set_key selector "app" name) ⊆ labels.
Proof.
  intros Hs Hl. apply map_subseteq_spec. intros k v Hk. apply set_key_elem in Hk as [[<- <-]|[Hne Hk]]; [done |].
  eapply lookup_weaken in Hk; [| exact Hs]. by apply lookup_singleton_Some in Hk as [<- _].
Qed.

Lemma owned_label_keys `{OwningLaws} owner m l :
  SetControllerReference owner m = inr m ->
  SetControllerReference owner (label_keys m l) = inr (label_keys m l).
Proof.
  intros E. unfold label_keys. revert m E. induction l as [|[k v] l IH]; intros m E; [done |].
  simpl. by apply IH, owned_label.
Qed.

(** ** Walking through a run that returns *)

Tactic Notation "runs_step" hyp(H) "as" ident(x) ident(Hx) :=
  rewrite runs_bind in H;
  let t1 := fresh "tr" in let t2 := fresh "tr" in
  destruct H as [(x & t1 & t2 & -> & Hx & H)|(? & [=] & _)].

Tactic Notation "upsert_step" hyp(H) "as" ident(x) ident(a) ident(Ha) :=
  rewrite runs_bind in H;
  destruct H as [(x & ? & ? & -> & (a & -> & Ha)%runs_upsert & H)|(? & [=] & _)].

Definition otlpGRPCPort : Z := 4317.
Definition otlpHTTPPort : Z := 4318.
Definition promHTTPPort : Z := 8899.
Definition otelMetricsPort : Z := 8888.
Definition observerMetricsPort : Z := 8899.
Definition otlpGRPCName : string := "otlp-grpc".
Definition otlpHTTPName : string := "otlp-http".
Definition promHTTPName : string := "prom-http".
Definition otelMetricsName : string := "otel-metrics".
Definition observerMetricsName : string := "observe-metrics".
Definition LabelAppNameKey : string := "app.kubernetes.io/name".
Definition LabelAppInstanceKey : string := "app.kubernetes.io/instance".
Definition hubNameLabel : string := "mydecisive.ai/hub-name".
Definition HubComponentLabel : string := "mydecisive.ai/hub-component".

(** The hub component of observers, and of the config maps of replays. *)
Definition mdaiObserverHubComponent : string := "mdai-observer".

Definition DefaultSecurityContext : SecurityContext :=
  {| sc_SeccompProfile := "RuntimeDefault"; sc_AllowPrivilegeEscalation := false;
     sc_Drop := ["ALL"]; sc_RunAsNonRoot := true |}.

(** ** For the witnesses: a server without objects, that creates what it is asked *)

Module Sample.
Definition create {A} (desired : A) (mutate : mutate_fn A) : upserted A :=
  match mutate desired with
  | Done (inr object) => Done (inr (OperationResultCreated, object))
  | Done (inl err) => Done (inl err)
  | Panics why => Panics why
  end.

Definition new_cluster {R} X (e : CtlE R X) (stored : R) : X * R :=
  match e in CtlE _ X return X * R with
  | CGet _ _ => (inr stored, stored)
  | CUpdate r => (inr r, r)
  | CUpdateStatus r => (inr r, r)
  | CConfigMap d m => (create d m, stored)
  | CDeployment d m => (create d m, stored)
  | CService d m => (create d m, stored)
  | CServiceAccount d m => (create d m, stored)
  | CClusterRole d m => (create d m, stored)
  | CClusterRoleBinding d m => (create d m, stored)
  | CGetDeploymentStatus _ _ => (inr {| ds_Replicas := 1; ds_ReadyReplicas := 1 |}, stored)
  | CGetService ns name => (inr (named name ns), stored)
  | CNow => (0%Z, stored)
  | CHTTPGet _ => (inr "", stored)
  end.

#[local] Instance OwnerReference_eq_dec : EqDecision OwnerReference.
Proof. solve_decision. Defined.

(** The reference to the owner is added once, and there is one controller. *)
#[export] Instance own : Owning := fun owner m =>
  let ref := {| or_Name := om_Name owner; or_UID := om_UID owner; or_Controller := true |} in
  if bool_decide (ref ∈ om_OwnerReferences m) then inr m
  else if existsb or_Controller (om_OwnerReferences m) then inl (Err "already owned by another controller")
  else inr (with_owners m (om_OwnerReferences m ++ [ref])).

#[export] Instance own_laws : OwningLaws.
Proof.
  constructor; unfold SetControllerReference, own; cbn zeta.
  - intros owner m m'. case_bool_decide as Hin.
    + intros [= <-]. by rewrite bool_decide_eq_true_2.
    + destruct (existsb _ _); [done |]. intros [= <-]. rewrite bool_decide_eq_true_2; [done |].
      apply elem_of_app. right. by left.
  - intros owner m m' l. simpl. case_bool_decide; [by intros [= <-] |].
    destruct (existsb _ _); [done | by intros [= <-]].
  - intros owner m m'. case_bool_decide; [intros [= <-]; by destruct m |].
    destruct (existsb _ _); [done | by intros [= <-]].
  - intros owner m m' E. rewrite E, bool_decide_eq_false_2 by apply not_elem_of_nil. simpl.
    intros [= <-]. by eexists.
Defined.
End Sample.
