(* ===== verification/Cache.v ===== *)
(** * cmd/main.go: the cache of the manager

    The controllers read config maps, services and deployments through a cache
    that holds those with the operator's label ([cacheOptions] of main.go).  An
    object without it is not found, whatever the API server stores.  This file
    says which objects the cache holds, and when a closure of [CreateOrUpdate]
    keeps them there. *)

From S2P Require Import Prelude GoLib ApiTypes Errors Effects K8sObjects Builders Mutate ControllerCalls.

(** The types of [ByObject]; every other type is cached as a whole. *)
Inductive cached_type := CachedConfigMaps | CachedServices | CachedDeployments | CachedWhole.

Definition managed_set : gmap string string := {[LabelManagedByMdaiKey := LabelManagedByMdaiValue]}.

(** [cacheOptions.ByObject]: the labels that an informer selects by. *)
Definition cacheOptions (t : cached_type) : option (gmap string string) :=
  match t with
  | CachedConfigMaps => Some managed_set
  | CachedServices => Some managed_set
  | CachedDeployments => Some managed_set
  | CachedWhole => None
  end.

(** An informer with a set of labels holds the objects that have them all. *)
Definition visible (t : cached_type) (m : ObjectMeta) : Prop :=
  match cacheOptions t with
  | Some set => set ⊆ gomap (om_Labels m)
  | None => True
  end.

#[export] Instance visible_dec t m : Decision (visible t m).
Proof. unfold visible. destruct (cacheOptions t); apply _. Defined.

(** The operator's label. *)
Definition managed (m : ObjectMeta) : Prop :=
  gomap (om_Labels m) !! LabelManagedByMdaiKey = Some LabelManagedByMdaiValue.

(** The informer that an object of the ingress controller is in. *)
Definition object_cache (o : Object) : cached_type :=
  match o with
  | OService _ => CachedServices
  | OConfigMap _ => CachedConfigMaps
  | OIngress _ | OClusterRole _ | OClusterRoleBinding _ => CachedWhole
  end.

Definition visible_object (o : Object) : Prop := visible (object_cache o) (o_meta o).

#[export] Instance visible_object_dec o : Decision (visible_object o).
Proof. unfold visible_object. apply _. Defined.

(** ** Closures *)

(** What the closure makes of the desired object, or of one that the cache has,
    is in the cache. *)
Definition stays_visible {A} (t : cached_type) (meta : A -> ObjectMeta) (desired : A) (mutate : mutate_fn A)
  : Prop :=
  forall x y, x = desired \/ visible t (meta x) -> mutate x = Done (inr y) -> visible t (meta y).

Definition writes_visible {R} (ev : event (CtlE R)) : Prop :=
  match ev with
  | Ev e _ =>
      match e with
      | CConfigMap d m => stays_visible CachedConfigMaps cm_ObjectMeta d m
      | CDeployment d m => stays_visible CachedDeployments dep_ObjectMeta d m
      | CService d m => stays_visible CachedServices svc_ObjectMeta d m
      | _ => True
      end
  end.

(** ** Lemmas *)

Lemma managed_visible t m : managed m -> visible t m.
Proof. intros Hm. by destruct t; [apply map_singleton_subseteq_l .. |]. Qed.

Lemma visible_managed t m : t <> CachedWhole -> visible t m <-> managed m.
Proof. intros Ht. by destruct t; [apply map_singleton_subseteq_l .. |]. Qed.

Lemma managed_labels m l : managed (with_labels m (Some l)) <-> l !! LabelManagedByMdaiKey = Some LabelManagedByMdaiValue.
Proof. done. Qed.

Lemma managed_label_keys m l :
  NoDup (map fst l) -> (LabelManagedByMdaiKey, LabelManagedByMdaiValue) ∈ l -> managed (label_keys m l).
Proof. intros Hd Hl. unfold managed. rewrite label_keys_labels. by apply set_keys_elem. Qed.

Lemma managed_label_other m k v : k <> LabelManagedByMdaiKey -> managed m -> managed (label_meta m k v).
Proof. intros Hk Hm. unfold managed. by apply set_key_elem; right. Qed.

Lemma managed_owned `{OwningLaws} owner m m' :
  SetControllerReference owner m = inr m' -> managed m -> managed m'.
Proof. intros ->%owner_only Hm. exact Hm. Qed.

(** A closure that writes the label, and one that keeps it. *)
Lemma stays_labelled {A} t (meta : A -> ObjectMeta) desired mutate :
  (forall x y, mutate x = Done (inr y) -> managed (meta y)) -> stays_visible t meta desired mutate.
Proof. intros H x y _ Hy. by eapply managed_visible, H. Qed.

Lemma stays_kept {A} t (meta : A -> ObjectMeta) desired mutate :
  t <> CachedWhole -> managed (meta desired) ->
  (forall x y, managed (meta x) -> mutate x = Done (inr y) -> managed (meta y)) ->
  stays_visible t meta desired mutate.
Proof.
  intros Ht Hd H x y Hx Hy. rewrite visible_managed in * by done.
  apply (H x y); [| done]. by destruct Hx as [-> |].
Qed.

Lemma set_data_kept key value cm cm' :
  managed (cm_ObjectMeta cm) -> set_data key value cm = Done (inr cm') -> managed (cm_ObjectMeta cm').
Proof. unfold set_data. destruct (cm_Data cm); [| done]. by intros Hm [= <-]. Qed.

(** The closure finds the label, or what the caller asked for. *)
Lemma owned_stays {A} t (get : A -> ObjectMeta) put `{OwningLaws} owner build desired :
  t <> CachedWhole -> (forall x m, get (put x m) = m) ->
  (forall x, managed (get x) \/ om_Labels (get x) = om_Labels (get desired) -> managed (get (build x))) ->
  stays_visible t get desired (owned_mutate get put owner build).
Proof.
  intros Ht Hgp Hb x y Hx. unfold owned_mutate.
  destruct (SetControllerReference _ _) as [err|m] eqn:E; [done |]. intros [= <-].
  apply managed_visible, Hb. rewrite Hgp. destruct Hx as [->|Hx].
  - right. by rewrite (owner_only _ _ _ E).
  - left. apply visible_managed in Hx; [| done]. by eapply managed_owned.
Qed.

Lemma owned_kept {A} t (get : A -> ObjectMeta) put `{OwningLaws} owner build desired :
  t <> CachedWhole -> (forall x m, get (put x m) = m) -> managed (get desired) ->
  (forall x, managed (get x) -> managed (get (build x))) ->
  stays_visible t get desired (owned_mutate get put owner build).
Proof.
  intros Ht Hgp Hd Hb. apply owned_stays; [done | done | done |]. intros x [Hx|Hx]; apply Hb; [done |].
  unfold managed. by rewrite Hx.
Qed.

Lemma owned_labelled {A} t (get : A -> ObjectMeta) put `{Owning} owner build desired :
  (forall x, managed (get (build x))) -> stays_visible t get desired (owned_mutate get put owner build).
Proof. intros Hb. apply stays_labelled. by intros x y [m ->]%owned_mutate_inv. Qed.
