(* ===== verification/IngressController.v ===== *)
(** * internal/controller: the ingress controller

    mdaiingress_controller.go with the generic part of common.go: what is
    created or updated for an ingress, what is pruned, which events and which
    collectors trigger it.  One event type holds the calls to the API server;
    [retry.RetryOnConflict] around [ctrl.CreateOrUpdate] is one call. *)

From S2P Require Import Prelude GoLib ApiTypes Errors Components Registry Effects Reconcile.
From S2P Require Import K8sObjects Manifests Mutate IngressManifest ControllerCalls.

Definition resourceOwnerKey : string := "metadata.ownerReferences.name".
Definition MdaiIngressOtelColLookupKey : string := "spec.otelCol.lookupKey".
Definition ErrIncorrectOtelcolRef : error := Err "incorrect Otelcol reference".

(** The index of ingresses by the collector they name. *)
Definition IndexerOtelCol (a : MdaiIngress) : list string :=
  let name := ocr_Name (ing_OtelCollector (mi_Spec a)) in
  if negb (bool_decide (name = "")) then [name] else [].

(** The indexes of services and ingresses by owner name: the first owner of a
    service, every owner of an ingress. *)
Definition service_owner_index (s : Service_) : list string :=
  match om_OwnerReferences (svc_ObjectMeta s) with
  | [] => []
  | owner :: _ => [or_Name owner]
  end.

Definition ingress_owner_index (i : Ingress_) : list string :=
  map or_Name (om_OwnerReferences (ig_ObjectMeta i)).

(** The resource types that the controller can own. *)
Inductive OwnedType := OwnedService | OwnedIngress.

Definition GetOwnedResourceTypes : list OwnedType := [OwnedService; OwnedIngress].

Definition list_error (t : OwnedType) : string :=
  match t with
  | OwnedService => "error listing *v1.Service: "
  | OwnedIngress => "error listing *v1.Ingress: "
  end.

Definition o_UID (o : Object) : string := om_UID (o_meta o).

(** ** Calls *)

(** [IApply desired mutate]: the object afterwards and the error.  [IList] is a
    list in a namespace with a value of the owner index. *)
Inductive IngE (Cfg : Type) : Type -> Type :=
| IGetIngress (ns name : string) : IngE Cfg (error + MdaiIngress)%type
| IGetOtelcol (ns name : string) : IngE Cfg (error + OtelCollector Cfg)%type
| IListIngresses (ns otelcol : string) : IngE Cfg (error + list MdaiIngress)%type
| IList (t : OwnedType) (ns owner : string) : IngE Cfg (error + list Object)%type
| IApply (desired : Object) (mutate : Object -> error + Object) : IngE Cfg (Object * option error)%type
| IDelete (o : Object) : IngE Cfg (option error).
Arguments IGetIngress {Cfg} ns name.
Arguments IGetOtelcol {Cfg} ns name.
Arguments IListIngresses {Cfg} ns otelcol.
Arguments IList {Cfg} t ns owner.
Arguments IApply {Cfg} desired mutate.
Arguments IDelete {Cfg} o.

(** A watch event; [None] is an object of another type. *)
Inductive watched (A : Type) : Type :=
| WCreate (o : option A)
| WUpdate (old new : option A)
| WDelete (o : option A)
| WGeneric (o : option A).
Arguments WCreate {A} o.
Arguments WUpdate {A} old new.
Arguments WDelete {A} o.
Arguments WGeneric {A} o.

Section IngressController.
Context {Cfg Any : Type} `{OtelConfig Cfg Any} `{Configs Any} `{GoRange} `{GoSort} `{Mergo} `{Owning}.
Context (IntValue : IntOrString -> Z) (lower : Z -> Z) (Compile : string -> option (string -> bool)).

Abbreviation ing_prog A := (prog (IngE Cfg) A).

(** ** common.go *)

(** Objects by UID: a later one with the same UID replaces an earlier one. *)
Definition by_uid (objs : list Object) (m : gmap string Object) : gmap string Object :=
  fold_left (fun m o => <[o_UID o := o]> m) objs m.

Definition getList (t : OwnedType) (ns owner : string) : ing_prog (error + gmap string Object) :=
  let* answer := call (IList t ns owner) in
  match answer with
  | inl err => Ret (inl (ErrWrap (list_error t) err))
  | inr objs => Ret (inr (by_uid objs ∅))
  end.

Definition isNamespaceScoped (o : Object) : bool :=
  match o with
  | OClusterRole _ | OClusterRoleBinding _ => false
  | _ => true
  end.

(** The loop over the desired objects: the errors so far and the owned objects
    not yet seen; the second component is an error to return at once. *)
Fixpoint apply_desired (owner : ObjectMeta) (desiredObjects : list Object) (errs : list error)
    (ownedObjects : gmap string Object)
  : ing_prog (list error * gmap string Object * option error) :=
  match desiredObjects with
  | [] => Ret (errs, ownedObjects, None)
  | desired :: rest =>
      let owned := if isNamespaceScoped desired
                   then match SetControllerReference owner (o_meta desired) with
                        | inl err => inl err
                        | inr m => inr (o_with_meta desired m)
                        end
                   else inr desired in
      match owned with
      | inl setErr => apply_desired owner rest (errs ++ [setErr]) ownedObjects
      | inr desired =>
          let* (existing, crudErr) := call (IApply desired (MutateFuncFor desired)) in
          match crudErr with
          | Some crudErr =>
              if IsImmutableFieldChange crudErr then
                let* delErr := call (IDelete existing) in
                match delErr with
                | Some delErr => Ret (errs, ownedObjects, Some delErr)
                | None => apply_desired owner rest errs ownedObjects
                end
              else apply_desired owner rest (errs ++ [crudErr]) ownedObjects
          | None => apply_desired owner rest errs (delete (o_UID existing) ownedObjects)
          end
      end
  end.

(** The loop of [deleteObjects]. *)
Fixpoint delete_each (objects : list (string * Object)) : ing_prog (list error) :=
  match objects with
  | [] => Ret []
  | (_, obj) :: objects =>
      let* err := call (IDelete obj) in
      let* pruneErrs := delete_each objects in
      Ret (match err with Some err => err :: pruneErrs | None => pruneErrs end)
  end.

(** [errors.Join] of no errors is [nil]. *)
Definition errors_Join (errs : list error) : option error :=
  match errs with [] => None | _ => Some (ErrJoin errs) end.

Definition deleteObjects (objects : gmap string Object) : ing_prog (option error) :=
  let* pruneErrs := delete_each (range_map objects) in Ret (errors_Join pruneErrs).

Definition reconcileDesiredObjects (owner : ObjectMeta) (desiredObjects : list Object)
    (ownedObjects : gmap string Object) : ing_prog (option error) :=
  let* (errs, ownedObjects, failed) := apply_desired owner desiredObjects [] ownedObjects in
  match failed with
  | Some delErr => Ret (Some delErr)
  | None =>
      if 0 <? length errs
      then Ret (Some (ErrWrap ("failed to create objects for " +:+ om_Name owner +:+ ": ") (ErrJoin errs)))
      else
        let* err := deleteObjects ownedObjects in
        match err with
        | Some err => Ret (Some (ErrWrap ("failed to prune objects for " +:+ om_Name owner +:+ ": ") err))
        | None => Ret None
        end
  end.

(** ** mdaiingress_controller.go *)

Fixpoint find_owned (types : list OwnedType) (ns owner : string) (ownedObjects : gmap string Object)
  : ing_prog (error + gmap string Object) :=
  match types with
  | [] => Ret (inr ownedObjects)
  | t :: types =>
      let* objs := getList t ns owner in
      match objs with
      | inl err => Ret (inl err)
      | inr objs => find_owned types ns owner (objs ∪ ownedObjects)
      end
  end.

Definition findMdaiIngressOwnedObjects (params : OtelMdaiIngressComb Cfg)
  : ing_prog (error + gmap string Object) :=
  let m := mi_ObjectMeta (comb_MdaiIngress params) in
  find_owned GetOwnedResourceTypes (om_Namespace m) (om_Name m) ∅.

(** The only builder is [collector.Build]. *)
Definition BuildCollector (params : OtelMdaiIngressComb Cfg) (regs : registries)
  : registries * go (error + list Object) := Build IntValue lower Compile params regs.

(** The zero value of a collector, left by a fetch that found none. *)
Definition no_collector (zero : Cfg) : OtelCollector Cfg :=
  {| oc_ObjectMeta := named "" ""; oc_Image := ""; oc_Mode := "";
     oc_Ingress := {| oi_Type := ""; oi_RuleType := ""; oi_TLS := []; oi_IngressClassName := None |};
     oc_Ports := []; oc_Config := zero |}.

(** The registries are the process's own; a reconcile returns them as it leaves
    them. *)
Definition Reconcile (zero : Cfg) (namespace name : string) (regs : registries)
  : ing_prog (registries * with_error ctrl_Result) :=
  let* answer := call (IGetIngress namespace name) in
  match answer with
  | inl err => Ret (regs, (done_Result, IgnoreNotFound err))
  | inr instanceMdaiIngress =>
      let otelcolName := ocr_Name (ing_OtelCollector (mi_Spec instanceMdaiIngress)) in
      if bool_decide (otelcolName = "") then Ret (regs, (done_Result, Some ErrIncorrectOtelcolRef))
      else
        let* answer := call (IGetOtelcol namespace otelcolName) in
        let fetched := match answer with
                       | inr instanceOtel => inr instanceOtel
                       | inl err => if negb (IsNotFound err) then inl (IgnoreNotFound err)
                                    else inr (no_collector zero)
                       end in
        match fetched with
        | inl err => Ret (regs, (done_Result, err))
        | inr instanceOtel =>
            let params := NewOtelIngressConfig instanceOtel instanceMdaiIngress in
            let '(regs, built) := BuildCollector params regs in
            let* built := lift built in
            match built with
            | inl buildErr => Ret (regs, (done_Result, Some buildErr))
            | inr desiredObjects =>
                let* ownedObjects := findMdaiIngressOwnedObjects params in
                match ownedObjects with
                | inl err => Ret (regs, (done_Result, Some err))
                | inr ownedObjects =>
                    let* err := reconcileDesiredObjects (mi_ObjectMeta instanceMdaiIngress)
                                  desiredObjects ownedObjects in
                    match err with
                    | Some err => Ret (regs, (done_Result, Some err))
                    | None => Ret (regs, (done_Result, None))
                    end
                end
            end
        end
  end.

(** *** Triggers *)

Definition otelColExists (name namespace : string) : ing_prog bool :=
  let* answer := call (IGetOtelcol namespace name) in
  match answer with inl _ => Ret false | inr _ => Ret true end.

(** The name of the first ingress that the index has for the collector. *)
Definition findMdaiIngress (name namespace : string) : ing_prog (string * bool) :=
  let* answer := call (IListIngresses namespace name) in
  match answer with
  | inl _ => Ret ("", false)
  | inr [] => Ret ("", false)
  | inr (item :: _) => Ret (om_Name (mi_ObjectMeta item), true)
  end.

(** The namespace and the name of each request. *)
Definition requeueByCollectorRef (cr : option (OtelCollector Cfg)) : ing_prog (list (string * string)) :=
  match cr with
  | None => Ret []
  | Some cr =>
      let m := oc_ObjectMeta cr in
      let* (mdaiIngressName, found) := findMdaiIngress (om_Name m) (om_Namespace m) in
      if negb (found : bool) then Ret []
      else Ret [(om_Namespace m, mdaiIngressName)]
  end.

Definition collector_exists (cr : MdaiIngress) : ing_prog bool :=
  otelColExists (ocr_Name (ing_OtelCollector (mi_Spec cr))) (om_Namespace (mi_ObjectMeta cr)).

(** [reflect.DeepEqual] on specs is equality. *)
Definition mdaiIngressPredicates (e : watched MdaiIngress) : ing_prog bool :=
  match e with
  | WCreate None => Ret false
  | WCreate (Some cr) => collector_exists cr
  | WUpdate (Some oldCr) (Some newCr) =>
      if bool_decide (mi_Spec oldCr = mi_Spec newCr) then Ret false
      else
        let* found := collector_exists newCr in
        if (found : bool) then Ret true else collector_exists oldCr
  | WUpdate _ _ => Ret false
  | WDelete _ => Ret false
  | WGeneric _ => Ret false
  end.

(** The configurations are the OpenTelemetry operator's: their comparison is a
    parameter. *)
Definition otelcolPredicates (DeepEqual : Cfg -> Cfg -> bool) (e : watched (OtelCollector Cfg)) : bool :=
  match e with
  | WUpdate (Some oldCR) (Some newCR) => negb (DeepEqual (oc_Config oldCR) (oc_Config newCR))
  | WUpdate _ _ => false
  | WCreate _ => true
  | WDelete _ => true
  | WGeneric _ => false
  end.
End IngressController.

(** ** Specification *)

Definition deleted {Cfg} (tr : list (event (IngE Cfg))) : list Object :=
  omap (fun ev => match ev with Ev (IDelete o) _ => Some o | _ => None end) tr.

(** The error of a deletion. *)
Definition deletion_error {Cfg} (ev : event (IngE Cfg)) : option error :=
  match ev with
  | Ev e x => match e in IngE _ X return X -> option error with
              | IDelete _ => fun err => err
              | _ => fun _ => None
              end x
  end.

(** The UID of an object that was created or updated. *)
Definition applied_uid {Cfg} (ev : event (IngE Cfg)) : option string :=
  match ev with
  | Ev e x => match e in IngE _ X return X -> option string with
              | IApply _ _ => fun '(existing, err) => match err with None => Some (o_UID existing) | Some _ => None end
              | _ => fun _ => None
              end x
  end.

Definition applied {Cfg} (tr : list (event (IngE Cfg))) : list string := omap applied_uid tr.

(** The errors of the server are not the operator's own error of a changed
    immutable field, which no closure returns. *)
Definition server_errors {Cfg} : assumption (IngE Cfg) := fun X e =>
  match e in IngE _ X return X -> Prop with
  | IApply _ _ => fun '(_, err) =>
      match err with Some err => IsImmutableFieldChange err = false | None => True end
  | _ => fun _ => True
  end.

#[export] Instance server_errors_dec {Cfg} (ev : event (IngE Cfg)) : Decision (allowed server_errors ev).
Proof. destruct ev as [X [] x]; cbn; [.. | destruct x as [_ []] |]; apply _. Defined.

(** What is left to prune. *)
Definition unseen (uids : list string) (owned : gmap string Object) : gmap string Object :=
  filter (fun p => p.1 ∉ uids) owned.

(** ** Lemmas *)

Lemma unseen_nil owned : unseen [] owned = owned.
Proof. unfold unseen. apply map_filter_id. intros k o _. simpl. apply not_elem_of_nil. Qed.

Lemma unseen_delete uid uids owned : unseen uids (delete uid owned) = unseen (uid :: uids) owned.
Proof.
  unfold unseen. apply map_eq. intros k. apply option_eq. intros o.
  rewrite !map_lookup_filter_Some, lookup_delete_Some. cbn [fst].
  rewrite not_elem_of_cons. naive_solver.
Qed.

Section Prune.
Context {Cfg : Type} `{GoRange} `{Mergo} `{Owning}.

Lemma apply_desired_runs owner ds errs owned tr out :
  runs (apply_desired (Cfg:=Cfg) owner ds errs owned) tr out -> Forall (allowed server_errors) tr ->
  exists es, out = Done (errs ++ es, unseen (applied tr) owned, None) /\ deleted tr = []
    /\ length es + length (applied tr) = length ds.
Proof.
  revert errs owned tr. induction ds as [|d ds IH]; intros errs owned tr; cbn [apply_desired].
  { intros [-> ->] _. exists []. by rewrite app_nil_r, unseen_nil. }
  destruct (if isNamespaceScoped d then _ else _) as [setErr|d'].
  { intros Hr Ha. destruct (IH _ _ _ Hr Ha) as (es & -> & Hd & Hl).
    exists (setErr :: es). rewrite <- app_assoc. split_and!; [done | done | simpl; lia]. }
  cbn [prog_bind call runs]. intros ([existing [err|]] & tr' & -> & Hr) [Hx Ha]%Forall_cons;
    cbn [allowed server_errors] in Hx.
  - rewrite Hx in Hr. destruct (IH _ _ _ Hr Ha) as (es & -> & Hd & Hl).
    exists (err :: es). rewrite <- app_assoc. split_and!; [done | done | simpl in *; lia].
  - destruct (IH _ _ _ Hr Ha) as (es & -> & Hd & Hl). exists es. rewrite unseen_delete.
    split_and!; [done | done | simpl in *; lia].
Qed.

Lemma delete_each_runs (l : list (string * Object)) tr out :
  runs (delete_each (Cfg:=Cfg) l) tr out ->
  out = Done (omap deletion_error tr) /\ deleted tr = map snd l /\ applied tr = [].
Proof.
  revert tr out. induction l as [|[uid o] l IH]; intros tr out; cbn [delete_each].
  { by intros [-> ->]. }
  cbn [prog_bind call runs]. intros (err & tr' & -> & Hr). rewrite runs_bind in Hr.
  destruct Hr as [(errs & tr1 & tr2 & -> & Hp & [-> ->])|(why & -> & Hp)];
    destruct (IH _ _ Hp) as ([=] & Hd & Ha). subst. rewrite app_nil_r.
  split_and!; [by destruct err | exact (f_equal (cons o) Hd) | exact Ha].
Qed.

Lemma deleteObjects_runs m tr out :
  runs (deleteObjects (Cfg:=Cfg) m) tr out ->
  out = Done (errors_Join (omap deletion_error tr))
  /\ deleted tr ≡ₚ map snd (map_to_list m) /\ applied tr = [].
Proof.
  unfold deleteObjects. rewrite runs_bind.
  intros [(errs & tr1 & tr2 & -> & Hp & [-> ->])|(why & -> & Hp)];
    destruct (delete_each_runs _ _ _ Hp) as ([=] & Hd & Ha). subst. rewrite app_nil_r.
  split_and!; [done | | done]. rewrite Hd. apply Permutation_map, range_map_perm.
Qed.

Lemma no_deletion_errors (tr : list (event (IngE Cfg))) :
  deleted tr = [] -> Forall (fun ev => deletion_error ev = None) tr.
Proof.
  induction tr as [|[X e x] tr IH]; [constructor |]. destruct e; simpl; intros H'; constructor; try done;
    by apply IH.
Qed.

Lemma errors_Join_None (tr : list (event (IngE Cfg))) :
  errors_Join (omap deletion_error tr) = None <-> Forall (fun ev => deletion_error ev = None) tr.
Proof.
  induction tr as [|ev tr IH]; [by split; constructor |]. rewrite Forall_cons. simpl.
  destruct (deletion_error ev) eqn:E; [split; [done | by intros [? _]] |]. rewrite IH. tauto.
Qed.
End Prune.

(** ** Properties *)

(** C15. What the controller deletes is exactly what it owns and did not just
    create or update, each object once, and it deletes nothing unless every
    desired object is in place: a failed creation is reported and nothing is
    pruned.  The reconcile succeeds exactly when all deletions do. *)
Theorem prunes_exactly {Cfg : Type} `{GoRange} `{Mergo} `{Owning} owner desired owned tr out :
  runs (reconcileDesiredObjects (Cfg:=Cfg) owner desired owned) tr out ->
  Forall (allowed server_errors) tr ->
  exists res, out = Done res
    /\ ((length (applied tr) < length desired /\ deleted tr = [] /\ is_Some res)
        \/ (length (applied tr) = length desired
            /\ deleted tr ≡ₚ map snd (map_to_list (unseen (applied tr) owned))
            /\ (res = None <-> Forall (fun ev => deletion_error ev = None) tr))).
Proof.
  unfold reconcileDesiredObjects. rewrite runs_bind. intros Hr Ha.
  destruct Hr as [(r & tr1 & tr2 & -> & Hp & Hr)|(why & -> & Hp)].
  2: { destruct (apply_desired_runs _ _ _ _ _ _ Hp Ha) as (es & [=] & _). }
  apply Forall_app in Ha as [Ha _].
  destruct (apply_desired_runs _ _ _ _ _ _ Hp Ha) as (es & [= ->] & Hd & Hl). simpl in Hr.
  unfold applied, deleted in *. rewrite !omap_app, Hd. destruct es as [|e es]; simpl in Hr, Hl.
  2: { destruct Hr as [-> ->]. simpl. eexists. split; [done |]. left.
       rewrite app_nil_r. split_and!; [lia | done | by eexists]. }
  rewrite runs_bind in Hr. destruct Hr as [(err & tr3 & tr4 & -> & Hp' & Hr)|(why & -> & Hp')];
    destruct (deleteObjects_runs _ _ _ Hp') as ([=] & Hdel & Happ). subst err.
  assert (Hres : exists res, out = Done res /\ tr4 = []
    /\ (res = None <-> errors_Join (omap deletion_error tr3) = None)).
  { destruct (errors_Join _); destruct Hr as [-> ->]; eexists; by split_and!. }
  destruct Hres as (res & -> & -> & Hres). rewrite app_nil_r.
  unfold applied, deleted in Happ, Hdel. rewrite Happ, app_nil_r.
  exists res. split; [done |]. right. split; [lia |]. split; [done |].
  rewrite Hres, errors_Join_None, Forall_app.
  pose proof (no_deletion_errors _ Hd). tauto.
Qed.

(** ** A DAL and an ingress of the same name *)

Import IngressManifest.Sample Mutate.Sample ControllerCalls.Sample.

(** The service that the DAL controller made: its owner is the DAL, not the
    ingress; it has the operator's label, without which the list would not
    have it. *)
Definition dal_owner : OwnerReference :=
  {| or_Name := "gateway"; or_UID := "uid-of-the-dal"; or_Controller := true |}.

Definition dal_service : Service_ :=
  new_service
    {| om_Name := "gateway"; om_Namespace := "mdai"; om_UID := "uid-of-the-service";
       om_Generation := 0; om_Labels := Some {[LabelManagedByMdaiKey := LabelManagedByMdaiValue]};
       om_Annotations := None; om_Finalizers := [];
       om_OwnerReferences := [dal_owner]; om_DeletionTimestamp := None;
       om_CreationTimestamp := None |}.

(** What the server of the example stores. *)
Definition same_name_server (stored : Service_) X (e : IngE unit X) (st : unit) : X * unit :=
  match e in IngE _ X return X * unit with
  | IGetIngress _ _ => (inr gateway_ingress, st)
  | IGetOtelcol _ _ => (inr gateway, st)
  | IListIngresses _ _ => (inr [gateway_ingress], st)
  | IList OwnedService ns owner =>
      (inr (if bool_decide (owner ∈ service_owner_index stored) then [OService stored] else []), st)
  | IList OwnedIngress _ _ => (inr [], st)
  | IApply desired mutate => ((o_with_meta desired (o_meta desired), None), st)
  | IDelete _ => (None, st)
  end.

(** A server that forbids deletions. *)
Definition forbidding_server X (e : IngE unit X) (st : unit) : X * unit :=
  match e in IngE _ X return X * unit with
  | IDelete _ => (Some (Err "forbidden"), st)
  | e => same_name_server dal_service _ e st
  end.

Definition prune_run :=
  run_with forbidding_server
    (reconcileDesiredObjects (named "gateway" "mdai") [] {["uid" := OService dal_service]}) tt.

(** A deletion that fails is the error of the reconcile. *)
Lemma prunes_exactly_witness :
  exists res, prune_run.1.2 = Done res
    /\ ((length (applied prune_run.1.1) < length (@nil Object) /\ deleted prune_run.1.1 = [] /\ is_Some res)
        \/ (length (applied prune_run.1.1) = length (@nil Object)
            /\ deleted prune_run.1.1 ≡ₚ map snd (map_to_list
                 (unseen (applied prune_run.1.1) {["uid" := OService dal_service]}))
            /\ (res = None <-> Forall (fun ev => deletion_error ev = None) prune_run.1.1))).
Proof.
  apply (prunes_exactly (Cfg:=unit) (named "gateway" "mdai") [] {["uid" := OService dal_service]}).
  - exact (run_with_runs forbidding_server
      (reconcileDesiredObjects (named "gateway" "mdai") [] {["uid" := OService dal_service]}) tt).
  - vm_compute. repeat constructor.
Defined.
