(* ===== verification/CollectorAdapter.v ===== *)
(** * internal/controller: the collector adapter

    mdaicollector_adapter.go: the operations that create a collector's config
    maps, service account, role, binding, deployment and service, and the
    handler and [Reconcile] of mdaicollector_controller.go.  The configuration
    itself is [CollectorConfig]. *)

From S2P Require Import Prelude GoLib ApiTypes Errors Components Effects Reconcile.
From S2P Require Import K8sObjects Builders ConfigBlock CollectorConfig ControllerCalls.

Definition MdaiCollectorHubComponent : string := "mdai-collector".
Definition mdaiCollectorResourceNameBase : string := "mdai-collector".

#[export] Instance collector_resource : Resource MdaiCollector := {
  r_meta := mc_ObjectMeta;
  r_with_meta c m := {| mc_ObjectMeta := m; mc_Spec := mc_Spec c; mc_Status := mc_Status c |};
  r_conditions c := cols_Conditions (mc_Status c);
  r_with_conditions c cs :=
    {| mc_ObjectMeta := mc_ObjectMeta c; mc_Spec := mc_Spec c;
       mc_Status := {| cols_LastUpdatedTime := cols_LastUpdatedTime (mc_Status c);
                       cols_Conditions := cs |} |}
}.

#[export] Instance collector_resource_laws : ResourceLaws MdaiCollector.
Proof. by constructor. Defined.

Section CollectorAdapter.
Context (baseMdaiCollector : error + ConfigBlock) (Marshal : ConfigBlock -> error + string).
Context (MarshalConfigMap : ConfigMap -> error + string) (Sum256Hex : string -> string).
Context `{GoRange} `{Owning} `{K8sUtil}.

Abbreviation collector_prog A := (prog (CtlE MdaiCollector) A).

Definition collector_name (c : MdaiCollector) : string := om_Name (mc_ObjectMeta c).

Definition getScopedMdaiCollectorResourceName (c : MdaiCollector) (postfix : string) : string :=
  if negb (bool_decide (postfix = ""))
  then collector_name c +:+ "-" +:+ mdaiCollectorResourceNameBase +:+ "-" +:+ postfix
  else collector_name c +:+ "-" +:+ mdaiCollectorResourceNameBase.

Definition app_labels (c : MdaiCollector) : gmap string string :=
  {["app" := "mdai-collector"; hubNameLabel := collector_name c;
    LabelManagedByMdaiKey := LabelManagedByMdaiValue;
    HubComponentLabel := MdaiCollectorHubComponent]}.

Definition component_labels : gmap string string :=
  {[LabelManagedByMdaiKey := LabelManagedByMdaiValue; HubComponentLabel := MdaiCollectorHubComponent]}.

(** ** Config maps *)

(** The name of the config map and the hash of what the server stores. *)
Definition createOrUpdateMdaiCollectorConfigMap (c : MdaiCollector) (namespace : string)
    (logsConfig : option LogsConfig) (awsAccessKeySecret : option string)
  : collector_prog (with_error (string * string)) :=
  let name := getScopedMdaiCollectorResourceName c "config" in
  let* rendered := lift (getMdaiCollectorConfig baseMdaiCollector Marshal (collector_name c)
                           logsConfig awsAccessKeySecret) in
  match rendered with
  | inl err => Ret (("", ""), Some (ErrWrap "failed to build mdai-collector configuration: " err))
  | inr collectorYAML =>
      match SetControllerReference (mc_ObjectMeta c)
              (with_labels (named name namespace) (Some (app_labels c))) with
      | inl err => Ret (("", ""), Some err)
      | inr m =>
          let desiredConfigMap :=
            {| cm_ObjectMeta := m; cm_Data := Some {["collector.yaml" := collectorYAML]} |} in
          let* answer := upsert (CConfigMap desiredConfigMap (set_data "collector.yaml" collectorYAML)) in
          match answer with
          | inl err => Ret (("", ""), Some err)
          | inr cm =>
              let '(sha, err) := getConfigMapSHA MarshalConfigMap Sum256Hex cm in
              Ret ((name, sha), err)
          end
      end
  end.

Definition createOrUpdateMdaiCollectorEnvVarConfigMap (c : MdaiCollector) (namespace : string)
  : collector_prog (with_error string) :=
  let name := getScopedMdaiCollectorResourceName c "env" in
  let data := {["LOG_SEVERITY" := "SEVERITY_NUMBER_WARN"; "K8S_NAMESPACE" := namespace]} in
  match SetControllerReference (mc_ObjectMeta c)
          (with_labels (named name namespace) (Some (app_labels c))) with
  | inl err => Ret ("", Some err)
  | inr m =>
      let* answer := upsert (CConfigMap {| cm_ObjectMeta := m; cm_Data := Some data |}
        (fun cm => Done (inr {| cm_ObjectMeta := cm_ObjectMeta cm; cm_Data := Some data |}))) in
      match answer with
      | inl err => Ret ("", Some err)
      | inr _ => Ret (name, None)
      end
  end.

(** ** Deployment and service *)

Record CollectorDeploymentParams := {
  cdp_Namespace : string;
  cdp_CollectorConfigMapName : string;
  cdp_CollectorEnvConfigName : string;
  cdp_ServiceAccountName : string;
  cdp_AwsAccessKeySecret : option string;
  cdp_Hash : string;
  cdp_Image : string;
  cdp_Tolerations : list Toleration;
  cdp_Replicas : Z
}.

Definition collector_container (name : string) (params : CollectorDeploymentParams) : Container_ :=
  WithSecurityContext DefaultSecurityContext
  (WithAWSSecret (cdp_AwsAccessKeySecret params)
  (WithEnvFrom [EnvFromConfigMap (cdp_CollectorConfigMapName params)]
  (WithVolumeMounts [{| vm_Name := "config-volume"; vm_MountPath := "/conf/collector.yaml";
                        vm_SubPath := "collector.yaml" |}]
  (WithPorts [{| ctp_Port := otlpGRPCPort; ctp_Name := otlpGRPCName; ctp_Protocol := "" |};
              {| ctp_Port := otlpHTTPPort; ctp_Name := otlpHTTPName; ctp_Protocol := "" |};
              {| ctp_Port := promHTTPPort; ctp_Name := promHTTPName; ctp_Protocol := "" |}]
  (WithCommand ["/mdai-collector"; "--config=/conf/collector.yaml"]
  (Container name (cdp_Image params))))))).

(** The calls of the builder, last one first. *)
Definition build_collector_deployment (c : MdaiCollector) (name : string)
    (params : CollectorDeploymentParams) (d : Deployment_) : Deployment_ :=
  Deployment.WithVolumes [{| vol_Name := "config-volume"; vol_ConfigMap := cdp_CollectorConfigMapName params |}]
  (Deployment.WithContainers [collector_container name params]
  (Deployment.WithServiceAccount (cdp_ServiceAccountName params)
  (Deployment.WithReplicas (cdp_Replicas params)
  (Deployment.WithTolerations (cdp_Tolerations params)
  (Deployment.WithTemplateAnnotation "mdai-collector-config/sha256" (cdp_Hash params)
  (Deployment.WithTemplateLabel "app.kubernetes.io/component" name
  (Deployment.WithTemplateLabel "app" name
  (Deployment.WithSelectorLabel "app" name
  (Deployment.WithLabel hubNameLabel (collector_name c)
  (Deployment.WithLabel "app" name d)))))))))).

Definition mutate_collector_deployment (c : MdaiCollector) (name : string)
    (params : CollectorDeploymentParams) : mutate_fn Deployment_ :=
  owned_deployment (mc_ObjectMeta c) (build_collector_deployment c name params).

Definition createOrUpdateMdaiCollectorDeployment (c : MdaiCollector) (params : CollectorDeploymentParams)
  : collector_prog (with_error string) :=
  let name := getScopedMdaiCollectorResourceName c "" in
  let deployment := new_deployment (with_labels (named name (cdp_Namespace params)) (Some component_labels)) in
  let* answer := upsert (CDeployment deployment (mutate_collector_deployment c name params)) in
  match answer with
  | inl err => Ret ("", Some err)
  | inr _ => Ret (name, None)
  end.

Definition build_collector_service (c : MdaiCollector) (appName : string) (s : Service_) : Service_ :=
  Service.WithType "ClusterIP"
  (Service.WithPorts [service_port "otlp-grpc" otlpGRPCPort (FromString "otlp-grpc");
                      service_port "otlp-http" otlpHTTPPort (FromString "otlp-http")]
  (Service.WithSelectorLabel "app" appName
  (Service.WithLabel hubNameLabel (collector_name c)
  (Service.WithLabel "app" appName s)))).

Definition mutate_collector_service (c : MdaiCollector) (appName : string) : mutate_fn Service_ :=
  owned_service (mc_ObjectMeta c) (build_collector_service c appName).

Definition createOrUpdateMdaiCollectorService (c : MdaiCollector) (namespace appName : string)
  : collector_prog (with_error string) :=
  let name := getScopedMdaiCollectorResourceName c "service" in
  match SetControllerReference (mc_ObjectMeta c)
          (with_labels (named name namespace) (Some component_labels)) with
  | inl err => Ret ("", Some err)
  | inr m =>
      let* answer := upsert (CService (new_service m) (mutate_collector_service c appName)) in
      match answer with
      | inl err => Ret ("", Some (ErrWrap "failed to create or update mdai-collector-service: " err))
      | inr _ => Ret (name, None)
      end
  end.

(** ** Access control *)

(** The closure does nothing. *)
Definition createOrUpdateMdaiCollectorServiceAccount (c : MdaiCollector) (namespace : string)
  : collector_prog (with_error string) :=
  let name := getScopedMdaiCollectorResourceName c "sa" in
  match SetControllerReference (mc_ObjectMeta c)
          (with_labels (named name namespace) (Some component_labels)) with
  | inl err => Ret ("", Some err)
  | inr m =>
      let* answer := upsert (CServiceAccount {| sacc_ObjectMeta := m |} (fun sa => Done (inr sa))) in
      match answer with
      | inl err => Ret ("", Some err)
      | inr _ => Ret (name, None)
      end
  end.

Definition read_rule (group : string) (resources : list string) : PolicyRule :=
  {| pr_APIGroups := [group]; pr_Resources := resources; pr_Verbs := ["get"; "list"; "watch"] |}.

Definition collector_rules : list PolicyRule :=
  [read_rule "" ["events"; "namespaces"; "namespaces/status"; "nodes"; "nodes/spec"; "pods";
                 "pods/status"; "replicationcontrollers"; "replicationcontrollers/status";
                 "resourcequotas"; "services"];
   read_rule "apps" ["daemonsets"; "deployments"; "replicasets"; "statefulsets"];
   read_rule "extensions" ["daemonsets"; "deployments"; "replicasets"];
   read_rule "batch" ["jobs"; "cronjobs"];
   read_rule "autoscaling" ["horizontalpodautoscalers"]].

Definition createOrUpdateMdaiCollectorRole (c : MdaiCollector) : collector_prog (with_error string) :=
  let name := getScopedMdaiCollectorResourceName c "role" in
  let role := {| cr_ObjectMeta := with_labels (named name "") (Some component_labels); cr_Rules := [] |} in
  let* answer := upsert (CClusterRole role
    (fun role => Done (inr {| cr_ObjectMeta := cr_ObjectMeta role; cr_Rules := collector_rules |}))) in
  match answer with
  | inl err => Ret ("", Some err)
  | inr _ => Ret (name, None)
  end.

Definition createOrUpdateMdaiCollectorRoleBinding (c : MdaiCollector)
    (namespace roleName serviceAccountName : string) : collector_prog (option error) :=
  let name := getScopedMdaiCollectorResourceName c "rb" in
  let roleBinding := {| crb_ObjectMeta := with_labels (named name "") (Some component_labels);
                        crb_RoleRef := None; crb_Subjects := [] |} in
  let* answer := upsert (CClusterRoleBinding roleBinding
    (fun rb => Done (inr
      {| crb_ObjectMeta := crb_ObjectMeta rb;
         crb_RoleRef := Some {| rref_APIGroup := "rbac.authorization.k8s.io"; rref_Kind := "ClusterRole";
                                rref_Name := roleName |};
         crb_Subjects := [{| sub_Kind := "ServiceAccount"; sub_Name := serviceAccountName;
                             sub_Namespace := namespace |}] |}))) in
  match answer with
  | inl err => Ret (Some err)
  | inr _ => Ret None
  end.

(** ** The life cycle *)

Definition ensureFinalizerInitialized : ReconcileOperation (CtlE MdaiCollector) MdaiCollector :=
  Reconcile.ensureFinalizerInitialized hubFinalizer.

Definition ensureStatusInitialized : ReconcileOperation (CtlE MdaiCollector) MdaiCollector :=
  Reconcile.ensureStatusInitialized.

Definition deleteFinalizer : string -> method (CtlE MdaiCollector) MdaiCollector (option error) :=
  Reconcile.deleteFinalizer.

Definition ensureFinalizerDeleted : method (CtlE MdaiCollector) MdaiCollector (option error) :=
  deleteFinalizer hubFinalizer.

Definition finalize : method (CtlE MdaiCollector) MdaiCollector (ObjectState * option error) :=
  Reconcile.finalize hubFinalizer.

Definition ensureDeletionProcessed : ReconcileOperation (CtlE MdaiCollector) MdaiCollector :=
  Reconcile.ensureDeletionProcessed finalize.

Definition ensureStatusSetToDone : ReconcileOperation (CtlE MdaiCollector) MdaiCollector :=
  Reconcile.ensureStatusSetToDone.

(** ** Synchronisation and the handler *)

Definition ensureSynchronized : ReconcileOperation (CtlE MdaiCollector) MdaiCollector := fun c =>
  let namespace := om_Namespace (mc_ObjectMeta c) in
  let spec := mc_Spec c in
  let awsAccessKeySecret :=
    match col_AWSConfig spec with Some awsConfig => aws_AWSAccessKeySecret awsConfig | None => None end in
  let* ((collectorConfigMapName, hash), err) :=
    createOrUpdateMdaiCollectorConfigMap c namespace (col_Logs spec) awsAccessKeySecret in
  match err with
  | Some err => Ret (c, RequeueOnErrorOrContinue (Some err))
  | None =>
  let* (collectorEnvConfigMapName, err) := createOrUpdateMdaiCollectorEnvVarConfigMap c namespace in
  match err with
  | Some err => Ret (c, RequeueOnErrorOrContinue (Some err))
  | None =>
  let* (serviceAccountName, err) := createOrUpdateMdaiCollectorServiceAccount c namespace in
  match err with
  | Some err => Ret (c, RequeueOnErrorOrContinue (Some err))
  | None =>
  let* (roleName, err) := createOrUpdateMdaiCollectorRole c in
  match err with
  | Some err => Ret (c, RequeueOnErrorOrContinue (Some err))
  | None =>
  let* err := createOrUpdateMdaiCollectorRoleBinding c namespace roleName serviceAccountName in
  match err with
  | Some err => Ret (c, RequeueOnErrorOrContinue (Some err))
  | None =>
  let params :=
    {| cdp_Namespace := namespace; cdp_CollectorConfigMapName := collectorConfigMapName;
       cdp_CollectorEnvConfigName := collectorEnvConfigMapName;
       cdp_ServiceAccountName := serviceAccountName; cdp_AwsAccessKeySecret := awsAccessKeySecret;
       cdp_Hash := hash; cdp_Image := col_Image spec; cdp_Tolerations := col_Tolerations spec;
       cdp_Replicas := col_Replicas spec |} in
  let* (deploymentName, err) := createOrUpdateMdaiCollectorDeployment c params in
  match err with
  | Some err =>
      if IsConflict err then Ret (c, Requeue) else Ret (c, RequeueOnErrorOrContinue (Some err))
  | None =>
  let* (_, err) := createOrUpdateMdaiCollectorService c namespace deploymentName in
  match err with
  | Some err => Ret (c, RequeueOnErrorOrContinue (Some err))
  | None => Ret (c, ContinueProcessing)
  end end end end end end end.

Definition collector_operations
  : list (ReconcileOperation (CtlE MdaiCollector) MdaiCollector) :=
  [ensureDeletionProcessed; ensureStatusInitialized; ensureFinalizerInitialized;
   ensureSynchronized; ensureStatusSetToDone].

Lemma collector_operations_lifecycle :
  collector_operations = lifecycle hubFinalizer finalize [ensureSynchronized; ensureStatusSetToDone].
Proof. reflexivity. Qed.

Definition ReconcileHandler : method (CtlE MdaiCollector) MdaiCollector (with_error ctrl_Result) :=
  run_operations collector_operations.

Definition Reconcile (namespace name : string) : collector_prog (with_error ctrl_Result) :=
  reconcile collector_operations namespace name.

(** ** Lemmas: one creation each *)

Lemma config_map_creates c ns logs secret :
  creates KConfigMap snd (createOrUpdateMdaiCollectorConfigMap c ns logs secret).
Proof.
  unfold createOrUpdateMdaiCollectorConfigMap.
  destruct (getMdaiCollectorConfig _ _ _ _ _) as [[err|yaml]|why]; cbn -[upsert].
  - intros tr a [-> [= ->]]. left. eauto.
  - destruct (SetControllerReference _ _) as [err|m]; [intros tr a [-> [= ->]]; left; eauto |].
    intros tr a. rewrite runs_bind.
    intros [(r & tr1 & tr2 & -> & (answer & -> & Ha)%runs_upsert & Hr)|(why & [=] & _)].
    right. destruct r as [err|cm].
    + destruct Hr as [-> [= ->]]. eexists. by split_and!.
    + destruct (getConfigMapSHA _ _ cm) as [sha err]. destruct Hr as [-> [= ->]].
      destruct Ha as [result ->]. eexists. by split_and!.
  - intros tr a [_ [=]].
Qed.

Lemma env_config_map_creates c ns :
  creates KConfigMap snd (createOrUpdateMdaiCollectorEnvVarConfigMap c ns).
Proof. unfold createOrUpdateMdaiCollectorEnvVarConfigMap. solve_creates. Qed.

Lemma service_account_creates c ns :
  creates KServiceAccount snd (createOrUpdateMdaiCollectorServiceAccount c ns).
Proof. unfold createOrUpdateMdaiCollectorServiceAccount. solve_creates. Qed.

Lemma role_creates c : creates KClusterRole snd (createOrUpdateMdaiCollectorRole c).
Proof. unfold createOrUpdateMdaiCollectorRole. solve_creates. Qed.

Lemma role_binding_creates c ns role sa :
  creates KClusterRoleBinding id (createOrUpdateMdaiCollectorRoleBinding c ns role sa).
Proof. unfold createOrUpdateMdaiCollectorRoleBinding. solve_creates. Qed.

Lemma deployment_creates c params :
  creates KDeployment snd (createOrUpdateMdaiCollectorDeployment c params).
Proof. unfold createOrUpdateMdaiCollectorDeployment. solve_creates. Qed.

Lemma service_creates c ns app :
  creates KService snd (createOrUpdateMdaiCollectorService c ns app).
Proof. unfold createOrUpdateMdaiCollectorService. solve_creates. Qed.

Lemma service_refuses c ns app : refuses snd (createOrUpdateMdaiCollectorService c ns app).
Proof. unfold createOrUpdateMdaiCollectorService. solve_refuses. Qed.

(** The name the config map is reported with. *)
Lemma config_map_name c ns logs secret tr name hash :
  runs (createOrUpdateMdaiCollectorConfigMap c ns logs secret) tr (Done ((name, hash), None)) ->
  name = getScopedMdaiCollectorResourceName c "config".
Proof.
  unfold createOrUpdateMdaiCollectorConfigMap.
  destruct (getMdaiCollectorConfig _ _ _ _ _) as [[err|yaml]|why]; cbn -[upsert];
    [by intros [_ [=]] | | by intros [_ [=]]].
  destruct (SetControllerReference _ _) as [err|m]; [by intros [_ [=]] |].
  rewrite runs_bind. intros [(r & tr1 & tr2 & _ & _ & Hr)|(why & [=] & _)].
  destruct r as [err|cm]; [by destruct Hr as [_ [=]] |].
  destruct (getConfigMapSHA _ _ cm) as [sha err]. by destruct Hr as [_ [= -> _ _]].
Qed.

(** The error of the deployment is the server's, or the closure's. *)
Lemma deployment_error c params tr n err :
  runs (createOrUpdateMdaiCollectorDeployment c params) tr (Done (n, Some err)) ->
  exists ev, tr = [ev] /\ creation_error ev = Some err.
Proof.
  unfold createOrUpdateMdaiCollectorDeployment. rewrite runs_bind.
  intros [(r & tr1 & tr2 & -> & (answer & -> & Ha)%runs_upsert & Hr)|(why & [=] & _)].
  destruct r as [e|o]; destruct Hr as [-> [=]]; subst. eexists. split; done.
Qed.

(** The objects of a collector, in the order of their creation. *)
Definition collector_objects : list object_kind :=
  [KConfigMap; KConfigMap; KServiceAccount; KClusterRole; KClusterRoleBinding; KDeployment; KService].

(** ** Lemmas: what the closures write *)

Section Stable.
Context {laws : OwningLaws}.

(** What the builder's calls amount to. *)
Lemma build_fields c name params d :
  build_collector_deployment c name params d =
  {| dep_ObjectMeta := label_meta (label_meta (dep_ObjectMeta d) "app" name) hubNameLabel (collector_name c);
     dep_Replicas := Some (cdp_Replicas params);
     dep_Selector := Some (set_key (default None (dep_Selector d)) "app" name);
     dep_TemplateLabels :=
       set_key (set_key (dep_TemplateLabels d) "app" name) "app.kubernetes.io/component" name;
     dep_TemplateAnnotations :=
       set_key (dep_TemplateAnnotations d) "mdai-collector-config/sha256" (cdp_Hash params);
     dep_ServiceAccountName := cdp_ServiceAccountName params;
     dep_Containers := [collector_container name params];
     dep_Volumes :=
       [{| vol_Name := "config-volume"; vol_ConfigMap := cdp_CollectorConfigMapName params |}];
     dep_Tolerations := Deployment.valid_tolerations (cdp_Tolerations params) |}.
Proof. reflexivity. Qed.

Lemma build_again c name params d :
  build_collector_deployment c name params (build_collector_deployment c name params d)
  = build_collector_deployment c name params d.
Proof.
  rewrite !build_fields. cbn [dep_ObjectMeta dep_Selector dep_TemplateLabels dep_TemplateAnnotations from_option id].
  by rewrite label_meta_again_two, !set_key_again, !set_key_again_two.
Qed.

Lemma build_meta c name params d :
  dep_ObjectMeta (build_collector_deployment c name params d)
  = label_meta (label_meta (dep_ObjectMeta d) "app" name) hubNameLabel (collector_name c).
Proof. by rewrite build_fields. Qed.

Lemma deployment_settled c name params : settled (mutate_collector_deployment c name params).
Proof.
  apply owned_mutate_settled; [done | done | apply with_dep_meta_same | apply build_again |].
  intros d Hd. rewrite build_meta. apply owned_label. by apply owned_label.
Qed.

Lemma build_service_fields c app s :
  build_collector_service c app s =
  {| svc_ObjectMeta := label_meta (label_meta (svc_ObjectMeta s) "app" app) hubNameLabel (collector_name c);
     svc_Selector := set_key (svc_Selector s) "app" app;
     svc_Ports := [service_port "otlp-grpc" otlpGRPCPort (FromString "otlp-grpc");
                   service_port "otlp-http" otlpHTTPPort (FromString "otlp-http")];
     svc_Type := "ClusterIP"; svc_InternalTrafficPolicy := svc_InternalTrafficPolicy s |}.
Proof. reflexivity. Qed.

Lemma service_settled c app : settled (mutate_collector_service c app).
Proof.
  apply owned_mutate_settled; [done | done | apply with_svc_meta_same | |].
  - intros s. rewrite !build_service_fields. cbn [svc_ObjectMeta svc_Selector svc_InternalTrafficPolicy].
    by rewrite label_meta_again_two, set_key_again.
  - intros s Hs. rewrite build_service_fields. apply owned_label. by apply owned_label.
Qed.
End Stable.

(** ** Lemmas: the calls *)

(** The calls of the synchronisation, with the name of the first config map. *)
Lemma synchronized_only (P : event (CtlE MdaiCollector) -> Prop) (c : MdaiCollector) :
  let ns := om_Namespace (mc_ObjectMeta c) in
  (forall logs secret, only P (createOrUpdateMdaiCollectorConfigMap c ns logs secret)) ->
  only P (createOrUpdateMdaiCollectorEnvVarConfigMap c ns) ->
  only P (createOrUpdateMdaiCollectorServiceAccount c ns) ->
  only P (createOrUpdateMdaiCollectorRole c) ->
  (forall role sa, only P (createOrUpdateMdaiCollectorRoleBinding c ns role sa)) ->
  (forall params, cdp_Namespace params = ns ->
     cdp_CollectorConfigMapName params = getScopedMdaiCollectorResourceName c "config" ->
     only P (createOrUpdateMdaiCollectorDeployment c params)) ->
  (forall app, only P (createOrUpdateMdaiCollectorService c ns app)) ->
  only P (ensureSynchronized c).
Proof.
  intros ns Hc1 Hc2 Hc3 Hc4 Hc5 Hc6 Hc7. unfold ensureSynchronized.
  apply only_bind_runs; [apply Hc1 |]. intros tr [[cm hash] [err|]] Hcm; [apply only_Ret |].
  apply config_map_name in Hcm. subst cm.
  apply only_bind; [apply Hc2 |]. intros [env [err|]]; [apply only_Ret |].
  apply only_bind; [apply Hc3 |]. intros [sa [err|]]; [apply only_Ret |].
  apply only_bind; [apply Hc4 |]. intros [role [err|]]; [apply only_Ret |].
  apply only_bind; [apply Hc5 |]. intros [err|]; [apply only_Ret |].
  apply only_bind; [by apply Hc6 |].
  intros [deployment [err|]]; [destruct (IsConflict err); apply only_Ret |].
  apply only_bind; [apply Hc7 |]. intros [service [err|]]; apply only_Ret.
Qed.

(** What a deployment creation can make. *)
Lemma mutated_containers c name params x y :
  mutate_collector_deployment c name params x = Done (inr y) ->
  dep_Containers y = [collector_container name params].
Proof. intros [m ->]%owned_mutate_inv. by rewrite build_fields. Qed.

Lemma scoped_name_inj c p p' :
  p <> "" -> p' <> "" ->
  getScopedMdaiCollectorResourceName c p = getScopedMdaiCollectorResourceName c p' -> p = p'.
Proof.
  unfold getScopedMdaiCollectorResourceName. intros Hp Hp'.
  rewrite !bool_decide_eq_false_2 by done. cbn [negb]. intros E. by simplify_eq.
Qed.

(** ** Lemmas: no panic *)

Lemma config_map_safe c ns logs secret :
  renderable baseMdaiCollector ->
  safe upserting (createOrUpdateMdaiCollectorConfigMap c ns logs secret).
Proof.
  intros Hb. unfold createOrUpdateMdaiCollectorConfigMap.
  destruct (getMdaiCollectorConfig_done _ Marshal (collector_name c) logs secret Hb) as [[err|yaml] ->].
  { apply safe_Ret. }
  cbn -[upsert]. destruct (SetControllerReference _ _) as [err|m]; [apply safe_Ret |].
  apply safe_seq; [| intros [err|cm]; [apply safe_Ret |]; destruct (getConfigMapSHA _ _ cm); apply safe_Ret].
  apply safe_upsert. intros answer. apply upsert_answer_returns.
  intros x [->|[data Hd]]; unfold returns, set_data; [by eexists | rewrite Hd; by eexists].
Qed.

Lemma deployment_safe c params :
  safe upserting (createOrUpdateMdaiCollectorDeployment c params).
Proof.
  unfold createOrUpdateMdaiCollectorDeployment. apply safe_seq; [| intros [err|d]; apply safe_Ret].
  apply safe_upsert. intros answer. apply upsert_answer_returns. intros x _. apply owned_mutate_returns.
Qed.

Lemma service_safe c ns app : safe upserting (createOrUpdateMdaiCollectorService c ns app).
Proof.
  unfold createOrUpdateMdaiCollectorService.
  destruct (SetControllerReference _ _); [apply safe_Ret |].
  apply safe_seq; [| intros [err|d]; apply safe_Ret].
  apply safe_upsert. intros answer. apply upsert_answer_returns. intros x _. apply owned_mutate_returns.
Qed.

Lemma synchronized_safe c : renderable baseMdaiCollector -> safe upserting (ensureSynchronized c).
Proof.
  intros Hb. unfold ensureSynchronized.
  apply safe_seq; [by apply config_map_safe |]. intros [[cm hash] [err|]]; [apply safe_Ret |].
  apply safe_seq; [safe_creation createOrUpdateMdaiCollectorEnvVarConfigMap |].
  intros [env [err|]]; [apply safe_Ret |].
  apply safe_seq; [safe_creation createOrUpdateMdaiCollectorServiceAccount |].
  intros [sa [err|]]; [apply safe_Ret |].
  apply safe_seq; [safe_creation createOrUpdateMdaiCollectorRole |].
  intros [role [err|]]; [apply safe_Ret |].
  apply safe_seq; [safe_creation createOrUpdateMdaiCollectorRoleBinding |].
  intros [err|]; [apply safe_Ret |].
  apply safe_seq; [apply deployment_safe |].
  intros [deployment [err|]]; [destruct (IsConflict err); apply safe_Ret |].
  apply safe_seq; [apply service_safe |]. intros [service [err|]]; apply safe_Ret.
Qed.

(** ** Properties *)

(** C28. Synchronising a collector leaves the resource alone and issues its seven
    creations in a fixed order, each one only after the success of the ones
    before.  It goes on to the final status update exactly when all seven were
    made and succeeded; otherwise it reports an error, or asks for a requeue
    because the deployment met a conflict.  It does not panic when the base
    configuration has the blocks it reads and stored config maps have data. *)
Theorem collector_synchronized c :
  synchronises collector_objects c (ensureSynchronized c)
  /\ (renderable baseMdaiCollector -> safe upserting (ensureSynchronized c)).
Proof.
  split; [| apply synchronized_safe].
  unfold ensureSynchronized, collector_objects.
  eapply creates_then_report; [apply config_map_creates | intros [[] ?] ? [= ->]; by eexists | | done].
  intros [[cm hash] err]; intros [= ->].
  eapply creates_then_report; [apply env_config_map_creates | intros [] ? [= ->]; by eexists | | done].
  intros [env err]; intros [= ->].
  eapply creates_then_report; [apply service_account_creates | intros [] ? [= ->]; by eexists | | done].
  intros [sa err]; intros [= ->].
  eapply creates_then_report; [apply role_creates | intros [] ? [= ->]; by eexists | | done].
  intros [role err]; intros [= ->].
  eapply creates_then_report; [apply role_binding_creates | intros ? ? [= ->]; by eexists | | done].
  intros err [= ->].
  eapply creates_then; [apply deployment_creates | | | done].
  { intros tr [n [err|]] err' Hr [=]; subst err'. apply deployment_error in Hr as (ev & -> & He).
    destruct (IsConflict err) eqn:Ec; eexists; (split; [done |]).
    - right. split; [done |]. by exists [], ev, err.
    - left. eauto. }
  intros [n err]; intros [= ->].
  eapply creates_then_report;
    [apply service_creates | intros [] ? [= ->]; by eexists | | intros _; apply service_refuses].
  intros [service err]; intros [= ->]. apply synchronises_done.
Qed.

(** Synchronising again writes the same: every closure leaves an object that
    it wrote before exactly as it is, so that what is deployed does not depend
    on how often the controller runs. *)
Theorem collector_objects_settle (laws : OwningLaws) c : only settles (ensureSynchronized c).
Proof.
  apply synchronized_only; [| | | | | intros params _ Hname |]; intros.
  - one_creation createOrUpdateMdaiCollectorConfigMap. apply set_data_settled.
  - one_creation createOrUpdateMdaiCollectorEnvVarConfigMap.
    by apply settled_overwrite.
  - one_creation createOrUpdateMdaiCollectorServiceAccount. apply settled_id.
  - one_creation createOrUpdateMdaiCollectorRole. by apply settled_overwrite.
  - one_creation createOrUpdateMdaiCollectorRoleBinding. by apply settled_overwrite.
  - one_creation createOrUpdateMdaiCollectorDeployment. apply deployment_settled.
  - one_creation createOrUpdateMdaiCollectorService. apply service_settled.
Qed.

(** The deployment reads the environment's config map. *)
Definition reads_env_config_map (c : MdaiCollector) (d : Deployment_) : Prop :=
  exists ct, ct ∈ dep_Containers d
    /\ EnvFromConfigMap (getScopedMdaiCollectorResourceName c "env") ∈ ct_EnvFrom ct.

(** The config map with [K8S_NAMESPACE] and [LOG_SEVERITY] is created and
    never used: no deployment the synchronisation writes reads it, although the
    collector's configuration refers to [${env:K8S_NAMESPACE}]. *)
Theorem env_config_map_unused c :
  only (fun ev => match ev with
                  | Ev (CDeployment _ mutate) _ =>
                      forall x y, mutate x = Done (inr y) -> ~ reads_env_config_map c y
                  | _ => True
                  end) (ensureSynchronized c).
Proof.
  apply synchronized_only; [| | | | | intros params _ Hname |]; intros.
  - one_creation createOrUpdateMdaiCollectorConfigMap; done.
  - one_creation createOrUpdateMdaiCollectorEnvVarConfigMap; done.
  - one_creation createOrUpdateMdaiCollectorServiceAccount; done.
  - one_creation createOrUpdateMdaiCollectorRole; done.
  - one_creation createOrUpdateMdaiCollectorRoleBinding; done.
  - one_creation createOrUpdateMdaiCollectorDeployment.
    intros x' y Hm (ct & Hct & Henv). rewrite (mutated_containers _ _ _ _ _ Hm) in Hct.
    apply list_elem_of_singleton in Hct as ->.
    unfold collector_container in Henv.
    destruct (cdp_AwsAccessKeySecret params) as [secret|]; simpl in Henv;
      repeat (apply elem_of_cons in Henv as [E|Henv]; [| try by apply elem_of_nil in Henv]); try done;
      injection E as E; rewrite Hname in E; by apply scoped_name_inj in E.
  - one_creation createOrUpdateMdaiCollectorService; done.
Qed.
End CollectorAdapter.

(** ** Witnesses *)

Import ControllerCalls.Sample.

#[local] Instance adapter_range : GoRange :=
  {| range_map A := map_to_list; range_map_perm A m := reflexivity _ |}.

Definition sample_collector : MdaiCollector :=
  {| mc_ObjectMeta := named "logs" "mdai";
     mc_Spec := {| col_AWSConfig := None; col_Logs := Some otlp_only; col_Image := "mdai-collector:1";
                   col_Replicas := 2; col_Tolerations := [] |};
     mc_Status := {| cols_LastUpdatedTime := None; cols_Conditions := [] |} |}.

Definition sample_synchronisation : prog (CtlE MdaiCollector) (MdaiCollector * with_error OperationResult) :=
  ensureSynchronized (inr sample_base) (fun _ => inr "receivers: {}") (fun _ => inr "{}") (fun _ => "00")
    sample_collector.

Definition sample_run := run_with new_cluster sample_synchronisation sample_collector.

(** On a new cluster all seven are created. *)
Lemma collector_synchronized_witness :
  exists tr, runs sample_synchronisation tr (Done (sample_collector, ContinueProcessing))
    /\ map kind_of tr = map Some collector_objects /\ safe upserting sample_synchronisation.
Proof.
  exists sample_run.1.1.
  assert (Hr : runs sample_synchronisation sample_run.1.1 (Done (sample_collector, ContinueProcessing))).
  { exact (run_with_runs new_cluster sample_synchronisation sample_collector). }
  split; [exact Hr |].
  destruct (collector_synchronized (inr sample_base) (fun _ => inr "receivers: {}") (fun _ => inr "{}")
              (fun _ => "00") sample_collector) as [Hs Hsafe].
  destruct (Hs _ _ _ Hr) as (_ & _ & [Hc _] & _).
  split; [exact (proj1 (Hc eq_refl)) | apply Hsafe; repeat split; by eexists].
Defined.

Lemma collector_objects_settle_witness : only settles sample_synchronisation.
Proof. apply (collector_objects_settle _ _ _ _ own_laws). Defined.
