(* ===== verification/ObserverConfig.v ===== *)
(** * internal/controller: the configuration of an observer's collector

    [getObserverCollectorConfig] of observer.go.  The maps that the code takes
    from the configuration share their storage with it: they are threaded and
    put back where they come from.  The theorems say what each observer
    contributes, also when two have the same name, and that every component a
    pipeline names is defined. *)

From S2P Require Import Prelude GoLib ApiTypes Errors WebhookReplay WebhookCR ConfigBlock.

(** ** config/observer_base_collector_config.yaml

    The embedded document, as [yaml.Unmarshal] decodes it. *)
Definition observer_base : ConfigBlock :=
  {["receivers" := AMap {["otlp" := AMap {["protocols" := AMap
      {["grpc" := AMap {["max_recv_msg_size_mib" := AFloat "32"; "endpoint" := AString "0.0.0.0:4317"]};
        "http" := AMap {["endpoint" := AString "0.0.0.0:4318"]}]}]}]};
    "processors" := AMap {["batch" := AMap ∅; "deltatocumulative" := AMap ∅]};
    "exporters" := AMap {["prometheus" := AMap
      {["endpoint" := AString "0.0.0.0:8899"; "metric_expiration" := AString "180m";
        "resource_to_telemetry_conversion" := AMap {["enabled" := ABool true]}]}]};
    "extensions" := AMap {["cgroupruntime" := AMap
      {["gomaxprocs" := AMap {["enabled" := ABool true]}; "gomemlimit" := AMap {["enabled" := ABool true]}]}]};
    "connectors" := AMap ∅;
    "service" := AMap
      {["extensions" := ASlice [AString "cgroupruntime"];
        "telemetry" := AMap
          {["resource" := AMap {["mdai-logstream" := AString "hub"]};
            "logs" := AMap {["processors" := ASlice [AMap {["batch" := AMap {["exporter" := AMap
              {["otlp" := AMap {["protocol" := AString "http/protobuf";
                "endpoint" := AString "http://hub-monitor-mdai-collector-service.mdai.svc.cluster.local:4318"]}]}]}]}]]};
            "metrics" := AMap {["readers" := ASlice [AMap {["pull" := AMap {["exporter" := AMap
              {["prometheus" := AMap {["host" := AString "0.0.0.0"; "port" := AFloat "8888"]}]}]}]}]]}]};
        "pipelines" := AMap ∅]}]}.

(** ** observer.go *)

(** [filterMap["error_mode"]] holds the pointer of the resource. *)
Definition getObserverFilterProcessorConfig (filter : ObserverFilter) : ConfigBlock :=
  let filterMap := match of_ErrorMode filter with
                   | Some mode => <["error_mode" := AStringPtr mode]> ∅
                   | None => ∅
                   end in
  match of_Logs filter with
  | Some logs =>
      if 0 <? length (olf_LogRecord logs)
      then <["logs" := AMap {["log_record" := AStrings (olf_LogRecord logs)]}]> filterMap
      else filterMap
  | None => filterMap
  end.

Definition group_key (observerName : string) : string := "groupbyattrs/" +:+ observerName.
Definition dv_key (observerName : string) : string := "datavolume/" +:+ observerName.
Definition filter_key (observerName : string) : string := "filter/" +:+ observerName.

Definition dv_spec (obs : Observer) : ConfigBlock :=
  let dvSpec := {["label_resource_attributes" := AStrings (obs_LabelResourceAttributes obs)]} in
  let dvSpec := match obs_CountMetricName obs with
                | Some name => <["count_metric_name" := AString name]> dvSpec
                | None => dvSpec
                end in
  match obs_BytesMetricName obs with
  | Some name => <["bytes_metric_name" := AString name]> dvSpec
  | None => dvSpec
  end.

Definition observer_pipeline (obs : Observer) : ConfigBlock :=
  let filterName := match obs_Filter obs with Some _ => filter_key (obs_Name obs) | None => "" end in
  let pipelineProcessors := if bool_decide (filterName = "") then [] else [filterName] in
  {["receivers" := AStrings ["otlp"];
    "processors" := AStrings (pipelineProcessors ++ ["batch"; group_key (obs_Name obs)]);
    "exporters" := AStrings [dv_key (obs_Name obs)]]}.

(** The maps that the loop over the observers writes to. *)
Record observed := {
  ob_processors : ConfigBlock;
  ob_connectors : ConfigBlock;
  ob_pipelines : ConfigBlock;
  ob_receivers : list string
}.

(** The body of the loop. *)
Definition add_observer (st : observed) (obs : Observer) : observed :=
  let observerName := obs_Name obs in
  let processors :=
    Set_ (ob_processors st) (group_key observerName)
      (AMap {["keys" := AStrings (obs_LabelResourceAttributes obs)]}) in
  let processors := match obs_Filter obs with
                    | Some f => Set_ processors (filter_key observerName)
                                  (AMap (getObserverFilterProcessorConfig f))
                    | None => processors
                    end in
  let pipeline := AMap (observer_pipeline obs) in
  {| ob_processors := processors;
     ob_connectors := Set_ (ob_connectors st) (dv_key observerName) (AMap (dv_spec obs));
     ob_pipelines :=
       Set_ (Set_ (ob_pipelines st) ("logs/" +:+ observerName) pipeline) ("traces/" +:+ observerName) pipeline;
     ob_receivers := ob_receivers st ++ [dv_key observerName] |}.

Definition output_pipeline (dataVolumeReceivers : list string) : ConfigBlock :=
  {["receivers" := AStrings dataVolumeReceivers; "processors" := AStrings ["deltatocumulative"];
    "exporters" := AStrings ["prometheus"]]}.

Definition own_logs (endpoint : string) : any :=
  AMap {["processors" := ASlice [AMap {["batch" := AMap {["exporter" := AMap
    {["otlp" := AMap {["protocol" := AString "http/protobuf"; "endpoint" := AString endpoint]}]}]}]}]]}.

(** The writes to the decoded configuration. *)
Definition observe_config (observers : list Observer) (observerResource : ObserverResource)
    (config : ConfigBlock) : go ConfigBlock :=
  let! config := match ores_GrpcReceiverMaxMsgSize observerResource with
                 | Some size => within ["receivers"; "otlp"; "protocols"; "grpc"]
                     (fun grpc => Done (Set_ grpc "max_recv_msg_size_mib" (AInt size))) config
                 | None => Done config
                 end in
  let! processors := MustMap config "processors" in
  let! connectors := MustMap config "connectors" in
  let! service := MustMap config "service" in
  let! pipelines := MustMap service "pipelines" in
  let! telemetry := MustMap service "telemetry" in
  let st := fold_left add_observer observers
    {| ob_processors := processors; ob_connectors := connectors; ob_pipelines := pipelines;
       ob_receivers := [] |} in
  let pipelines := Set_ (ob_pipelines st) "metrics/observeroutput" (AMap (output_pipeline (ob_receivers st))) in
  let telemetry := match ores_OwnLogsOtlpEndpoint observerResource with
                   | Some endpoint => if bool_decide (endpoint = "") then telemetry
                                      else Set_ telemetry "logs" (own_logs endpoint)
                   | None => telemetry
                   end in
  let service := Set_ (Set_ service "pipelines" (AMap pipelines)) "telemetry" (AMap telemetry) in
  Done (Set_ (Set_ (Set_ config "processors" (AMap (ob_processors st)))
                "connectors" (AMap (ob_connectors st))) "service" (AMap service)).

Definition getObserverCollectorConfig (baseObserverCollectorYAML : error + ConfigBlock)
    (Marshal : ConfigBlock -> error + string) (observers : list Observer)
    (observerResource : ObserverResource) : go (error + string) :=
  match baseObserverCollectorYAML with
  | inl err => Done (inl (ErrWrap "unmarshal base collector config: " err))
  | inr config =>
      let! config := observe_config observers observerResource config in
      Done (YAML Marshal config)
  end.

(** ** Specification *)

(** The last observer of a list that has a name, among those with [p]. *)
Fixpoint last_named (p : Observer -> bool) (l : list Observer) (n : string) : option Observer :=
  match l with
  | [] => None
  | o :: l =>
      match last_named p l n with
      | Some o' => Some o'
      | None => if bool_decide (obs_Name o = n) && p o then Some o else None
      end
  end.

Definition any_observer (o : Observer) : bool := true.
Definition has_filter (o : Observer) : bool := match obs_Filter o with Some _ => true | None => false end.

(** The blocks that the code reads. *)
Record observable (base processors connectors service pipelines telemetry : ConfigBlock) : Prop := {
  obl_processors : GetMap base "processors" = Some processors;
  obl_connectors : GetMap base "connectors" = Some connectors;
  obl_service : GetMap base "service" = Some service;
  obl_pipelines : GetMap service "pipelines" = Some pipelines;
  obl_telemetry : GetMap service "telemetry" = Some telemetry
}.

(** The block of the gRPC receiver. *)
Definition grpc_block (config : ConfigBlock) : option ConfigBlock :=
  block_at ["receivers"; "otlp"; "protocols"; "grpc"] config.

Lemma observer_base_observable :
  exists processors connectors service pipelines telemetry,
    observable observer_base processors connectors service pipelines telemetry
    /\ is_Some (grpc_block observer_base).
Proof. do 5 eexists. split; [constructor; reflexivity | eexists; reflexivity]. Qed.

(** ** Lemmas: one map at a time *)

(** The loop, as the writes to one of the maps. *)
Lemma fold_project {B} (proj : observed -> B) (step : B -> Observer -> B) l st :
  (forall st o, proj (add_observer st o) = step (proj st) o) ->
  proj (fold_left add_observer l st) = fold_left step l (proj st).
Proof. intros Hp. revert st. induction l as [|o l IH]; intros st; [done |]. simpl. by rewrite IH, Hp. Qed.

(** Writes at keys made from the names. *)
Lemma writes_lookup (key : string -> string) (value : Observer -> any) (p : Observer -> bool)
    (step : ConfigBlock -> Observer -> ConfigBlock) :
  (forall n n', key n = key n' -> n = n') ->
  (forall m o n, step m o !! key n
     = if bool_decide (obs_Name o = n) && p o then Some (value o) else m !! key n) ->
  forall l m n, fold_left step l m !! key n
    = match last_named p l n with Some o => Some (value o) | None => m !! key n end.
Proof.
  intros Hinj Hs l. induction l as [|o l IH]; intros m n; [done |]. simpl. rewrite IH.
  destruct (last_named p l n); [done |]. rewrite Hs. by destruct (_ && _).
Qed.

Lemma writes_other (step : ConfigBlock -> Observer -> ConfigBlock) k :
  (forall m o, step m o !! k = m !! k) -> forall l m, fold_left step l m !! k = m !! k.
Proof. intros Hs l. induction l as [|o l IH]; intros m; [done |]. simpl. by rewrite IH, Hs. Qed.

Lemma last_named_elem p l n o : last_named p l n = Some o -> o ∈ l /\ obs_Name o = n /\ p o = true.
Proof.
  induction l as [|x l IH]; simpl; [done |]. destruct (last_named p l n) as [y|].
  - intros [= ->]. destruct (IH eq_refl) as (Hin & H). split; [by right | done].
  - destruct (bool_decide _) eqn:E; simpl; [| done]. destruct (p x) eqn:Ep; [| done]. intros [= ->].
    apply bool_decide_eq_true in E. split; [by left | done].
Qed.

Lemma last_named_some p l o : o ∈ l -> p o = true -> is_Some (last_named p l (obs_Name o)).
Proof.
  intros Hin Hp. induction l as [|x l IH]; [by apply elem_of_nil in Hin |]. simpl.
  apply elem_of_cons in Hin as [->|Hin].
  - destruct (last_named p l _); [eauto |]. rewrite bool_decide_eq_true_2, Hp by done. simpl. eauto.
  - destruct (IH Hin) as [y ->]. eauto.
Qed.

(** Without a repeated name it is the observer itself. *)
Lemma last_named_unique p l o :
  NoDup (map obs_Name l) -> o ∈ l -> p o = true -> last_named p l (obs_Name o) = Some o.
Proof.
  intros Hn Hin Hp. destruct (last_named_some p l o Hin Hp) as [o' E]. rewrite E. f_equal.
  apply last_named_elem in E as (Hin' & En & _).
  revert Hn Hin Hin' En. clear. induction l as [|x l IH]; [by intros _ ?%elem_of_nil |].
  simpl. intros [Hx Hn]%NoDup_cons. rewrite !elem_of_cons. intros [->|Hin] [->|Hin'] En; try done.
  - destruct Hx. rewrite <- En. by apply list_elem_of_fmap_2.
  - destruct Hx. rewrite En. by apply list_elem_of_fmap_2.
  - by apply IH.
Qed.

Section Blocks.
Variables (l : list Observer) (st : observed).
Notation st' := (fold_left add_observer l st).

Lemma key_inj (prefix n n' : string) : prefix +:+ n = prefix +:+ n' -> n = n'.
Proof. induction prefix as [|a prefix IH]; simpl; [done |]. intros [=]. auto. Qed.

Lemma observed_connectors n :
  ob_connectors st' !! dv_key n
  = match last_named any_observer l n with
    | Some o => Some (AMap (dv_spec o))
    | None => ob_connectors st !! dv_key n
    end.
Proof.
  rewrite (fold_project ob_connectors (fun m o => Set_ m (dv_key (obs_Name o)) (AMap (dv_spec o)))) by done.
  apply writes_lookup; [apply key_inj |].
  intros m o n'. unfold Set_, any_observer. rewrite andb_true_r. case_bool_decide as E.
  - rewrite E. apply lookup_insert_eq.
  - apply lookup_insert_ne. by intros ?%key_inj.
Qed.

Definition write_processors (m : ConfigBlock) (o : Observer) : ConfigBlock :=
  let m := Set_ m (group_key (obs_Name o)) (AMap {["keys" := AStrings (obs_LabelResourceAttributes o)]}) in
  match obs_Filter o with
  | Some f => Set_ m (filter_key (obs_Name o)) (AMap (getObserverFilterProcessorConfig f))
  | None => m
  end.

Lemma observed_groups n :
  ob_processors st' !! group_key n
  = match last_named any_observer l n with
    | Some o => Some (AMap {["keys" := AStrings (obs_LabelResourceAttributes o)]})
    | None => ob_processors st !! group_key n
    end.
Proof.
  rewrite (fold_project ob_processors write_processors) by done.
  apply (writes_lookup group_key (fun o => AMap {["keys" := AStrings (obs_LabelResourceAttributes o)]}));
    [apply key_inj |].
  intros m o n'. unfold write_processors, Set_, any_observer. rewrite andb_true_r.
  destruct (obs_Filter o); rewrite ?(lookup_insert_ne _ (filter_key _)) by done;
    (case_bool_decide as E; [rewrite E; apply lookup_insert_eq | apply lookup_insert_ne; by intros ?%key_inj]).
Qed.

Lemma observed_filters n :
  ob_processors st' !! filter_key n
  = match last_named has_filter l n with
    | Some o => match obs_Filter o with
                | Some f => Some (AMap (getObserverFilterProcessorConfig f))
                | None => None
                end
    | None => ob_processors st !! filter_key n
    end.
Proof.
  rewrite (fold_project ob_processors write_processors) by done.
  set (value o := match obs_Filter o with
                  | Some f => AMap (getObserverFilterProcessorConfig f)
                  | None => AMap ∅ end).
  rewrite (writes_lookup filter_key value has_filter).
  - destruct (last_named has_filter l n) as [o|] eqn:E; [| done].
    apply last_named_elem in E as (_ & _ & Hf). unfold value, has_filter in *. by destruct (obs_Filter o).
  - apply key_inj.
  - intros m o n'. unfold write_processors, Set_, has_filter, value.
    destruct (obs_Filter o); rewrite ?andb_true_r, ?andb_false_r; [| by rewrite lookup_insert_ne].
    case_bool_decide as E; [rewrite E; apply lookup_insert_eq |].
    rewrite !lookup_insert_ne by (done || by intros ?%key_inj). done.
Qed.

Definition write_pipelines (m : ConfigBlock) (o : Observer) : ConfigBlock :=
  Set_ (Set_ m ("logs/" +:+ obs_Name o) (AMap (observer_pipeline o)))
    ("traces/" +:+ obs_Name o) (AMap (observer_pipeline o)).

Lemma observed_pipelines signal n :
  signal ∈ ["logs/"; "traces/"] ->
  ob_pipelines st' !! (signal +:+ n)
  = match last_named any_observer l n with
    | Some o => Some (AMap (observer_pipeline o))
    | None => ob_pipelines st !! (signal +:+ n)
    end.
Proof.
  intros Hs. rewrite (fold_project ob_pipelines write_pipelines) by done.
  apply (writes_lookup (String.append signal) (fun o => AMap (observer_pipeline o)));
    [apply key_inj |].
  intros m o n'. unfold write_pipelines, Set_, any_observer. rewrite andb_true_r.
  apply elem_of_cons in Hs as [-> | ->%list_elem_of_singleton].
  - rewrite (lookup_insert_ne _ ("traces/" +:+ _)) by done.
    case_bool_decide as E; [rewrite E; apply lookup_insert_eq | apply lookup_insert_ne; by intros ?%key_inj].
  - case_bool_decide as E; [rewrite E; apply lookup_insert_eq |].
    rewrite !lookup_insert_ne by (done || by intros ?%key_inj). done.
Qed.

Lemma observed_receivers : ob_receivers st' = ob_receivers st ++ map (fun o => dv_key (obs_Name o)) l.
Proof.
  rewrite (fold_project ob_receivers (fun r o => r ++ [dv_key (obs_Name o)])) by done.
  generalize (ob_receivers st). clear. induction l as [|o l' IH]; intros r; simpl; [by rewrite app_nil_r |].
  by rewrite IH, <- app_assoc.
Qed.

(** Nothing else is written. *)
Lemma observed_others k :
  (forall n, k <> group_key n /\ k <> filter_key n) -> ob_processors st' !! k = ob_processors st !! k.
Proof.
  intros Hk. rewrite (fold_project ob_processors write_processors) by done. apply writes_other.
  intros m o. destruct (Hk (obs_Name o)). unfold write_processors, Set_.
  destruct (obs_Filter o); by rewrite !lookup_insert_ne.
Qed.

Lemma observed_other_connectors k :
  (forall n, k <> dv_key n) -> ob_connectors st' !! k = ob_connectors st !! k.
Proof.
  intros Hk. rewrite (fold_project ob_connectors (fun m o => Set_ m (dv_key (obs_Name o)) (AMap (dv_spec o)))) by done.
  apply writes_other. intros m o. unfold Set_. by rewrite lookup_insert_ne.
Qed.

Lemma observed_other_pipelines k :
  (forall n, k <> "logs/" +:+ n /\ k <> "traces/" +:+ n) -> ob_pipelines st' !! k = ob_pipelines st !! k.
Proof.
  intros Hk. rewrite (fold_project ob_pipelines write_pipelines) by done. apply writes_other.
  intros m o. destruct (Hk (obs_Name o)). unfold write_pipelines, Set_. by rewrite !lookup_insert_ne.
Qed.
End Blocks.

(** ** Properties *)

Definition observer_blocks (processors connectors pipelines : ConfigBlock) (observers : list Observer)
  : observed :=
  fold_left add_observer observers
    {| ob_processors := processors; ob_connectors := connectors; ob_pipelines := pipelines;
       ob_receivers := [] |}.

(** The maps of the result. *)
Lemma observe_config_done base processors connectors service pipelines telemetry observers r :
  observable base processors connectors service pipelines telemetry ->
  (is_Some (ores_GrpcReceiverMaxMsgSize r) -> is_Some (grpc_block base)) ->
  let st := observer_blocks processors connectors pipelines observers in
  exists config, observe_config observers r base = Done config
    /\ GetMap config "processors" = Some (ob_processors st)
    /\ GetMap config "connectors" = Some (ob_connectors st)
    /\ block_at ["service"; "pipelines"] config
       = Some (Set_ (ob_pipelines st) "metrics/observeroutput" (AMap (output_pipeline (ob_receivers st))))
    /\ block_at ["service"; "telemetry"] config
       = Some (match ores_OwnLogsOtlpEndpoint r with
               | Some endpoint => if bool_decide (endpoint = "") then telemetry
                                  else Set_ telemetry "logs" (own_logs endpoint)
               | None => telemetry
               end)
    /\ (forall k, k ∉ ["receivers"; "processors"; "connectors"; "service"] -> config !! k = base !! k)
    /\ match ores_GrpcReceiverMaxMsgSize r with
       | Some size =>
           exists grpc, grpc_block base = Some grpc
             /\ grpc_block config = Some (Set_ grpc "max_recv_msg_size_mib" (AInt size))
       | None => config !! "receivers" = base !! "receivers"
       end
    /\ (forall name, defines base ["receivers"] name -> defines config ["receivers"] name).
Proof.
  intros [Hp Hc Hs Hpi Ht] Hg. cbv zeta. unfold observe_config.
  set (sized := match ores_GrpcReceiverMaxMsgSize r with Some _ => _ | None => _ end).
  assert (Hsized : exists config, sized = Done config
    /\ (forall k, k <> "receivers" -> config !! k = base !! k)
    /\ match ores_GrpcReceiverMaxMsgSize r with
       | Some size => exists grpc, grpc_block base = Some grpc
           /\ grpc_block config = Some (Set_ grpc "max_recv_msg_size_mib" (AInt size))
       | None => config !! "receivers" = base !! "receivers"
       end
    /\ (forall name, defines base ["receivers"] name -> defines config ["receivers"] name)).
  { unfold sized. destruct (ores_GrpcReceiverMaxMsgSize r) as [size|]; [| by exists base].
    destruct (Hg (ltac:(by eexists))) as [grpc Eg].
    destruct (within_Done _ (fun g => Done (Set_ g "max_recv_msg_size_mib" (AInt size)))
                base grpc _ Eg eq_refl) as (config & Ew & Eb).
    exists config. split; [done |].
    pose proof (within_lookup _ _ _ _ _ Ew) as [Ho (m & m' & Em & Ew' & Em')].
    split; [done |]. split; [by exists grpc |].
    intros name (s & m0 & ->%list_elem_of_singleton & E0 & Hn). exists "receivers", m'.
    split; [by left |]. split; [by apply section_map |]. rewrite (section_map _ _ _ Em) in E0.
    injection E0 as <-. by eapply within_defined. }
  destruct Hsized as (config & -> & Ho & Hsize & Hd). cbn [go_bind].
  assert (Hget : forall k, k <> "receivers" -> GetMap config k = GetMap base k).
  { intros k Hk. unfold GetMap, getAs. by rewrite Ho. }
  rewrite (MustMap_GetMap _ _ processors) by by rewrite Hget. cbn [go_bind].
  rewrite (MustMap_GetMap _ _ connectors) by by rewrite Hget. cbn [go_bind].
  rewrite (MustMap_GetMap _ _ service) by by rewrite Hget. cbn [go_bind].
  rewrite (MustMap_GetMap _ _ pipelines) by done. cbn [go_bind].
  rewrite (MustMap_GetMap _ _ telemetry) by done. cbn [go_bind block_at].
  eexists. split; [reflexivity |].
  repeat (rewrite GetMap_Set_eq || rewrite GetMap_Set_ne by done). split_and!; try done.
  - intros k Hk. unfold Set_. rewrite !lookup_insert_ne by set_solver. apply Ho. set_solver.
  - destruct (ores_GrpcReceiverMaxMsgSize r).
    + destruct Hsize as (grpc & E & Eg). exists grpc. split; [done |]. rewrite <- Eg.
      unfold grpc_block. cbn [block_at]. by rewrite !GetMap_Set_ne by done.
    + unfold Set_. by rewrite !lookup_insert_ne by done.
  - intros name (s & m & Hs' & Em & Hn)%Hd. exists s, m. split; [done |].
    apply list_elem_of_singleton in Hs' as ->. by rewrite !section_Set_ne by done.
Qed.


(** What the observers' blocks define and name. *)
Lemma group_defined l st o :
  o ∈ l -> is_Some (ob_processors (fold_left add_observer l st) !! group_key (obs_Name o)).
Proof.
  intros Hin. rewrite observed_groups.
  destruct (last_named_some any_observer l o Hin eq_refl) as [o' ->]. eauto.
Qed.

Lemma filter_defined l st o f :
  o ∈ l -> obs_Filter o = Some f ->
  is_Some (ob_processors (fold_left add_observer l st) !! filter_key (obs_Name o)).
Proof.
  intros Hin Hf. rewrite observed_filters.
  destruct (last_named_some has_filter l o Hin) as [o' E]; [unfold has_filter; by rewrite Hf |].
  rewrite E. apply last_named_elem in E as (_ & _ & Hf'). unfold has_filter in Hf'.
  destruct (obs_Filter o'); [eauto | done].
Qed.

Lemma connector_defined l st o :
  o ∈ l -> is_Some (ob_connectors (fold_left add_observer l st) !! dv_key (obs_Name o)).
Proof.
  intros Hin. rewrite observed_connectors.
  destruct (last_named_some any_observer l o Hin eq_refl) as [o' ->]. eauto.
Qed.

(** From an empty map, every key is an observer's. *)
Lemma connector_of l st c :
  ob_connectors st = ∅ -> is_Some (ob_connectors (fold_left add_observer l st) !! c) ->
  exists o, o ∈ l /\ c = dv_key (obs_Name o).
Proof.
  rewrite (fold_project ob_connectors (fun m o => Set_ m (dv_key (obs_Name o)) (AMap (dv_spec o)))) by done.
  intros ->. assert (Hg : forall m, is_Some (fold_left (fun m o => Set_ m (dv_key (obs_Name o)) (AMap (dv_spec o))) l m !! c) ->
    is_Some (m !! c) \/ exists o, o ∈ l /\ c = dv_key (obs_Name o)).
  { induction l as [|o l IH]; intros m Hm; [by left |]. simpl in Hm.
    destruct (IH _ Hm) as [Hs|(o' & Hin & E)]; [| right; exists o'; split; [by right | done]].
    unfold Set_ in Hs. destruct (decide (dv_key (obs_Name o) = c)) as [<-|Hne].
    - right. exists o. split; [by left | done].
    - rewrite lookup_insert_ne in Hs by done. by left. }
  intros [Hs|?]%Hg; [| done]. rewrite lookup_empty in Hs. by destruct Hs.
Qed.

Lemma pipeline_of l st k v :
  ob_pipelines st = ∅ -> ob_pipelines (fold_left add_observer l st) !! k = Some v ->
  exists o, o ∈ l /\ v = AMap (observer_pipeline o).
Proof.
  rewrite (fold_project ob_pipelines write_pipelines) by done. intros ->.
  assert (Hg : forall m, fold_left write_pipelines l m !! k = Some v ->
    m !! k = Some v \/ exists o, o ∈ l /\ v = AMap (observer_pipeline o)).
  { induction l as [|o l IH]; intros m Hm; [by left |]. simpl in Hm.
    destruct (IH _ Hm) as [Hs|(o' & Hin & E)]; [| right; exists o'; split; [by right | done]].
    unfold write_pipelines, Set_ in Hs.
    apply lookup_insert_Some in Hs as [[_ <-]|[_ Hs]]; [right; exists o; split; [by left | done] |].
    apply lookup_insert_Some in Hs as [[_ <-]|[_ Hs]]; [right; exists o; split; [by left | done] |].
    by left. }
  intros [Hs|?]%Hg; [by rewrite lookup_empty in Hs | done].
Qed.

Lemma observer_pipeline_names o :
  names_in (observer_pipeline o) "receivers" = ["otlp"]
  /\ names_in (observer_pipeline o) "processors"
     = (if has_filter o then [filter_key (obs_Name o)] else []) ++ ["batch"; group_key (obs_Name o)]
  /\ names_in (observer_pipeline o) "exporters" = [dv_key (obs_Name o)].
Proof.
  unfold names_in, observer_pipeline, has_filter. split_and!; [done | | done].
  destruct (obs_Filter o); reflexivity.
Qed.

(** What the pipelines name is defined, in a configuration with the blocks of
    the observers and the components that the pipelines take from the base. *)
Section Loadable.
Context (config : ConfigBlock) (observers : list Observer) (st : observed).
Notation st' := (fold_left add_observer observers st).
Hypothesis Hprocessors : GetMap config "processors" = Some (ob_processors st').
Hypothesis Hconnectors : GetMap config "connectors" = Some (ob_connectors st').

Lemma processor_found name : is_Some (ob_processors st' !! name) -> defines config ["processors"] name.
Proof.
  intros Hs. exists "processors", (ob_processors st').
  split; [by left | split; [by apply section_map | done]].
Qed.

Lemma connector_found o s :
  o ∈ observers -> "connectors" ∈ s -> defines config s (dv_key (obs_Name o)).
Proof.
  intros Hin Hs. exists "connectors", (ob_connectors st'). split; [done |].
  split; [by apply section_map | by apply connector_defined].
Qed.

Lemma base_processor_found name :
  name ∈ ["batch"; "deltatocumulative"] -> is_Some (ob_processors st !! name) ->
  defines config ["processors"] name.
Proof.
  intros Hin Hs. apply processor_found. rewrite observed_others; [done |].
  intros n. by apply elem_of_cons in Hin as [-> | ->%list_elem_of_singleton].
Qed.

Lemma observer_pipeline_valid o :
  o ∈ observers -> defines config ["receivers"] "otlp" -> is_Some (ob_processors st !! "batch") ->
  valid_pipeline config (observer_pipeline o).
Proof.
  intros Hin Hotlp Hbatch. destruct (observer_pipeline_names o) as (Er & Epr & Ex).
  constructor; rewrite ?Er, ?Epr, ?Ex.
  - split; [done |]. apply Forall_singleton. by eapply defines_in; [exact Hotlp | set_solver].
  - rewrite Forall_app. split.
    + unfold has_filter. destruct (obs_Filter o) eqn:Ef; [| constructor].
      apply Forall_singleton, processor_found. by eapply filter_defined.
    + constructor; [apply base_processor_found; [set_solver | done] |].
      apply Forall_singleton, processor_found. by apply group_defined.
  - split; [done |]. apply Forall_singleton, connector_found; [done | set_solver].
Qed.

Lemma output_pipeline_valid :
  observers <> [] -> defines config ["exporters"] "prometheus" ->
  is_Some (ob_processors st !! "deltatocumulative") ->
  valid_pipeline config (output_pipeline (map (fun o => dv_key (obs_Name o)) observers)).
Proof.
  intros Hne Hprom Hdelta. constructor; cbn.
  - split; [by destruct observers |]. apply Forall_fmap, Forall_forall. intros o Hin.
    apply connector_found; [done | set_solver].
  - apply Forall_singleton, base_processor_found; [set_solver | done].
  - split; [done |]. apply Forall_singleton. by eapply defines_in; [exact Hprom | set_solver].
Qed.

(** Every connector is exported to by the pipeline for logs of an observer. *)
Lemma connector_fed o :
  o ∈ observers ->
  exists p, ob_pipelines st' !! ("logs/" +:+ obs_Name o) = Some (AMap p)
    /\ dv_key (obs_Name o) ∈ names_in p "exporters".
Proof.
  intros Hin. rewrite observed_pipelines by (by left).
  destruct (last_named_some any_observer observers o Hin eq_refl) as [o' E']. rewrite E'.
  apply last_named_elem in E' as (_ & En & _). eexists. split; [done |].
  destruct (observer_pipeline_names o') as (_ & _ & ->). rewrite En. by left.
Qed.
End Loadable.

(** C10. Whatever the observers and the resource say, the configuration that is
    rendered from the embedded document can be loaded: every pipeline has
    receivers and exporters, every component it names is defined, and every
    connector is fed by one pipeline and read by another. *)
Theorem observer_config_valid observers r :
  observers <> [] ->
  exists config, observe_config observers r observer_base = Done config /\ valid_pipelines config.
Proof.
  intros Hne. destruct observer_base_observable as (pr & co & se & pi & te & Ho & Hg).
  destruct (observe_config_done _ _ _ _ _ _ observers r Ho (fun _ => Hg))
    as (config & E & Ep & Ec & Epi & _ & Hk & _ & Hd).
  exists config. split; [done |]. eexists. split; [exact Epi |].
  destruct Ho as [Hpr Hco Hse Hpi _].
  injection Hpr as <-. injection Hco as <-. injection Hse as <-. injection Hpi as <-.
  unfold observer_blocks in *. rewrite observed_receivers.
  assert (Hotlp : defines config ["receivers"] "otlp").
  { apply Hd. eexists "receivers", _. split; [by left |]. split; [reflexivity |]. by eexists. }
  assert (Hprom : defines config ["exporters"] "prometheus").
  { eexists "exporters", _. split; [by left |].
    split; [unfold section; rewrite Hk by (by apply (bool_decide_eq_true_1 _)); reflexivity | by eexists]. }
  split_and!.
  - unfold Set_. intros He. apply (insert_non_empty (M:=gmap string)) in He. done.
  - intros k v Hkv. unfold Set_ in Hkv. apply lookup_insert_Some in Hkv as [[_ <-]|[_ Hv]].
    + eexists. split; [done |]. eapply output_pipeline_valid; [exact Ep | exact Ec | done | done | by eexists].
    + apply pipeline_of in Hv as (o & Hin & ->); [| done]. eexists. split; [done |].
      eapply observer_pipeline_valid; [exact Ep | exact Ec | done | done | by eexists].
  - intros connectors c Ec' Hc. rewrite (section_map _ _ _ Ec) in Ec'. injection Ec' as <-.
    apply connector_of in Hc as (o & Hin & ->); [| done].
    eapply connector_fed in Hin as Hp. destruct Hp as (p & El & Hx).
    exists ("logs/" +:+ obs_Name o), "metrics/observeroutput", p. eexists. split_and!; [| | done |].
    + unfold Set_. rewrite lookup_insert_ne by done. exact El.
    + apply lookup_insert_eq.
    + by apply (list_elem_of_fmap_2 (fun o => dv_key (obs_Name o))).
Qed.

(** The webhook admits two observers with one name, and the collector then
    runs only the second: the first one's labels and metrics are replaced, no
    pipeline uses its filter, and the shared connector is listed twice. *)
Theorem repeated_observer_lost m o o' :
  obss_Observers (mo_Spec m) = [o; o'] -> obs_Name o = obs_Name o' ->
  (ObserverWebhook.observer_ValidateCreate (ObjMdaiObserver m)).2 = None ->
  exists config processors connectors pipelines,
    observe_config (obss_Observers (mo_Spec m)) (obss_ObserverResource (mo_Spec m)) observer_base
    = Done config
    /\ GetMap config "processors" = Some processors
    /\ GetMap config "connectors" = Some connectors
    /\ block_at ["service"; "pipelines"] config = Some pipelines
    /\ processors !! group_key (obs_Name o)
       = Some (AMap {["keys" := AStrings (obs_LabelResourceAttributes o')]})
    /\ connectors !! dv_key (obs_Name o) = Some (AMap (dv_spec o'))
    /\ (forall signal, signal ∈ ["logs/"; "traces/"] ->
          pipelines !! (signal +:+ obs_Name o) = Some (AMap (observer_pipeline o')))
    /\ pipelines !! "metrics/observeroutput"
       = Some (AMap (output_pipeline [dv_key (obs_Name o); dv_key (obs_Name o)])).
Proof.
  intros Em En _. rewrite Em. set (r := obss_ObserverResource _).
  destruct observer_base_observable as (pr & co & se & pi & te & Ho & Hg).
  destruct (observe_config_done _ _ _ _ _ _ [o; o'] r Ho (fun _ => Hg))
    as (config & E & Ep & Ec & Epi & _).
  assert (Hl : last_named any_observer [o; o'] (obs_Name o) = Some o').
  { simpl. by rewrite bool_decide_eq_true_2. }
  exists config. do 3 eexists. split; [done |]. split; [exact Ep |]. split; [exact Ec |]. split; [exact Epi |].
  unfold observer_blocks. split_and!.
  - by rewrite observed_groups, Hl.
  - by rewrite observed_connectors, Hl.
  - intros signal Hs. unfold Set_. rewrite lookup_insert_ne.
    + by rewrite observed_pipelines, Hl.
    + by apply elem_of_cons in Hs as [-> | ->%list_elem_of_singleton].
  - unfold Set_. rewrite lookup_insert_eq, observed_receivers. simpl. by rewrite En.
Qed.

(** ** Witnesses *)

Definition sample_observer (name : string) : Observer :=
  {| obs_Name := name; obs_LabelResourceAttributes := ["service.name"];
     obs_CountMetricName := Some "items_total"; obs_BytesMetricName := None;
     obs_Filter := Some {| of_ErrorMode := Some "ignore";
                           of_Logs := Some {| olf_LogRecord := ["severity_number < 9"] |} |} |}.

Definition sample_resource : ObserverResource :=
  {| ores_Image := "observer:1"; ores_Replicas := 1; ores_Resources := None;
     ores_GrpcReceiverMaxMsgSize := Some 64%Z; ores_OwnLogsOtlpEndpoint := Some "http://logs:4318";
     ores_Tolerations := [] |}.


Lemma observer_config_valid_witness :
  exists config, observe_config [sample_observer "a"] sample_resource observer_base = Done config
                 /\ valid_pipelines config.
Proof. apply observer_config_valid. done. Defined.

Definition unfiltered (o : Observer) : Observer :=
  {| obs_Name := obs_Name o; obs_LabelResourceAttributes := []; obs_CountMetricName := None;
     obs_BytesMetricName := Some "bytes_total"; obs_Filter := None |}.

Definition repeated : MdaiObserver :=
  {| mo_ObjectMeta := named "watch" "mdai";
     mo_Spec := {| obss_Observers := [sample_observer "a"; unfiltered (sample_observer "a")];
                   obss_ObserverResource := sample_resource |};
     mo_Status := {| obst_ObserverStatus := ""; obst_LastUpdatedTime := None; obst_Conditions := [] |} |}.

Lemma repeated_observer_lost_witness :
  (ObserverWebhook.observer_ValidateCreate (ObjMdaiObserver repeated)).2 = None
  /\ exists config connectors,
       observe_config (obss_Observers (mo_Spec repeated)) sample_resource observer_base = Done config
       /\ GetMap config "connectors" = Some connectors
       /\ connectors !! "datavolume/a" = Some (AMap (dv_spec (unfiltered (sample_observer "a")))).
Proof.
  split; [reflexivity |].
  destruct (repeated_observer_lost repeated (sample_observer "a") (unfiltered (sample_observer "a"))
              eq_refl eq_refl eq_refl) as (config & pr & co & pi & E & _ & Ec & _ & _ & Hc & _).
  by exists config, co.
Defined.
