(* ===== verification/ObserverAdapter.v ===== *)
(** * internal/controller: the observer adapter

    observer.go without the configuration, mdaiobserver_adapter.go and
    mdaiobserver_controller.go.  The life-cycle methods are those of
    [Reconcile]. *)

From S2P Require Import Prelude GoLib ApiTypes Errors Components Effects Reconcile.
From S2P Require Import K8sObjects Builders ConfigBlock ControllerCalls ObserverConfig.

Definition observerDefaultImage : string := "public.ecr.aws/decisiveai/observer-collector:0.1".
Definition mdaiObserverResourceBaseName : string := "mdai-observer".

#[export] Instance observer_resource : Resource MdaiObserver := {
  r_meta := mo_ObjectMeta;
  r_with_meta o m := {| mo_ObjectMeta := m; mo_Spec := mo_Spec o; mo_Status := mo_Status o |};
  r_conditions o := obst_Conditions (mo_Status o);
  r_with_conditions o cs :=
    {| mo_ObjectMeta := mo_ObjectMeta o; mo_Spec := mo_Spec o;
       mo_Status := {| obst_ObserverStatus := obst_ObserverStatus (mo_Status o);
                       obst_LastUpdatedTime := obst_LastUpdatedTime (mo_Status o);
                       obst_Conditions := cs |} |}
}.

#[export] Instance observer_resource_laws : ResourceLaws MdaiObserver.
Proof. by constructor. Defined.

Section ObserverAdapter.
Context (baseObserverCollectorYAML : error + ConfigBlock) (Marshal : ConfigBlock -> error + string).
Context (MarshalConfigMap : ConfigMap -> error + string) (Sum256Hex : string -> string).
Context `{Owning} `{K8sUtil}.

Abbreviation observer_prog A := (prog (CtlE MdaiObserver) A).

Definition observer_name (c : MdaiObserver) : string := om_Name (mo_ObjectMeta c).

Definition getScopedObserverResourceName (c : MdaiObserver) (postfix : string) : string :=
  if negb (bool_decide (postfix = ""))
  then observer_name c +:+ "-" +:+ mdaiObserverResourceBaseName +:+ "-" +:+ postfix
  else observer_name c +:+ "-" +:+ mdaiObserverResourceBaseName.

Definition observer_labels (c : MdaiObserver) : gmap string string :=
  {["app" := getScopedObserverResourceName c "";
    hubNameLabel := observer_name c;
    HubComponentLabel := mdaiObserverHubComponent;
    LabelManagedByMdaiKey := LabelManagedByMdaiValue]}.

(** [if x.Labels == nil { x.Labels = ... }]. *)
Definition label_if_nil (labels : gmap string string) (m : ObjectMeta) : ObjectMeta :=
  match om_Labels m with
  | None => with_labels m (Some labels)
  | Some _ => m
  end.

(** ** Service *)

(** The closure replaces the whole of [Spec]. *)
Definition build_observer_service (c : MdaiObserver) (s : Service_) : Service_ :=
  {| svc_ObjectMeta := label_if_nil (observer_labels c) (svc_ObjectMeta s);
     svc_Selector := Some {["app" := getScopedObserverResourceName c ""]};
     svc_Ports := [service_port "otlp-grpc" otlpGRPCPort (FromString "otlp-grpc");
                   service_port "otlp-http" otlpHTTPPort (FromString "otlp-http")];
     svc_Type := "ClusterIP"; svc_InternalTrafficPolicy := None |}.

Definition createOrUpdateObserverResourceService (c : MdaiObserver) (namespace : string)
  : observer_prog (option error) :=
  let name := getScopedObserverResourceName c "service" in
  match SetControllerReference (mo_ObjectMeta c) (named name namespace) with
  | inl err => Ret (Some err)
  | inr m =>
      let* answer := upsert (CService (new_service m)
                               (fun s => Done (inr (build_observer_service c s)))) in
      match answer with
      | inl err => Ret (Some (ErrWrap "failed to create or update observer-collector-service: " err))
      | inr _ => Ret None
      end
  end.

(** ** Config map *)

Definition createOrUpdateObserverResourceConfigMap (c : MdaiObserver)
    (observerResource : ObserverResource) (observers : list Observer)
  : observer_prog (with_error string) :=
  let namespace := om_Namespace (mo_ObjectMeta c) in
  let configMapName := getScopedObserverResourceName c "config" in
  let* rendered := lift (getObserverCollectorConfig baseObserverCollectorYAML Marshal
                           observers observerResource) in
  match rendered with
  | inl err => Ret ("", Some (ErrWrap "failed to build observer configuration: " err))
  | inr collectorYAML =>
      match SetControllerReference (mo_ObjectMeta c)
              (with_labels (named configMapName namespace) (Some (observer_labels c))) with
      | inl err => Ret ("", Some err)
      | inr m =>
          let desiredConfigMap :=
            {| cm_ObjectMeta := m; cm_Data := Some {["collector.yaml" := collectorYAML]} |} in
          let* answer := upsert (CConfigMap desiredConfigMap (set_data "collector.yaml" collectorYAML)) in
          match answer with
          | inl err => Ret ("", Some err)
          | inr cm => Ret (getConfigMapSHA MarshalConfigMap Sum256Hex cm)
          end
      end
  end.

(** ** Deployment *)

Definition observer_container (name : string) (observerResource : ObserverResource) : Container_ :=
  {| ct_Name := name; ct_Image := ores_Image observerResource;
     ct_Command := ["/mdai-observer-collector"; "--config=/conf/collector.yaml"];
     ct_Ports := [{| ctp_Port := otelMetricsPort; ctp_Name := otelMetricsName; ctp_Protocol := "" |};
                  {| ctp_Port := observerMetricsPort; ctp_Name := observerMetricsName; ctp_Protocol := "" |};
                  {| ctp_Port := otlpGRPCPort; ctp_Name := otlpGRPCName; ctp_Protocol := "" |};
                  {| ctp_Port := otlpHTTPPort; ctp_Name := otlpHTTPName; ctp_Protocol := "" |}];
     ct_VolumeMounts := [{| vm_Name := "config-volume"; vm_MountPath := "/conf/collector.yaml";
                            vm_SubPath := "collector.yaml" |}];
     ct_Env := []; ct_EnvFrom := []; ct_SecurityContext := Some DefaultSecurityContext;
     ct_LivenessProbe := None; ct_ReadinessProbe := None; ct_ImagePullPolicy := "";
     ct_Resources := ores_Resources observerResource |}.

Definition build_observer_deployment (c : MdaiObserver) (name hash : string)
    (observerResource : ObserverResource) (d : Deployment_) : Deployment_ :=
  let annotations := set_key (dep_TemplateAnnotations d) "prometheus.io/path" "/metrics" in
  let annotations := set_key annotations "prometheus.io/port" "8899" in
  let annotations := set_key annotations "prometheus.io/scrape" "true" in
  let annotations := set_key annotations "mdai_component_type" "mdai-observer" in
  let annotations := set_key annotations "mdai-collector-config/sha256" hash in
  {| dep_ObjectMeta := label_if_nil (observer_labels c) (dep_ObjectMeta d);
     dep_Replicas := Some (ores_Replicas observerResource);
     dep_Selector := Some (set_key (default None (dep_Selector d)) "app" name);
     dep_TemplateLabels :=
       set_key (set_key (dep_TemplateLabels d) "app" name) "app.kubernetes.io/component" name;
     dep_TemplateAnnotations := annotations;
     dep_ServiceAccountName := dep_ServiceAccountName d;
     dep_Containers := [observer_container name observerResource];
     dep_Volumes := [{| vol_Name := "config-volume";
                        vol_ConfigMap := getScopedObserverResourceName c "config" |}];
     dep_Tolerations := ores_Tolerations observerResource |}.

Definition mutate_observer_deployment (c : MdaiObserver) (hash : string)
    (observerResource : ObserverResource) : mutate_fn Deployment_ :=
  owned_deployment (mo_ObjectMeta c)
    (build_observer_deployment c (getScopedObserverResourceName c "") hash observerResource).

Definition createOrUpdateObserverResourceDeployment (c : MdaiObserver) (namespace hash : string)
    (observerResource : ObserverResource) : observer_prog (option error) :=
  let name := getScopedObserverResourceName c "" in
  let* answer := upsert (CDeployment (new_deployment (named name namespace))
                           (mutate_observer_deployment c hash observerResource)) in
  match answer with
  | inl err => Ret (Some err)
  | inr _ => Ret None
  end.

(** ** The life cycle *)

Definition ensureFinalizerInitialized : ReconcileOperation (CtlE MdaiObserver) MdaiObserver :=
  Reconcile.ensureFinalizerInitialized hubFinalizer.

Definition ensureStatusInitialized : ReconcileOperation (CtlE MdaiObserver) MdaiObserver :=
  Reconcile.ensureStatusInitialized.

Definition deleteFinalizer : string -> method (CtlE MdaiObserver) MdaiObserver (option error) :=
  Reconcile.deleteFinalizer.

Definition ensureFinalizerDeleted : method (CtlE MdaiObserver) MdaiObserver (option error) :=
  deleteFinalizer hubFinalizer.

Definition finalize : method (CtlE MdaiObserver) MdaiObserver (ObjectState * option error) :=
  Reconcile.finalize hubFinalizer.

Definition ensureDeletionProcessed : ReconcileOperation (CtlE MdaiObserver) MdaiObserver :=
  Reconcile.ensureDeletionProcessed finalize.

Definition ensureStatusSetToDone : ReconcileOperation (CtlE MdaiObserver) MdaiObserver :=
  Reconcile.ensureStatusSetToDone.

(** ** Synchronisation and the handler *)

Definition ensureSynchronized : ReconcileOperation (CtlE MdaiObserver) MdaiObserver := fun c =>
  let observers := obss_Observers (mo_Spec c) in
  let observerResource := obss_ObserverResource (mo_Spec c) in
  let namespace := om_Namespace (mo_ObjectMeta c) in
  if length observers =? 0 then Ret (c, ContinueProcessing)
  else
  let* (hash, err) := createOrUpdateObserverResourceConfigMap c observerResource observers in
  match err with
  | Some err => Ret (c, RequeueWithError (Some err))
  | None =>
  let* err := createOrUpdateObserverResourceDeployment c namespace hash observerResource in
  match err with
  | Some err =>
      if IsConflict err then Ret (c, Requeue) else Ret (c, RequeueWithError (Some err))
  | None =>
  let* err := createOrUpdateObserverResourceService c namespace in
  match err with
  | Some err => Ret (c, RequeueWithError (Some err))
  | None => Ret (c, ContinueProcessing)
  end end end.

Definition observer_operations
  : list (ReconcileOperation (CtlE MdaiObserver) MdaiObserver) :=
  [ensureDeletionProcessed; ensureStatusInitialized; ensureFinalizerInitialized;
   ensureSynchronized; ensureStatusSetToDone].

Lemma observer_operations_lifecycle :
  observer_operations = lifecycle hubFinalizer finalize [ensureSynchronized; ensureStatusSetToDone].
Proof. reflexivity. Qed.

Definition ReconcileHandler : method (CtlE MdaiObserver) MdaiObserver (with_error ctrl_Result) :=
  run_operations observer_operations.

Definition Reconcile (namespace name : string) : observer_prog (with_error ctrl_Result) :=
  reconcile observer_operations namespace name.

(** ** Lemmas: the calls *)

Definition observer_objects : list object_kind := [KConfigMap; KDeployment; KService].

Lemma observer_config_map_creates c r os :
  creates KConfigMap snd (createOrUpdateObserverResourceConfigMap c r os).
Proof.
  unfold createOrUpdateObserverResourceConfigMap.
  destruct (getObserverCollectorConfig _ _ _ _) as [[err|yaml]|why]; cbn -[upsert].
  - intros tr a [-> [= ->]]. left. eauto.
  - destruct (SetControllerReference _ _) as [err|m]; [intros tr a [-> [= ->]]; left; eauto |].
    intros tr a. rewrite runs_bind.
    intros [(x & tr1 & tr2 & -> & (answer & -> & Ha)%runs_upsert & Hr)|(why & [=] & _)].
    right. destruct x as [err|cm].
    + destruct Hr as [-> [= ->]]. eexists. by split_and!.
    + destruct Hr as [-> [= ->]]. destruct Ha as [result ->]. eexists. by split_and!.
  - intros tr a [_ [=]].
Qed.

Lemma observer_deployment_creates c ns hash r :
  creates KDeployment id (createOrUpdateObserverResourceDeployment c ns hash r).
Proof. unfold createOrUpdateObserverResourceDeployment. solve_creates. Qed.

Lemma observer_service_creates c ns : creates KService id (createOrUpdateObserverResourceService c ns).
Proof. unfold createOrUpdateObserverResourceService. solve_creates. Qed.

Lemma observer_service_refuses c ns : refuses id (createOrUpdateObserverResourceService c ns).
Proof. unfold createOrUpdateObserverResourceService. solve_refuses. Qed.

(** The deployment's error is the server's, or the closure's. *)
Lemma observer_deployment_error c ns hash r tr err :
  runs (createOrUpdateObserverResourceDeployment c ns hash r) tr (Done (Some err)) ->
  exists ev, tr = [ev] /\ creation_error ev = Some err.
Proof.
  unfold createOrUpdateObserverResourceDeployment. rewrite runs_bind.
  intros [(x & tr1 & tr2 & -> & (answer & -> & Ha)%runs_upsert & Hr)|(why & [=] & _)].
  destruct x as [e|o]; destruct Hr as [-> [=]]; subst. eexists. split; done.
Qed.

(** ** Lemmas: what the closures write *)

Lemma label_if_nil_again labels m : label_if_nil labels (label_if_nil labels m) = label_if_nil labels m.
Proof. unfold label_if_nil. by destruct (om_Labels m) eqn:E; [rewrite E |]. Qed.

Lemma label_if_nil_owned `{!OwningLaws} owner labels m :
  SetControllerReference owner m = inr m ->
  SetControllerReference owner (label_if_nil labels m) = inr (label_if_nil labels m).
Proof. intros E. unfold label_if_nil. destruct (om_Labels m); [done |]. by apply owner_labels. Qed.

Definition observer_annotations (hash : string) : list (string * string) :=
  [("prometheus.io/path", "/metrics"); ("prometheus.io/port", "8899"); ("prometheus.io/scrape", "true");
   ("mdai_component_type", "mdai-observer"); ("mdai-collector-config/sha256", hash)].

Lemma build_observer_again c name hash r d :
  build_observer_deployment c name hash r (build_observer_deployment c name hash r d)
  = build_observer_deployment c name hash r d.
Proof.
  unfold build_observer_deployment. cbv zeta.
  cbn [dep_ObjectMeta dep_Selector dep_TemplateLabels dep_TemplateAnnotations dep_ServiceAccountName
       from_option id].
  rewrite label_if_nil_again, set_key_again, set_key_again_two. f_equal.
  apply (set_keys_again (dep_TemplateAnnotations d) (observer_annotations hash)).
  apply (bool_decide_eq_true_1 _). reflexivity.
Qed.

Lemma observer_deployment_settled `{!OwningLaws} c hash r : settled (mutate_observer_deployment c hash r).
Proof.
  apply owned_mutate_settled; [done | done | apply with_dep_meta_same | apply build_observer_again |].
  intros d Hd. by apply label_if_nil_owned.
Qed.

Lemma observer_service_settled c : settled (fun s => Done (inr (build_observer_service c s))).
Proof.
  apply settled_overwrite. intros s. unfold build_observer_service. cbn [svc_ObjectMeta].
  by rewrite label_if_nil_again.
Qed.

(** What the API server fills in is lost again in every reconcile. *)
Lemma observer_service_rewritten c s policy :
  svc_InternalTrafficPolicy s = Some policy -> build_observer_service c s <> s.
Proof. intros Hp E. rewrite <- E in Hp. discriminate. Qed.

(** ** Lemmas: no panic *)

(** The base configuration, when it can be decoded, has the blocks that are
    read. *)
Definition observable_base (base : error + ConfigBlock) : Prop :=
  match base with
  | inl _ => True
  | inr b => (exists processors connectors service pipelines telemetry,
                observable b processors connectors service pipelines telemetry)
             /\ is_Some (grpc_block b)
  end.

Lemma config_done os r :
  observable_base baseObserverCollectorYAML ->
  exists x, getObserverCollectorConfig baseObserverCollectorYAML Marshal os r = Done x.
Proof.
  unfold getObserverCollectorConfig. destruct baseObserverCollectorYAML as [err|b]; [by eexists |].
  intros [(pr & co & se & pi & te & Ho) Hg].
  destruct (observe_config_done _ _ _ _ _ _ os r Ho (fun _ => Hg)) as (config & -> & _). by eexists.
Qed.

Lemma observer_synchronized_safe c :
  observable_base baseObserverCollectorYAML -> safe upserting (ensureSynchronized c).
Proof.
  intros Hb. unfold ensureSynchronized. destruct (_ =? 0); [apply safe_Ret |].
  apply safe_seq.
  { unfold createOrUpdateObserverResourceConfigMap.
    destruct (config_done (obss_Observers (mo_Spec c)) (obss_ObserverResource (mo_Spec c)) Hb)
      as [[err|yaml] ->]; [apply safe_Ret |].
    cbn -[upsert]. destruct (SetControllerReference _ _) as [err|m]; [apply safe_Ret |].
    apply safe_seq; [| intros [err|cm]; apply safe_Ret].
    apply safe_upsert. intros answer. apply upsert_answer_returns.
    intros x [->|[data Hd]]; unfold returns, set_data; [by eexists | rewrite Hd; by eexists]. }
  intros [hash [err|]]; [apply safe_Ret |]. apply safe_seq.
  { unfold createOrUpdateObserverResourceDeployment. apply safe_seq; [| intros [?|?]; apply safe_Ret].
    apply safe_upsert. intros answer. apply upsert_answer_returns. intros x _. apply owned_mutate_returns. }
  intros [err|]; [destruct (IsConflict err); apply safe_Ret |].
  apply safe_seq; [safe_creation createOrUpdateObserverResourceService |].
  intros [err|]; apply safe_Ret.
Qed.

(** ** Lemmas: what is deployed *)

Lemma observer_mounts c name hash r d :
  mounts_config (getScopedObserverResourceName c "config") (build_observer_deployment c name hash r d).
Proof.
  exists (observer_container name r), {| vol_Name := "config-volume";
    vol_ConfigMap := getScopedObserverResourceName c "config" |}.
  split_and!; [by left | by left | done | by left].
Qed.

Lemma observer_app_label c name hash r d :
  gomap (dep_TemplateLabels (build_observer_deployment c name hash r d)) !! "app" = Some name.
Proof. apply set_key_elem. right. split; [done |]. apply set_key_elem. by left. Qed.

Lemma observer_selects c name hash r d :
  own_selector name (default None (dep_Selector d)) ->
  selects_own_pods (build_observer_deployment c name hash r d).
Proof. intros Hs. apply own_selector_app; [done |]. apply (observer_app_label c name hash r d). Qed.

Lemma observer_serves c hash r s d :
  serves (build_observer_service c s)
    (build_observer_deployment c (getScopedObserverResourceName c "") hash r d).
Proof.
  split.
  - apply map_subseteq_spec. intros k v Hk. cbn [svc_Selector build_observer_service gomap default from_option id] in Hk. apply lookup_singleton_Some in Hk as [<- <-].
    apply observer_app_label.
  - repeat (apply Forall_cons; split); try done;
      (exists (observer_container (getScopedObserverResourceName c "") r); split; [by left | reflexivity]).
Qed.

(** ** Properties *)

(** Synchronising an observer without observations does nothing.  Otherwise
    it creates the config map, the deployment and the service in this order,
    each one only after the success of the one before, and goes on exactly when
    all three were made; otherwise it reports an error or asks for a requeue
    because the deployment met a conflict.  It does not panic when the base
    configuration has its blocks and stored config maps have data. *)
Theorem observer_synchronized c :
  (if length (obss_Observers (mo_Spec c)) =? 0
   then ensureSynchronized c = Ret (c, ContinueProcessing)
   else synchronises observer_objects c (ensureSynchronized c))
  /\ (observable_base baseObserverCollectorYAML -> safe upserting (ensureSynchronized c)).
Proof.
  split; [| apply observer_synchronized_safe].
  unfold ensureSynchronized, observer_objects. destruct (_ =? 0); [done |].
  eapply creates_then_report; [apply observer_config_map_creates | intros [] ? [= ->]; by eexists | | done].
  intros [hash err]; intros [= ->].
  eapply creates_then; [apply observer_deployment_creates | | | done].
  { intros tr [err|] err' Hr [=]; subst err'. apply observer_deployment_error in Hr as (ev & -> & He).
    destruct (IsConflict err) eqn:Ec; eexists; (split; [done |]).
    - right. split; [done |]. by exists [], ev, err.
    - left. by exists err. }
  intros err [= ->].
  eapply creates_then_report;
    [apply observer_service_creates | intros ? ? [= ->]; by eexists | | intros _; apply observer_service_refuses].
  intros err [= ->]. apply synchronises_done.
Qed.

(** C25. A synchronisation that goes through has stored the rendered
    configuration in the config map and rolled out a deployment that carries
    the hash of the stored config map, mounts it, has the replicas that were
    asked for and finds its own pods, and whose pods the service reaches on
    named ports. *)
Theorem observer_deploys c tr c' :
  obss_Observers (mo_Spec c) <> [] ->
  runs (ensureSynchronized c) tr (Done (c', ContinueProcessing)) ->
  let r := obss_ObserverResource (mo_Spec c) in
  let name := getScopedObserverResourceName c "" in
  exists yaml m result cm hash deployed service answer,
    getObserverCollectorConfig baseObserverCollectorYAML Marshal (obss_Observers (mo_Spec c)) r
    = Done (inr yaml)
    /\ tr = [Ev (CConfigMap {| cm_ObjectMeta := m; cm_Data := Some {["collector.yaml" := yaml]} |}
                   (set_data "collector.yaml" yaml)) (Done (inr (result, cm)));
             Ev (CDeployment (new_deployment (named name (om_Namespace (mo_ObjectMeta c))))
                   (mutate_observer_deployment c hash r)) deployed;
             Ev (CService service (fun s => Done (inr (build_observer_service c s)))) answer]
    /\ getConfigMapSHA MarshalConfigMap Sum256Hex cm = (hash, None)
    /\ forall d d', mutate_observer_deployment c hash r d = Done (inr d') ->
         gomap (dep_TemplateAnnotations d') !! "mdai-collector-config/sha256" = Some hash
         /\ mounts_config (getScopedObserverResourceName c "config") d'
         /\ dep_Replicas d' = Some (ores_Replicas r)
         /\ (own_selector name (default None (dep_Selector d)) -> selects_own_pods d')
         /\ forall s, serves (build_observer_service c s) d'.
Proof.
  intros Hne Hr. cbv zeta. unfold ensureSynchronized in Hr.
  destruct (obss_Observers (mo_Spec c)) as [|o os] eqn:Eos; [done |]. rewrite <- Eos in Hr |- *.
  replace (length (obss_Observers (mo_Spec c)) =? 0) with false in Hr by by rewrite Eos.
  runs_step Hr as x Hc. destruct x as [hash [err|]]; [by destruct Hr as [_ [=]] |].
  runs_step Hr as err Hd. destruct err as [err|]; [destruct (IsConflict err); by destruct Hr as [_ [=]] |].
  runs_step Hr as err Hs. destruct err as [err|]; [by destruct Hr as [_ [=]] |]. destruct Hr as [-> _].
  unfold createOrUpdateObserverResourceConfigMap in Hc.
  destruct (getObserverCollectorConfig _ _ _ _) as [[err|yaml]|why] eqn:Ey; cbn -[upsert] in Hc;
    [by destruct Hc as [_ [=]] | | by destruct Hc as [_ [=]]].
  destruct (SetControllerReference _ (with_labels _ _)) as [err|m]; [by destruct Hc as [_ [=]] |].
  upsert_step Hc as x answer Ha.
  destruct x as [err|cm]; [by destruct Hc as [_ [=]] |]. destruct Ha as [result ->].
  destruct Hc as [-> [= Hsha]].
  unfold createOrUpdateObserverResourceDeployment in Hd. upsert_step Hd as x deployed Ha.
  destruct x as [err|d]; [by destruct Hd as [_ [=]] |]. destruct Hd as [-> _]. clear Ha.
  unfold createOrUpdateObserverResourceService in Hs.
  destruct (SetControllerReference _ (named _ _)) as [err|sm]; [by destruct Hs as [_ [=]] |].
  upsert_step Hs as x sanswer Ha.
  destruct x as [err|s]; [by destruct Hs as [_ [=]] |]. destruct Hs as [-> _].
  exists yaml, m, result, cm, hash, deployed. do 2 eexists. split; [done |]. split; [reflexivity |].
  split; [done |]. intros d0 d' (md & ->)%owned_mutate_inv. split_and!.
  - apply lookup_insert_eq.
  - apply observer_mounts.
  - done.
  - intros Ho. by apply observer_selects.
  - intros s0. apply observer_serves.
Qed.

(** What the closures write does not depend on how often they run. *)
Theorem observer_objects_settle (laws : OwningLaws) c : only settles (ensureSynchronized c).
Proof.
  unfold ensureSynchronized. destruct (_ =? 0); [apply only_Ret |].
  apply only_bind; [one_creation createOrUpdateObserverResourceConfigMap; apply set_data_settled |].
  intros [hash [err|]]; [apply only_Ret |].
  apply only_bind; [one_creation createOrUpdateObserverResourceDeployment; apply observer_deployment_settled |].
  intros [err|]; [destruct (IsConflict err); apply only_Ret |].
  apply only_bind; [one_creation createOrUpdateObserverResourceService; apply observer_service_settled |].
  intros [err|]; apply only_Ret.
Qed.
End ObserverAdapter.

(** ** Witnesses *)

Import ControllerCalls.Sample.

Definition sample_watch : MdaiObserver :=
  {| mo_ObjectMeta := named "watch" "mdai";
     mo_Spec := {| obss_Observers := [sample_observer "a"]; obss_ObserverResource := ObserverConfig.sample_resource |};
     mo_Status := {| obst_ObserverStatus := ""; obst_LastUpdatedTime := None; obst_Conditions := [] |} |}.

Definition sample_synchronisation : prog (CtlE MdaiObserver) (MdaiObserver * with_error OperationResult) :=
  ensureSynchronized (inr observer_base) (fun _ => inr "receivers: {}") (fun _ => inr "{}") (fun _ => "00")
    sample_watch.

Definition sample_run := run_with new_cluster sample_synchronisation sample_watch.

Lemma sample_watch_runs : runs sample_synchronisation sample_run.1.1 (Done (sample_watch, ContinueProcessing)).
Proof. exact (run_with_runs new_cluster sample_synchronisation sample_watch). Qed.

Lemma sample_base_observable : observable_base (inr observer_base).
Proof.
  destruct observer_base_observable as (pr & co & se & pi & te & Ho & Hg). split; [| done]. eauto 10.
Qed.

Lemma observer_synchronized_witness :
  map kind_of sample_run.1.1 = map Some observer_objects /\ safe upserting sample_synchronisation.
Proof.
  destruct (observer_synchronized (inr observer_base) (fun _ => inr "receivers: {}") (fun _ => inr "{}")
              (fun _ => "00") sample_watch) as [Hs Hsafe].
  split; [| exact (Hsafe sample_base_observable)].
  destruct (Hs _ _ _ sample_watch_runs) as (_ & _ & [Hc _] & _). exact (proj1 (Hc eq_refl)).
Defined.

Lemma observer_deploys_witness :
  exists cm, getConfigMapSHA (fun _ => inr "{}") (fun _ => "00") cm = ("00", None)
    /\ length sample_run.1.1 = 3.
Proof.
  destruct (observer_deploys (inr observer_base) (fun _ => inr "receivers: {}") (fun _ => inr "{}")
              (fun _ => "00") sample_watch _ _ ltac:(discriminate) sample_watch_runs)
    as (yaml & m & result & cm & hash & deployed & service & answer & _ & E & Hsha & _).
  exists cm. rewrite E. split; [| reflexivity]. vm_compute in Hsha |- *. congruence.
Defined.

Lemma observer_objects_settle_witness : only settles sample_synchronisation.
Proof. apply (observer_objects_settle _ _ _ _ own_laws). Defined.
