(* ===== verification/ReplayConfig.v ===== *)
(** * internal/controller: the configuration of a replay's collector

    [getReplayCollectorConfigYAML] and [augmentCollectorConfigPerSpec] of
    mdaireplay_adapter.go.  The theorems give the configuration rendered from
    the embedded document, and say which admitted replays have one. *)

From S2P Require Import Prelude GoLib ApiTypes Errors WebhookReplay ConfigBlock.

Definition replayNameKey : string := "replay_name".

(** config/replay_collector_base_config.yaml, as [yaml.Unmarshal] decodes it. *)
Definition replay_base : ConfigBlock :=
  {["receivers" := AMap {["awss3" := AMap
      {["notifications" := AMap {["opampextension" := AString "opamp"]}; "s3downloader" := AMap ∅]}]};
    "processors" := AMap {["attributes" := AMap {["actions" := ASlice []]}]};
    "exporters" := AMap ∅;
    "extensions" := AMap {["opamp" := AMap
      {["agent_description" := AMap
          {["include_resource_attributes" := ABool true; "non_identifying_attributes" := AMap ∅]};
        "server" := AMap {["http" := AMap {["tls" := AMap {["insecure" := ABool true]}]}]}]}]};
    "service" := AMap
      {["telemetry" := AMap {["metrics" := AMap {["readers" := ASlice [AMap {["pull" := AMap
          {["exporter" := AMap {["prometheus" := AMap
            {["host" := AString "0.0.0.0"; "port" := AFloat "8888"]}]}]}]}]]}]};
        "extensions" := ASlice [AString "opamp"];
        "pipelines" := AMap ∅]}]}.

(** ** mdaireplay_adapter.go *)

Definition replay_id_action (replayId : string) : any :=
  AStringMap {["key" := replayNameKey; "action" := "upsert"; "value" := replayId]}.

Definition replay_pipeline : ConfigBlock :=
  {["receivers" := AStrings ["awss3"]; "processors" := AStrings ["attributes"];
    "exporters" := AStrings ["otlphttp"]]}.

(** The part for the destination. *)
Definition add_destination (spec : MdaiReplaySpec) (config : ConfigBlock) : go (error + ConfigBlock) :=
  match rdst_OtlpHttp (rep_Destination spec) with
  | None => Done (inr config)
  | Some oltpHttpConfig =>
      let otlpEndpoint := rotlp_Endpoint oltpHttpConfig in
      if bool_decide (otlpEndpoint = "") then Done (inr config)
      else
        let! exporters := MustMap config "exporters" in
        let exporters := Set_ exporters "otlphttp" (AMap {["endpoint" := AString otlpEndpoint]}) in
        let config := Set_ config "exporters" (ABlock exporters) in
        if bool_decide (rep_TelemetryType spec = "")
        then Done (inl (Err "telemetry type is missing in replay spec"))
        else
          let pipelineName := rep_TelemetryType spec +:+ "/replay" in
          let! serviceBlock := MustMap config "service" in
          match serviceBlock !! "pipelines" with
          | Some (AMap pipelines) =>
              let pipelines := <[pipelineName := AMap replay_pipeline]> pipelines in
              Done (inr (Set_ config "service" (AMap (Set_ serviceBlock "pipelines" (AMap pipelines)))))
          | _ => Done (inl (Err "pipelines is not a map[string]any"))
          end
  end.

(** The part for the S3 receiver: [Source.S3] is dereferenced. *)
Definition add_source (spec : MdaiReplaySpec) (s3ReceiverConfig : ConfigBlock) : go ConfigBlock :=
  let! s3DownloaderConfig := MustMap s3ReceiverConfig "s3downloader" in
  let s3ReceiverConfig := Set_ s3ReceiverConfig "starttime" (AString (rep_StartTime spec)) in
  let s3ReceiverConfig := Set_ s3ReceiverConfig "endtime" (AString (rep_EndTime spec)) in
  match rsrc_S3 (rep_Source spec) with
  | None => Panics "nil pointer dereference"
  | Some s3 =>
      let down := Set_ s3DownloaderConfig "file_prefix" (AString (rs3_FilePrefix s3)) in
      let down := Set_ down "region" (AString (rs3_S3Region s3)) in
      let down := Set_ down "s3_bucket" (AString (rs3_S3Bucket s3)) in
      let down := Set_ down "s3_prefix" (AString (rs3_S3Path s3)) in
      let down := Set_ down "s3_partition" (ANamed (rs3_S3Partition s3)) in
      Done (Set_ s3ReceiverConfig "s3downloader" (AMap down))
  end.

(** The part for the OpAMP agent.  A map that is set again is a [ConfigBlock]. *)
Definition add_agent (replayId hubName : string) (spec : MdaiReplaySpec) (opampExtension : ConfigBlock)
  : go ConfigBlock :=
  let! agentDescription := MustMap opampExtension "agent_description" in
  let! replayerAttributes := MustMap agentDescription "non_identifying_attributes" in
  let replayerAttributes := Set_ replayerAttributes "replay_id" (AString replayId) in
  let replayerAttributes := Set_ replayerAttributes "hub_name" (AString hubName) in
  let replayerAttributes :=
    Set_ replayerAttributes "replay_status_variable" (AString (rep_StatusVariableRef spec)) in
  let agentDescription := Set_ agentDescription "non_identifying_attributes" (ABlock replayerAttributes) in
  let opampExtension := Set_ opampExtension "agent_description" (AMap agentDescription) in
  let! opampServer := MustMap opampExtension "server" in
  let! http := MustMap opampServer "http" in
  let http := Set_ http "endpoint" (AString (rep_OpAMPEndpoint spec)) in
  let opampServer := Set_ opampServer "http" (AMap http) in
  Done (Set_ opampExtension "server" (ABlock opampServer)).

Definition augmentCollectorConfigPerSpec (replayId hubName : string) (config : ConfigBlock)
    (replayCRSpec : MdaiReplaySpec) : go (error + ConfigBlock) :=
  let! config := within ["processors"; "attributes"] (fun attrProcessor =>
    let! attrProcessorActions := MustSlice attrProcessor "actions" in
    Done (Set_ attrProcessor "actions" (ASlice (attrProcessorActions ++ [replay_id_action replayId])))) config in
  let! answer := add_destination replayCRSpec config in
  match answer with
  | inl err => Done (inl err)
  | inr config =>
      let! config := within ["receivers"; "awss3"] (add_source replayCRSpec) config in
      let! config := within ["extensions"; "opamp"] (add_agent replayId hubName replayCRSpec) config in
      Done (inr config)
  end.

Definition getReplayCollectorConfigYAML (baseReplayCollectorYaml : error + ConfigBlock)
    (Marshal : ConfigBlock -> error + string) (spec : MdaiReplaySpec) (replayId hubName : string)
  : go (error + string) :=
  match baseReplayCollectorYaml with
  | inl err => Done (inl (ErrWrap "unmarshal base collector config: " err))
  | inr config =>
      let! answer := augmentCollectorConfigPerSpec replayId hubName config spec in
      match answer with
      | inl err => Done (inl (ErrWrap "failed to build replay config with error: " err))
      | inr config => Done (YAML Marshal config)
      end
  end.

(** ** Specification *)

(** The endpoint the replay sends to. *)
Definition otlp_endpoint (spec : MdaiReplaySpec) : option string :=
  match rdst_OtlpHttp (rep_Destination spec) with
  | Some o => if bool_decide (rotlp_Endpoint o = "") then None else Some (rotlp_Endpoint o)
  | None => None
  end.

Definition s3_receiver (spec : MdaiReplaySpec) (s3 : MdaiReplayS3Configuration) : ConfigBlock :=
  {["notifications" := AMap {["opampextension" := AString "opamp"]};
    "starttime" := AString (rep_StartTime spec); "endtime" := AString (rep_EndTime spec);
    "s3downloader" := AMap
      {["file_prefix" := AString (rs3_FilePrefix s3); "region" := AString (rs3_S3Region s3);
        "s3_bucket" := AString (rs3_S3Bucket s3); "s3_prefix" := AString (rs3_S3Path s3);
        "s3_partition" := ANamed (rs3_S3Partition s3)]}]}.

Definition opamp_extension (replayId hubName : string) (spec : MdaiReplaySpec) : ConfigBlock :=
  {["agent_description" := AMap
      {["include_resource_attributes" := ABool true;
        "non_identifying_attributes" := ABlock
          {["replay_id" := AString replayId; "hub_name" := AString hubName;
            "replay_status_variable" := AString (rep_StatusVariableRef spec)]}]};
    "server" := ABlock {["http" := AMap
      {["tls" := AMap {["insecure" := ABool true]}; "endpoint" := AString (rep_OpAMPEndpoint spec)]}]}]}.

Definition exporters_of (spec : MdaiReplaySpec) : any :=
  match otlp_endpoint spec with
  | Some endpoint => ABlock {["otlphttp" := AMap {["endpoint" := AString endpoint]}]}
  | None => AMap ∅
  end.

Definition pipelines_of (spec : MdaiReplaySpec) : ConfigBlock :=
  match otlp_endpoint spec with
  | Some _ => {[rep_TelemetryType spec +:+ "/replay" := AMap replay_pipeline]}
  | None => ∅
  end.

(** The configuration of a replay, as a document. *)
Definition replay_config (replayId hubName : string) (spec : MdaiReplaySpec)
    (s3 : MdaiReplayS3Configuration) : ConfigBlock :=
  {["receivers" := AMap {["awss3" := AMap (s3_receiver spec s3)]};
    "processors" := AMap {["attributes" := AMap {["actions" := ASlice [replay_id_action replayId]]}]};
    "exporters" := exporters_of spec;
    "extensions" := AMap {["opamp" := AMap (opamp_extension replayId hubName spec)]};
    "service" := AMap
      {["telemetry" := AMap {["metrics" := AMap {["readers" := ASlice [AMap {["pull" := AMap
          {["exporter" := AMap {["prometheus" := AMap
            {["host" := AString "0.0.0.0"; "port" := AFloat "8888"]}]}]}]}]]}]};
        "extensions" := ASlice [AString "opamp"];
        "pipelines" := AMap (pipelines_of spec)]}]}.

(** ** Lemmas *)

(** Rendering the embedded document for a replay gives exactly this document.
    A destination without a telemetry type is an error; a replay without S3
    source makes the function dereference a null pointer. *)
Lemma replay_config_text replayId hubName spec :
  augmentCollectorConfigPerSpec replayId hubName replay_base spec
  = if bool_decide (rep_TelemetryType spec = "") && bool_decide (is_Some (otlp_endpoint spec))
    then Done (inl (Err "telemetry type is missing in replay spec"))
    else match rsrc_S3 (rep_Source spec) with
         | Some s3 => Done (inr (replay_config replayId hubName spec s3))
         | None => Panics "nil pointer dereference"
         end.
Proof.
  unfold augmentCollectorConfigPerSpec, add_destination, add_source, replay_config,
    exporters_of, pipelines_of, otlp_endpoint.
  destruct (rdst_OtlpHttp (rep_Destination spec)) as [o|];
    [destruct (bool_decide (rotlp_Endpoint o = "")) |];
    destruct (bool_decide (rep_TelemetryType spec = "")); simpl andb;
    destruct (rsrc_S3 (rep_Source spec)) as [s3|]; reflexivity.
Qed.

Lemma replay_config_valid replayId hubName spec s3 :
  valid_pipelines (replay_config replayId hubName spec s3) <-> is_Some (otlp_endpoint spec).
Proof.
  set (config := replay_config replayId hubName spec s3).
  assert (Ep : block_at ["service"; "pipelines"] config = Some (pipelines_of spec)) by reflexivity.
  unfold pipelines_of in Ep. split.
  - intros (pipelines & E & Hne & _). rewrite Ep in E. destruct (otlp_endpoint spec); [eauto |].
    by injection E as <-.
  - intros [endpoint He]. rewrite He in Ep. eexists. split; [exact Ep |]. split_and!.
    + apply (insert_non_empty (M:=gmap string)).
    + intros k v [_ <-]%lookup_singleton_Some. exists replay_pipeline. split; [done |].
      assert (Hdef : forall s n, section config s = Some n -> forall name, is_Some (n !! name) ->
                forall l, s ∈ l -> defines config l name) by (intros; by exists s, n).
      assert (Hx : section config "exporters" = Some {["otlphttp" := AMap {["endpoint" := AString endpoint]}]}).
      { unfold section, config, replay_config, exporters_of. by rewrite He. }
      constructor; cbn; repeat split; try discriminate; apply Forall_singleton.
      * eapply (Hdef "receivers"); [reflexivity | by eexists | set_solver].
      * eapply (Hdef "processors"); [reflexivity | by eexists | set_solver].
      * eapply Hdef; [exact Hx | by eexists | set_solver].
    + intros connectors c E. discriminate.
Qed.

Lemma admitted_telemetry time_error r :
  (Replay_ValidateCreate time_error (ObjMdaiReplay r)).2 = None -> rep_TelemetryType (mr_Spec r) <> "".
Proof.
  intros Hok. assert (Hv : (validateReplaySpec time_error (mr_Spec r) ReplayCustomResourceValidatorMode).2 = None).
  { revert Hok. simpl. by destruct (validateReplaySpec _ _ _) as [w [e|]]. }
  apply cr_checks_necessary in Hv as [_ _ _ Ht]. intros E. rewrite E in Ht. by apply contains_elem in Ht.
Qed.

(** ** Properties *)

(** C11. An admitted replay has a configuration exactly when it names an S3
    source, although the webhook admits replays without one; without it the
    rendering dereferences a null pointer.  The configuration is exactly the
    document [replay_config], and the collector can load it exactly when an OTLP
    endpoint is set, which the webhook does not ask for either. *)
Theorem admitted_replay_config time_error r :
  (Replay_ValidateCreate time_error (ObjMdaiReplay r)).2 = None ->
  let spec := mr_Spec r in
  let rendered := augmentCollectorConfigPerSpec (om_Name (mr_ObjectMeta r)) (rep_HubName spec) replay_base spec in
  match rsrc_S3 (rep_Source spec) with
  | Some s3 =>
      let config := replay_config (om_Name (mr_ObjectMeta r)) (rep_HubName spec) spec s3 in
      rendered = Done (inr config) /\ (valid_pipelines config <-> is_Some (otlp_endpoint spec))
  | None => exists why, rendered = Panics why
  end.
Proof.
  intros Hok. cbv zeta.
  pose proof (admitted_telemetry time_error r Hok) as Ht.
  rewrite replay_config_text. rewrite bool_decide_eq_false_2 by done. simpl andb.
  destruct (rsrc_S3 _) as [s3|]; [| by eexists]. split; [done | apply replay_config_valid].
Qed.

(** ** Witnesses *)

Definition sample_replay_spec (source : option MdaiReplayS3Configuration) (endpoint : string) : MdaiReplaySpec :=
  {| rep_StartTime := "2025-01-01"; rep_EndTime := "2025-01-02"; rep_TelemetryType := "logs";
     rep_HubName := "hub"; rep_StatusVariableRef := "status"; rep_OpAMPEndpoint := "http://opamp";
     rep_IgnoreSendingQueue := false;
     rep_Source := {| rsrc_AWSConfig := Some {| raws_AWSAccessKeySecret := Some "aws" |}; rsrc_S3 := source |};
     rep_Destination := {| rdst_OtlpHttp := Some {| rotlp_Endpoint := endpoint |} |};
     rep_Resource := {| rres_Image := "" |} |}.

Definition sample_replay (source : option MdaiReplayS3Configuration) (endpoint : string) : MdaiReplay :=
  {| mr_ObjectMeta := named "again" "mdai"; mr_Spec := sample_replay_spec source endpoint;
     mr_Status := {| reps_LastUpdatedTime := None; reps_Conditions := [] |} |}.

Definition sample_source : MdaiReplayS3Configuration :=
  {| rs3_S3Region := "us-east-1"; rs3_S3Bucket := "logs"; rs3_FilePrefix := "log-"; rs3_S3Path := "hub/";
     rs3_S3Partition := "minute" |}.

(** One replay of each kind: with source and endpoint, without endpoint, without
    source. *)
Lemma admitted_replay_config_witness :
  (exists config, augmentCollectorConfigPerSpec "again" "hub" replay_base
                    (sample_replay_spec (Some sample_source) "http://otlp") = Done (inr config)
     /\ valid_pipelines config)
  /\ (exists config, augmentCollectorConfigPerSpec "again" "hub" replay_base
                       (sample_replay_spec (Some sample_source) "") = Done (inr config)
        /\ ~ valid_pipelines config)
  /\ exists why, augmentCollectorConfigPerSpec "again" "hub" replay_base
                   (sample_replay_spec None "http://otlp") = Panics why.
Proof.
  split; [| split].
  - destruct (admitted_replay_config (fun _ _ => "") (sample_replay (Some sample_source) "http://otlp") eq_refl)
      as (E & Hv). eexists. split; [exact E |]. apply Hv. by eexists.
  - destruct (admitted_replay_config (fun _ _ => "") (sample_replay (Some sample_source) "") eq_refl)
      as (E & Hv). eexists. split; [exact E |]. rewrite Hv. by intros [? ?].
  - exact (admitted_replay_config (fun _ _ => "") (sample_replay None "http://otlp") eq_refl).
Defined.
