(* ===== verification/ReplayAdapter.v ===== *)
(** * internal/controller: the replay adapter

    mdaireplay_adapter.go without the configuration, and
    mdaireplay_controller.go.  The life cycle is that of [Reconcile] with a
    finalization of its own: it waits until the sending queue of the replay's
    collector is empty, whose length it reads from the collector's metrics. *)

From S2P Require Import Prelude GoLib ApiTypes Errors Components Effects Reconcile WebhookReplay.
From S2P Require Import K8sObjects Builders ConfigBlock ControllerCalls ReplayConfig.
From Stdlib Require Import SpecFloat.

Definition mdaiReplayFinalizerName : string := "mydecisive.ai/replay_finalizer".
Definition replayerDefaultImage : string := "otel/opentelemetry-collector-contrib:0.136.0".
Definition replayCollectorHubComponent : string := "mdai-replay".

#[export] Instance replay_resource : Resource MdaiReplay := {
  r_meta := mr_ObjectMeta;
  r_with_meta r m := {| mr_ObjectMeta := m; mr_Spec := mr_Spec r; mr_Status := mr_Status r |};
  r_conditions r := reps_Conditions (mr_Status r);
  r_with_conditions r cs :=
    {| mr_ObjectMeta := mr_ObjectMeta r; mr_Spec := mr_Spec r;
       mr_Status := {| reps_LastUpdatedTime := reps_LastUpdatedTime (mr_Status r);
                       reps_Conditions := cs |} |}
}.

#[export] Instance replay_resource_laws : ResourceLaws MdaiReplay.
Proof. by constructor. Defined.

(** ** Metrics *)

(** The part of a metric that is read; values are IEEE 754 numbers. *)
Record Metric := { metric_Gauge : option spec_float; metric_Counter : option spec_float }.

Definition float_zero : spec_float := S754_zero false.

(** [size > 0]. *)
Definition positive (size : spec_float) : bool := SFltb float_zero size.

(** [NewMdaiReplayAdapter] falls back to [defaultMetricsURLBuilder]. *)
Definition defaultMetricsURLBuilder (serviceName namespace : string) : string :=
  "http://" +:+ serviceName +:+ "." +:+ namespace +:+ ".svc.cluster.local:8888/metrics".

Definition NewMdaiReplayAdapter (metricsURLBuilder : option (string -> string -> string))
  : string -> string -> string :=
  match metricsURLBuilder with
  | None => defaultMetricsURLBuilder
  | Some metricsURLBuilder => metricsURLBuilder
  end.

Section ReplayAdapter.
Context (baseReplayCollectorYaml : error + ConfigBlock) (Marshal : ConfigBlock -> error + string).
Context (MarshalConfigMap : ConfigMap -> error + string) (Sum256Hex : string -> string).
(** [expfmt.TextParser.TextToMetricFamilies]. *)
Context (TextToMetricFamilies : string -> error + gmap string (list Metric)).
Context `{Owning} `{K8sUtil}.

Abbreviation replay_prog A := (prog (CtlE MdaiReplay) A).

(** The first gauge or counter. *)
Fixpoint first_value (metrics : list Metric) : option spec_float :=
  match metrics with
  | [] => None
  | metric :: metrics =>
      match metric_Gauge metric with
      | Some value => Some value
      | None =>
          match metric_Counter metric with
          | Some value => Some value
          | None => first_value metrics
          end
      end
  end.

Definition extractMetricValueFromResponse (body metricName : string) : with_error spec_float :=
  match TextToMetricFamilies body with
  | inl err => (float_zero, Some err)
  | inr metricFamilies =>
      match metricFamilies !! metricName with
      | None => (float_zero, Some (Err ("metric " +:+ metricName +:+ " not found")))
      | Some metricFamily =>
          match first_value metricFamily with
          | Some value => (value, None)
          | None =>
              (float_zero, Some (Err ("found metrics with name " +:+ metricName
                                      +:+ " but need gauge or counter")))
          end
      end
  end.

(** The call answers with an error when the request cannot be made, sent or
    read. *)
Definition getMetricValue (metricsUrl metricName : string) : replay_prog (with_error spec_float) :=
  let* resp := call (CHTTPGet metricsUrl) in
  match resp with
  | inl err => Ret (float_zero, Some err)
  | inr body => Ret (extractMetricValueFromResponse body metricName)
  end.

(** ** Objects *)

Definition replay_name (c : MdaiReplay) : string := om_Name (mr_ObjectMeta c).

Definition getReplayerResourceName (c : MdaiReplay) (suffix : string) : string :=
  "replay-" +:+ replay_name c +:+ "-" +:+ rep_HubName (mr_Spec c) +:+ "-" +:+ suffix.

Definition createOrUpdateReplayerConfigMap (c : MdaiReplay) : replay_prog (with_error string) :=
  let namespace := om_Namespace (mr_ObjectMeta c) in
  let configMapName := getReplayerResourceName c "collector-config" in
  let* rendered := lift (getReplayCollectorConfigYAML baseReplayCollectorYaml Marshal (mr_Spec c)
                           (replay_name c) (rep_HubName (mr_Spec c))) in
  match rendered with
  | inl err => Ret ("", Some (ErrWrap "failed to build replay configuration: " err))
  | inr collectorYAML =>
      let labels := {["app" := getReplayerResourceName c "collector";
                      LabelManagedByMdaiKey := LabelManagedByMdaiValue;
                      HubComponentLabel := mdaiObserverHubComponent;
                      hubNameLabel := rep_HubName (mr_Spec c)]} in
      match SetControllerReference (mr_ObjectMeta c)
              (with_labels (named configMapName namespace) (Some labels)) with
      | inl err => Ret ("", Some err)
      | inr m =>
          let desiredConfigMap :=
            {| cm_ObjectMeta := m; cm_Data := Some {["collector.yaml" := collectorYAML]} |} in
          let* answer := upsert (CConfigMap desiredConfigMap (set_data "collector.yaml" collectorYAML)) in
          match answer with
          | inl err => Ret ("", Some err)
          | inr cm => Ret (getConfigMapSHA MarshalConfigMap Sum256Hex cm)
          end
      end
  end.

Definition replayer_container (c : MdaiReplay) (name image : string) : Container_ :=
  let container :=
    WithEnvFrom [EnvFromConfigMap (getReplayerResourceName c "collector-config")]
    (WithVolumeMounts [{| vm_Name := "config-volume"; vm_MountPath := "/conf/collector.yaml";
                          vm_SubPath := "collector.yaml" |}]
    (WithPorts [{| ctp_Port := otelMetricsPort; ctp_Name := "otelcol-metrics"; ctp_Protocol := "" |}]
    (WithCommand ["/otelcol-contrib"; "--config=/conf/collector.yaml"]
    (Container name image)))) in
  match rsrc_AWSConfig (rep_Source (mr_Spec c)) with
  | Some awsConfig =>
      match raws_AWSAccessKeySecret awsConfig with
      | Some secret => WithAWSSecret (Some secret) container
      | None => container
      end
  | None => container
  end.

Definition augmentDeploymentWithValues (c : MdaiReplay) (name image configHash : string)
    (d : Deployment_) : Deployment_ :=
  Deployment.WithVolumes [{| vol_Name := "config-volume";
                             vol_ConfigMap := getReplayerResourceName c "collector-config" |}]
  (Deployment.WithContainers [replayer_container c name image]
  (Deployment.WithReplicas 1
  (Deployment.WithTemplateAnnotation "replay-collector-config/sha256" configHash
  (Deployment.WithTemplateLabel "app.kubernetes.io/component" name
  (Deployment.WithTemplateLabel "app" name
  (Deployment.WithSelectorLabel "app" name
  (Deployment.WithLabel HubComponentLabel replayCollectorHubComponent
  (Deployment.WithLabel LabelManagedByMdaiKey LabelManagedByMdaiValue
  (Deployment.WithLabel hubNameLabel (replay_name c)
  (Deployment.WithLabel "app" name d)))))))))).

Definition replayer_image (c : MdaiReplay) : string :=
  if negb (bool_decide (rres_Image (rep_Resource (mr_Spec c)) = ""))
  then rres_Image (rep_Resource (mr_Spec c)) else replayerDefaultImage.

Definition mutate_replayer_deployment (c : MdaiReplay) (configHash : string) : mutate_fn Deployment_ :=
  owned_deployment (mr_ObjectMeta c)
    (augmentDeploymentWithValues c (getReplayerResourceName c "collector") (replayer_image c) configHash).

Definition createOrUpdateReplayerDeployment (c : MdaiReplay) (configHash : string)
  : replay_prog (option error) :=
  let name := getReplayerResourceName c "collector" in
  let* answer := upsert (CDeployment (new_deployment (named name (om_Namespace (mr_ObjectMeta c))))
                           (mutate_replayer_deployment c configHash)) in
  match answer with
  | inl err => Ret (Some err)
  | inr _ => Ret None
  end.

Definition build_replayer_service (c : MdaiReplay) (appLabel : string) (s : Service_) : Service_ :=
  Service.WithType "ClusterIP"
  (Service.WithPorts [service_port "otelcol-metrics" otelMetricsPort (FromString "otelcol-metrics")]
  (Service.WithSelectorLabel "app" appLabel
  (Service.WithLabel LabelManagedByMdaiKey LabelManagedByMdaiValue
  (Service.WithLabel HubComponentLabel replayCollectorHubComponent
  (Service.WithLabel hubNameLabel (replay_name c)
  (Service.WithLabel "app" appLabel s)))))).

Definition createOrUpdateReplayerService (c : MdaiReplay) : replay_prog (option error) :=
  let name := getReplayerResourceName c "service" in
  let appLabel := getReplayerResourceName c "collector" in
  match SetControllerReference (mr_ObjectMeta c) (named name (om_Namespace (mr_ObjectMeta c))) with
  | inl err => Ret (Some err)
  | inr m =>
      let* answer := upsert (CService (new_service m)
                               (fun s => Done (inr (build_replayer_service c appLabel s)))) in
      match answer with
      | inl err => Ret (Some (ErrWrap ("failed to create or update " +:+ name +:+ ": ") err))
      | inr _ => Ret None
      end
  end.

(** ** Finalization *)

Definition replay_finalize (metricsURLBuilder : string -> string -> string)
  : method (CtlE MdaiReplay) MdaiReplay (ObjectState * option error) := fun c =>
  if negb (ContainsFinalizer (mr_ObjectMeta c) mdaiReplayFinalizerName) then Ret (c, (ObjectModified, None))
  else
    let after : method (CtlE MdaiReplay) MdaiReplay (ObjectState * option error) :=
      fun c => Ret (c, (ObjectModified, None)) in
    if negb (rep_IgnoreSendingQueue (mr_Spec c)) then
      let serviceName := getReplayerResourceName c "service" in
      let metricsUrl := metricsURLBuilder serviceName (om_Namespace (mr_ObjectMeta c)) in
      let* (sendingQueueSize, err) := getMetricValue metricsUrl "otelcol_exporter_queue_size" in
      match err with
      | Some err => Ret (c, (ObjectUnchanged, Some err))
      | None =>
          if positive sendingQueueSize then Ret (c, (ObjectUnchanged, None))
          else finalize_refetched mdaiReplayFinalizerName after c
      end
    else finalize_refetched mdaiReplayFinalizerName after c.

(** ** The life cycle *)

Definition ensureFinalizerInitialized : ReconcileOperation (CtlE MdaiReplay) MdaiReplay :=
  Reconcile.ensureFinalizerInitialized mdaiReplayFinalizerName.

Definition ensureStatusInitialized : ReconcileOperation (CtlE MdaiReplay) MdaiReplay :=
  Reconcile.ensureStatusInitialized.

Definition deleteFinalizer : string -> method (CtlE MdaiReplay) MdaiReplay (option error) :=
  Reconcile.deleteFinalizer.

Definition ensureFinalizerDeleted : method (CtlE MdaiReplay) MdaiReplay (option error) :=
  deleteFinalizer mdaiReplayFinalizerName.

Definition ensureDeletionProcessed (metricsURLBuilder : string -> string -> string)
  : ReconcileOperation (CtlE MdaiReplay) MdaiReplay :=
  Reconcile.ensureDeletionProcessed (replay_finalize metricsURLBuilder).

Definition ensureStatusSetToDone : ReconcileOperation (CtlE MdaiReplay) MdaiReplay :=
  Reconcile.ensureStatusSetToDone.

(** ** Synchronisation and the handler *)

Definition ensureSynchronized : ReconcileOperation (CtlE MdaiReplay) MdaiReplay := fun c =>
  let* (hash, err) := createOrUpdateReplayerConfigMap c in
  match err with
  | Some err => Ret (c, RequeueWithError (Some err))
  | None =>
  let* err := createOrUpdateReplayerDeployment c hash in
  match err with
  | Some err =>
      if IsConflict err then Ret (c, Requeue) else Ret (c, RequeueWithError (Some err))
  | None =>
  let* err := createOrUpdateReplayerService c in
  match err with
  | Some err => Ret (c, RequeueWithError (Some err))
  | None => Ret (c, ContinueProcessing)
  end end end.

Definition replay_operations (metricsURLBuilder : string -> string -> string)
  : list (ReconcileOperation (CtlE MdaiReplay) MdaiReplay) :=
  [ensureDeletionProcessed metricsURLBuilder; ensureStatusInitialized; ensureFinalizerInitialized;
   ensureSynchronized; ensureStatusSetToDone].

Lemma replay_operations_lifecycle (metricsURLBuilder : string -> string -> string) :
  replay_operations metricsURLBuilder = lifecycle mdaiReplayFinalizerName (replay_finalize metricsURLBuilder) [ensureSynchronized; ensureStatusSetToDone].
Proof. reflexivity. Qed.

Definition ReconcileHandler (metricsURLBuilder : string -> string -> string)
  : method (CtlE MdaiReplay) MdaiReplay (with_error ctrl_Result) :=
  run_operations (replay_operations metricsURLBuilder).

(** The controller passes no URL builder. *)
Definition Reconcile (namespace name : string) : replay_prog (with_error ctrl_Result) :=
  reconcile_result (replay_operations (NewMdaiReplayAdapter None)) namespace name.

(** ** Lemmas: the calls *)

Definition replay_objects : list object_kind := [KConfigMap; KDeployment; KService].

Lemma replay_config_map_creates c : creates KConfigMap snd (createOrUpdateReplayerConfigMap c).
Proof.
  unfold createOrUpdateReplayerConfigMap.
  destruct (getReplayCollectorConfigYAML _ _ _ _ _) as [[err|yaml]|why]; cbn -[upsert].
  - intros tr a [-> [= ->]]. left. eauto.
  - destruct (SetControllerReference _ _) as [err|m]; [intros tr a [-> [= ->]]; left; eauto |].
    intros tr a Hr. upsert_step Hr as x answer Ha. right. destruct x as [err|cm].
    + destruct Hr as [-> [= ->]]. eexists. by split_and!.
    + destruct Hr as [-> [= ->]]. destruct Ha as [result ->]. eexists. by split_and!.
  - intros tr a [_ [=]].
Qed.

Lemma replay_deployment_creates c hash : creates KDeployment id (createOrUpdateReplayerDeployment c hash).
Proof. unfold createOrUpdateReplayerDeployment. solve_creates. Qed.

Lemma replay_service_creates c : creates KService id (createOrUpdateReplayerService c).
Proof. unfold createOrUpdateReplayerService. solve_creates. Qed.

Lemma replay_service_refuses c : refuses id (createOrUpdateReplayerService c).
Proof. unfold createOrUpdateReplayerService. solve_refuses. Qed.

Lemma replay_deployment_error c hash tr err :
  runs (createOrUpdateReplayerDeployment c hash) tr (Done (Some err)) ->
  exists ev, tr = [ev] /\ creation_error ev = Some err.
Proof.
  unfold createOrUpdateReplayerDeployment. intros Hr. upsert_step Hr as x answer Ha.
  destruct x as [e|o]; destruct Hr as [-> [=]]; subst. eexists. split; done.
Qed.

Lemma replay_synchronises c : synchronises replay_objects c (ensureSynchronized c).
Proof.
  unfold ensureSynchronized, replay_objects.
  eapply creates_then_report; [apply replay_config_map_creates | intros [] ? [= ->]; by eexists | | done].
  intros [hash err]; intros [= ->].
  eapply creates_then; [apply replay_deployment_creates | | | done].
  { intros tr [err|] err' Hr [=]; subst err'. apply replay_deployment_error in Hr as (ev & -> & He).
    destruct (IsConflict err) eqn:Ec; eexists; (split; [done |]).
    - right. split; [done |]. by exists [], ev, err.
    - left. by exists err. }
  intros err [= ->].
  eapply creates_then_report;
    [apply replay_service_creates | intros ? ? [= ->]; by eexists | | intros _; apply replay_service_refuses].
  intros err [= ->]. apply synchronises_done.
Qed.

Lemma replay_sync_quiet c : quiet (ensureSynchronized c).
Proof.
  unfold quiet, ensureSynchronized, updated.
  apply only_bind; [one_creation createOrUpdateReplayerConfigMap; done |].
  intros [hash [err|]]; [apply only_Ret |].
  apply only_bind; [one_creation createOrUpdateReplayerDeployment; done |].
  intros [err|]; [destruct (IsConflict err); apply only_Ret |].
  apply only_bind; [one_creation createOrUpdateReplayerService; done |].
  intros [err|]; apply only_Ret.
Qed.

(** ** Lemmas: what the closures write *)

Definition replay_labels (c : MdaiReplay) (name : string) : list (string * string) :=
  [("app", name); (hubNameLabel, replay_name c); (LabelManagedByMdaiKey, LabelManagedByMdaiValue);
   (HubComponentLabel, replayCollectorHubComponent)].

Lemma augment_fields c name image hash d :
  augmentDeploymentWithValues c name image hash d =
  {| dep_ObjectMeta := label_keys (dep_ObjectMeta d) (replay_labels c name);
     dep_Replicas := Some 1%Z;
     dep_Selector := Some (set_key (default None (dep_Selector d)) "app" name);
     dep_TemplateLabels :=
       set_keys (dep_TemplateLabels d) [("app", name); ("app.kubernetes.io/component", name)];
     dep_TemplateAnnotations := set_key (dep_TemplateAnnotations d) "replay-collector-config/sha256" hash;
     dep_ServiceAccountName := dep_ServiceAccountName d;
     dep_Containers := [replayer_container c name image];
     dep_Volumes := [{| vol_Name := "config-volume";
                        vol_ConfigMap := getReplayerResourceName c "collector-config" |}];
     dep_Tolerations := dep_Tolerations d |}.
Proof. reflexivity. Qed.

Lemma replay_labels_distinct c name : NoDup (map fst (replay_labels c name)).
Proof. apply (bool_decide_eq_true_1 _). reflexivity. Qed.

Lemma template_keys_distinct (name : string) :
  NoDup (map fst [("app", name); ("app.kubernetes.io/component", name)]).
Proof. apply (bool_decide_eq_true_1 _). reflexivity. Qed.

Lemma augment_again c name image hash d :
  augmentDeploymentWithValues c name image hash (augmentDeploymentWithValues c name image hash d)
  = augmentDeploymentWithValues c name image hash d.
Proof.
  rewrite !augment_fields.
  cbn [dep_ObjectMeta dep_Selector dep_TemplateLabels dep_TemplateAnnotations dep_ServiceAccountName
       dep_Tolerations from_option id].
  rewrite (label_keys_again _ _ (replay_labels_distinct c name)).
  by rewrite (set_keys_again _ _ (template_keys_distinct name)), !set_key_again.
Qed.

Lemma replay_deployment_settled `{!OwningLaws} c hash : settled (mutate_replayer_deployment c hash).
Proof.
  apply owned_mutate_settled; [done | done | apply with_dep_meta_same | apply augment_again |].
  intros d Hd. rewrite augment_fields. by apply owned_label_keys.
Qed.

Lemma build_replayer_service_fields c app s :
  build_replayer_service c app s =
  {| svc_ObjectMeta := label_keys (svc_ObjectMeta s)
       [("app", app); (hubNameLabel, replay_name c); (HubComponentLabel, replayCollectorHubComponent);
        (LabelManagedByMdaiKey, LabelManagedByMdaiValue)];
     svc_Selector := set_key (svc_Selector s) "app" app;
     svc_Ports := [service_port "otelcol-metrics" otelMetricsPort (FromString "otelcol-metrics")];
     svc_Type := "ClusterIP"; svc_InternalTrafficPolicy := svc_InternalTrafficPolicy s |}.
Proof. reflexivity. Qed.

Lemma replay_service_settled c app : settled (fun s => Done (inr (build_replayer_service c app s))).
Proof.
  apply settled_overwrite. intros s. rewrite !build_replayer_service_fields.
  cbn [svc_ObjectMeta svc_Selector svc_InternalTrafficPolicy].
  rewrite label_keys_again by (apply (bool_decide_eq_true_1 _); reflexivity). by rewrite set_key_again.
Qed.

Lemma replayer_container_ports c name image :
  ct_Ports (replayer_container c name image)
  = [{| ctp_Port := otelMetricsPort; ctp_Name := "otelcol-metrics"; ctp_Protocol := "" |}]
  /\ ct_VolumeMounts (replayer_container c name image)
     = [{| vm_Name := "config-volume"; vm_MountPath := "/conf/collector.yaml"; vm_SubPath := "collector.yaml" |}].
Proof.
  unfold replayer_container. destruct (rsrc_AWSConfig _) as [aws|]; [| done].
  by destruct (raws_AWSAccessKeySecret aws).
Qed.

Lemma replayer_container_secret c name image aws secret :
  rsrc_AWSConfig (rep_Source (mr_Spec c)) = Some aws -> raws_AWSAccessKeySecret aws = Some secret ->
  EnvFromSecret secret ∈ ct_EnvFrom (replayer_container c name image).
Proof. unfold replayer_container. intros -> ->. simpl. set_solver. Qed.

Lemma replayer_deployment_right c hash d md :
  let name := getReplayerResourceName c "collector" in
  let d' := augmentDeploymentWithValues c name (replayer_image c) hash (with_dep_meta d md) in
  gomap (dep_TemplateAnnotations d') !! "replay-collector-config/sha256" = Some hash
  /\ mounts_config (getReplayerResourceName c "collector-config") d'
  /\ dep_Replicas d' = Some 1%Z
  /\ (forall ct, ct ∈ dep_Containers d' ->
        ct_Image ct = replayer_image c
        /\ forall aws secret, rsrc_AWSConfig (rep_Source (mr_Spec c)) = Some aws ->
             raws_AWSAccessKeySecret aws = Some secret -> EnvFromSecret secret ∈ ct_EnvFrom ct)
  /\ (own_selector name (default None (dep_Selector d)) -> selects_own_pods d')
  /\ (forall s, own_selector name (svc_Selector s) -> serves (build_replayer_service c name s) d').
Proof.
  cbv zeta. set (name := getReplayerResourceName c "collector"). rewrite augment_fields.
  assert (Happ : gomap (set_keys (dep_TemplateLabels d) [("app", name); ("app.kubernetes.io/component", name)])
                   !! "app" = Some name).
  { apply set_keys_elem; [apply template_keys_distinct | by left]. }
  destruct (replayer_container_ports c name (replayer_image c)) as [Hports Hmounts]. split_and!.
  - apply lookup_insert_eq.
  - exists (replayer_container c name (replayer_image c)), {| vol_Name := "config-volume";
      vol_ConfigMap := getReplayerResourceName c "collector-config" |}.
    split_and!; [by left | by left | done |]. rewrite Hmounts. by left.
  - done.
  - intros ct ->%list_elem_of_singleton. split.
    + unfold replayer_container. destruct (rsrc_AWSConfig _) as [aws|]; [| done].
      by destruct (raws_AWSAccessKeySecret aws).
    + intros aws secret. apply replayer_container_secret.
  - intros Hs. by apply own_selector_app.
  - intros s Hs. split; [by apply own_selector_app |]. apply Forall_singleton.
    exists (replayer_container c name (replayer_image c)). split; [by left |]. by rewrite Hports.
Qed.

(** ** Lemmas: finalization *)

Definition queue_url (metricsURLBuilder : string -> string -> string) (c : MdaiReplay) : string :=
  metricsURLBuilder (getReplayerResourceName c "service") (om_Namespace (mr_ObjectMeta c)).

(** The length of the queue in an answer of the metrics endpoint. *)
Definition queue_size (answer : error + string) : error + spec_float :=
  match answer with
  | inl err => inl err
  | inr body =>
      match extractMetricValueFromResponse body "otelcol_exporter_queue_size" with
      | (_, Some err) => inl err
      | (size, None) => inr size
      end
  end.

Abbreviation finalize_rest :=
  (finalize_refetched (E:=CtlE MdaiReplay) mdaiReplayFinalizerName
     (fun c : MdaiReplay => Ret (c, (ObjectModified, None)))).

(** What the finalization of a replay that waits for its queue does. *)
Lemma replay_finalize_runs `{!K8sLaws} b c tr out :
  mdaiReplayFinalizerName ∈ om_Finalizers (mr_ObjectMeta c) ->
  rep_IgnoreSendingQueue (mr_Spec c) = false ->
  runs (replay_finalize b c) tr out <->
  exists answer tr', tr = Ev (CHTTPGet (queue_url b c)) answer :: tr' /\
    match queue_size answer with
    | inl err => tr' = [] /\ out = Done (c, (ObjectUnchanged, Some err))
    | inr size =>
        if positive size then tr' = [] /\ out = Done (c, (ObjectUnchanged, None))
        else runs (finalize_rest c) tr' out
    end.
Proof.
  intros Hf Hi. unfold replay_finalize. rewrite contains_finalizer_dec, bool_decide_eq_true_2 by done.
  rewrite Hi. cbn -[finalize_refetched positive queue_size extractMetricValueFromResponse]. split.
  - intros (answer & tr' & -> & Hr). exists answer, tr'. split; [done |].
    unfold queue_size. destruct answer as [err|body]; [done |]. cbn -[finalize_refetched positive] in Hr.
    destruct (extractMetricValueFromResponse _ _) as [size [err|]]; [done |].
    by destruct (positive size).
  - intros (answer & tr' & -> & Hr). exists answer, tr'. split; [done |].
    unfold queue_size in Hr. destruct answer as [err|body]; [done |]. cbn -[finalize_refetched positive].
    destruct (extractMetricValueFromResponse _ _) as [size [err|]]; [done |].
    by destruct (positive size).
Qed.

Lemma replay_finalize_updates `{!K8sLaws} b c :
  wp any_answer (replay_finalize b c) [] (fun tr _ => Forall (update_ok mdaiReplayFinalizerName true) tr).
Proof.
  unfold replay_finalize, getMetricValue. destruct (negb _); [constructor |].
  assert (Hrest : forall tr0, Forall (update_ok mdaiReplayFinalizerName true) tr0 ->
    wp any_answer (finalize_rest c) tr0 (fun tr _ => Forall (update_ok mdaiReplayFinalizerName true) tr)).
  { intros tr0 H0'. apply finalize_refetched_updates; [done |]. intros o tr out [-> _]. constructor. }
  destruct (negb _); [| by apply Hrest]. cbn -[finalize_refetched positive].
  intros [err|body] _; cbn -[finalize_refetched positive]; [by apply Forall_singleton |].
  destruct (extractMetricValueFromResponse _ _) as [size [err|]]; [by apply Forall_singleton |].
  destruct (positive size); [by apply Forall_singleton |]. apply Hrest. by apply Forall_singleton.
Qed.

(** ** Properties *)

(** C7. Whatever the API server and the replay's collector answer, a reconcile
    updates a live replay only with its finalizer, and drops the finalizer only
    under deletion and after the collector reported an empty sending queue, or
    when the replay asks to ignore the queue. *)
Theorem replay_finalizer_safety `{!K8sLaws} ns name tr out pre r' answer post :
  runs (Reconcile ns name) tr out -> tr = pre ++ Ev (CUpdate r') answer :: post ->
  exists r pre', pre = Ev (CGet ns name) (inr r) :: pre'
    /\ (mdaiReplayFinalizerName ∈ om_Finalizers (mr_ObjectMeta r') <-> deleting r = false)
    /\ (deleting r = true ->
        rep_IgnoreSendingQueue (mr_Spec r) = true
        \/ exists x size, Ev (CHTTPGet (queue_url defaultMetricsURLBuilder r)) x ∈ pre'
             /\ queue_size x = inr size /\ positive size = false).
Proof.
  intros Hr Htr. unfold Reconcile in Hr. rewrite replay_operations_lifecycle in Hr.
  apply (reconcile_result_phase (R:=MdaiReplay)) in Hr as (x & tr1 & -> & Hr).
  destruct x as [e|r]; [by destruct Hr as [-> _]; destruct pre as [|? [|]] |]. destruct Hr as (out1 & Hr & _).
  destruct pre as [|ev pre]; [by injection Htr |]. cbn in Htr. injection Htr as Hev Htr. subst ev tr1.
  exists r, pre. split; [done |].
  assert (Hu : Forall (update_ok mdaiReplayFinalizerName (deleting r))
                 (pre ++ Ev (CUpdate r') answer :: post)).
  { eapply lifecycle_update_ok; [intros; apply replay_finalize_updates | | by apply lifecycle_phase].
    repeat constructor; intros; [apply replay_sync_quiet | apply status_done_quiet]. }
  split.
  { rewrite Forall_app, Forall_cons in Hu. destruct Hu as (_ & Hu & _). exact (Hu r' eq_refl). }
  intros D. destruct (rep_IgnoreSendingQueue (mr_Spec r)) eqn:Ei; [by left | right].
  unfold phase in Hr. rewrite D in Hr. apply deletion_runs in Hr as (fout & Hr & _); [| done].
  destruct (decide (mdaiReplayFinalizerName ∈ om_Finalizers (mr_ObjectMeta r))) as [Hf|Hf].
  - apply replay_finalize_runs in Hr as (x & tr' & Et & Hr); [| done | done].
    destruct pre as [|ev pre]; [by injection Et |]. injection Et as -> <-.
    destruct (queue_size x) as [err|size] eqn:Eq; [by destruct Hr as [Hn _]; destruct pre |].
    destruct (positive size) eqn:Ep; [by destruct Hr as [Hn _]; destruct pre |].
    exists x, size. split; [by left | done].
  - unfold replay_finalize in Hr. rewrite contains_finalizer_dec, bool_decide_eq_false_2 in Hr by done.
    destruct Hr as [Hn _]. by destruct pre.
Qed.

(** A replay under deletion first asks its collector for the sending queue.
    While the queue is not empty the reconcile ends without a call and comes
    back after five seconds; when the collector cannot be reached, or does not
    report the queue, the error is returned and the replay stays; only an empty
    queue lets the finalization go on. *)
Theorem replay_deletion_waits `{!K8sLaws} ns name r tr out :
  deleting r = true -> mdaiReplayFinalizerName ∈ om_Finalizers (mr_ObjectMeta r) ->
  rep_IgnoreSendingQueue (mr_Spec r) = false ->
  runs (Reconcile ns name) (Ev (CGet ns name) (inr r) :: tr) out <->
  exists answer tr', tr = Ev (CHTTPGet (queue_url defaultMetricsURLBuilder r)) answer :: tr' /\
    match queue_size answer with
    | inl err => tr' = [] /\ out = Done ({| res_RequeueAfter := requeueTime |}, Some err)
    | inr size =>
        if positive size then tr' = [] /\ out = Done ({| res_RequeueAfter := requeueTime |}, None)
        else exists fout, runs (finalize_rest r) tr' fout /\ out = go_map snd (deletion_outcome fout)
    end.
Proof.
  intros D Hf Hi. unfold Reconcile. rewrite replay_operations_lifecycle.
  rewrite (reconcile_result_phase (R:=MdaiReplay)).
  assert (Hp : forall tr out1,
    runs (run_operations (phase mdaiReplayFinalizerName (replay_finalize (NewMdaiReplayAdapter None))
            [ensureSynchronized; ensureStatusSetToDone] r) r) tr out1
    <-> exists fout, runs (replay_finalize defaultMetricsURLBuilder r) tr fout /\ out1 = deletion_outcome fout).
  { intros. unfold phase. rewrite D. by apply deletion_runs. }
  split.
  - intros (x & tr1 & E & Hr). apply fetched_inj in E as [<- <-]. destruct Hr as (out1 & Hr & ->).
    apply Hp in Hr as (fout & Hr & ->). apply replay_finalize_runs in Hr as (x & tr' & -> & Hr); [| done | done].
    exists x, tr'. split; [done |]. destruct (queue_size x) as [err|size].
    + by destruct Hr as [-> ->].
    + destruct (positive size); [by destruct Hr as [-> ->] | by exists fout].
  - intros (x & tr' & -> & Hr). eexists (inr r), _. split; [done |].
    assert (Hf' : exists fout, out = go_map snd (deletion_outcome fout)
              /\ runs (replay_finalize defaultMetricsURLBuilder r)
                   (Ev (CHTTPGet (queue_url defaultMetricsURLBuilder r)) x :: tr') fout).
    { destruct (queue_size x) as [err|size] eqn:Eq; [| destruct (positive size) eqn:Ep].
      - destruct Hr as [-> ->]. exists (Done (r, (ObjectUnchanged, Some err))). split; [done |].
        apply replay_finalize_runs; [done | done |]. eexists _, _. split; [done |]. by rewrite Eq.
      - destruct Hr as [-> ->]. exists (Done (r, (ObjectUnchanged, None))). split; [done |].
        apply replay_finalize_runs; [done | done |]. eexists _, _. split; [done |]. by rewrite Eq, Ep.
      - destruct Hr as (fout & Hr & ->). exists fout. split; [done |].
        apply replay_finalize_runs; [done | done |]. eexists _, _. split; [done |]. by rewrite Eq, Ep. }
    destruct Hf' as (fout & -> & Hr'). exists (deletion_outcome fout). split; [| done].
    apply Hp. by exists fout.
Qed.

Lemma rendered_replay c :
  baseReplayCollectorYaml = inr replay_base -> rep_TelemetryType (mr_Spec c) <> "" ->
  match rsrc_S3 (rep_Source (mr_Spec c)) with
  | Some _ => exists x, getReplayCollectorConfigYAML baseReplayCollectorYaml Marshal (mr_Spec c)
                          (replay_name c) (rep_HubName (mr_Spec c)) = Done x
  | None => exists why, getReplayCollectorConfigYAML baseReplayCollectorYaml Marshal (mr_Spec c)
                          (replay_name c) (rep_HubName (mr_Spec c)) = Panics why
  end.
Proof.
  intros -> Ht. unfold getReplayCollectorConfigYAML. rewrite replay_config_text.
  rewrite bool_decide_eq_false_2 by done. simpl andb.
  destruct (rsrc_S3 _); by eexists.
Qed.

Lemma replay_synchronized_safe c :
  (exists x, getReplayCollectorConfigYAML baseReplayCollectorYaml Marshal (mr_Spec c)
               (replay_name c) (rep_HubName (mr_Spec c)) = Done x) ->
  safe upserting (ensureSynchronized c).
Proof.
  intros [x Hx]. unfold ensureSynchronized. apply safe_seq.
  { unfold createOrUpdateReplayerConfigMap. rewrite Hx. destruct x as [err|yaml]; [apply safe_Ret |].
    cbn -[upsert]. destruct (SetControllerReference _ _) as [err|m]; [apply safe_Ret |].
    apply safe_seq; [| intros [err|cm]; apply safe_Ret].
    apply safe_upsert. intros answer. apply upsert_answer_returns.
    intros y [->|[data Hd]]; unfold returns, set_data; [by eexists | rewrite Hd; by eexists]. }
  intros [hash [err|]]; [apply safe_Ret |]. apply safe_seq.
  { unfold createOrUpdateReplayerDeployment. apply safe_seq; [| intros [?|?]; apply safe_Ret].
    apply safe_upsert. intros answer. apply upsert_answer_returns. intros y _. apply owned_mutate_returns. }
  intros [err|]; [destruct (IsConflict err); apply safe_Ret |].
  apply safe_seq; [safe_creation createOrUpdateReplayerService |]. intros [err|]; apply safe_Ret.
Qed.

(** The synchronisation of an admitted replay creates its config map,
    deployment and service in this order, each one after the success of the
    one before, and goes on exactly when all three were made.  With an S3
    source it does not panic; without one, which the webhook lets through, it
    panics before any call, in every reconcile. *)
Theorem replay_synchronized time_error c :
  baseReplayCollectorYaml = inr replay_base ->
  (Replay_ValidateCreate time_error (ObjMdaiReplay c)).2 = None ->
  synchronises replay_objects c (ensureSynchronized c)
  /\ match rsrc_S3 (rep_Source (mr_Spec c)) with
     | Some _ => safe upserting (ensureSynchronized c)
     | None => forall tr out, runs (ensureSynchronized c) tr out -> tr = [] /\ exists why, out = Panics why
     end.
Proof.
  intros Hb Hok. split; [apply replay_synchronises |].
  pose proof (rendered_replay c Hb (admitted_telemetry time_error c Hok)) as Hc.
  destruct (rsrc_S3 _); [by apply replay_synchronized_safe |]. destruct Hc as [why Hc].
  intros tr out. unfold ensureSynchronized, createOrUpdateReplayerConfigMap. rewrite Hc.
  rewrite runs_bind. intros [(a & tr1 & tr2 & -> & [_ [=]] & _)|(why' & -> & Hp)].
  destruct Hp as [-> [= ->]]. eauto.
Qed.

(** A synchronisation that goes through has stored the rendered
    configuration and rolled out a deployment of one pod that carries the hash
    of the stored config map, mounts it, has the credentials of the source, the
    image of the replay or the default one, and finds its own pods; the service
    leads to its metrics port, which the finalization queries. *)
Theorem replay_deploys c tr c' :
  runs (ensureSynchronized c) tr (Done (c', ContinueProcessing)) ->
  let name := getReplayerResourceName c "collector" in
  exists yaml m result cm hash deployed service answer,
    getReplayCollectorConfigYAML baseReplayCollectorYaml Marshal (mr_Spec c) (replay_name c)
      (rep_HubName (mr_Spec c)) = Done (inr yaml)
    /\ tr = [Ev (CConfigMap {| cm_ObjectMeta := m; cm_Data := Some {["collector.yaml" := yaml]} |}
                   (set_data "collector.yaml" yaml)) (Done (inr (result, cm)));
             Ev (CDeployment (new_deployment (named name (om_Namespace (mr_ObjectMeta c))))
                   (mutate_replayer_deployment c hash)) deployed;
             Ev (CService service (fun s => Done (inr (build_replayer_service c name s)))) answer]
    /\ getConfigMapSHA MarshalConfigMap Sum256Hex cm = (hash, None)
    /\ forall d d', mutate_replayer_deployment c hash d = Done (inr d') ->
         gomap (dep_TemplateAnnotations d') !! "replay-collector-config/sha256" = Some hash
         /\ mounts_config (getReplayerResourceName c "collector-config") d'
         /\ dep_Replicas d' = Some 1%Z
         /\ (forall ct, ct ∈ dep_Containers d' ->
               ct_Image ct = replayer_image c
               /\ forall aws secret, rsrc_AWSConfig (rep_Source (mr_Spec c)) = Some aws ->
                    raws_AWSAccessKeySecret aws = Some secret -> EnvFromSecret secret ∈ ct_EnvFrom ct)
         /\ (own_selector name (default None (dep_Selector d)) -> selects_own_pods d')
         /\ (forall s, own_selector name (svc_Selector s) -> serves (build_replayer_service c name s) d').
Proof.
  intros Hr. cbv zeta. unfold ensureSynchronized in Hr.
  runs_step Hr as x Hc. destruct x as [hash [err|]]; [by destruct Hr as [_ [=]] |].
  runs_step Hr as err Hd. destruct err as [err|]; [destruct (IsConflict err); by destruct Hr as [_ [=]] |].
  runs_step Hr as err Hs. destruct err as [err|]; [by destruct Hr as [_ [=]] |]. destruct Hr as [-> _].
  unfold createOrUpdateReplayerConfigMap in Hc.
  destruct (getReplayCollectorConfigYAML _ _ _ _ _) as [[err|yaml]|why] eqn:Ey; cbn -[upsert] in Hc;
    [by destruct Hc as [_ [=]] | | by destruct Hc as [_ [=]]].
  destruct (SetControllerReference _ (with_labels _ _)) as [err|m]; [by destruct Hc as [_ [=]] |].
  upsert_step Hc as x answer Ha.
  destruct x as [err|cm]; [by destruct Hc as [_ [=]] |]. destruct Ha as [result ->].
  destruct Hc as [-> [= Hsha]].
  unfold createOrUpdateReplayerDeployment in Hd. upsert_step Hd as x deployed Ha.
  destruct x as [err|d]; [by destruct Hd as [_ [=]] |]. destruct Hd as [-> _]. clear Ha.
  unfold createOrUpdateReplayerService in Hs.
  destruct (SetControllerReference _ (named _ _)) as [err|sm]; [by destruct Hs as [_ [=]] |].
  upsert_step Hs as x sanswer Ha.
  destruct x as [err|s]; [by destruct Hs as [_ [=]] |]. destruct Hs as [-> _].
  exists yaml, m, result, cm, hash, deployed. do 2 eexists. split; [done |]. split; [reflexivity |].
  split; [done |]. intros d0 d' (md & ->)%owned_mutate_inv.
  apply replayer_deployment_right.
Qed.

(** What the closures write does not depend on how often they run. *)
Theorem replay_objects_settle (laws : OwningLaws) c : only settles (ensureSynchronized c).
Proof.
  unfold ensureSynchronized.
  apply only_bind; [one_creation createOrUpdateReplayerConfigMap; apply set_data_settled |].
  intros [hash [err|]]; [apply only_Ret |].
  apply only_bind; [one_creation createOrUpdateReplayerDeployment; apply replay_deployment_settled |].
  intros [err|]; [destruct (IsConflict err); apply only_Ret |].
  apply only_bind; [one_creation createOrUpdateReplayerService; apply replay_service_settled |].
  intros [err|]; apply only_Ret.
Qed.
End ReplayAdapter.

(** ** Witnesses *)

Import ControllerCalls.Sample Reconcile.Sample.

Abbreviation sample_sync :=
  (ensureSynchronized (inr replay_base) (fun _ => inr "receivers: {}") (fun _ => inr "{}") (fun _ => "00")).

Definition sample_run (c : MdaiReplay) := run_with new_cluster (sample_sync c) c.

Definition full_replay : MdaiReplay := sample_replay (Some sample_source) "http://otlp".

Lemma sample_replay_runs : runs (sample_sync full_replay) (sample_run full_replay).1.1
  (Done (full_replay, ContinueProcessing)).
Proof. exact (run_with_runs new_cluster (sample_sync full_replay) full_replay). Qed.

(** A metrics page with a queue of the given length. *)
Definition page (size : spec_float) (body : string) : error + gmap string (list Metric) :=
  inr {["otelcol_exporter_queue_size" := [{| metric_Gauge := Some size; metric_Counter := None |}]]}.

(** 0.5 and zero. *)
Definition half : spec_float := S754_finite false 1 (-1).

(** A replay with a source is synchronised; one without panics. *)
Lemma replay_synchronized_witness :
  (synchronises replay_objects full_replay (sample_sync full_replay)
   /\ safe upserting (sample_sync full_replay))
  /\ forall tr out, runs (sample_sync (sample_replay None "http://otlp")) tr out ->
       tr = [] /\ exists why, out = Panics why.
Proof.
  split.
  - exact (replay_synchronized (inr replay_base) (fun _ => inr "receivers: {}") (fun _ => inr "{}")
             (fun _ => "00") (fun _ _ => "") full_replay eq_refl eq_refl).
  - exact (proj2 (replay_synchronized (inr replay_base) (fun _ => inr "receivers: {}") (fun _ => inr "{}")
             (fun _ => "00") (fun _ _ => "") (sample_replay None "http://otlp") eq_refl eq_refl)).
Defined.

Lemma replay_deploys_witness :
  exists cm, getConfigMapSHA (fun _ => inr "{}") (fun _ => "00") cm = ("00", None)
    /\ length (sample_run full_replay).1.1 = 3.
Proof.
  destruct (replay_deploys (inr replay_base) (fun _ => inr "receivers: {}") (fun _ => inr "{}")
              (fun _ => "00") (page half) full_replay _ _ sample_replay_runs)
    as (yaml & m & result & cm & hash & deployed & service & answer & _ & E & Hsha & _).
  exists cm. rewrite E. split; [| reflexivity]. vm_compute in Hsha |- *. congruence.
Defined.

Lemma replay_objects_settle_witness : only settles (sample_sync full_replay).
Proof. apply (replay_objects_settle _ _ _ _ own_laws). Defined.

(** A replay under deletion. *)
Definition deleted_replay : MdaiReplay :=
  {| mr_ObjectMeta :=
       {| om_Name := "again"; om_Namespace := "mdai"; om_UID := "1"; om_Generation := 1;
          om_Labels := None; om_Annotations := None; om_Finalizers := [mdaiReplayFinalizerName];
          om_OwnerReferences := []; om_DeletionTimestamp := Some 1%Z; om_CreationTimestamp := Some 0%Z |};
     mr_Spec := sample_replay_spec (Some sample_source) "http://otlp";
     mr_Status := {| reps_LastUpdatedTime := None; reps_Conditions := [available_condition] |} |}.

Abbreviation sample_Reconcile size :=
  (Reconcile (inr replay_base) (fun _ => inr "receivers: {}") (fun _ => inr "{}") (fun _ => "00") (page size)).

Lemma replay_deletion_waits_witness :
  runs (sample_Reconcile half "mdai" "again")
    [Ev (CGet "mdai" "again") (inr deleted_replay);
     Ev (CHTTPGet "http://replay-again-hub-service.mdai.svc.cluster.local:8888/metrics") (inr "")]
    (Done ({| res_RequeueAfter := requeueTime |}, None)).
Proof.
  apply (proj2 (replay_deletion_waits _ _ _ _ _ "mdai" "again" deleted_replay _ _
                  eq_refl ltac:(by left) eq_refl)).
  eexists (inr ""), []. split; [reflexivity |]. split; reflexivity.
Defined.

Definition finalized_run :=
  run_with new_cluster (sample_Reconcile float_zero "mdai" "again") deleted_replay.

Lemma replay_finalizer_safety_witness :
  exists r' answer pre, finalized_run.1.1 = pre ++ [Ev (CUpdate r') answer]
    /\ exists x size, Ev (CHTTPGet (queue_url defaultMetricsURLBuilder deleted_replay)) x ∈ pre
         /\ queue_size (page float_zero) x = inr size /\ positive size = false.
Proof.
  do 3 eexists. split.
  { change finalized_run.1.1 with (take 4 finalized_run.1.1 ++ drop 4 finalized_run.1.1). reflexivity. }
  destruct (replay_finalizer_safety (inr replay_base) (fun _ => inr "receivers: {}") (fun _ => inr "{}")
              (fun _ => "00") (page float_zero) "mdai" "again" finalized_run.1.1 finalized_run.1.2
              (take 4 finalized_run.1.1) _ _ []
              (run_with_runs new_cluster (sample_Reconcile float_zero "mdai" "again") deleted_replay)
              ltac:(reflexivity))
    as (r & pre' & E & _ & Hd).
  apply fetched_inj in E as [E <-]. injection E as <-.
  destruct (Hd eq_refl) as [?|(x & size & Hin & Hx)]; [discriminate |].
  exists x, size. split; [right; exact Hin | exact Hx].
Defined.
