(* ===== verification/DalAdapter.v ===== *)
(** * internal/controller: the DAL adapter

    mdaidal_adapter.go and mdaidal_controller.go.  The life cycle is that of
    [Reconcile] with a final status update of its own, which reports what the
    deployment and the service say. *)

From S2P Require Import Prelude GoLib ApiTypes Errors Components Effects Reconcile.
From S2P Require Import K8sObjects Builders ControllerCalls.

Definition MdaiDalHubComponent : string := "mdai-dal".
Definition MdaiDalConfigMapName : string := "mdai-dal-config".

#[export] Instance dal_resource : Resource MdaiDal := {
  r_meta := md_ObjectMeta;
  r_with_meta r m := {| md_ObjectMeta := m; md_Spec := md_Spec r; md_Status := md_Status r |};
  r_conditions r := dals_Conditions (md_Status r);
  r_with_conditions r cs :=
    {| md_ObjectMeta := md_ObjectMeta r; md_Spec := md_Spec r;
       md_Status := {| dals_Conditions := cs;
                       dals_ObservedGeneration := dals_ObservedGeneration (md_Status r);
                       dals_Replicas := dals_Replicas (md_Status r);
                       dals_ReadyReplicas := dals_ReadyReplicas (md_Status r);
                       dals_Endpoint := dals_Endpoint (md_Status r);
                       dals_LastSyncedTime := dals_LastSyncedTime (md_Status r) |} |}
}.

#[export] Instance dal_resource_laws : ResourceLaws MdaiDal.
Proof. by constructor. Defined.

Section DalAdapter.
Context `{Owning} `{K8sUtil}.

Abbreviation dal_prog A := (prog (CtlE MdaiDal) A).

Definition dal_name (c : MdaiDal) : string := om_Name (md_ObjectMeta c).
Definition dal_namespace (c : MdaiDal) : string := om_Namespace (md_ObjectMeta c).

Definition configMapName (c : MdaiDal) : string := dal_name c +:+ "-" +:+ MdaiDalConfigMapName.

(** ** Status *)

Definition endpoint (service : ObjectMeta) : string :=
  Sprintf "%s.%s.svc.cluster.local:%d"
    [VString (om_Name service); VString (om_Namespace service); VInt otlpHTTPPort].

Definition synced_status (c : MdaiDal) (deployment : DeploymentStatus) (service : ObjectMeta) (now : Z)
  : MdaiDalStatus :=
  {| dals_Conditions := (SetStatusCondition (dals_Conditions (md_Status c)) available_condition).1;
     dals_ObservedGeneration := om_Generation (md_ObjectMeta c);
     dals_Replicas := ds_Replicas deployment;
     dals_ReadyReplicas := ds_ReadyReplicas deployment;
     dals_Endpoint := endpoint service;
     dals_LastSyncedTime := now |}.

(** Every error requeues; those of a missing object are logged differently. *)
Definition ensureStatusSetToDone : ReconcileOperation (CtlE MdaiDal) MdaiDal := fun c =>
  let* (c, err) := refetch c in
  match err with
  | Some _ => Ret (c, Requeue)
  | None =>
  let* deployment := call (CGetDeploymentStatus (dal_namespace c) (dal_name c)) in
  match deployment with
  | inl err => if IsNotFound err then Ret (c, Requeue) else Ret (c, Requeue)
  | inr deployment =>
  let* service := call (CGetService (dal_namespace c) (dal_name c)) in
  match service with
  | inl err => if IsNotFound err then Ret (c, Requeue) else Ret (c, Requeue)
  | inr service =>
  let* now := call CNow in
  let c := {| md_ObjectMeta := md_ObjectMeta c; md_Spec := md_Spec c;
              md_Status := synced_status c deployment service now |} in
  let* (c, err) := update_status c in
  match err with
  | Some err => if IsConflict err then Ret (c, Requeue) else Ret (c, Requeue)
  | None => Ret (c, ContinueProcessing)
  end end end end.

(** ** Config map *)

Definition dal_labels (c : MdaiDal) : list (string * string) :=
  [(LabelAppNameKey, MdaiDalHubComponent); (LabelAppInstanceKey, dal_name c);
   (LabelManagedByMdaiKey, LabelManagedByMdaiValue); (HubComponentLabel, MdaiDalHubComponent)].

Definition dal_environment (c : MdaiDal) : gmap string string :=
  let spec := md_Spec c in
  {["MDAI_DAL_S3_BUCKET" := ds3_Bucket (dal_S3 spec);
    "MDAI_DAL_AWS_REGION" := daws_Region (dal_AWS spec);
    "MDAI_DAL_S3_PREFIX" := ds3_Prefix (dal_S3 spec);
    "MDAI_DAL_GRANULARITY" := dal_Granularity spec;
    "MDAI_DAL_USE_PAYLOAD_TS" := FormatBool (dal_UsePayloadTS spec);
    "MDAI_DAL_MARSHALER" := dal_Marshaler spec]}.

Definition with_cm_meta (cm : ConfigMap) (m : ObjectMeta) : ConfigMap :=
  {| cm_ObjectMeta := m; cm_Data := cm_Data cm |}.

Definition build_dal_config_map (c : MdaiDal) (cm : ConfigMap) : ConfigMap :=
  {| cm_ObjectMeta := label_keys (cm_ObjectMeta cm) (dal_labels c);
     cm_Data := Some (dal_environment c) |}.

Definition createOrUpdateConfigMap (c : MdaiDal) : dal_prog (option error) :=
  let configMap := {| cm_ObjectMeta := named (configMapName c) (dal_namespace c); cm_Data := None |} in
  let* answer := upsert (CConfigMap configMap
    (owned_mutate cm_ObjectMeta with_cm_meta (md_ObjectMeta c) (build_dal_config_map c))) in
  match answer with
  | inl err => Ret (Some err)
  | inr _ => Ret None
  end.

(** ** Service *)

(** [CreationTimestamp.IsZero()]: the object is new. *)
Definition is_new (m : ObjectMeta) : bool :=
  match om_CreationTimestamp m with None => true | Some _ => false end.

Definition build_dal_service (c : MdaiDal) (s : Service_) : Service_ :=
  let s := Service.WithPorts [service_port otlpGRPCName otlpGRPCPort (FromInt32 otlpGRPCPort);
                              service_port otlpHTTPName otlpHTTPPort (FromInt32 otlpHTTPPort)]
    (Service.WithSelectorLabel LabelAppInstanceKey (dal_name c)
    (Service.WithSelectorLabel LabelAppNameKey MdaiDalHubComponent
    (Service.WithLabel HubComponentLabel MdaiDalHubComponent
    (Service.WithLabel LabelManagedByMdaiKey LabelManagedByMdaiValue
    (Service.WithLabel LabelAppInstanceKey (dal_name c)
    (Service.WithLabel LabelAppNameKey MdaiDalHubComponent s)))))) in
  if is_new (svc_ObjectMeta s) then Service.WithType "ClusterIP" s else s.

Definition createOrUpdateService (c : MdaiDal) : dal_prog (option error) :=
  let service := new_service (named (dal_name c) (dal_namespace c)) in
  let* answer := upsert (CService service (owned_service (md_ObjectMeta c) (build_dal_service c))) in
  match answer with
  | inl err =>
      if IsAlreadyExists err then Ret None
      else Ret (Some (ErrWrap "failed to create or update mdai dal service: " err))
  | inr _ => Ret None
  end.

(** ** Deployment *)

Definition imageRef (i : MdaiDalImageSpec) : string :=
  if bool_decide (dimg_Repository i = "") then ""
  else if bool_decide (dimg_Tag i = "") then dimg_Repository i
  else dimg_Repository i +:+ ":" +:+ dimg_Tag i.

Definition healthz_probe (initialDelay period : Z) : ContainerProbe :=
  {| cp_Path := "/healthz"; cp_Port := FromInt32 otlpHTTPPort; cp_InitialDelaySeconds := initialDelay;
     cp_PeriodSeconds := period |}.

Definition dal_container (c : MdaiDal) (image : MdaiDalImageSpec) : Container_ :=
  let awsCredentials := daws_Credentials (dal_AWS (md_Spec c)) in
  WithReadinessProbe (healthz_probe 3 5)
  (WithLivenessProbe (healthz_probe 10 10)
  (WithSecurityContext DefaultSecurityContext
  (WithEnvFromConfigMap (configMapName c)
  (WithEnvFromSecretKey "AWS_SECRET_ACCESS_KEY" (dcr_SecretName awsCredentials) (dcr_SecretKeyField awsCredentials)
  (WithEnvFromSecretKey "AWS_ACCESS_KEY_ID" (dcr_SecretName awsCredentials) (dcr_AccessKeyField awsCredentials)
  (WithPorts [{| ctp_Port := otlpGRPCPort; ctp_Name := otlpGRPCName; ctp_Protocol := "TCP" |};
              {| ctp_Port := otlpHTTPPort; ctp_Name := otlpHTTPName; ctp_Protocol := "TCP" |}]
  (WithImagePullPolicy (ToK8s (dimg_PullPolicy image))
  (Container (dal_name c) (imageRef image))))))))).

Definition build_dal_deployment (c : MdaiDal) (container : Container_) (d : Deployment_) : Deployment_ :=
  let d :=
    if is_new (dep_ObjectMeta d)
    then Deployment.WithSelectorLabel LabelAppInstanceKey (dal_name c)
         (Deployment.WithSelectorLabel LabelManagedByMdaiKey LabelManagedByMdaiValue
         (Deployment.WithSelectorLabel LabelAppNameKey MdaiDalHubComponent d))
    else d in
  Deployment.WithContainers [container]
  (Deployment.WithTemplateLabel LabelManagedByMdaiKey LabelManagedByMdaiValue
  (Deployment.WithTemplateLabel LabelAppInstanceKey (dal_name c)
  (Deployment.WithTemplateLabel LabelAppNameKey MdaiDalHubComponent
  (Deployment.WithLabel HubComponentLabel MdaiDalHubComponent
  (Deployment.WithLabel LabelManagedByMdaiKey LabelManagedByMdaiValue
  (Deployment.WithLabel LabelAppInstanceKey (dal_name c)
  (Deployment.WithLabel LabelAppNameKey MdaiDalHubComponent
  (Deployment.WithReplicas 1 d)))))))).

Definition mutate_dal_deployment (c : MdaiDal) (image : MdaiDalImageSpec) : mutate_fn Deployment_ :=
  owned_deployment (md_ObjectMeta c) (build_dal_deployment c (dal_container c image)).

(** The container is built before the call: [ImageSpec] is dereferenced. *)
Definition createOrUpdateDeployment (c : MdaiDal) : dal_prog (option error) :=
  let* image := lift (match dal_ImageSpec (md_Spec c) with
                      | Some image => Done image
                      | None => Panics "nil pointer dereference"
                      end) in
  let* answer := upsert (CDeployment (new_deployment (named (dal_name c) (dal_namespace c)))
                           (mutate_dal_deployment c image)) in
  match answer with
  | inl err =>
      if IsAlreadyExists err then Ret None
      else Ret (Some (ErrWrap "failed to create or update mdai dal deployment: " err))
  | inr _ => Ret None
  end.

(** ** The life cycle *)

Definition ensureFinalizerInitialized : ReconcileOperation (CtlE MdaiDal) MdaiDal :=
  Reconcile.ensureFinalizerInitialized hubFinalizer.

Definition ensureStatusInitialized : ReconcileOperation (CtlE MdaiDal) MdaiDal :=
  Reconcile.ensureStatusInitialized.

Definition deleteFinalizer : string -> method (CtlE MdaiDal) MdaiDal (option error) :=
  Reconcile.deleteFinalizer.

Definition ensureFinalizerDeleted : method (CtlE MdaiDal) MdaiDal (option error) :=
  deleteFinalizer hubFinalizer.

Definition finalize : method (CtlE MdaiDal) MdaiDal (ObjectState * option error) :=
  Reconcile.finalize hubFinalizer.

Definition ensureDeletionProcessed : ReconcileOperation (CtlE MdaiDal) MdaiDal :=
  Reconcile.ensureDeletionProcessed finalize.

(** ** Synchronisation and the handler *)

Definition ensureSynchronized : ReconcileOperation (CtlE MdaiDal) MdaiDal := fun c =>
  let* err := createOrUpdateConfigMap c in
  match err with
  | Some err => Ret (c, RequeueOnErrorOrContinue (Some err))
  | None =>
  let* err := createOrUpdateService c in
  match err with
  | Some err => Ret (c, RequeueOnErrorOrContinue (Some err))
  | None =>
  let* err := createOrUpdateDeployment c in
  match err with
  | Some err => Ret (c, RequeueOnErrorOrContinue (Some err))
  | None => Ret (c, ContinueProcessing)
  end end end.

Definition dal_operations
  : list (ReconcileOperation (CtlE MdaiDal) MdaiDal) :=
  [ensureDeletionProcessed; ensureStatusInitialized; ensureFinalizerInitialized;
   ensureSynchronized; ensureStatusSetToDone].

Lemma dal_operations_lifecycle :
  dal_operations = lifecycle hubFinalizer finalize [ensureSynchronized; ensureStatusSetToDone].
Proof. reflexivity. Qed.

Definition ReconcileHandler : method (CtlE MdaiDal) MdaiDal (with_error ctrl_Result) :=
  run_operations dal_operations.

Definition Reconcile (namespace name : string) : dal_prog (with_error ctrl_Result) :=
  reconcile dal_operations namespace name.

(** ** Lemmas: the calls *)

Definition dal_objects : list object_kind := [KConfigMap; KService; KDeployment].

(** A service or deployment that exists already is left as it is. *)
Definition created_or_there (ev : event (CtlE MdaiDal)) : Prop :=
  succeeded ev
  \/ (kind_of ev <> Some KConfigMap
      /\ exists err, creation_error ev = Some err /\ IsAlreadyExists err = true).

Lemma there_iff (k : object_kind) (e : error) (ev : event (CtlE MdaiDal)) :
  kind_of ev = Some k -> creation_error ev = Some e ->
  created_or_there ev <-> k <> KConfigMap /\ IsAlreadyExists e = true.
Proof.
  intros Hk He. unfold created_or_there, succeeded. rewrite Hk, He. split.
  - intros [[=]|(Hn & e' & [= <-] & Hx)]. split; [congruence | done].
  - intros [Hn Hx]. right. split; [congruence | by exists e].
Qed.

Abbreviation mirrors := (mirrors_ok created_or_there).

Lemma dal_config_map_mirrors c : mirrors KConfigMap id (createOrUpdateConfigMap c).
Proof.
  unfold createOrUpdateConfigMap. intros tr a Hr. upsert_step Hr as x answer Ha.
  destruct x as [err|cm]; destruct Hr as [-> [= ->]]; eexists; (split_and!; [done | done |]).
  - subst answer. rewrite (there_iff KConfigMap err) by done. by split; [| intros []].
  - destruct Ha as [result ->]. split; [by left | done].
Qed.

Lemma dal_service_mirrors c : mirrors KService id (createOrUpdateService c).
Proof.
  unfold createOrUpdateService. intros tr a Hr. upsert_step Hr as x answer Ha. destruct x as [err|s].
  - subst answer. destruct (IsAlreadyExists err) eqn:Ee; destruct Hr as [-> [= ->]]; eexists;
      (split_and!; [done | done |]); rewrite (there_iff KService err) by done;
      (split; [done | intros []; solve [done | congruence]]).
  - destruct Hr as [-> [= ->]]; eexists; (split_and!; [done | done |]).
    destruct Ha as [result ->]. split; [by left | done].
Qed.

Lemma dal_deployment_mirrors c : mirrors KDeployment id (createOrUpdateDeployment c).
Proof.
  unfold createOrUpdateDeployment. destruct (dal_ImageSpec (md_Spec c)) as [image|].
  2: { intros tr a [_ [=]]. }
  cbn -[upsert]. intros tr a Hr. upsert_step Hr as x answer Ha. destruct x as [err|s].
  - subst answer. destruct (IsAlreadyExists err) eqn:Ee; destruct Hr as [-> [= ->]]; eexists;
      (split_and!; [done | done |]); rewrite (there_iff KDeployment err) by done;
      (split; [done | intros []; solve [done | congruence]]).
  - destruct Hr as [-> [= ->]]; eexists; (split_and!; [done | done |]).
    destruct Ha as [result ->]. split; [by left | done].
Qed.

(** ** Lemmas: what the closures write *)

Definition dal_selector (c : MdaiDal) : list (string * string) :=
  [(LabelAppNameKey, MdaiDalHubComponent); (LabelManagedByMdaiKey, LabelManagedByMdaiValue);
   (LabelAppInstanceKey, dal_name c)].

Definition dal_service_selector (c : MdaiDal) : list (string * string) :=
  [(LabelAppNameKey, MdaiDalHubComponent); (LabelAppInstanceKey, dal_name c)].

Definition dal_template_labels (c : MdaiDal) : list (string * string) :=
  [(LabelAppNameKey, MdaiDalHubComponent); (LabelAppInstanceKey, dal_name c);
   (LabelManagedByMdaiKey, LabelManagedByMdaiValue)].

Lemma dal_keys_distinct c :
  NoDup (map fst (dal_labels c)) /\ NoDup (map fst (dal_selector c))
  /\ NoDup (map fst (dal_service_selector c)) /\ NoDup (map fst (dal_template_labels c)).
Proof. split_and!; apply (bool_decide_eq_true_1 _); reflexivity. Qed.

Lemma build_dal_service_fields c s :
  build_dal_service c s =
  {| svc_ObjectMeta := label_keys (svc_ObjectMeta s) (dal_labels c);
     svc_Selector := set_keys (svc_Selector s) (dal_service_selector c);
     svc_Ports := [service_port otlpGRPCName otlpGRPCPort (FromInt32 otlpGRPCPort);
                   service_port otlpHTTPName otlpHTTPPort (FromInt32 otlpHTTPPort)];
     svc_Type := if is_new (svc_ObjectMeta s) then "ClusterIP" else svc_Type s;
     svc_InternalTrafficPolicy := svc_InternalTrafficPolicy s |}.
Proof.
  unfold build_dal_service, is_new. cbn [svc_ObjectMeta Service.WithPorts Service.WithSelectorLabel
    Service.WithLabel label_meta with_labels om_CreationTimestamp].
  by destruct (om_CreationTimestamp (svc_ObjectMeta s)).
Qed.

Lemma build_dal_deployment_fields c container d :
  build_dal_deployment c container d =
  {| dep_ObjectMeta := label_keys (dep_ObjectMeta d) (dal_labels c);
     dep_Replicas := Some 1%Z;
     dep_Selector := if is_new (dep_ObjectMeta d)
                     then Some (set_keys (default None (dep_Selector d)) (dal_selector c))
                     else dep_Selector d;
     dep_TemplateLabels := set_keys (dep_TemplateLabels d) (dal_template_labels c);
     dep_TemplateAnnotations := dep_TemplateAnnotations d;
     dep_ServiceAccountName := dep_ServiceAccountName d;
     dep_Containers := [container]; dep_Volumes := dep_Volumes d; dep_Tolerations := dep_Tolerations d |}.
Proof. unfold build_dal_deployment. by destruct (is_new (dep_ObjectMeta d)). Qed.

Lemma is_new_labels m l : is_new (label_keys m l) = is_new m.
Proof.
  unfold label_keys. revert m. induction l as [|[k v] l IH]; intros m; [done |]. simpl. by rewrite IH.
Qed.

Lemma build_dal_service_again c s : build_dal_service c (build_dal_service c s) = build_dal_service c s.
Proof.
  destruct (dal_keys_distinct c) as (Hl & _ & Hs & _). rewrite !build_dal_service_fields.
  cbn [svc_ObjectMeta svc_Selector svc_Type svc_InternalTrafficPolicy]. rewrite is_new_labels.
  rewrite label_keys_again, set_keys_again by done. by destruct (is_new _).
Qed.

Lemma build_dal_deployment_again c container d :
  build_dal_deployment c container (build_dal_deployment c container d) = build_dal_deployment c container d.
Proof.
  destruct (dal_keys_distinct c) as (Hl & Hs & _ & Ht). rewrite !build_dal_deployment_fields.
  cbn [dep_ObjectMeta dep_Selector dep_TemplateLabels dep_TemplateAnnotations dep_ServiceAccountName
       dep_Volumes dep_Tolerations]. rewrite is_new_labels, label_keys_again, set_keys_again by done.
  destruct (is_new _); [| done]. cbn [from_option id default]. by rewrite set_keys_again.
Qed.

Lemma dal_config_map_settled `{!OwningLaws} c :
  settled (owned_mutate cm_ObjectMeta with_cm_meta (md_ObjectMeta c) (build_dal_config_map c)).
Proof.
  apply owned_mutate_settled; [done | done | by intros [] | |].
  - intros cm. unfold build_dal_config_map. cbn [cm_ObjectMeta].
    by rewrite label_keys_again by apply dal_keys_distinct.
  - intros cm Hm. by apply owned_label_keys.
Qed.

Lemma dal_service_settled `{!OwningLaws} c : settled (owned_service (md_ObjectMeta c) (build_dal_service c)).
Proof.
  apply owned_mutate_settled; [done | done | apply with_svc_meta_same | apply build_dal_service_again |].
  intros s Hs. rewrite build_dal_service_fields. by apply owned_label_keys.
Qed.

Lemma dal_deployment_settled `{!OwningLaws} c image : settled (mutate_dal_deployment c image).
Proof.
  apply owned_mutate_settled; [done | done | apply with_dep_meta_same | apply build_dal_deployment_again |].
  intros d Hd. rewrite build_dal_deployment_fields. by apply owned_label_keys.
Qed.

Lemma dal_selects c container d :
  gomap (default None (dep_Selector d)) ⊆ list_to_map (dal_selector c) ->
  selects_own_pods (build_dal_deployment c container d).
Proof.
  destruct (dal_keys_distinct c) as (_ & Hs & _ & Ht). intros Hd. unfold selects_own_pods.
  rewrite build_dal_deployment_fields. cbn [dep_Selector dep_TemplateLabels].
  assert (Hl : forall k v, (k, v) ∈ dal_selector c ->
            gomap (set_keys (dep_TemplateLabels d) (dal_template_labels c)) !! k = Some v).
  { intros k v Hin. apply set_keys_elem; [done |]. unfold dal_selector, dal_template_labels in *. set_solver. }
  destruct (is_new _); [by apply set_keys_subseteq |].
  apply map_subseteq_spec. intros k v Hk. apply Hl. apply elem_of_list_to_map_2.
  by eapply lookup_weaken.
Qed.

Lemma dal_container_fields c image :
  ct_Image (dal_container c image) = imageRef image
  /\ EnvFromConfigMap (configMapName c) ∈ ct_EnvFrom (dal_container c image)
  /\ ct_Ports (dal_container c image)
     = [{| ctp_Port := otlpGRPCPort; ctp_Name := otlpGRPCName; ctp_Protocol := "TCP" |};
        {| ctp_Port := otlpHTTPPort; ctp_Name := otlpHTTPName; ctp_Protocol := "TCP" |}].
Proof.
  unfold dal_container, WithEnvFromSecretKey.
  destruct (_ || _), (_ || _); (split_and!; [done | simpl; set_solver | done]).
Qed.

Lemma dal_serves c image s d :
  gomap (svc_Selector s) ⊆ list_to_map (dal_service_selector c) ->
  serves (build_dal_service c s) (build_dal_deployment c (dal_container c image) d).
Proof.
  destruct (dal_keys_distinct c) as (_ & _ & Hs & Ht). intros Hd.
  destruct (dal_container_fields c image) as (_ & _ & Hp).
  rewrite build_dal_service_fields, build_dal_deployment_fields. split.
  - cbn [svc_Selector dep_TemplateLabels]. apply set_keys_subseteq; [done | done |].
    intros k v Hin. apply set_keys_elem; [done |].
    unfold dal_service_selector, dal_template_labels in *. set_solver.
  - repeat (apply Forall_cons; split); try done; (exists (dal_container c image)); rewrite Hp;
      (split; [by left | reflexivity]).
Qed.

(** ** Properties *)

Lemma dal_synchronises c : synchronises_ok created_or_there dal_objects c (ensureSynchronized c).
Proof.
  unfold ensureSynchronized, dal_objects.
  eapply creates_then_report;
    [eapply mirrors_creates, dal_config_map_mirrors | intros ? ? [= ->]; by eexists | | done].
  intros err [= ->].
  eapply creates_then_report;
    [eapply mirrors_creates, dal_service_mirrors | intros ? ? [= ->]; by eexists | | done].
  intros err' [= ->].
  eapply creates_then_report; [eapply mirrors_creates, dal_deployment_mirrors
    | intros ? ? [= ->]; by eexists | | intros _; eapply mirrors_refuses, dal_deployment_mirrors].
  intros err'' [= ->]. apply synchronises_done.
Qed.

Lemma dal_stops c : stops_ok created_or_there (ensureSynchronized c).
Proof.
  unfold ensureSynchronized.
  eapply stops_then; [apply dal_config_map_mirrors | | intros ? [? [= ->]]; by eexists].
  intros err [= ->].
  eapply stops_then; [apply dal_service_mirrors | | intros ? [? [= ->]]; by eexists].
  intros err' [= ->].
  eapply stops_then; [apply dal_deployment_mirrors | | intros ? [? [= ->]]; by eexists].
  intros err'' [= ->]. apply stops_done.
Qed.

Lemma dal_synchronized_safe c :
  is_Some (dal_ImageSpec (md_Spec c)) -> safe upserting (ensureSynchronized c).
Proof.
  intros [image Ei]. unfold ensureSynchronized. apply safe_seq.
  { unfold createOrUpdateConfigMap. apply safe_seq; [| intros [?|?]; apply safe_Ret].
    apply safe_upsert. intros answer. apply upsert_answer_returns. intros x _. apply owned_mutate_returns. }
  intros [err|]; [apply safe_Ret |]. apply safe_seq.
  { unfold createOrUpdateService. apply safe_seq; [| intros [err|?]; [destruct (IsAlreadyExists err) |]; apply safe_Ret].
    apply safe_upsert. intros answer. apply upsert_answer_returns. intros x _. apply owned_mutate_returns. }
  intros [err|]; [apply safe_Ret |]. apply safe_seq; [| intros [err|]; apply safe_Ret].
  unfold createOrUpdateDeployment. rewrite Ei. cbn -[upsert].
  apply safe_seq; [| intros [err|?]; [destruct (IsAlreadyExists err) |]; apply safe_Ret].
  apply safe_upsert. intros answer. apply upsert_answer_returns. intros x _. apply owned_mutate_returns.
Qed.

(** The synchronisation of a DAL creates its config map, service and
    deployment in this order, each one after the success of the one before; a
    service or deployment that exists already counts as one.  It goes on
    exactly when all three are there, and stops only at a call that failed,
    whose error it reports.  With an image, which the schema sets by default,
    it does not panic, whatever is stored; without one it never goes through. *)
Theorem dal_synchronized c :
  synchronises_ok created_or_there dal_objects c (ensureSynchronized c)
  /\ stops_ok created_or_there (ensureSynchronized c)
  /\ match dal_ImageSpec (md_Spec c) with
     | Some _ => safe upserting (ensureSynchronized c)
     | None => forall tr c', ~ runs (ensureSynchronized c) tr (Done (c', ContinueProcessing))
     end.
Proof.
  split; [apply dal_synchronises |]. split; [apply dal_stops |].
  destruct (dal_ImageSpec (md_Spec c)) as [image|] eqn:Ei; [by apply dal_synchronized_safe; rewrite Ei |].
  intros tr c' Hr. unfold ensureSynchronized in Hr.
  runs_step Hr as err Hc. destruct err; [by destruct Hr as [_ [=]] |].
  runs_step Hr as err Hs. destruct err; [by destruct Hr as [_ [=]] |].
  runs_step Hr as err Hd. unfold createOrUpdateDeployment in Hd. rewrite Ei in Hd. by destruct Hd as [_ [=]].
Qed.

(** C26. A synchronisation that goes through has asked for a config map with the
    settings of the DAL, and for a deployment of one pod of the image that was
    asked for, whose environment is that config map and that finds its own
    pods; the service leads to their ports. *)
Theorem dal_deploys c tr c' :
  runs (ensureSynchronized c) tr (Done (c', ContinueProcessing)) ->
  let set_environment :=
    owned_mutate cm_ObjectMeta with_cm_meta (md_ObjectMeta c) (build_dal_config_map c) in
  let set_service := owned_service (md_ObjectMeta c) (build_dal_service c) in
  exists image a a' a'', dal_ImageSpec (md_Spec c) = Some image
    /\ tr = [Ev (CConfigMap {| cm_ObjectMeta := named (configMapName c) (dal_namespace c); cm_Data := None |}
                   set_environment) a;
             Ev (CService (new_service (named (dal_name c) (dal_namespace c))) set_service) a';
             Ev (CDeployment (new_deployment (named (dal_name c) (dal_namespace c)))
                   (mutate_dal_deployment c image)) a'']
    /\ (forall cm cm', set_environment cm = Done (inr cm') -> cm_Data cm' = Some (dal_environment c))
    /\ forall d d', mutate_dal_deployment c image d = Done (inr d') ->
         (exists ct, dep_Containers d' = [ct] /\ ct_Image ct = imageRef image
            /\ EnvFromConfigMap (configMapName c) ∈ ct_EnvFrom ct)
         /\ dep_Replicas d' = Some 1%Z
         /\ (gomap (default None (dep_Selector d)) ⊆ list_to_map (dal_selector c) -> selects_own_pods d')
         /\ (forall s s', gomap (svc_Selector s) ⊆ list_to_map (dal_service_selector c) ->
               set_service s = Done (inr s') -> serves s' d').
Proof.
  intros Hr. cbv zeta. unfold ensureSynchronized in Hr.
  runs_step Hr as err Hc. destruct err; [by destruct Hr as [_ [=]] |].
  runs_step Hr as err Hs. destruct err; [by destruct Hr as [_ [=]] |].
  runs_step Hr as err Hd. destruct err; [by destruct Hr as [_ [=]] |]. destruct Hr as [-> _].
  unfold createOrUpdateConfigMap in Hc. upsert_step Hc as x a Ha.
  destruct x as [?|cm]; [by destruct Hc as [_ [=]] |]. destruct Hc as [-> _]. clear Ha.
  unfold createOrUpdateService in Hs. upsert_step Hs as x a' Ha. clear Ha.
  match type of Hs with runs _ ?t _ => assert (t = []) as -> end.
  { destruct x as [err|s]; [destruct (IsAlreadyExists err) |]; by destruct Hs as [-> _]. }
  clear Hs x. unfold createOrUpdateDeployment in Hd.
  destruct (dal_ImageSpec (md_Spec c)) as [image|]; [| by destruct Hd as [_ [=]]].
  cbn -[upsert] in Hd. upsert_step Hd as x a'' Ha. clear Ha.
  match type of Hd with runs _ ?t _ => assert (t = []) as -> end.
  { destruct x as [err|s]; [destruct (IsAlreadyExists err) |]; by destruct Hd as [-> _]. }
  exists image, a, a', a''. split; [done |]. split; [reflexivity |]. split.
  { by intros cm0 cm' (m & ->)%owned_mutate_inv. }
  intros d d' (m & ->)%owned_mutate_inv. destruct (dal_container_fields c image) as (Himg & Henv & _).
  split_and!.
  - exists (dal_container c image). by rewrite build_dal_deployment_fields.
  - by rewrite build_dal_deployment_fields.
  - intros Hs. by apply dal_selects.
  - intros s s' Hsel (m' & ->)%owned_mutate_inv. by apply dal_serves.
Qed.

(** A change of the bucket, the region, the granularity or any other setting
    reaches the config map only: the deployment's closure does not depend on
    it and leaves a deployment that was written before the change as it is, so
    that the running pods keep the environment they were started with. *)
Theorem dal_change_not_rolled (laws : OwningLaws) c c' image x y :
  md_ObjectMeta c = md_ObjectMeta c' ->
  daws_Credentials (dal_AWS (md_Spec c)) = daws_Credentials (dal_AWS (md_Spec c')) ->
  mutate_dal_deployment c image x = Done (inr y) ->
  mutate_dal_deployment c' image y = Done (inr y)
  /\ (dal_environment c <> dal_environment c' -> forall cm,
        cm_Data (build_dal_config_map c cm) <> cm_Data (build_dal_config_map c' cm)).
Proof.
  intros Hm Hc Hx. split.
  - apply (dal_deployment_settled c' image x y). rewrite <- Hx.
    unfold mutate_dal_deployment, build_dal_deployment, dal_container, configMapName, dal_name.
    by rewrite Hm, Hc.
  - intros Hne cm E. apply Hne. by apply (inj Some) in E.
Qed.

(** When a DAL is synchronised, its status reports the replicas of the
    deployment, the endpoint of the service and the current time.  Because of
    the time the update is never one without a change: as soon as the clock has
    moved, the reconcile modifies the resource that it watches and so calls for
    the next one. *)
Theorem dal_status_moves c tr c' :
  runs (ensureStatusSetToDone c) tr (Done (c', ContinueProcessing)) ->
  exists d deployment service now answer,
    let d' := {| md_ObjectMeta := md_ObjectMeta d; md_Spec := md_Spec d;
                 md_Status := synced_status d deployment service now |} in
    tr = [Ev (CGet (dal_namespace c) (dal_name c)) (inr d);
          Ev (CGetDeploymentStatus (dal_namespace d) (dal_name d)) (inr deployment);
          Ev (CGetService (dal_namespace d) (dal_name d)) (inr service);
          Ev CNow now; Ev (CUpdateStatus d') (inr answer)]
    /\ c' = answer
    /\ (dals_LastSyncedTime (md_Status d) <> now -> d' <> d).
Proof.
  unfold ensureStatusSetToDone, refetch, update_status. cbn.
  intros (x & t1 & -> & Hr). destruct x as [err|d]; [by destruct Hr as [_ [=]] |]. cbn in Hr.
  destruct Hr as (x & t2 & -> & Hr).
  destruct x as [err|deployment]; [destruct (IsNotFound err); by destruct Hr as [_ [=]] |].
  destruct Hr as (x & t3 & -> & Hr).
  destruct x as [err|service]; [destruct (IsNotFound err); by destruct Hr as [_ [=]] |].
  destruct Hr as (now & t4 & -> & x & t5 & -> & Hr).
  destruct x as [err|o]; cbn in Hr; [destruct (IsConflict err); by destruct Hr as [_ [=]] |].
  destruct Hr as [-> [= ->]]. exists d, deployment, service, now, o. split; [done |]. split; [done |].
  intros Hne E. apply Hne. by rewrite <- E.
Qed.

(** What the closures write does not depend on how often they run. *)
Theorem dal_objects_settle (laws : OwningLaws) c : only settles (ensureSynchronized c).
Proof.
  unfold ensureSynchronized.
  apply only_bind; [one_creation createOrUpdateConfigMap; apply dal_config_map_settled |].
  intros [err|]; [apply only_Ret |].
  apply only_bind; [one_creation createOrUpdateService; apply dal_service_settled |].
  intros [err|]; [apply only_Ret |]. apply only_bind; [| intros [err|]; apply only_Ret].
  unfold createOrUpdateDeployment. apply only_bind; [apply only_lift |]. intros image.
  apply only_bind; [apply only_upsert; intros ?; apply dal_deployment_settled |].
  intros [err|?]; [destruct (IsAlreadyExists err) |]; apply only_Ret.
Qed.
End DalAdapter.

(** ** Witnesses *)

Import ControllerCalls.Sample Reconcile.Sample.

Definition sample_dal (bucket : string) (image : option MdaiDalImageSpec) : MdaiDal :=
  {| md_ObjectMeta := named "dal" "mdai";
     md_Spec := {| dal_Granularity := "hourly"; dal_UsePayloadTS := true; dal_Marshaler := "json";
                   dal_S3 := {| ds3_Bucket := bucket; ds3_Prefix := "" |};
                   dal_AWS := {| daws_Region := "us-east-1";
                                 daws_Credentials := {| dcr_SecretName := "aws"; dcr_AccessKeyField := "id";
                                                        dcr_SecretKeyField := "key" |} |};
                   dal_ImageSpec := image |};
     md_Status := {| dals_Conditions := []; dals_ObservedGeneration := 0; dals_Replicas := 0;
                     dals_ReadyReplicas := 0; dals_Endpoint := ""; dals_LastSyncedTime := 7 |} |}.

Definition sample_image : MdaiDalImageSpec :=
  {| dimg_Repository := "dal"; dimg_Tag := "1"; dimg_PullPolicy := "" |}.

Definition full_dal : MdaiDal := sample_dal "logs" (Some sample_image).

Definition sample_run := run_with new_cluster (ensureSynchronized full_dal) full_dal.

Lemma dal_synchronized_witness :
  map kind_of sample_run.1.1 = map Some dal_objects
  /\ safe upserting (ensureSynchronized full_dal)
  /\ forall tr c', ~ runs (ensureSynchronized (sample_dal "logs" None)) tr (Done (c', ContinueProcessing)).
Proof.
  destruct (dal_synchronized full_dal) as (Hs & _ & Hsafe).
  split; [| split; [exact Hsafe | exact (proj2 (proj2 (dal_synchronized (sample_dal "logs" None))))]].
  destruct (Hs sample_run.1.1 full_dal ContinueProcessing
              (run_with_runs new_cluster (ensureSynchronized full_dal) full_dal))
    as (_ & _ & [Hc _] & _). exact (proj1 (Hc eq_refl)).
Defined.

Lemma dal_deploys_witness : length sample_run.1.1 = 3.
Proof.
  destruct (dal_deploys full_dal sample_run.1.1 full_dal
              (run_with_runs new_cluster (ensureSynchronized full_dal) full_dal))
    as (image & a & a' & a'' & _ & E & _). rewrite E. reflexivity.
Defined.

Definition written_deployment : option Deployment_ :=
  match mutate_dal_deployment full_dal sample_image (new_deployment (named "dal" "mdai")) with
  | Done (inr y) => Some y
  | _ => None
  end.

(** Another bucket. *)
Lemma dal_change_not_rolled_witness :
  let c' := sample_dal "archive" (Some sample_image) in
  exists y, written_deployment = Some y
    /\ mutate_dal_deployment c' sample_image y = Done (inr y)
    /\ forall cm, cm_Data (build_dal_config_map full_dal cm) <> cm_Data (build_dal_config_map c' cm).
Proof.
  intros c'. eexists. split; [reflexivity |].
  destruct (dal_change_not_rolled own_laws full_dal c' sample_image (new_deployment (named "dal" "mdai")) _
              eq_refl eq_refl eq_refl) as [Hy Hd].
  split; [exact Hy | apply Hd].
  intros E. apply (f_equal (fun m => m !! "MDAI_DAL_S3_BUCKET")) in E. vm_compute in E. discriminate.
Defined.

(** The clock of the sample server stands at 0, the last synchronisation at 7. *)
Lemma dal_status_moves_witness :
  exists d d' answer,
    last (run_with new_cluster (ensureStatusSetToDone full_dal) full_dal).1.1
      = Some (Ev (CUpdateStatus d') (inr answer)) /\ d' <> d /\ dals_LastSyncedTime (md_Status d) = 7%Z.
Proof.
  destruct (dal_status_moves full_dal _ _
              (run_with_runs new_cluster (ensureStatusSetToDone full_dal) full_dal))
    as (d & deployment & service & now & answer & E & _ & Hd).
  pose proof (f_equal (fun tr => match tr with ev :: _ => fetched ev | [] => None end) E) as Hf.
  injection Hf as <-. eexists full_dal, _, _. rewrite E. split; [reflexivity |]. split; [| reflexivity].
  apply Hd. pose proof (f_equal (fun tr => match tr with [_; _; _; ev; _] => clock ev | _ => None end) E) as Hn.
  injection Hn as <-. discriminate.
Defined.

Lemma dal_objects_settle_witness : only settles (ensureSynchronized full_dal).
Proof. apply (dal_objects_settle own_laws). Defined.
