(* ===== verification/Visibility.v ===== *)
(** * The controllers behind the manager's cache

    What the controllers write is read back through the cache of [Cache].  The
    theorems say that the hub, collector, observer, replay and DAL controllers
    see everything they write, when the ingress controller does not, and what
    it does to services that are not its own. *)

From S2P Require Import Prelude GoLib ApiTypes Errors Components WebhookCR Effects Reconcile K8sObjects.
From S2P Require Import Manifests Mutate IngressManifest Builders ConfigBlock CollectorConfig HubCalls HubAdapter.
From S2P Require Import ControllerCalls Cache IngressController CollectorAdapter ObserverAdapter ReplayAdapter DalAdapter.
From S2P Require Import EventTransformer Registry.

(** ** The adapters *)

Definition hub_writes_visible (ev : event HubE) : Prop :=
  match ev with
  | Ev (CreateOrUpdateConfigMap d m) _ =>
      stays_visible CachedConfigMaps cm_ObjectMeta d (fun cm => Done (m cm))
  | _ => True
  end.

(** Walks through one creation. *)
Ltac visible_creation :=
  repeat match goal with
  | |- only _ (upsert _) => apply only_upsert; intros ?; cbn [writes_visible]
  | |- forall _, only _ _ => intro
  | |- only _ (prog_bind _ _) => apply only_bind
  | |- only _ (match ?x with _ => _ end) => destruct x eqn:?
  | |- only _ (let '(_, _) := ?x in _) => destruct x
  | |- only _ _ => solve [eauto with only]
  end.

Lemma config_map_kept `{OwningLaws} owner name ns l m data key value :
  SetControllerReference owner (with_labels (named name ns) (Some l)) = inr m ->
  l !! LabelManagedByMdaiKey = Some LabelManagedByMdaiValue ->
  stays_visible CachedConfigMaps cm_ObjectMeta {| cm_ObjectMeta := m; cm_Data := data |} (set_data key value).
Proof.
  intros Hm Hl. apply stays_kept; [done | by eapply managed_owned | intros x y; apply set_data_kept].
Qed.

Lemma desired_managed `{OwningLaws} owner name ns l m :
  SetControllerReference owner (with_labels (named name ns) (Some l)) = inr m ->
  l !! LabelManagedByMdaiKey = Some LabelManagedByMdaiValue -> managed m.
Proof. intros Hm Hl. by eapply managed_owned. Qed.

Section Adapters.
Context `{OwningLaws} `{K8sUtil} `{GoRange}.
Context (base : error + ConfigBlock) (Marshal : ConfigBlock -> error + string).
Context (MarshalConfigMap : ConfigMap -> error + string) (Sum256Hex : string -> string).

Lemma collector_visible c :
  only writes_visible (CollectorAdapter.ensureSynchronized base Marshal MarshalConfigMap Sum256Hex c).
Proof.
  apply synchronized_only; [| | | | | intros params _ _ |]; intros.
  - unfold createOrUpdateMdaiCollectorConfigMap. visible_creation. by eapply config_map_kept.
  - unfold createOrUpdateMdaiCollectorEnvVarConfigMap. visible_creation.
    apply stays_kept; [done | by eapply desired_managed | by intros ? ? ? [= <-]].
  - unfold createOrUpdateMdaiCollectorServiceAccount. by visible_creation.
  - unfold createOrUpdateMdaiCollectorRole. by visible_creation.
  - unfold createOrUpdateMdaiCollectorRoleBinding. by visible_creation.
  - unfold createOrUpdateMdaiCollectorDeployment. visible_creation.
    apply owned_kept; [done | done | done | done |]. intros d Hd. rewrite build_meta.
    by apply managed_label_other, managed_label_other.
  - unfold createOrUpdateMdaiCollectorService. visible_creation.
    apply owned_kept; [done | done | done | by eapply desired_managed |]. intros s Hs. rewrite build_service_fields.
    by apply managed_label_other, managed_label_other.
Qed.

Lemma label_if_nil_kept c m :
  managed m \/ om_Labels m = None -> managed (label_if_nil (observer_labels c) m).
Proof. intros [Hm|Hm]; unfold label_if_nil; destruct (om_Labels m) eqn:E; done. Qed.

Lemma observer_visible c :
  only writes_visible (ObserverAdapter.ensureSynchronized base Marshal MarshalConfigMap Sum256Hex c).
Proof.
  unfold ObserverAdapter.ensureSynchronized. destruct (_ =? 0); [apply only_Ret |].
  apply only_bind.
  { unfold createOrUpdateObserverResourceConfigMap. visible_creation. by eapply config_map_kept. }
  intros [hash [err|]]; [apply only_Ret |]. apply only_bind.
  { unfold createOrUpdateObserverResourceDeployment. visible_creation.
    apply owned_stays; [done | done | done |]. intros d Hd. by apply label_if_nil_kept. }
  intros [err|]; [destruct (IsConflict err); apply only_Ret |]. apply only_bind.
  { unfold createOrUpdateObserverResourceService. visible_creation. intros s s' Hs [= <-].
    apply managed_visible, label_if_nil_kept. destruct Hs as [->|Hs]; [right | left; by apply visible_managed in Hs].
    match goal with E : SetControllerReference _ _ = inr _ |- _ => by rewrite (owner_only _ _ _ E) end. }
  intros [err|]; apply only_Ret.
Qed.

Lemma replay_visible c :
  only writes_visible (ReplayAdapter.ensureSynchronized base Marshal MarshalConfigMap Sum256Hex c).
Proof.
  unfold ReplayAdapter.ensureSynchronized. apply only_bind.
  { unfold createOrUpdateReplayerConfigMap. visible_creation. by eapply config_map_kept. }
  intros [hash [err|]]; [apply only_Ret |]. apply only_bind.
  { unfold createOrUpdateReplayerDeployment. visible_creation. apply owned_labelled. intros d.
    rewrite augment_fields. apply managed_label_keys; [apply replay_labels_distinct | set_solver]. }
  intros [err|]; [destruct (IsConflict err); apply only_Ret |]. apply only_bind.
  { unfold createOrUpdateReplayerService. visible_creation. apply stays_labelled. intros ? ? [= <-].
    rewrite build_replayer_service_fields.
    apply managed_label_keys; [by apply (bool_decide_eq_true_1 _) | set_solver]. }
  intros [err|]; apply only_Ret.
Qed.

Lemma dal_visible c : only writes_visible (DalAdapter.ensureSynchronized c).
Proof.
  destruct (dal_keys_distinct c) as (Hd & _).
  assert (Hl : (LabelManagedByMdaiKey, LabelManagedByMdaiValue) ∈ dal_labels c) by (unfold dal_labels; set_solver).
  unfold DalAdapter.ensureSynchronized. apply only_bind.
  { unfold createOrUpdateConfigMap. visible_creation. apply owned_labelled. intros cm. by apply managed_label_keys. }
  intros [err|]; [apply only_Ret |]. apply only_bind.
  { unfold createOrUpdateService. visible_creation. apply owned_labelled. intros s.
    rewrite build_dal_service_fields. by apply managed_label_keys. }
  intros [err|]; [apply only_Ret |]. apply only_bind; [| intros [err|]; apply only_Ret].
  unfold createOrUpdateDeployment. apply only_bind; [apply only_lift |]. intros image.
  visible_creation. apply owned_labelled. intros d. rewrite build_dal_deployment_fields. by apply managed_label_keys.
Qed.
End Adapters.

(** ** The hub *)

Section Hub.
Context `{OwningLaws} `{K8sUtil}.
Context (Marshal : marshalled -> error + string) (type_text : CommandType -> string).
Context (labels_Parse : string -> option error) (releaseName : string).

Lemma hub_config_map_kept h env postfix ns opts :
  opts ∈ [[]; [WithOwnerRef SetControllerReference h]] ->
  stays_visible CachedConfigMaps cm_ObjectMeta (env_config_map h postfix ns)
    (fun cm => Done (env_mutate env opts cm)).
Proof.
  intros Ho. apply stays_kept; [done | done |]. intros x y Hx. unfold env_mutate.
  apply elem_of_cons in Ho as [-> | ->%list_elem_of_singleton]; cbn [apply_options].
  - by intros [= <-].
  - unfold WithOwnerRef. cbn [cm_ObjectMeta].
    destruct (SetControllerReference _ _) as [err|m] eqn:E; [done |]. intros [= <-]. by eapply managed_owned.
Qed.

Lemma hub_visible :
  Forall (fun op : HubOperation => forall h, only hub_writes_visible (op h))
    (hub_work Marshal type_text labels_Parse SetControllerReference releaseName).
Proof.
  apply (Forall_each (fun (op : HubOperation) h => only hub_writes_visible (op h))). intros h.
  apply hub_work_only.
  - by intros X [].
  - done.
  - intros env postfix ns opts x _. apply hub_config_map_kept.
  - unfold Reconcile.ensureStatusSetToDone, refetch, update_status. solve_only; done.
Qed.
End Hub.

(** ** The services of an ingress *)

Section Ingress.
Context {Cfg Any : Type} `{OtelConfig Cfg Any} `{Configs Any} `{GoRange} `{GoSort} `{Mergo} `{OwningLaws}.
Context (IntValue : IntOrString -> Z) (lower : Z -> Z) (Compile : string -> option (string -> bool)).

(** The collector's own labels win. *)
Lemma Labels_manager instance name image labels :
  Labels Compile instance name image [] = Done labels ->
  labels !! LabelManagedByMdaiKey
  = Some (default LabelManagedByMdaiValue (gomap (om_Labels instance) !! LabelManagedByMdaiKey)).
Proof.
  unfold Labels. set (base := {["app.kubernetes.io/managed-by" := "mdai-operator"]}).
  assert (G : forall l (m : gmap string string), go_fold (fun base '(k, v) =>
      let! filtered := IsFilteredSet Compile k [] in
      Done (if (filtered : bool) then base else <[k := v]> base)) m l = Done (gomap (set_keys (Some m) l))).
  { induction l as [|[k v] l IH]; intros m; [done |]. simpl. apply IH. }
  rewrite G. cbn [go_bind]. intros [= <-].
  assert (E : forall v, <["app.kubernetes.io/version" := v]>
      (gomap (set_keys (Some base) (range_map (gomap (om_Labels instance))))) !! LabelManagedByMdaiKey
    = Some (default LabelManagedByMdaiValue (gomap (om_Labels instance) !! LabelManagedByMdaiKey))).
  { intros v. rewrite lookup_insert_ne by done. rewrite set_keys_lookup by apply range_map_NoDup.
    rewrite range_map_lookup. by destruct (gomap (om_Labels instance) !! _). }
  destruct (_ !! "app.kubernetes.io/name"); [apply E |]. by rewrite lookup_insert_ne, E.
Qed.

(** Who manages the collector, according to its labels. *)
Definition manager_of (otelcol : OtelCollector Cfg) : string :=
  default LabelManagedByMdaiValue (gomap (om_Labels (oc_ObjectMeta otelcol)) !! LabelManagedByMdaiKey).

Lemma aws_service_manager (params : OtelMdaiIngressComb Cfg) name section ports keep s :
  aws_service Compile params name section ports keep = Done (inr (Some s)) ->
  gomap (om_Labels (svc_ObjectMeta s)) !! LabelManagedByMdaiKey = Some (manager_of (comb_Otelcol params)).
Proof.
  unfold aws_service. destruct (Labels _ _ _ _ _) as [labels|] eqn:El; [| done]. cbn [go_bind].
  destruct section as [svc|]; [| done]. destruct ports as [ports [err|]]; [done |].
  destruct (delete_down _ _ _) as [ps|]; [| done]. cbn [go_bind].
  destruct (length ps =? 0); [done |]. intros [= <-]. by apply Labels_manager in El.
Qed.

Lemma built_service (params : OtelMdaiIngressComb Cfg) regs objects s :
  (Build IntValue lower Compile params regs).2 = Done (inr objects) -> OService s ∈ objects ->
  gomap (om_Labels (svc_ObjectMeta s)) !! LabelManagedByMdaiKey = Some (manager_of (comb_Otelcol params)).
Proof.
  unfold Build, Manifests.GrpcService, Manifests.NonGrpcService.
  destruct (Ingress _ _ _ _) as [regs' [[err|ingress]|why]]; [done | | done]. cbn [go_bind snd].
  destruct (negb (for_aws params)).
  { cbn [go_bind]. intros [= <-]. destruct ingress; simpl; set_solver. }
  destruct (aws_service _ _ _ _ (servicePortsFromCfg _) _) as [[err|grpc]|why] eqn:Eg; [done | | done].
  destruct (GetAllPorts _) as [all err]. cbn [go_bind].
  destruct (aws_service _ _ (Naming.NonGrpcService _ _) _ _ _) as [[err'|other]|why] eqn:Eo; [done | | done].
  cbn [go_bind]. intros [= <-]. rewrite !elem_of_app. intros [Hs|[Hs|Hs]].
  - destruct ingress; simpl in Hs; set_solver.
  - destruct grpc as [g|]; simpl in Hs; [| set_solver]. apply list_elem_of_singleton in Hs as [= ->].
    by apply aws_service_manager in Eg.
  - destruct other as [o|]; simpl in Hs; [| set_solver]. apply list_elem_of_singleton in Hs as [= ->].
    by apply aws_service_manager in Eo.
Qed.
End Ingress.

(** ** Objects that the API server has and the cache has not *)

Section Hidden.
Context {Cfg : Type} `{GoRange} `{Mergo} `{OwningLaws}.

(** The service stored under a name. *)
Definition stored_as (s stored : Service_) : Prop :=
  om_Name (svc_ObjectMeta stored) = om_Name (svc_ObjectMeta s)
  /\ om_Namespace (svc_ObjectMeta stored) = om_Namespace (svc_ObjectMeta s)
  /\ om_Labels (svc_ObjectMeta stored) = om_Labels (svc_ObjectMeta s).

(** The same object apart from its owners. *)
Definition same_service (s : Service_) (o : Object) : Prop :=
  exists refs, o = OService (with_svc_meta s (with_owners (svc_ObjectMeta s) refs)).

(** [CreateOrUpdate] does not find a service that the cache does not hold, and
    creates it; the server has one of that name. *)
Definition behind_cache (stored : Service_) : assumption (IngE Cfg) := fun X e =>
  match e in IngE _ X return X -> Prop with
  | IApply (OService d) mutate => fun '(_, err) =>
      om_Name (svc_ObjectMeta d) = om_Name (svc_ObjectMeta stored) ->
      om_Namespace (svc_ObjectMeta d) = om_Namespace (svc_ObjectMeta stored) ->
      ~ visible CachedServices (svc_ObjectMeta stored) ->
      match mutate (OService d) with
      | inl err' => err = Some err'
      | inr _ => exists err', err = Some err' /\ IsAlreadyExists err' = true
      end
  | _ => fun _ => True
  end.

(** The creations and updates of an object fail. *)
Definition refused (P : Object -> Prop) (ev : event (IngE Cfg)) : Prop :=
  match ev with
  | Ev e x => match e in IngE _ X return X -> Prop with
              | IApply d _ => fun '(_, err) => P d -> is_Some err
              | _ => fun _ => True
              end x
  end.

Lemma apply_desired_refused P owner ds errs owned tr out :
  (forall d m, d ∈ ds -> P d -> SetControllerReference owner (o_meta d) = inr m -> P (o_with_meta d m)) ->
  Exists P ds ->
  runs (apply_desired (Cfg:=Cfg) owner ds errs owned) tr out -> Forall (allowed server_errors) tr ->
  Forall (refused P) tr -> length (applied tr) < length ds.
Proof.
  revert errs owned tr. induction ds as [|d ds IH]; intros errs owned tr HP Hex Hr Ha Hp; [by inversion Hex |].
  cbn [apply_desired] in Hr.
  destruct (if isNamespaceScoped d then _ else _) as [setErr|d'] eqn:Ed.
  { destruct (apply_desired_runs _ _ _ _ _ _ Hr Ha) as (es & _ & _ & Hl). simpl. lia. }
  cbn [prog_bind call runs] in Hr. destruct Hr as ([existing err] & tr' & -> & Hr).
  apply Forall_cons in Ha as [Hx Ha]. apply Forall_cons in Hp as [Hp0 Hp].
  cbn [allowed server_errors] in Hx. cbn [refused] in Hp0. destruct err as [err|].
  { rewrite Hx in Hr. destruct (apply_desired_runs _ _ _ _ _ _ Hr Ha) as (es & _ & _ & Hl). simpl. lia. }
  assert (Hnot : ~ P d).
  { intros Hd. enough (P d') as Hd' by by destruct (Hp0 Hd').
    destruct (isNamespaceScoped d); [| by injection Ed as <-].
    destruct (SetControllerReference _ _) eqn:E; [done |]. injection Ed as <-. apply HP; [by left | done | done]. }
  apply Exists_cons in Hex as [|Hex]; [done |]. simpl. apply ->Nat.succ_lt_mono.
  eapply IH; [| done | done | done | done]. intros d0 m Hd0. apply HP. by right.
Qed.

(** An incomplete reconcile reports an error and prunes nothing. *)
Lemma incomplete_reconcile owner ds owned tr out :
  runs (reconcileDesiredObjects (Cfg:=Cfg) owner ds owned) tr out -> Forall (allowed server_errors) tr ->
  (forall tr' out', runs (apply_desired (Cfg:=Cfg) owner ds [] owned) tr' out' ->
     tr' `prefix_of` tr -> length (applied tr') < length ds) ->
  exists err, out = Done (Some err) /\ deleted tr = [].
Proof.
  unfold reconcileDesiredObjects. rewrite runs_bind. intros Hr Ha Hl.
  destruct Hr as [(r & tr1 & tr2 & -> & Hp & Hr)|(why & -> & Hp)].
  2: { destruct (apply_desired_runs _ _ _ _ _ _ Hp Ha) as (es & [=] & _). }
  apply Forall_app in Ha as [Ha _]. specialize (Hl tr1 _ Hp (prefix_app_r _ _ _ (reflexivity _))).
  destruct (apply_desired_runs _ _ _ _ _ _ Hp Ha) as (es & [= ->] & Hd & Hes).
  destruct es as [|err es]; simpl in Hr, Hes; [lia |]. destruct Hr as [-> ->].
  eexists. by rewrite app_nil_r.
Qed.
End Hidden.

(** ** What the ingress controller takes for its own *)

Section Owned.
Context {Cfg Any : Type} `{OtelConfig Cfg Any} `{Configs Any} `{GoRange} `{GoSort} `{Mergo} `{OwningLaws}.
Context (IntValue : IntOrString -> Z) (lower : Z -> Z) (Compile : string -> option (string -> bool)).

(** The lists have the service where its index and its labels say so, and no
    other object has its UID. *)
Definition lists (s : Service_) : assumption (IngE Cfg) := fun X e =>
  match e in IngE _ X return X -> Prop with
  | IList t ns owner => fun answer =>
      match answer with
      | inl _ => True
      | inr objs =>
          (forall o, o ∈ objs -> o_UID o = o_UID (OService s) -> o = OService s)
          /\ (t = OwnedService -> ns = om_Namespace (svc_ObjectMeta s) -> owner ∈ service_owner_index s ->
              visible CachedServices (svc_ObjectMeta s) -> OService s ∈ objs)
      end
  | _ => fun _ => True
  end.

Lemma by_uid_lookup objs m uid :
  by_uid objs m !! uid = match last (filter (fun o => o_UID o = uid) objs) with
                         | Some o => Some o
                         | None => m !! uid
                         end.
Proof.
  revert m. induction objs as [|o objs IH]; intros m; [done |]. simpl. rewrite IH.
  rewrite filter_cons. destruct (decide _) as [<-|Hn].
  - rewrite lookup_insert_eq, last_cons. by destruct (last _).
  - by rewrite lookup_insert_ne.
Qed.

(** An object that is the only one with its UID. *)
Lemma by_uid_only objs m o :
  (forall o', o' ∈ objs -> o_UID o' = o_UID o -> o' = o) -> o ∈ objs \/ m !! o_UID o = Some o ->
  by_uid objs m !! o_UID o = Some o.
Proof.
  intros Hu Ho. rewrite by_uid_lookup. destruct (last _) as [o'|] eqn:El.
  - apply last_Some_elem_of, list_elem_of_filter in El as [Hid Hin]. by rewrite (Hu o').
  - destruct Ho as [Ho|Ho]; [| done]. apply last_None in El. exfalso.
    assert (Hin : o ∈ filter (fun o' => o_UID o' = o_UID o) objs) by (by apply list_elem_of_filter).
    rewrite El in Hin. by inversion Hin.
Qed.

Lemma find_owned_has (s : Service_) (params : OtelMdaiIngressComb Cfg) tr owned :
  runs (findMdaiIngressOwnedObjects params) tr (Done (inr owned)) -> Forall (allowed (lists s)) tr ->
  om_Namespace (mi_ObjectMeta (comb_MdaiIngress params)) = om_Namespace (svc_ObjectMeta s) ->
  om_Name (mi_ObjectMeta (comb_MdaiIngress params)) ∈ service_owner_index s ->
  visible CachedServices (svc_ObjectMeta s) ->
  owned !! o_UID (OService s) = Some (OService s).
Proof.
  unfold findMdaiIngressOwnedObjects, GetOwnedResourceTypes. intros Hr Ha Hns Ho Hv.
  cbn [find_owned getList prog_bind call runs] in Hr. destruct Hr as ([err|services] & tr1 & -> & Hr); [by destruct Hr |].
  cbn [prog_bind runs] in Hr. destruct Hr as ([err|ingresses] & tr2 & -> & Hr); [by destruct Hr |].
  destruct Hr as [-> Hr]. injection Hr as ->. apply Forall_cons in Ha as [[Hu1 Hin] [[Hu2 _] _]%Forall_cons].
  apply lookup_union_Some_raw.
  destruct (by_uid ingresses ∅ !! o_UID (OService s)) as [o|] eqn:E; [left | right; split; [done |]].
  - rewrite by_uid_lookup in E. destruct (last _) eqn:El; [| done].
    apply last_Some_elem_of, list_elem_of_filter in El as [Hid Hl]. injection E as ->. by rewrite (Hu2 o).
  - rewrite map_union_empty. apply by_uid_only; [done |]. left. by apply Hin.
Qed.

Lemma pruned_unless_applied owner ds owned tr o :
  runs (reconcileDesiredObjects (Cfg:=Cfg) owner ds owned) tr (Done None) -> Forall (allowed server_errors) tr ->
  owned !! o_UID o = Some o -> o_UID o ∉ applied tr -> o ∈ deleted tr.
Proof.
  unfold reconcileDesiredObjects. rewrite runs_bind. intros Hr Ha Ho Hn.
  destruct Hr as [(r & tr1 & tr2 & -> & Hp & Hr)|(why & [=] & _)]. apply Forall_app in Ha as [Ha _].
  destruct (apply_desired_runs _ _ _ _ _ _ Hp Ha) as (es & [= ->] & Hd & Hl).
  destruct es as [|e es]; simpl in Hr; [| by destruct Hr].
  rewrite runs_bind in Hr. destruct Hr as [(err & tr3 & tr4 & -> & Hp' & _)|(why & [=] & _)].
  destruct (deleteObjects_runs _ _ _ Hp') as (_ & Hdel & _). unfold applied, deleted in *.
  rewrite !omap_app in *. apply elem_of_app. right. apply elem_of_app. left. rewrite Hdel.
  apply list_elem_of_fmap. exists (o_UID o, o). split; [done |]. apply elem_of_map_to_list.
  apply map_lookup_filter_Some. split; [done |]. cbn [fst]. set_solver.
Qed.
End Owned.

(** ** A reconcile of an ingress *)

Section Reconciles.
Context {Cfg Any : Type} `{OtelConfig Cfg Any} `{Configs Any} `{GoRange} `{GoSort} `{Mergo} `{OwningLaws}.
Context (IntValue : IntOrString -> Z) (lower : Z -> Z) (Compile : string -> option (string -> bool)).
Context (zero : Cfg).

(** A service of the collector's manifests stays what it is when it gets an
    owner. *)
Lemma same_service_owned owner s o m :
  same_service s o -> SetControllerReference owner (o_meta o) = inr m -> same_service s (o_with_meta o m).
Proof. intros [refs ->] Hm. exists (om_OwnerReferences m). by rewrite (owner_only _ _ _ Hm). Qed.

Lemma behind_cache_refused s stored (tr : list (event (IngE Cfg))) :
  stored_as s stored -> ~ visible CachedServices (svc_ObjectMeta stored) ->
  Forall (allowed (behind_cache stored)) tr -> Forall (refused (same_service s)) tr.
Proof.
  intros (Hn & Hns & _) Hv Ht. refine (Forall_impl _ _ _ Ht _). clear Ht. intros [X e x]. destruct e; try done.
  destruct x as [existing err]. intros Ha [refs ->]. cbn [allowed behind_cache] in Ha.
  specialize (Ha (eq_sym Hn) (eq_sym Hns) Hv). destruct (mutate _); [by rewrite Ha | by destruct Ha as (? & -> & _)].
Qed.

(** The answers of the two fetches. *)
Definition ingress_answer (ev : event (IngE Cfg)) : option (error + MdaiIngress) :=
  match ev with
  | Ev e x => match e in IngE _ X return X -> option (error + MdaiIngress) with
              | IGetIngress _ _ => Some
              | _ => fun _ => None
              end x
  end.

Definition collector_answer (ev : event (IngE Cfg)) : option (error + OtelCollector Cfg) :=
  match ev with
  | Ev e x => match e in IngE _ X return X -> option (error + OtelCollector Cfg) with
              | IGetOtelcol _ _ => Some
              | _ => fun _ => None
              end x
  end.

Lemma ingress_fetched ns name x y tr tr' :
  Ev (IGetIngress (Cfg:=Cfg) ns name) x :: tr = Ev (IGetIngress ns name) y :: tr' -> x = y /\ tr = tr'.
Proof.
  intros E. split; [| by injection E].
  by apply (f_equal (fun tr => match tr with ev :: _ => ingress_answer ev | [] => None end)) in E as [= ->].
Qed.

Lemma collector_fetched ns name x y tr tr' :
  Ev (IGetOtelcol (Cfg:=Cfg) ns name) x :: tr = Ev (IGetOtelcol ns name) y :: tr' -> x = y /\ tr = tr'.
Proof.
  intros E. split; [| by injection E].
  by apply (f_equal (fun tr => match tr with ev :: _ => collector_answer ev | [] => None end)) in E as [= ->].
Qed.

(** A successful reconcile of an ingress that exists ends with pruning. *)
Lemma successful_reconcile ns name regs mi tr regs' r :
  runs (IngressController.Reconcile (Cfg:=Cfg) IntValue lower Compile zero ns name regs)
    (Ev (IGetIngress ns name) (inr mi) :: tr) (Done (regs', (r, None))) ->
  exists params objects owned tr0 tr1 tr2, tr = tr0 ++ tr1 ++ tr2
    /\ comb_MdaiIngress params = mi
    /\ runs (findMdaiIngressOwnedObjects (Cfg:=Cfg) params) tr1 (Done (inr owned))
    /\ runs (reconcileDesiredObjects (Cfg:=Cfg) (mi_ObjectMeta mi) objects owned) tr2 (Done None).
Proof.
  unfold IngressController.Reconcile. cbn [prog_bind call runs].
  intros (answer & tr' & E & Hr). apply ingress_fetched in E as [<- <-].
  case_bool_decide; [by destruct Hr |]. destruct Hr as (collector & tr' & -> & Hr).
  destruct (match collector with inl _ => _ | inr _ => _ end) as [err|otelcol] eqn:Ec.
  { destruct Hr as [_ [= _ _ <-]]. destruct collector as [err|]; [| done].
    destruct (negb (IsNotFound err)) eqn:En; [| done]. injection Ec as Ec. unfold IgnoreNotFound in Ec.
    by destruct (IsNotFound err). }
  destruct (BuildCollector _ _ _ _ _) as [regs1 [[err|objects]|why]]; [by destruct Hr | | by destruct Hr].
  cbn [lift prog_bind] in Hr. rewrite runs_bind in Hr.
  destruct Hr as [([err|owned] & tr1 & tr2 & -> & Hf & Hr)|(why & [=] & _)]; [by destruct Hr |].
  rewrite runs_bind in Hr. destruct Hr as [([err|] & tr3 & tr4 & -> & Hd & Hr)|(why & [=] & _)]; [by destruct Hr |].
  destruct Hr as [-> _]. exists (NewOtelIngressConfig otelcol mi), objects, owned. eexists [Ev (IGetOtelcol _ _) collector], tr1, tr3.
  rewrite app_nil_r. by split_and!.
Qed.

(** What follows when the manifests can be built. *)
Lemma reconcile_built ns name regs regs' mi otelcol objects tr out :
  Build IntValue lower Compile (NewOtelIngressConfig otelcol mi) regs = (regs', Done (inr objects)) ->
  runs (IngressController.Reconcile (Cfg:=Cfg) IntValue lower Compile zero ns name regs)
    (Ev (IGetIngress ns name) (inr mi)
      :: Ev (IGetOtelcol ns (ocr_Name (ing_OtelCollector (mi_Spec mi)))) (inr otelcol) :: tr) out ->
  exists tr1 tr2, tr = tr1 ++ tr2 /\ deleted tr1 = []
    /\ ((exists err, tr2 = [] /\ out = Done (regs', (done_Result, Some err)))
        \/ exists owned res, runs (reconcileDesiredObjects (Cfg:=Cfg) (mi_ObjectMeta mi) objects owned) tr2 res
            /\ out = go_map (fun err => (regs', (done_Result, err))) res).
Proof.
  intros Hb. unfold IngressController.Reconcile. cbn [prog_bind call runs].
  intros (answer & tr' & E & Hr). apply ingress_fetched in E as [<- <-].
  case_bool_decide; [by destruct Hr |]. cbn [prog_bind call runs] in Hr.
  destruct Hr as (answer & tr' & E & Hr). apply collector_fetched in E as [<- <-].
  unfold BuildCollector in Hr. rewrite Hb in Hr. cbn [lift prog_bind] in Hr.
  unfold findMdaiIngressOwnedObjects, GetOwnedResourceTypes in Hr.
  cbn [find_owned getList prog_bind call runs] in Hr. destruct Hr as ([err|services] & tr1 & -> & Hr).
  { destruct Hr as [-> ->]. eexists [_], []. split_and!; [done | done | left; by eexists]. }
  cbn [prog_bind runs] in Hr. destruct Hr as ([err|ingresses] & tr2 & -> & Hr).
  { destruct Hr as [-> ->]. eexists [_; _], []. split_and!; [done | done | left; by eexists]. }
  cbn [prog_bind] in Hr. eexists [_; _], tr2. split_and!; [done | done | right].
  rewrite runs_bind in Hr. destruct Hr as [(err & tr3 & tr4 & -> & Hd & Hr)|(why & -> & Hd)].
  - eexists _, _. destruct err as [err|]; destruct Hr as [-> ->]; rewrite app_nil_r; by split.
  - eexists _, _. by split.
Qed.
End Reconciles.

(** What the DAL controller makes of a new service. *)
Lemma dal_service_written `{OwningLaws} c written :
  owned_service (md_ObjectMeta c) (build_dal_service c) (new_service (named (dal_name c) (dal_namespace c)))
    = Done (inr written) ->
  om_Namespace (svc_ObjectMeta written) = dal_namespace c
  /\ service_owner_index written = [dal_name c] /\ managed (svc_ObjectMeta written).
Proof.
  unfold owned_service, owned_mutate. destruct (SetControllerReference _ _) as [|m] eqn:Em; [done |].
  intros [= <-]. pose proof (owner_only _ _ _ Em) as Hm.
  destruct (owner_first _ (svc_ObjectMeta (new_service (named _ _))) _ eq_refl Em) as (ref & Href & Hname & _).
  unfold service_owner_index. rewrite build_dal_service_fields. cbn [svc_ObjectMeta with_svc_meta].
  rewrite (label_keys_meta m) by done. split_and!.
  - by rewrite Hm.
  - cbn [with_labels om_OwnerReferences]. by rewrite Href, Hname.
  - apply (managed_labels _ (gomap (set_keys _ (dal_labels c)))), set_keys_elem; [apply dal_keys_distinct |]. unfold dal_labels. set_solver.
Qed.

(** ** Properties *)

(** C18. Everything that the hub, collector, observer, replay and DAL
    controllers create or update is in the manager's cache afterwards, so that
    the next reconcile finds it: each closure, run on the desired object or on
    any object that the cache has, leaves the label that the cache selects by. *)
Theorem writes_stay_visible `{OwningLaws} `{K8sUtil} `{GoRange}
    (base : error + ConfigBlock) (Marshal : ConfigBlock -> error + string)
    (MarshalConfigMap : ConfigMap -> error + string) (Sum256Hex : string -> string)
    (MarshalVariable : marshalled -> error + string) (type_text : CommandType -> string)
    (labels_Parse : string -> option error) (releaseName : string) :
  Forall (fun op : HubOperation => forall h, only hub_writes_visible (op h))
    (hub_work MarshalVariable type_text labels_Parse SetControllerReference releaseName)
  /\ (forall c, only writes_visible (CollectorAdapter.ensureSynchronized base Marshal MarshalConfigMap Sum256Hex c))
  /\ (forall c, only writes_visible (ObserverAdapter.ensureSynchronized base Marshal MarshalConfigMap Sum256Hex c))
  /\ (forall c, only writes_visible (ReplayAdapter.ensureSynchronized base Marshal MarshalConfigMap Sum256Hex c))
  /\ (forall c, only writes_visible (DalAdapter.ensureSynchronized c)).
Proof.
  split_and!; [apply hub_visible | apply collector_visible | apply observer_visible | apply replay_visible
    | apply dal_visible].
Qed.

(** C39. When the collector of an ingress carries a managed-by label of its own,
    the services built for it carry that label and are not in the cache.  Once
    one of them is stored, every reconcile of the ingress reports an error, and
    none ever prunes. *)
Theorem hidden_service_blocks {Cfg Any : Type} `{OtelConfig Cfg Any} `{Configs Any} `{GoRange} `{GoSort} `{Mergo}
    `{OwningLaws} IntValue lower Compile zero ns name regs regs' mi otelcol objects s stored tr out :
  Build IntValue lower Compile (NewOtelIngressConfig otelcol mi) regs = (regs', Done (inr objects)) ->
  OService s ∈ objects -> manager_of otelcol <> LabelManagedByMdaiValue -> stored_as s stored ->
  runs (IngressController.Reconcile IntValue lower Compile zero ns name regs)
    (Ev (IGetIngress ns name) (inr mi)
      :: Ev (IGetOtelcol ns (ocr_Name (ing_OtelCollector (mi_Spec mi)))) (inr otelcol) :: tr) out ->
  Forall (allowed server_errors) tr -> Forall (allowed (behind_cache stored)) tr ->
  exists err, out = Done (regs', (done_Result, Some err)) /\ deleted tr = [].
Proof.
  intros Hb Hs Hm Hst Hr Ha Hc.
  assert (Hv : ~ visible CachedServices (svc_ObjectMeta stored)).
  { rewrite visible_managed by done. unfold managed. destruct Hst as (_ & _ & ->).
    rewrite (built_service IntValue lower Compile (NewOtelIngressConfig otelcol mi) regs objects s); [| by rewrite Hb | done].
    by intros [= ?]. }
  destruct (reconcile_built _ _ _ _ _ _ _ _ _ _ _ _ _ Hb Hr) as (tr1 & tr2 & -> & Hd1 & Hout).
  destruct Hout as [(err & -> & ->)|(owned & res & Hres & ->)]; [exists err; by rewrite app_nil_r |].
  apply Forall_app in Ha as [_ Ha]. apply Forall_app in Hc as [_ Hc].
  apply (behind_cache_refused s) in Hc; [| done | done].
  destruct (incomplete_reconcile _ _ _ _ _ Hres Ha) as (err & -> & Hd2).
  - intros tr' out' Hr' [k ->]. apply Forall_app in Ha as [Ha _]. apply Forall_app in Hc as [Hc _].
    eapply (apply_desired_refused (same_service s)); [| | done | done | done].
    + intros d m _. apply same_service_owned.
    + apply Exists_exists. exists (OService s). split; [done |]. exists (om_OwnerReferences (svc_ObjectMeta s)).
      by destruct s as [[] ? ? ? ?].
  - exists err. split; [done |]. unfold deleted in *. by rewrite omap_app, Hd1, Hd2.
Qed.

(** C40. The service that the DAL controller makes has the DAL as its first owner
    and is in the cache.  For an ingress of the same name and namespace, every
    successful reconcile deletes it. *)
Theorem dal_service_pruned {Cfg Any : Type} `{OtelConfig Cfg Any} `{Configs Any} `{GoRange} `{GoSort} `{Mergo}
    `{OwningLaws} IntValue lower Compile zero c written s mi regs tr out :
  owned_service (md_ObjectMeta c) (build_dal_service c) (new_service (named (dal_name c) (dal_namespace c)))
    = Done (inr written) ->
  stored_as written s -> om_OwnerReferences (svc_ObjectMeta s) = om_OwnerReferences (svc_ObjectMeta written) ->
  om_Name (mi_ObjectMeta mi) = dal_name c -> om_Namespace (mi_ObjectMeta mi) = dal_namespace c ->
  runs (IngressController.Reconcile (Cfg:=Cfg) IntValue lower Compile zero (dal_namespace c) (dal_name c) regs)
    (Ev (IGetIngress (dal_namespace c) (dal_name c)) (inr mi) :: tr) (Done out) ->
  Forall (allowed server_errors) tr -> Forall (allowed (lists s)) tr ->
  out.2.2 = None -> o_UID (OService s) ∉ applied tr ->
  OService s ∈ deleted tr.
Proof.
  intros Hw (_ & Hns & Hl) Ho Hmn Hmns Hr Ha Hls Hok Hu. destruct out as [regs' [r err]]. simpl in Hok. subst err.
  destruct (successful_reconcile _ _ _ _ _ _ _ _ _ _ _ Hr) as (params & objects & owned & tr0 & tr1 & tr2 & -> & Hp & Hf & Hd).
  apply Forall_app in Ha as [_ Ha]. apply Forall_app in Ha as [_ Ha]. apply Forall_app in Hls as [_ Hls]. apply Forall_app in Hls as [Hls _].
  destruct (dal_service_written _ _ Hw) as (Hwns & Hidx & Hlab).
  assert (Hin : OService s ∈ deleted tr2).
  { eapply (pruned_unless_applied _ _ owned); [done | done | |].
    - eapply find_owned_has; [done | done | | |].
      + by rewrite Hp, Hmns, Hns, Hwns.
      + unfold service_owner_index in *. rewrite Ho, Hidx, Hp, Hmn. by left.
      + apply managed_visible. unfold managed in *. by rewrite Hl.
    - intros Hx. apply Hu. unfold applied in *. rewrite !omap_app, !elem_of_app. by auto. }
  unfold deleted in *. rewrite !omap_app, !elem_of_app. by auto.
Qed.

(** ** Witnesses *)

Lemma two_first {A} (l : list A) a b : l !! 0 = Some a -> l !! 1 = Some b -> l = a :: b :: tail (tail l).
Proof. destruct l as [|x [|y l]]; by intros [= ->] [= ->]. Qed.

Import Reconcile.Sample IngressManifest.Sample Mutate.Sample ControllerCalls.Sample.

Lemma writes_stay_visible_witness :
  only writes_visible CollectorAdapter.sample_synchronisation
  /\ only writes_visible (DalAdapter.ensureSynchronized DalAdapter.full_dal).
Proof.
  destruct (writes_stay_visible (inr CollectorConfig.sample_base) (fun _ => inr "receivers: {}")
    (fun _ => inr "{}") (fun _ => "00") (fun _ => inr "{}") (fun _ => "") (fun _ => None) "mdai")
    as (_ & Hc & _ & _ & Hd). split; [apply Hc | apply Hd].
Defined.

Lemma one_first {A} (l : list A) a : l !! 0 = Some a -> l = a :: tail l.
Proof. destruct l; by intros [= ->]. Qed.

Lemma deleted_tail {Cfg} (tr : list (event (IngE Cfg))) o : o ∈ deleted (tail tr) -> o ∈ deleted tr.
Proof. destruct tr as [|[X [] x] tr]; try done. intros Ho. by right. Qed.

(** The collector of the sample, installed by a chart. *)
Definition chart_gateway : OtelCollector unit :=
  {| oc_ObjectMeta := with_labels (oc_ObjectMeta gateway) (Some {[LabelManagedByMdaiKey := "Helm"]});
     oc_Image := oc_Image gateway; oc_Mode := oc_Mode gateway; oc_Ingress := oc_Ingress gateway;
     oc_Ports := oc_Ports gateway; oc_Config := oc_Config gateway |}.

(** A server that has every service already, and a cache that has none. *)
Definition hidden_server X (e : IngE unit X) (st : unit) : X * unit :=
  match e in IngE _ X return X * unit with
  | IGetIngress _ _ => (inr gateway_ingress, st)
  | IGetOtelcol _ _ => (inr chart_gateway, st)
  | IListIngresses _ _ => (inr [gateway_ingress], st)
  | IList _ _ _ => (inr [], st)
  | IApply (OService d) mutate =>
      (match mutate (OService d) with
       | inl err => (OService d, Some err)
       | inr o => (o, Some (ErrStatus ReasonAlreadyExists "services already exists"))
       end, st)
  | IApply desired _ => ((desired, None), st)
  | IDelete _ => (None, st)
  end.

Definition hidden_reconcile :=
  IngressController.Reconcile int_value id (fun _ => None) tt "mdai" "gateway" gateway_registries.

Definition hidden_run := run_with hidden_server hidden_reconcile tt.

Definition chart_built := Build int_value id (fun _ => None) (NewOtelIngressConfig chart_gateway gateway_ingress)
  gateway_registries.

Definition chart_objects : list Object := match chart_built.2 with Done (inr objects) => objects | _ => [] end.

Lemma chart_built_ok : chart_built = (chart_built.1, Done (inr chart_objects)).
Proof.
  assert (E : chart_built.2 = Done (inr chart_objects)) by (vm_compute; reflexivity).
  rewrite <- E. apply surjective_pairing.
Qed.

(** The first service of the manifests. *)
Definition chart_service : Service_ :=
  match chart_objects with
  | [OIngress _; OService s; _] => s
  | _ => new_service (named "" "")
  end.

Lemma hidden_service_blocks_witness :
  manager_of chart_gateway = "Helm"
  /\ exists err, hidden_run.1.2 = Done (chart_built.1, (done_Result, Some err))
  /\ deleted hidden_run.1.1 = [].
Proof.
  split; [reflexivity |].
  assert (Hc : Forall (allowed (behind_cache chart_service)) hidden_run.1.1).
  { apply run_with_allowed. intros X [| | | | [] |] st; try done. cbn.
    destruct (mutate _); intros _ _ _; [done | by eexists]. }
  assert (Ha : Forall (allowed server_errors) hidden_run.1.1).
  { apply (bool_decide_eq_true_1 _). vm_compute. reflexivity. }
  destruct (hidden_service_blocks int_value id (fun _ => None) tt "mdai" "gateway" gateway_registries
    chart_built.1 gateway_ingress chart_gateway
    chart_objects chart_service chart_service
    (tail (tail hidden_run.1.1)) hidden_run.1.2) as (err & Hout & Hd).
  - exact chart_built_ok.
  - vm_compute. right. left.
  - done.
  - done.
  - rewrite <- (two_first hidden_run.1.1); [exact (run_with_runs hidden_server hidden_reconcile tt) | reflexivity ..].
  - by repeat apply Forall_tail.
  - by repeat apply Forall_tail.
  - exists err. split; [exact Hout | exact Hd].
Defined.

(** The DAL of the sample is called like the ingress. *)
Definition gateway_dal : MdaiDal :=
  {| md_ObjectMeta := named "gateway" "mdai"; md_Spec := md_Spec DalAdapter.full_dal;
     md_Status := md_Status DalAdapter.full_dal |}.

Definition gateway_dal_service : Service_ :=
  match owned_service (md_ObjectMeta gateway_dal) (build_dal_service gateway_dal)
          (new_service (named "gateway" "mdai")) with
  | Done (inr s) => s
  | _ => new_service (named "" "")
  end.

(** What is stored: the server gave it a UID. *)
Definition stored_dal_service : Service_ :=
  with_svc_meta gateway_dal_service
    {| om_Name := "gateway"; om_Namespace := "mdai"; om_UID := "uid-of-the-service"; om_Generation := 0;
       om_Labels := om_Labels (svc_ObjectMeta gateway_dal_service); om_Annotations := None;
       om_Finalizers := [];
       om_OwnerReferences := om_OwnerReferences (svc_ObjectMeta gateway_dal_service);
       om_DeletionTimestamp := None; om_CreationTimestamp := None |}.

Definition dal_server := same_name_server stored_dal_service.

Definition pruning_reconcile :=
  IngressController.Reconcile int_value id (fun _ => None) tt "mdai" "gateway" gateway_registries.

Definition succeeded {R} (out : go (R * with_error ctrl_Result)) : bool :=
  match out with Done (_, (_, None)) => true | _ => false end.

Definition pruning_run := run_with dal_server pruning_reconcile tt.

(** The reconcile succeeds, and the service is gone, though its owner is not the
    ingress. *)
Lemma dal_service_pruned_witness :
  exists out, pruning_run.1.2 = Done out /\ out.2.2 = None
    /\ OService stored_dal_service ∈ deleted pruning_run.1.1.
Proof.
  assert (Hl : Forall (allowed (lists stored_dal_service)) pruning_run.1.1).
  { apply run_with_allowed. intros X [| | |[] ns owner| |] st; try done; cbn.
    - case_bool_decide as Ho; [| split; [set_solver | done]].
      split; [by intros o ->%list_elem_of_singleton | intros _ _ _ _; by left].
    - split; [set_solver | done]. }
  assert (Ha : Forall (allowed server_errors) pruning_run.1.1).
  { apply (bool_decide_eq_true_1 _). vm_compute. reflexivity. }
  assert (Hr : exists out, pruning_run.1.2 = Done out /\ out.2.2 = None).
  { assert (Hs : succeeded pruning_run.1.2 = true) by (vm_compute; reflexivity).
    destruct (pruning_run.1.2) as [[regs [r [err|]]]|why]; [done | by eexists | done]. }
  destruct Hr as (out & Hout & Hok). exists out. split; [exact Hout |]. split; [exact Hok |].
  pose proof (run_with_runs dal_server pruning_reconcile tt) as Hr. fold pruning_run in Hr.
  rewrite Hout, (one_first pruning_run.1.1 (Ev (IGetIngress "mdai" "gateway") (inr gateway_ingress))) in Hr
    by reflexivity.
  apply deleted_tail, (dal_service_pruned int_value id (fun _ => None) tt gateway_dal gateway_dal_service stored_dal_service
    gateway_ingress gateway_registries (tail pruning_run.1.1) out).
  - vm_compute. reflexivity.
  - by split_and!; vm_compute.
  - vm_compute. reflexivity.
  - reflexivity.
  - reflexivity.
  - exact Hr.
  - by apply Forall_tail.
  - by apply Forall_tail.
  - exact Hok.
  - apply (bool_decide_eq_true_1 _). vm_compute. reflexivity.
Defined.
