(* ===== verification/ObjectNames.v ===== *)
(** * The names of the objects that the controllers write

    Each adapter derives the names of its objects from the resource:
    getScopedMdaiCollectorResourceName, getScopedObserverResourceName,
    getReplayerResourceName, the config maps of hub and DAL.  Here are the keys
    of the objects that a synchronisation writes, which controllers never meet
    at one object, and where two resources do. *)

From S2P Require Import Prelude GoLib ApiTypes Errors Components Effects Reconcile K8sObjects.
From S2P Require Import Builders ConfigBlock CollectorConfig EventTransformer HubCalls HubVariables HubAdapter ControllerCalls.
From S2P Require Import CollectorAdapter ObserverAdapter ReplayConfig ReplayAdapter DalAdapter.

(** ** Keys *)

(** Kind, namespace and name: what the API server tells objects apart by. *)
Definition object_key : Type := object_kind * string * string.

#[export] Instance object_kind_eq_dec : EqDecision object_kind.
Proof. solve_decision. Defined.

Definition key_at (k : object_kind) (m : ObjectMeta) : object_key := (k, om_Namespace m, om_Name m).

(** The object that a call creates, updates or deletes. *)
Class Writes (E : Type -> Type) := written_key : forall X, E X -> option object_key.

#[export] Instance ctl_writes {R} : Writes (CtlE R) := fun X e =>
  match e with
  | CConfigMap d _ => Some (key_at KConfigMap (cm_ObjectMeta d))
  | CDeployment d _ => Some (key_at KDeployment (dep_ObjectMeta d))
  | CService d _ => Some (key_at KService (svc_ObjectMeta d))
  | CServiceAccount d _ => Some (key_at KServiceAccount (sacc_ObjectMeta d))
  | CClusterRole d _ => Some (key_at KClusterRole (cr_ObjectMeta d))
  | CClusterRoleBinding d _ => Some (key_at KClusterRoleBinding (crb_ObjectMeta d))
  | _ => None
  end.

(** The hub's rule and the restarted collectors are of kinds of their own. *)
#[export] Instance hub_writes : Writes HubE := fun X e =>
  match e with
  | CreateOrUpdateConfigMap d _ => Some (key_at KConfigMap (cm_ObjectMeta d))
  | DeleteConfigMap ns name => Some (KConfigMap, ns, name)
  | _ => None
  end.

Definition key_of {E} `{Writes E} (ev : event E) : option object_key :=
  match ev with Ev e _ => written_key _ e end.

Definition writes_where {E} `{Writes E} (P : object_key -> Prop) (ev : event E) : Prop :=
  forall k, key_of ev = Some k -> P k.

(** Two programs write one object only where [Q] holds of it. *)
Definition meet_only {E E' A A'} `{Writes E} `{Writes E'} (Q : object_key -> Prop)
    (p : prog E A) (p' : prog E' A') : Prop :=
  forall tr out tr' out' ev ev' k,
    runs p tr out -> runs p' tr' out' -> ev ∈ tr -> ev' ∈ tr' ->
    key_of ev = Some k -> key_of ev' = Some k -> Q k.

Abbreviation never_meet := (meet_only (fun _ => False)).

Lemma only_meet {E E' A A'} `{Writes E} `{Writes E'} (P P' Q : object_key -> Prop)
    (p : prog E A) (p' : prog E' A') :
  only (writes_where P) p -> only (writes_where P') p' -> (forall k, P k -> P' k -> Q k) -> meet_only Q p p'.
Proof.
  intros Hp Hp' HQ tr out tr' out' ev ev' k Hr Hr' Hin Hin' Hk Hk'.
  apply HQ.
  - exact (proj1 (Forall_forall _ _) (Hp _ _ Hr) _ Hin _ Hk).
  - exact (proj1 (Forall_forall _ _) (Hp' _ _ Hr') _ Hin' _ Hk').
Qed.

(** ** Tables of suffixes *)

Definition cluster_scoped (k : object_kind) : bool :=
  match k with KClusterRole | KClusterRoleBinding => true | _ => false end.

(** A controller's objects: the kinds, and what it appends to a resource's
    name. *)
Definition object_table : Type := list (object_kind * string).

Definition objects_of (t : object_table) (ns base : string) : list object_key :=
  map (fun '(k, suffix) => (k, if cluster_scoped k then "" else ns, base +:+ suffix)) t.

(** The objects with these names wherever they are. *)
Definition objects_anywhere (t : object_table) (base : string) (k : object_key) : Prop :=
  exists ns, k ∈ objects_of t ns base.

(** One text does not end with the other. *)
Definition ends_apart (s s' : string) : bool := negb (HasSuffix s s') && negb (HasSuffix s' s).

Definition entries_apart (x y : object_kind * string) : bool :=
  negb (bool_decide (x.1 = y.1)) || ends_apart x.2 y.2.

(** No name of one table can be a name of the other. *)
Definition tables_apart (t t' : object_table) : bool :=
  forallb (fun x => forallb (entries_apart x) t') t.

(** A name of the table determines the resource. *)
Definition table_unambiguous (t : object_table) : bool :=
  forallb (fun x => forallb (fun y => bool_decide (x = y) || entries_apart x y) t) t.

Lemma has_suffix_bytes s s' k : bytes s = k ++ bytes s' -> HasSuffix s s' = true.
Proof.
  intros E. unfold HasSuffix. rewrite E, rev_app_distr. generalize (rev (bytes s')). intros l.
  induction l as [|c l IH]; [by destruct (rev k) | simpl]. by rewrite Ascii.eqb_refl.
Qed.

(** Two texts with one continuation each, that together are the same. *)
Lemma same_text n s n' s' :
  n +:+ s = n' +:+ s' -> HasSuffix s s' = true \/ HasSuffix s' s = true.
Proof.
  intros E. apply (f_equal bytes) in E. rewrite !bytes_app in E.
  apply app_eq_app in E as (k & [[_ E]|[_ E]]); [right | left]; by eapply has_suffix_bytes.
Qed.

Lemma append_inj_r n n' s : n +:+ s = n' +:+ s -> n = n'.
Proof.
  intros E. apply (f_equal bytes) in E. rewrite !bytes_app in E. apply app_inv_tail in E. by apply bytes_inj.
Qed.

Lemma entries_apart_names x y n n' : x.1 = y.1 -> n +:+ x.2 = n' +:+ y.2 -> entries_apart x y = false.
Proof.
  intros Hk E. unfold entries_apart, ends_apart. rewrite bool_decide_eq_true_2 by done.
  destruct (same_text _ _ _ _ E) as [->| ->]; [done |]. by rewrite andb_false_r.
Qed.

Lemma elem_of_objects t ns base k :
  k ∈ objects_of t ns base ->
  exists x, x ∈ t /\ k = (x.1, if cluster_scoped x.1 then "" else ns, base +:+ x.2).
Proof. intros ([k' s] & -> & Hx)%list_elem_of_fmap. by exists (k', s). Qed.

Lemma tables_never_meet t t' base base' k :
  tables_apart t t' = true -> objects_anywhere t base k -> objects_anywhere t' base' k -> False.
Proof.
  intros Ht [ns (x & Hx & ->)%elem_of_objects] [ns' (y & Hy & [= Hk _ E])%elem_of_objects].
  unfold tables_apart in Ht. rewrite forallb_forall in Ht. specialize (Ht x).
  rewrite forallb_forall in Ht. specialize (Ht ltac:(by apply list_elem_of_In) y ltac:(by apply list_elem_of_In)).
  by rewrite (entries_apart_names _ _ _ _ Hk E) in Ht.
Qed.

Lemma table_meets t ns base ns' base' k :
  table_unambiguous t = true -> k ∈ objects_of t ns base -> k ∈ objects_of t ns' base' ->
  base = base' /\ (cluster_scoped k.1.1 = false -> ns = ns').
Proof.
  intros Ht (x & Hx & ->)%elem_of_objects (y & Hy & [= Hk Hns E])%elem_of_objects.
  unfold table_unambiguous in Ht. rewrite forallb_forall in Ht. specialize (Ht x).
  rewrite forallb_forall in Ht. specialize (Ht ltac:(by apply list_elem_of_In) y ltac:(by apply list_elem_of_In)).
  rewrite (entries_apart_names _ _ _ _ Hk E), orb_false_r in Ht. apply bool_decide_eq_true in Ht as <-.
  apply append_inj_r in E. split; [done |]. simpl. intros Hc. by rewrite Hc in Hns.
Qed.

(** ** The tables *)

Definition collector_table : object_table :=
  [(KConfigMap, "-mdai-collector-config"); (KConfigMap, "-mdai-collector-env");
   (KServiceAccount, "-mdai-collector-sa"); (KClusterRole, "-mdai-collector-role");
   (KClusterRoleBinding, "-mdai-collector-rb"); (KDeployment, "-mdai-collector");
   (KService, "-mdai-collector-service")].

Definition observer_table : object_table :=
  [(KConfigMap, "-mdai-observer-config"); (KDeployment, "-mdai-observer"); (KService, "-mdai-observer-service")].

Definition replay_table : object_table :=
  [(KConfigMap, "-collector-config"); (KDeployment, "-collector"); (KService, "-service")].

Definition dal_table : object_table :=
  [(KConfigMap, "-mdai-dal-config"); (KService, ""); (KDeployment, "")].

Definition hub_table : object_table := map (pair KConfigMap) hub_postfixes.

(** What the names of a replay's objects begin with. *)
Definition replay_base_name (c : MdaiReplay) : string :=
  "replay-" +:+ replay_name c +:+ "-" +:+ rep_HubName (mr_Spec c).

Definition collector_keys (c : MdaiCollector) : list object_key :=
  objects_of collector_table (om_Namespace (mc_ObjectMeta c)) (collector_name c).

Definition observer_keys (c : MdaiObserver) : list object_key :=
  objects_of observer_table (om_Namespace (mo_ObjectMeta c)) (observer_name c).

Definition replay_keys (c : MdaiReplay) : list object_key :=
  objects_of replay_table (om_Namespace (mr_ObjectMeta c)) (replay_base_name c).

Definition dal_keys (c : MdaiDal) : list object_key := objects_of dal_table (dal_namespace c) (dal_name c).

(** A key of a table, from the entry it comes from. *)
Lemma in_objects x t ns base :
  x ∈ t -> (x.1, if cluster_scoped x.1 then "" else ns, base +:+ x.2) ∈ objects_of t ns base.
Proof. intros Hx. apply list_elem_of_fmap. exists x. by destruct x. Qed.

Lemma owned_key `{OwningLaws} owner name ns l m k :
  SetControllerReference owner (with_labels (named name ns) l) = inr m -> key_at k m = (k, ns, name).
Proof. intros Hm. by rewrite (owner_only _ _ _ Hm). Qed.

Lemma owned_bare_key `{OwningLaws} owner name ns m k :
  SetControllerReference owner (named name ns) = inr m -> key_at k m = (k, ns, name).
Proof. intros Hm. by rewrite (owner_only _ _ _ Hm). Qed.

(** The names of a replay's objects, split like those of the others. *)
Lemma replay_resource_name c suffix :
  getReplayerResourceName c suffix = replay_base_name c +:+ "-" +:+ suffix.
Proof.
  unfold getReplayerResourceName, replay_base_name. by rewrite <- !append_assoc.
Qed.

(** Walks through one creation to its key. *)
Ltac key_creation :=
  repeat match goal with
  | |- only _ (upsert _) => apply only_upsert; intros ? ? [= <-]
  | |- forall _, only _ _ => intro
  | |- only _ (prog_bind _ _) => apply only_bind
  | |- only _ (match ?x with _ => _ end) => destruct x eqn:?
  | |- only _ (let '(_, _) := ?x in _) => destruct x
  | |- only _ _ => solve [eauto with only]
  end;
  repeat match goal with
  | E : SetControllerReference _ _ = inr _ |- _ =>
      first [erewrite (owned_key _ _ _ _ _ _ E) | erewrite (owned_bare_key _ _ _ _ _ E)]; clear E
  end.

(** The key is the entry [k], [suffix] of the table. *)
Ltac entry_of keys k suffix :=
  lazymatch keys with
  | objects_of ?t ?ns ?base => exact (in_objects (k, suffix) t ns base ltac:(by apply (bool_decide_eq_true_1 _)))
  | _ => let keys := eval red in keys in entry_of keys k suffix
  end.
Ltac entry k suffix := lazymatch goal with |- _ ∈ ?keys => entry_of keys k suffix end.

Section Keys.
Context `{OwningLaws} `{K8sUtil} `{GoRange}.
Context (base : error + ConfigBlock) (Marshal : ConfigBlock -> error + string).
Context (MarshalConfigMap : ConfigMap -> error + string) (Sum256Hex : string -> string).

Lemma collector_writes c :
  only (writes_where (fun k => k ∈ collector_keys c))
    (CollectorAdapter.ensureSynchronized base Marshal MarshalConfigMap Sum256Hex c).
Proof.
  apply synchronized_only; [| | | | | intros params Hns _ |]; intros.
  - unfold createOrUpdateMdaiCollectorConfigMap. key_creation. entry KConfigMap "-mdai-collector-config".
  - unfold createOrUpdateMdaiCollectorEnvVarConfigMap. key_creation. entry KConfigMap "-mdai-collector-env".
  - unfold createOrUpdateMdaiCollectorServiceAccount. key_creation. entry KServiceAccount "-mdai-collector-sa".
  - unfold createOrUpdateMdaiCollectorRole. key_creation. entry KClusterRole "-mdai-collector-role".
  - unfold createOrUpdateMdaiCollectorRoleBinding. key_creation. entry KClusterRoleBinding "-mdai-collector-rb".
  - unfold createOrUpdateMdaiCollectorDeployment. key_creation. rewrite Hns. entry KDeployment "-mdai-collector".
  - unfold createOrUpdateMdaiCollectorService. key_creation. entry KService "-mdai-collector-service".
Qed.

Lemma observer_writes c :
  only (writes_where (fun k => k ∈ observer_keys c))
    (ObserverAdapter.ensureSynchronized base Marshal MarshalConfigMap Sum256Hex c).
Proof.
  unfold ObserverAdapter.ensureSynchronized. destruct (_ =? 0); [apply only_Ret |].
  apply only_bind.
  { unfold createOrUpdateObserverResourceConfigMap. key_creation. entry KConfigMap "-mdai-observer-config". }
  intros [hash [err|]]; [apply only_Ret |]. apply only_bind.
  { unfold createOrUpdateObserverResourceDeployment. key_creation. entry KDeployment "-mdai-observer". }
  intros [err|]; [destruct (IsConflict err); apply only_Ret |]. apply only_bind.
  { unfold createOrUpdateObserverResourceService. key_creation. entry KService "-mdai-observer-service". }
  intros [err|]; apply only_Ret.
Qed.

Lemma replay_writes c :
  only (writes_where (fun k => k ∈ replay_keys c))
    (ReplayAdapter.ensureSynchronized base Marshal MarshalConfigMap Sum256Hex c).
Proof.
  unfold ReplayAdapter.ensureSynchronized. apply only_bind.
  { unfold createOrUpdateReplayerConfigMap. key_creation. rewrite replay_resource_name.
    entry KConfigMap "-collector-config". }
  intros [hash [err|]]; [apply only_Ret |]. apply only_bind.
  { unfold createOrUpdateReplayerDeployment. key_creation. cbn [new_deployment dep_ObjectMeta]. rewrite replay_resource_name.
    entry KDeployment "-collector". }
  intros [err|]; [destruct (IsConflict err); apply only_Ret |]. apply only_bind.
  { unfold createOrUpdateReplayerService. key_creation. rewrite replay_resource_name. entry KService "-service". }
  intros [err|]; apply only_Ret.
Qed.

(** The service and the deployment of a DAL are called like it. *)
Lemma bare_name k name ns : key_at k (named name ns) = (k, ns, name +:+ "").
Proof. by rewrite append_nil_r. Qed.

Lemma dal_writes c : only (writes_where (fun k => k ∈ dal_keys c)) (DalAdapter.ensureSynchronized c).
Proof.
  unfold DalAdapter.ensureSynchronized. apply only_bind.
  { unfold createOrUpdateConfigMap. key_creation. entry KConfigMap "-mdai-dal-config". }
  intros [err|]; [apply only_Ret |]. apply only_bind.
  { unfold createOrUpdateService. key_creation. cbn [new_service svc_ObjectMeta]. rewrite bare_name.
    entry KService "". }
  intros [err|]; [apply only_Ret |]. apply only_bind; [| intros [err|]; apply only_Ret].
  unfold createOrUpdateDeployment. key_creation.
  cbn [new_deployment dep_ObjectMeta]. rewrite bare_name. entry KDeployment "".
Qed.
End Keys.

Section HubKeys.
Context `{K8sUtil}.
Context (Marshal : marshalled -> error + string) (type_text : CommandType -> string).
Context (labels_Parse : string -> option error).
Context (SetControllerReference : ObjectMeta -> ObjectMeta -> error + ObjectMeta) (releaseName : string).

Lemma hub_key h postfix ns :
  postfix ∈ hub_postfixes -> objects_anywhere hub_table (hub_name h) (KConfigMap, ns, hub_name h +:+ postfix).
Proof.
  intros Hp. exists ns. apply (in_objects (KConfigMap, postfix) hub_table ns).
  apply list_elem_of_fmap. by exists postfix.
Qed.

Lemma hub_writes_maps h :
  Forall (fun op : HubOperation => only (writes_where (objects_anywhere hub_table (hub_name h))) (op h))
    (hub_work Marshal type_text labels_Parse SetControllerReference releaseName).
Proof.
  apply hub_work_only.
  - intros X [] x Hp k; try done.
  - intros postfix ns x Hp k [= <-]. by apply hub_key.
  - intros env postfix ns opts x Hp _ k [= <-]. by apply hub_key.
  - unfold Reconcile.ensureStatusSetToDone, refetch, update_status. solve_only; by intros.
Qed.
End HubKeys.

(** ** Where two resources meet *)

(** The resource that two objects of one key belong to. *)
Definition same_names (base base' ns ns' : string) (k : object_key) : Prop :=
  base = base' /\ (cluster_scoped k.1.1 = false -> ns = ns').

Lemma collector_table_ok : table_unambiguous collector_table = true.
Proof. reflexivity. Qed.

Lemma observer_table_ok : table_unambiguous observer_table = true.
Proof. reflexivity. Qed.

Lemma replay_table_ok : table_unambiguous replay_table = true.
Proof. reflexivity. Qed.

Lemma dal_table_ok : table_unambiguous dal_table = true.
Proof. reflexivity. Qed.

(** The names of two hubs can meet: one is called like the other with "-manual"
    behind it. *)
Lemma hub_table_ambiguous :
  table_unambiguous hub_table = false
  /\ forall ns name, (KConfigMap, ns, name +:+ "-manual-variables")
       ∈ filter (fun k => k ∈ objects_of hub_table ns (name +:+ "-manual")) (objects_of hub_table ns name).
Proof.
  split; [reflexivity |]. intros ns name. apply list_elem_of_filter. split.
  - assert (E : name +:+ "-manual-variables" = (name +:+ "-manual") +:+ "-variables").
    { by rewrite <- append_assoc. }
    rewrite E. entry KConfigMap "-variables".
  - entry KConfigMap "-manual-variables".
Qed.

(** A DAL's service and deployment have a name without a suffix, which can be
    that of any other object; so can those of a replay, whose hub is called as it
    likes. *)
Lemma bare_names_ambiguous :
  tables_apart dal_table collector_table = false /\ tables_apart dal_table observer_table = false
  /\ tables_apart dal_table replay_table = false /\ tables_apart replay_table collector_table = false
  /\ tables_apart replay_table observer_table = false.
Proof. by split_and!. Qed.

Lemma namespaced_table t ns base ns' base' k :
  table_unambiguous t = true -> forallb (fun x => negb (cluster_scoped x.1)) t = true ->
  k ∈ objects_of t ns base -> k ∈ objects_of t ns' base' -> base = base' /\ ns = ns'.
Proof.
  intros Ht Hn Hk Hk'. destruct (table_meets _ _ _ _ _ _ Ht Hk Hk') as [-> Hns]. split; [done |].
  apply Hns. apply elem_of_objects in Hk as (x & Hx & ->). rewrite forallb_forall in Hn.
  apply negb_true_iff, (Hn x), list_elem_of_In, Hx.
Qed.

(** ** The binding of a collector *)

(** The role binding that a call left behind. *)
Definition bound {R} (ev : event (CtlE R)) : option ClusterRoleBinding :=
  match ev with
  | Ev e x =>
      match e in CtlE _ X return X -> option ClusterRoleBinding with
      | CClusterRoleBinding _ _ => fun answer =>
          match answer with Done (inr (_, rb)) => Some rb | _ => None end
      | _ => fun _ => None
      end x
  end.

(** The service account that the pods of a collector run as. *)
Definition collector_account (c : MdaiCollector) : Subject :=
  {| sub_Kind := "ServiceAccount"; sub_Name := getScopedMdaiCollectorResourceName c "sa";
     sub_Namespace := om_Namespace (mc_ObjectMeta c) |}.

Section Binding.
Context `{OwningLaws} `{K8sUtil} `{GoRange}.
Context (base : error + ConfigBlock) (Marshal : ConfigBlock -> error + string).
Context (MarshalConfigMap : ConfigMap -> error + string) (Sum256Hex : string -> string).

Abbreviation synchronise := (CollectorAdapter.ensureSynchronized base Marshal MarshalConfigMap Sum256Hex).

(** The name a service account is reported with. *)
Lemma service_account_name c ns tr name :
  runs (createOrUpdateMdaiCollectorServiceAccount c ns) tr (Done (name, None)) ->
  name = getScopedMdaiCollectorResourceName c "sa".
Proof.
  unfold createOrUpdateMdaiCollectorServiceAccount.
  destruct (SetControllerReference _ _); [by intros [_ [=]] |]. intros Hr.
  upsert_step Hr as x answer Ha. destruct x; by destruct Hr as [_ [= ->]].
Qed.

(** One call to bind the role, whose answer is what the closure makes. *)
Lemma role_binding_bound c ns role sa tr :
  runs (createOrUpdateMdaiCollectorRoleBinding c ns role sa) tr (Done None) -> Forall (allowed upserting) tr ->
  exists ev rb, tr = [ev]
    /\ key_of ev = Some (KClusterRoleBinding, "", getScopedMdaiCollectorResourceName c "rb")
    /\ bound ev = Some rb
    /\ crb_Subjects rb = [{| sub_Kind := "ServiceAccount"; sub_Name := sa; sub_Namespace := ns |}].
Proof.
  unfold createOrUpdateMdaiCollectorRoleBinding. intros Hr Ha. upsert_step Hr as x answer Hx.
  destruct x as [err|rb]; [by destruct Hr as [_ [=]] |]. destruct Hr as [-> _]. destruct Hx as [result ->].
  apply Forall_cons in Ha as [(y & _ & [= <-]) _].
  by eexists _, _.
Qed.

Lemma synchronised_binding c c' tr :
  runs (synchronise c) tr (Done (c', ContinueProcessing)) -> Forall (allowed upserting) tr ->
  exists ev rb, ev ∈ tr
    /\ key_of ev = Some (KClusterRoleBinding, "", getScopedMdaiCollectorResourceName c "rb")
    /\ bound ev = Some rb /\ crb_Subjects rb = [collector_account c].
Proof.
  unfold CollectorAdapter.ensureSynchronized. intros Hr Ha.
  runs_step Hr as cm Hcm. destruct cm as [[cm hash] [err|]]; [by destruct Hr as [_ [=]] |].
  runs_step Hr as env Henv. destruct env as [env [err|]]; [by destruct Hr as [_ [=]] |].
  runs_step Hr as sa Hsa. destruct sa as [sa [err|]]; [by destruct Hr as [_ [=]] |].
  apply service_account_name in Hsa as Esa. subst sa.
  runs_step Hr as role Hrole. destruct role as [role [err|]]; [by destruct Hr as [_ [=]] |].
  runs_step Hr as err Hb. destruct err as [err|]; [by destruct Hr as [_ [=]] |].
  rewrite !Forall_app in Ha. destruct Ha as (_ & _ & _ & _ & Ha & _).
  destruct (role_binding_bound _ _ _ _ _ Hb Ha) as (ev & rb & -> & Hk & Hrb & Hs).
  exists ev, rb. split; [rewrite !elem_of_app; set_solver | done].
Qed.
End Binding.

(** ** Properties *)

Section Apart.
Context `{OwningLaws} `{K8sUtil} `{GoRange}.
Context (base : error + ConfigBlock) (Marshal : ConfigBlock -> error + string).
Context (MarshalConfigMap : ConfigMap -> error + string) (Sum256Hex : string -> string).
Context (MarshalVariable : marshalled -> error + string) (type_text : CommandType -> string).
Context (labels_Parse : string -> option error) (releaseName : string).

Abbreviation sync_collector := (CollectorAdapter.ensureSynchronized base Marshal MarshalConfigMap Sum256Hex).
Abbreviation sync_observer := (ObserverAdapter.ensureSynchronized base Marshal MarshalConfigMap Sum256Hex).
Abbreviation sync_replay := (ReplayAdapter.ensureSynchronized base Marshal MarshalConfigMap Sum256Hex).
Abbreviation sync_dal := DalAdapter.ensureSynchronized.

(** The operations of a hub and a program never write one object. *)
Definition hub_never_meets {E A} `{Writes E} (h : MdaiHub) (p : prog E A) : Prop :=
  Forall (fun op : HubOperation => never_meet (op h) p)
    (hub_work MarshalVariable type_text labels_Parse SetControllerReference releaseName).

Lemma tables_apart_meet {E E' A A'} `{Writes E} `{Writes E'} t t' (P P' : object_key -> Prop) base1 base2
    (p : prog E A) (p' : prog E' A') :
  tables_apart t t' = true ->
  (forall k, P k -> objects_anywhere t base1 k) -> (forall k, P' k -> objects_anywhere t' base2 k) ->
  only (writes_where P) p -> only (writes_where P') p' -> never_meet p p'.
Proof.
  intros Ht HP HP' Hp Hp'. eapply only_meet; [exact Hp | exact Hp' |]. intros k Hk Hk'.
  eapply tables_never_meet; [exact Ht | by apply HP | by apply HP'].
Qed.

Lemma hub_apart {E A} `{Writes E} t ns name h (p : prog E A) :
  tables_apart hub_table t = true -> only (writes_where (fun k => k ∈ objects_of t ns name)) p ->
  hub_never_meets h p.
Proof.
  intros Ht Hp. eapply Forall_impl; [apply hub_writes_maps |]. intros op Hop. cbn beta in Hop.
  eapply (tables_apart_meet hub_table t); [exact Ht | intros k Hk; exact Hk | | exact Hop | exact Hp].
  intros k Hk. exists ns; exact Hk.
Qed.

(** C19. Which controllers never write one object.  Synchronising two collectors
    meets at a namespaced object only when they are the same resource, and at a
    cluster role or binding only when they have one name; two observers or two
    DALs meet only when they are the same, two replays only when what their names
    begin with is.  A collector and an observer never meet, and the work of a hub
    meets none of these. *)
Theorem controllers_keep_apart :
  (forall c c', meet_only (fun k => collector_name c = collector_name c'
      /\ (cluster_scoped k.1.1 = false -> om_Namespace (mc_ObjectMeta c) = om_Namespace (mc_ObjectMeta c')))
      (sync_collector c) (sync_collector c'))
  /\ (forall o o', meet_only (fun _ => observer_name o = observer_name o'
      /\ om_Namespace (mo_ObjectMeta o) = om_Namespace (mo_ObjectMeta o')) (sync_observer o) (sync_observer o'))
  /\ (forall r r', meet_only (fun _ => replay_base_name r = replay_base_name r'
      /\ om_Namespace (mr_ObjectMeta r) = om_Namespace (mr_ObjectMeta r')) (sync_replay r) (sync_replay r'))
  /\ (forall d d', meet_only (fun _ => dal_name d = dal_name d' /\ dal_namespace d = dal_namespace d')
      (sync_dal d) (sync_dal d'))
  /\ (forall c o, never_meet (sync_collector c) (sync_observer o))
  /\ (forall h c o r d, hub_never_meets h (sync_collector c) /\ hub_never_meets h (sync_observer o)
      /\ hub_never_meets h (sync_replay r) /\ hub_never_meets h (sync_dal d)).
Proof.
  split_and!.
  - intros c c'. eapply only_meet; [apply collector_writes | apply collector_writes |].
    intros k. by apply table_meets.
  - intros o o'. eapply only_meet; [apply observer_writes | apply observer_writes |].
    intros k. by apply namespaced_table.
  - intros r r'. eapply only_meet; [apply replay_writes | apply replay_writes |].
    intros k. by apply namespaced_table.
  - intros d d'. eapply only_meet; [apply dal_writes | apply dal_writes |].
    intros k. by apply namespaced_table.
  - intros c o. eapply (tables_apart_meet collector_table observer_table);
      [reflexivity | | | apply collector_writes | apply observer_writes]; intros k Hk; eexists; exact Hk.
  - intros h c o r d. split_and!.
    + eapply (hub_apart collector_table); [reflexivity | apply collector_writes].
    + eapply (hub_apart observer_table); [reflexivity | apply observer_writes].
    + eapply (hub_apart replay_table); [reflexivity | apply replay_writes].
    + eapply (hub_apart dal_table); [reflexivity | apply dal_writes].
Qed.

(** C35. Two collectors with one name in different namespaces share their cluster
    role binding, which names no namespace.  After a successful synchronisation
    of each, whichever came second has taken it: the binding lists its service
    account alone, and the pods of the other one have lost their role. *)
Theorem cluster_binding_stolen c c' tr tr' :
  collector_name c = collector_name c' ->
  om_Namespace (mc_ObjectMeta c) <> om_Namespace (mc_ObjectMeta c') ->
  runs (sync_collector c) tr (Done (c, ContinueProcessing)) -> Forall (allowed upserting) tr ->
  runs (sync_collector c') tr' (Done (c', ContinueProcessing)) -> Forall (allowed upserting) tr' ->
  exists ev ev' rb rb', ev ∈ tr /\ ev' ∈ tr'
    /\ key_of ev = Some (KClusterRoleBinding, "", getScopedMdaiCollectorResourceName c "rb")
    /\ key_of ev' = key_of ev
    /\ bound ev = Some rb /\ collector_account c ∈ crb_Subjects rb
    /\ bound ev' = Some rb' /\ collector_account c ∉ crb_Subjects rb'.
Proof.
  intros Hn Hns Hr Ha Hr' Ha'.
  destruct (synchronised_binding _ _ _ _ _ _ _ Hr Ha) as (ev & rb & Hev & Hk & Hrb & Hs).
  destruct (synchronised_binding _ _ _ _ _ _ _ Hr' Ha') as (ev' & rb' & Hev' & Hk' & Hrb' & Hs').
  exists ev, ev', rb, rb'. split_and!; try done.
  - rewrite Hk, Hk'. unfold getScopedMdaiCollectorResourceName. by rewrite Hn.
  - rewrite Hs. by left.
  - rewrite Hs'. intros E%list_elem_of_singleton. by injection E.
Qed.

(** C36. The name of a replay's objects joins the name of the replay and that of
    its hub, so that two replays of a namespace can have all names in common
    ("a-b" of the hub "c" and "a" of the hub "b-c").  The first thing that the
    second one does is to write its own collector configuration into the config
    map of the first one, without a look at its owner, which stays. *)
Theorem replay_config_overwritten c c' yaml cm data tr out :
  replay_base_name c = replay_base_name c' ->
  om_Namespace (mr_ObjectMeta c) = om_Namespace (mr_ObjectMeta c') ->
  getReplayCollectorConfigYAML base Marshal (mr_Spec c') (replay_name c') (rep_HubName (mr_Spec c'))
    = Done (inr yaml) ->
  cm_Data cm = Some data ->
  runs (sync_replay c') tr out -> tr <> [] ->
  exists d mutate answer tr', tr = Ev (CConfigMap d mutate) answer :: tr'
    /\ key_at KConfigMap (cm_ObjectMeta d)
       = (KConfigMap, om_Namespace (mr_ObjectMeta c), getReplayerResourceName c "collector-config")
    /\ mutate cm = Done (inr {| cm_ObjectMeta := cm_ObjectMeta cm;
                                cm_Data := Some (<["collector.yaml" := yaml]> data) |}).
Proof.
  intros Hn Hns Hy Hd Hr Htr.
  unfold ReplayAdapter.ensureSynchronized, createOrUpdateReplayerConfigMap in Hr. rewrite Hy in Hr.
  cbn [lift prog_bind] in Hr.
  destruct (SetControllerReference _ _) as [err|m] eqn:Em; [by destruct Hr as [-> _] |].
  unfold upsert in Hr. cbn [call prog_bind runs] in Hr.
  destruct Hr as (answer & tr' & -> & _). eexists _, _, answer, tr'. split; [done |]. split.
  - cbn [cm_ObjectMeta]. rewrite (owned_key _ _ _ _ _ _ Em), !replay_resource_name, Hn, Hns. done.
  - unfold set_data. by rewrite Hd.
Qed.
End Apart.

(** ** Witnesses *)

Import Reconcile.Sample ControllerCalls.Sample.

#[local] Instance names_range : GoRange :=
  {| range_map A := map_to_list; range_map_perm A m := reflexivity _ |}.

(** A cluster without objects creates as asked. *)
Lemma create_answer {A} found (d : A) m : upsert_answer found d m (create d m).
Proof. exists d. split; [by left |]. unfold create. by destruct (m d) as [[err|o]|why]. Qed.

Lemma new_cluster_upserting {R} (p : prog (CtlE R) (R * with_error OperationResult)) (c : R) :
  Forall (allowed upserting) (run_with new_cluster p c).1.1.
Proof. apply run_with_allowed. intros X [] st; try done; apply create_answer. Qed.

(** The collector "logs" of two namespaces. *)
Definition logs_in (ns : string) : MdaiCollector :=
  {| mc_ObjectMeta := named "logs" ns; mc_Spec := mc_Spec sample_collector;
     mc_Status := mc_Status sample_collector |}.

Definition sync_logs (ns : string) : prog (CtlE MdaiCollector) (MdaiCollector * with_error OperationResult) :=
  CollectorAdapter.ensureSynchronized (inr sample_base) (fun _ => inr "receivers: {}") (fun _ => inr "{}")
    (fun _ => "00") (logs_in ns).

Definition logs_run (ns : string) := run_with new_cluster (sync_logs ns) (logs_in ns).

Lemma logs_run_done ns : runs (sync_logs ns) (logs_run ns).1.1 (Done (logs_in ns, ContinueProcessing)).
Proof. exact (run_with_runs new_cluster (sync_logs ns) (logs_in ns)). Qed.

Lemma controllers_keep_apart_witness :
  meet_only (fun k => "logs" = "logs" /\ (cluster_scoped k.1.1 = false -> "mdai" = "otel"))
    (sync_logs "mdai") (sync_logs "otel")
  /\ omap key_of (logs_run "mdai").1.1 = collector_keys (logs_in "mdai").
Proof.
  split; [| reflexivity].
  exact (proj1 (controllers_keep_apart (inr sample_base) (fun _ => inr "receivers: {}") (fun _ => inr "{}")
    (fun _ => "00") (fun _ => inr "{}") (fun _ => "") (fun _ => None) "mdai") (logs_in "mdai") (logs_in "otel")).
Defined.

Lemma cluster_binding_stolen_witness :
  exists ev ev' rb rb', ev ∈ (logs_run "mdai").1.1 /\ ev' ∈ (logs_run "otel").1.1
    /\ key_of ev' = key_of ev /\ bound ev = Some rb /\ collector_account (logs_in "mdai") ∈ crb_Subjects rb
    /\ bound ev' = Some rb' /\ collector_account (logs_in "mdai") ∉ crb_Subjects rb'.
Proof.
  destruct (cluster_binding_stolen (inr sample_base) (fun _ => inr "receivers: {}") (fun _ => inr "{}")
    (fun _ => "00") (logs_in "mdai") (logs_in "otel") _ _ eq_refl ltac:(done)
    (logs_run_done "mdai") (new_cluster_upserting _ _) (logs_run_done "otel") (new_cluster_upserting _ _))
    as (ev & ev' & rb & rb' & Hev & Hev' & _ & Hrest).
  exists ev, ev', rb, rb'. split_and!; [exact Hev | exact Hev' | apply Hrest ..].
Defined.

(** The replays "a-b" of the hub "c" and "a" of the hub "b-c". *)
Definition replay_of (name hub : string) : MdaiReplay :=
  let spec := sample_replay_spec (Some sample_source) "http://otlp" in
  {| mr_ObjectMeta := named name "mdai";
     mr_Spec := {| rep_StartTime := rep_StartTime spec; rep_EndTime := rep_EndTime spec;
                   rep_TelemetryType := rep_TelemetryType spec; rep_HubName := hub;
                   rep_StatusVariableRef := rep_StatusVariableRef spec; rep_OpAMPEndpoint := rep_OpAMPEndpoint spec;
                   rep_IgnoreSendingQueue := rep_IgnoreSendingQueue spec; rep_Source := rep_Source spec;
                   rep_Destination := rep_Destination spec; rep_Resource := rep_Resource spec |};
     mr_Status := {| reps_LastUpdatedTime := None; reps_Conditions := [] |} |}.

(** An encoder that shows whose configuration it is. *)
Definition show_name (name : string) (config : ConfigBlock) : error + string := inr (name +:+ ": {}").

Definition sync_as (name hub : string) : prog (CtlE MdaiReplay) (MdaiReplay * with_error OperationResult) :=
  ReplayAdapter.ensureSynchronized (inr replay_base) (show_name name) (fun _ => inr "{}") (fun _ => "00")
    (replay_of name hub).

Definition replay_run (name hub : string) := run_with new_cluster (sync_as name hub) (replay_of name hub).

(** The config map of the first replay. *)
Definition first_map : ConfigMap :=
  {| cm_ObjectMeta := named (getReplayerResourceName (replay_of "a-b" "c") "collector-config") "mdai";
     cm_Data := Some {["collector.yaml" := "a-b: {}"]} |}.

Lemma replay_config_overwritten_witness :
  getReplayerResourceName (replay_of "a-b" "c") "collector-config" = "replay-a-b-c-collector-config"
  /\ exists d mutate answer tr', (replay_run "a" "b-c").1.1 = Ev (CConfigMap d mutate) answer :: tr'
     /\ mutate first_map = Done (inr {| cm_ObjectMeta := cm_ObjectMeta first_map;
                                        cm_Data := Some {["collector.yaml" := "a: {}"]} |}).
Proof.
  split; [reflexivity |].
  destruct (replay_config_overwritten (inr replay_base) (show_name "a") (fun _ => inr "{}") (fun _ => "00")
    (replay_of "a-b" "c") (replay_of "a" "b-c") "a: {}" first_map {["collector.yaml" := "a-b: {}"]}
    (replay_run "a" "b-c").1.1 (replay_run "a" "b-c").1.2 eq_refl eq_refl ltac:(vm_compute; reflexivity) eq_refl
    (run_with_runs new_cluster (sync_as "a" "b-c") (replay_of "a" "b-c")) ltac:(discriminate))
    as (d & mutate & answer & tr' & Htr & _ & Hm).
  exists d, mutate, answer, tr'. split; [exact Htr |]. rewrite Hm. reflexivity.
Defined.
