(* ===== verification/DeepCopy.v ===== *)
(** * The statements of the generated deep copies

    zz_generated.deepcopy.go is written in few forms of statement.  Here they
    are, as functions on Go's memory: a heap of variables, backing arrays and
    maps, and values that point into it.  A copier takes the value of a variable
    and yields the value of its copy.  A copier is right for a type
    ([copies]) when it leaves the memory as it was, yields the same content, and
    everything the copy points to is new. *)

From S2P Require Import Prelude GoLib Components.

(** ** Memory *)

Abbreviation loc := positive.

(** Values.  Strings, numbers and structs without pointers outside the
    repository are flat; a slice has its backing array, offset and length. *)
Inductive value :=
| VFlat (a : string)
| VStruct (fields : list (string * value))
| VPtr (p : option loc)
| VSlice (s : option (loc * nat * nat))
| VMap (m : option loc).

Inductive cell :=
| CVar (v : value)
| CArray (vs : list value)
| CMap (m : gmap string value).

Abbreviation heap := (gmap loc cell).

(** A computation over the heap, which may panic. *)
Definition mem (A : Type) : Type := heap -> go (heap * A).

Definition mem_ret {A} (a : A) : mem A := fun h => Done (h, a).

Definition mem_bind {A B} (x : mem A) (f : A -> mem B) : mem B := fun h =>
  let! r := x h in f r.2 r.1.

Definition mem_panic {A} (why : string) : mem A := fun _ => Panics why.

Notation "'let%' x ':=' m 'in' k" := (mem_bind m (fun x => k))
  (at level 10, x pattern, m at level 100, k at level 200) : go_scope.

Definition ill_typed {A} : mem A := mem_panic "ill-typed value".

Definition new (c : cell) : mem loc := fun h =>
  let l := fresh (dom h) in Done (<[l := c]> h, l).

Definition load (l : loc) : mem cell := fun h =>
  match h !! l with Some c => Done (h, c) | None => Panics "invalid memory address" end.

Definition store (l : loc) (c : cell) : mem unit := fun h => Done (<[l := c]> h, tt).

(** The zero value of a new variable or element; no statement reads it. *)
Definition zero : value := VFlat "".

Definition load_var (l : loc) : mem value :=
  let% c := load l in match c with CVar v => mem_ret v | _ => ill_typed end.

Definition load_array (l : loc) : mem (list value) :=
  let% c := load l in match c with CArray vs => mem_ret vs | _ => ill_typed end.

Definition load_map (l : loc) : mem (gmap string value) :=
  let% c := load l in match c with CMap m => mem_ret m | _ => ill_typed end.

(** ** Statements *)

Definition copier : Type := value -> mem value.

(** [out.F = in.F], [**out = **in], and the elements of [copy( *out, *in)]. *)
Definition assign : copier := mem_ret.

(** [if in.F != nil { *out = new(T); ... }] around the copy of the variable. *)
Definition ptr (c : copier) : copier := fun v =>
  match v with
  | VPtr None => mem_ret v
  | VPtr (Some l) =>
      let% target := new (CVar zero) in
      let% w := load_var l in
      let% w := c w in
      let% _ := store target (CVar w) in
      mem_ret (VPtr (Some target))
  | _ => ill_typed
  end.

(** [( *out)[i] = w]. *)
Definition store_element (target : loc) (i : nat) (w : value) : mem unit :=
  let% vs := load_array target in store target (CArray (<[i := w]> vs)).

Fixpoint fill (c : copier) (target : loc) (i : nat) (vs : list value) : mem unit :=
  match vs with
  | [] => mem_ret tt
  | v :: vs =>
      let% w := c v in
      let% _ := store_element target i w in
      fill c target (S i) vs
  end.

(** [if in.F != nil { *out = make([]T, len( *in)); for i := range *in ... }]. *)
Definition slice (c : copier) : copier := fun v =>
  match v with
  | VSlice None => mem_ret v
  | VSlice (Some (l, off, len)) =>
      let% target := new (CArray (replicate len zero)) in
      let% vs := load_array l in
      let% _ := fill c target 0 (take len (drop off vs)) in
      mem_ret (VSlice (Some (target, 0, len)))
  | _ => ill_typed
  end.

(** [( *out)[key] = w]. *)
Definition store_key (target : loc) (key : string) (w : value) : mem unit :=
  let% m := load_map target in store target (CMap (<[key := w]> m)).

Fixpoint fill_map (c : copier) (target : loc) (kvs : list (string * value)) : mem unit :=
  match kvs with
  | [] => mem_ret tt
  | (key, val) :: kvs =>
      let% w := c val in
      let% _ := store_key target key w in
      fill_map c target kvs
  end.

(** [if in.F != nil { *out = make(map[string]T, len( *in)); for key, val := range *in ... }]. *)
Definition go_map_copy `{GoRange} (c : copier) : copier := fun v =>
  match v with
  | VMap None => mem_ret v
  | VMap (Some l) =>
      let% target := new (CMap ∅) in
      let% m := load_map l in
      let% _ := fill_map c target (range_map m) in
      mem_ret (VMap (Some target))
  | _ => ill_typed
  end.

(** [*val.DeepCopy()]: the copy is allocated and read. *)
Definition deref_copy (c : copier) : copier := fun v =>
  let% target := new (CVar zero) in
  let% w := c v in
  let% _ := store target (CVar w) in
  load_var target.

Fixpoint field (f : string) (fields : list (string * value)) : option value :=
  match fields with
  | [] => None
  | (g, v) :: fields => if bool_decide (f = g) then Some v else field f fields
  end.

Fixpoint set_field (f : string) (w : value) (fields : list (string * value)) : list (string * value) :=
  match fields with
  | [] => []
  | (g, v) :: fields => if bool_decide (f = g) then (g, w) :: fields else (g, v) :: set_field f w fields
  end.

Fixpoint run_steps (steps : list (string * copier)) (input out : list (string * value))
  : mem (list (string * value)) :=
  match steps with
  | [] => mem_ret out
  | (f, c) :: steps =>
      match field f input with
      | None => ill_typed
      | Some v => let% w := c v in run_steps steps input (set_field f w out)
      end
  end.

(** [*out = *in], then one statement for each of these fields. *)
Definition into (steps : list (string * copier)) : copier := fun v =>
  match v with
  | VStruct input => let% out := run_steps steps input input in mem_ret (VStruct out)
  | _ => ill_typed
  end.

(** The body of every [DeepCopy], for its [DeepCopyInto]. *)
Definition DeepCopy (DeepCopyInto : copier) : copier := fun v =>
  match v with
  | VPtr None => mem_ret (VPtr None)
  | VPtr (Some l) =>
      let% out := new (CVar zero) in
      let% w := load_var l in
      let% w := DeepCopyInto w in
      let% _ := store out (CVar w) in
      mem_ret (VPtr (Some out))
  | _ => ill_typed
  end.

(** The body of every [DeepCopyObject]: a [nil] pointer becomes a [nil]
    interface. *)
Definition DeepCopyObject (DeepCopy : copier) (v : value) : mem (option value) :=
  let% c := DeepCopy v in
  match c with
  | VPtr None => mem_ret None
  | _ => mem_ret (Some c)
  end.

(** ** Types and their content *)

Inductive ty :=
| TFlat
| TStruct (fields : list (string * ty))
| TPtr (t : ty)
| TSlice (t : ty)
| TMap (t : ty).

(** What a value stands for, without locations. *)
Inductive tree :=
| XFlat (a : string)
| XStruct (fields : list (string * tree))
| XNil
| XPtr (x : tree)
| XSlice (xs : list tree)
| XMap (m : gmap string tree).

Section Shapes.
Context (h : heap).

(** The value has the type, and this content. *)
Fixpoint shape (t : ty) (v : value) (x : tree) : Prop :=
  match t, v, x with
  | TFlat, VFlat a, XFlat b => a = b
  | TStruct ts, VStruct fs, XStruct xs =>
      (fix shapes ts fs xs : Prop :=
         match ts, fs, xs with
         | [], [], [] => True
         | (f, t) :: ts, (g, v) :: fs, (k, x) :: xs => f = g /\ f = k /\ shape t v x /\ shapes ts fs xs
         | _, _, _ => False
         end) ts fs xs
  | TPtr _, VPtr None, XNil => True
  | TPtr t, VPtr (Some l), XPtr x => exists w, h !! l = Some (CVar w) /\ shape t w x
  | TSlice _, VSlice None, XNil => True
  | TSlice t, VSlice (Some (l, off, len)), XSlice xs =>
      exists vs, h !! l = Some (CArray vs) /\ off + len <= length vs
        /\ Forall2 (shape t) (take len (drop off vs)) xs
  | TMap _, VMap None, XNil => True
  | TMap t, VMap (Some l), XMap xm =>
      exists m, h !! l = Some (CMap m) /\ forall k, option_Forall2 (shape t) (m !! k) (xm !! k)
  | _, _, _ => False
  end.

Fixpoint shapes (ts : list (string * ty)) (fs : list (string * value)) (xs : list (string * tree)) : Prop :=
  match ts, fs, xs with
  | [], [], [] => True
  | (f, t) :: ts, (g, v) :: fs, (k, x) :: xs => f = g /\ f = k /\ shape t v x /\ shapes ts fs xs
  | _, _, _ => False
  end.

Lemma shape_struct ts fs xs : shape (TStruct ts) (VStruct fs) (XStruct xs) <-> shapes ts fs xs.
Proof.
  simpl. revert fs xs. induction ts as [|[f t] ts IH]; intros [|[g v] fs] [|[k x] xs]; try done.
  cbn. by rewrite IH.
Qed.

(** Every location that the value leads to satisfies [S]. *)
Section Within.
Context (P : loc -> Prop).

Fixpoint within (t : ty) (v : value) : Prop :=
  match t, v with
  | TStruct ts, VStruct fs =>
      (fix withins ts fs : Prop :=
         match ts, fs with
         | (_, t) :: ts, (_, v) :: fs => within t v /\ withins ts fs
         | _, _ => True
         end) ts fs
  | TPtr t, VPtr (Some l) => P l /\ forall w, h !! l = Some (CVar w) -> within t w
  | TSlice t, VSlice (Some (l, off, len)) =>
      P l /\ forall vs, h !! l = Some (CArray vs) -> Forall (within t) (take len (drop off vs))
  | TMap t, VMap (Some l) =>
      P l /\ forall m, h !! l = Some (CMap m) -> map_Forall (fun _ => within t) m
  | _, _ => True
  end.

Fixpoint withins (ts : list (string * ty)) (fs : list (string * value)) : Prop :=
  match ts, fs with
  | (_, t) :: ts, (_, v) :: fs => within t v /\ withins ts fs
  | _, _ => True
  end.

Lemma within_struct ts fs : within (TStruct ts) (VStruct fs) <-> withins ts fs.
Proof. simpl. revert fs. induction ts as [|[f t] ts IH]; by intros [|[g v] fs]. Qed.
End Within.
End Shapes.

(** ** Lemmas: shapes and locations *)

Section TypeInduction.
Context (P : ty -> Prop).
Hypothesis (Hflat : P TFlat) (Hstruct : forall ts, Forall (fun ft => P ft.2) ts -> P (TStruct ts)).
Hypothesis (Hptr : forall t, P t -> P (TPtr t)) (Hslice : forall t, P t -> P (TSlice t)).
Hypothesis (Hmap : forall t, P t -> P (TMap t)).

Fixpoint ty_fields_ind (t : ty) : P t :=
  match t with
  | TFlat => Hflat
  | TStruct ts =>
      Hstruct ts ((fix all ts : Forall (fun ft => P ft.2) ts :=
        match ts with
        | [] => Forall_nil_2 _
        | (f, t) :: ts => Forall_cons_2 _ (f, t) ts (ty_fields_ind t) (all ts)
        end) ts)
  | TPtr t => Hptr t (ty_fields_ind t)
  | TSlice t => Hslice t (ty_fields_ind t)
  | TMap t => Hmap t (ty_fields_ind t)
  end.
End TypeInduction.

Lemma within_mono h (P Q : loc -> Prop) t v :
  (forall l, P l -> Q l) -> within h P t v -> within h Q t v.
Proof.
  intros HPQ. revert v. induction t as [|ts IH|t IH|t IH|t IH] using ty_fields_ind; intros [a|fs|[l|]|[[[l off] len]|]|[l|]];
    try done.
  - rewrite !within_struct. revert fs. induction IH as [|[f t] ts Ht _ IHts]; intros [|[g v] fs]; try done.
    intros [Hv Hfs]. split; [by apply Ht | by apply IHts].
  - intros [Hl Hw]. split; [by apply HPQ |]. intros w Hlw. by apply IH, Hw.
  - intros [Hl Hw]. split; [by apply HPQ |]. intros vs Hvs. eapply Forall_impl; [by apply Hw | done].
  - intros [Hl Hw]. split; [by apply HPQ |]. intros m Hm. eapply map_Forall_impl; [by apply Hw | by intros k w; apply IH].
Qed.

Lemma within_and h (P Q : loc -> Prop) t v :
  within h P t v -> within h Q t v -> within h (fun l => P l /\ Q l) t v.
Proof.
  revert v. induction t as [|ts IH|t IH|t IH|t IH] using ty_fields_ind; intros [a|fs|[l|]|[[[l off] len]|]|[l|]];
    try done.
  - rewrite !within_struct. revert fs. induction IH as [|[f t] ts Ht _ IHts]; intros [|[g v] fs]; try done.
    intros [Hv Hfs] [Hv' Hfs']. split; [by apply Ht | by apply IHts].
  - intros [Hl Hw] [Hl' Hw']. split; [done |]. intros w Hlw. apply IH; [by apply Hw | by apply Hw'].
  - intros [Hl Hw] [Hl' Hw']. split; [done |]. intros vs Hvs. specialize (Hw _ Hvs). specialize (Hw' _ Hvs).
    rewrite Forall_forall in Hw, Hw' |- *. intros w Hin. apply IH; [by apply Hw | by apply Hw'].
  - intros [Hl Hw] [Hl' Hw']. split; [done |]. intros m Hm k w Hk.
    apply IH; [by apply (Hw m Hm k) | by apply (Hw' m Hm k)].
Qed.

(** A value leads to allocated locations only. *)
Lemma shape_allocated h t v x : shape h t v x -> within h (fun l => is_Some (h !! l)) t v.
Proof.
  revert v x. induction t as [|ts IH|t IH|t IH|t IH] using ty_fields_ind;
    intros [a|fs|[l|]|[[[l off] len]|]|[l|]] x Hx; try done; destruct x as [b|xs| |x|xs|xm]; try done.
  - rewrite shape_struct in Hx. rewrite within_struct. revert fs xs Hx.
    induction IH as [|[f t] ts Ht _ IHts]; intros [|[g v] fs] [|[k x] xs]; try done.
    intros (_ & _ & Hv & Hfs). split; [by eapply Ht | by eapply IHts].
  - destruct Hx as (w & Hw & Hx). split; [by eexists |]. intros w' Hw'. simplify_eq. by eapply IH.
  - destruct Hx as (vs & Hvs & _ & Hx). split; [by eexists |]. intros vs' Hvs'. simplify_eq.
    clear Hvs. induction Hx; [constructor |]. constructor; [by eapply IH | done].
  - destruct Hx as (m & Hm & Hx). split; [by eexists |]. intros m' Hm' k w Hk. simplify_eq.
    specialize (Hx k). rewrite Hk in Hx. inversion Hx. by eapply IH.
Qed.

(** A value and its content only depend on the memory that it leads to. *)
Lemma shape_frame h h' P t v x :
  shape h t v x -> within h P t v -> (forall l, P l -> h' !! l = h !! l) ->
  shape h' t v x /\ within h' P t v.
Proof.
  intros Hx Hp Hf. revert v x Hx Hp. induction t as [|ts IH|t IH|t IH|t IH] using ty_fields_ind;
    intros [a|fs|[l|]|[[[l off] len]|]|[l|]] x Hx Hp; try done; destruct x as [b|xs| |x|xs|xm]; try done.
  - rewrite shape_struct in Hx |- *. rewrite within_struct in Hp |- *. revert fs xs Hx Hp.
    induction IH as [|[f t] ts Ht _ IHts]; intros [|[g v] fs] [|[k x] xs]; try done.
    intros (Hg & Hk & Hv & Hfs) [Hpv Hpfs]. destruct (Ht _ _ Hv Hpv). by destruct (IHts _ _ Hfs Hpfs).
  - destruct Hx as (w & Hw & Hx). destruct Hp as [Hl Hp]. destruct (IH _ _ Hx (Hp _ Hw)) as [Hs Hn].
    split; [exists w; by rewrite Hf |]. split; [done |]. intros w'. rewrite Hf, Hw by done. by intros [= <-].
  - destruct Hx as (vs & Hvs & Hlen & Hx). destruct Hp as [Hl Hp]. specialize (Hp _ Hvs).
    assert (Hboth : Forall2 (shape h' t) (take len (drop off vs)) xs
                    /\ Forall (within h' P t) (take len (drop off vs))).
    { clear Hvs Hlen. revert Hp. induction Hx as [|v y vs' xs' Hv _ IHv]; [done |].
      intros [Hpv Hps]%Forall_cons. destruct (IH _ _ Hv Hpv), (IHv Hps). split; by constructor. }
    destruct Hboth as [Hs Hn]. split; [exists vs; by rewrite Hf |]. split; [done |].
    intros vs'. rewrite Hf, Hvs by done. by intros [= <-].
  - destruct Hx as (m & Hm & Hx). destruct Hp as [Hl Hp]. specialize (Hp _ Hm).
    assert (Hboth : forall k w, m !! k = Some w ->
              exists y, xm !! k = Some y /\ shape h' t w y /\ within h' P t w).
    { intros k w Hk. specialize (Hx k). rewrite Hk in Hx. inversion Hx as [w' y Hy Ew Ey|]; subst.
      exists y. split; [done | by apply IH, (Hp k)]. }
    split.
    + exists m. rewrite Hf by done. split; [done |]. intros k. specialize (Hx k).
      destruct (m !! k) as [w|] eqn:Hk; [| inversion Hx; constructor].
      destruct (Hboth k w Hk) as (y & -> & Hy & _). by constructor.
    + split; [done |]. intros m'. rewrite Hf, Hm by done. intros [= <-] k w Hk. by destruct (Hboth k w Hk) as (? & _ & _ & ?).
Qed.

Lemma shape_extend h h' t v x : h ⊆ h' -> shape h t v x -> shape h' t v x.
Proof.
  intros Hh Hx. destruct (shape_frame h h' _ t v x Hx (shape_allocated _ _ _ _ Hx)) as [Hs _]; [| done].
  intros l [c Hc]. rewrite Hc. by eapply lookup_weaken.
Qed.

(** Content that lies in [P] stays there when more is allocated. *)
Lemma within_extend h h' P t v x : h ⊆ h' -> shape h t v x -> within h P t v -> within h' P t v.
Proof.
  intros Hh Hx Hp. pose proof (within_and _ _ _ _ _ Hp (shape_allocated _ _ _ _ Hx)) as Hb.
  eapply within_mono; [| eapply (shape_frame h h'); [exact Hx | exact Hb |]]; cbn beta.
  - by intros l [? _].
  - intros l [_ [c Hc]]. rewrite Hc. by eapply lookup_weaken.
Qed.

(** Writing to a location that the value does not lead to. *)
Lemma shape_store h P t v x l c :
  shape h t v x -> within h P t v -> ~ P l -> shape (<[l := c]> h) t v x /\ within (<[l := c]> h) P t v.
Proof.
  intros Hx Hp Hl. apply (shape_frame h); [done | done |]. intros l' Hl'. apply lookup_insert_ne. by intros ->.
Qed.

(** A type without pointers. *)
Fixpoint flat (t : ty) : bool :=
  match t with
  | TFlat => true
  | TStruct ts =>
      (fix flats ts : bool := match ts with [] => true | (_, t) :: ts => flat t && flats ts end) ts
  | _ => false
  end.

Lemma flat_within h P t v : flat t = true -> within h P t v.
Proof.
  revert v. induction t as [|ts IH|t IH|t IH|t IH] using ty_fields_ind; intros [a|fs|p|s|m]; try done.
  rewrite within_struct. revert fs. induction IH as [|[f t] ts Ht _ IHts]; intros [|[g v] fs]; try done.
  cbn. intros [Hft Hfts]%andb_true_iff. split; [by apply Ht | by apply IHts].
Qed.

(** ** Copiers that copy deeply *)

Class copies (t : ty) (c : copier) : Prop :=
  copies_deep : forall h v x, shape h t v x ->
    exists h' v', c v h = Done (h', v') /\ h ⊆ h' /\ shape h' t v' x /\ within h' (fun l => h !! l = None) t v'.

Lemma copies_assign t : flat t = true -> copies t assign.
Proof. intros Ht h v x Hx. exists h, v. split_and!; [done | done | done | by apply flat_within]. Qed.

Lemma mem_bind_done {A B} (x : mem A) (f : A -> mem B) h h' a :
  x h = Done (h', a) -> mem_bind x f h = f a h'.
Proof. intros E. unfold mem_bind. by rewrite E. Qed.

Lemma new_done c h : new c h = Done (<[fresh (dom h) := c]> h, fresh (dom h)).
Proof. done. Qed.

Lemma fresh_none (h : heap) : h !! fresh (dom h) = None.
Proof. apply not_elem_of_dom, is_fresh. Qed.

Lemma load_var_done h l v : h !! l = Some (CVar v) -> load_var l h = Done (h, v).
Proof. intros E. unfold load_var, load, mem_bind. by rewrite E. Qed.

Lemma load_array_done h l vs : h !! l = Some (CArray vs) -> load_array l h = Done (h, vs).
Proof. intros E. unfold load_array, load, mem_bind. by rewrite E. Qed.

Lemma load_map_done h l m : h !! l = Some (CMap m) -> load_map l h = Done (h, m).
Proof. intros E. unfold load_map, load, mem_bind. by rewrite E. Qed.

Lemma alloc_extend (h : heap) l c : h !! l = None -> h ⊆ <[l := c]> h.
Proof. apply insert_subseteq. Qed.

Lemma store_extend (h h' : heap) l c : h !! l = None -> h ⊆ h' -> h ⊆ <[l := c]> h'.
Proof. apply insert_subseteq_r. Qed.

Lemma lookup_extend (h h' : heap) l c : h ⊆ h' -> h !! l = Some c -> h' !! l = Some c.
Proof. intros Hh Hl. by eapply lookup_weaken. Qed.

Lemma none_before (h h' : heap) l : h ⊆ h' -> h' !! l = None -> h !! l = None.
Proof. intros Hh Hl. by eapply lookup_weaken_None. Qed.

(** What a variable copied into a new one [target] becomes. *)
Lemma copies_to_new t c h v x :
  copies t c -> shape h t v x ->
  let target := fresh (dom h) in
  exists h' w, c v (<[target := CVar zero]> h) = Done (h', w)
    /\ h ⊆ <[target := CVar w]> h'
    /\ shape (<[target := CVar w]> h') t w x
    /\ within (<[target := CVar w]> h') (fun l => h !! l = None) t w.
Proof.
  intros Hc Hx target. pose proof (fresh_none h : h !! target = None) as Ht.
  destruct (Hc (<[target := CVar zero]> h) v x) as (h' & w & E & Hh & Hs & Hw).
  { eapply shape_extend; [by apply alloc_extend | done]. }
  exists h', w. split; [done |].
  assert (Hn : within h' (fun l => h !! l = None /\ l <> target) t w).
  { eapply within_mono; [| exact Hw]. intros l [Hne Hl]%lookup_insert_None. by split. }
  destruct (shape_store h' _ t w x target (CVar w) Hs Hn) as [Hs' Hw']; [by intros [_ []] |].
  split_and!; [| done | eapply within_mono; [| exact Hw']; by intros l [? _]].
  apply store_extend; [done |]. etrans; [| exact Hh]. by apply alloc_extend.
Qed.

Lemma copies_ptr t c : copies t c -> copies (TPtr t) (ptr c).
Proof.
  intros Hc h [a|fs|[l|]|s|m] [b|xs| |x|xs|xm] Hx; try done.
  - destruct Hx as (w & Hw & Hx). destruct (copies_to_new t c h w x Hc Hx) as (h' & w' & E & Hh & Hs & Hn).
    cbn zeta in *. set (target := fresh (dom h)) in *.
    exists (<[target := CVar w']> h'), (VPtr (Some target)). split_and!; [| done | | split].
    + cbn [ptr]. rewrite (mem_bind_done _ _ _ _ _ (new_done _ _)). fold target.
      rewrite (mem_bind_done _ _ _ _ _ (load_var_done _ _ _ (lookup_extend _ _ _ _ (alloc_extend _ _ _ (fresh_none h)) Hw))).
      by rewrite (mem_bind_done _ _ _ _ _ E).
    + exists w'. split; [by apply lookup_insert_eq | done].
    + apply fresh_none.
    + intros w0. rewrite lookup_insert_eq. by intros [= <-].
  - exists h, (VPtr None). by split_and!.
Qed.

(** [DeepCopy] of a method is the copy of a pointer. *)
Lemma DeepCopy_ptr c v h : DeepCopy c v h = ptr c v h.
Proof. by destruct v as [| |[]| |]. Qed.

Lemma copies_DeepCopy t c : copies t c -> copies (TPtr t) (DeepCopy c).
Proof. intros Hc h v x Hx. rewrite DeepCopy_ptr. by apply copies_ptr. Qed.

Lemma copies_deref t c : copies t c -> copies t (deref_copy c).
Proof.
  intros Hc h v x Hx. destruct (copies_to_new t c h v x Hc Hx) as (h' & w & E & Hh & Hs & Hn).
  cbn zeta in *. set (target := fresh (dom h)) in *.
  exists (<[target := CVar w]> h'), w. split_and!; [| done | done | done].
  unfold deref_copy. rewrite (mem_bind_done _ _ _ _ _ (new_done _ _)). fold target.
  rewrite (mem_bind_done _ _ _ _ _ E), (mem_bind_done _ _ _ (<[target := CVar w]> h') tt) by done.
  apply load_var_done, lookup_insert_eq.
Qed.

(** *** Slices *)

Section Fill.
Context (t : ty) (c : copier) (Hc : copies t c) (h0 : heap) (target : loc).
Hypothesis Ht : h0 !! target = None.

(** New since [h0], and not the array that is filled. *)
Definition elsewhere (l : loc) : Prop := h0 !! l = None /\ l <> target.

Definition element (h : heap) (w : value) (x : tree) : Prop := shape h t w x /\ within h elsewhere t w.

Lemma element_extend h h' w x : h ⊆ h' -> element h w x -> element h' w x.
Proof.
  intros Hh [Hs Hw]. split; [by eapply shape_extend | by eapply within_extend].
Qed.

Lemma element_store h w x cell : element h w x -> element (<[target := cell]> h) w x.
Proof. intros [Hs Hw]. apply shape_store; [done | done |]. by intros [_ []]. Qed.

Lemma copy_element h v x :
  h0 ⊆ h -> is_Some (h !! target) -> shape h0 t v x ->
  exists h' w, c v h = Done (h', w) /\ h ⊆ h' /\ element h' w x.
Proof.
  intros Hh [cell Hcell] Hx. destruct (Hc h v x) as (h' & w & E & Hh' & Hs & Hw).
  { by eapply shape_extend. }
  exists h', w. split_and!; [done | done |]. split; [done |].
  eapply within_mono; [| exact Hw]. intros l Hl. split; [by eapply none_before |]. intros ->. congruence.
Qed.

Lemma fill_spec vs xs : Forall2 (shape h0 t) vs xs -> forall h i ws ys,
  h0 ⊆ h -> h !! target = Some (CArray (ws ++ replicate (length vs) zero)) -> length ws = i ->
  Forall2 (element h) ws ys ->
  exists h' ws', fill c target i vs h = Done (h', tt) /\ h0 ⊆ h'
    /\ h' !! target = Some (CArray ws') /\ Forall2 (element h') ws' (ys ++ xs).
Proof.
  induction 1 as [|v x vs xs Hv _ IH]; intros h i ws ys Hh Harr Hi Hws.
  - simpl in Harr. rewrite app_nil_r in Harr. exists h, ws. by rewrite app_nil_r.
  - destruct (copy_element h v x Hh ltac:(by eexists) Hv) as (h1 & w & E & Hh1 & Hw).
    set (ws1 := ws ++ [w]).
    assert (Ein : <[i := w]> (ws ++ replicate (length (v :: vs)) zero) = ws1 ++ replicate (length vs) zero).
    { subst ws1. rewrite insert_app_r_alt by lia. rewrite Hi, Nat.sub_diag, <- app_assoc. done. }
    destruct (IH (<[target := CArray (ws1 ++ replicate (length vs) zero)]> h1) (S i) ws1 (ys ++ [x]))
      as (h' & ws' & E' & Hh' & Harr' & Hws').
    + apply store_extend; [done | by etrans].
    + apply lookup_insert_eq.
    + subst ws1. rewrite length_app. simpl. lia.
    + subst ws1. apply Forall2_app; [| constructor; [by apply element_store | constructor]].
      eapply Forall2_impl; [exact Hws |]. intros w' y Hy. by apply element_store, (element_extend h).
    + exists h', ws'. rewrite <- app_assoc in Hws'. split_and!; [| done | done | done].
      cbn [fill]. rewrite (mem_bind_done _ _ _ _ _ E). rewrite (mem_bind_done _ _ _
        (<[target := CArray (ws1 ++ replicate (length vs) zero)]> h1) tt); [done |].
      unfold store_element. rewrite (mem_bind_done _ _ _ _ _ (load_array_done _ _ _ (lookup_extend _ _ _ _ Hh1 Harr))).
      by rewrite Ein.
Qed.

(** *** Maps *)

Lemma fill_map_spec (xm : gmap string tree) kvs : forall h m,
  Forall (fun kv => exists x, xm !! kv.1 = Some x /\ shape h0 t kv.2 x) kvs ->
  h0 ⊆ h -> h !! target = Some (CMap m) ->
  (forall k, k ∉ map fst kvs -> option_Forall2 (element h) (m !! k) (xm !! k)) ->
  exists h' m', fill_map c target kvs h = Done (h', tt) /\ h0 ⊆ h'
    /\ h' !! target = Some (CMap m') /\ forall k, option_Forall2 (element h') (m' !! k) (xm !! k).
Proof.
  induction kvs as [|[k v] kvs IH]; intros h m Hkvs Hh Hm Hdone.
  - exists h, m. split_and!; try done. intros k. apply Hdone, not_elem_of_nil.
  - apply Forall_cons in Hkvs as [(x & Hk & Hv) Hkvs]. simpl in Hk, Hv.
    destruct (copy_element h v x Hh ltac:(by eexists) Hv) as (h1 & w & E & Hh1 & Hw).
    destruct (IH (<[target := CMap (<[k := w]> m)]> h1) (<[k := w]> m)) as (h' & m' & E' & Hh' & Hm' & Hd);
      [done | apply store_extend; [done | by etrans] | apply lookup_insert_eq | |].
    + intros k' Hk'. destruct (decide (k' = k)) as [->|Hne].
      * rewrite lookup_insert_eq, Hk. constructor. by apply element_store.
      * rewrite lookup_insert_ne by done. specialize (Hdone k').
        destruct Hdone as [w' y Hy|]; [by rewrite map_cons, not_elem_of_cons | constructor | constructor].
        by apply element_store, (element_extend h).
    + exists h', m'. split_and!; [| done | done | done].
      cbn [fill_map]. rewrite (mem_bind_done _ _ _ _ _ E). rewrite (mem_bind_done _ _ _
        (<[target := CMap (<[k := w]> m)]> h1) tt); [done |].
      unfold store_key. by rewrite (mem_bind_done _ _ _ _ _ (load_map_done _ _ _ (lookup_extend _ _ _ _ Hh1 Hm))).
Qed.
End Fill.

Lemma copies_slice t c : copies t c -> copies (TSlice t) (slice c).
Proof.
  intros Hc h [a|fs|p|[[[l off] len]|]|m] [b|xs| |x|xs|xm] Hx; try done.
  - destruct Hx as (vs & Hvs & Hlen & Hx). set (target := fresh (dom h)). pose proof (fresh_none h : h !! target = None) as Ht.
    set (els := take len (drop off vs)) in *.
    assert (El : length els = len) by (subst els; rewrite length_take, length_drop; lia).
    destruct (fill_spec t c Hc h target Ht els xs Hx (<[target := CArray (replicate len zero)]> h) 0 [] [])
      as (h' & ws & E & Hh & Harr & Hws); [by apply alloc_extend | by rewrite lookup_insert_eq, El | done | done |].
    simpl in Hws. pose proof (Forall2_length _ _ _ Hws) as Hl1. pose proof (Forall2_length _ _ _ Hx) as Hl2.
    assert (Htake : take len (drop 0 ws) = ws) by (rewrite drop_0; apply take_ge; lia).
    exists h', (VSlice (Some (target, 0, len))). split_and!; [| done | | split].
    + cbn [slice]. rewrite (mem_bind_done _ _ _ _ _ (new_done _ _)). fold target.
      rewrite (mem_bind_done _ _ _ _ _ (load_array_done _ _ _ (lookup_extend _ _ _ _ (alloc_extend _ _ _ Ht) Hvs))).
      by rewrite (mem_bind_done _ _ _ _ _ E).
    + exists ws. split; [done |]. split; [lia |]. rewrite Htake.
      eapply Forall2_impl; [exact Hws | by intros w y []].
    + done.
    + intros ws'. rewrite Harr. intros [= <-]. rewrite Htake. clear - Hws.
      induction Hws as [|w y ws ys [_ Hw] _ IH]; constructor; [| done].
      eapply within_mono; [| exact Hw]. by intros l [? _].
  - exists h, (VSlice None). by split_and!.
Qed.

Lemma copies_map `{GoRange} t c : copies t c -> copies (TMap t) (go_map_copy c).
Proof.
  intros Hc h [a|fs|p|s|[l|]] [b|xs| |x|xs|xm] Hx; try done.
  - destruct Hx as (m & Hm & Hx). set (target := fresh (dom h)). pose proof (fresh_none h : h !! target = None) as Ht.
    destruct (fill_map_spec t c Hc h target Ht xm (range_map m) (<[target := CMap ∅]> h) ∅)
      as (h' & m' & E & Hh & Hm' & Hd).
    + apply Forall_forall. intros [k v] Hin. rewrite range_map_perm in Hin. apply elem_of_map_to_list in Hin.
      specialize (Hx k). rewrite Hin in Hx. inversion Hx. by eexists.
    + by apply alloc_extend.
    + apply lookup_insert_eq.
    + intros k Hk. specialize (Hx k). rewrite lookup_empty. destruct (m !! k) as [v|] eqn:Ek; [| by inversion Hx; constructor].
      destruct Hk. apply list_elem_of_fmap. exists (k, v). split; [done |].
      by rewrite range_map_perm, elem_of_map_to_list.
    + exists h', (VMap (Some target)). split_and!; [| done | | split].
      * cbn [go_map_copy]. rewrite (mem_bind_done _ _ _ _ _ (new_done _ _)). fold target.
        rewrite (mem_bind_done _ _ _ _ _ (load_map_done _ _ _ (lookup_extend _ _ _ _ (alloc_extend _ _ _ Ht) Hm))).
        by rewrite (mem_bind_done _ _ _ _ _ E).
      * exists m'. split; [done |]. intros k. destruct (Hd k) as [w y [Hw _]|]; by constructor.
      * done.
      * intros m0. rewrite Hm'. intros [= <-] k w Hk. specialize (Hd k). rewrite Hk in Hd.
        inversion Hd as [w' y [_ Hw]|]. eapply within_mono; [| exact Hw]. by intros l' [? _].
  - exists h, (VMap None). by split_and!.
Qed.

(** *** Structs *)

(** There is a statement for every field whose type has pointers, in the order
    of the fields. *)
Inductive covers : list (string * ty) -> list (string * copier) -> Prop :=
| covers_nil : covers [] []
| covers_flat f t ts steps : flat t = true -> covers ts steps -> covers ((f, t) :: ts) steps
| covers_step f t c ts steps : copies t c -> covers ts steps -> covers ((f, t) :: ts) ((f, c) :: steps).

Lemma covers_names ts steps f : covers ts steps -> f ∉ map fst ts -> f ∉ map fst steps.
Proof.
  induction 1 as [|g t ts steps _ _ IH|g t c ts steps _ _ IH]; [done | |]; cbn [map fst];
    rewrite not_elem_of_cons; intros [? ?]; [by apply IH |].
  rewrite not_elem_of_cons. split; [done | by apply IH].
Qed.

(** The statements about other fields leave the first one alone. *)
Lemma run_steps_tail steps f v w fs out h :
  f ∉ map fst steps ->
  run_steps steps ((f, v) :: fs) ((f, w) :: out) h
  = go_map (fun r => (r.1, (f, w) :: r.2)) (run_steps steps fs out h).
Proof.
  revert out h. induction steps as [|[g c] steps IH]; intros out h Hf; [done |].
  cbn [map fst] in Hf. apply not_elem_of_cons in Hf as [Hg Hf].
  cbn [run_steps field set_field]. rewrite !bool_decide_eq_false_2 by done.
  destruct (field g fs) as [u|]; [| done]. unfold mem_bind.
  destruct (c u h) as [[h' u']|why]; [| done]. cbn [go_bind fst snd]. by apply IH.
Qed.

Lemma run_steps_spec ts steps h0 : covers ts steps -> NoDup (map fst ts) -> forall h fs xs,
  h0 ⊆ h -> shapes h0 ts fs xs ->
  exists h' out, run_steps steps fs fs h = Done (h', out) /\ h ⊆ h' /\ shapes h' ts out xs
    /\ withins h' (fun l => h0 !! l = None) ts out.
Proof.
  induction 1 as [|f t ts steps Hflat Hcov IH|f t c ts steps Hc Hcov IH]; intros Hnd h [|[g v] fs] [|[k x] xs] Hh Hx;
    try done; [by exists h, [] | |]; cbn [map fst] in Hnd; apply NoDup_cons in Hnd as [Hf Hnd];
    destruct Hx as (<- & <- & Hv & Hfs); pose proof (covers_names _ _ _ Hcov Hf) as Hs.
  - destruct (IH Hnd h fs xs Hh Hfs) as (h' & out & E & Hh' & Ho & Hn).
    exists h', ((f, v) :: out). rewrite run_steps_tail, E by done. split_and!; [done | done | | ].
    + split_and!; [done | done | | done]. eapply shape_extend; [| done]. by etrans.
    + split; [by apply flat_within | done].
  - destruct (Hc h v x) as (h1 & w & E1 & Hh1 & Hw & Hnw); [by eapply shape_extend |].
    destruct (IH Hnd h1 fs xs ltac:(by etrans) Hfs) as (h' & out & E & Hh' & Ho & Hn).
    exists h', ((f, w) :: out). split_and!; [| by etrans | |].
    + cbn [run_steps field set_field]. rewrite !bool_decide_eq_true_2 by done.
      rewrite (mem_bind_done _ _ _ _ _ E1), run_steps_tail, E by done. done.
    + split_and!; [done | done | by eapply shape_extend | done].
    + split; [| done]. eapply within_extend; [exact Hh' | done |].
      eapply within_mono; [| exact Hnw]. intros l. by apply none_before.
Qed.

Lemma copies_into ts steps : covers ts steps -> NoDup (map fst ts) -> copies (TStruct ts) (into steps).
Proof.
  intros Hcov Hnd h [a|fs|p|s|m] [b|xs| |x|xs|xm] Hx; try done. rewrite shape_struct in Hx.
  destruct (run_steps_spec ts steps h Hcov Hnd h fs xs ltac:(done) Hx) as (h' & out & E & Hh & Ho & Hn).
  exists h', (VStruct out). rewrite shape_struct, within_struct. split_and!; [| done | done | done].
  cbn [into]. by rewrite (mem_bind_done _ _ _ _ _ E).
Qed.

(** ** Independence *)

(** The memory that was there is as it was, the copy has the content of the
    original, and neither is changed by what happens to the memory of the other:
    writes to what is new leave the original alone, writes to what was there
    leave the copy alone. *)
Definition deep_copy_of (h : heap) (t : ty) (v : value) (x : tree) (h' : heap) (v' : value) : Prop :=
  h ⊆ h' /\ shape h' t v' x
  /\ (forall h'', (forall l, is_Some (h !! l) -> h'' !! l = h !! l) -> shape h'' t v x)
  /\ (forall h'', (forall l, h !! l = None -> h'' !! l = h' !! l) -> shape h'' t v' x).

Lemma copies_deep_copy t c h v x :
  copies t c -> shape h t v x -> exists h' v', c v h = Done (h', v') /\ deep_copy_of h t v x h' v'.
Proof.
  intros Hc Hx. destruct (Hc h v x Hx) as (h' & v' & E & Hh & Hs & Hn). exists h', v'. split; [done |].
  split_and!; [done | done | |].
  - intros h'' Hsame. by destruct (shape_frame h h'' _ t v x Hx (shape_allocated _ _ _ _ Hx) Hsame).
  - intros h'' Hsame. by destruct (shape_frame h' h'' _ t v' x Hs Hn Hsame).
Qed.

(** [DeepCopyObject] answers [nil] for [nil] only. *)
Lemma DeepCopyObject_answer t c h p x :
  copies (TPtr t) c -> shape h (TPtr t) p x -> c (VPtr None) h = Done (h, VPtr None) ->
  exists h' r, DeepCopyObject c p h = Done (h', r)
    /\ match r with
       | None => p = VPtr None /\ h' = h
       | Some p' => p <> VPtr None /\ deep_copy_of h (TPtr t) p x h' p'
       end.
Proof.
  intros Hc Hx Hnil. destruct (copies_deep_copy (TPtr t) c h p x Hc Hx) as (h' & p' & E & Hd).
  unfold DeepCopyObject. rewrite (mem_bind_done _ _ _ _ _ E).
  destruct p as [a|fs|[l|]|s|m]; try done.
  - pose proof Hd as (_ & Hs & _). destruct p' as [a|fs|[l'|]|s|m]; destruct x; try done.
    by exists h', (Some (VPtr (Some l'))).
  - rewrite Hnil in E. injection E as <- <-. by exists h, None.
Qed.
