(* ===== verification/ApiDeepCopy.v ===== *)
(** * api/v1: the generated deep copies

    zz_generated.deepcopy.go, one definition per method, beside the types of
    api/v1 as the copies see them: which fields lead to other memory.  (What the
    fields mean is in [ApiTypes].)  The theorem compares the two: every method
    copies deeply, so that what a controller writes to an object that it got from
    the cache does not reach the cache. *)

From S2P Require Import Prelude GoLib Components DeepCopy.

(** The types of other packages and their own [DeepCopyInto], by their qualified
    names. *)
Class External := {
  ext_type : string -> ty;
  ext_copy : string -> copier
}.

(** Generated copies are deep. *)
Class ExternalLaws `{External} : Prop := ext_copies name :: copies (ext_type name) (ext_copy name).

Section ApiDeepCopy.
Context `{External} `{GoRange}.

(** ** Types and methods *)

Definition AWSConfig_type : ty :=
  TStruct [("AWSAccessKeySecret", TPtr TFlat)].
Definition AWSConfig_DeepCopyInto : copier :=
  into [("AWSAccessKeySecret", ptr assign)].
Definition AWSConfig_DeepCopy : copier := DeepCopy AWSConfig_DeepCopyInto.

Definition ValueFromSource_type : ty :=
  TStruct [("SecretKeyRef", TPtr (ext_type "corev1.SecretKeySelector"));
           ("ConfigMapKeyRef", TPtr (ext_type "corev1.ConfigMapKeySelector"))].
Definition ValueFromSource_DeepCopyInto : copier :=
  into [("SecretKeyRef", ptr (ext_copy "corev1.SecretKeySelector"));
        ("ConfigMapKeyRef", ptr (ext_copy "corev1.ConfigMapKeySelector"))].
Definition ValueFromSource_DeepCopy : copier := DeepCopy ValueFromSource_DeepCopyInto.

Definition StringOrFrom_type : ty :=
  TStruct [("Value", TPtr TFlat); ("ValueFrom", TPtr ValueFromSource_type)].
Definition StringOrFrom_DeepCopyInto : copier :=
  into [("Value", ptr assign); ("ValueFrom", ptr ValueFromSource_DeepCopyInto)].
Definition StringOrFrom_DeepCopy : copier := DeepCopy StringOrFrom_DeepCopyInto.

Definition CallWebhookAction_type : ty :=
  TStruct [("URL", StringOrFrom_type); ("Method", TFlat); ("TemplateRef", TFlat);
           ("PayloadTemplate", TPtr StringOrFrom_type); ("TemplateValues", TMap TFlat);
           ("TemplateValuesFrom", TMap ValueFromSource_type); ("Headers", TMap TFlat);
           ("HeadersFrom", TMap ValueFromSource_type); ("Timeout", TPtr TFlat)].
Definition CallWebhookAction_DeepCopyInto : copier :=
  into [("URL", StringOrFrom_DeepCopyInto); ("PayloadTemplate", ptr StringOrFrom_DeepCopyInto);
        ("TemplateValues", go_map_copy assign);
        ("TemplateValuesFrom", go_map_copy (deref_copy ValueFromSource_DeepCopyInto));
        ("Headers", go_map_copy assign);
        ("HeadersFrom", go_map_copy (deref_copy ValueFromSource_DeepCopyInto)); ("Timeout", ptr assign)].
Definition CallWebhookAction_DeepCopy : copier := DeepCopy CallWebhookAction_DeepCopyInto.

Definition CleanUpReplayAction_type : ty :=
  TStruct [].
Definition CleanUpReplayAction_DeepCopyInto : copier :=
  into [].
Definition CleanUpReplayAction_DeepCopy : copier := DeepCopy CleanUpReplayAction_DeepCopyInto.

Definition MdaiReplayOtlpHttpDestinationConfiguration_type : ty :=
  TStruct [("Endpoint", TFlat)].
Definition MdaiReplayOtlpHttpDestinationConfiguration_DeepCopyInto : copier :=
  into [].
Definition MdaiReplayOtlpHttpDestinationConfiguration_DeepCopy : copier :=
  DeepCopy MdaiReplayOtlpHttpDestinationConfiguration_DeepCopyInto.

Definition MdaiReplayDestinationConfiguration_type : ty :=
  TStruct [("OtlpHttp", TPtr MdaiReplayOtlpHttpDestinationConfiguration_type)].
Definition MdaiReplayDestinationConfiguration_DeepCopyInto : copier :=
  into [("OtlpHttp", ptr assign)].
Definition MdaiReplayDestinationConfiguration_DeepCopy : copier :=
  DeepCopy MdaiReplayDestinationConfiguration_DeepCopyInto.

Definition MdaiReplayResourceConfiguration_type : ty :=
  TStruct [("Image", TFlat)].
Definition MdaiReplayResourceConfiguration_DeepCopyInto : copier :=
  into [].
Definition MdaiReplayResourceConfiguration_DeepCopy : copier := DeepCopy MdaiReplayResourceConfiguration_DeepCopyInto.

Definition MdaiReplayAwsConfig_type : ty :=
  TStruct [("AWSAccessKeySecret", TPtr TFlat)].
Definition MdaiReplayAwsConfig_DeepCopyInto : copier :=
  into [("AWSAccessKeySecret", ptr assign)].
Definition MdaiReplayAwsConfig_DeepCopy : copier := DeepCopy MdaiReplayAwsConfig_DeepCopyInto.

Definition MdaiReplayS3Configuration_type : ty :=
  TStruct [("S3Region", TFlat); ("S3Bucket", TFlat); ("FilePrefix", TFlat); ("S3Path", TFlat);
           ("S3Partition", TFlat)].
Definition MdaiReplayS3Configuration_DeepCopyInto : copier :=
  into [].
Definition MdaiReplayS3Configuration_DeepCopy : copier := DeepCopy MdaiReplayS3Configuration_DeepCopyInto.

Definition MdaiReplaySourceConfiguration_type : ty :=
  TStruct [("AWSConfig", TPtr MdaiReplayAwsConfig_type); ("S3", TPtr MdaiReplayS3Configuration_type)].
Definition MdaiReplaySourceConfiguration_DeepCopyInto : copier :=
  into [("AWSConfig", ptr MdaiReplayAwsConfig_DeepCopyInto); ("S3", ptr assign)].
Definition MdaiReplaySourceConfiguration_DeepCopy : copier := DeepCopy MdaiReplaySourceConfiguration_DeepCopyInto.

Definition MdaiReplaySpec_type : ty :=
  TStruct [("StartTime", TFlat); ("EndTime", TFlat); ("TelemetryType", TFlat); ("HubName", TFlat);
           ("StatusVariableRef", TFlat); ("OpAMPEndpoint", TFlat); ("IgnoreSendingQueue", TFlat);
           ("Source", MdaiReplaySourceConfiguration_type);
           ("Destination", MdaiReplayDestinationConfiguration_type);
           ("Resource", MdaiReplayResourceConfiguration_type)].
Definition MdaiReplaySpec_DeepCopyInto : copier :=
  into [("Source", MdaiReplaySourceConfiguration_DeepCopyInto);
        ("Destination", MdaiReplayDestinationConfiguration_DeepCopyInto); ("Resource", assign)].
Definition MdaiReplaySpec_DeepCopy : copier := DeepCopy MdaiReplaySpec_DeepCopyInto.

Definition DeployReplayAction_type : ty :=
  TStruct [("ReplaySpec", MdaiReplaySpec_type)].
Definition DeployReplayAction_DeepCopyInto : copier :=
  into [("ReplaySpec", MdaiReplaySpec_DeepCopyInto)].
Definition DeployReplayAction_DeepCopy : copier := DeepCopy DeployReplayAction_DeepCopyInto.

Definition MapAction_type : ty :=
  TStruct [("Map", TFlat); ("Key", TFlat); ("Value", TPtr TFlat)].
Definition MapAction_DeepCopyInto : copier :=
  into [("Value", ptr assign)].
Definition MapAction_DeepCopy : copier := DeepCopy MapAction_DeepCopyInto.

Definition ScalarAction_type : ty :=
  TStruct [("Scalar", TFlat); ("Value", TFlat)].
Definition ScalarAction_DeepCopyInto : copier :=
  into [].
Definition ScalarAction_DeepCopy : copier := DeepCopy ScalarAction_DeepCopyInto.

Definition SetAction_type : ty :=
  TStruct [("Set", TFlat); ("Value", TFlat)].
Definition SetAction_DeepCopyInto : copier :=
  into [].
Definition SetAction_DeepCopy : copier := DeepCopy SetAction_DeepCopyInto.

Definition Action_type : ty :=
  TStruct [("AddToSet", TPtr SetAction_type); ("RemoveFromSet", TPtr SetAction_type);
           ("SetVariable", TPtr ScalarAction_type); ("AddToMap", TPtr MapAction_type);
           ("RemoveFromMap", TPtr MapAction_type); ("CallWebhook", TPtr CallWebhookAction_type);
           ("DeployReplay", TPtr DeployReplayAction_type); ("CleanUpReplay", TPtr CleanUpReplayAction_type)].
Definition Action_DeepCopyInto : copier :=
  into [("AddToSet", ptr assign); ("RemoveFromSet", ptr assign); ("SetVariable", ptr assign);
        ("AddToMap", ptr MapAction_DeepCopyInto); ("RemoveFromMap", ptr MapAction_DeepCopyInto);
        ("CallWebhook", ptr CallWebhookAction_DeepCopyInto);
        ("DeployReplay", ptr DeployReplayAction_DeepCopyInto); ("CleanUpReplay", ptr assign)].
Definition Action_DeepCopy : copier := DeepCopy Action_DeepCopyInto.

Definition AuditLogstreamConfig_type : ty :=
  TStruct [("Disabled", TFlat)].
Definition AuditLogstreamConfig_DeepCopyInto : copier :=
  into [].
Definition AuditLogstreamConfig_DeepCopy : copier := DeepCopy AuditLogstreamConfig_DeepCopyInto.

Definition When_type : ty :=
  TStruct [("AlertName", TPtr TFlat); ("Status", TPtr TFlat); ("VariableUpdated", TPtr TFlat);
           ("UpdateType", TPtr TFlat)].
Definition When_DeepCopyInto : copier :=
  into [("AlertName", ptr assign); ("Status", ptr assign); ("VariableUpdated", ptr assign);
        ("UpdateType", ptr assign)].
Definition When_DeepCopy : copier := DeepCopy When_DeepCopyInto.

Definition AutomationRule_type : ty :=
  TStruct [("Name", TFlat); ("When", When_type); ("Then", TSlice Action_type)].
Definition AutomationRule_DeepCopyInto : copier :=
  into [("When", When_DeepCopyInto); ("Then", slice Action_DeepCopyInto)].
Definition AutomationRule_DeepCopy : copier := DeepCopy AutomationRule_DeepCopyInto.

Definition Config_type : ty :=
  TStruct [("EvaluationInterval", TPtr TFlat)].
Definition Config_DeepCopyInto : copier :=
  into [("EvaluationInterval", ptr assign)].
Definition Config_DeepCopy : copier := DeepCopy Config_DeepCopyInto.

Definition IngressService_type : ty :=
  TStruct [("Type", TFlat); ("Annotations", TMap TFlat)].
Definition IngressService_DeepCopyInto : copier :=
  into [("Annotations", go_map_copy assign)].
Definition IngressService_DeepCopy : copier := DeepCopy IngressService_DeepCopyInto.

Definition JoinTransformer_type : ty :=
  TStruct [("Delimiter", TFlat)].
Definition JoinTransformer_DeepCopyInto : copier :=
  into [].
Definition JoinTransformer_DeepCopy : copier := DeepCopy JoinTransformer_DeepCopyInto.

Definition LogstreamConfig_type : ty :=
  TStruct [("MinSeverity", TPtr TFlat); ("Disabled", TFlat)].
Definition LogstreamConfig_DeepCopyInto : copier :=
  into [("MinSeverity", ptr assign)].
Definition LogstreamConfig_DeepCopy : copier := DeepCopy LogstreamConfig_DeepCopyInto.

Definition OtlpLogsConfig_type : ty :=
  TStruct [("AuditLogs", TPtr AuditLogstreamConfig_type); ("CollectorLogs", TPtr LogstreamConfig_type);
           ("HubLogs", TPtr LogstreamConfig_type); ("OtherLogs", TPtr LogstreamConfig_type);
           ("Endpoint", TFlat)].
Definition OtlpLogsConfig_DeepCopyInto : copier :=
  into [("AuditLogs", ptr assign); ("CollectorLogs", ptr LogstreamConfig_DeepCopyInto);
        ("HubLogs", ptr LogstreamConfig_DeepCopyInto); ("OtherLogs", ptr LogstreamConfig_DeepCopyInto)].
Definition OtlpLogsConfig_DeepCopy : copier := DeepCopy OtlpLogsConfig_DeepCopyInto.

Definition S3LogsConfig_type : ty :=
  TStruct [("AuditLogs", TPtr AuditLogstreamConfig_type); ("CollectorLogs", TPtr LogstreamConfig_type);
           ("HubLogs", TPtr LogstreamConfig_type); ("OtherLogs", TPtr LogstreamConfig_type);
           ("S3Region", TFlat); ("S3Bucket", TFlat)].
Definition S3LogsConfig_DeepCopyInto : copier :=
  into [("AuditLogs", ptr assign); ("CollectorLogs", ptr LogstreamConfig_DeepCopyInto);
        ("HubLogs", ptr LogstreamConfig_DeepCopyInto); ("OtherLogs", ptr LogstreamConfig_DeepCopyInto)].
Definition S3LogsConfig_DeepCopy : copier := DeepCopy S3LogsConfig_DeepCopyInto.

Definition LogsConfig_type : ty :=
  TStruct [("S3", TPtr S3LogsConfig_type); ("Otlp", TPtr OtlpLogsConfig_type)].
Definition LogsConfig_DeepCopyInto : copier :=
  into [("S3", ptr S3LogsConfig_DeepCopyInto); ("Otlp", ptr OtlpLogsConfig_DeepCopyInto)].
Definition LogsConfig_DeepCopy : copier := DeepCopy LogsConfig_DeepCopyInto.

Definition MdaiCollectorSpec_type : ty :=
  TStruct [("AWSConfig", TPtr AWSConfig_type); ("Logs", TPtr LogsConfig_type); ("Image", TFlat);
           ("Replicas", TFlat); ("Tolerations", TSlice (ext_type "corev1.Toleration"))].
Definition MdaiCollectorSpec_DeepCopyInto : copier :=
  into [("AWSConfig", ptr AWSConfig_DeepCopyInto); ("Logs", ptr LogsConfig_DeepCopyInto);
        ("Tolerations", slice (ext_copy "corev1.Toleration"))].
Definition MdaiCollectorSpec_DeepCopy : copier := DeepCopy MdaiCollectorSpec_DeepCopyInto.

Definition MdaiCollectorStatus_type : ty :=
  TStruct [("LastUpdatedTime", TPtr (ext_type "metav1.Time"));
           ("Conditions", TSlice (ext_type "metav1.Condition"))].
Definition MdaiCollectorStatus_DeepCopyInto : copier :=
  into [("LastUpdatedTime", DeepCopy (ext_copy "metav1.Time"));
        ("Conditions", slice (ext_copy "metav1.Condition"))].
Definition MdaiCollectorStatus_DeepCopy : copier := DeepCopy MdaiCollectorStatus_DeepCopyInto.

Definition MdaiCollector_type : ty :=
  TStruct [("TypeMeta", TFlat); ("ObjectMeta", ext_type "metav1.ObjectMeta");
           ("Spec", MdaiCollectorSpec_type); ("Status", MdaiCollectorStatus_type)].
Definition MdaiCollector_DeepCopyInto : copier :=
  into [("TypeMeta", assign); ("ObjectMeta", ext_copy "metav1.ObjectMeta");
        ("Spec", MdaiCollectorSpec_DeepCopyInto); ("Status", MdaiCollectorStatus_DeepCopyInto)].
Definition MdaiCollector_DeepCopy : copier := DeepCopy MdaiCollector_DeepCopyInto.
Definition MdaiCollector_DeepCopyObject : value -> mem (option value) := DeepCopyObject MdaiCollector_DeepCopy.

Definition MdaiCollectorList_type : ty :=
  TStruct [("TypeMeta", TFlat); ("ListMeta", ext_type "metav1.ListMeta");
           ("Items", TSlice MdaiCollector_type)].
Definition MdaiCollectorList_DeepCopyInto : copier :=
  into [("TypeMeta", assign); ("ListMeta", ext_copy "metav1.ListMeta");
        ("Items", slice MdaiCollector_DeepCopyInto)].
Definition MdaiCollectorList_DeepCopy : copier := DeepCopy MdaiCollectorList_DeepCopyInto.
Definition MdaiCollectorList_DeepCopyObject : value -> mem (option value) :=
  DeepCopyObject MdaiCollectorList_DeepCopy.

Definition MdaiDalAWSCredentials_type : ty :=
  TStruct [("SecretName", TFlat); ("AccessKeyField", TFlat); ("SecretKeyField", TFlat)].
Definition MdaiDalAWSCredentials_DeepCopyInto : copier :=
  into [].
Definition MdaiDalAWSCredentials_DeepCopy : copier := DeepCopy MdaiDalAWSCredentials_DeepCopyInto.

Definition MdaiDalAWSConfig_type : ty :=
  TStruct [("Region", TFlat); ("Credentials", MdaiDalAWSCredentials_type)].
Definition MdaiDalAWSConfig_DeepCopyInto : copier :=
  into [("Credentials", assign)].
Definition MdaiDalAWSConfig_DeepCopy : copier := DeepCopy MdaiDalAWSConfig_DeepCopyInto.

Definition MdaiDalImageSpec_type : ty :=
  TStruct [("Repository", TFlat); ("Tag", TFlat); ("PullPolicy", TFlat)].
Definition MdaiDalImageSpec_DeepCopyInto : copier :=
  into [].
Definition MdaiDalImageSpec_DeepCopy : copier := DeepCopy MdaiDalImageSpec_DeepCopyInto.

Definition MdaiDalS3Config_type : ty :=
  TStruct [("Bucket", TFlat); ("Prefix", TFlat)].
Definition MdaiDalS3Config_DeepCopyInto : copier :=
  into [].
Definition MdaiDalS3Config_DeepCopy : copier := DeepCopy MdaiDalS3Config_DeepCopyInto.

Definition MdaiDalSpec_type : ty :=
  TStruct [("Granularity", TFlat); ("UsePayloadTS", TFlat); ("Marshaler", TFlat);
           ("S3", MdaiDalS3Config_type); ("AWS", MdaiDalAWSConfig_type);
           ("ImageSpec", TPtr MdaiDalImageSpec_type)].
Definition MdaiDalSpec_DeepCopyInto : copier :=
  into [("S3", assign); ("AWS", assign); ("ImageSpec", ptr assign)].
Definition MdaiDalSpec_DeepCopy : copier := DeepCopy MdaiDalSpec_DeepCopyInto.

Definition MdaiDalStatus_type : ty :=
  TStruct [("Conditions", TSlice (ext_type "metav1.Condition")); ("ObservedGeneration", TFlat);
           ("Replicas", TFlat); ("ReadyReplicas", TFlat); ("Endpoint", TFlat);
           ("LastSyncedTime", ext_type "metav1.Time")].
Definition MdaiDalStatus_DeepCopyInto : copier :=
  into [("Conditions", slice (ext_copy "metav1.Condition")); ("LastSyncedTime", ext_copy "metav1.Time")].
Definition MdaiDalStatus_DeepCopy : copier := DeepCopy MdaiDalStatus_DeepCopyInto.

Definition MdaiDal_type : ty :=
  TStruct [("TypeMeta", TFlat); ("ObjectMeta", ext_type "metav1.ObjectMeta"); ("Spec", MdaiDalSpec_type);
           ("Status", MdaiDalStatus_type)].
Definition MdaiDal_DeepCopyInto : copier :=
  into [("TypeMeta", assign); ("ObjectMeta", ext_copy "metav1.ObjectMeta");
        ("Spec", MdaiDalSpec_DeepCopyInto); ("Status", MdaiDalStatus_DeepCopyInto)].
Definition MdaiDal_DeepCopy : copier := DeepCopy MdaiDal_DeepCopyInto.
Definition MdaiDal_DeepCopyObject : value -> mem (option value) := DeepCopyObject MdaiDal_DeepCopy.

Definition MdaiDalList_type : ty :=
  TStruct [("TypeMeta", TFlat); ("ListMeta", ext_type "metav1.ListMeta"); ("Items", TSlice MdaiDal_type)].
Definition MdaiDalList_DeepCopyInto : copier :=
  into [("TypeMeta", assign); ("ListMeta", ext_copy "metav1.ListMeta");
        ("Items", slice MdaiDal_DeepCopyInto)].
Definition MdaiDalList_DeepCopy : copier := DeepCopy MdaiDalList_DeepCopyInto.
Definition MdaiDalList_DeepCopyObject : value -> mem (option value) := DeepCopyObject MdaiDalList_DeepCopy.

Definition PrometheusAlert_type : ty :=
  TStruct [("Name", TFlat); ("Expr", TFlat); ("For", TPtr TFlat); ("KeepFiringFor", TPtr TFlat);
           ("Severity", TFlat)].
Definition PrometheusAlert_DeepCopyInto : copier :=
  into [("Expr", assign); ("For", ptr assign); ("KeepFiringFor", ptr assign)].
Definition PrometheusAlert_DeepCopy : copier := DeepCopy PrometheusAlert_DeepCopyInto.

Definition VariableTransformer_type : ty :=
  TStruct [("Type", TFlat); ("Join", TPtr JoinTransformer_type)].
Definition VariableTransformer_DeepCopyInto : copier :=
  into [("Join", ptr assign)].
Definition VariableTransformer_DeepCopy : copier := DeepCopy VariableTransformer_DeepCopyInto.

Definition Serializer_type : ty :=
  TStruct [("Name", TFlat); ("Transformers", TSlice VariableTransformer_type)].
Definition Serializer_DeepCopyInto : copier :=
  into [("Transformers", slice VariableTransformer_DeepCopyInto)].
Definition Serializer_DeepCopy : copier := DeepCopy Serializer_DeepCopyInto.

Definition Variable_type : ty :=
  TStruct [("Key", TFlat); ("Type", TFlat); ("DataType", TFlat); ("StorageType", TFlat);
           ("VariableRefs", TSlice TFlat); ("SerializeAs", TPtr (TSlice Serializer_type))].
Definition Variable_DeepCopyInto : copier :=
  into [("VariableRefs", slice assign); ("SerializeAs", ptr (slice Serializer_DeepCopyInto))].
Definition Variable_DeepCopy : copier := DeepCopy Variable_DeepCopyInto.

Definition MdaiHubSpec_type : ty :=
  TStruct [("Config", TPtr Config_type); ("Variables", TSlice Variable_type);
           ("PrometheusAlerts", TSlice PrometheusAlert_type); ("Rules", TSlice AutomationRule_type)].
Definition MdaiHubSpec_DeepCopyInto : copier :=
  into [("Config", ptr Config_DeepCopyInto); ("Variables", slice Variable_DeepCopyInto);
        ("PrometheusAlerts", slice PrometheusAlert_DeepCopyInto);
        ("Rules", slice AutomationRule_DeepCopyInto)].
Definition MdaiHubSpec_DeepCopy : copier := DeepCopy MdaiHubSpec_DeepCopyInto.

Definition MdaiHubStatus_type : ty :=
  TStruct [("HubStatus", TFlat); ("LastUpdatedTime", TPtr (ext_type "metav1.Time"));
           ("Conditions", TSlice (ext_type "metav1.Condition"))].
Definition MdaiHubStatus_DeepCopyInto : copier :=
  into [("LastUpdatedTime", DeepCopy (ext_copy "metav1.Time"));
        ("Conditions", slice (ext_copy "metav1.Condition"))].
Definition MdaiHubStatus_DeepCopy : copier := DeepCopy MdaiHubStatus_DeepCopyInto.

Definition MdaiHub_type : ty :=
  TStruct [("TypeMeta", TFlat); ("ObjectMeta", ext_type "metav1.ObjectMeta"); ("Spec", MdaiHubSpec_type);
           ("Status", MdaiHubStatus_type)].
Definition MdaiHub_DeepCopyInto : copier :=
  into [("TypeMeta", assign); ("ObjectMeta", ext_copy "metav1.ObjectMeta");
        ("Spec", MdaiHubSpec_DeepCopyInto); ("Status", MdaiHubStatus_DeepCopyInto)].
Definition MdaiHub_DeepCopy : copier := DeepCopy MdaiHub_DeepCopyInto.
Definition MdaiHub_DeepCopyObject : value -> mem (option value) := DeepCopyObject MdaiHub_DeepCopy.

Definition MdaiHubList_type : ty :=
  TStruct [("TypeMeta", TFlat); ("ListMeta", ext_type "metav1.ListMeta"); ("Items", TSlice MdaiHub_type)].
Definition MdaiHubList_DeepCopyInto : copier :=
  into [("TypeMeta", assign); ("ListMeta", ext_copy "metav1.ListMeta");
        ("Items", slice MdaiHub_DeepCopyInto)].
Definition MdaiHubList_DeepCopy : copier := DeepCopy MdaiHubList_DeepCopyInto.
Definition MdaiHubList_DeepCopyObject : value -> mem (option value) := DeepCopyObject MdaiHubList_DeepCopy.

Definition OtelColRef_type : ty :=
  TStruct [("Name", TFlat)].
Definition OtelColRef_DeepCopyInto : copier :=
  into [].
Definition OtelColRef_DeepCopy : copier := DeepCopy OtelColRef_DeepCopyInto.

Definition MdaiIngressSpec_type : ty :=
  TStruct [("OtelCollector", OtelColRef_type); ("CloudType", TFlat); ("Annotations", TMap TFlat);
           ("IngressClassName", TPtr TFlat); ("GrpcService", TPtr IngressService_type);
           ("NonGrpcService", TPtr IngressService_type); ("CollectorEndpoints", TMap TFlat)].
Definition MdaiIngressSpec_DeepCopyInto : copier :=
  into [("OtelCollector", assign); ("Annotations", go_map_copy assign); ("IngressClassName", ptr assign);
        ("GrpcService", ptr IngressService_DeepCopyInto);
        ("NonGrpcService", ptr IngressService_DeepCopyInto); ("CollectorEndpoints", go_map_copy assign)].
Definition MdaiIngressSpec_DeepCopy : copier := DeepCopy MdaiIngressSpec_DeepCopyInto.

Definition MdaiIngressStatus_type : ty :=
  TStruct [].
Definition MdaiIngressStatus_DeepCopyInto : copier :=
  into [].
Definition MdaiIngressStatus_DeepCopy : copier := DeepCopy MdaiIngressStatus_DeepCopyInto.

Definition MdaiIngress_type : ty :=
  TStruct [("TypeMeta", TFlat); ("ObjectMeta", ext_type "metav1.ObjectMeta");
           ("Spec", MdaiIngressSpec_type); ("Status", MdaiIngressStatus_type)].
Definition MdaiIngress_DeepCopyInto : copier :=
  into [("TypeMeta", assign); ("ObjectMeta", ext_copy "metav1.ObjectMeta");
        ("Spec", MdaiIngressSpec_DeepCopyInto); ("Status", assign)].
Definition MdaiIngress_DeepCopy : copier := DeepCopy MdaiIngress_DeepCopyInto.
Definition MdaiIngress_DeepCopyObject : value -> mem (option value) := DeepCopyObject MdaiIngress_DeepCopy.

Definition MdaiIngressList_type : ty :=
  TStruct [("TypeMeta", TFlat); ("ListMeta", ext_type "metav1.ListMeta");
           ("Items", TSlice MdaiIngress_type)].
Definition MdaiIngressList_DeepCopyInto : copier :=
  into [("TypeMeta", assign); ("ListMeta", ext_copy "metav1.ListMeta");
        ("Items", slice MdaiIngress_DeepCopyInto)].
Definition MdaiIngressList_DeepCopy : copier := DeepCopy MdaiIngressList_DeepCopyInto.
Definition MdaiIngressList_DeepCopyObject : value -> mem (option value) := DeepCopyObject MdaiIngressList_DeepCopy.

Definition ObserverLogsFilter_type : ty :=
  TStruct [("LogRecord", TSlice TFlat)].
Definition ObserverLogsFilter_DeepCopyInto : copier :=
  into [("LogRecord", slice assign)].
Definition ObserverLogsFilter_DeepCopy : copier := DeepCopy ObserverLogsFilter_DeepCopyInto.

Definition ObserverFilter_type : ty :=
  TStruct [("ErrorMode", TPtr TFlat); ("Logs", TPtr ObserverLogsFilter_type)].
Definition ObserverFilter_DeepCopyInto : copier :=
  into [("ErrorMode", ptr assign); ("Logs", ptr ObserverLogsFilter_DeepCopyInto)].
Definition ObserverFilter_DeepCopy : copier := DeepCopy ObserverFilter_DeepCopyInto.

Definition Observer_type : ty :=
  TStruct [("Name", TFlat); ("LabelResourceAttributes", TSlice TFlat); ("CountMetricName", TPtr TFlat);
           ("BytesMetricName", TPtr TFlat); ("Filter", TPtr ObserverFilter_type)].
Definition Observer_DeepCopyInto : copier :=
  into [("LabelResourceAttributes", slice assign); ("CountMetricName", ptr assign);
        ("BytesMetricName", ptr assign); ("Filter", ptr ObserverFilter_DeepCopyInto)].
Definition Observer_DeepCopy : copier := DeepCopy Observer_DeepCopyInto.

Definition ObserverResource_type : ty :=
  TStruct [("Image", TFlat); ("Replicas", TFlat);
           ("Resources", TPtr (ext_type "corev1.ResourceRequirements"));
           ("GrpcReceiverMaxMsgSize", TPtr TFlat); ("OwnLogsOtlpEndpoint", TPtr TFlat);
           ("Tolerations", TSlice (ext_type "corev1.Toleration"))].
Definition ObserverResource_DeepCopyInto : copier :=
  into [("Resources", ptr (ext_copy "corev1.ResourceRequirements"));
        ("GrpcReceiverMaxMsgSize", ptr assign); ("OwnLogsOtlpEndpoint", ptr assign);
        ("Tolerations", slice (ext_copy "corev1.Toleration"))].
Definition ObserverResource_DeepCopy : copier := DeepCopy ObserverResource_DeepCopyInto.

Definition MdaiObserverSpec_type : ty :=
  TStruct [("Observers", TSlice Observer_type); ("ObserverResource", ObserverResource_type)].
Definition MdaiObserverSpec_DeepCopyInto : copier :=
  into [("Observers", slice Observer_DeepCopyInto); ("ObserverResource", ObserverResource_DeepCopyInto)].
Definition MdaiObserverSpec_DeepCopy : copier := DeepCopy MdaiObserverSpec_DeepCopyInto.

Definition MdaiObserverStatus_type : ty :=
  TStruct [("ObserverStatus", TFlat); ("LastUpdatedTime", TPtr (ext_type "metav1.Time"));
           ("Conditions", TSlice (ext_type "metav1.Condition"))].
Definition MdaiObserverStatus_DeepCopyInto : copier :=
  into [("LastUpdatedTime", DeepCopy (ext_copy "metav1.Time"));
        ("Conditions", slice (ext_copy "metav1.Condition"))].
Definition MdaiObserverStatus_DeepCopy : copier := DeepCopy MdaiObserverStatus_DeepCopyInto.

Definition MdaiObserver_type : ty :=
  TStruct [("TypeMeta", TFlat); ("ObjectMeta", ext_type "metav1.ObjectMeta");
           ("Spec", MdaiObserverSpec_type); ("Status", MdaiObserverStatus_type)].
Definition MdaiObserver_DeepCopyInto : copier :=
  into [("TypeMeta", assign); ("ObjectMeta", ext_copy "metav1.ObjectMeta");
        ("Spec", MdaiObserverSpec_DeepCopyInto); ("Status", MdaiObserverStatus_DeepCopyInto)].
Definition MdaiObserver_DeepCopy : copier := DeepCopy MdaiObserver_DeepCopyInto.
Definition MdaiObserver_DeepCopyObject : value -> mem (option value) := DeepCopyObject MdaiObserver_DeepCopy.

Definition MdaiObserverList_type : ty :=
  TStruct [("TypeMeta", TFlat); ("ListMeta", ext_type "metav1.ListMeta");
           ("Items", TSlice MdaiObserver_type)].
Definition MdaiObserverList_DeepCopyInto : copier :=
  into [("TypeMeta", assign); ("ListMeta", ext_copy "metav1.ListMeta");
        ("Items", slice MdaiObserver_DeepCopyInto)].
Definition MdaiObserverList_DeepCopy : copier := DeepCopy MdaiObserverList_DeepCopyInto.
Definition MdaiObserverList_DeepCopyObject : value -> mem (option value) := DeepCopyObject MdaiObserverList_DeepCopy.

Definition MdaiReplayStatus_type : ty :=
  TStruct [("LastUpdatedTime", TPtr (ext_type "metav1.Time"));
           ("Conditions", TSlice (ext_type "metav1.Condition"))].
Definition MdaiReplayStatus_DeepCopyInto : copier :=
  into [("LastUpdatedTime", DeepCopy (ext_copy "metav1.Time"));
        ("Conditions", slice (ext_copy "metav1.Condition"))].
Definition MdaiReplayStatus_DeepCopy : copier := DeepCopy MdaiReplayStatus_DeepCopyInto.

Definition MdaiReplay_type : ty :=
  TStruct [("TypeMeta", TFlat); ("ObjectMeta", ext_type "metav1.ObjectMeta");
           ("Spec", MdaiReplaySpec_type); ("Status", MdaiReplayStatus_type)].
Definition MdaiReplay_DeepCopyInto : copier :=
  into [("TypeMeta", assign); ("ObjectMeta", ext_copy "metav1.ObjectMeta");
        ("Spec", MdaiReplaySpec_DeepCopyInto); ("Status", MdaiReplayStatus_DeepCopyInto)].
Definition MdaiReplay_DeepCopy : copier := DeepCopy MdaiReplay_DeepCopyInto.
Definition MdaiReplay_DeepCopyObject : value -> mem (option value) := DeepCopyObject MdaiReplay_DeepCopy.

Definition MdaiReplayList_type : ty :=
  TStruct [("TypeMeta", TFlat); ("ListMeta", ext_type "metav1.ListMeta"); ("Items", TSlice MdaiReplay_type)].
Definition MdaiReplayList_DeepCopyInto : copier :=
  into [("TypeMeta", assign); ("ListMeta", ext_copy "metav1.ListMeta");
        ("Items", slice MdaiReplay_DeepCopyInto)].
Definition MdaiReplayList_DeepCopy : copier := DeepCopy MdaiReplayList_DeepCopyInto.
Definition MdaiReplayList_DeepCopyObject : value -> mem (option value) := DeepCopyObject MdaiReplayList_DeepCopy.

Definition OtelMdaiIngressComb_type : ty :=
  TStruct [("Otelcol", ext_type "v1beta1.OpenTelemetryCollector"); ("MdaiIngress", MdaiIngress_type)].
Definition OtelMdaiIngressComb_DeepCopyInto : copier :=
  into [("Otelcol", ext_copy "v1beta1.OpenTelemetryCollector"); ("MdaiIngress", MdaiIngress_DeepCopyInto)].
Definition OtelMdaiIngressComb_DeepCopy : copier := DeepCopy OtelMdaiIngressComb_DeepCopyInto.

(** The methods of each type. *)
Definition api_types : list (ty * copier * copier) :=
  [(AWSConfig_type, AWSConfig_DeepCopyInto, AWSConfig_DeepCopy);
   (ValueFromSource_type, ValueFromSource_DeepCopyInto, ValueFromSource_DeepCopy);
   (StringOrFrom_type, StringOrFrom_DeepCopyInto, StringOrFrom_DeepCopy);
   (CallWebhookAction_type, CallWebhookAction_DeepCopyInto, CallWebhookAction_DeepCopy);
   (CleanUpReplayAction_type, CleanUpReplayAction_DeepCopyInto, CleanUpReplayAction_DeepCopy);
   (MdaiReplayOtlpHttpDestinationConfiguration_type, MdaiReplayOtlpHttpDestinationConfiguration_DeepCopyInto, MdaiReplayOtlpHttpDestinationConfiguration_DeepCopy);
   (MdaiReplayDestinationConfiguration_type, MdaiReplayDestinationConfiguration_DeepCopyInto, MdaiReplayDestinationConfiguration_DeepCopy);
   (MdaiReplayResourceConfiguration_type, MdaiReplayResourceConfiguration_DeepCopyInto, MdaiReplayResourceConfiguration_DeepCopy);
   (MdaiReplayAwsConfig_type, MdaiReplayAwsConfig_DeepCopyInto, MdaiReplayAwsConfig_DeepCopy);
   (MdaiReplayS3Configuration_type, MdaiReplayS3Configuration_DeepCopyInto, MdaiReplayS3Configuration_DeepCopy);
   (MdaiReplaySourceConfiguration_type, MdaiReplaySourceConfiguration_DeepCopyInto, MdaiReplaySourceConfiguration_DeepCopy);
   (MdaiReplaySpec_type, MdaiReplaySpec_DeepCopyInto, MdaiReplaySpec_DeepCopy);
   (DeployReplayAction_type, DeployReplayAction_DeepCopyInto, DeployReplayAction_DeepCopy);
   (MapAction_type, MapAction_DeepCopyInto, MapAction_DeepCopy);
   (ScalarAction_type, ScalarAction_DeepCopyInto, ScalarAction_DeepCopy);
   (SetAction_type, SetAction_DeepCopyInto, SetAction_DeepCopy);
   (Action_type, Action_DeepCopyInto, Action_DeepCopy);
   (AuditLogstreamConfig_type, AuditLogstreamConfig_DeepCopyInto, AuditLogstreamConfig_DeepCopy);
   (When_type, When_DeepCopyInto, When_DeepCopy);
   (AutomationRule_type, AutomationRule_DeepCopyInto, AutomationRule_DeepCopy);
   (Config_type, Config_DeepCopyInto, Config_DeepCopy);
   (IngressService_type, IngressService_DeepCopyInto, IngressService_DeepCopy);
   (JoinTransformer_type, JoinTransformer_DeepCopyInto, JoinTransformer_DeepCopy);
   (LogstreamConfig_type, LogstreamConfig_DeepCopyInto, LogstreamConfig_DeepCopy);
   (OtlpLogsConfig_type, OtlpLogsConfig_DeepCopyInto, OtlpLogsConfig_DeepCopy);
   (S3LogsConfig_type, S3LogsConfig_DeepCopyInto, S3LogsConfig_DeepCopy);
   (LogsConfig_type, LogsConfig_DeepCopyInto, LogsConfig_DeepCopy);
   (MdaiCollectorSpec_type, MdaiCollectorSpec_DeepCopyInto, MdaiCollectorSpec_DeepCopy);
   (MdaiCollectorStatus_type, MdaiCollectorStatus_DeepCopyInto, MdaiCollectorStatus_DeepCopy);
   (MdaiCollector_type, MdaiCollector_DeepCopyInto, MdaiCollector_DeepCopy);
   (MdaiCollectorList_type, MdaiCollectorList_DeepCopyInto, MdaiCollectorList_DeepCopy);
   (MdaiDalAWSCredentials_type, MdaiDalAWSCredentials_DeepCopyInto, MdaiDalAWSCredentials_DeepCopy);
   (MdaiDalAWSConfig_type, MdaiDalAWSConfig_DeepCopyInto, MdaiDalAWSConfig_DeepCopy);
   (MdaiDalImageSpec_type, MdaiDalImageSpec_DeepCopyInto, MdaiDalImageSpec_DeepCopy);
   (MdaiDalS3Config_type, MdaiDalS3Config_DeepCopyInto, MdaiDalS3Config_DeepCopy);
   (MdaiDalSpec_type, MdaiDalSpec_DeepCopyInto, MdaiDalSpec_DeepCopy);
   (MdaiDalStatus_type, MdaiDalStatus_DeepCopyInto, MdaiDalStatus_DeepCopy);
   (MdaiDal_type, MdaiDal_DeepCopyInto, MdaiDal_DeepCopy);
   (MdaiDalList_type, MdaiDalList_DeepCopyInto, MdaiDalList_DeepCopy);
   (PrometheusAlert_type, PrometheusAlert_DeepCopyInto, PrometheusAlert_DeepCopy);
   (VariableTransformer_type, VariableTransformer_DeepCopyInto, VariableTransformer_DeepCopy);
   (Serializer_type, Serializer_DeepCopyInto, Serializer_DeepCopy);
   (Variable_type, Variable_DeepCopyInto, Variable_DeepCopy);
   (MdaiHubSpec_type, MdaiHubSpec_DeepCopyInto, MdaiHubSpec_DeepCopy);
   (MdaiHubStatus_type, MdaiHubStatus_DeepCopyInto, MdaiHubStatus_DeepCopy);
   (MdaiHub_type, MdaiHub_DeepCopyInto, MdaiHub_DeepCopy);
   (MdaiHubList_type, MdaiHubList_DeepCopyInto, MdaiHubList_DeepCopy);
   (OtelColRef_type, OtelColRef_DeepCopyInto, OtelColRef_DeepCopy);
   (MdaiIngressSpec_type, MdaiIngressSpec_DeepCopyInto, MdaiIngressSpec_DeepCopy);
   (MdaiIngressStatus_type, MdaiIngressStatus_DeepCopyInto, MdaiIngressStatus_DeepCopy);
   (MdaiIngress_type, MdaiIngress_DeepCopyInto, MdaiIngress_DeepCopy);
   (MdaiIngressList_type, MdaiIngressList_DeepCopyInto, MdaiIngressList_DeepCopy);
   (ObserverLogsFilter_type, ObserverLogsFilter_DeepCopyInto, ObserverLogsFilter_DeepCopy);
   (ObserverFilter_type, ObserverFilter_DeepCopyInto, ObserverFilter_DeepCopy);
   (Observer_type, Observer_DeepCopyInto, Observer_DeepCopy);
   (ObserverResource_type, ObserverResource_DeepCopyInto, ObserverResource_DeepCopy);
   (MdaiObserverSpec_type, MdaiObserverSpec_DeepCopyInto, MdaiObserverSpec_DeepCopy);
   (MdaiObserverStatus_type, MdaiObserverStatus_DeepCopyInto, MdaiObserverStatus_DeepCopy);
   (MdaiObserver_type, MdaiObserver_DeepCopyInto, MdaiObserver_DeepCopy);
   (MdaiObserverList_type, MdaiObserverList_DeepCopyInto, MdaiObserverList_DeepCopy);
   (MdaiReplayStatus_type, MdaiReplayStatus_DeepCopyInto, MdaiReplayStatus_DeepCopy);
   (MdaiReplay_type, MdaiReplay_DeepCopyInto, MdaiReplay_DeepCopy);
   (MdaiReplayList_type, MdaiReplayList_DeepCopyInto, MdaiReplayList_DeepCopy);
   (OtelMdaiIngressComb_type, OtelMdaiIngressComb_DeepCopyInto, OtelMdaiIngressComb_DeepCopy)].

Definition api_objects : list (ty * (value -> mem (option value))) :=
  [(MdaiCollector_type, MdaiCollector_DeepCopyObject);
   (MdaiCollectorList_type, MdaiCollectorList_DeepCopyObject); (MdaiDal_type, MdaiDal_DeepCopyObject);
   (MdaiDalList_type, MdaiDalList_DeepCopyObject); (MdaiHub_type, MdaiHub_DeepCopyObject);
   (MdaiHubList_type, MdaiHubList_DeepCopyObject); (MdaiIngress_type, MdaiIngress_DeepCopyObject);
   (MdaiIngressList_type, MdaiIngressList_DeepCopyObject);
   (MdaiObserver_type, MdaiObserver_DeepCopyObject);
   (MdaiObserverList_type, MdaiObserverList_DeepCopyObject); (MdaiReplay_type, MdaiReplay_DeepCopyObject);
   (MdaiReplayList_type, MdaiReplayList_DeepCopyObject)].
End ApiDeepCopy.

(** ** Lemmas: each method by its statements *)

#[export] Hint Extern 2 (copies _ assign) => apply copies_assign; reflexivity : typeclass_instances.
#[export] Existing Instances copies_ptr copies_slice copies_map copies_deref copies_DeepCopy.

(** Instances are found by the names of the types, not by their fields. *)
#[export] Hint Opaque AWSConfig_type AWSConfig_DeepCopyInto ValueFromSource_type
  ValueFromSource_DeepCopyInto StringOrFrom_type StringOrFrom_DeepCopyInto CallWebhookAction_type
  CallWebhookAction_DeepCopyInto CleanUpReplayAction_type CleanUpReplayAction_DeepCopyInto
  MdaiReplayOtlpHttpDestinationConfiguration_type MdaiReplayOtlpHttpDestinationConfiguration_DeepCopyInto
  MdaiReplayDestinationConfiguration_type MdaiReplayDestinationConfiguration_DeepCopyInto
  MdaiReplayResourceConfiguration_type MdaiReplayResourceConfiguration_DeepCopyInto MdaiReplayAwsConfig_type
  MdaiReplayAwsConfig_DeepCopyInto MdaiReplayS3Configuration_type MdaiReplayS3Configuration_DeepCopyInto
  MdaiReplaySourceConfiguration_type MdaiReplaySourceConfiguration_DeepCopyInto MdaiReplaySpec_type
  MdaiReplaySpec_DeepCopyInto DeployReplayAction_type DeployReplayAction_DeepCopyInto MapAction_type
  MapAction_DeepCopyInto ScalarAction_type ScalarAction_DeepCopyInto SetAction_type SetAction_DeepCopyInto
  Action_type Action_DeepCopyInto AuditLogstreamConfig_type AuditLogstreamConfig_DeepCopyInto When_type
  When_DeepCopyInto AutomationRule_type AutomationRule_DeepCopyInto Config_type Config_DeepCopyInto
  IngressService_type IngressService_DeepCopyInto JoinTransformer_type JoinTransformer_DeepCopyInto
  LogstreamConfig_type LogstreamConfig_DeepCopyInto OtlpLogsConfig_type OtlpLogsConfig_DeepCopyInto
  S3LogsConfig_type S3LogsConfig_DeepCopyInto LogsConfig_type LogsConfig_DeepCopyInto MdaiCollectorSpec_type
  MdaiCollectorSpec_DeepCopyInto MdaiCollectorStatus_type MdaiCollectorStatus_DeepCopyInto
  MdaiCollector_type MdaiCollector_DeepCopyInto MdaiCollectorList_type MdaiCollectorList_DeepCopyInto
  MdaiDalAWSCredentials_type MdaiDalAWSCredentials_DeepCopyInto MdaiDalAWSConfig_type
  MdaiDalAWSConfig_DeepCopyInto MdaiDalImageSpec_type MdaiDalImageSpec_DeepCopyInto MdaiDalS3Config_type
  MdaiDalS3Config_DeepCopyInto MdaiDalSpec_type MdaiDalSpec_DeepCopyInto MdaiDalStatus_type
  MdaiDalStatus_DeepCopyInto MdaiDal_type MdaiDal_DeepCopyInto MdaiDalList_type MdaiDalList_DeepCopyInto
  PrometheusAlert_type PrometheusAlert_DeepCopyInto VariableTransformer_type
  VariableTransformer_DeepCopyInto Serializer_type Serializer_DeepCopyInto Variable_type
  Variable_DeepCopyInto MdaiHubSpec_type MdaiHubSpec_DeepCopyInto MdaiHubStatus_type
  MdaiHubStatus_DeepCopyInto MdaiHub_type MdaiHub_DeepCopyInto MdaiHubList_type MdaiHubList_DeepCopyInto
  OtelColRef_type OtelColRef_DeepCopyInto MdaiIngressSpec_type MdaiIngressSpec_DeepCopyInto
  MdaiIngressStatus_type MdaiIngressStatus_DeepCopyInto MdaiIngress_type MdaiIngress_DeepCopyInto
  MdaiIngressList_type MdaiIngressList_DeepCopyInto ObserverLogsFilter_type ObserverLogsFilter_DeepCopyInto
  ObserverFilter_type ObserverFilter_DeepCopyInto Observer_type Observer_DeepCopyInto ObserverResource_type
  ObserverResource_DeepCopyInto MdaiObserverSpec_type MdaiObserverSpec_DeepCopyInto MdaiObserverStatus_type
  MdaiObserverStatus_DeepCopyInto MdaiObserver_type MdaiObserver_DeepCopyInto MdaiObserverList_type
  MdaiObserverList_DeepCopyInto MdaiReplayStatus_type MdaiReplayStatus_DeepCopyInto MdaiReplay_type
  MdaiReplay_DeepCopyInto MdaiReplayList_type MdaiReplayList_DeepCopyInto OtelMdaiIngressComb_type
  OtelMdaiIngressComb_DeepCopyInto : typeclass_instances.

(** Finds the statement for each field. *)
Ltac solve_copies :=
  apply copies_into;
  [ repeat first [ apply covers_nil
                 | apply covers_step; [apply _ |]
                 | apply covers_flat; [reflexivity |] ]
  | by apply (bool_decide_eq_true_1 _) ].

Section Deep.
Context `{ExternalLaws} `{GoRange}.

#[export] Instance AWSConfig_copies : copies AWSConfig_type AWSConfig_DeepCopyInto.
Proof. solve_copies. Qed.
#[export] Instance ValueFromSource_copies : copies ValueFromSource_type ValueFromSource_DeepCopyInto.
Proof. solve_copies. Qed.
#[export] Instance StringOrFrom_copies : copies StringOrFrom_type StringOrFrom_DeepCopyInto.
Proof. solve_copies. Qed.
#[export] Instance CallWebhookAction_copies : copies CallWebhookAction_type CallWebhookAction_DeepCopyInto.
Proof. solve_copies. Qed.
#[export] Instance CleanUpReplayAction_copies : copies CleanUpReplayAction_type CleanUpReplayAction_DeepCopyInto.
Proof. solve_copies. Qed.
#[export] Instance MdaiReplayOtlpHttpDestinationConfiguration_copies : copies MdaiReplayOtlpHttpDestinationConfiguration_type MdaiReplayOtlpHttpDestinationConfiguration_DeepCopyInto.
Proof. solve_copies. Qed.
#[export] Instance MdaiReplayDestinationConfiguration_copies : copies MdaiReplayDestinationConfiguration_type MdaiReplayDestinationConfiguration_DeepCopyInto.
Proof. solve_copies. Qed.
#[export] Instance MdaiReplayResourceConfiguration_copies : copies MdaiReplayResourceConfiguration_type MdaiReplayResourceConfiguration_DeepCopyInto.
Proof. solve_copies. Qed.
#[export] Instance MdaiReplayAwsConfig_copies : copies MdaiReplayAwsConfig_type MdaiReplayAwsConfig_DeepCopyInto.
Proof. solve_copies. Qed.
#[export] Instance MdaiReplayS3Configuration_copies : copies MdaiReplayS3Configuration_type MdaiReplayS3Configuration_DeepCopyInto.
Proof. solve_copies. Qed.
#[export] Instance MdaiReplaySourceConfiguration_copies : copies MdaiReplaySourceConfiguration_type MdaiReplaySourceConfiguration_DeepCopyInto.
Proof. solve_copies. Qed.
#[export] Instance MdaiReplaySpec_copies : copies MdaiReplaySpec_type MdaiReplaySpec_DeepCopyInto.
Proof. solve_copies. Qed.
#[export] Instance DeployReplayAction_copies : copies DeployReplayAction_type DeployReplayAction_DeepCopyInto.
Proof. solve_copies. Qed.
#[export] Instance MapAction_copies : copies MapAction_type MapAction_DeepCopyInto.
Proof. solve_copies. Qed.
#[export] Instance ScalarAction_copies : copies ScalarAction_type ScalarAction_DeepCopyInto.
Proof. solve_copies. Qed.
#[export] Instance SetAction_copies : copies SetAction_type SetAction_DeepCopyInto.
Proof. solve_copies. Qed.
#[export] Instance Action_copies : copies Action_type Action_DeepCopyInto.
Proof. solve_copies. Qed.
#[export] Instance AuditLogstreamConfig_copies : copies AuditLogstreamConfig_type AuditLogstreamConfig_DeepCopyInto.
Proof. solve_copies. Qed.
#[export] Instance When_copies : copies When_type When_DeepCopyInto.
Proof. solve_copies. Qed.
#[export] Instance AutomationRule_copies : copies AutomationRule_type AutomationRule_DeepCopyInto.
Proof. solve_copies. Qed.
#[export] Instance Config_copies : copies Config_type Config_DeepCopyInto.
Proof. solve_copies. Qed.
#[export] Instance IngressService_copies : copies IngressService_type IngressService_DeepCopyInto.
Proof. solve_copies. Qed.
#[export] Instance JoinTransformer_copies : copies JoinTransformer_type JoinTransformer_DeepCopyInto.
Proof. solve_copies. Qed.
#[export] Instance LogstreamConfig_copies : copies LogstreamConfig_type LogstreamConfig_DeepCopyInto.
Proof. solve_copies. Qed.
#[export] Instance OtlpLogsConfig_copies : copies OtlpLogsConfig_type OtlpLogsConfig_DeepCopyInto.
Proof. solve_copies. Qed.
#[export] Instance S3LogsConfig_copies : copies S3LogsConfig_type S3LogsConfig_DeepCopyInto.
Proof. solve_copies. Qed.
#[export] Instance LogsConfig_copies : copies LogsConfig_type LogsConfig_DeepCopyInto.
Proof. solve_copies. Qed.
#[export] Instance MdaiCollectorSpec_copies : copies MdaiCollectorSpec_type MdaiCollectorSpec_DeepCopyInto.
Proof. solve_copies. Qed.
#[export] Instance MdaiCollectorStatus_copies : copies MdaiCollectorStatus_type MdaiCollectorStatus_DeepCopyInto.
Proof. solve_copies. Qed.
#[export] Instance MdaiCollector_copies : copies MdaiCollector_type MdaiCollector_DeepCopyInto.
Proof. solve_copies. Qed.
#[export] Instance MdaiCollectorList_copies : copies MdaiCollectorList_type MdaiCollectorList_DeepCopyInto.
Proof. solve_copies. Qed.
#[export] Instance MdaiDalAWSCredentials_copies : copies MdaiDalAWSCredentials_type MdaiDalAWSCredentials_DeepCopyInto.
Proof. solve_copies. Qed.
#[export] Instance MdaiDalAWSConfig_copies : copies MdaiDalAWSConfig_type MdaiDalAWSConfig_DeepCopyInto.
Proof. solve_copies. Qed.
#[export] Instance MdaiDalImageSpec_copies : copies MdaiDalImageSpec_type MdaiDalImageSpec_DeepCopyInto.
Proof. solve_copies. Qed.
#[export] Instance MdaiDalS3Config_copies : copies MdaiDalS3Config_type MdaiDalS3Config_DeepCopyInto.
Proof. solve_copies. Qed.
#[export] Instance MdaiDalSpec_copies : copies MdaiDalSpec_type MdaiDalSpec_DeepCopyInto.
Proof. solve_copies. Qed.
#[export] Instance MdaiDalStatus_copies : copies MdaiDalStatus_type MdaiDalStatus_DeepCopyInto.
Proof. solve_copies. Qed.
#[export] Instance MdaiDal_copies : copies MdaiDal_type MdaiDal_DeepCopyInto.
Proof. solve_copies. Qed.
#[export] Instance MdaiDalList_copies : copies MdaiDalList_type MdaiDalList_DeepCopyInto.
Proof. solve_copies. Qed.
#[export] Instance PrometheusAlert_copies : copies PrometheusAlert_type PrometheusAlert_DeepCopyInto.
Proof. solve_copies. Qed.
#[export] Instance VariableTransformer_copies : copies VariableTransformer_type VariableTransformer_DeepCopyInto.
Proof. solve_copies. Qed.
#[export] Instance Serializer_copies : copies Serializer_type Serializer_DeepCopyInto.
Proof. solve_copies. Qed.
#[export] Instance Variable_copies : copies Variable_type Variable_DeepCopyInto.
Proof. solve_copies. Qed.
#[export] Instance MdaiHubSpec_copies : copies MdaiHubSpec_type MdaiHubSpec_DeepCopyInto.
Proof. solve_copies. Qed.
#[export] Instance MdaiHubStatus_copies : copies MdaiHubStatus_type MdaiHubStatus_DeepCopyInto.
Proof. solve_copies. Qed.
#[export] Instance MdaiHub_copies : copies MdaiHub_type MdaiHub_DeepCopyInto.
Proof. solve_copies. Qed.
#[export] Instance MdaiHubList_copies : copies MdaiHubList_type MdaiHubList_DeepCopyInto.
Proof. solve_copies. Qed.
#[export] Instance OtelColRef_copies : copies OtelColRef_type OtelColRef_DeepCopyInto.
Proof. solve_copies. Qed.
#[export] Instance MdaiIngressSpec_copies : copies MdaiIngressSpec_type MdaiIngressSpec_DeepCopyInto.
Proof. solve_copies. Qed.
#[export] Instance MdaiIngressStatus_copies : copies MdaiIngressStatus_type MdaiIngressStatus_DeepCopyInto.
Proof. solve_copies. Qed.
#[export] Instance MdaiIngress_copies : copies MdaiIngress_type MdaiIngress_DeepCopyInto.
Proof. solve_copies. Qed.
#[export] Instance MdaiIngressList_copies : copies MdaiIngressList_type MdaiIngressList_DeepCopyInto.
Proof. solve_copies. Qed.
#[export] Instance ObserverLogsFilter_copies : copies ObserverLogsFilter_type ObserverLogsFilter_DeepCopyInto.
Proof. solve_copies. Qed.
#[export] Instance ObserverFilter_copies : copies ObserverFilter_type ObserverFilter_DeepCopyInto.
Proof. solve_copies. Qed.
#[export] Instance Observer_copies : copies Observer_type Observer_DeepCopyInto.
Proof. solve_copies. Qed.
#[export] Instance ObserverResource_copies : copies ObserverResource_type ObserverResource_DeepCopyInto.
Proof. solve_copies. Qed.
#[export] Instance MdaiObserverSpec_copies : copies MdaiObserverSpec_type MdaiObserverSpec_DeepCopyInto.
Proof. solve_copies. Qed.
#[export] Instance MdaiObserverStatus_copies : copies MdaiObserverStatus_type MdaiObserverStatus_DeepCopyInto.
Proof. solve_copies. Qed.
#[export] Instance MdaiObserver_copies : copies MdaiObserver_type MdaiObserver_DeepCopyInto.
Proof. solve_copies. Qed.
#[export] Instance MdaiObserverList_copies : copies MdaiObserverList_type MdaiObserverList_DeepCopyInto.
Proof. solve_copies. Qed.
#[export] Instance MdaiReplayStatus_copies : copies MdaiReplayStatus_type MdaiReplayStatus_DeepCopyInto.
Proof. solve_copies. Qed.
#[export] Instance MdaiReplay_copies : copies MdaiReplay_type MdaiReplay_DeepCopyInto.
Proof. solve_copies. Qed.
#[export] Instance MdaiReplayList_copies : copies MdaiReplayList_type MdaiReplayList_DeepCopyInto.
Proof. solve_copies. Qed.
#[export] Instance OtelMdaiIngressComb_copies : copies OtelMdaiIngressComb_type OtelMdaiIngressComb_DeepCopyInto.
Proof. solve_copies. Qed.

(** What the two methods of a type have to do. *)
Definition methods_copy (e : ty * copier * copier) : Prop :=
  let '(t, into_t, copy_t) := e in
  copies t into_t
  /\ forall h p x, shape h (TPtr t) p x ->
       exists h' p', copy_t p h = Done (h', p') /\ deep_copy_of h (TPtr t) p x h' p'.

Definition object_copies (e : ty * (value -> mem (option value))) : Prop :=
  let '(t, object_t) := e in
  forall h p x, shape h (TPtr t) p x ->
    exists h' r, object_t p h = Done (h', r)
      /\ match r with
         | None => p = VPtr None /\ h' = h
         | Some p' => p <> VPtr None /\ deep_copy_of h (TPtr t) p x h' p'
         end.

Lemma methods_of t into_t : copies t into_t -> methods_copy (t, into_t, DeepCopy into_t).
Proof. intros Hc. split; [done |]. intros h p x Hx. apply copies_deep_copy; [apply _ | done]. Qed.

Lemma object_of t into_t : copies t into_t -> object_copies (t, DeepCopyObject (DeepCopy into_t)).
Proof. intros Hc h p x Hx. apply DeepCopyObject_answer; [apply _ | done | done]. Qed.

(** ** Property *)

(** C21. Every generated copy is deep.  For each type of api/v1, [DeepCopy] of a
    pointer to a well-formed value returns, leaves the memory as it was, and yields
    a pointer to the same content; no later write through one of the two is seen
    through the other.  [DeepCopyObject] does the same for the resources and their
    lists, and answers a [nil] interface exactly for a [nil] pointer. *)
Theorem api_copies_are_deep : Forall methods_copy api_types /\ Forall object_copies api_objects.
Proof.
  split; repeat (apply Forall_cons_2; [first [apply methods_of | apply object_of]; apply _ |]); apply Forall_nil_2.
Qed.
End Deep.

(** ** Witness *)

#[local] Instance copy_range : GoRange :=
  {| range_map A := map_to_list; range_map_perm A m := reflexivity _ |}.

(** Of the other packages' types, [ObjectMeta] with its labels. *)
Definition meta_type : ty := TStruct [("Name", TFlat); ("Labels", TMap TFlat)].
Definition meta_copy : copier := into [("Labels", go_map_copy assign)].

#[local] Instance sample_external : External := {
  ext_type name := if bool_decide (name = "metav1.ObjectMeta") then meta_type else TFlat;
  ext_copy name := if bool_decide (name = "metav1.ObjectMeta") then meta_copy else assign
}.

#[local] Instance sample_external_laws : ExternalLaws.
Proof.
  intros name. unfold ext_type, ext_copy, sample_external. case_bool_decide; [| apply _].
  apply copies_into; [repeat first [apply covers_nil | apply covers_step; [apply _ |] | apply covers_flat; [reflexivity |]] |].
  by apply (bool_decide_eq_true_1 _).
Defined.

(** An ingress whose labels and annotations are maps of the cache. *)
Definition cached_ingress : heap :=
  {[1%positive := CVar (VStruct
      [("TypeMeta", VFlat ""); ("ObjectMeta", VStruct [("Name", VFlat "gateway"); ("Labels", VMap (Some 2%positive))]);
       ("Spec", VStruct [("OtelCollector", VStruct [("Name", VFlat "otel")]); ("CloudType", VFlat "aws");
                         ("Annotations", VMap (Some 3%positive)); ("IngressClassName", VPtr None);
                         ("GrpcService", VPtr None); ("NonGrpcService", VPtr None);
                         ("CollectorEndpoints", VMap None)]);
       ("Status", VStruct [])]);
    2%positive := CMap {["app" := VFlat "otel"]}; 3%positive := CMap {["scheme" := VFlat "internal"]}]}.

Definition ingress_content : tree :=
  XPtr (XStruct
    [("TypeMeta", XFlat ""); ("ObjectMeta", XStruct [("Name", XFlat "gateway"); ("Labels", XMap {["app" := XFlat "otel"]})]);
     ("Spec", XStruct [("OtelCollector", XStruct [("Name", XFlat "otel")]); ("CloudType", XFlat "aws");
                       ("Annotations", XMap {["scheme" := XFlat "internal"]}); ("IngressClassName", XNil);
                       ("GrpcService", XNil); ("NonGrpcService", XNil); ("CollectorEndpoints", XNil)]);
     ("Status", XStruct [])]).

Lemma singleton_shape h t k v x :
  shape h t v x ->
  forall k', option_Forall2 (shape h t) (({[k := v]} : gmap string value) !! k') (({[k := x]} : gmap string tree) !! k').
Proof.
  intros Hx k'. destruct (decide (k = k')) as [<-|Hk].
  - rewrite !lookup_singleton_eq. by constructor.
  - rewrite !lookup_singleton_ne by done. constructor.
Qed.

Lemma cached_ingress_shape : shape cached_ingress (TPtr MdaiIngress_type) (VPtr (Some 1%positive)) ingress_content.
Proof.
  eexists. split; [reflexivity |]. cbn -[lookup]. split_and!; try done.
  - rewrite bool_decide_eq_true_2 by done. split_and!; try done.
    eexists. split; [reflexivity |]. by apply (singleton_shape cached_ingress TFlat).
  - eexists. split; [reflexivity |]. by apply (singleton_shape cached_ingress TFlat).
Qed.

(** The copy keeps its labels when the cache's are overwritten. *)
Lemma api_copies_are_deep_witness :
  exists h' p', MdaiIngress_DeepCopy (VPtr (Some 1%positive)) cached_ingress = Done (h', p')
    /\ p' <> VPtr (Some 1%positive)
    /\ shape (<[2%positive := CMap ∅]> h') (TPtr MdaiIngress_type) p' ingress_content.
Proof.
  destruct (Forall_lookup_1 _ _ 50 _ (proj1 api_copies_are_deep) eq_refl) as [_ Hcopy].
  destruct (Hcopy cached_ingress (VPtr (Some 1%positive)) ingress_content cached_ingress_shape)
    as (h' & p' & E & _ & _ & _ & Hp).
  exists h', p'. split; [exact E |]. split.
  - intros ->. apply (f_equal (fun r => match r with Done (_, VPtr p) => p | _ => None end)) in E.
    vm_compute in E. discriminate E.
  - apply Hp. intros l Hl. apply lookup_insert_ne. intros <-. vm_compute in Hl. discriminate Hl.
Defined.
