(* ===== verification/InformerFactory.v ===== *)
(** * pkg/generated/informers: the shared informer factory

    factory.go and generic.go of externalversions, and the [Informer] methods of
    its api/v1.  A factory hands out one informer per type, starts each in a
    goroutine of its own, and waits for them when it shuts down.  Its methods may
    be called concurrently; what they do under the factory's lock is one step of a
    transition system, in which goroutines end whenever they like. *)

From S2P Require Import Prelude GoLib Components.
From stdpp Require Import relations.

(** [schema.GroupVersionResource]. *)
Record GroupVersionResource := { gvr_Group : string; gvr_Version : string; gvr_Resource : string }.

#[export] Instance gvr_eq_dec : EqDecision GroupVersionResource.
Proof. solve_decision. Defined.

(** [v1.SchemeGroupVersion.WithResource]. *)
Definition WithResource (resource : string) : GroupVersionResource :=
  {| gvr_Group := "hub.mydecisive.ai"; gvr_Version := "v1"; gvr_Resource := resource |}.

Section Factory.
(** The clientset, and client-go's informers. *)
Context {Client Informer Transform Tweak : Type}.
Context (SetTransform : Informer -> option Transform -> Informer).
(** [newFunc]: [defaultInformer] of each informer of api/v1, by its type. *)
Abbreviation NewInformerFunc := (Client -> Z -> Informer).

(** Types are told apart by their names ([reflect.TypeOf]). *)
Record sharedInformerFactory := {
  f_client : Client;
  f_namespace : string;
  f_tweakListOptions : option Tweak;
  f_defaultResync : Z;
  f_customResync : gmap string Z;
  f_transform : option Transform;
  f_informers : gmap string Informer;
  f_startedInformers : gmap string bool;
  f_wg : nat;
  f_shuttingDown : bool
}.

Definition SharedInformerOption : Type := sharedInformerFactory -> sharedInformerFactory.

(** The four options, each with the fields that it leaves alone. *)
Definition with_options (f : sharedInformerFactory) (namespace : string) (tweak : option Tweak)
    (custom : gmap string Z) (transform : option Transform) : sharedInformerFactory :=
  {| f_client := f_client f; f_namespace := namespace; f_tweakListOptions := tweak;
     f_defaultResync := f_defaultResync f; f_customResync := custom; f_transform := transform;
     f_informers := f_informers f; f_startedInformers := f_startedInformers f; f_wg := f_wg f;
     f_shuttingDown := f_shuttingDown f |}.

(** [resyncConfig] by the types of its keys, in the order of the visit. *)
Definition WithCustomResyncConfig (resyncConfig : list (string * Z)) : SharedInformerOption := fun f =>
  with_options f (f_namespace f) (f_tweakListOptions f)
    (foldl (fun custom '(k, v) => <[k := v]> custom) (f_customResync f) resyncConfig) (f_transform f).

Definition WithTweakListOptions (tweak : option Tweak) : SharedInformerOption := fun f =>
  with_options f (f_namespace f) tweak (f_customResync f) (f_transform f).

Definition WithNamespace (namespace : string) : SharedInformerOption := fun f =>
  with_options f namespace (f_tweakListOptions f) (f_customResync f) (f_transform f).

Definition WithTransform (transform : option Transform) : SharedInformerOption := fun f =>
  with_options f (f_namespace f) (f_tweakListOptions f) (f_customResync f) transform.

Definition NewSharedInformerFactoryWithOptions (client : Client) (defaultResync : Z)
    (options : list SharedInformerOption) : sharedInformerFactory :=
  foldl (fun factory (opt : SharedInformerOption) => opt factory)
    {| f_client := client; f_namespace := ""; f_tweakListOptions := None; f_defaultResync := defaultResync;
       f_customResync := ∅; f_transform := None; f_informers := ∅; f_startedInformers := ∅; f_wg := 0;
       f_shuttingDown := false |} options.

Definition NewSharedInformerFactory (client : Client) (defaultResync : Z) : sharedInformerFactory :=
  NewSharedInformerFactoryWithOptions client defaultResync [].

Definition NewFilteredSharedInformerFactory (client : Client) (defaultResync : Z) (namespace : string)
    (tweak : option Tweak) : sharedInformerFactory :=
  NewSharedInformerFactoryWithOptions client defaultResync [WithNamespace namespace; WithTweakListOptions tweak].

(** ** The methods, under the lock *)

Definition with_informers (f : sharedInformerFactory) (informers : gmap string Informer)
    (started : gmap string bool) (wg : nat) (shuttingDown : bool) : sharedInformerFactory :=
  {| f_client := f_client f; f_namespace := f_namespace f; f_tweakListOptions := f_tweakListOptions f;
     f_defaultResync := f_defaultResync f; f_customResync := f_customResync f; f_transform := f_transform f;
     f_informers := informers; f_startedInformers := started; f_wg := wg; f_shuttingDown := shuttingDown |}.

Definition InformerFor (f : sharedInformerFactory) (informerType : string) (newFunc : NewInformerFunc)
  : sharedInformerFactory * Informer :=
  match f_informers f !! informerType with
  | Some informer => (f, informer)
  | None =>
      let resyncPeriod := default (f_defaultResync f) (f_customResync f !! informerType) in
      let informer := SetTransform (newFunc (f_client f) resyncPeriod) (f_transform f) in
      (with_informers f (<[informerType := informer]> (f_informers f)) (f_startedInformers f) (f_wg f)
         (f_shuttingDown f), informer)
  end.

Definition started (f : sharedInformerFactory) (informerType : string) : bool :=
  default false (f_startedInformers f !! informerType).

(** [wg.Add(1)], the goroutine, and the mark. *)
Fixpoint start_informers (informers : list (string * Informer)) (f : sharedInformerFactory)
    (goroutines : list string) : sharedInformerFactory * list string :=
  match informers with
  | [] => (f, goroutines)
  | (informerType, _) :: informers =>
      if negb (started f informerType)
      then start_informers informers
             (with_informers f (f_informers f) (<[informerType := true]> (f_startedInformers f)) (S (f_wg f))
                (f_shuttingDown f)) (goroutines ++ [informerType])
      else start_informers informers f goroutines
  end.

(** The goroutines started, for the informers in the order that they are visited. *)
Definition Start (visited : list (string * Informer)) (f : sharedInformerFactory)
  : sharedInformerFactory * list string :=
  if f_shuttingDown f then (f, []) else start_informers visited f [].

(** The first half of [Shutdown]; the second is the wait. *)
Definition shut_down (f : sharedInformerFactory) : sharedInformerFactory :=
  with_informers f (f_informers f) (f_startedInformers f) (f_wg f) true.

(** [wg.Done] at the end of a goroutine. *)
Definition goroutine_done (f : sharedInformerFactory) : sharedInformerFactory :=
  with_informers f (f_informers f) (f_startedInformers f) (pred (f_wg f)) (f_shuttingDown f).

(** [synced]: client-go's [WaitForCacheSync] for one informer. *)
Definition WaitForCacheSync (synced : Informer -> bool) (f : sharedInformerFactory) : gmap string bool :=
  synced <$> filter (fun '(t, _) => started f t = true) (f_informers f).

(** [newFuncs]: the [defaultInformer] of each type. *)
Definition Informer_of (informerType : string) (newFuncs : string -> NewInformerFunc) (f : sharedInformerFactory)
  : sharedInformerFactory * Informer := InformerFor f informerType (newFuncs informerType).

(** The informer's resource beside the factory; [None] is the error "no informer
    found". *)
Definition ForResource (newFuncs : string -> NewInformerFunc) (f : sharedInformerFactory)
    (resource : GroupVersionResource) : sharedInformerFactory * option Informer :=
  let found informerType :=
    let '(f, informer) := Informer_of informerType newFuncs f in (f, Some informer) in
  if bool_decide (resource = WithResource "mdaicollectors") then found "MdaiCollector"
  else if bool_decide (resource = WithResource "mdaidals") then found "MdaiDal"
  else if bool_decide (resource = WithResource "mdaihubs") then found "MdaiHub"
  else if bool_decide (resource = WithResource "mdaiingresses") then found "MdaiIngress"
  else if bool_decide (resource = WithResource "mdaiobservers") then found "MdaiObserver"
  else if bool_decide (resource = WithResource "mdaireplays") then found "MdaiReplay"
  else (f, None).

(** ** Callers and goroutines *)

(** The factory, the goroutines that run, all that were ever started, and the
    calls of [Shutdown] that wait and that returned. *)
Record system := {
  sys_factory : sharedInformerFactory;
  sys_running : list string;
  sys_launched : list string;
  sys_waiting : nat;
  sys_returned : nat
}.

Definition initial (f : sharedInformerFactory) : system :=
  {| sys_factory := f; sys_running := []; sys_launched := []; sys_waiting := 0; sys_returned := 0 |}.

Inductive step : system -> system -> Prop :=
| step_InformerFor f running launched waiting returned informerType newFunc :
    step {| sys_factory := f; sys_running := running; sys_launched := launched; sys_waiting := waiting;
            sys_returned := returned |}
         {| sys_factory := (InformerFor f informerType newFunc).1; sys_running := running;
            sys_launched := launched; sys_waiting := waiting; sys_returned := returned |}
| step_Start f running launched waiting returned visited :
    visited ≡ₚ map_to_list (f_informers f) ->
    step {| sys_factory := f; sys_running := running; sys_launched := launched; sys_waiting := waiting;
            sys_returned := returned |}
         {| sys_factory := (Start visited f).1; sys_running := running ++ (Start visited f).2;
            sys_launched := launched ++ (Start visited f).2; sys_waiting := waiting; sys_returned := returned |}
| step_done f running running' informerType launched waiting returned :
    step {| sys_factory := f; sys_running := running ++ informerType :: running'; sys_launched := launched;
            sys_waiting := waiting; sys_returned := returned |}
         {| sys_factory := goroutine_done f; sys_running := running ++ running'; sys_launched := launched;
            sys_waiting := waiting; sys_returned := returned |}
| step_Shutdown f running launched waiting returned :
    step {| sys_factory := f; sys_running := running; sys_launched := launched; sys_waiting := waiting;
            sys_returned := returned |}
         {| sys_factory := shut_down f; sys_running := running; sys_launched := launched;
            sys_waiting := S waiting; sys_returned := returned |}
| step_Shutdown_returns f running launched waiting returned :
    f_wg f = 0 ->
    step {| sys_factory := f; sys_running := running; sys_launched := launched; sys_waiting := S waiting;
            sys_returned := returned |}
         {| sys_factory := f; sys_running := running; sys_launched := launched; sys_waiting := waiting;
            sys_returned := S returned |}.

(** ** Lemmas *)

Lemma started_insert f informers wg shuttingDown t t' :
  started (with_informers f informers (<[t := true]> (f_startedInformers f)) wg shuttingDown) t' = true
  <-> t = t' \/ started f t' = true.
Proof.
  unfold started. cbn [with_informers f_startedInformers]. destruct (decide (t = t')) as [<-|Hne].
  - rewrite lookup_insert_eq. by split; [left |].
  - rewrite lookup_insert_ne by done. split; [by right | by intros [?|?]].
Qed.

(** What [Start] adds: each visited informer that was not started, once. *)
Lemma start_informers_spec visited f gs f' gs' :
  start_informers visited f gs = (f', gs') -> NoDup (map fst visited) ->
  exists added, gs' = gs ++ added /\ NoDup added
    /\ f' = with_informers f (f_informers f) (f_startedInformers f') (f_wg f + length added) (f_shuttingDown f)
    /\ (forall t, t ∈ added <-> t ∈ map fst visited /\ started f t = false)
    /\ (forall t, started f' t = true <-> started f t = true \/ t ∈ added).
Proof.
  revert f gs. induction visited as [|[t i] visited IH]; intros f gs; cbn [start_informers map fst].
  - intros [= <- <-] _. exists []. rewrite app_nil_r, Nat.add_0_r. split_and!; [done | constructor | by destruct f | |].
    + intros t. by rewrite elem_of_nil; split; [| intros [? _]].
    + intros t. rewrite elem_of_nil. tauto.
  - destruct (started f t) eqn:Et; cbn [negb].
    + intros E [Ht Hnd]%NoDup_cons. destruct (IH _ _ E Hnd) as (added & -> & Ha & Hf & Hin & Hs).
      exists added. split_and!; [done | done | done | | done]. intros t'. rewrite Hin, elem_of_cons.
      split; [tauto |]. intros [[->|?] ?]; [congruence | done].
    + intros E [Ht Hnd]%NoDup_cons. destruct (IH _ _ E Hnd) as (added & -> & Ha & Hf & Hin & Hs).
      assert (Hts : forall t', t' ∈ added -> t' <> t).
      { intros t' [Hv _]%Hin ->. done. }
      exists (t :: added). rewrite <- app_assoc. split_and!; [done | | | |].
      * constructor; [by intros ?%Hts | done].
      * rewrite Hf. cbn [with_informers f_wg f_informers f_shuttingDown f_startedInformers length].
        unfold with_informers. cbn. f_equal; lia.
      * intros t'. rewrite !elem_of_cons, Hin, <- not_true_iff_false, started_insert, <- not_true_iff_false.
        split; [intros [->|[? ?]]; [by rewrite Et; split; [left |] | tauto] |].
        intros [[->|Hv] Hn]; [by left |]. destruct (decide (t' = t)) as [->|]; [by left | right]. split; [done |].
        by intros [?|?].
      * intros t'. rewrite Hs, started_insert, elem_of_cons. naive_solver.
Qed.

(** The invariant of the system. *)
Record consistent (s : system) : Prop := {
  c_wg : f_wg (sys_factory s) = length (sys_running s);
  c_once : NoDup (sys_launched s);
  c_running : sys_running s ⊆+ sys_launched s;
  c_started : forall t, started (sys_factory s) t = true <-> t ∈ sys_launched s;
  c_requested : forall t, t ∈ sys_launched s -> is_Some (f_informers (sys_factory s) !! t);
  c_shutting : 0 < sys_waiting s + sys_returned s -> f_shuttingDown (sys_factory s) = true;
  c_returned : 0 < sys_returned s -> sys_running s = []
}.

(** The options that the package offers. *)
Definition package_option (opt : SharedInformerOption) : Prop :=
  (exists resyncConfig, opt = WithCustomResyncConfig resyncConfig)
  \/ (exists tweak, opt = WithTweakListOptions tweak)
  \/ (exists namespace, opt = WithNamespace namespace)
  \/ (exists transform, opt = WithTransform transform).

Lemma package_option_fields opt f :
  package_option opt -> exists ns tweak custom transform, opt f = with_options f ns tweak custom transform.
Proof. intros [[x ->]|[[x ->]|[[x ->]|[x ->]]]]; by do 4 eexists. Qed.

Lemma initial_consistent client defaultResync options :
  Forall package_option options ->
  consistent (initial (NewSharedInformerFactoryWithOptions client defaultResync options)).
Proof.
  intros Ho. unfold NewSharedInformerFactoryWithOptions.
  match goal with |- context [foldl _ ?f0 _] => set (start := f0) end.
  assert (E : forall f, f_startedInformers f = ∅ -> f_wg f = 0 ->
            f_startedInformers (foldl (fun factory (opt : SharedInformerOption) => opt factory) f options) = ∅
            /\ f_wg (foldl (fun factory (opt : SharedInformerOption) => opt factory) f options) = 0).
  { induction Ho as [|opt options Hopt _ IH]; intros f H1 H2; [done |]. cbn [foldl].
    destruct (package_option_fields opt f Hopt) as (ns & tweak & custom & transform & ->). by apply IH. }
  destruct (E start eq_refl eq_refl) as [E1 E2]. constructor; cbn [initial sys_factory sys_running sys_launched sys_waiting sys_returned];
    [done | constructor | done | | by intros t ?%not_elem_of_nil | lia | done].
  intros t. unfold started. rewrite E1, lookup_empty. by split; [| intros ?%not_elem_of_nil].
Qed.

Lemma InformerFor_keeps f t newFunc :
  let f' := (InformerFor f t newFunc).1 in
  f_wg f' = f_wg f /\ f_startedInformers f' = f_startedInformers f /\ f_shuttingDown f' = f_shuttingDown f
  /\ (forall t', is_Some (f_informers f !! t') -> is_Some (f_informers f' !! t')).
Proof.
  unfold InformerFor. destruct (f_informers f !! t) eqn:E; [done |]. split_and!; [done.. |].
  intros t' Ht'. cbn [fst with_informers f_informers]. apply lookup_insert_is_Some'. by right.
Qed.

Lemma step_consistent s s' : step s s' -> consistent s -> consistent s'.
Proof.
  destruct 1 as [f running launched waiting returned t newFunc|f running launched waiting returned visited Hv
    |f running running' t launched waiting returned|f running launched waiting returned
    |f running launched waiting returned Hwg]; intros [Hw Ho Hr Hs Hq Hd Hz];
    cbn [sys_factory sys_running sys_launched sys_waiting sys_returned] in *.
  - destruct (InformerFor_keeps f t newFunc) as (E1 & E2 & E3 & E4).
    constructor; cbn [sys_factory sys_running sys_launched sys_waiting sys_returned]; try done.
    + by rewrite E1.
    + intros t'. unfold started. rewrite E2. apply Hs.
    + intros t' Ht'. by apply E4, Hq.
    + by rewrite E3.
  - unfold Start. destruct (f_shuttingDown f) eqn:Ed.
    { cbn [fst snd]. rewrite !app_nil_r. by constructor. }
    destruct (start_informers visited f []) as [f' gs] eqn:E.
    destruct (start_informers_spec _ _ _ _ _ E) as (added & -> & Ha & Hf & Hin & Hst).
    { rewrite Hv. apply NoDup_fst_map_to_list. }
    assert (H0 : waiting + returned = 0) by (destruct (waiting + returned); [done | exfalso; by discriminate Hd; lia]).
    cbn [fst snd app]. constructor; cbn [sys_factory sys_running sys_launched sys_waiting sys_returned].
    + rewrite Hf, length_app, <- Hw. done.
    + apply NoDup_app. split_and!; [done | | done]. intros t Ht%Hs [_ Hn]%Hin. congruence.
    + by apply submseteq_app.
    + intros t. by rewrite Hst, Hs, elem_of_app.
    + intros t [Ht|Ht]%elem_of_app; rewrite Hf; cbn [with_informers f_informers]; [by apply Hq |].
      apply Hin in Ht as [Ht _]. rewrite Hv in Ht. apply list_elem_of_fmap in Ht as ([t' i] & -> & Ht).
      apply elem_of_map_to_list in Ht. by eexists.
    + lia.
    + lia.
  - constructor; cbn [sys_factory sys_running sys_launched sys_waiting sys_returned goroutine_done with_informers f_wg f_informers f_shuttingDown]; try done.
    + rewrite Hw, !length_app. simpl. lia.
    + etrans; [| exact Hr]. apply submseteq_skips_l, submseteq_cons. done.
    + intros Hp. specialize (Hz Hp). by destruct running.
  - constructor; cbn [sys_factory sys_running sys_launched sys_waiting sys_returned shut_down with_informers f_wg f_informers f_shuttingDown]; done.
  - constructor; cbn [sys_factory sys_running sys_launched sys_waiting sys_returned]; try done.
    + intros _. apply Hd. lia.
    + intros _. apply length_zero_iff_nil. by rewrite <- Hw.
Qed.

Lemma steps_consistent s s' : rtc step s s' -> consistent s -> consistent s'.
Proof. induction 1; [done |]. intros Hs. by eauto using step_consistent. Qed.
(** Once the factory is shutting down nothing is started. *)
Lemma shutting_step s s' :
  step s s' -> f_shuttingDown (sys_factory s) = true ->
  f_shuttingDown (sys_factory s') = true /\ sys_launched s' = sys_launched s.
Proof.
  destruct 1 as [f running launched waiting returned t newFunc|f running launched waiting returned visited Hv| | |];
    cbn [sys_factory sys_launched]; intros Hd; try done.
  - destruct (InformerFor_keeps f t newFunc) as (_ & _ & E & _). by rewrite E.
  - unfold Start. rewrite Hd. by rewrite app_nil_r.
Qed.

Lemma shutting_steps s s' :
  rtc step s s' -> f_shuttingDown (sys_factory s) = true ->
  f_shuttingDown (sys_factory s') = true /\ sys_launched s' = sys_launched s.
Proof.
  induction 1 as [|s s1 s' Hs _ IH]; [done |]. intros Hd. destruct (shutting_step _ _ Hs Hd) as [Hd1 <-]. by apply IH.
Qed.

(** Goroutines that all end let [Shutdown] return. *)
Lemma drains s n :
  consistent s -> sys_waiting s = S n ->
  exists s', rtc step s s' /\ sys_running s' = [] /\ sys_launched s' = sys_launched s
    /\ sys_waiting s' = n /\ sys_returned s' = S (sys_returned s).
Proof.
  destruct s as [f running launched waiting returned]. cbn. revert f.
  induction running as [|t running IH]; intros f Hc ->.
  - exists {| sys_factory := f; sys_running := []; sys_launched := launched; sys_waiting := n;
              sys_returned := S returned |}.
    split; [apply rtc_once, step_Shutdown_returns; by apply (c_wg _ Hc) | done].
  - pose proof (step_done f [] running t launched (S n) returned) as Hstep.
    destruct (IH (goroutine_done f)) as (s' & Hs' & Hrest); [by eapply step_consistent | done |].
    exists s'. split; [by eapply rtc_l | done].
Qed.

Lemma InformerFor_again f t new1 new2 :
  InformerFor (InformerFor f t new1).1 t new2 = InformerFor f t new1.
Proof.
  unfold InformerFor at 2 3. destruct (f_informers f !! t) as [i|] eqn:E; unfold InformerFor; cbn [fst].
  - by rewrite E.
  - cbn [with_informers f_informers]. by rewrite lookup_insert_eq.
Qed.

(** ** Property *)

(** C29. In every interleaving of [InformerFor], [Start], [Shutdown] and the ends of
    goroutines, a type has one informer, which is started at most once, and the
    wait group counts the goroutines that run.  [Start] starts every informer that
    was requested, unless the factory is shutting down.  When a [Shutdown] has
    returned, nothing runs and nothing is ever started again; one that waits
    returns once the goroutines have ended. *)
Theorem factory_shuts_down client defaultResync options s :
  Forall package_option options ->
  rtc step (initial (NewSharedInformerFactoryWithOptions client defaultResync options)) s ->
  let f := sys_factory s in
  (forall t new1 new2, InformerFor (InformerFor f t new1).1 t new2 = InformerFor f t new1)
  /\ NoDup (sys_launched s) /\ sys_running s ⊆+ sys_launched s /\ f_wg f = length (sys_running s)
  /\ (forall visited t, visited ≡ₚ map_to_list (f_informers f) -> f_shuttingDown f = false ->
        is_Some (f_informers f !! t) -> t ∈ sys_launched s ++ (Start visited f).2)
  /\ (0 < sys_returned s -> forall s', rtc step s s' -> sys_running s' = [] /\ sys_launched s' = sys_launched s)
  /\ (0 < sys_waiting s -> exists s', rtc step s s' /\ sys_running s' = [] /\ sys_launched s' = sys_launched s
        /\ sys_returned s' = S (sys_returned s)).
Proof.
  intros Ho Hr f. pose proof (steps_consistent _ _ Hr (initial_consistent client defaultResync options Ho)) as Hc.
  split_and!; [intros; apply InformerFor_again | apply Hc | apply Hc | apply Hc | | |].
  - intros visited t Hv Hd [i Hi]. unfold Start. rewrite Hd.
    destruct (start_informers visited f []) as [f' gs] eqn:E.
    destruct (start_informers_spec _ _ _ _ _ E) as (added & -> & _ & _ & Hin & _).
    { rewrite Hv. apply NoDup_fst_map_to_list. }
    rewrite elem_of_app, <- (c_started _ Hc), Hin. fold f. destruct (started f t); [by left | right].
    split; [| done]. rewrite Hv. apply list_elem_of_fmap. exists (t, i). split; [done |]. by apply elem_of_map_to_list.
  - intros Hret s' Hs'. pose proof (steps_consistent _ _ Hs' Hc) as Hc'.
    destruct (shutting_steps _ _ Hs' (c_shutting _ Hc ltac:(lia))) as [_ E]. split; [| done].
    clear - Hs' Hret Hc'. apply (c_returned _ Hc'). induction Hs' as [|s s1 s' Hs _ IH]; [done |].
    apply IH; [| done]. destruct Hs; cbn [sys_returned] in *; lia.
  - intros Hw. destruct (sys_waiting s) as [|n] eqn:En; [lia |].
    destruct (drains s n Hc En) as (s' & Hs' & H1 & H2 & _ & H3). by exists s'.
Qed.
End Factory.

(** ** Witness *)

(** Informers are their resync periods, and no transform changes one. *)
Definition sample_factory : sharedInformerFactory (Client:=unit) (Informer:=Z) (Transform:=unit) (Tweak:=unit) :=
  NewSharedInformerFactoryWithOptions tt 600 [WithNamespace "mdai"; WithCustomResyncConfig [("MdaiHub", 30%Z)]].

Definition requested := (InformerFor (fun i _ => i) sample_factory "MdaiHub" (fun _ resync => resync)).1.

(** The hub's informer is requested and started, and the factory told to shut
    down. *)
Definition stopping : system :=
  {| sys_factory := shut_down (Start [("MdaiHub", 30%Z)] requested).1; sys_running := ["MdaiHub"];
     sys_launched := ["MdaiHub"]; sys_waiting := 1; sys_returned := 0 |}.

Lemma stopping_reached : rtc (step (fun i _ => i)) (initial sample_factory) stopping.
Proof.
  eapply rtc_l; [apply (step_InformerFor _ _ _ _ _ _ "MdaiHub" (fun _ resync => resync)) |].
  eapply rtc_l; [apply (step_Start _ _ _ _ _ _ [("MdaiHub", 30%Z)]); reflexivity |].
  eapply rtc_l; [apply step_Shutdown | reflexivity].
Qed.

Lemma factory_shuts_down_witness :
  exists s', rtc (step (fun i _ => i)) stopping s' /\ sys_running s' = [] /\ sys_returned s' = 1.
Proof.
  assert (Ho : Forall package_option [WithNamespace (Client:=unit) (Informer:=Z) (Transform:=unit) (Tweak:=unit) "mdai"; WithCustomResyncConfig [("MdaiHub", 30%Z)]]).
  { apply Forall_cons_2; [right; right; left; by eexists |].
    apply Forall_cons_2; [left; by eexists | apply Forall_nil_2]. }
  destruct (factory_shuts_down (fun i _ => i) tt 600%Z _ stopping Ho stopping_reached)
    as (_ & _ & _ & _ & _ & _ & Hw).
  destruct (Hw ltac:(simpl; lia)) as (s' & Hs' & Hrun & _ & Hret). exists s'. split_and!; [exact Hs' | exact Hrun | exact Hret].
Defined.
