(* ===== verification/Triggers.v ===== *)
(** * What makes the ingress controller reconcile

    The event filters and the watch mapping of mdaiingress_controller.go against
    a server that stores collectors and ingresses: whichever of an ingress and
    its collector comes second, the ingress is reconciled. *)

From S2P Require Import Prelude GoLib ApiTypes Errors Effects K8sObjects Manifests IngressManifest IngressController.

Section Triggers.
Context {Cfg : Type}.

(** ** The server *)

Definition collector_at (ns name : string) (c : OtelCollector Cfg) : Prop :=
  om_Namespace (oc_ObjectMeta c) = ns /\ om_Name (oc_ObjectMeta c) = name.

Definition ingress_for (ns name : string) (i : MdaiIngress) : Prop :=
  om_Namespace (mi_ObjectMeta i) = ns /\ name ∈ IndexerOtelCol i.

#[export] Instance ingress_for_dec ns name i : Decision (ingress_for ns name i).
Proof. unfold ingress_for. apply _. Defined.

(** What is stored, and read: a collector by its name, the ingresses by the
    index of the collector they name. *)
Definition stores (cs : list (OtelCollector Cfg)) (ings : list MdaiIngress) : assumption (IngE Cfg) := fun X e =>
  match e in IngE _ X return X -> Prop with
  | IGetOtelcol ns name => fun answer =>
      match answer with
      | inr c => c ∈ cs /\ collector_at ns name c
      | inl _ => forall c, c ∈ cs -> ~ collector_at ns name c
      end
  | IListIngresses ns name => fun answer =>
      exists items, answer = inr items /\ items ≡ₚ filter (ingress_for ns name) ings
  | _ => fun _ => True
  end.

(** ** Lemmas *)

(** The collector that an ingress names, in its namespace. *)
Definition collector_of (i : MdaiIngress) : OtelCollector Cfg -> Prop :=
  collector_at (om_Namespace (mi_ObjectMeta i)) (ocr_Name (ing_OtelCollector (mi_Spec i))).

Lemma collector_exists_runs cs ings i tr out :
  runs (collector_exists (Cfg:=Cfg) i) tr out -> Forall (allowed (stores cs ings)) tr ->
  exists b : bool, out = Done b /\ (b = true <-> Exists (collector_of i) cs).
Proof.
  intros ([err|c] & tr' & -> & [-> ->]) [Ha _]%Forall_cons; cbn in Ha.
  - exists false. split; [done |]. split; [done |]. intros (c & Hc & Hi)%Exists_exists. by destruct (Ha c Hc).
  - exists true. split; [done |]. split; [| done]. intros _. apply Exists_exists. by exists c.
Qed.

Lemma requeue_runs cs ings c tr out :
  runs (requeueByCollectorRef (Some c)) tr out -> Forall (allowed (stores cs ings)) tr ->
  let for_c := ingress_for (om_Namespace (oc_ObjectMeta c)) (om_Name (oc_ObjectMeta c)) in
  (Forall (fun i => ~ for_c i) ings /\ out = Done [])
  \/ exists i, i ∈ ings /\ for_c i /\ out = Done [(om_Namespace (oc_ObjectMeta c), om_Name (mi_ObjectMeta i))].
Proof.
  intros (answer & tr' & -> & Hr) [(items & -> & Hp) _]%Forall_cons for_c. destruct items as [|i items].
  - destruct Hr as [-> ->]. left. split; [| done]. symmetry in Hp. apply Permutation_nil_r in Hp.
    apply Forall_forall. intros i Hi Hf. assert (Hx : i ∈ filter for_c ings) by by apply list_elem_of_filter.
    fold for_c in Hp. rewrite Hp in Hx. by inversion Hx.
  - destruct Hr as [-> ->]. right. exists i.
    assert (Hx : i ∈ filter for_c ings) by (fold for_c in Hp; rewrite <- Hp; by left).
    apply list_elem_of_filter in Hx as [Hf Hi]. by split_and!.
Qed.

Lemma ingress_for_collector i c :
  ocr_Name (ing_OtelCollector (mi_Spec i)) <> "" -> collector_of i c ->
  ingress_for (om_Namespace (oc_ObjectMeta c)) (om_Name (oc_ObjectMeta c)) i.
Proof.
  intros Hn [Hns Hname]. split; [done |]. unfold IndexerOtelCol.
  rewrite bool_decide_eq_false_2 by done. rewrite Hname. by left.
Qed.

Lemma ingress_for_inv i c :
  ingress_for (om_Namespace (oc_ObjectMeta c)) (om_Name (oc_ObjectMeta c)) i -> collector_of i c.
Proof.
  intros [Hns Hi]. unfold IndexerOtelCol in Hi. case_bool_decide; [by inversion Hi |].
  by apply list_elem_of_singleton in Hi.
Qed.

(** ** Properties *)


(** What an update of an ingress does: nothing without a change of its
    specification; with one it is reconciled exactly when the collector of the
    new or of the old specification is stored.  An ingress that is pointed at a
    collector that does not exist, away from one that no longer does, waits for
    the collector. *)
Theorem ingress_update_triggers cs ings old new tr out :
  runs (mdaiIngressPredicates (Cfg:=Cfg) (WUpdate (Some old) (Some new))) tr out ->
  Forall (allowed (stores cs ings)) tr ->
  exists b : bool, out = Done b
    /\ (b = true <-> mi_Spec old <> mi_Spec new /\ (Exists (collector_of new) cs \/ Exists (collector_of old) cs)).
Proof.
  cbn [mdaiIngressPredicates]. case_bool_decide as Hs.
  { intros [_ ->] _. exists false. split; [done |]. by split; [| intros []]. }
  rewrite runs_bind. intros [(b & tr1 & tr2 & -> & H1 & H2)|(why & -> & H1)] Ha.
  2: { destruct (collector_exists_runs _ _ _ _ _ H1 Ha) as (b & [=] & _). }
  apply Forall_app in Ha as [Ha1 Ha2]. destruct (collector_exists_runs _ _ _ _ _ H1 Ha1) as (b' & [= <-] & Hb).
  destruct b; [destruct H2 as [-> ->]; exists true; by naive_solver |].
  destruct (collector_exists_runs _ _ _ _ _ H2 Ha2) as (b & -> & Hb'). exists b. split; [done |]. naive_solver.
Qed.
End Triggers.

(** ** Witness *)

Import IngressManifest.Sample.

