(* ===== verification/Setup.v ===== *)
(** * The set-up of controllers and webhooks with the manager

    The [SetupWithManager] methods of internal/controller, the connection to
    Valkey, the field indexes, and the [Setup...WebhookWithManager] functions of
    internal/webhook/v1.  Each declares what it watches and registers itself; a
    registration is data here, the manager's answer is the environment's. *)

From S2P Require Import Prelude GoLib ApiTypes Errors Effects HubCalls HubAdapter HubController IngressController Cache.

(** ** Registrations *)

Inductive Kind :=
| MdaiHubKind | MdaiCollectorKind | MdaiObserverKind | MdaiIngressKind | MdaiReplayKind | MdaiDalKind
| ConfigMapKind | ServiceKind | DeploymentKind | IngressKind | OpenTelemetryCollectorKind.

#[export] Instance Kind_eq_dec : EqDecision Kind.
Proof. solve_decision. Defined.

(** The event filters of a watch: [mdaiResourcesPredicate], the label selector
    with [createPredicate], [mdaiIngressPredicates], [otelcolPredicates]. *)
Inductive Filter := NoFilter | HubResources | NewLabelledCollectors | IngressEvents | CollectorEvents.

(** The functions of [EnqueueRequestsFromMapFunc]. *)
Inductive Mapping := RequeueByLabels | RequeueByCollectorRef.

Inductive Source :=
| Owns (k : Kind) (f : Filter)
| Watches (k : Kind) (m : Mapping) (f : Filter)
| ValkeyEvents.

(** What [ctrl.NewControllerManagedBy] is given. *)
Record ControllerSetup := {
  cs_For : Kind;
  cs_Filter : Filter;
  cs_Sources : list Source;
  cs_MaxConcurrentReconciles : option nat;
  cs_Named : option string
}.

(** What [ctrl.NewWebhookManagedBy] is given. *)
Record WebhookSetup := { ws_For : Kind; ws_Validator : bool; ws_Defaulter : bool }.

Inductive CertWatcher := MetricsCertWatcher | WebhookCertWatcher.

#[export] Instance CertWatcher_eq_dec : EqDecision CertWatcher.
Proof. solve_decision. Defined.

(** ** Options of the servers (cmd/main.go) *)

(** The functions of [TLSOpts]. *)
Inductive TLSOpt := disableHTTP2 | GetCertificateFrom (w : CertWatcher).

Record MetricsOptions := {
  mo_BindAddress : string;
  mo_SecureServing : bool;
  mo_TLSOpts : list TLSOpt;
  mo_FilterProvider : bool
}.

Record ManagerOptions := {
  mgr_Metrics : MetricsOptions;
  mgr_WebhookTLSOpts : list TLSOpt;
  mgr_HealthProbeBindAddress : string;
  mgr_Cache : cached_type -> option (gmap string string);
  mgr_LeaderElection : bool;
  mgr_LeaderElectionID : string
}.

Record Flags := {
  metricsAddr : string;
  metricsCertPath : string; metricsCertName : string; metricsCertKey : string;
  webhookCertPath : string; webhookCertName : string; webhookCertKey : string;
  enableLeaderElection : bool;
  probeAddr : string;
  secureMetrics : bool;
  enableHTTP2 : bool
}.

(** [flag.Parse] on [flag.CommandLine] ends the process itself when the command
    line is wrong, or asks for help. *)
Inductive Parsed := ParsedFlags (f : Flags) | ParseExits (code : Z).

(** A clean-up registered with the OpenTelemetry set-up. *)
Inductive ShutdownFunc := LoggerProviderShutdown.

(** ** Calls

    Those of the start-up; an [option error] is the error returned. *)
Inductive MainE : Type -> Type :=
| MNewResource : MainE (option error)
| MMergeResource : MainE (option error)
| MNewExporter : MainE (option error)
| MShutdown (fn : ShutdownFunc) : MainE (option error)
| MParseFlags (defaults : Flags) : MainE Parsed
| MNewCertWatcher (w : CertWatcher) (cert key : list string) : MainE (option error)
| MGetConfig : MainE (option error)
| MNewManager (o : ManagerOptions) : MainE (option error)
| MConnectValkey (endpoint password : string) : MainE (option error)
| MLabelSelector (key : string) : MainE (option error)
| MIndexField (k : Kind) (field : string) : MainE (option error)
| MController (c : ControllerSetup) : MainE (option error)
| MWebhook (w : WebhookSetup) : MainE (option error)
| MSubscribe (pattern : string) : MainE unit
| MAdd (w : CertWatcher) : MainE (option error)
| MCheck (name : string) : MainE (option error)
| MStart : MainE (option error).

(** ** Valkey (mdaihub_controller.go) *)

(** [time.Duration] counts nanoseconds in 64 bits. *)
Definition to_int64 (z : Z) : Z := ((z + 2 ^ 63) mod 2 ^ 64 - 2 ^ 63)%Z.

Definition Millisecond : Z := 1000000.
Definition Hour : Z := (3600 * 1000 * Millisecond)%Z.
Definition DefaultValkeyAuditStreamExpiry : Z := (30 * 24 * Hour)%Z.

(** [strconv.Atoi]: an optional sign and decimal digits, in 64 bits. *)
Definition Atoi (s : string) : error + Z :=
  let '(negative, digits) := match bytes s with
                             | "-"%char :: l => (true, l)
                             | "+"%char :: l => (false, l)
                             | l => (false, l)
                             end in
  let z := if (negative : bool) then (- digits_val digits)%Z else digits_val digits in
  if (length digits =? 0) || negb (forallb is_digit digits)
  then inl (Err ("strconv.Atoi: parsing " +:+ quote s +:+ ": invalid syntax"))
  else if (- 2 ^ 63 <=? z)%Z && (z <? 2 ^ 63)%Z then inr z
  else inl (Err ("strconv.Atoi: parsing " +:+ quote s +:+ ": value out of range")).

Section Setup.
Context (Getenv : string -> string).

(** The fields of the reconciler that the set-up writes. *)
Record MdaiHubReconciler := { hr_ValKeyClient : bool; hr_ValkeyExpiry : Z }.

(** [backoff.Retry] with the connection as its operation is one call, whose
    success sets the client. *)
Definition initializeValkey (r : MdaiHubReconciler) : prog MainE (MdaiHubReconciler * option error) :=
  let valkeyEndpoint := Getenv "VALKEY_ENDPOINT" in
  let valkeyPassword := Getenv "VALKEY_PASSWORD" in
  if bool_decide (valkeyEndpoint = "") || bool_decide (valkeyPassword = "")
  then Ret (r, Some (Err "VALKEY_ENDPOINT and VALKEY_PASSWORD environment variables must be set to enable ValKey client"))
  else
    let* err := call (MConnectValkey valkeyEndpoint valkeyPassword) in
    match err with
    | Some err => Ret (r, Some (ErrWrap "failed to initialize ValKey client after retries: " err))
    | None => Ret ({| hr_ValKeyClient := true; hr_ValkeyExpiry := hr_ValkeyExpiry r |}, None)
    end.

(** The expiry of the audit stream: the default, or the environment's. *)
Definition valkeyExpiry : error + Z :=
  let expiryMsStr := Getenv "VALKEY_AUDIT_STREAM_EXPIRY_MS" in
  if negb (bool_decide (expiryMsStr = "")) then
    match Atoi expiryMsStr with
    | inl err => inl err
    | inr expiryMs => inr (to_int64 (expiryMs * Millisecond))
    end
  else inr DefaultValkeyAuditStreamExpiry.

Definition hub_setup : ControllerSetup :=
  {| cs_For := MdaiHubKind; cs_Filter := NoFilter;
     cs_Sources := [Owns ConfigMapKind HubResources; Owns ServiceKind HubResources;
                    Owns DeploymentKind HubResources;
                    Watches OpenTelemetryCollectorKind RequeueByLabels NewLabelledCollectors; ValkeyEvents];
     cs_MaxConcurrentReconciles := Some 1; cs_Named := Some "mdaihub" |}.

(** The pattern that [startValkeySubscription] subscribes to. *)
Definition subscription_pattern : string := keyspace_prefix +:+ VariableKeyPrefix +:+ "*".

Definition hub_SetupWithManager (r : MdaiHubReconciler) : prog MainE (MdaiHubReconciler * option error) :=
  let* (r, err) := initializeValkey r in
  match err with
  | Some err => Ret (r, Some err)
  | None =>
  let r := {| hr_ValKeyClient := hr_ValKeyClient r; hr_ValkeyExpiry := DefaultValkeyAuditStreamExpiry |} in
  match valkeyExpiry with
  | inl err => Ret (r, Some err)
  | inr expiry =>
  let r := {| hr_ValKeyClient := hr_ValKeyClient r; hr_ValkeyExpiry := expiry |} in
  let* err := call (MLabelSelector LabelMdaiHubName) in
  match err with
  | Some err => Ret (r, Some err)
  | None =>
  let* err := call (MController hub_setup) in
  match err with
  | Some err => Ret (r, Some err)
  | None =>
      if hr_ValKeyClient r
      then let* _ := call (MSubscribe subscription_pattern) in Ret (r, None)
      else Ret (r, None)
  end end end end.

(** ** The other controllers *)

(** A controller of one resource, without owned objects. *)
Definition plain_setup (k : Kind) (name : string) (sources : list Source) : ControllerSetup :=
  {| cs_For := k; cs_Filter := NoFilter; cs_Sources := sources;
     cs_MaxConcurrentReconciles := None; cs_Named := Some name |}.

Definition collector_setup : ControllerSetup := plain_setup MdaiCollectorKind "mdaicollector" [].
Definition observer_setup : ControllerSetup := plain_setup MdaiObserverKind "mdaiobserver" [].
Definition replay_setup : ControllerSetup := plain_setup MdaiReplayKind "mdaireplay" [].
Definition dal_setup : ControllerSetup :=
  plain_setup MdaiDalKind "mdaidal"
    [Owns DeploymentKind NoFilter; Owns ConfigMapKind NoFilter; Owns ServiceKind NoFilter].

Definition ingress_setup : ControllerSetup :=
  {| cs_For := MdaiIngressKind; cs_Filter := IngressEvents;
     cs_Sources := [Watches OpenTelemetryCollectorKind RequeueByCollectorRef CollectorEvents];
     cs_MaxConcurrentReconciles := None; cs_Named := None |}.

Definition collector_SetupWithManager : prog MainE (option error) := call (MController collector_setup).
Definition observer_SetupWithManager : prog MainE (option error) := call (MController observer_setup).
Definition replay_SetupWithManager : prog MainE (option error) := call (MController replay_setup).
Definition dal_SetupWithManager : prog MainE (option error) := call (MController dal_setup).

(** The indexes are [IngressController.service_owner_index] and
    [IngressController.ingress_owner_index]. *)
Definition ingress_SetupWithManager : prog MainE (option error) :=
  let* err := call (MIndexField ServiceKind resourceOwnerKey) in
  match err with
  | Some err => Ret (Some err)
  | None =>
  let* err := call (MIndexField IngressKind resourceOwnerKey) in
  match err with
  | Some err => Ret (Some err)
  | None => call (MController ingress_setup)
  end end.

(** The index is [IngressController.IndexerOtelCol]. *)
Definition SetMdaiIngressIndexers : prog MainE (option error) :=
  call (MIndexField MdaiIngressKind MdaiIngressOtelColLookupKey).

(** ** Webhooks *)

Definition hub_webhook : WebhookSetup := {| ws_For := MdaiHubKind; ws_Validator := true; ws_Defaulter := true |}.
Definition collector_webhook : WebhookSetup := {| ws_For := MdaiCollectorKind; ws_Validator := true; ws_Defaulter := false |}.
Definition observer_webhook : WebhookSetup := {| ws_For := MdaiObserverKind; ws_Validator := true; ws_Defaulter := false |}.
Definition ingress_webhook : WebhookSetup := {| ws_For := MdaiIngressKind; ws_Validator := true; ws_Defaulter := true |}.
Definition replay_webhook : WebhookSetup := {| ws_For := MdaiReplayKind; ws_Validator := true; ws_Defaulter := false |}.

Definition SetupMdaiHubWebhookWithManager : prog MainE (option error) := call (MWebhook hub_webhook).
Definition SetupMdaiCollectorWebhookWithManager : prog MainE (option error) := call (MWebhook collector_webhook).
Definition SetupMdaiObserverWebhookWithManager : prog MainE (option error) := call (MWebhook observer_webhook).
Definition SetupMdaiIngressWebhookWithManager : prog MainE (option error) := call (MWebhook ingress_webhook).
Definition SetupMdaiReplayWebhookWithManager : prog MainE (option error) := call (MWebhook replay_webhook).
End Setup.

(** ** The expiry of the audit stream *)

Lemma to_int64_range z : (- 2 ^ 63 <= to_int64 z < 2 ^ 63)%Z.
Proof. unfold to_int64. pose proof (Z.mod_pos_bound (z + 2 ^ 63) (2 ^ 64)). lia. Qed.

Lemma to_int64_id z : (- 2 ^ 63 <= z < 2 ^ 63)%Z -> to_int64 z = z.
Proof. intros H. unfold to_int64. rewrite Z.mod_small; lia. Qed.

(** Milliseconds up to 292 years are kept; more wrap around, to a negative
    duration for instance. *)
Lemma valkeyExpiry_exact Getenv ms :
  Getenv "VALKEY_AUDIT_STREAM_EXPIRY_MS" <> "" -> Atoi (Getenv "VALKEY_AUDIT_STREAM_EXPIRY_MS") = inr ms ->
  (Z.abs ms <= 9223372036854)%Z -> valkeyExpiry Getenv = inr (ms * Millisecond)%Z.
Proof.
  intros Hs Ha Hm. unfold valkeyExpiry. rewrite bool_decide_eq_false_2 by done. simpl. rewrite Ha.
  rewrite to_int64_id; [done |]. unfold Millisecond. lia.
Qed.

Example expiry_wraps : valkeyExpiry (fun _ => "9223372036855") = inr (-9223372036854551616)%Z.
Proof. reflexivity. Qed.
