(* ===== verification/Startup.v ===== *)
(** * cmd: the start of the process

    main.go and otel.go: the OpenTelemetry set-up with its shutdown closure, the
    options of the servers, the set-up of controllers and webhooks, the start of
    the manager.  [os.Exit] ends the process at once: a step of the process
    gives its exit code or a value to continue with. *)

From S2P Require Import Prelude GoLib ApiTypes Errors Effects Cache Setup.

(** ** The process *)

(** An exit code, or the value of the step. *)
Abbreviation process A := (prog MainE (Z + A)).

Definition os_Exit {A} (code : Z) : process A := Ret (inl code).

Definition process_bind {A B} (p : process A) (f : A -> process B) : process B :=
  let* r := p in match r with inl code => Ret (inl code) | inr a => f a end.

Notation "'then*' x ':=' m 'in' k" := (process_bind m (fun x => k))
  (at level 10, x pattern, m at level 100, k at level 200) : prog_scope.

(** ** otel.go *)

(** [errors.Join] of two errors. *)
Definition Join (a b : option error) : option error :=
  match omap id [a; b] with [] => None | errs => Some (ErrJoin errs) end.

(** The loop of [shutdown]. *)
Fixpoint shutdown_each (fns : list ShutdownFunc) (err : option error) : prog MainE (option error) :=
  match fns with
  | [] => Ret err
  | fn :: fns => let* err' := call (MShutdown fn) in shutdown_each fns (Join err err')
  end.

(** The closure [shutdown] over [shutdownFuncs]: the functions left, and the
    joined errors. *)
Definition shutdown (shutdownFuncs : list ShutdownFunc) : prog MainE (list ShutdownFunc * option error) :=
  let* err := shutdown_each shutdownFuncs None in Ret ([], err).

Section Startup.
Context (Getenv : string -> string).

Definition otelSdkEnabled : bool := negb (bool_decide (Getenv "OTEL_SDK_DISABLED" = "true")).

(** Its exporter is the only part that can fail. *)
Definition newLoggerProvider : prog MainE (option error) := call MNewExporter.

(** What [shutdown] closes over, and the error. *)
Definition setupOTelSDK : prog MainE (list ShutdownFunc * option error) :=
  if negb otelSdkEnabled then Ret ([], None)
  else
    let* err := call MNewResource in
    match err with
    | Some _ => Panic "resource.New"
    | None =>
    let* err := call MMergeResource in
    match err with
    | Some _ => Panic "resource.Merge"
    | None =>
    let* err := newLoggerProvider in
    match err with
    | Some inErr =>
        let* (shutdownFuncs, err) := shutdown [] in
        Ret (shutdownFuncs, Join (Some inErr) err)
    | None => Ret ([LoggerProviderShutdown], None)
    end end end.

(** ** main.go *)

(** [bindFlags]: the values of the flags that the command line does not give. *)
Definition bindFlags : Flags :=
  {| metricsAddr := "0";
     metricsCertPath := ""; metricsCertName := "tls.crt"; metricsCertKey := "tls.key";
     webhookCertPath := ""; webhookCertName := "tls.crt"; webhookCertKey := "tls.key";
     enableLeaderElection := false;
     probeAddr := ":8081";
     secureMetrics := true;
     enableHTTP2 := false |}.

Section Process.
Context (otelShutdown : list ShutdownFunc).

Definition gracefullyShutdownWithCode {A} (code : Z) : process A :=
  let* _ := shutdown otelShutdown in os_Exit code.

(** [if err := step; err != nil { gracefullyShutdownWithCode(1) }], for each
    step in turn. *)
Fixpoint must (steps : list (prog MainE (option error))) : process unit :=
  match steps with
  | [] => Ret (inr tt)
  | step :: steps =>
      let* err := step in
      match err with
      | Some _ => gracefullyShutdownWithCode 1
      | None => must steps
      end
  end.

(** A certificate watcher is made where its path is given. *)
Definition cert_watcher (w : CertWatcher) (path name key : string) : list (prog MainE (option error)) :=
  if negb (bool_decide (path = "")) then [call (MNewCertWatcher w [path; name] [path; key])] else [].

(** The TLS options of both servers: [append] never writes to the array that
    [webhookTLSOpts] shares with [tlsOpts], since that is full. *)
Definition tlsOpts (f : Flags) : list TLSOpt :=
  if negb (enableHTTP2 f) then [disableHTTP2] else [].

Definition webhookTLSOpts (f : Flags) : list TLSOpt :=
  tlsOpts f ++ if negb (bool_decide (webhookCertPath f = "")) then [GetCertificateFrom WebhookCertWatcher] else [].

Definition metricsServerOptions (f : Flags) : MetricsOptions :=
  {| mo_BindAddress := metricsAddr f;
     mo_SecureServing := secureMetrics f;
     mo_TLSOpts := tlsOpts f ++
       if negb (bool_decide (metricsCertPath f = "")) then [GetCertificateFrom MetricsCertWatcher] else [];
     mo_FilterProvider := secureMetrics f |}.

Definition manager_options (f : Flags) : ManagerOptions :=
  {| mgr_Metrics := metricsServerOptions f;
     mgr_WebhookTLSOpts := webhookTLSOpts f;
     mgr_HealthProbeBindAddress := probeAddr f;
     mgr_Cache := cacheOptions;
     mgr_LeaderElection := enableLeaderElection f;
     mgr_LeaderElectionID := "ec755d87.mydecisive.ai" |}.

(** [ctrl.GetConfigOrDie] ends the process itself. *)
Definition GetConfigOrDie : process unit :=
  let* err := call MGetConfig in
  match err with Some _ => os_Exit 1 | None => Ret (inr tt) end.

Definition setup_hub : prog MainE (option error) :=
  let* (r, err) := hub_SetupWithManager Getenv {| hr_ValKeyClient := false; hr_ValkeyExpiry := 0 |} in
  Ret err.

Definition setup_controllers : list (prog MainE (option error)) :=
  [setup_hub; collector_SetupWithManager; observer_SetupWithManager; SetMdaiIngressIndexers;
   ingress_SetupWithManager; replay_SetupWithManager; dal_SetupWithManager].

Definition setupWebhooksOrExplode : list (prog MainE (option error)) :=
  [SetupMdaiHubWebhookWithManager; SetupMdaiCollectorWebhookWithManager; SetupMdaiObserverWebhookWithManager;
   SetupMdaiIngressWebhookWithManager; SetupMdaiReplayWebhookWithManager].

Definition webhooks_enabled : bool := negb (bool_decide (Getenv "ENABLE_WEBHOOKS" = "false")).

(** A watcher that was made is added to the manager. *)
Definition add_watcher (w : CertWatcher) (path : string) : list (prog MainE (option error)) :=
  if negb (bool_decide (path = "")) then [call (MAdd w)] else [].

(** The body of [main] behind the deferred shutdown. *)
Definition serve : process unit :=
  let* parsed := call (MParseFlags bindFlags) in
  match parsed with
  | ParseExits code => os_Exit code
  | ParsedFlags f =>
      then* _ := must (cert_watcher WebhookCertWatcher (webhookCertPath f) (webhookCertName f) (webhookCertKey f)) in
      then* _ := must (cert_watcher MetricsCertWatcher (metricsCertPath f) (metricsCertName f) (metricsCertKey f)) in
      then* _ := GetConfigOrDie in
      then* _ := must [call (MNewManager (manager_options f))] in
      then* _ := must setup_controllers in
      then* _ := must (if webhooks_enabled then setupWebhooksOrExplode else []) in
      then* _ := must (add_watcher MetricsCertWatcher (metricsCertPath f)) in
      then* _ := must (add_watcher WebhookCertWatcher (webhookCertPath f)) in
      then* _ := must [call (MCheck "healthz"); call (MCheck "readyz")] in
      must [call MStart]
  end.
End Process.

(** The exit code of the process. *)
Definition main : prog MainE Z :=
  let* (otelShutdown, err) := setupOTelSDK in
  match err with
  | Some _ => Ret 1%Z
  | None =>
      let* r := serve otelShutdown in
      match r with
      | inl code => Ret code
      | inr _ =>
          let* r := gracefullyShutdownWithCode (A:=Empty_set) otelShutdown 0 in
          match r with inl code => Ret code | inr n => match n with end end
      end
  end.
End Startup.

(** ** Specification *)

(** The part of [tls.Config] that the options write. *)
Record TLSConfig := { NextProtos : list string; GetCertificate : option CertWatcher }.

Definition apply_option (c : TLSConfig) (o : TLSOpt) : TLSConfig :=
  match o with
  | disableHTTP2 => {| NextProtos := ["http/1.1"]; GetCertificate := GetCertificate c |}
  | GetCertificateFrom w => {| NextProtos := NextProtos c; GetCertificate := Some w |}
  end.

Definition configured (opts : list TLSOpt) (c : TLSConfig) : TLSConfig := fold_left apply_option opts c.

(** The certificate of a server: its watcher's where a path is given. *)
Definition certificate (w : CertWatcher) (path : string) (c : TLSConfig) : option CertWatcher :=
  if bool_decide (path = "") then GetCertificate c else Some w.

(** What the manager was told. *)
Inductive Registration :=
| RManager (o : ManagerOptions)
| RIndex (k : Kind) (field : string)
| RController (c : ControllerSetup)
| RWebhook (w : WebhookSetup)
| RWatcher (w : CertWatcher)
| RCheck (name : string).

(** A registration that was accepted. *)
Definition registration (ev : event MainE) : option Registration :=
  let accepted r := fun err : option error => match err with None => Some r | Some _ => None end in
  match ev with
  | Ev e x => match e in MainE X return X -> option Registration with
              | MNewManager o => accepted (RManager o)
              | MIndexField k field => accepted (RIndex k field)
              | MController c => accepted (RController c)
              | MWebhook w => accepted (RWebhook w)
              | MAdd w => accepted (RWatcher w)
              | MCheck name => accepted (RCheck name)
              | _ => fun _ => None
              end x
  end.

Definition registrations (tr : list (event MainE)) : list Registration := omap registration tr.

(** The clean-ups that were run. *)
Definition shutdowns (tr : list (event MainE)) : list ShutdownFunc :=
  omap (fun ev => match ev with Ev (MShutdown fn) _ => Some fn | _ => None end) tr.

(** A library call that ended the process. *)
Definition killed (ev : event MainE) : bool :=
  match ev with
  | Ev e x => match e in MainE X return X -> bool with
              | MParseFlags _ => fun parsed => match parsed with ParseExits _ => true | ParsedFlags _ => false end
              | MGetConfig => fun err => match err with Some _ => true | None => false end
              | _ => fun _ => false
              end x
  end.

(** The manager was started, and returned. *)
Definition start_answer (ev : event MainE) : option (option error) :=
  match ev with
  | Ev e x => match e in MainE X return X -> option (option error) with
              | MStart => Some
              | _ => fun _ => None
              end x
  end.

Definition starts (tr : list (event MainE)) : list (option error) := omap start_answer tr.

(** The exporter that a shutdown is registered for. *)
Definition exporter_made (ev : event MainE) : bool :=
  match ev with
  | Ev e x => match e in MainE X return X -> bool with
              | MNewExporter => fun err => match err with None => true | Some _ => false end
              | _ => fun _ => false
              end x
  end.

(** The answer of the flag package. *)
Definition parsed_flags (ev : event MainE) : option Parsed :=
  match ev with
  | Ev e x => match e in MainE X return X -> option Parsed with
              | MParseFlags _ => Some
              | _ => fun _ => None
              end x
  end.

(** What is registered before the manager starts, in order. *)
Definition all_registrations (Getenv : string -> string) (f : Flags) : list Registration :=
  [RManager (manager_options f)]
  ++ [RController hub_setup; RController collector_setup; RController observer_setup;
      RIndex MdaiIngressKind "spec.otelCol.lookupKey";
      RIndex ServiceKind "metadata.ownerReferences.name"; RIndex IngressKind "metadata.ownerReferences.name";
      RController ingress_setup; RController replay_setup; RController dal_setup]
  ++ (if webhooks_enabled Getenv
      then map RWebhook [hub_webhook; collector_webhook; observer_webhook; ingress_webhook; replay_webhook] else [])
  ++ (if bool_decide (metricsCertPath f = "") then [] else [RWatcher MetricsCertWatcher])
  ++ (if bool_decide (webhookCertPath f = "") then [] else [RWatcher WebhookCertWatcher])
  ++ [RCheck "healthz"; RCheck "readyz"].

(** ** Lemmas *)

Lemma shutdown_runs fns tr out :
  runs (shutdown fns) tr out ->
  exists err, out = Done ([], err) /\ shutdowns tr = fns /\ registrations tr = [] /\ starts tr = []
    /\ existsb killed tr = false /\ existsb exporter_made tr = false /\ omap parsed_flags tr = [].
Proof.
  assert (G : forall acc tr out, runs (shutdown_each fns acc) tr out ->
    exists err, out = Done err /\ shutdowns tr = fns /\ registrations tr = [] /\ starts tr = []
      /\ existsb killed tr = false /\ existsb exporter_made tr = false /\ omap parsed_flags tr = []).
  { induction fns as [|fn fns IH]; intros acc tr' out'; simpl.
    - intros [-> ->]. by eexists.
    - intros (err & tr'' & -> & (err' & -> & Hs & Hr & Ht & Hk & He & Hp)%IH). exists err'.
      split_and!; try done. simpl. by f_equal. }
  unfold shutdown. rewrite runs_bind.
  intros [(err & tr1 & tr2 & -> & (err' & [= ->] & Hs)%G & [-> ->])|(why & -> & (err' & [=] & _)%G)].
  exists err'. by rewrite app_nil_r.
Qed.

Lemma graceful_runs {A} fns code tr out :
  runs (gracefullyShutdownWithCode (A:=A) fns code) tr out ->
  out = Done (inl code) /\ shutdowns tr = fns /\ registrations tr = [] /\ starts tr = []
  /\ existsb killed tr = false /\ existsb exporter_made tr = false /\ omap parsed_flags tr = [].
Proof.
  unfold gracefullyShutdownWithCode. rewrite runs_bind.
  intros [(x & tr1 & tr2 & -> & (err & _ & Hs)%shutdown_runs & [-> ->])|(why & -> & (err & [=] & _)%shutdown_runs)].
  by rewrite app_nil_r.
Qed.

(** What a segment of [serve] does: it goes through and registers [L], or ends
    the process with code 1, after the clean-ups unless a library ended it. *)
Definition segment (fns : list ShutdownFunc) (p : process unit) (L : list Registration) : Prop :=
  forall tr out, runs p tr out ->
    starts tr = [] /\ omap parsed_flags tr = [] /\ existsb exporter_made tr = false
    /\ ((out = Done (inr tt) /\ registrations tr = L /\ shutdowns tr = [] /\ existsb killed tr = false)
        \/ (out = Done (inl 1%Z) /\ shutdowns tr = if existsb killed tr then [] else fns)).

(** What a step does: it reports an error, or registers [L]. *)
Definition registers (step : prog MainE (option error)) (L : list Registration) : Prop :=
  forall tr out, runs step tr out ->
    starts tr = [] /\ omap parsed_flags tr = [] /\ existsb exporter_made tr = false
    /\ shutdowns tr = [] /\ existsb killed tr = false
    /\ exists err, out = Done err /\ (err = None -> registrations tr = L).

Lemma process_bind_runs {A B} (p : process A) (f : A -> process B) tr out :
  runs (process_bind p f) tr out <->
  (exists a tr1 tr2, tr = tr1 ++ tr2 /\ runs p tr1 (Done (inr a)) /\ runs (f a) tr2 out)
  \/ (exists code, out = Done (inl code) /\ runs p tr (Done (inl code)))
  \/ (exists why, out = Panics why /\ runs p tr (Panics why)).
Proof.
  unfold process_bind. rewrite runs_bind. split.
  - intros [([code|a] & tr1 & tr2 & -> & Hp & Hf)|Hw]; [| eauto 10 | eauto].
    destruct Hf as [-> ->]. rewrite app_nil_r. eauto.
  - intros [(a & tr1 & tr2 & -> & Hp & Hf)|[(code & -> & Hp)|Hw]]; [| | by right].
    + left. eauto 10.
    + left. exists (inl code), tr, []. by rewrite app_nil_r.
Qed.

Lemma segment_bind fns p q L L' :
  segment fns p L -> segment fns q L' -> segment fns (then* _ := p in q) (L ++ L').
Proof.
  intros Hp Hq tr out. rewrite process_bind_runs.
  intros [([] & tr1 & tr2 & -> & H1 & H2)|[(code & -> & H1)|(why & -> & H1)]];
    destruct (Hp _ _ H1) as (Hs & Hf & He & [(Ho & Hr & Hd & Hk)|(Ho & Hd)]); try done.
  - destruct (Hq _ _ H2) as (Hs' & Hf' & He' & Hend).
    unfold starts, registrations, shutdowns in *. rewrite !omap_app, !existsb_app, Hs, Hf, He, Hr, Hd, Hk.
    split_and!; try done. destruct Hend as [(-> & -> & -> & ->)|(-> & ->)]; [by left | by right].
  - injection Ho as ->. split_and!; try done. by right.
Qed.

Lemma segment_nil fns : segment fns (must fns []) [].
Proof. intros tr out [-> ->]. split_and!; try done. by left. Qed.

Lemma must_segment fns steps Ls :
  Forall2 registers steps Ls -> segment fns (must fns steps) (concat Ls).
Proof.
  induction 1 as [|step L steps Ls Hstep _ IH]; [apply segment_nil |].
  intros tr out. cbn [must]. rewrite runs_bind.
  intros [(err & tr1 & tr2 & -> & H1 & H2)|(why & -> & H1)];
    destruct (Hstep _ _ H1) as (Hs & Hf & He & Hd & Hk & err' & Herr & Hr); [| done].
  injection Herr as <-. destruct err as [err|].
  - destruct (graceful_runs _ _ _ _ H2) as (-> & Hs' & _ & Ht' & Hk' & He' & Hf').
    unfold starts, shutdowns in *. rewrite !omap_app, !existsb_app, Hs, Hf, He, Hd, Hk, Ht', Hf', He', Hs', Hk'.
    split_and!; try done. by right.
  - destruct (IH _ _ H2) as (Hs' & Hf' & He' & Hend). unfold starts, registrations, shutdowns in *.
    rewrite !omap_app, !existsb_app, Hs, Hf, He, Hd, Hk, Hr, Hs', Hf', He' by done.
    split_and!; try done. destruct Hend as [(-> & -> & -> & ->)|(-> & ->)]; [by left | by right].
Qed.

(** Steps that are one call. *)
Definition plain_call {X} (e : MainE X) (x : X) : Prop :=
  start_answer (Ev e x) = None /\ parsed_flags (Ev e x) = None /\ exporter_made (Ev e x) = false
  /\ killed (Ev e x) = false /\ shutdowns [Ev e x] = [].

Lemma call_registers (e : MainE (option error)) L :
  (forall err, plain_call e err) -> registrations [Ev e None] = L -> registers (call e) L.
Proof.
  intros He HL tr out (err & tr' & -> & -> & ->).
  destruct (He err) as (Hs & Hf & Hx & Hk & Hd). unfold starts, registrations in *. cbn in *.
  rewrite Hs, Hf, Hx, Hk. split_and!; try done. exists err. split; [done |]. by intros ->.
Qed.

Lemma get_config_segment fns : segment fns GetConfigOrDie [].
Proof.
  intros tr out (err & tr' & -> & Hr). destruct err as [err|]; destruct Hr as [-> ->]; (split_and!; [done .. |]).
  - by right.
  - by left.
Qed.

(** A step that ends here. *)
Ltac step_ends H := destruct H as [-> ->]; split_and!; try done; by eexists.

Lemma hub_registers Getenv : registers (setup_hub Getenv) [RController hub_setup].
Proof.
  intros tr out. unfold setup_hub, hub_SetupWithManager, initializeValkey. destruct (_ || _).
  { intros Hr. step_ends Hr. }
  cbn [prog_bind call]. intros (err & tr1 & -> & Hr). destruct err; cbn [prog_bind] in Hr.
  { step_ends Hr. }
  destruct (valkeyExpiry Getenv); cbn [prog_bind] in Hr.
  { step_ends Hr. }
  destruct Hr as (err & tr2 & -> & Hr). destruct err; cbn [prog_bind] in Hr.
  { step_ends Hr. }
  destruct Hr as (err & tr3 & -> & Hr). destruct err; cbn [prog_bind hr_ValKeyClient] in Hr.
  { step_ends Hr. }
  destruct Hr as (x & tr4 & -> & [-> ->]). split_and!; try done. by eexists.
Qed.

Lemma ingress_registers :
  registers ingress_SetupWithManager
    [RIndex ServiceKind "metadata.ownerReferences.name"; RIndex IngressKind "metadata.ownerReferences.name";
     RController ingress_setup].
Proof.
  intros tr out. unfold ingress_SetupWithManager. cbn [prog_bind call].
  intros (err & tr1 & -> & Hr). destruct err; cbn [prog_bind] in Hr.
  { step_ends Hr. }
  destruct Hr as (err & tr2 & -> & Hr). destruct err; cbn [prog_bind] in Hr.
  { step_ends Hr. }
  destruct Hr as (err & tr3 & -> & [-> ->]). split_and!; try done. exists err. split; [done |]. by intros ->.
Qed.

Lemma setup_controllers_segment Getenv fns :
  segment fns (must fns (setup_controllers Getenv))
    [RController hub_setup; RController collector_setup; RController observer_setup;
     RIndex MdaiIngressKind "spec.otelCol.lookupKey";
     RIndex ServiceKind "metadata.ownerReferences.name"; RIndex IngressKind "metadata.ownerReferences.name";
     RController ingress_setup; RController replay_setup; RController dal_setup].
Proof.
  refine (must_segment fns _ [[RController hub_setup]; [RController collector_setup];
    [RController observer_setup]; [RIndex MdaiIngressKind "spec.otelCol.lookupKey"];
    [RIndex ServiceKind "metadata.ownerReferences.name"; RIndex IngressKind "metadata.ownerReferences.name";
     RController ingress_setup]; [RController replay_setup]; [RController dal_setup]] _).
  repeat apply Forall2_cons_2; try apply Forall2_nil_2;
    [apply hub_registers | | | | apply ingress_registers | |]; by apply call_registers.
Qed.

Lemma webhooks_segment Getenv fns :
  segment fns (must fns (if webhooks_enabled Getenv then setupWebhooksOrExplode else []))
    (if webhooks_enabled Getenv
     then map RWebhook [hub_webhook; collector_webhook; observer_webhook; ingress_webhook; replay_webhook] else []).
Proof.
  destruct (webhooks_enabled Getenv); [| apply segment_nil].
  refine (must_segment fns _ [[RWebhook hub_webhook]; [RWebhook collector_webhook]; [RWebhook observer_webhook];
    [RWebhook ingress_webhook]; [RWebhook replay_webhook]] _).
  repeat apply Forall2_cons_2; try apply Forall2_nil_2; by apply call_registers.
Qed.

Lemma add_watcher_segment fns w path :
  segment fns (must fns (add_watcher w path)) (if bool_decide (path = "") then [] else [RWatcher w]).
Proof.
  unfold add_watcher. destruct (bool_decide _); [apply segment_nil |].
  refine (must_segment fns _ [[RWatcher w]] _). apply Forall2_cons_2; [by apply call_registers | apply Forall2_nil_2].
Qed.

Lemma cert_watcher_segment fns w path name key : segment fns (must fns (cert_watcher w path name key)) [].
Proof.
  unfold cert_watcher. destruct (negb _); [| apply segment_nil].
  refine (must_segment fns _ [[]] _). apply Forall2_cons_2; [by apply call_registers | apply Forall2_nil_2].
Qed.

(** The last part: it ends the process before the start of the manager, or
    registers [L] and starts it. *)
Definition finishes (fns : list ShutdownFunc) (p : process unit) (L : list Registration) : Prop :=
  forall tr out, runs p tr out ->
    omap parsed_flags tr = [] /\ existsb exporter_made tr = false
    /\ ((starts tr = [] /\ out = Done (inl 1%Z) /\ shutdowns tr = if existsb killed tr then [] else fns)
        \/ exists err, starts tr = [err] /\ registrations tr = L /\ existsb killed tr = false
             /\ match err with
                | None => out = Done (inr tt) /\ shutdowns tr = []
                | Some _ => out = Done (inl 1%Z) /\ shutdowns tr = fns
                end).

Lemma finishes_bind fns p q L L' :
  segment fns p L -> finishes fns q L' -> finishes fns (then* _ := p in q) (L ++ L').
Proof.
  intros Hp Hq tr out. rewrite process_bind_runs.
  intros [([] & tr1 & tr2 & -> & H1 & H2)|[(code & -> & H1)|(why & -> & H1)]];
    destruct (Hp _ _ H1) as (Hs & Hf & He & [(Ho & Hr & Hd & Hk)|(Ho & Hd)]); try done.
  - destruct (Hq _ _ H2) as (Hf' & He' & Hend). unfold starts, registrations, shutdowns in *.
    rewrite !omap_app, !existsb_app, Hs, Hf, He, Hr, Hd, Hk. split_and!; try done.
    destruct Hend as [Hend|(err & -> & -> & Hend)]; [by left | right; by exists err].
  - injection Ho as ->. split_and!; try done. by left.
Qed.

Lemma start_finishes fns : finishes fns (must fns [call MStart]) [].
Proof.
  intros tr out (err & tr' & -> & Hr). destruct err as [err|].
  - cbn [prog_bind] in Hr. destruct (graceful_runs _ _ _ _ Hr) as (-> & Hs' & Hr' & Ht' & Hk' & He' & Hf').
    split_and!; [exact Hf' | exact He' | right]. exists (Some err).
    split_and!; [exact (f_equal (cons _) Ht') | exact Hr' | exact Hk' | done | exact Hs'].
  - destruct Hr as [-> ->]. split_and!; try done. right. by exists None.
Qed.

Lemma manager_segment fns o : segment fns (must fns [call (MNewManager o)]) [RManager o].
Proof.
  refine (must_segment _ _ [[RManager o]] _). apply Forall2_cons_2; [by apply call_registers | apply Forall2_nil_2].
Qed.

Lemma checks_segment fns :
  segment fns (must fns [call (MCheck "healthz"); call (MCheck "readyz")]) [RCheck "healthz"; RCheck "readyz"].
Proof.
  refine (must_segment _ _ [[RCheck "healthz"]; [RCheck "readyz"]] _).
  repeat apply Forall2_cons_2; try apply Forall2_nil_2; by apply call_registers.
Qed.

Lemma serve_runs Getenv fns tr out :
  runs (serve Getenv fns) tr out ->
  exists parsed tr', tr = Ev (MParseFlags bindFlags) parsed :: tr'
    /\ match parsed with
       | ParseExits code => tr' = [] /\ out = Done (inl code)
       | ParsedFlags f => exists p, finishes fns p (all_registrations Getenv f) /\ runs p tr' out
       end.
Proof.
  unfold serve. cbn [prog_bind call]. intros (parsed & tr' & -> & Hr). exists parsed, tr'. split; [done |].
  destruct parsed as [f|code]; [| by destruct Hr as [-> ->]].
  refine (ex_intro _ _ (conj _ Hr)). unfold all_registrations.
  apply (finishes_bind _ _ _ [] _ (cert_watcher_segment _ _ _ _ _)).
  apply (finishes_bind _ _ _ [] _ (cert_watcher_segment _ _ _ _ _)).
  apply (finishes_bind _ _ _ [] _ (get_config_segment _)).
  apply (finishes_bind _ _ _ [RManager (manager_options f)] _ (manager_segment _ _)).
  apply (finishes_bind _ _ _ _ _ (setup_controllers_segment _ _)).
  apply (finishes_bind _ _ _ _ _ (webhooks_segment _ _)).
  apply (finishes_bind _ _ _ _ _ (add_watcher_segment _ _ _)).
  apply (finishes_bind _ _ _ _ _ (add_watcher_segment _ _ _)).
  apply (finishes_bind _ _ _ [RCheck "healthz"; RCheck "readyz"] [] (checks_segment _)), start_finishes.
Qed.

Lemma setupOTelSDK_runs Getenv tr out :
  runs (setupOTelSDK Getenv) tr out ->
  registrations tr = [] /\ shutdowns tr = [] /\ starts tr = [] /\ existsb killed tr = false
  /\ omap parsed_flags tr = []
  /\ ((exists why, out = Panics why /\ otelSdkEnabled Getenv = true)
      \/ (exists err, out = Done ([], Some err) /\ existsb exporter_made tr = false)
      \/ out = Done (if existsb exporter_made tr then [LoggerProviderShutdown] else [], None)).
Proof.
  unfold setupOTelSDK. destruct (otelSdkEnabled Getenv); cbn [negb].
  2: { intros [-> ->]. split_and!; try done. by do 2 right. }
  cbn [prog_bind call]. intros (err & tr1 & -> & Hr). destruct err.
  { destruct Hr as [-> ->]. split_and!; try done. left. by eexists. }
  destruct Hr as (err & tr2 & -> & Hr). destruct err.
  { destruct Hr as [-> ->]. split_and!; try done. left. by eexists. }
  destruct Hr as (err & tr3 & -> & Hr). destruct err; destruct Hr as [-> ->]; (split_and!; [done .. |]).
  - right. left. by eexists.
  - by do 2 right.
Qed.

(** An execution of the process, by how the flags were parsed. *)
Lemma main_runs Getenv tr out :
  runs (main Getenv) tr out ->
  exists tr1 tr2, tr = tr1 ++ tr2 /\ registrations tr1 = [] /\ shutdowns tr1 = [] /\ starts tr1 = []
    /\ existsb killed tr1 = false /\ omap parsed_flags tr1 = []
    /\ ((exists why, tr2 = [] /\ out = Panics why /\ otelSdkEnabled Getenv = true)
        \/ (tr2 = [] /\ out = Done 1%Z /\ existsb exporter_made tr1 = false)
        \/ (exists code, tr2 = [Ev (MParseFlags bindFlags) (ParseExits code)] /\ out = Done code)
        \/ exists f tr3, tr2 = Ev (MParseFlags bindFlags) (ParsedFlags f) :: tr3
             /\ omap parsed_flags tr3 = [] /\ existsb exporter_made tr3 = false
             /\ let fns := if existsb exporter_made tr1 then [LoggerProviderShutdown] else [] in
                ((starts tr3 = [] /\ out = Done 1%Z /\ shutdowns tr3 = if existsb killed tr3 then [] else fns)
                 \/ exists err, starts tr3 = [err] /\ registrations tr3 = all_registrations Getenv f
                      /\ existsb killed tr3 = false /\ shutdowns tr3 = fns
                      /\ out = Done (match err with None => 0 | Some _ => 1 end)%Z)).
Proof.
  unfold main. rewrite runs_bind. intros [([fns err] & tr1 & tr2 & -> & H1 & H2)|(why & -> & H1)];
    destruct (setupOTelSDK_runs _ _ _ H1) as (Hr & Hd & Hs & Hk & Hf & Hout).
  2: { destruct Hout as [(why' & [= <-] & He)|[(err & [=] & _)|[=]]]. exists tr, []. rewrite app_nil_r.
       split_and!; try done. left. by exists why. }
  exists tr1, tr2. split_and!; try done. destruct Hout as [(why & [=] & _)|[(err' & [= -> ->] & He)|[= -> ->]]].
  { destruct H2 as [-> ->]. right. by left. }
  rewrite runs_bind in H2. destruct H2 as [(r & tr3 & tr4 & -> & H3 & H4)|(why & -> & H3)];
    destruct (serve_runs _ _ _ _ H3) as (parsed & tr5 & -> & Hp).
  2: { destruct parsed; [| by destruct Hp]. destruct Hp as (p & Hfin & Hp).
       by destruct (Hfin _ _ Hp) as (_ & _ & [(_ & [=] & _)|([err|] & _ & _ & _ & [=] & _)]). }
  destruct parsed as [f|code].
  2: { destruct Hp as [-> [= ->]]. destruct H4 as [-> ->]. do 2 right. left. by exists code. }
  destruct Hp as (p & Hfin & Hp). destruct (Hfin _ _ Hp) as (Hf' & He' & Hend). do 3 right.
  destruct Hend as [(Hs' & [= ->] & Hd')|(err & Hs' & Hr' & Hk' & Hend)].
  { destruct H4 as [-> ->]. exists f, tr5. rewrite app_nil_r. split_and!; try done. by left. }
  destruct err as [err|].
  { destruct Hend as [[= ->] Hd']. destruct H4 as [-> ->]. exists f, tr5. rewrite app_nil_r.
    split_and!; try done. right. by exists (Some err). }
  destruct Hend as [[= ->] Hd']. rewrite runs_bind in H4.
  destruct H4 as [(r' & tr6 & tr7 & -> & H4 & H5)|(why & -> & H4)];
    destruct (graceful_runs _ _ _ _ H4) as ([= ->] & Hs'' & Hr'' & Ht'' & Hk'' & He'' & Hf'').
  destruct H5 as [-> ->]. exists f, (tr5 ++ tr6). unfold starts, registrations, shutdowns in *.
  rewrite app_nil_r, !omap_app, !existsb_app, Hs', Hr', Hd', Hk', Hf', He', Ht'', Hr'', Hk'', He'', Hf'', Hs''.
  rewrite app_nil_r. split_and!; try done. right. exists None. split_and!; try done. apply app_nil_r.
Qed.

(** ** Properties *)


(** C16. When the manager starts, everything is in place: it was made with the
    options of the flags, and every controller, index, webhook (unless
    ENABLE_WEBHOOKS is "false"), certificate watcher and health check was
    accepted, each once and in order.  Without -enable-http2 both servers offer
    HTTP/1.1 only, and each serves the certificate whose path it was given. *)
Theorem manager_starts_complete Getenv tr out :
  runs (main Getenv) tr out -> starts tr <> [] ->
  exists f, omap parsed_flags tr = [ParsedFlags f] /\ length (starts tr) = 1
    /\ registrations tr = all_registrations Getenv f
    /\ forall c,
         let metrics := configured (mo_TLSOpts (mgr_Metrics (manager_options f))) c in
         let webhooks := configured (mgr_WebhookTLSOpts (manager_options f)) c in
         (enableHTTP2 f = false -> NextProtos metrics = ["http/1.1"] /\ NextProtos webhooks = ["http/1.1"])
         /\ GetCertificate metrics = certificate MetricsCertWatcher (metricsCertPath f) c
         /\ GetCertificate webhooks = certificate WebhookCertWatcher (webhookCertPath f) c.
Proof.
  intros (tr1 & tr2 & -> & Hr & _ & Hs & _ & Hf & Hend)%main_runs.
  unfold starts, registrations in *. rewrite !omap_app, Hs, Hf, Hr. intros Hst.
  destruct Hend as [(why & -> & _)|[(-> & _)|[(code & -> & _)|(f & tr3 & -> & Hf' & _ & Hend)]]]; [done .. |].
  cbn in *. destruct Hend as [(Hs' & _)|(err & Hs' & Hr' & _)]; [by rewrite Hs' in Hst |].
  exists f. rewrite Hs', Hr', Hf'. split_and!; try done. intros c. unfold certificate, webhookTLSOpts, tlsOpts.
  destruct (enableHTTP2 f); destruct (bool_decide (metricsCertPath f = "")), (bool_decide (webhookCertPath f = "")); done.
Qed.

(** ** Witnesses *)

(** The environment of the deployment: Valkey, and nothing else. *)
Definition sample_env (name : string) : string :=
  if bool_decide (name = "VALKEY_ENDPOINT") then "valkey:6379"
  else if bool_decide (name = "VALKEY_PASSWORD") then "secret" else "".

Definition sample_flags : Flags :=
  {| metricsAddr := ":8443";
     metricsCertPath := ""; metricsCertName := "tls.crt"; metricsCertKey := "tls.key";
     webhookCertPath := "/certs"; webhookCertName := "tls.crt"; webhookCertKey := "tls.key";
     enableLeaderElection := true; probeAddr := ":8081"; secureMetrics := true; enableHTTP2 := false |}.

(** Everything goes well, until the manager returns with [answer]. *)
Definition sample_handler (answer : option error) X (e : MainE X) (st : unit) : X * unit :=
  match e in MainE X return X * unit with
  | MParseFlags _ => (ParsedFlags sample_flags, st)
  | MSubscribe _ => (tt, st)
  | MStart => (answer, st)
  | MNewResource | MMergeResource | MNewExporter | MGetConfig => (None, st)
  | MShutdown _ => (None, st)
  | MNewCertWatcher _ _ _ => (None, st)
  | MNewManager _ => (None, st)
  | MConnectValkey _ _ => (None, st)
  | MLabelSelector _ => (None, st)
  | MIndexField _ _ => (None, st)
  | MController _ => (None, st)
  | MWebhook _ => (None, st)
  | MAdd _ => (None, st)
  | MCheck _ => (None, st)
  end.

Definition sample_process (answer : option error) := run_with (sample_handler answer) (main sample_env) tt.


Lemma manager_starts_complete_witness :
  registrations (sample_process None).1.1 = all_registrations sample_env sample_flags
  /\ NextProtos (configured (mgr_WebhookTLSOpts (manager_options sample_flags))
       {| NextProtos := ["h2"]; GetCertificate := None |}) = ["http/1.1"].
Proof.
  destruct (manager_starts_complete sample_env _ _
    (run_with_runs (sample_handler None) (main sample_env) tt)) as (f & Hf & _ & Hr & Hc).
  { vm_compute. discriminate. }
  assert (f = sample_flags) as -> by (vm_compute in Hf; injection Hf as <-; reflexivity).
  split; [exact Hr |]. by apply (Hc {| NextProtos := ["h2"]; GetCertificate := None |}).
Defined.
