(* ===== verification/LogMirror.v ===== *)
(** * cmd/otel.go: the mirror of the logs

    [otelMirrorSink] hands every log record to the operator's own sink and, when
    there is one, to the OpenTelemetry sink.  A sink is an implementation of
    [logr.LogSink]; what it writes is a list of records of its own type. *)

From S2P Require Import Prelude GoLib Errors.

(** [logr.LogSink].  A sink with values or a name is a new sink. *)
Class LogSink (Value Info_ S R : Type) := {
  Init : S -> Info_ -> S;
  Enabled : S -> Z -> bool;
  Info : S -> Z -> string -> list Value -> list R;
  Error : S -> option error -> string -> list Value -> list R;
  WithValues : S -> list Value -> S;
  WithName : S -> string -> S
}.

Section Mirror.
Context {Value Info_ Main MainR Otel OtelR : Type}.
Context `{LogSink Value Info_ Main MainR} `{LogSink Value Info_ Otel OtelR}.

Record otelMirrorSink := { mainSink : Main; otelSink : option Otel }.

(** What the two sinks write. *)
Definition both (m : list MainR) (o : option (list OtelR)) : list (MainR + OtelR) :=
  map inl m ++ map inr (default [] o).

(** ** The methods *)

#[export] Instance mirror : LogSink Value Info_ otelMirrorSink (MainR + OtelR) := {
  Init o info := {| mainSink := Init (mainSink o) info; otelSink := (fun s => Init s info) <$> otelSink o |};
  Enabled o level := Enabled (mainSink o) level;
  Info o level msg kv := both (Info (mainSink o) level msg kv) ((fun s => Info s level msg kv) <$> otelSink o);
  Error o err msg kv := both (Error (mainSink o) err msg kv) ((fun s => Error s err msg kv) <$> otelSink o);
  WithValues o kv :=
    let newOtel := match otelSink o with Some s => Some (WithValues s kv) | None => None end in
    {| mainSink := WithValues (mainSink o) kv; otelSink := newOtel |};
  WithName o name :=
    let newOtel := match otelSink o with Some s => Some (WithName s name) | None => None end in
    {| mainSink := WithName (mainSink o) name; otelSink := newOtel |}
}.

(** [attachOtelLogger]: both sinks. *)
Definition attachOtelLogger (mainSink : Main) (otelSink : Otel) : otelMirrorSink :=
  {| mainSink := mainSink; otelSink := Some otelSink |}.
End Mirror.
Arguments otelMirrorSink : clear implicits.

(** ** What a logger does with its sink *)

Inductive log_call (Value : Type) :=
| LValues (kv : list Value)
| LName (name : string)
| LInfo (level : Z) (msg : string) (kv : list Value)
| LError (err : option error) (msg : string) (kv : list Value).
Arguments LValues {Value} kv.
Arguments LName {Value} name.
Arguments LInfo {Value} level msg kv.
Arguments LError {Value} err msg kv.

(** [logr.Logger] asks its sink whether a level is enabled, and never for an
    error. *)
Fixpoint gates {Value Info_ S R} `{LogSink Value Info_ S R} (s : S) (calls : list (log_call Value)) : list bool :=
  match calls with
  | [] => []
  | LValues kv :: calls => gates (WithValues s kv) calls
  | LName name :: calls => gates (WithName s name) calls
  | LInfo level _ _ :: calls => Enabled s level :: gates s calls
  | LError _ _ _ :: calls => gates s calls
  end.

(** What the sink writes when the gates are open as given. *)
Fixpoint written {Value Info_ S R} `{LogSink Value Info_ S R} (open : list bool) (s : S)
    (calls : list (log_call Value)) : list R :=
  match calls with
  | [] => []
  | LValues kv :: calls => written open (WithValues s kv) calls
  | LName name :: calls => written open (WithName s name) calls
  | LInfo level msg kv :: calls =>
      match open with
      | true :: open => Info s level msg kv ++ written open s calls
      | _ => written (tail open) s calls
      end
  | LError err msg kv :: calls => Error s err msg kv ++ written open s calls
  end.

Definition logged {Value Info_ S R} `{LogSink Value Info_ S R} (s : S) (calls : list (log_call Value)) : list R :=
  written (gates s calls) s calls.

Definition lefts {A B} : list (A + B) -> list A := omap (fun r => match r with inl a => Some a | inr _ => None end).
Definition rights {A B} : list (A + B) -> list B := omap (fun r => match r with inr b => Some b | inl _ => None end).

(** ** Lemmas *)

Section Facts.
Context {Value Info_ Main MainR Otel OtelR : Type}.
Context `{LogSink Value Info_ Main MainR} `{LogSink Value Info_ Otel OtelR}.

Lemma lefts_both (m : list MainR) (o : option (list OtelR)) rest : lefts (both m o ++ rest) = m ++ lefts rest.
Proof.
  unfold both. rewrite <- app_assoc. induction m as [|x m IH]; simpl; [| exact (f_equal (cons x) IH)].
  by induction (default [] o).
Qed.

Lemma rights_both (m : list MainR) (o : option (list OtelR)) rest :
  rights (both m o ++ rest) = default [] o ++ rights rest.
Proof.
  unfold both. rewrite <- app_assoc. induction m as [|x m IH]; simpl; [| exact IH].
  induction (default [] o) as [|y l IH]; [done | exact (f_equal (cons y) IH)].
Qed.

(** The operator's own sink decides what is logged. *)
Lemma mirror_gates (m : Main) (o : option Otel) calls :
  gates {| mainSink := m; otelSink := o |} calls = gates m calls.
Proof.
  revert m o. induction calls as [|[] calls IH]; intros m o; simpl; rewrite ?IH; done.
Qed.

Lemma mirror_written open (m : Main) (o : option Otel) calls :
  let out := written open {| mainSink := m; otelSink := o |} calls in
  lefts out = written open m calls
  /\ rights out = match o with Some o => written open o calls | None => [] end.
Proof.
  revert open m o. induction calls as [|[kv|name|level msg kv|err msg kv] calls IH]; intros open m o; simpl.
  - by destruct o.
  - destruct (IH open (WithValues m kv) ((fun s => WithValues s kv) <$> o)) as [<- Ho]. by destruct o.
  - destruct (IH open (WithName m name) ((fun s => WithName s name) <$> o)) as [<- Ho]. by destruct o.
  - destruct open as [|[] open]; [apply IH | | apply IH]. rewrite lefts_both, rights_both.
    destruct (IH open m o) as [-> ->]. by destruct o.
  - rewrite lefts_both, rights_both. destruct (IH open m o) as [-> ->]. by destruct o.
Qed.

(** The mirror is both sinks at once: the operator's sink writes what it would
    write alone, and the other the same calls, with the same values and names,
    at the levels of the first. *)
Lemma mirror_writes_both (m : Main) (o : Otel) calls :
  let out := logged (attachOtelLogger m o) calls in
  lefts out = logged m calls /\ rights out = written (gates m calls) o calls.
Proof. unfold logged, attachOtelLogger. rewrite mirror_gates. apply (mirror_written _ m (Some o)). Qed.
End Facts.
